(* ===== verification/_CoqProject ===== *)
-Q . S2P
Prelude.v
CString.v
CFloat.v
Registers.v
World.v
Logic.v
Sim.v
PscMsg.v
QspiFlash.v
Persist.v
Scaling.v
I2c.v
Control.v
Listener.v
Snapshot.v
SaData.v
Periodic.v
Polling.v
Tftp.v
TftpFiles.v
Discover.v
Console.v
Operator.v
Eeprom.v
NetConf.v
SdCard.v
NetSetup.v
Main.v
Delivery.v
Typed.v
Session.v
CommandLine.v
Together.v
System.v
