(* ===== verification/Prelude.v ===== *)
(** * Verification of the power supply controller firmware

    The program (C, [src/src/sw/src/]) runs on the ARM core of a Zynq and
    controls up to four magnet power supplies.  One network thread,
    [psc_run], serves one client at a time: it receives settings, applies them
    to the registers of the FPGA, and sends the readings, the statistics and
    the waveform snapshots.  This library models that thread, the start-up
    code before it, the operator's console on the serial line, the memory card
    and the network set-up, and the two responders that run beside it on the
    TCP/IP thread (file transfer and discovery), and proves what makes them
    correct.

    ** The parts and how they interact

    - [Prelude]    machine integers, little-endian bytes, byte order, lists,
                   tactics and hints.
    - [CString]    strings, character classes and decimal numbers of the C
                   library.
    - [CFloat]     C's [float] and [double]: IEEE 754 binary32 and binary64,
                   their conversions to integers with the undefined cases.
    - [Registers]  [pl_regs.h], the message numbers of [control.h] and
                   [snapshot.h].
    - [World]      the global and [static] variables of the program ([world]),
                   the environment ([Env]), the trace of the interactions with
                   it ([event]) and the effect monad [M].
    - [Logic]      the rules of reasoning: how each operation runs, relations
                   every operation preserves ([respects], [keeps], [emits]),
                   weakest preconditions ([wp]) and triples.
    - [Sim]        concrete environments, with which the witnesses evaluate.
    - [PscMsg]     [pscmsg.c]: framing of messages over the byte stream.
    - [QspiFlash]  [qspi_flash.c] and the flash messages of [control.c]:
                   settings kept in a NOR flash.
    - [Persist]    what was saved for the four channels, at the next start.
    - [Scaling]    the conversions of [local.h] and [sadata.c].
    - [I2c]        [i2c.c]: the clock synthesiser, the EEPROM and the hardware
                   flavour read from it.
    - [Control]    [control.c]: the settings messages, the DAC set point, the
                   smooth ramps and the ramp table.
    - [Listener]   [listener.c]: the set-up of the server, its loop,
                   [psc_send]; the error message of [pscmsg.c].
    - [Snapshot]   [snapshots.c]: triggers, the ring buffer in DDR and the
                   waveform messages.
    - [SaData]     [sadata.c], [sadata.h]: the 10 Hz message and its layout.
    - [Periodic]   [pscdata.c], [bpc.c], [lstats.c]: the scheduler and the two
                   slow messages.
    - [Polling]    what the periodic data touches, for any relation on states.
    - [Console]    [console.c]: the operator's menu and its commands.
    - [Operator]   the keyboard, and the rules of the console's input and output
                   when other tasks run in its waits.
    - [Eeprom]     the EEPROM chip as the I2C traffic drives it, the settings
                   it holds, the rules for the operations that change it, and
                   what other tasks must leave alone.
    - [NetConf]    [sdcard.c]: the parser of the network configuration file.
    - [SdCard]     [sdcard.c]: mounting the card, the EEPROM images.
    - [NetSetup]   [net_setup.c] and the set-up of the responders: the network
                   interface, the DHCP task.
    - [Tftp]       [tftp_server.c], [tftp_handler.c]: the TFTP server.
    - [TftpFiles]  the TFTP server as a state machine: its file and its timers.
    - [Discover]   [discover.c]: the discovery responder.
    - [Main]       [main.c]: the callbacks, the configuration, start-up and
                   the whole [program].
    - [Delivery]   from the byte stream of a client to the handlers: every
                   message, once, in order.
    - [Typed]      the types of the state as an invariant of the program.
    - [Session]    a session at the console as a refinement of an abstract
                   machine on the settings, whatever runs beside it.
    - [CommandLine]  the console's command line against the network's messages.
    - [Together]   the console and the server, turns of the one in the waits of
                   the other.
    - [System]     the whole system from power-up: start-up and both tasks.

    A definition has the name of the C function it translates; a piece of a
    long function (the cases of [chan_settings], say, in [chan_dac],
    [chan_gains], ..) has a name of its own and a comment that says which.
    A function of the code is a computation in [M]: it takes the [world] and
    returns [Done] with the value and the new world, [Fault] where the C code
    has undefined behaviour (an integer conversion out of range, a division by
    zero, an access out of bounds, an [int] overflow, a shift by the width or
    more, a null pointer), or [NoFuel].  What is only printed, the clock
    readings of log lines included, is left out; the register reads made for
    printing are kept.  In [Console], [NetSetup] and the EEPROM dump, printing
    is what the code is for: there a print is an event, with the format and
    the arguments of the source.

    Between the server and its callbacks there are two interfaces, type
    classes of [Listener]: [ConfigOk], what the callbacks promise to
    [psc_run] (they touch descriptors only through [psc_send] and keep its
    invariant), and [SenderOk], what the sender promises to the periodic data.
    The theorems about [psc_run] and [pscdata_poll] are proved against them;
    [Main] discharges them for the program's own callbacks.

    The console's task has a lower priority than the network thread, so the
    server may run whenever the console waits or prints.  Every command of
    [Console] takes the other tasks as an argument, [yield], and runs it there
    (after each print, each delay and each echo, and before each [inbyte] and
    each [scanf]).  Between the two tasks there is again an interface: [Idles]
    ([Operator]) says that an invariant survives the console's waits, [Beside]
    ([Session]) that the other tasks leave the keyboard, the EEPROM and the
    flavour alone and rely only on what the console leaves alone ([own]).  The
    theorems on the console are proved against it; [Together] discharges it
    with [server_turns], any number of turns of the server with the program's
    callbacks, and [beside_nothing] with no other task.  In [system] the
    console's task runs from the start callback, where [console_setup] creates
    it: its first act is a delay, in which the server takes its first turns.

    ** The environment

    [Env] (for the responders [TftpEnv] and the arguments of [disco_recv])
    stands for all the code that is not in the repository: register
    reads, DDR loads, the tick counter, sockets, QSPI, I2C, statistics, memory
    allocation, the serial line, the card's file system, lwIP's set-up, the drivers'.  Each
    of its answers is an arbitrary function of everything that happened
    before, so a theorem for every [Env] holds for every hardware, network and
    peer, including registers that change at each read.  The operations of
    [World] only bring an answer into the range of its C type and into the
    documented bounds (a [recv] of at most [want] bytes, a [send] of at most
    the length offered, a [select] among the descriptors asked for).  What a
    theorem needs beyond this is a named hypothesis:
    - [AxiWindow]: the 4 KiB register window does not wrap around the 32-bit
      address space;
    - [NorFlash] ([QspiFlash]): the SPI transfers are answered by a NOR flash,
      a state machine driven by the trace, that finishes within the patience;
    - [EepromOk] ([Eeprom]): I2C transfers to its address are answered by a
      256-byte EEPROM whose upper half is read-only, with the bus free within
      the patience;
    - [Keyboard] and [Served] ([Operator]): the characters that arrive are
      those of a given sequence, and one arrives before the console has looked
      in vain for [env_patience] times, whatever happens in between;
    - [types_word] ([Session]): the word that a [scanf] of the console reads;
    - [DhcpPeriods] ([NetSetup]): lwIP's timer periods are positive and fit an
      [int] in milliseconds;
    - [LwipOk], [serves] ([Tftp]): the documented behaviour of lwIP's buffer
      functions with memory to allocate from, and of a file that is read;
    - [tcp_delivers] ([PscMsg]): the stream arrives in order, in pieces of any
      size;
    - [ring_stable] ([Snapshot]) and [stable_regs] ([SaData]): the memory,
      resp. the registers, do not change during one copy.
    Each has a witness in which it holds for a concrete environment.

    ** Bounds and fuel

    - [sendall_loop] and [recvall_loop] take the length as their fuel: each
      turn transfers at least a byte or ends the loop, and
      [psc_sendmsg_exact] and [psc_recvmsg_safe] prove that they return;
      [recvskip_loop] takes one turn more than there are whole chunks of 128
      bytes.
    - [copy_loop] takes one turn more than there are samples;
      [ReadDMABuf_ring] proves that it is enough up to the size of the ring.
    - The loops that poll hardware ([wait_bus], [poll_ready]) or wait for the
      operator ([wait_uart], [percent_loop]) follow it [env_patience] times:
      they end only if the hardware, resp. the operator, does.
    - [psc_run], [dhcp_client] and [console_menu] take the number of turns of
      their endless loops, [program] also that of the loop that complains when
      the server returns; their theorems hold for every number.
    - [messages_in_order] follows the server until the messages are handled,
      the client is gone or a turn stops, for any number of turns.
    - [exec_menu] takes one turn for each key of the menu: [session_refines]
      proves that one more than there are commands is enough.

    ** What the theorems show

    - The program: descriptor safety from reset on ([server_descriptors]), the
      types of its state ([program_typed]), both also with the console's
      commands between the turns of the server ([system_safe]); from power-up
      to the end of a session at the console, the settings in force are the
      EEPROM's and then what the commands make of them ([power_up_session]).
    - The server: the heartbeat ([silent_client_disconnected]), a
      new connection wins ([accept_supersedes]), [psc_send] on every branch
      ([psc_send_spec]).
    - The console: a session refines the abstract settings
      ([session_refines]), in particular beside the server
      ([console_beside_server]); a command line does what the network's message does
      ([console_network_agree]); the commands that rewrite the EEPROM
      ([eeprom_rewritten]).
    - Messages: each is handled once, in order ([messages_in_order]); exactness
      of sending, round trip, memory safety and rejection
      ([psc_sendmsg_exact], [psc_message_roundtrip], [psc_recvmsg_safe],
      [psc_recvmsg_rejects]); which are ignored ([client_msg_ignored]).
    - Settings: a channel's message touches only that channel
      ([chan_settings_isolation]); what each class of settings writes
      ([chan_settings_direct], [chan_settings_cntlim],
      [chan_settings_threshold_range], [fault_clear_main_dipole]); the
      register map has no overlaps ([register_map_injective]).
    - The DAC: which channel's polarity keeps a set point from being negative
      ([Set_dac_unipolar]: the next channel's, not its own), jump mode in full
      ([Set_dac_jump]), the values and the order of the linear ramp's writes
      ([linear_smooth_starts_last]), the ramp table, up to the first point
      that does not convert ([write_ramptable_loads]), and tables that are too
      long ([write_ramptable_rejects]).
    - Storage and start-up: settings survive the flash and a restart
      ([qspi_save_load], [settings_survive_restart]), the
      flavour is decoded consistently ([ReadHardwareFlavor_correct]), all that
      start-up writes: global registers, saved settings and the park outputs
      ([boot_drives_nothing]).
    - Data: the ring buffer and the waveform message ([ReadDMABuf_ring],
      [SendWfmData_message]), the triggers' state machine
      ([trigger_invariant], [trigger_waits], [CheckforTriggers_steps]), the
      10 Hz message, every word of it that the code sets ([sadata_message]),
      the converters' data
      ([bpc_send_frame]), the pacing ([pscdata_poll_paced]).
    - The responders: a file read or written by TFTP arrives whole and once
      ([tftp_read_transfer], [tftp_write_transfer]), when written with blocks
      that are repeated before the next, over what the file held, the last
      block being refused once it has been accepted;
      the server's file is used as it must be whatever arrives
      ([tftp_files_safe]);
      what is answered to a discovery request ([disco_recv_spec]); the
      configuration file is understood in any layout
      ([sdcard_netconf_static]); parsing it and reading the card change
      nothing else, and the cases in which their behaviour is undefined
      ([sdcard_netconf_safe], [sdcard_handle_safe]); the DHCP timers
      ([dhcp_timers]).
    - Where the code does not do what it means to, the theorems state what it
      does: [psc_recvskip_overruns], [negative_gain_undefined],
      [smooth_equal_setpoint_undefined], [Set_dac_negative_scale_saturates],
      [evr_trigger_never_rearmed], [empty_message_replays],
      [boot_event_codes], [console_channel_unchecked], [Set_dac_unipolar],
      [sdcard_netconf_safe] and [sdcard_handle_safe] (null pointers),
      [eeprom_images_not_exchanged], [two_timers], [init_i2c_null], [psc_error_message], the
      buffer that [disco_recv_spec] shows never
      released, the output words and the members never set of
      [sadata_message], and the stale tail and
      the refused last block of [tftp_write_transfer].

    ** What is not modelled

    - Preemption at other points.  The network thread can interrupt the
      console's task between any two instructions; modelled are its turns
      where the console waits or prints, each a whole number of turns.
      [ReadHardwareFlavor], one I2C transfer and [chan_settings] run from the
      command line are therefore single steps of the console; the code has no
      lock that would make them so (see the findings).  The responders and the
      DHCP task share no state with these two.
    - Code that nothing calls: [menu_get_ipaddr], [load_ramptable],
      [set_eventno].  [QspiPrintData] and [PrintCacheState], which only print.
    - The payload of a NaN: every NaN a conversion produces is the default
      quiet NaN, as with the floating-point unit in default-NaN mode.
    - The cache: [Xil_DCacheInvalidateRange] is an event without an effect.
    - Left for a later extension: finer interleavings of the two tasks, and
      error bounds for the DAC's [float] conversions. *)

From Stdlib Require Import ZArith Lia Bool List.
From stdpp Require Import base list numbers.

#[local] Open Scope Z_scope.

(** ** Machine integers

    A C integer of width [w] is a [Z]; [u8], [u16], [u32] and [u64] are the
    conversions to the unsigned types (reduction modulo [2^w]) and [s32],
    [s64] the conversions to the signed ones, which gcc defines as two's
    complement. *)

Definition wrap (w z : Z) : Z := z mod 2 ^ w.
Definition u8 (z : Z) : Z := wrap 8 z.
Definition u16 (z : Z) : Z := wrap 16 z.
Definition u32 (z : Z) : Z := wrap 32 z.
Definition u64 (z : Z) : Z := wrap 64 z.

Definition signed (w z : Z) : Z :=
  let r := wrap w z in
  if r <? 2 ^ (w - 1) then r else r - 2 ^ w.
Definition s32 (z : Z) : Z := signed 32 z.
Definition s64 (z : Z) : Z := signed 64 z.

Definition is_u (w z : Z) : Prop := 0 <= z < 2 ^ w.
#[export] Instance is_u_dec w z : Decision (is_u w z).
Proof. unfold is_u. apply _. Defined.
Abbreviation is_u32 := (is_u 32).
Abbreviation is_byte := (is_u 8).

(** The signed value is representable in a [w]-bit [int]. *)
Definition fits_signed (w z : Z) : bool :=
  (- 2 ^ (w - 1) <=? z) && (z <? 2 ^ (w - 1)).
Definition fits_unsigned (w z : Z) : bool := (0 <=? z) && (z <? 2 ^ w).

Lemma wrap_range w z : 0 <= w -> is_u w (wrap w z).
Proof. intros Hw. apply Z.mod_pos_bound. lia. Qed.

Lemma wrap_small w z : is_u w z -> wrap w z = z.
Proof. apply Z.mod_small. Qed.

Lemma wrap_idem w z : 0 <= w -> wrap w (wrap w z) = wrap w z.
Proof. intros. apply wrap_small. by apply wrap_range. Qed.

Lemma u32_range z : is_u32 (u32 z).
Proof. by apply wrap_range. Qed.

Lemma u32_small z : is_u32 z -> u32 z = z.
Proof. apply wrap_small. Qed.

Lemma u8_small z : is_byte z -> u8 z = z.
Proof. apply wrap_small. Qed.

Lemma u32_idem z : u32 (u32 z) = u32 z.
Proof. by apply wrap_idem. Qed.

Lemma pow2_half w : 0 < w -> 2 ^ w = 2 * 2 ^ (w - 1).
Proof. intros. rewrite <- Z.pow_succ_r by lia. f_equal. lia. Qed.

Lemma signed_range w z : 0 < w -> - 2 ^ (w - 1) <= signed w z < 2 ^ (w - 1).
Proof.
  intros Hw. unfold signed. pose proof (wrap_range w z ltac:(lia)) as Hr.
  unfold is_u in Hr. pose proof (pow2_half w Hw).
  destruct (Z.ltb_spec (wrap w z) (2 ^ (w - 1))); lia.
Qed.

Lemma wrap_signed w z : 0 <= w -> wrap w (signed w z) = wrap w z.
Proof.
  intros Hw. unfold signed. destruct (_ <? _).
  - by apply wrap_idem.
  - unfold wrap. rewrite <- (Z_mod_plus_full (_ - _) 1), Z.mul_1_l, Z.sub_add.
    by apply wrap_idem.
Qed.

Lemma u32_s32 z : u32 (s32 z) = u32 z.
Proof. by apply wrap_signed. Qed.

Lemma signed_wrap w z : 0 <= w -> signed w (wrap w z) = signed w z.
Proof. intros. unfold signed. by rewrite wrap_idem. Qed.

Lemma signed_small w z :
  0 < w -> - 2 ^ (w - 1) <= z < 2 ^ (w - 1) -> signed w z = z.
Proof.
  intros Hw Hz. unfold signed, wrap.
  pose proof (pow2_half w Hw).
  destruct (Z_lt_dec z 0).
  - assert (z mod 2 ^ w = z + 2 ^ w) as ->.
    { rewrite <- (Z_mod_plus_full z 1), Z.mul_1_l. apply Z.mod_small. lia. }
    destruct (Z.ltb_spec (z + 2 ^ w) (2 ^ (w - 1))); lia.
  - rewrite (Z.mod_small z) by lia.
    destruct (Z.ltb_spec z (2 ^ (w - 1))); lia.
Qed.

Lemma fits_signed_spec w z :
  fits_signed w z = true <-> - 2 ^ (w - 1) <= z < 2 ^ (w - 1).
Proof. unfold fits_signed. rewrite andb_true_iff, Z.leb_le, Z.ltb_lt. done. Qed.

Lemma fits_unsigned_spec w z : fits_unsigned w z = true <-> is_u w z.
Proof. unfold fits_unsigned. rewrite andb_true_iff, Z.leb_le, Z.ltb_lt. done. Qed.

(** ** Little-endian byte strings

    The target is a little-endian ARM: an [n]-byte object in memory is the
    list of its bytes, least significant first. *)

Fixpoint to_le (n : nat) (z : Z) : list Z :=
  match n with
  | O => []
  | S n => z mod 256 :: to_le n (z / 256)
  end.

Fixpoint of_le (l : list Z) : Z :=
  match l with
  | [] => 0
  | b :: l => b + 256 * of_le l
  end.

Abbreviation bytes_ok := (Forall (is_u 8)).

Lemma bytes_ok_u8 l : bytes_ok l -> u8 <$> l = l.
Proof.
  induction 1 as [|b l Hb _ IH]; [done|]. cbn. rewrite IH. f_equal. by apply wrap_small.
Qed.

Lemma u8_bytes_ok l : bytes_ok (u8 <$> l).
Proof. apply Forall_fmap, Forall_true. intros. by apply wrap_range. Qed.

Lemma length_to_le n z : length (to_le n z) = n.
Proof. revert z; induction n as [|n IH]; intros z; simpl; auto. Qed.

Lemma to_le_bytes n z : bytes_ok (to_le n z).
Proof.
  revert z; induction n as [|n IH]; intros z; simpl; constructor; auto.
  apply Z.mod_pos_bound. lia.
Qed.

Lemma of_le_to_le n z : of_le (to_le n z) = z mod 256 ^ Z.of_nat n.
Proof.
  revert z; induction n as [|n IH]; intros z; cbn [to_le of_le].
  - symmetry. apply Z.mod_1_r.
  - rewrite IH, Nat2Z.inj_succ, Z.pow_succ_r by lia.
    rewrite Z.rem_mul_r by lia. done.
Qed.

Lemma of_le_range l : bytes_ok l -> 0 <= of_le l < 256 ^ Z.of_nat (length l).
Proof.
  induction 1 as [|b l Hb _ IH]; [simpl; lia|].
  cbn [of_le length]. rewrite Nat2Z.inj_succ, Z.pow_succ_r by lia.
  unfold is_u in Hb. change (2 ^ 8) with 256 in Hb. nia.
Qed.

Lemma to_le_of_le l : bytes_ok l -> to_le (length l) (of_le l) = l.
Proof.
  induction 1 as [|b l Hb Hl IH]; [done|].
  cbn [of_le length to_le]. unfold is_u in Hb. change (2 ^ 8) with 256 in Hb.
  f_equal.
  - rewrite (Z.mul_comm 256), Z_mod_plus_full. by apply Z.mod_small.
  - rewrite (Z.mul_comm 256), Z.div_add, Z.div_small by lia. exact IH.
Qed.

Lemma to_le_inj n a b :
  0 <= a < 256 ^ Z.of_nat n -> 0 <= b < 256 ^ Z.of_nat n ->
  to_le n a = to_le n b -> a = b.
Proof.
  intros Ha Hb H. apply (f_equal of_le) in H. rewrite !of_le_to_le in H.
  by rewrite !Z.mod_small in H.
Qed.

(** [htonl]/[ntohl] and [htons]/[ntohs]: the reversal of the bytes of a word. *)
Definition bswap (n : nat) (z : Z) : Z := of_le (rev (to_le n z)).
Definition htonl (z : Z) : Z := bswap 4 z.
Definition htons (z : Z) : Z := bswap 2 z.

Lemma bytes_ok_rev l : bytes_ok l -> bytes_ok (rev l).
Proof. apply Forall_rev. Qed.

Lemma bswap_range n z : 0 <= bswap n z < 256 ^ Z.of_nat n.
Proof.
  unfold bswap. pose proof (of_le_range (rev (to_le n z))) as H.
  rewrite length_rev, length_to_le in H. apply H, bytes_ok_rev, to_le_bytes.
Qed.

Lemma to_le_bswap n z : to_le n (bswap n z) = rev (to_le n z).
Proof.
  unfold bswap. rewrite <- (length_to_le n z) at 1. rewrite <- length_rev.
  apply to_le_of_le, bytes_ok_rev, to_le_bytes.
Qed.

Lemma to_le_mod n z : to_le n (z mod 256 ^ Z.of_nat n) = to_le n z.
Proof. rewrite <- of_le_to_le, <- (length_to_le n z) at 1. apply to_le_of_le, to_le_bytes. Qed.

(** Network byte order: the most significant byte first. *)
Definition big_endian (n : nat) (z : Z) : list Z := rev (to_le n z).

Lemma length_big_endian n z : length (big_endian n z) = n.
Proof. unfold big_endian. by rewrite length_rev, length_to_le. Qed.

Lemma bswap_involutive n z : bswap n (bswap n z) = z mod 256 ^ Z.of_nat n.
Proof. unfold bswap at 1. rewrite to_le_bswap, rev_involutive. apply of_le_to_le. Qed.

Lemma htonl_range z : is_u32 (htonl z).
Proof. exact (bswap_range 4 z). Qed.

Lemma htonl_htonl z : htonl (htonl z) = u32 z.
Proof. exact (bswap_involutive 4 z). Qed.

Lemma htons_htons z : htons (htons z) = u16 z.
Proof. exact (bswap_involutive 2 z). Qed.

(** ** Words of a buffer *)

(** The 32-bit words of a byte buffer, as a [u32 *] cast of it reads them. *)
Fixpoint words_of_bytes (l : list Z) : list Z :=
  match l with
  | a :: b :: c :: d :: l => of_le [a; b; c; d] :: words_of_bytes l
  | _ => []
  end.

Definition bytes_of_words (ws : list Z) : list Z := flat_map (to_le 4) ws.

Lemma length_bytes_of_words ws : length (bytes_of_words ws) = (4 * length ws)%nat.
Proof. induction ws as [|w ws IH]; simpl in *; lia. Qed.

Lemma words_of_bytes_of_words ws :
  Forall (is_u 32) ws -> words_of_bytes (bytes_of_words ws) = ws.
Proof.
  induction 1 as [|w ws Hw _ IH]; [done|].
  change (bytes_of_words (w :: ws)) with (to_le 4 w ++ bytes_of_words ws).
  change (words_of_bytes (to_le 4 w ++ bytes_of_words ws))
    with (of_le (to_le 4 w) :: words_of_bytes (bytes_of_words ws)).
  rewrite IH, of_le_to_le. f_equal. exact (u32_small w Hw).
Qed.

Lemma bytes_of_words_app a b :
  bytes_of_words (a ++ b) = bytes_of_words a ++ bytes_of_words b.
Proof. apply flat_map_app. Qed.

Lemma bytes_of_words_ok ws : bytes_ok (bytes_of_words ws).
Proof.
  induction ws as [|w ws IH]; [constructor|].
  apply Forall_app. split; [apply (to_le_bytes 4)|exact IH].
Qed.

(** ** Buffers overwritten from their start *)

(** [memcpy(buf, src, len(src))]: the head of [buf] is replaced. *)
Definition overwrite (src buf : list Z) : list Z := src ++ drop (length src) buf.

Lemma length_overwrite src buf :
  (length src <= length buf)%nat -> length (overwrite src buf) = length buf.
Proof. intros H. unfold overwrite. rewrite length_app, length_drop. lia. Qed.

Lemma take_overwrite src buf : take (length src) (overwrite src buf) = src.
Proof. unfold overwrite. by rewrite take_app_length. Qed.

Lemma map_seq_eq {A} (f : nat -> A) (l : list A) :
  (forall i, (i < length l)%nat -> l !! i = Some (f i)) -> map f (seq 0 (length l)) = l.
Proof.
  intros H. change (f <$> seq 0 (length l) = l). apply list_eq. intros i.
  rewrite list_lookup_fmap. destruct (Nat.lt_ge_cases i (length l)) as [L|G].
  - rewrite lookup_seq_lt by done. cbn. by rewrite H.
  - rewrite !lookup_ge_None_2; [done|done|by rewrite length_seq].
Qed.

(** ** Tactics and hints *)

(** Decide the boolean comparisons on [Z] met in the goal or hypotheses. *)
Ltac zbool :=
  repeat match goal with
  | H : (_ && _) = true |- _ => apply andb_true_iff in H; destruct H
  | H : (_ =? _) = true |- _ => apply Z.eqb_eq in H
  | H : (_ =? _) = false |- _ => apply Z.eqb_neq in H
  | H : (_ <? _) = true |- _ => apply Z.ltb_lt in H
  | H : (_ <? _) = false |- _ => apply Z.ltb_ge in H
  | H : (_ <=? _) = true |- _ => apply Z.leb_le in H
  | H : (_ <=? _) = false |- _ => apply Z.leb_gt in H
  end.

Create HintDb ints.
#[export] Hint Resolve u32_range htonl_range to_le_bytes bytes_of_words_ok : ints.
Create Rewrite HintDb ints_rw.
#[export] Hint Rewrite u32_idem u32_s32 htonl_htonl htons_htons length_to_le
  length_bytes_of_words : ints_rw.

(** A decidable closed proposition, by evaluation. *)
Ltac by_compute :=
  lazymatch goal with
  | |- ?P => refine (bool_decide_unpack P _); vm_compute; exact I
  end.
