(* ===== verification/CString.v ===== *)
(** * Characters and numbers of the C library

    A C string is the list of its characters without the final NUL.  What
    [sdcard.c] and [console.c] use of [ctype.h], [stdlib.h] and [sscanf]:
    character classes in the C locale, the spans of a scanning loop, decimal
    numbers. *)

From Stdlib Require Import ZArith Lia Bool Ascii String.
From stdpp Require Import base list numbers.
From S2P Require Import Prelude.

#[local] Open Scope Z_scope.

Definition str (s : string) : list Z := (fun c => Z.of_N (N_of_ascii c)) <$> list_ascii_of_string s.

(** [isspace] in the C locale. *)
Definition isspace (c : Z) : bool := (c =? 32) || ((9 <=? c) && (c <=? 13)).

(** [while(P(line[0])) line++], resp. what it skips. *)
Fixpoint skip (P : Z -> bool) (line : list Z) : list Z :=
  match line with
  | c :: rest => if P c then skip P rest else line
  | [] => []
  end.
Fixpoint upto (P : Z -> bool) (line : list Z) : list Z :=
  match line with
  | c :: rest => if P c then c :: upto P rest else []
  | [] => []
  end.

(** ** Decimal numbers *)

(** The string in a buffer: up to the first NUL. *)
Definition cstr (l : list Z) : list Z := upto (fun c => negb (c =? 0)) l.

Definition isdigit (c : Z) : bool := (48 <=? c) && (c <=? 57).

(** The number a string of digits denotes. *)
Definition dec_from (n : Z) (ds : list Z) : Z := fold_left (fun n d => 10 * n + (d - 48)) ds n.
Definition dec_val (ds : list Z) : Z := dec_from 0 ds.

(** The subject sequence of [strtol] and of the [%u] conversion in base 10:
    white space, an optional sign, digits.  The sign, the number and what
    follows, if there is a digit. *)
Definition scan_dec (s : list Z) : option (bool * Z * list Z) :=
  let s := skip isspace s in
  let (neg, s) := match s with
                  | c :: rest => if c =? 45 then (true, rest) else if c =? 43 then (false, rest) else (false, s)
                  | [] => (false, [])
                  end in
  match upto isdigit s with
  | [] => None
  | ds => Some (neg, dec_val ds, skip isdigit s)
  end.

(** [strtoul(s, NULL, 10)], [unsigned long] of 32 bits: too large a number
    gives [ULONG_MAX], a sign negates. *)
Definition strtoul (s : list Z) : Z :=
  match scan_dec s with
  | None => 0
  | Some (neg, n, _) => if fits_unsigned 32 n then u32 (if neg then - n else n) else 2 ^ 32 - 1
  end.

(** ** Facts *)

Lemma skip_app P pre rest : Forall (fun c => P c = true) pre -> skip P (pre ++ rest) = skip P rest.
Proof. induction 1 as [|c pre E _ IH]; [done|]. cbn. by rewrite E. Qed.

Lemma skip_stop P c rest : P c = false -> skip P (c :: rest) = c :: rest.
Proof. intros E. cbn. by rewrite E. Qed.

Lemma upto_stop P c rest : P c = false -> upto P (c :: rest) = [].
Proof. intros E. cbn. by rewrite E. Qed.

Lemma upto_app P pre rest :
  Forall (fun c => P c = true) pre -> upto P (pre ++ rest) = pre ++ upto P rest.
Proof. induction 1 as [|c pre E _ IH]; [done|]. cbn. by rewrite E, IH. Qed.

Definition is_word (w : list Z) : Prop := w <> [] /\ Forall (fun c => isspace c = false) w.
Definition blank (w : list Z) : Prop := Forall (fun c => isspace c = true) w.

Lemma word_negb w : is_word w -> Forall (fun c => negb (isspace c) = true) w.
Proof. intros [_ H]. eapply list.Forall_impl; [exact H|]. by intros c ->. Qed.

Lemma skip_word w rest :
  w <> [] -> Forall (fun c => isspace c = false) w -> skip isspace (w ++ rest) = w ++ rest.
Proof. destruct w as [|c w]; [done|]. intros _ [E _]%list.Forall_cons_1. by apply skip_stop. Qed.


(** ** Numbers *)

Definition digits10 (ds : list Z) : Prop := Forall (fun c => isdigit c = true) ds.

Lemma digit_range c : isdigit c = true -> 48 <= c <= 57.
Proof. unfold isdigit. intros. zbool. lia. Qed.

Lemma dec_from_nonneg n ds : 0 <= n -> digits10 ds -> 0 <= dec_from n ds.
Proof.
  intros Hn H. revert n Hn. unfold dec_from. induction H as [|c ds Hc _ IH]; intros n Hn; cbn [fold_left]; [done|].
  apply IH. apply digit_range in Hc. lia.
Qed.

Lemma dec_val_nonneg ds : digits10 ds -> 0 <= dec_val ds.
Proof. by apply dec_from_nonneg. Qed.

Lemma skip_all P l : Forall (fun c => P c = true) l -> skip P l = [].
Proof. intros H. rewrite <- (app_nil_r l), skip_app by done. done. Qed.

Lemma upto_all P l : Forall (fun c => P c = true) l -> upto P l = l.
Proof. intros H. rewrite <- (app_nil_r l), upto_app by done. cbn. by rewrite app_nil_r. Qed.

(** A number after white space, and what follows it. *)
Lemma scan_dec_digits pre ds rest :
  blank pre -> digits10 ds -> ds <> [] -> upto isdigit rest = [] ->
  scan_dec (pre ++ ds ++ rest) = Some (false, dec_val ds, rest).
Proof.
  intros Hp Hd Hn Hr. unfold scan_dec. rewrite skip_app by done.
  destruct ds as [|c ds]; [done|]. pose proof Hd as [Hc _]%list.Forall_cons_1. apply digit_range in Hc.
  cbn [app]. rewrite skip_stop by (unfold isspace; destruct (Z.eqb_spec c 32), (Z.leb_spec 9 c), (Z.leb_spec c 13); lia).
  destruct (Z.eqb_spec c 45); [lia|]. destruct (Z.eqb_spec c 43); [lia|].
  change (c :: ds ++ rest) with ((c :: ds) ++ rest). rewrite upto_app, Hr, app_nil_r, skip_app by done.
  cbv iota. do 2 f_equal. destruct rest as [|x rest]; [done|]. cbn in *. by destruct (isdigit x).
Qed.

Lemma scan_dec_nil : scan_dec [] = None.
Proof. done. Qed.
