(* ===== verification/CFloat.v ===== *)
(** * IEEE 754 arithmetic of the C code

    The firmware computes with C [float] (binary32) and [double] (binary64)
    under round-to-nearest-even, evaluated in the type of each expression.
    The operations are those of the Standard Library's [SpecFloat]; this file
    adds what C needs around them: the bit patterns of a [float] (the program
    puns them with [u32] through [MsgUnion]), the conversions between the two
    formats, and the conversions to integers, which C leaves undefined when
    the truncated value is not representable ([None] here).

    A NaN has no payload in [spec_float]; a NaN that arithmetic produces gets
    the default quiet pattern.  Copies of a [float] object never go through
    [spec_float]: objects are kept as bit patterns. *)

From Stdlib Require Import ZArith Lia Bool Floats.SpecFloat.
From stdpp Require Import base list numbers.
From S2P Require Import Prelude.

#[local] Open Scope Z_scope.

Record format := Format { fprec : Z; femax : Z }.

(** C [float] and [double] on the target. *)
Definition single : format := Format 24 128.
Definition double : format := Format 53 1024.

Definition fadd (f : format) := SFadd (fprec f) (femax f).
Definition fsub (f : format) := SFsub (fprec f) (femax f).
Definition fmul (f : format) := SFmul (fprec f) (femax f).
Definition fdiv (f : format) := SFdiv (fprec f) (femax f).

(** Conversion of an integer, and of a float of another format. *)
Definition fofZ (f : format) (z : Z) : spec_float :=
  binary_normalize (fprec f) (femax f) z 0 false.

Definition fconv (f : format) (x : spec_float) : spec_float :=
  match x with
  | S754_finite s m e => binary_round (fprec f) (femax f) s m e
  | _ => x
  end.

(** The literal [n / d], correctly rounded: a decimal constant of the source. *)
Definition flit (f : format) (n d : Z) : spec_float := fdiv f (fofZ f n) (fofZ f d).

(** [(float)x] and the implicit promotion to [double]. *)
Definition to_float (x : spec_float) : spec_float := fconv single x.
Definition to_double (x : spec_float) : spec_float := fconv double x.

Declare Scope flt_scope.
Delimit Scope flt_scope with F.
Infix "*s" := (fmul single) (at level 40, left associativity) : flt_scope.
Infix "/s" := (fdiv single) (at level 40, left associativity) : flt_scope.
Infix "+s" := (fadd single) (at level 50, left associativity) : flt_scope.
Infix "-s" := (fsub single) (at level 50, left associativity) : flt_scope.
Infix "*d" := (fmul double) (at level 40, left associativity) : flt_scope.
Infix "/d" := (fdiv double) (at level 40, left associativity) : flt_scope.
#[local] Open Scope flt_scope.

(** Comparisons of C: false as soon as an operand is NaN. *)
Definition float_lt (x y : spec_float) : bool := SFltb x y.
Definition float_gt (x y : spec_float) : bool := SFltb y x.
Definition fabs (x : spec_float) : spec_float := SFabs x.

(** ** Bit patterns of binary32 *)

Definition quiet_nan : Z := 0x7FC00000.

Definition f32_of_bits (u : Z) : spec_float :=
  let s := Z.testbit u 31 in
  let e := (u / 2 ^ 23) mod 2 ^ 8 in
  let m := u mod 2 ^ 23 in
  if e =? 255 then (if m =? 0 then S754_infinity s else S754_nan)
  else if e =? 0 then
    match m with
    | Zpos p => S754_finite s p (-149)
    | _ => S754_zero s
    end
  else
    match m + 2 ^ 23 with
    | Zpos p => S754_finite s p (e - 150)
    | _ => S754_nan
    end.

Definition sign_bit (s : bool) : Z := if s then 2 ^ 31 else 0.

Definition bits_of_f32 (x : spec_float) : Z :=
  match x with
  | S754_zero s => sign_bit s
  | S754_infinity s => sign_bit s + 255 * 2 ^ 23
  | S754_nan => quiet_nan
  | S754_finite s m e =>
      if Zpos m <? 2 ^ 23 then sign_bit s + Zpos m
      else sign_bit s + (e + 150) * 2 ^ 23 + (Zpos m - 2 ^ 23)
  end.

Definition is_nan_bits (u : Z) : bool :=
  ((u / 2 ^ 23) mod 2 ^ 8 =? 255) && negb (u mod 2 ^ 23 =? 0).

Lemma testbit31 u : is_u32 u -> Z.testbit u 31 = (2 ^ 31 <=? u).
Proof.
  intros [H0 H1]. rewrite Z.testbit_eqb by lia.
  destruct (Z.leb_spec (2 ^ 31) u).
  - rewrite <- (Z.div_unique u (2 ^ 31) 1 (u - 2 ^ 31)) by lia. done.
  - rewrite Z.div_small by lia. done.
Qed.

(** The three fields of a pattern rebuild it. *)
Lemma bits_fields u :
  is_u32 u ->
  u = sign_bit (Z.testbit u 31) + (u / 2 ^ 23) mod 2 ^ 8 * 2 ^ 23 + u mod 2 ^ 23.
Proof.
  intros Hu. rewrite testbit31 by done. unfold sign_bit. destruct Hu as [H0 H1].
  pose proof (Z.div_mod u (2 ^ 23) ltac:(lia)) as E1.
  pose proof (Z.div_mod (u / 2 ^ 23) (2 ^ 8) ltac:(lia)) as E2.
  assert (u / 2 ^ 23 / 2 ^ 8 = u / 2 ^ 31) as E3 by (rewrite Z.div_div by lia; done).
  rewrite E3 in E2.
  destruct (Z.leb_spec (2 ^ 31) u).
  - rewrite <- (Z.div_unique u (2 ^ 31) 1 (u - 2 ^ 31)) in E2 by lia. lia.
  - rewrite (Z.div_small u (2 ^ 31)) in E2 by lia. lia.
Qed.

Lemma bits_of_f32_of_bits u :
  is_u32 u -> is_nan_bits u = false -> bits_of_f32 (f32_of_bits u) = u.
Proof.
  intros Hu Hn. pose proof (bits_fields u Hu) as E.
  pose proof (Z.mod_pos_bound u (2 ^ 23) ltac:(lia)) as Hm.
  pose proof (Z.mod_pos_bound (u / 2 ^ 23) (2 ^ 8) ltac:(lia)) as He.
  unfold is_nan_bits in Hn. unfold f32_of_bits.
  set (s := Z.testbit u 31) in *. set (e := (u / 2 ^ 23) mod 2 ^ 8) in *.
  set (m := u mod 2 ^ 23) in *. clearbody s e m.
  destruct (Z.eqb_spec e 255) as [->|Ne].
  { destruct (Z.eqb_spec m 0); [|done]. unfold bits_of_f32. lia. }
  destruct (Z.eqb_spec e 0) as [->|Ne0].
  { destruct m as [|p|p]; unfold bits_of_f32; [lia| |lia].
    destruct (Z.ltb_spec (Zpos p) (2 ^ 23)); lia. }
  destruct (m + 2 ^ 23) as [|p|p] eqn:Ep; [lia| |lia].
  unfold bits_of_f32. rewrite <- Ep.
  destruct (Z.ltb_spec (m + 2 ^ 23) (2 ^ 23)); lia.
Qed.

Lemma sign_bit_cases s : sign_bit s = 0 \/ sign_bit s = 2 ^ 31.
Proof. destruct s; auto. Qed.

(** Decoding yields a canonical binary32 number. *)
Lemma digits2_pos_bounds p : 2 ^ (Zpos (digits2_pos p) - 1) <= Zpos p < 2 ^ Zpos (digits2_pos p).
Proof.
  induction p as [p IH|p IH|]; cbn [digits2_pos]; [..|done];
    rewrite Pos2Z.inj_succ, Z.pow_succ_r by lia;
    replace (Z.succ (Zpos (digits2_pos p)) - 1) with (Z.succ (Zpos (digits2_pos p) - 1)) by lia;
    rewrite Z.pow_succ_r by lia; lia.
Qed.

Lemma digits2_pos_unique p d :
  0 < d -> 2 ^ (d - 1) <= Zpos p < 2 ^ d -> Zpos (digits2_pos p) = d.
Proof.
  intros Hd [H1 H2]. destruct (digits2_pos_bounds p) as [B1 B2].
  destruct (Z.lt_trichotomy (Zpos (digits2_pos p)) d) as [L|[E|L]]; [|done|].
  - pose proof (Z.pow_le_mono_r 2 (Zpos (digits2_pos p)) (d - 1)). lia.
  - pose proof (Z.pow_le_mono_r 2 d (Zpos (digits2_pos p) - 1)). lia.
Qed.

Lemma f32_of_bits_valid u : is_u32 u -> valid_binary 24 128 (f32_of_bits u) = true.
Proof.
  intros Hu.
  pose proof (Z.mod_pos_bound u (2 ^ 23) ltac:(lia)) as Hm.
  pose proof (Z.mod_pos_bound (u / 2 ^ 23) (2 ^ 8) ltac:(lia)) as He.
  unfold f32_of_bits.
  set (s := Z.testbit u 31) in *. set (e := (u / 2 ^ 23) mod 2 ^ 8) in *.
  set (m := u mod 2 ^ 23) in *. clearbody s e m.
  destruct (Z.eqb_spec e 255) as [->|Ne]; [by destruct (m =? 0)|].
  destruct (Z.eqb_spec e 0) as [->|Ne0].
  { destruct m as [|p|p]; [done| |done].
    cbn [valid_binary bounded canonical_mantissa]. apply andb_true_iff. split; [|done].
    apply Z.eqb_eq. unfold fexp, emin.
    assert (Zpos (digits2_pos p) <= 23); [|lia].
    destruct (digits2_pos_bounds p) as [B _].
    destruct (Z.le_gt_cases (Zpos (digits2_pos p)) 23); [done|].
    pose proof (Z.pow_le_mono_r 2 23 (Zpos (digits2_pos p) - 1)). lia. }
  destruct (m + 2 ^ 23) as [|p|p] eqn:Ep; [done| |lia].
  cbn [valid_binary bounded canonical_mantissa].
  unfold bounded, canonical_mantissa.
  rewrite (digits2_pos_unique p 24) by lia.
  apply andb_true_iff; split; [apply Z.eqb_eq|apply Z.leb_le]; unfold fexp, emin; lia.
Qed.

(** The fields read back from an assembled pattern. *)
Lemma fields_of_bits s e m :
  0 <= e < 2 ^ 8 -> 0 <= m < 2 ^ 23 ->
  let u := sign_bit s + e * 2 ^ 23 + m in
  Z.testbit u 31 = s /\ (u / 2 ^ 23) mod 2 ^ 8 = e /\ u mod 2 ^ 23 = m.
Proof.
  intros He Hm u.
  assert (is_u32 u) as Hu by (unfold is_u, u; destruct (sign_bit_cases s); lia).
  assert (u / 2 ^ 23 = (if s then 256 else 0) + e) as Eq.
  { symmetry. apply Z.div_unique with m; unfold u, sign_bit; destruct s; lia. }
  rewrite (testbit31 u Hu), Eq. repeat split.
  - unfold u, sign_bit. destruct s; [apply Z.leb_le|apply Z.leb_gt]; lia.
  - symmetry. apply Z.mod_unique with (if s then 1 else 0); destruct s; lia.
  - symmetry. apply Z.mod_unique with ((if s then 256 else 0) + e);
      unfold u, sign_bit; destruct s; lia.
Qed.

(** The pattern of a canonical binary32 number decodes to it. *)
Lemma f32_of_bits_of_f32 x :
  valid_binary 24 128 x = true -> f32_of_bits (bits_of_f32 x) = x.
Proof.
  destruct x as [s|s| |s p e]; cbn [valid_binary]; intros Hv; unfold bits_of_f32.
  - destruct (fields_of_bits s 0 0 ltac:(lia) ltac:(lia)) as (F1 & F2 & F3).
    rewrite !Z.add_0_r in *. unfold f32_of_bits. rewrite F1, F2, F3. done.
  - destruct (fields_of_bits s 255 0 ltac:(lia) ltac:(lia)) as (F1 & F2 & F3). rewrite Z.add_0_r in *.
    unfold f32_of_bits. rewrite F1, F2, F3. done.
  - done.
  - unfold bounded, canonical_mantissa in Hv. apply andb_true_iff in Hv as [H1 H2].
    apply Z.eqb_eq in H1. apply Z.leb_le in H2. unfold fexp, emin in H1.
    destruct (digits2_pos_bounds p) as [B1 B2].
    destruct (Z.ltb_spec (Zpos p) (2 ^ 23)) as [L|L].
    + destruct (fields_of_bits s 0 (Zpos p) ltac:(lia) ltac:(lia)) as (F1 & F2 & F3).
      rewrite Z.mul_0_l, Z.add_0_r in *. unfold f32_of_bits. rewrite F1, F2, F3.
      change (0 =? 255) with false. change (0 =? 0) with true. cbv iota.
      f_equal. destruct (Z.le_gt_cases 24 (Zpos (digits2_pos p))); [|lia].
      pose proof (Z.pow_le_mono_r 2 23 (Zpos (digits2_pos p) - 1)). lia.
    + assert (Zpos (digits2_pos p) <= 24) by lia.
      pose proof (Z.pow_le_mono_r 2 (Zpos (digits2_pos p)) 24 ltac:(lia) ltac:(lia)).
      assert (23 < Zpos (digits2_pos p)).
      { destruct (Z.le_gt_cases (Zpos (digits2_pos p)) 23); [|done].
        pose proof (Z.pow_le_mono_r 2 (Zpos (digits2_pos p)) 23). lia. }
      destruct (fields_of_bits s (e + 150) (Zpos p - 2 ^ 23) ltac:(lia) ltac:(lia)) as (F1 & F2 & F3).
      unfold f32_of_bits. rewrite F1, F2, F3.
      destruct (Z.eqb_spec (e + 150) 255); [lia|].
      destruct (Z.eqb_spec (e + 150) 0); [lia|].
      rewrite Z.sub_add. f_equal. lia.
Qed.

(** ** Conversions to integers *)

(** Truncation toward zero; [None] for NaN and the infinities. *)
Definition ftrunc (x : spec_float) : option Z :=
  match x with
  | S754_zero _ => Some 0
  | S754_finite s m e =>
      let a := if 0 <=? e then Zpos m * 2 ^ e else Zpos m / 2 ^ (- e) in
      Some (cond_Zopp s a)
  | _ => None
  end.

(** Rounding to nearest, halves away from zero: [llroundf] before its
    conversion to [long long]. *)
Definition fround_away (x : spec_float) : option Z :=
  match x with
  | S754_zero _ => Some 0
  | S754_finite s m e =>
      let a := if 0 <=? e then Zpos m * 2 ^ e
               else (Zpos m + 2 ^ (- e - 1)) / 2 ^ (- e) in
      Some (cond_Zopp s a)
  | _ => None
  end.

(** The conversion of a float to [s32], [u32], [u8]: undefined ([None]) when
    the truncated value does not fit. *)
Definition to_s32 (x : spec_float) : option Z :=
  z ← ftrunc x; if fits_signed 32 z then Some z else None.
Definition to_u32 (x : spec_float) : option Z :=
  z ← ftrunc x; if fits_unsigned 32 z then Some z else None.
Definition llround (x : spec_float) : option Z :=
  z ← fround_away x; if fits_signed 64 z then Some z else None.

Lemma to_s32_range x z : to_s32 x = Some z -> - 2 ^ 31 <= z < 2 ^ 31.
Proof.
  unfold to_s32. destruct (ftrunc x) as [y|]; [|done]. cbn.
  destruct (fits_signed 32 y) eqn:E; [|done]. intros [= ->].
  by apply (fits_signed_spec 32).
Qed.

Lemma to_u32_range x z : to_u32 x = Some z -> is_u32 z.
Proof.
  unfold to_u32. destruct (ftrunc x) as [y|]; [|done]. cbn.
  destruct (fits_unsigned 32 y) eqn:E; [|done]. intros [= ->].
  by apply (fits_unsigned_spec 32).
Qed.

(** A float of negative sign and magnitude at least one has no [u32] value. *)
Lemma to_u32_negative m e :
  ftrunc (S754_finite true m e) <> Some 0 -> to_u32 (S754_finite true m e) = None.
Proof.
  unfold to_u32. cbn [ftrunc cond_Zopp]. set (a := if 0 <=? e then _ else _). intros H.
  assert (0 <= a).
  { unfold a. destruct (Z.leb_spec 0 e).
    - pose proof (Z.pow_nonneg 2 e). lia.
    - apply Z.div_pos; [lia|]. apply Z.pow_pos_nonneg; lia. }
  cbn. destruct (fits_unsigned 32 (- a)) eqn:E; [|done].
  apply fits_unsigned_spec in E. unfold is_u in E. destruct H. f_equal. lia.
Qed.

(** ** Signs *)

Definition nonneg (x : spec_float) : Prop :=
  match x with
  | S754_zero _ => True
  | S754_infinity s => s = false
  | S754_finite s _ _ => s = false
  | S754_nan => True
  end.

Lemma binary_round_aux_nonneg p e m x l : nonneg (binary_round_aux p e false m x l).
Proof.
  unfold binary_round_aux. destruct (shr_fexp p e m x l) as [r e'].
  destruct (shr_fexp p e _ e' _) as [r' e'']. destruct (shr_m r'); [done| |done].
  by destruct (e'' <=? e - p).
Qed.

Lemma fdiv_fabs_nonneg f x y : nonneg (fdiv f (fabs x) (fabs y)).
Proof.
  destruct x as [|[]| |], y as [|[]| |]; try done. unfold fdiv, fabs. cbn [SFabs SFdiv xorb].
  destruct (SFdiv_core_binary _ _ _ _ _ _) as [[? ?] ?]. apply binary_round_aux_nonneg.
Qed.

Lemma to_s32_nonneg x z : nonneg x -> to_s32 x = Some z -> 0 <= z.
Proof.
  destruct x as [s|s| |s m e]; cbn [nonneg]; intros Hs; try done.
  - by intros [= <-].
  - subst s. unfold to_s32. cbn [ftrunc cond_Zopp mbind option_bind].
    case_match; [|done]. intros [= <-]. destruct (Z.leb_spec 0 e).
    + pose proof (Z.pow_nonneg 2 e). lia.
    + apply Z.div_pos; [lia|]. apply Z.pow_pos_nonneg; lia.
Qed.

(** Known values. *)
Example decode_one : f32_of_bits 0x3F800000 = S754_finite false 8388608 (-23).
Proof. reflexivity. Qed.
Example encode_third : bits_of_f32 (flit single 1 3) = 0x3EAAAAAB.
Proof. reflexivity. Qed.
Example encode_tenth : bits_of_f32 (to_float (flit double 1 10)) = 0x3DCCCCCD.
Proof. reflexivity. Qed.
Example div_by_zero_inf : (fofZ single 3 /s S754_zero false) = S754_infinity false.
Proof. reflexivity. Qed.
Example trunc_neg : to_s32 (flit single (-7) 2) = Some (-3).
Proof. reflexivity. Qed.
