(* ===== verification/Registers.v ===== *)
(** * The register map and the message codes

    The AXI register offsets of [pl_regs.h], the message codes and DAC modes
    of [control.h] and the message identifiers of [snapshot.h], one constant
    per [#define], and the facts about them that the other files use: every
    channel register lies in the channel window and no two registers of the
    map share an address. *)

From Stdlib Require Import ZArith Lia.
From stdpp Require Import base list numbers.
From S2P Require Import Prelude.

#[local] Open Scope Z_scope.

(** ** [pl_regs.h]: register offsets *)

Definition AXI_CIRBUFBASE : Z := 0x10000000.
Definition CHBASEADDR : Z := 0x200.
Definition FPGAVER_REG : Z := 0x0.
Definition LEDS_REG : Z := 0x4.
Definition RESOLUTION_REG : Z := 0x8.
Definition NUMCHANS_REG : Z := 0xc.
Definition BANDWIDTH_REG : Z := 0x10.
Definition POLARITY_REG : Z := 0x14.
Definition NCO_STEPSIZE_REG : Z := 0x18.
Definition TENKHZ_FREQ_REG : Z := 0x1c.
Definition EVR_INJ_EVENTNUM_REG : Z := 0x20.
Definition EVR_PM_EVENTNUM_REG : Z := 0x24.
Definition EVR_1HZ_EVENTNUM_REG : Z := 0x28.
Definition EVR_10HZ_EVENTNUM_REG : Z := 0x2c.
Definition EVR_10KHZ_EVENTNUM_REG : Z := 0x30.
Definition ONEHZ_FREQ_REG : Z := 0x34.
Definition EVR_TS_S_REG : Z := 0x40.
Definition EVR_TS_NS_REG : Z := 0x44.
Definition EVR_RESET_REG : Z := 0x48.
Definition IOC_ACCESS_REG : Z := 0x50.
Definition TENHZ_DATASEND_REG : Z := 0x54.
Definition FOFB_IPADDR_REG : Z := 0x60.
Definition FOFB_PACKETS_RCVD_REG : Z := 0x64.
Definition FOFB_COMMAND_REG : Z := 0x68.
Definition FOFB_NONCE_REG : Z := 0x6c.
Definition CH34_DUALMODE_REG : Z := 0x70.
Definition MAIN_DIPOLE_MODE_REG : Z := 0x74.
Definition SMOOTHRAMP_TYPE_REG : Z := 0x78.
Definition LIVE_TIME_REG : Z := 0x80.
Definition TENHZ_LIVE_TIME_REG : Z := 0x84.
Definition DCCT1_REG : Z := 0x00.
Definition DCCT2_REG : Z := 0x04.
Definition DACMON_REG : Z := 0x08.
Definition VOLT_REG : Z := 0x0c.
Definition GND_REG : Z := 0x10.
Definition SPARE_REG : Z := 0x14.
Definition REG_REG : Z := 0x18.
Definition ERR_REG : Z := 0x1c.
Definition DAC_SETPT_OFFSET_REG : Z := 0x20.
Definition DAC_SETPT_GAIN_REG : Z := 0x24.
Definition DAC_SETPT_REG : Z := 0x28.
Definition DAC_OPMODE_REG : Z := 0x2c.
Definition DAC_CNTRL_REG : Z := 0x30.
Definition DAC_RESET_REG : Z := 0x34.
Definition DAC_RAMPLEN_REG : Z := 0x38.
Definition DAC_RAMPADDR_REG : Z := 0x3c.
Definition DAC_RAMPDATA_REG : Z := 0x40.
Definition DAC_RUNRAMP_REG : Z := 0x44.
Definition DAC_RAMPACTIVE_REG : Z := 0x48.
Definition DAC_CURRSETPT_REG : Z := 0x4c.
Definition DCCT1_OFFSET_REG : Z := 0x50.
Definition DCCT1_GAIN_REG : Z := 0x54.
Definition DCCT2_OFFSET_REG : Z := 0x58.
Definition DCCT2_GAIN_REG : Z := 0x5c.
Definition DACMON_OFFSET_REG : Z := 0x60.
Definition DACMON_GAIN_REG : Z := 0x64.
Definition VOLT_OFFSET_REG : Z := 0x68.
Definition VOLT_GAIN_REG : Z := 0x6c.
Definition GND_OFFSET_REG : Z := 0x70.
Definition GND_GAIN_REG : Z := 0x74.
Definition SPARE_OFFSET_REG : Z := 0x78.
Definition SPARE_GAIN_REG : Z := 0x7c.
Definition REG_OFFSET_REG : Z := 0x80.
Definition REG_GAIN_REG : Z := 0x84.
Definition ERR_OFFSET_REG : Z := 0x88.
Definition ERR_GAIN_REG : Z := 0x8c.
Definition OVC1_THRESH_REG : Z := 0x90.
Definition OVC2_THRESH_REG : Z := 0x94.
Definition OVV_THRESH_REG : Z := 0x98.
Definition ERR1_THRESH_REG : Z := 0x9c.
Definition ERR2_THRESH_REG : Z := 0xa0.
Definition IGND_THRESH_REG : Z := 0xa4.
Definition OVC1_CNTLIM_REG : Z := 0xa8.
Definition OVC2_CNTLIM_REG : Z := 0xac.
Definition OVV_CNTLIM_REG : Z := 0xb0.
Definition ERR1_CNTLIM_REG : Z := 0xb4.
Definition ERR2_CNTLIM_REG : Z := 0xb8.
Definition IGND_CNTLIM_REG : Z := 0xbc.
Definition DCCT_CNTLIM_REG : Z := 0xc0.
Definition FLT1_CNTLIM_REG : Z := 0xc4.
Definition FLT2_CNTLIM_REG : Z := 0xc8.
Definition FLT3_CNTLIM_REG : Z := 0xcc.
Definition ON_CNTLIM_REG : Z := 0xd0.
Definition FAULT_CLEAR_REG : Z := 0xd4.
Definition FAULT_MASK_REG : Z := 0xd8.
Definition HEARTBEAT_CNTLIM_REG : Z := 0xdc.
Definition DIGOUT_ON1_REG : Z := 0xe0.
Definition DIGOUT_ON2_REG : Z := 0xe4.
Definition DIGOUT_RESET_REG : Z := 0xe8.
Definition DIGOUT_SPARE_REG : Z := 0xec.
Definition DIGOUT_PARK_REG : Z := 0xf0.
Definition DIGIN_REG : Z := 0xf4.
Definition FAULTS_LIVE_REG : Z := 0xf8.
Definition FAULTS_LAT_REG : Z := 0xfc.
Definition AVEMODE_REG : Z := 0x100.
Definition SMOOTH_PHASEINC_REG : Z := 0x104.
Definition DIGOUT_ON2_PULSEENB_REG : Z := 0x108.
Definition FOFB_FASTADDR_REG : Z := 0x120.
Definition FOFB_DACSETPT_REG : Z := 0x124.
Definition FOFB_SCALEFACTOR_REG : Z := 0x128.
Definition SMOOTH_LINEAR_LEN_REG : Z := 0x150.
Definition SMOOTH_CURVED_LEN_REG : Z := 0x154.
Definition SMOOTH_DY_HI_REG : Z := 0x158.
Definition SMOOTH_DY_LO_REG : Z := 0x15c.
Definition SMOOTH_DY_PER_PT_HI_REG : Z := 0x160.
Definition SMOOTH_DY_PER_PT_LO_REG : Z := 0x164.
Definition MANCH_FIFO_RESET_REG : Z := 0x180.
Definition MANCH_FIFO_DATA_REG : Z := 0x184.
Definition MANCH_FIFO_WDCNT_REG : Z := 0x188.
Definition SNAPSHOT_ADDRPTR : Z := 0xa00.
Definition SNAPSHOT_TOTALTRIGS : Z := 0xa04.
Definition SOFTTRIG : Z := 0xa08.
Definition TESTTRIG : Z := 0xa0c.
Definition USR1TRIG_BUFPTR : Z := 0xa20.
Definition USR1TRIG_TS_S : Z := 0xa24.
Definition USR1TRIG_TS_NS : Z := 0xa28.
Definition USR2TRIG_BUFPTR : Z := 0xa30.
Definition USR2TRIG_TS_S : Z := 0xa34.
Definition USR2TRIG_TS_NS : Z := 0xa38.
Definition USR3TRIG_BUFPTR : Z := 0xa40.
Definition USR3TRIG_TS_S : Z := 0xa44.
Definition USR3TRIG_TS_NS : Z := 0xa48.
Definition USR4TRIG_BUFPTR : Z := 0xa50.
Definition USR4TRIG_TS_S : Z := 0xa54.
Definition USR4TRIG_TS_NS : Z := 0xa58.
Definition FLT1TRIG_BUFPTR : Z := 0xa60.
Definition FLT1TRIG_TS_S : Z := 0xa64.
Definition FLT1TRIG_TS_NS : Z := 0xa68.
Definition FLT2TRIG_BUFPTR : Z := 0xa70.
Definition FLT2TRIG_TS_S : Z := 0xa74.
Definition FLT2TRIG_TS_NS : Z := 0xa78.
Definition FLT3TRIG_BUFPTR : Z := 0xa80.
Definition FLT3TRIG_TS_S : Z := 0xa84.
Definition FLT3TRIG_TS_NS : Z := 0xa88.
Definition FLT4TRIG_BUFPTR : Z := 0xa90.
Definition FLT4TRIG_TS_S : Z := 0xa94.
Definition FLT4TRIG_TS_NS : Z := 0xa98.
Definition ERR1TRIG_BUFPTR : Z := 0xaa0.
Definition ERR1TRIG_TS_S : Z := 0xaa4.
Definition ERR1TRIG_TS_NS : Z := 0xaa8.
Definition ERR2TRIG_BUFPTR : Z := 0xab0.
Definition ERR2TRIG_TS_S : Z := 0xab4.
Definition ERR2TRIG_TS_NS : Z := 0xab8.
Definition ERR3TRIG_BUFPTR : Z := 0xac0.
Definition ERR3TRIG_TS_S : Z := 0xac4.
Definition ERR3TRIG_TS_NS : Z := 0xac8.
Definition ERR4TRIG_BUFPTR : Z := 0xad0.
Definition ERR4TRIG_TS_S : Z := 0xad4.
Definition ERR4TRIG_TS_NS : Z := 0xad8.
Definition INJ1TRIG_BUFPTR : Z := 0xae0.
Definition INJ1TRIG_TS_S : Z := 0xae4.
Definition INJ1TRIG_TS_NS : Z := 0xae8.
Definition INJ2TRIG_BUFPTR : Z := 0xaf0.
Definition INJ2TRIG_TS_S : Z := 0xaf4.
Definition INJ2TRIG_TS_NS : Z := 0xaf8.
Definition INJ3TRIG_BUFPTR : Z := 0xb00.
Definition INJ3TRIG_TS_S : Z := 0xb04.
Definition INJ3TRIG_TS_NS : Z := 0xb08.
Definition INJ4TRIG_BUFPTR : Z := 0xb10.
Definition INJ4TRIG_TS_S : Z := 0xb14.
Definition INJ4TRIG_TS_NS : Z := 0xb18.
Definition EVRTRIG_BUFPTR : Z := 0xb20.
Definition EVRTRIG_TS_S : Z := 0xb24.
Definition EVRTRIG_TS_NS : Z := 0xb28.
Definition ID : Z := 0xc00.
Definition VERSION : Z := 0xc04.
Definition PRJ_ID : Z := 0xc08.
Definition PRJ_VERSION : Z := 0xc0c.
Definition PRJ_SHASUM : Z := 0xc10.
Definition PRJ_TIMESTAMP : Z := 0xc14.

(** ** [control.h]: DAC modes and message codes *)

Definition SMOOTH : Z := 0.
Definition RAMP : Z := 1.
Definition FOFB : Z := 2.
Definition JUMP : Z := 3.
Definition SOFT_TRIG_MSG : Z := 0.
Definition TEST_TRIG_MSG : Z := 4.
Definition FP_LED_MSG : Z := 8.
Definition EVR_RESET_MSG : Z := 16.
Definition EVR_INJ_EVENTNUM_MSG : Z := 20.
Definition EVR_PM_EVENTNUM_MSG : Z := 24.
Definition EVR_1HZ_EVENTNUM_MSG : Z := 28.
Definition EVR_10HZ_EVENTNUM_MSG : Z := 32.
Definition EVR_10KHZ_EVENTNUM_MSG : Z := 36.
Definition FOFB_IPADDR_MSG : Z := 50.
Definition DAC_OPMODE_MSG : Z := 100.
Definition DAC_SETPT_MSG : Z := 104.
Definition DAC_RUNRAMP_MSG : Z := 108.
Definition DAC_RAMPLEN_MSG : Z := 112.
Definition DAC_SETPT_GAIN_MSG : Z := 116.
Definition DAC_SETPT_OFFSET_MSG : Z := 120.
Definition DCCT1_OFFSET_MSG : Z := 124.
Definition DCCT1_GAIN_MSG : Z := 128.
Definition DCCT2_OFFSET_MSG : Z := 132.
Definition DCCT2_GAIN_MSG : Z := 136.
Definition DACMON_OFFSET_MSG : Z := 140.
Definition DACMON_GAIN_MSG : Z := 144.
Definition VOLT_OFFSET_MSG : Z := 148.
Definition VOLT_GAIN_MSG : Z := 152.
Definition GND_OFFSET_MSG : Z := 156.
Definition GND_GAIN_MSG : Z := 160.
Definition SPARE_OFFSET_MSG : Z := 164.
Definition SPARE_GAIN_MSG : Z := 168.
Definition REG_OFFSET_MSG : Z := 172.
Definition REG_GAIN_MSG : Z := 176.
Definition ERR_OFFSET_MSG : Z := 180.
Definition ERR_GAIN_MSG : Z := 184.
Definition OVC1_THRESH_MSG : Z := 188.
Definition OVC2_THRESH_MSG : Z := 192.
Definition OVV_THRESH_MSG : Z := 196.
Definition ERR1_THRESH_MSG : Z := 200.
Definition ERR2_THRESH_MSG : Z := 204.
Definition IGND_THRESH_MSG : Z := 208.
Definition OVC1_CNTLIM_MSG : Z := 212.
Definition OVC2_CNTLIM_MSG : Z := 216.
Definition OVV_CNTLIM_MSG : Z := 220.
Definition ERR1_CNTLIM_MSG : Z := 224.
Definition ERR2_CNTLIM_MSG : Z := 228.
Definition IGND_CNTLIM_MSG : Z := 232.
Definition DCCT_CNTLIM_MSG : Z := 236.
Definition FLT1_CNTLIM_MSG : Z := 240.
Definition FLT2_CNTLIM_MSG : Z := 244.
Definition FLT3_CNTLIM_MSG : Z := 248.
Definition ON_CNTLIM_MSG : Z := 252.
Definition HEART_CNTLIM_MSG : Z := 256.
Definition FAULT_CLEAR_MSG : Z := 260.
Definition FAULT_MASK_MSG : Z := 264.
Definition DIGOUT_ON1_MSG : Z := 268.
Definition DIGOUT_ON2_MSG : Z := 272.
Definition DIGOUT_RESET_MSG : Z := 276.
Definition DIGOUT_SPARE_MSG : Z := 280.
Definition DIGOUT_PARK_MSG : Z := 284.
Definition SF_AMPS_PER_SEC_MSG : Z := 300.
Definition SF_DAC_DCCTS_MSG : Z := 304.
Definition SF_VOUT_MSG : Z := 308.
Definition SF_IGND_MSG : Z := 312.
Definition SF_SPARE_MSG : Z := 316.
Definition SF_REGULATOR_MSG : Z := 320.
Definition SF_ERROR_MSG : Z := 324.
Definition FOFB_FASTADDR_MSG : Z := 330.
Definition USR_TRIG_MSG : Z := 340.
Definition AVE_MODE_MSG : Z := 350.
Definition WRITE_QSPI_MSG : Z := 400.
Definition READ_QSPI_MSG : Z := 404.
Definition DUMP_ADCS_MSG : Z := 500.
Definition WRITE_RAMPTABLE_MSG : Z := 1000.

(** ** [snapshot.h]: message identifiers and lengths *)

Definition MSGWFMSTATS : Z := 50.
Definition MSGWFMSTATSLEN : Z := 500.
Definition MSGUSRCH1 : Z := 60.
Definition MSGUSRCH2 : Z := 61.
Definition MSGUSRCH3 : Z := 62.
Definition MSGUSRCH4 : Z := 63.
Definition MSGFLTCH1 : Z := 70.
Definition MSGFLTCH2 : Z := 71.
Definition MSGFLTCH3 : Z := 72.
Definition MSGFLTCH4 : Z := 73.
Definition MSGERRCH1 : Z := 80.
Definition MSGERRCH2 : Z := 81.
Definition MSGERRCH3 : Z := 82.
Definition MSGERRCH4 : Z := 83.
Definition MSGINJCH1 : Z := 90.
Definition MSGINJCH2 : Z := 91.
Definition MSGINJCH3 : Z := 92.
Definition MSGINJCH4 : Z := 93.
Definition MSGEVRCH1 : Z := 100.
Definition MSGEVRCH2 : Z := 101.
Definition MSGEVRCH3 : Z := 102.
Definition MSGEVRCH4 : Z := 103.
Definition MSGWFMLEN : Z := 4000000.
Definition MSGINJWFMLEN : Z := 40000.

(** ** The map as lists, for the facts below *)

Definition global_regs : list Z :=
  [FPGAVER_REG; LEDS_REG; RESOLUTION_REG; NUMCHANS_REG; BANDWIDTH_REG;
   POLARITY_REG; NCO_STEPSIZE_REG; TENKHZ_FREQ_REG; EVR_INJ_EVENTNUM_REG;
   EVR_PM_EVENTNUM_REG; EVR_1HZ_EVENTNUM_REG; EVR_10HZ_EVENTNUM_REG;
   EVR_10KHZ_EVENTNUM_REG; ONEHZ_FREQ_REG; EVR_TS_S_REG; EVR_TS_NS_REG;
   EVR_RESET_REG; IOC_ACCESS_REG; TENHZ_DATASEND_REG; FOFB_IPADDR_REG;
   FOFB_PACKETS_RCVD_REG; FOFB_COMMAND_REG; FOFB_NONCE_REG; CH34_DUALMODE_REG;
   MAIN_DIPOLE_MODE_REG; SMOOTHRAMP_TYPE_REG; LIVE_TIME_REG;
   TENHZ_LIVE_TIME_REG].

Definition channel_regs : list Z :=
  [DCCT1_REG; DCCT2_REG; DACMON_REG; VOLT_REG; GND_REG; SPARE_REG; REG_REG;
   ERR_REG; DAC_SETPT_OFFSET_REG; DAC_SETPT_GAIN_REG; DAC_SETPT_REG;
   DAC_OPMODE_REG; DAC_CNTRL_REG; DAC_RESET_REG; DAC_RAMPLEN_REG;
   DAC_RAMPADDR_REG; DAC_RAMPDATA_REG; DAC_RUNRAMP_REG; DAC_RAMPACTIVE_REG;
   DAC_CURRSETPT_REG; DCCT1_OFFSET_REG; DCCT1_GAIN_REG; DCCT2_OFFSET_REG;
   DCCT2_GAIN_REG; DACMON_OFFSET_REG; DACMON_GAIN_REG; VOLT_OFFSET_REG;
   VOLT_GAIN_REG; GND_OFFSET_REG; GND_GAIN_REG; SPARE_OFFSET_REG;
   SPARE_GAIN_REG; REG_OFFSET_REG; REG_GAIN_REG; ERR_OFFSET_REG; ERR_GAIN_REG;
   OVC1_THRESH_REG; OVC2_THRESH_REG; OVV_THRESH_REG; ERR1_THRESH_REG;
   ERR2_THRESH_REG; IGND_THRESH_REG; OVC1_CNTLIM_REG; OVC2_CNTLIM_REG;
   OVV_CNTLIM_REG; ERR1_CNTLIM_REG; ERR2_CNTLIM_REG; IGND_CNTLIM_REG;
   DCCT_CNTLIM_REG; FLT1_CNTLIM_REG; FLT2_CNTLIM_REG; FLT3_CNTLIM_REG;
   ON_CNTLIM_REG; FAULT_CLEAR_REG; FAULT_MASK_REG; HEARTBEAT_CNTLIM_REG;
   DIGOUT_ON1_REG; DIGOUT_ON2_REG; DIGOUT_RESET_REG; DIGOUT_SPARE_REG;
   DIGOUT_PARK_REG; DIGIN_REG; FAULTS_LIVE_REG; FAULTS_LAT_REG; AVEMODE_REG;
   SMOOTH_PHASEINC_REG; DIGOUT_ON2_PULSEENB_REG; FOFB_FASTADDR_REG;
   FOFB_DACSETPT_REG; FOFB_SCALEFACTOR_REG; SMOOTH_LINEAR_LEN_REG;
   SMOOTH_CURVED_LEN_REG; SMOOTH_DY_HI_REG; SMOOTH_DY_LO_REG;
   SMOOTH_DY_PER_PT_HI_REG; SMOOTH_DY_PER_PT_LO_REG; MANCH_FIFO_RESET_REG;
   MANCH_FIFO_DATA_REG; MANCH_FIFO_WDCNT_REG].

Definition snapshot_regs : list Z :=
  [SNAPSHOT_ADDRPTR; SNAPSHOT_TOTALTRIGS; SOFTTRIG; TESTTRIG; USR1TRIG_BUFPTR;
   USR1TRIG_TS_S; USR1TRIG_TS_NS; USR2TRIG_BUFPTR; USR2TRIG_TS_S;
   USR2TRIG_TS_NS; USR3TRIG_BUFPTR; USR3TRIG_TS_S; USR3TRIG_TS_NS;
   USR4TRIG_BUFPTR; USR4TRIG_TS_S; USR4TRIG_TS_NS; FLT1TRIG_BUFPTR;
   FLT1TRIG_TS_S; FLT1TRIG_TS_NS; FLT2TRIG_BUFPTR; FLT2TRIG_TS_S;
   FLT2TRIG_TS_NS; FLT3TRIG_BUFPTR; FLT3TRIG_TS_S; FLT3TRIG_TS_NS;
   FLT4TRIG_BUFPTR; FLT4TRIG_TS_S; FLT4TRIG_TS_NS; ERR1TRIG_BUFPTR;
   ERR1TRIG_TS_S; ERR1TRIG_TS_NS; ERR2TRIG_BUFPTR; ERR2TRIG_TS_S;
   ERR2TRIG_TS_NS; ERR3TRIG_BUFPTR; ERR3TRIG_TS_S; ERR3TRIG_TS_NS;
   ERR4TRIG_BUFPTR; ERR4TRIG_TS_S; ERR4TRIG_TS_NS; INJ1TRIG_BUFPTR;
   INJ1TRIG_TS_S; INJ1TRIG_TS_NS; INJ2TRIG_BUFPTR; INJ2TRIG_TS_S;
   INJ2TRIG_TS_NS; INJ3TRIG_BUFPTR; INJ3TRIG_TS_S; INJ3TRIG_TS_NS;
   INJ4TRIG_BUFPTR; INJ4TRIG_TS_S; INJ4TRIG_TS_NS; EVRTRIG_BUFPTR;
   EVRTRIG_TS_S; EVRTRIG_TS_NS].

Definition module_regs : list Z :=
  [ID; VERSION; PRJ_ID; PRJ_VERSION; PRJ_SHASUM; PRJ_TIMESTAMP].

(** ** Facts *)

Lemma channel_regs_window : Forall (fun r => 0 <= r < CHBASEADDR) channel_regs.
Proof. by_compute. Qed.

Lemma global_regs_window : Forall (fun r => 0 <= r < CHBASEADDR) global_regs.
Proof. by_compute. Qed.

Lemma snapshot_regs_window :
  Forall (fun r => 5 * CHBASEADDR <= r < 0x1000) (snapshot_regs ++ module_regs).
Proof. by_compute. Qed.

Lemma register_lists_NoDup :
  NoDup channel_regs /\ NoDup global_regs /\ NoDup (snapshot_regs ++ module_regs).
Proof.
  repeat split; by_compute.
Qed.

(** The registers the firmware addresses: global, of channel 1..4, or of the
    snapshot and module blocks. *)
Inductive register : Type :=
| GlobalReg (r : Z)
| ChannelReg (chan r : Z)
| BlockReg (r : Z).

Definition valid_register (x : register) : Prop :=
  match x with
  | GlobalReg r => r ∈ global_regs
  | ChannelReg c r => 1 <= c <= 4 /\ r ∈ channel_regs
  | BlockReg r => r ∈ snapshot_regs ++ module_regs
  end.

Definition offset_of (x : register) : Z :=
  match x with
  | GlobalReg r | BlockReg r => r
  | ChannelReg c r => r + c * CHBASEADDR
  end.

Lemma offset_range x : valid_register x -> 0 <= offset_of x < 0x1000.
Proof.
  pose proof channel_regs_window as C. pose proof global_regs_window as G.
  pose proof snapshot_regs_window as S. rewrite list.Forall_forall in C, G, S.
  unfold CHBASEADDR in *.
  destruct x as [r|c r|r]; cbn.
  - intros H%G. lia.
  - intros [Hc H%C]. unfold CHBASEADDR. lia.
  - intros H%S. lia.
Qed.

(** The block an offset lies in: 0 global, 1..4 the channel, 5 the rest. *)
Definition block_of (x : register) : Z :=
  match x with
  | GlobalReg _ => 0
  | ChannelReg c _ => c
  | BlockReg _ => 5
  end.

Lemma block_offset x :
  valid_register x ->
  block_of x = Z.min 5 (offset_of x / CHBASEADDR).
Proof.
  pose proof channel_regs_window as C. pose proof global_regs_window as G.
  pose proof snapshot_regs_window as S. rewrite list.Forall_forall in C, G, S.
  destruct x as [r|c r|r]; cbn.
  - intros H%G. rewrite Z.div_small; lia.
  - intros [Hc H%C]. rewrite Z.div_add, Z.div_small by (unfold CHBASEADDR in *; lia). lia.
  - intros H%S. unfold CHBASEADDR in *. pose proof (Z.div_le_lower_bound r 512 5 ltac:(lia) ltac:(lia)). lia.
Qed.

(** No two registers of the map share an AXI
    address: the global registers, the four channel windows and the snapshot
    and module blocks are pairwise disjoint. *)
Theorem register_map_injective x y :
  valid_register x -> valid_register y -> offset_of x = offset_of y -> x = y.
Proof.
  intros Hx Hy E.
  assert (block_of x = block_of y) as B by (rewrite !block_offset, E by done; done).
  destruct x as [r|c r|r], y as [r'|c' r'|r']; cbn in *; subst; try f_equal; lia.
Qed.

Lemma register_map_injective_witness :
  valid_register (ChannelReg 3 DAC_SETPT_REG) /\
  ChannelReg 3 DAC_SETPT_REG = ChannelReg 3 0x28.
Proof.
  assert (valid_register (ChannelReg 3 DAC_SETPT_REG)) as H.
  { split; [lia|]. by_compute. }
  split; [exact H|].
  apply (register_map_injective (ChannelReg 3 DAC_SETPT_REG) (ChannelReg 3 0x28));
    [exact H|exact H|reflexivity].
Defined.
