(* ===== verification/World.v ===== *)
(** * State, environment and effects of the firmware

    What the components of the firmware share: the global state of the
    network thread, the environment it runs in (FPGA registers, DDR memory,
    FreeRTOS, lwIP, the QSPI and I2C drivers), the trace of its interactions
    with that environment, and the monad the operations are written in. *)

From Stdlib Require Import ZArith Lia Bool String Floats.SpecFloat.
From stdpp Require Import base list numbers strings.
From S2P Require Import Prelude CFloat Registers.

#[local] Open Scope Z_scope.

(** ** Data *)

(** [ScaleFactorType] of [local.h]; each [float] is kept as its bit pattern. *)
Record ScaleFactorType := ScaleFactor {
  ampspersec : Z;
  dac_dccts : Z;
  vout : Z;
  ignd : Z;
  spare : Z;
  regulator : Z;
  error : Z
}.

(** [TriggerInfo] and [TriggerTypes] of [snapshot.h]. *)
Record TriggerInfo := Trigger {
  addr : Z;
  addr_last : Z;
  pretrigpts : Z;
  posttrigpts : Z;
  active : Z;
  postdlycnt : Z;
  sendbuf : Z;
  msgID : Z;
  channum : Z;
  trigcnt : Z
}.

Record TriggerTypes := Triggers {
  usr : list TriggerInfo;
  flt : list TriggerInfo;
  err : list TriggerInfo;
  inj : list TriggerInfo;
  evr : list TriggerInfo
}.

(** The globals of [main.c] and [i2c.c]. *)
Record globals := Globals {
  scalefactors : list ScaleFactorType;
  CONVVOLTSTODACBITS : Z;
  CONVDACBITSTOVOLTS : Z;
  smoothramp_type : Z;
  smoothramp_percentcurved : Z;
  git_hash : Z
}.

(** The file-scope and function-scope [static] variables of [pscdata.c],
    [bpc.c] and [sadata.c]. *)
Record pscdata := PscData {
  last_fast : Z;
  last_slow : Z;
  bpc_enabled : bool;
  bpc_msg : list Z;
  sadata_msg : list Z
}.

(** The [static] variables of [snapshots.c]. *)
Record snapshots := Snapshots {
  snapshot_trig : TriggerTypes;
  msgUsr_buf : list (list Z);
  msgFlt_buf : list (list Z);
  msgErr_buf : list (list Z);
  msgInj_buf : list (list Z);
  msgWfmStats_buf : list Z
}.

(** [struct psc_key] of [listener.c]; the peer address is only printed. *)
Record psc_key := PscKey {
  listen_sock : Z;
  client_sock : Z;
  last_rx_tick : Z;
  rxbuf : list Z
}.

(** ** The environment *)

Inductive io_answer := IoErr (errno : positive) | IoLen (n : N).
Inductive rx_answer := RxErr (errno : positive) | RxBytes (bs : list Z).

(** An argument of a formatted print: an integer or a string. *)
Inductive print_arg := AInt (z : Z) | AStr (s : list Z).

(** The operations on the memory card's file system. *)
Inductive fat_op :=
| FMount (root : string) | FUnmount (root : string) | FChdir (root : string)
| FOpen (name : string) (mode : Z) | FClose | FLseek (ofs : Z) | FTruncate | FSync
| FUnlink (name : string).

(** The set-up of the network interface and its timers. *)
Inductive net_op :=
| lwip_init | xemac_add | netif_set_default | netif_set_up | sys_thread_new (name : string)
| dhcp_start | dhcp_fine_tmr | dhcp_coarse_tmr
| tcpip_callback (f : string)
| udp_new_ip_type | udp_bind (port : Z) | udp_recv (f : string) | udp_remove
| pbuf_alloc_reference (bs : list Z).

(** The set-up of the drivers; option words by the names of the drivers. *)
Inductive driver_op :=
| XIicPs_LookupConfig (bus : Z) | XIicPs_CfgInitialize (bus : Z) | XIicPs_SetSClk (bus hz : Z)
| XQspiPs_LookupConfig | XQspiPs_CfgInitialize | XQspiPs_SetOptions (opts : list string)
| XQspiPs_SetClkPrescaler (p : string) | XQspiPs_SetSlaveSelect
| XSysMon_LookupConfig | XSysMon_CfgInitialize | XSysMon_SetSequencerMode (mode : string)
| XSysMon_SetAvg (avg : string) | XSysMon_SetSeqAvgEnables (ch : string)
| XSysMon_SetSeqChEnables (ch : string) | XSysMon_SetAdcClkDivisor (d : Z).

(** The answers of drivers that work: there is a configuration, success. *)
Definition default_driver (op : driver_op) : Z :=
  match op with XIicPs_LookupConfig _ | XQspiPs_LookupConfig | XSysMon_LookupConfig => 1 | _ => 0 end.

(** The fields of [server_netif] that are shown. *)
Inductive netif_field := ip_addr | netmask | gateway.

(** An interaction with the outside, as the program observes it. *)
Inductive event :=
| EIn32 (a v : Z)                          (* Xil_In32 *)
| EOut32 (a v : Z)                         (* Xil_Out32 *)
| ELoad (a v : Z)                          (* a load from DDR *)
| EInvalidate (a len : Z)                  (* Xil_DCacheInvalidateRange *)
| ETick (t : Z)                            (* xTaskGetTickCount *)
| ESleep (ms : Z)                          (* sys_msleep *)
| ESend (sock : Z) (bs : list Z) (r : io_answer)
| ERecv (sock : Z) (want : Z) (r : rx_answer)
| ESelect (rd : list Z) (r : option (list Z))
| EAccept (sock : Z) (r : option Z)
| ESetsockopt (sock opt : Z)
| EShutdown (sock : Z)
| EClose (sock : Z)
| EQspi (tx rx : list Z)                   (* XQspiPs_PolledTransfer *)
| EI2cBusy (bus : Z) (b : bool)            (* XIicPs_BusIsBusy *)
| EDelay (us : Z)                          (* usleep *)
| EI2cSend (bus dev : Z) (bs : list Z)     (* XIicPs_MasterSendPolled *)
| EI2cRecv (bus dev : Z) (bs : list Z)     (* XIicPs_MasterRecvPolled *)
| EUartReady (b : bool)                    (* XUartPs_IsReceiveData *)
| EUartRx (c : Z)                          (* inbyte, XUartPs_ReadReg of the FIFO *)
| EUartTx (c : Z)                          (* XUartPs_SendByte *)
| EScanf (r : option (list Z))             (* a word read by scanf("%9s") *)
| EPrint (fmt : string) (args : list print_arg)  (* printf, xil_printf of the console *)
| ETaskDelay (ticks : Z)                   (* vTaskDelay *)
| EMalloc (n : nat) (ok : bool)            (* malloc *)
| EFat (op : fat_op) (res : Z)             (* f_mount, f_open, ...: the FRESULT *)
| EFatRead (res : Z) (bs : list Z)         (* f_read *)
| EFatWrite (bs : list Z) (res n : Z)      (* f_write *)
| ESocket (r : option Z)                   (* socket *)
| EBind (sock port : Z) (ok : bool)        (* bind *)
| EListen (sock : Z) (ok : bool)           (* listen *)
| ENet (op : net_op) (res : Z)             (* lwIP and its FreeRTOS port *)
| EDriver (op : driver_op) (res : Z).      (* the result, or whether there is a configuration *)

(** The statistics [lstats.c] reports.  The sensor values are the bit patterns
    of the [float]s the system monitor's driver computes. *)
Inductive stat :=
| NThread | LinkXmit | LinkRecv | LinkDrop | LinkChkerr | LinkMemerr | LinkProterr | LinkErr
| MemErr | MemAvail | MemUsed | MemMax | MemIllegal
| XmonReady | SensorTemp | SensorVccint | SensorVccaux
| HeapAvail | HeapLargest | HeapLowest | HeapAllocs | HeapFrees.

(** What [uxTaskGetSystemState] reports of a task, [TaskStatus_t]. *)
Record TaskStatus := Task {
  pcTaskName : list Z;
  eCurrentState : Z;
  uxCurrentPriority : Z;
  usStackHighWaterMark : Z;
  ulRunTimeCounter : Z
}.

(** What the code under [src/sw] calls but does not define: each answer is an
    arbitrary function of everything the program did before.  The operations
    below bring an answer into the range of its C type. *)
Class Env := {
  XPAR_M_AXI_BASEADDR : Z;
  pdMS_TO_TICKS : Z -> Z;                 (* FreeRTOS: milliseconds in ticks *)
  portTICK_PERIOD_MS : Z;
  DHCP_FINE_TIMER_MSECS : Z;              (* lwIP: the periods of its DHCP timers *)
  DHCP_COARSE_TIMER_SECS : Z;
  EIO : positive;
  EMSGSIZE : positive;
  ENOTCONN : positive;
  env_in32 : list event -> Z -> Z;
  env_load32 : list event -> Z -> Z;
  env_tick : list event -> Z;
  env_send : list event -> Z -> list Z -> io_answer;
  env_recv : list event -> Z -> Z -> rx_answer;
  env_select : list event -> list Z -> option (list Z);
  env_accept : list event -> Z -> option Z;
  env_qspi : list event -> list Z -> list Z;
  env_i2c_busy : list event -> Z -> bool;
  env_i2c_recv : list event -> Z -> Z -> nat -> list Z;
  (** the contents of an uninitialised local array *)
  env_uninit : list event -> nat -> list Z;
  (** whether [malloc] finds a block of that many bytes *)
  env_malloc : list event -> nat -> bool;
  (** what the operating system, lwIP and the system monitor report, by name
      below; [env_ip_text] is [inet_ntoa] of the interface's address *)
  env_stat : list event -> stat -> Z;
  env_ip_text : list event -> list Z;
  (** the serial console: whether a character has arrived, and which *)
  env_uart_ready : list event -> bool;
  env_uart_rx : list event -> Z;
  (** the next word on the standard input, if there is one *)
  env_scanf : list event -> option (list Z);
  (** the [float] nearest to a decimal constant, in the rounding of the C
      library, as its bits *)
  env_strtof : list Z -> Z;
  env_tasks : list event -> list TaskStatus * Z;
  (** the memory card: results, what is read, how much is written, and the
      lines [f_gets] returns of an open file *)
  env_fat : list event -> fat_op -> Z;
  env_fat_read : list event -> nat -> Z * list Z;
  env_fat_write : list event -> list Z -> Z * Z;
  env_fat_lines : list event -> list (list Z);
  (** creating the listening socket: [mem_calloc], [socket], [bind], [listen] *)
  env_calloc : list event -> bool;
  env_socket : list event -> option Z;
  env_bind : list event -> Z -> Z -> bool;
  env_listen : list event -> Z -> bool;
  (** the network interface: results, addresses, [inet_ntoa] *)
  env_net : list event -> net_op -> Z;
  env_netif : list event -> netif_field -> Z;
  env_driver : list event -> driver_op -> Z;
  env_ntoa : Z -> list Z;
  (** a bound on the number of times a polling loop is followed *)
  env_patience : nat
}.

Record world := World {
  glob : globals;
  pdata : pscdata;
  snap : snapshots;
  key : psc_key;
  trace : list event      (* latest first *)
}.

Definition set_glob (g : globals) (w : world) := World g (pdata w) (snap w) (key w) (trace w).
Definition set_pdata (p : pscdata) (w : world) := World (glob w) p (snap w) (key w) (trace w).
Definition set_snap (s : snapshots) (w : world) := World (glob w) (pdata w) s (key w) (trace w).
Definition set_key (k : psc_key) (w : world) := World (glob w) (pdata w) (snap w) k (trace w).
Definition push (e : event) (w : world) := World (glob w) (pdata w) (snap w) (key w) (e :: trace w).

(** ** The monad *)

(** Undefined behaviour of C that the model detects. *)
Inductive fault := FloatToInt | DivByZero | OutOfBounds | IntOverflow | ShiftRange | NullPointer.

Inductive result (A : Type) : Type :=
| Done (a : A) (w : world)
| Fault (f : fault) (w : world)
| NoFuel (w : world).       (* a polling loop went on for [env_patience] turns *)
Arguments Done {A} a w.
Arguments Fault {A} f w.
Arguments NoFuel {A} w.

Definition M (A : Type) : Type := world -> result A.

Definition ret {A} (a : A) : M A := fun w => Done a w.
Definition fail {A} (f : fault) : M A := fun w => Fault f w.
Definition stuck {A} : M A := fun w => NoFuel w.
Definition bind {A B} (m : M A) (k : A -> M B) : M B :=
  fun w => match m w with
           | Done a w' => k a w'
           | Fault f w' => Fault f w'
           | NoFuel w' => NoFuel w'
           end.

Declare Scope psc_scope.
Delimit Scope psc_scope with psc.
Notation "'let!' x := m 'in' k" := (bind m (fun x => k))
  (at level 10, x name, m at level 200, k at level 200) : psc_scope.
Notation "m ;; k" := (bind m (fun _ => k))
  (at level 100, k at level 200, right associativity) : psc_scope.
#[global] Open Scope psc_scope.

Definition gets {A} (f : world -> A) : M A := fun w => Done (f w) w.
Definition modify (f : world -> world) : M unit := fun w => Done tt (f w).
Definition log (e : event) : M unit := modify (push e).

(** [Some] or the fault. *)
Definition the {A} (f : fault) (o : option A) : M A :=
  match o with Some a => ret a | None => fail f end.

Definition when (b : bool) (m : M unit) : M unit := if b then m else ret tt.

(** [for (i = from; ...; i++)], [n] turns. *)
Fixpoint for_up (n : nat) (i : Z) (body : Z -> M unit) : M unit :=
  match n with
  | O => ret tt
  | S n => body i ;; for_up n (i + 1) body
  end.

Fixpoint seq_all (ms : list (M unit)) : M unit :=
  match ms with
  | [] => ret tt
  | m :: ms => m ;; seq_all ms
  end.

(** The state a computation ends in, however it ends. *)
Definition final {A} (r : result A) : world :=
  match r with Done _ w | Fault _ w | NoFuel w => w end.

(** ** Primitive operations *)

Section Primitives.
Context {env : Env}.

Definition Xil_In32 (a : Z) : M Z := fun w =>
  let v := u32 (env_in32 (trace w) (u32 a)) in
  Done v (push (EIn32 (u32 a) v) w).

Definition Xil_Out32 (a v : Z) : M unit := log (EOut32 (u32 a) (u32 v)).

(** A [u32] load from a DDR address. *)
Definition load32 (a : Z) : M Z := fun w =>
  let v := u32 (env_load32 (trace w) (u32 a)) in
  Done v (push (ELoad (u32 a) v) w).

Definition Xil_DCacheInvalidateRange (a len : Z) : M unit := log (EInvalidate a len).

Definition xTaskGetTickCount : M Z := fun w =>
  let t := u32 (env_tick (trace w)) in
  Done t (push (ETick t) w).

Definition sys_msleep (ms : Z) : M unit := log (ESleep ms).

(** [send]: at most the whole buffer is accepted. *)
Definition sock_send (sock : Z) (bs : list Z) : M io_answer := fun w =>
  let r := match env_send (trace w) sock bs with
           | IoErr e => IoErr e
           | IoLen n => IoLen (N.min n (N.of_nat (length bs)))
           end in
  Done r (push (ESend sock bs r) w).

(** [recv]: at most [want] bytes arrive; none means the peer closed. *)
Definition sock_recv (sock : Z) (want : Z) : M rx_answer := fun w =>
  let r := match env_recv (trace w) sock want with
           | RxErr e => RxErr e
           | RxBytes bs => RxBytes (take (Z.to_nat want) (u8 <$> bs))
           end in
  Done r (push (ERecv sock want r) w).

(** [select]: the ready descriptors are among those asked for. *)
Definition sock_select (rd : list Z) : M (option (list Z)) := fun w =>
  let r := match env_select (trace w) rd with
           | None => None
           | Some l => Some (filter (fun s => s ∈ rd) l)
           end in
  Done r (push (ESelect rd r) w).

(** [accept]: a descriptor, or [None] for [-1]. *)
Definition sock_accept (sock : Z) : M (option Z) := fun w =>
  let r := match env_accept (trace w) sock with
           | Some s => if s <? 0 then None else Some s
           | None => None
           end in
  Done r (push (EAccept sock r) w).

Definition sock_setsockopt (sock opt : Z) : M unit := log (ESetsockopt sock opt).
Definition sock_shutdown (sock : Z) : M unit := log (EShutdown sock).
Definition sock_close (sock : Z) : M unit := log (EClose sock).

(** A full-duplex SPI transfer of [length tx] bytes. *)
Definition XQspiPs_PolledTransfer (tx : list Z) : M (list Z) := fun w =>
  let rx := take (length tx) ((u8 <$> env_qspi (trace w) tx) ++ replicate (length tx) 0) in
  Done rx (push (EQspi tx rx) w).

Definition XIicPs_BusIsBusy (bus : Z) : M bool := fun w =>
  let b := env_i2c_busy (trace w) bus in Done b (push (EI2cBusy bus b) w).

Definition usleep (us : Z) : M unit := log (EDelay us).

Definition XIicPs_MasterSendPolled (bus dev : Z) (bs : list Z) : M unit :=
  log (EI2cSend bus dev bs).

Definition XIicPs_MasterRecvPolled (bus dev : Z) (len : nat) : M (list Z) := fun w =>
  let rx := take len ((u8 <$> env_i2c_recv (trace w) bus dev len) ++ replicate len 0) in
  Done rx (push (EI2cRecv bus dev rx) w).

Definition XUartPs_IsReceiveData : M bool := fun w =>
  let b := env_uart_ready (trace w) in Done b (push (EUartReady b) w).

(** A character from the console, a [char] (unsigned on this target).
    [inbyte] waits until there is one. *)
Definition uart_rx : M Z := fun w =>
  let c := u8 (env_uart_rx (trace w)) in Done c (push (EUartRx c) w).
Definition inbyte : M Z := uart_rx.

Definition XUartPs_SendByte (c : Z) : M unit := log (EUartTx c).

Definition print (fmt : string) (args : list print_arg) : M unit := log (EPrint fmt args).

Definition vTaskDelay (ticks : Z) : M unit := log (ETaskDelay ticks).

Definition fat (op : fat_op) : M Z := fun w =>
  let r := env_fat (trace w) op in Done r (push (EFat op r) w).

(** [f_read] of at most [n] bytes. *)
Definition f_read (n : nat) : M (Z * list Z) := fun w =>
  let '(r, bs) := env_fat_read (trace w) n in
  let bs := take n (u8 <$> bs) in
  Done (r, bs) (push (EFatRead r bs) w).

(** [f_write]: the result and the number of bytes written. *)
Definition f_write (bs : list Z) : M (Z * Z) := fun w =>
  let '(r, n) := env_fat_write (trace w) bs in
  Done (r, n) (push (EFatWrite bs r n) w).

(** [socket]: a descriptor, or [None] for [-1]. *)
Definition sock_socket : M (option Z) := fun w =>
  let r := match env_socket (trace w) with
           | Some s => if s <? 0 then None else Some s
           | None => None
           end in
  Done r (push (ESocket r) w).

Definition sock_bind (sock port : Z) : M bool := fun w =>
  let ok := env_bind (trace w) sock port in Done ok (push (EBind sock port ok) w).

Definition sock_listen (sock : Z) : M bool := fun w =>
  let ok := env_listen (trace w) sock in Done ok (push (EListen sock ok) w).

Definition driver (op : driver_op) : M Z := fun w =>
  let r := env_driver (trace w) op in Done r (push (EDriver op r) w).

Definition net (op : net_op) : M Z := fun w =>
  let r := env_net (trace w) op in Done r (push (ENet op r) w).

(** [n] indeterminate bytes: the contents of a local array before its first
    write, or memory past the end of one. *)
Definition uninit (n : nat) : M (list Z) := fun w =>
  Done (take n ((u8 <$> env_uninit (trace w) n) ++ replicate n 0)) w.

(** A block of [n] bytes, indeterminate, or [NULL]. *)
Definition malloc (n : nat) : M (option (list Z)) := fun w =>
  let ok := env_malloc (trace w) n in
  let w := push (EMalloc n ok) w in
  Done (if ok then Some (take n ((u8 <$> env_uninit (trace w) n) ++ replicate n 0)) else None) w.

Definition os_stat (s : stat) : M Z := gets (fun w => u32 (env_stat (trace w) s)).

(** C arithmetic on [int]: overflow is undefined. *)
Definition int_op (z : Z) : M Z := if fits_signed 32 z then ret z else fail IntOverflow.
Definition int_abs (z : Z) : M Z := int_op (Z.abs z).
End Primitives.

Abbreviation AXI := XPAR_M_AXI_BASEADDR.

(** ** Access to the scale factors *)

(** [scalefactors[chan-1]], [chan] a [u32]. *)
Definition sf_index (chan : Z) : nat := Z.to_nat (u32 (chan - 1)).

Definition get_sf (chan : Z) : M ScaleFactorType :=
  let! sfs := gets (fun w => scalefactors (glob w)) in
  the OutOfBounds (sfs !! sf_index chan).

Definition map_sf (f : list ScaleFactorType -> list ScaleFactorType) (g : globals) : globals :=
  Globals (f (scalefactors g)) (CONVVOLTSTODACBITS g) (CONVDACBITSTOVOLTS g)
    (smoothramp_type g) (smoothramp_percentcurved g) (git_hash g).

Definition set_sf (chan : Z) (f : ScaleFactorType -> ScaleFactorType) : M unit :=
  let! s := get_sf chan in
  modify (fun w => set_glob (map_sf (<[sf_index chan := f s]>) (glob w)) w).

(** ** The byte streams of a socket *)

(** The bytes the socket accepted, resp. delivered, in order. *)
Fixpoint sent_on (sock : Z) (tr : list event) : list Z :=
  match tr with
  | [] => []
  | ESend s bs (IoLen n) :: tr =>
      sent_on sock tr ++ (if s =? sock then take (N.to_nat n) bs else [])
  | _ :: tr => sent_on sock tr
  end.

Fixpoint received_on (sock : Z) (tr : list event) : list Z :=
  match tr with
  | [] => []
  | ERecv s _ (RxBytes bs) :: tr => received_on sock tr ++ (if s =? sock then bs else [])
  | _ :: tr => received_on sock tr
  end.

(** The state apart from the trace. *)
Definition state_of (w : world) := (glob w, pdata w, snap w, key w).
