(* ===== verification/Logic.v ===== *)
(** * Reasoning about computations

    Two judgements on the monad of [World.v], used by every component:
    - [respects R m]: whatever the environment answers and however [m] ends,
      the initial and final states are related by the preorder [R].  Frame
      properties ([keeps]) and properties of the emitted events ([emits]) are
      instances, and [respects_tac] proves them by following the code;
    - [wp m Q w]: run from [w], [m] returns normally, in [Q]. *)

From Stdlib Require Import ZArith Lia Bool.
From stdpp Require Import base list numbers.
From S2P Require Import Prelude CFloat Registers World.

#[local] Open Scope Z_scope.

(** ** Running *)

Lemma run_bind {A B} (m : M A) (k : A -> M B) w a w' :
  m w = Done a w' -> bind m k w = k a w'.
Proof. intros H. unfold bind. by rewrite H. Qed.

Lemma run_bind_fault {A B} (m : M A) (k : A -> M B) w f w' :
  m w = Fault f w' -> bind m k w = Fault f w'.
Proof. intros H. unfold bind. by rewrite H. Qed.

Lemma run_bind_eq {A B} (m : M A) (k : A -> M B) w :
  bind m k w = match m w with
               | Done a w' => k a w'
               | Fault f w' => Fault f w'
               | NoFuel w' => NoFuel w'
               end.
Proof. done. Qed.

Lemma run_ret {A B} (a : A) (k : A -> M B) w : bind (ret a) k w = k a w.
Proof. done. Qed.
Lemma run_gets {A B} (f : world -> A) (k : A -> M B) w : bind (gets f) k w = k (f w) w.
Proof. done. Qed.
Lemma run_some {A B} f (a : A) (k : A -> M B) w : bind (the f (Some a)) k w = k a w.
Proof. done. Qed.
Lemma run_out32 {env : Env} {B} a v (k : unit -> M B) w :
  bind (Xil_Out32 a v) k w = k tt (push (EOut32 (u32 a) (u32 v)) w).
Proof. done. Qed.
Lemma run_in32 {env : Env} {B} a (k : Z -> M B) w :
  bind (Xil_In32 a) k w =
  let v := u32 (env_in32 (trace w) (u32 a)) in k v (push (EIn32 (u32 a) v) w).
Proof. done. Qed.

Lemma run_tick {env : Env} {B} (k : Z -> M B) w :
  bind xTaskGetTickCount k w = let t := u32 (env_tick (trace w)) in k t (push (ETick t) w).
Proof. done. Qed.

Lemma run_net {env : Env} {B} op (k : Z -> M B) w :
  bind (net op) k w = let r := env_net (trace w) op in k r (push (ENet op r) w).
Proof. done. Qed.

(** A run that ends normally, taken apart. *)
Lemma bind_done {A B} (m : M A) (k : A -> M B) w b w' :
  bind m k w = Done b w' -> exists a w1, m w = Done a w1 /\ k a w1 = Done b w'.
Proof. unfold bind. destruct (m w) as [a w1| |]; [eauto|done..]. Qed.

Lemma the_done {A} f (o : option A) w a w' : the f o w = Done a w' -> o = Some a /\ w' = w.
Proof. destruct o; [|done]. by intros [= -> ->]. Qed.

Lemma int_op_done z w a w' : int_op z w = Done a w' -> a = z /\ w' = w /\ fits_signed 32 z = true.
Proof. unfold int_op. destruct (fits_signed 32 z) eqn:E; [|done]. by intros [= -> ->]. Qed.

Lemma bind_ext {A B} (m : M A) (k k' : A -> M B) w :
  (forall a w', m w = Done a w' -> k a w' = k' a w') -> bind m k w = bind m k' w.
Proof. intros H. unfold bind. destruct (m w); auto. Qed.

Lemma bind_assoc {A B C} (m : M A) (k : A -> M B) (h : B -> M C) w :
  bind (bind m k) h w = bind m (fun a => bind (k a) h) w.
Proof. unfold bind. by destruct (m w). Qed.

(** ** Preorders on states *)

Class WorldOrder (R : world -> world -> Prop) := {
  wo_refl : forall w, R w w;
  wo_trans : forall a b c, R a b -> R b c -> R a c
}.

Definition respects {A} (R : world -> world -> Prop) (m : M A) : Prop :=
  forall w, R w (final (m w)).

(** A part of the state is left alone. *)
Definition keeps {X} (f : world -> X) (w w' : world) : Prop := f w' = f w.

#[export] Instance keeps_order {X} (f : world -> X) : WorldOrder (keeps f).
Proof. split; unfold keeps; congruence. Qed.

(** The events added to the trace all satisfy [P]. *)
Definition emits (P : event -> Prop) (w w' : world) : Prop :=
  exists es, trace w' = es ++ trace w /\ Forall P es.

#[export] Instance emits_order P : WorldOrder (emits P).
Proof.
  split.
  - intros w. by exists [].
  - intros a b c (e1 & H1 & P1) (e2 & H2 & P2). exists (e2 ++ e1). split.
    + by rewrite H2, H1, app_assoc.
    + by apply Forall_app.
Qed.

Definition both (R S : world -> world -> Prop) (w w' : world) : Prop := R w w' /\ S w w'.

#[export] Instance both_order R S `{!WorldOrder R, !WorldOrder S} : WorldOrder (both R S).
Proof.
  split.
  - intros w. split; apply wo_refl.
  - intros a b c [] []. split; eapply wo_trans; eauto.
Qed.

Lemma emits_push (P : event -> Prop) e w : P e -> emits P w (push e w).
Proof. intros H. exists [e]. split; [done|by constructor]. Qed.

Lemma emits_mono (P Q : event -> Prop) w w' :
  (forall e, P e -> Q e) -> emits P w w' -> emits Q w w'.
Proof. intros H (es & E & F). exists es. split; [done|]. eapply Forall_impl; eauto. Qed.

(** ** Composition *)

Section Respects.
Context (R : world -> world -> Prop) {RO : WorldOrder R}.

Lemma respects_ret {A} (a : A) : respects R (ret a).
Proof. intros w. apply wo_refl. Qed.

Lemma respects_fail {A} f : respects R (fail (A := A) f).
Proof. intros w. apply wo_refl. Qed.

Lemma respects_stuck {A} : respects R (stuck (A := A)).
Proof. intros w. apply wo_refl. Qed.

Lemma respects_gets {A} (f : world -> A) : respects R (gets f).
Proof. intros w. apply wo_refl. Qed.

Lemma respects_the {A} f (o : option A) : respects R (the f o).
Proof. destruct o; [apply respects_ret|apply respects_fail]. Qed.

Lemma respects_modify f : (forall w, R w (f w)) -> respects R (modify f).
Proof. intros H w. apply H. Qed.

Lemma respects_log e : (forall w, R w (push e w)) -> respects R (log e).
Proof. apply respects_modify. Qed.

Lemma respects_bind {A B} (m : M A) (k : A -> M B) :
  respects R m -> (forall a, respects R (k a)) -> respects R (bind m k).
Proof.
  intros Hm Hk w. unfold bind. specialize (Hm w). destruct (m w) as [a w'| |]; [|done..].
  eapply wo_trans; [exact Hm|]. apply Hk.
Qed.

Lemma respects_int_op z : respects R (int_op z).
Proof. unfold int_op. destruct (fits_signed 32 z); [apply respects_ret|apply respects_fail]. Qed.

Lemma respects_when b m : (b = true -> respects R m) -> respects R (when b m).
Proof. destruct b; intros H; [by apply H|apply respects_ret]. Qed.

Lemma respects_for_up n i body :
  (forall j, respects R (body j)) -> respects R (for_up n i body).
Proof.
  intros H. revert i. induction n as [|n IH]; intros i; cbn [for_up].
  - apply respects_ret.
  - apply respects_bind; auto.
Qed.

Lemma respects_seq_all ms : Forall (respects R) ms -> respects R (seq_all ms).
Proof.
  induction 1 as [|m ms Hm _ IH]; cbn [seq_all]; [apply respects_ret|].
  apply respects_bind; auto.
Qed.

Context {env : Env}.

Lemma respects_in32 a :
  (forall v w, R w (push (EIn32 (u32 a) v) w)) -> respects R (Xil_In32 a).
Proof. intros H w. apply H. Qed.

Lemma respects_out32 a v :
  (forall w, R w (push (EOut32 (u32 a) (u32 v)) w)) -> respects R (Xil_Out32 a v).
Proof. apply respects_log. Qed.

Lemma respects_load32 a :
  (forall v w, R w (push (ELoad (u32 a) v) w)) -> respects R (load32 a).
Proof. intros H w. apply H. Qed.

Lemma respects_tick : (forall v w, R w (push (ETick v) w)) -> respects R xTaskGetTickCount.
Proof. intros H w. apply H. Qed.

Lemma respects_send s bs :
  (forall r w, R w (push (ESend s bs r) w)) -> respects R (sock_send s bs).
Proof. intros H w. apply H. Qed.

Lemma respects_recv s n :
  (forall r w, R w (push (ERecv s n r) w)) -> respects R (sock_recv s n).
Proof. intros H w. apply H. Qed.

Lemma respects_select rd :
  (forall r w, R w (push (ESelect rd r) w)) -> respects R (sock_select rd).
Proof. intros H w. apply H. Qed.

Lemma respects_accept s :
  (forall r w, R w (push (EAccept s r) w)) -> respects R (sock_accept s).
Proof. intros H w. apply H. Qed.

Lemma respects_uninit n : respects R (uninit n).
Proof. intros w. apply wo_refl. Qed.

Lemma respects_malloc n : (forall ok w, R w (push (EMalloc n ok) w)) -> respects R (malloc n).
Proof. intros H w. apply H. Qed.

Lemma respects_qspi tx :
  (forall rx w, R w (push (EQspi tx rx) w)) -> respects R (XQspiPs_PolledTransfer tx).
Proof. intros H w. apply H. Qed.

Lemma respects_i2c_busy b :
  (forall r w, R w (push (EI2cBusy b r) w)) -> respects R (XIicPs_BusIsBusy b).
Proof. intros H w. apply H. Qed.

Lemma respects_i2c_recv b d n :
  (forall rx w, R w (push (EI2cRecv b d rx) w)) -> respects R (XIicPs_MasterRecvPolled b d n).
Proof. intros H w. apply H. Qed.

Lemma respects_uart_ready :
  (forall b w, R w (push (EUartReady b) w)) -> respects R XUartPs_IsReceiveData.
Proof. intros H w. apply H. Qed.

Lemma respects_uart_rx : (forall c w, R w (push (EUartRx c) w)) -> respects R uart_rx.
Proof. intros H w. apply H. Qed.

Lemma respects_fat op : (forall r w, R w (push (EFat op r) w)) -> respects R (fat op).
Proof. intros H w. apply H. Qed.

Lemma respects_f_read n : (forall r bs w, R w (push (EFatRead r bs) w)) -> respects R (f_read n).
Proof. intros H w. unfold f_read. destruct (env_fat_read _ _). apply H. Qed.

Lemma respects_f_write bs : (forall r n w, R w (push (EFatWrite bs r n) w)) -> respects R (f_write bs).
Proof. intros H w. unfold f_write. destruct (env_fat_write _ _). apply H. Qed.

Lemma respects_socket : (forall r w, R w (push (ESocket r) w)) -> respects R sock_socket.
Proof. intros H w. apply H. Qed.

Lemma respects_sock_bind s p : (forall r w, R w (push (EBind s p r) w)) -> respects R (sock_bind s p).
Proof. intros H w. apply H. Qed.

Lemma respects_listen s : (forall r w, R w (push (EListen s r) w)) -> respects R (sock_listen s).
Proof. intros H w. apply H. Qed.

Lemma respects_driver op : (forall r w, R w (push (EDriver op r) w)) -> respects R (driver op).
Proof. intros H w. apply H. Qed.

Lemma respects_net op : (forall r w, R w (push (ENet op r) w)) -> respects R (net op).
Proof. intros H w. apply H. Qed.
End Respects.

Create HintDb respects.

(** Follow the code.  [side] closes the goals [R w (push e w)] and those of
    state updates. *)
Ltac respects_step side :=
  lazymatch goal with
  | |- respects _ (bind _ _) => apply respects_bind; [exact _| |intros ?]
  | |- respects _ (ret _) => apply respects_ret; exact _
  | |- respects _ (fail _) => apply respects_fail; exact _
  | |- respects _ stuck => apply respects_stuck; exact _
  | |- respects _ (gets _) => apply respects_gets; exact _
  | |- respects _ (the _ _) => apply respects_the; exact _
  | |- respects _ (int_op _) => apply respects_int_op; exact _
  | |- respects _ (int_abs _) => apply respects_int_op; exact _
  | |- respects _ (when _ _) => apply respects_when; [exact _|intros ?]
  | |- respects _ (for_up _ _ _) => apply respects_for_up; [exact _|intros ?]
  | |- respects _ (if ?b then _ else _) => destruct b eqn:?
  | |- respects _ (match ?x with _ => _ end) => destruct x eqn:?
  | |- respects _ (let _ := _ in _) => cbv zeta
  | |- respects _ (modify _) => apply respects_modify; intros ?; side
  | |- respects _ (log _) => apply respects_log; intros ?; side
  | |- respects _ (Xil_In32 _) => apply respects_in32; intros ? ?; side
  | |- respects _ (Xil_Out32 _ _) => apply respects_out32; intros ?; side
  | |- respects _ (load32 _) => apply respects_load32; intros ? ?; side
  | |- respects _ xTaskGetTickCount => apply respects_tick; intros ? ?; side
  | |- respects _ (sock_send _ _) => apply respects_send; intros ? ?; side
  | |- respects _ (sock_recv _ _) => apply respects_recv; intros ? ?; side
  | |- respects _ (sock_select _) => apply respects_select; intros ? ?; side
  | |- respects _ (sock_accept _) => apply respects_accept; intros ? ?; side
  | |- respects _ (sock_setsockopt _ _) => apply respects_log; intros ?; side
  | |- respects _ (sock_shutdown _) => apply respects_log; intros ?; side
  | |- respects _ (sock_close _) => apply respects_log; intros ?; side
  | |- respects _ (sys_msleep _) => apply respects_log; intros ?; side
  | |- respects _ (Xil_DCacheInvalidateRange _ _) => apply respects_log; intros ?; side
  | |- respects _ (uninit _) => apply respects_uninit; exact _
  | |- respects _ (malloc _) => apply respects_malloc; intros ? ?; side
  | |- respects _ (XQspiPs_PolledTransfer _) => apply respects_qspi; intros ? ?; side
  | |- respects _ (XIicPs_BusIsBusy _) => apply respects_i2c_busy; intros ? ?; side
  | |- respects _ (usleep _) => apply respects_log; intros ?; side
  | |- respects _ (XIicPs_MasterSendPolled _ _ _) => apply respects_log; intros ?; side
  | |- respects _ (XIicPs_MasterRecvPolled _ _ _) => apply respects_i2c_recv; intros ? ?; side
  | |- respects _ XUartPs_IsReceiveData => apply respects_uart_ready; intros ? ?; side
  | |- respects _ uart_rx => apply respects_uart_rx; intros ? ?; side
  | |- respects _ inbyte => apply respects_uart_rx; intros ? ?; side
  | |- respects _ (XUartPs_SendByte _) => apply respects_log; intros ?; side
  | |- respects _ (print _ _) => apply respects_log; intros ?; side
  | |- respects _ (vTaskDelay _) => apply respects_log; intros ?; side
  | |- respects _ (fat _) => apply respects_fat; intros ? ?; side
  | |- respects _ (f_read _) => apply respects_f_read; intros ? ? ?; side
  | |- respects _ (f_write _) => apply respects_f_write; intros ? ? ?; side
  | |- respects _ sock_socket => apply respects_socket; intros ? ?; side
  | |- respects _ (sock_bind _ _) => apply respects_sock_bind; intros ? ?; side
  | |- respects _ (sock_listen _) => apply respects_listen; intros ? ?; side
  | |- respects _ (driver _) => apply respects_driver; intros ? ?; side
  | |- respects _ (net _) => apply respects_net; intros ? ?; side
  | |- respects _ (get_sf _) => unfold get_sf
  | |- respects _ (set_sf _ _) => unfold set_sf
  | |- respects _ _ => solve [auto with respects]
  end.
Ltac respects_tac side := repeat (respects_step side).

(** ** The AXI window

    The linker script and the block design place the register block inside
    the address space: no register address wraps. *)
Class AxiWindow (env : Env) := axi_window : 0 <= AXI /\ AXI + 0x1000 <= 2 ^ 32.

Lemma axi_addr {env : Env} `{!AxiWindow env} off : 0 <= off < 0x1000 -> u32 (AXI + off) = AXI + off.
Proof. intros H. apply u32_small. pose proof axi_window. unfold is_u. lia. Qed.

(** The register accesses of a trace, latest first. *)
Definition reads_of (tr : list event) : list (Z * Z) :=
  omap (fun e => match e with EIn32 a v => Some (a, v) | _ => None end) tr.
Definition writes_of (tr : list event) : list (Z * Z) :=
  omap (fun e => match e with EOut32 a v => Some (a, v) | _ => None end) tr.

Lemma reads_of_app a b : reads_of (a ++ b) = reads_of a ++ reads_of b.
Proof. apply omap_app. Qed.
Lemma writes_of_app a b : writes_of (a ++ b) = writes_of a ++ writes_of b.
Proof. apply omap_app. Qed.

(** The value last written to a register, by its offset. *)
Fixpoint last_write (a : Z) (ws : list (Z * Z)) : option Z :=
  match ws with
  | [] => None
  | (b, v) :: ws => if b =? a then Some v else last_write a ws
  end.

(** ** Total correctness *)

Definition wp {A} (m : M A) (Q : A -> world -> Prop) (w : world) : Prop :=
  match m w with Done a w' => Q a w' | _ => False end.

Lemma wp_ret {A} (a : A) (Q : A -> world -> Prop) w : Q a w -> wp (ret a) Q w.
Proof. done. Qed.

Lemma wp_bind {A B} (m : M A) (k : A -> M B) Q w :
  wp m (fun a w' => wp (k a) Q w') w -> wp (bind m k) Q w.
Proof. unfold wp, bind. destruct (m w); [done|tauto..]. Qed.

Lemma wp_mono {A} (m : M A) (P Q : A -> world -> Prop) w :
  wp m P w -> (forall a w', P a w' -> Q a w') -> wp m Q w.
Proof. unfold wp. destruct (m w); auto. Qed.

Lemma wp_run {A} (m : M A) Q w : wp m Q w -> exists a w', m w = Done a w' /\ Q a w'.
Proof. unfold wp. destruct (m w); [eauto|tauto..]. Qed.

Lemma wp_and_respects {A} R (m : M A) Q w :
  respects R m -> wp m Q w -> wp m (fun a w' => Q a w' /\ R w w') w.
Proof. intros H. specialize (H w). unfold wp. destruct (m w); cbn in *; auto. Qed.

(** [for] loops: an invariant indexed by the loop variable. *)
Lemma wp_for_up (I : Z -> world -> Prop) n i body w :
  I i w ->
  (forall j w', i <= j < i + Z.of_nat n -> I j w' -> wp (body j) (fun _ w'' => I (j + 1) w'') w') ->
  wp (for_up n i body) (fun _ w' => I (i + Z.of_nat n) w') w.
Proof.
  revert i w. induction n as [|n IH]; intros i w Hi Hb; cbn [for_up].
  - apply wp_ret. by rewrite Z.add_0_r.
  - apply wp_bind. eapply wp_mono; [apply Hb; [lia|done]|].
    cbn. intros ? w' Hw. eapply wp_mono; [apply (IH (i + 1) w' Hw)|].
    + intros j w'' Hj. apply Hb. lia.
    + cbn. intros ? w'' H. replace (i + Z.of_nat (S n)) with (i + 1 + Z.of_nat n) by lia. done.
Qed.

(** ** Computations that always return *)

Definition returns {A} (m : M A) : Prop := forall w, wp m (fun _ _ => True) w.

Lemma returns_ret {A} (a : A) : returns (ret a).
Proof. done. Qed.

Lemma returns_bind {A B} (m : M A) (k : A -> M B) :
  returns m -> (forall a, returns (k a)) -> returns (bind m k).
Proof. intros Hm Hk w. apply wp_bind. eapply wp_mono; [apply Hm|]. intros a w' _. apply Hk. Qed.

Lemma returns_modify f : returns (modify f).
Proof. done. Qed.

Lemma returns_gets {A} (f : world -> A) : returns (gets f).
Proof. done. Qed.

Lemma returns_when b m : returns m -> returns (when b m).
Proof. by destruct b. Qed.

Lemma returns_for_up n i body : (forall j, returns (body j)) -> returns (for_up n i body).
Proof. intros H. revert i. induction n as [|n IH]; intros i; cbn [for_up]; [done|]. by apply returns_bind. Qed.

Lemma returns_seq_all ms : Forall returns ms -> returns (seq_all ms).
Proof. induction 1 as [|m ms Hm _ IH]; cbn [seq_all]; [done|]. by apply returns_bind. Qed.

Create HintDb returns.

Ltac returns_step :=
  lazymatch goal with
  | |- returns (bind _ _) => apply returns_bind; [|intros ?]
  | |- returns (ret _) => apply returns_ret
  | |- returns (gets _) => apply returns_gets
  | |- returns (when _ _) => apply returns_when
  | |- returns (for_up _ _ _) => apply returns_for_up; intros ?
  | |- returns (if ?b then _ else _) => destruct b eqn:?
  | |- returns (match ?x with _ => _ end) => destruct x eqn:?
  | |- returns (let _ := _ in _) => cbv zeta
  | |- returns (modify _) => apply returns_modify
  | |- returns (print _ _) => apply returns_modify
  | |- returns (log _) => apply returns_modify
  | |- returns (Xil_In32 _) => intros ?; exact I
  | |- returns (XIicPs_MasterSendPolled _ _ _) => apply returns_modify
  | |- returns (XIicPs_MasterRecvPolled _ _ _) => intros ?; exact I
  | |- returns (vTaskDelay _) => apply returns_modify
  | |- returns _ => solve [auto with returns]
  end.
Ltac returns_tac := repeat returns_step.

(** ** Hoare triples

    [triple P m Q E]: from a state in [P], [m] ends normally in [Q], or with a
    fault or out of fuel in [E]. *)

Definition triple {A} (P : world -> Prop) (m : M A) (Q : A -> world -> Prop) (E : world -> Prop) :=
  forall w, P w -> match m w with Done a w' => Q a w' | Fault _ w' | NoFuel w' => E w' end.

Lemma triple_ret {A} (a : A) (Q : A -> world -> Prop) E : triple (Q a) (ret a) Q E.
Proof. by intros w H. Qed.

Lemma triple_bind {A B} P (m : M A) R (k : A -> M B) Q E :
  triple P m R E -> (forall a, triple (R a) (k a) Q E) -> triple P (bind m k) Q E.
Proof.
  intros Hm Hk w Hw. unfold bind. specialize (Hm w Hw). destruct (m w) as [a w'| |]; [|done..].
  by apply Hk.
Qed.

Lemma triple_conseq {A} (P P' : world -> Prop) (m : M A) (Q Q' : A -> world -> Prop) E :
  triple P m Q E -> (forall w, P' w -> P w) -> (forall a w, Q a w -> Q' a w) -> triple P' m Q' E.
Proof. intros H HP HQ w Hw. specialize (H w (HP w Hw)). destruct (m w); auto. Qed.

Lemma triple_pre {A} (P P' : world -> Prop) (m : M A) Q E :
  triple P m Q E -> (forall w, P' w -> P w) -> triple P' m Q E.
Proof. intros H HP w Hw. exact (H w (HP w Hw)). Qed.

Lemma triple_gets {A B} (f : world -> A) P (k : A -> M B) Q E :
  (forall a, triple (fun w => P w /\ f w = a) (k a) Q E) -> triple P (bind (gets f) k) Q E.
Proof. intros H w Hw. unfold bind, gets. by apply (H (f w)). Qed.

Lemma triple_modify (f : world -> world) (Q : unit -> world -> Prop) E :
  triple (fun w => Q tt (f w)) (modify f) Q E.
Proof. by intros w H. Qed.

Lemma triple_when b P m (Q : world -> Prop) E :
  (b = true -> triple P m (fun _ => Q) E) -> (b = false -> forall w, P w -> Q w) ->
  triple P (when b m) (fun _ => Q) E.
Proof. destruct b; intros H1 H2; [by apply H1|]. intros w Hw. by apply H2. Qed.

(** A computation that respects [R], used where [R] carries [P] to [Q]. *)
Lemma triple_respects {A} R (m : M A) (P Q : world -> Prop) E :
  respects R m -> (forall w w', P w -> R w w' -> Q w') -> (forall w w', P w -> R w w' -> E w') ->
  triple P m (fun _ => Q) E.
Proof. intros H HQ HE w Hw. specialize (H w). destruct (m w); cbn in *; eauto. Qed.

(** What a relation carries goes along with a triple. *)
Lemma triple_frame {A} R (X : world -> Prop) (m : M A) P Q E :
  respects R m -> (forall w w', R w w' -> X w -> X w') -> triple P m Q E ->
  triple (fun w => X w /\ P w) m (fun a w => X w /\ Q a w) E.
Proof.
  intros Hr HX H w [Hx Hp]. specialize (Hr w). specialize (H w Hp).
  destruct (m w) as [a w'| |]; cbn in Hr; [|done..]. split; [exact (HX _ _ Hr Hx)|exact H].
Qed.

Lemma triple_pure {A} (p : Prop) P (m : M A) Q E :
  (p -> triple P m Q E) -> triple (fun w => p /\ P w) m Q E.
Proof. intros H w [Hp Hw]. exact (H Hp w Hw). Qed.

Lemma triple_wp {A} P (m : M A) Q E : (forall w, P w -> wp m Q w) -> triple P m Q E.
Proof. intros H w Hw. specialize (H w Hw). unfold wp in H. destruct (m w); tauto. Qed.

Lemma triple_seq_all (P E : world -> Prop) ms :
  Forall (fun m => triple P m (fun _ => P) E) ms -> triple P (seq_all ms) (fun _ => P) E.
Proof.
  induction 1 as [|m ms Hm _ IH]; cbn [seq_all]; [by intros w H|].
  eapply triple_bind; [exact Hm|by intros []].
Qed.

(** [for] loops: an invariant indexed by the loop variable. *)
Lemma triple_for_up (I : Z -> world -> Prop) E n i body :
  (forall j, i <= j < i + Z.of_nat n -> triple (I j) (body j) (fun _ => I (j + 1)) E) ->
  triple (I i) (for_up n i body) (fun _ => I (i + Z.of_nat n)) E.
Proof.
  revert i. induction n as [|n IH]; intros i H; cbn [for_up].
  - rewrite Z.add_0_r. by intros w Hw.
  - eapply triple_bind; [apply H; lia|]. intros [].
    replace (i + Z.of_nat (S n)) with (i + 1 + Z.of_nat n) by lia. apply IH. intros j Hj. apply H. lia.
Qed.

(** [T] says how a run ends: follow it where it returns, with the pattern
    [p] for what [T] says there. *)
Tactic Notation "run_ends" hyp(T) "as" simple_intropattern(p) :=
  cbv beta in T;
  match type of T with
  | match ?r with _ => _ end => destruct r as [[] ?|? ?|?]; [destruct T as p|destruct T..]
  end.
