(* ===== verification/Sim.v ===== *)
(** * A concrete environment

    An instance of [Env] that can be run: registers that read back the last
    value written (or an initial one), a clock, a socket that takes
    everything, one stream of incoming bytes.  The witnesses evaluate the
    model in variants of it; no theorem depends on it. *)

From Stdlib Require Import ZArith Lia Bool.
From stdpp Require Import base list numbers gmap.
From S2P Require Import Prelude CFloat Registers World Logic.

#[local] Open Scope Z_scope.

(** The last value written to an address. *)
Fixpoint last_out (a : Z) (tr : list event) : option Z :=
  match tr with
  | [] => None
  | EOut32 a' v :: tr => if a' =? a then Some v else last_out a tr
  | _ :: tr => last_out a tr
  end.

(** A register file with initial contents [init]. *)
Definition regfile (init : gmap Z Z) (tr : list event) (a : Z) : Z :=
  match last_out a tr with
  | Some v => v
  | None => default 0 (init !! a)
  end.

(** [S] arriving on [sock] in pieces of at most [n] bytes. *)
Definition stream_of (n : nat) (S : list Z) (tr : list event) (sock want : Z) : rx_answer :=
  RxBytes (take n (drop (length (received_on sock tr)) S)).

Definition sim_base : Z := 0x43C00000.

Definition sim_env_with (in32 : list event -> Z -> Z) (rx : list event -> Z -> Z -> rx_answer)
    (tx : list event -> Z -> list Z -> io_answer) : Env := {|
  XPAR_M_AXI_BASEADDR := sim_base;
  pdMS_TO_TICKS ms := ms * 100 / 1000; portTICK_PERIOD_MS := 10; DHCP_FINE_TIMER_MSECS := 500; DHCP_COARSE_TIMER_SECS := 60;
  EIO := 5;
  EMSGSIZE := 90;
  ENOTCONN := 107;
  env_in32 := in32;
  env_load32 := fun _ a => a;
  env_tick := fun tr => Z.of_nat (length tr);
  env_send := tx;
  env_recv := rx;
  env_select := fun _ rd => Some rd;
  env_accept := fun tr _ => Some (Z.of_nat (length tr) + 10);
  env_qspi := fun _ _ => [];
  env_i2c_busy := fun _ _ => false;
  env_i2c_recv := fun _ _ _ _ => [];
  env_uninit := fun _ _ => [];
  env_stat := fun _ _ => 0; env_ip_text := fun _ => [];
  env_uart_ready := fun _ => true; env_uart_rx := fun _ => 0; env_scanf := fun _ => None;
  env_strtof := fun _ => 0; env_tasks := fun _ => ([], 0);
  env_fat := fun _ _ => 1; env_fat_read := fun _ _ => (1, []); env_fat_write := fun _ _ => (1, 0);
  env_fat_lines := fun _ => [];
  env_malloc := fun _ _ => true; env_calloc := fun _ => true; env_socket := fun _ => Some 3; env_bind := fun _ _ _ => true;
  env_listen := fun _ _ => true; env_net := fun _ _ => 0; env_netif := fun _ _ => 0; env_driver := fun _ op => default_driver op; env_ntoa := fun _ => []; env_patience := 100
|}.

Definition sim_env (init : gmap Z Z) := sim_env_with (regfile init).

Definition send_all (tr : list event) (sock : Z) (bs : list Z) : io_answer :=
  IoLen (N.of_nat (length bs)).

(** Registers that always read the same values. *)
Definition rom_env (init : gmap Z Z) : Env :=
  sim_env_with (fun _ a => default 0 (init !! a)) (stream_of 3 []) send_all.

Definition sim : Env := sim_env ∅ (stream_of 3 []) send_all.

(** Scale factors of one, in high resolution; [f32_one] is 1.0f. *)
Definition f32_one : Z := 0x3F800000.
Definition sim_sf : ScaleFactorType :=
  ScaleFactor f32_one f32_one f32_one f32_one f32_one f32_one f32_one.

Definition zero_trigger : TriggerInfo := Trigger 0 0 0 0 0 0 0 0 0 0.
Definition zero_triggers : TriggerTypes :=
  let z := replicate 4 zero_trigger in Triggers z z z z z.

(** 52428.8f and its inverse, as [ReadHardwareFlavor] sets them. *)
Definition sim_v2d : Z := bits_of_f32 (to_float (flit double 524288 10)).
Definition sim_d2v : Z := bits_of_f32 (to_float (fdiv double (fofZ double 1) (flit double 524288 10))).

Definition sim_world : world := {|
  glob := Globals (replicate 4 sim_sf) sim_v2d sim_d2v 0 10 0;
  pdata := PscData 0 0 false (replicate 60 0) (replicate 1400 0);
  snap := Snapshots zero_triggers [] [] [] [] (replicate 500 0);
  key := PscKey 3 (-1) 0 (replicate 64 0);
  trace := []
|}.

#[export] Instance sim_env_axi in32 rx tx : AxiWindow (sim_env_with in32 rx tx).
Proof. split; vm_compute; congruence. Qed.
#[export] Instance sim_axi : AxiWindow sim := sim_env_axi _ _ _.
#[export] Instance rom_env_axi init : AxiWindow (rom_env init) := sim_env_axi _ _ _.

(** The simulated stream is a TCP stream in the sense used below. *)
Lemma stream_of_answer n S sock tr k want :
  received_on sock tr = take k S -> (k < length S)%nat ->
  stream_of n S tr sock want = RxBytes (take n (drop k S)).
Proof.
  intros H Hk. unfold stream_of. rewrite H, length_take. by rewrite Nat.min_l by lia.
Qed.
