(* ===== verification/PscMsg.v ===== *)
(** * PSC message framing ([pscmsg.c])

    A PSC message on the TCP stream is an 8-byte header ['P' 'S' id len]
    (network byte order) followed by [len] bytes.  The operations here send
    and receive whole messages over a stream socket that accepts and delivers
    bytes in pieces of any size.  Return codes are those of the C functions:
    0, or a positive error number. *)

From Stdlib Require Import ZArith Lia Bool.
From stdpp Require Import base list numbers.
From S2P Require Import Prelude CFloat Registers World Logic Sim.

#[local] Open Scope Z_scope.

Section PscMsg.
Context {env : Env}.

(** The [while(buflen)] loop of [psc_sendall]; [fuel] bounds its turns, and
    every turn that goes on has sent a byte, so [length buf] turns do. *)
Fixpoint sendall_loop (fuel : nat) (sock : Z) (buf : list Z) : M Z :=
  match buf with
  | [] => ret 0
  | _ =>
    match fuel with
    | O => stuck
    | S fuel =>
      let! r := sock_send sock buf in
      match r with
      | IoErr e => ret (Zpos e)
      | IoLen n =>
          if (n =? 0)%N then ret (Zpos ENOTCONN)
          else sendall_loop fuel sock (drop (N.to_nat n) buf)
      end
    end
  end.

Definition psc_sendall (sock : Z) (buf : list Z) : M Z :=
  sendall_loop (length buf) sock buf.

(** [psc_recvall]: the code and the bytes received so far, in order. *)
Fixpoint recvall_loop (fuel : nat) (sock : Z) (buflen : Z) (got : list Z) : M (Z * list Z) :=
  if buflen =? 0 then ret (0, got)
  else
    match fuel with
    | O => stuck
    | S fuel =>
      let! r := sock_recv sock buflen in
      match r with
      | RxErr e => ret (Zpos e, got)
      | RxBytes bs =>
          if Z.of_nat (length bs) =? 0 then ret (Zpos ENOTCONN, got)
          else recvall_loop fuel sock (buflen - Z.of_nat (length bs)) (got ++ bs)
      end
    end.

Definition psc_recvall (sock : Z) (buflen : Z) : M (Z * list Z) :=
  recvall_loop (Z.to_nat buflen) sock buflen [].

(** [psc_recvskip]: [buf] has 128 bytes, so a [psc_recvall] for more than
    that writes past it. *)
Definition recv_into (bufsize : Z) (sock : Z) (buflen : Z) : M Z :=
  let! r := psc_recvall sock buflen in
  if bufsize <? Z.of_nat (length r.2) then fail OutOfBounds else ret r.1.

Fixpoint recvskip_loop (fuel : nat) (sock : Z) (len : Z) : M Z :=
  match fuel with
  | O => stuck
  | S fuel =>
    if 128 <? len then
      let! r := recv_into 128 sock 128 in
      if r =? 0 then recvskip_loop fuel sock (len - 128)
      else recv_into 128 sock len
    else recv_into 128 sock len
  end.

Definition psc_recvskip (sock : Z) (len : Z) : M Z :=
  recvskip_loop (S (Z.to_nat (len / 128))) sock len.

(** [struct psc_header] on the wire. *)
Definition psc_header (msgid msglen : Z) : list Z :=
  [80; 83] ++ to_le 2 (htons (u16 msgid)) ++ to_le 4 (htonl (u32 msglen)).

Definition psc_sendhead (sock msgid msglen : Z) : M Z :=
  psc_sendall sock (psc_header msgid msglen).

(** [psc_sendmsg(sock, msgid, buf, msglen, flags)] sends the first [msglen]
    bytes of [buf]; the callers pass the length of what they built. *)
Definition psc_sendmsg (sock msgid : Z) (buf : list Z) (msglen : Z) : M Z :=
  let! r := psc_sendhead sock msgid msglen in
  if negb (r =? 0) then ret r
  else if Z.of_nat (length buf) <? msglen then fail OutOfBounds
  else psc_sendall sock (take (Z.to_nat msglen) buf).

Definition psc_sendmsgsingle (sock msgid regid : Z) (buf : list Z) (msglen : Z) : M Z :=
  let! r := psc_sendhead sock msgid (u32 (msglen + 4)) in
  if negb (r =? 0) then ret r
  else
    let regid := htonl regid in
    let! r := psc_sendall sock (to_le 4 regid) in
    if negb (r =? 0) then ret r
    else if Z.of_nat (length buf) <? msglen then fail OutOfBounds
    else psc_sendall sock (take (Z.to_nat msglen) buf).

(** [psc_recvhead]: on success the message id and length. *)
Definition psc_recvhead (sock : Z) : M (Z * option (Z * Z)) :=
  let! r := psc_recvall sock 8 in
  if negb (r.1 =? 0) then ret (r.1, None)
  else
    let B := r.2 in
    if negb (nth 0 B 0 =? 80) || negb (nth 1 B 0 =? 83) then ret (Zpos EIO, None)
    else ret (0, Some (htons (of_le (take 2 (drop 2 B))), htonl (of_le (take 4 (drop 4 B))))).

(** [psc_recvmsg]: the code, the header values the caller's [*msgid] and
    [*msglen] end up with if they were written, and the bytes that were
    written at the start of [buf]. *)
Record rx_msg := RxMsg { rx_code : Z; rx_head : option (Z * Z); rx_bytes : list Z }.

Definition psc_recvmsg (sock maxlen : Z) : M rx_msg :=
  let! r := psc_recvhead sock in
  match r.2 with
  | None => ret (RxMsg r.1 None [])
  | Some (mid, mlen) =>
      if maxlen <? mlen then ret (RxMsg (Zpos EMSGSIZE) (Some (mid, mlen)) [])
      else
        let! b := psc_recvall sock mlen in
        if negb (b.1 =? 0) then ret (RxMsg b.1 None b.2)
        else ret (RxMsg 0 (Some (mid, mlen)) b.2)
  end.
End PscMsg.

(** The events of the framing layer. *)
Definition io_on (sock : Z) (e : event) : Prop :=
  match e with
  | ESend s _ _ | ERecv s _ _ => s = sock
  | _ => False
  end.

Section Facts.
Context {env : Env}.

Abbreviation quiet sock := (both (keeps state_of) (emits (io_on sock))).

Ltac quiet_side := split; [done|by apply emits_push].

Lemma sendall_loop_quiet fuel sock buf : respects (quiet sock) (sendall_loop fuel sock buf).
Proof.
  revert buf. induction fuel as [|fuel IH]; intros [|b buf]; cbn [sendall_loop];
    respects_tac quiet_side.
Qed.

Lemma psc_sendall_quiet sock buf : respects (quiet sock) (psc_sendall sock buf).
Proof. apply sendall_loop_quiet. Qed.

Lemma recvall_loop_quiet fuel sock n got : respects (quiet sock) (recvall_loop fuel sock n got).
Proof.
  revert n got. induction fuel as [|fuel IH]; intros n got; cbn [recvall_loop];
    respects_tac quiet_side.
Qed.

Lemma psc_recvall_quiet sock n : respects (quiet sock) (psc_recvall sock n).
Proof. apply recvall_loop_quiet. Qed.
#[local] Hint Resolve psc_sendall_quiet psc_recvall_quiet : respects.

Lemma psc_sendmsg_quiet sock msgid buf len : respects (quiet sock) (psc_sendmsg sock msgid buf len).
Proof. unfold psc_sendmsg, psc_sendhead. respects_tac quiet_side. Qed.

Lemma psc_recvmsg_quiet sock maxlen : respects (quiet sock) (psc_recvmsg sock maxlen).
Proof. unfold psc_recvmsg, psc_recvhead. respects_tac quiet_side. Qed.

(** ** Sending *)

(** What [psc_sendall] promises: it returns; on success everything was
    accepted, on failure a strict prefix was. *)
Definition sendall_post (sock : Z) (buf : list Z) (w : world) (r : Z) (w' : world) : Prop :=
  exists k, sent_on sock (trace w') = sent_on sock (trace w) ++ take k buf /\
    0 <= r /\ if r =? 0 then k = length buf else (k < length buf)%nat.

Lemma sendall_loop_spec fuel sock buf w :
  (length buf <= fuel)%nat ->
  wp (sendall_loop fuel sock buf) (sendall_post sock buf w) w.
Proof.
  revert buf w. induction fuel as [|fuel IH]; intros [|b buf] w Hf; cbn [sendall_loop].
  - apply wp_ret. exists O. by rewrite app_nil_r.
  - cbn in Hf. lia.
  - apply wp_ret. exists O. by rewrite app_nil_r.
  - apply wp_bind. unfold wp at 1, sock_send. cbn beta iota zeta.
    destruct (env_send (trace w) sock (b :: buf)) as [e|n]; cbn beta iota.
    + apply wp_ret. exists O. cbn. rewrite app_nil_r. repeat split; [lia|lia].
    + set (m := N.min n _). destruct (N.eqb_spec m 0) as [E|E].
      * apply wp_ret. exists O. cbn. rewrite Z.eqb_refl, E, app_nil_r. cbn.
        repeat split; [by rewrite app_nil_r|lia..].
      * assert (N.to_nat m <= length (b :: buf))%nat as Hm by (unfold m; lia).
        eapply wp_mono; [apply IH; rewrite length_drop; lia|].
        intros r w' (k & Hs & Hr & Hk). exists (N.to_nat m + k)%nat.
        rewrite length_drop in Hk. split_and!; [|done|destruct (r =? 0); lia].
        rewrite Hs. cbn [trace push sent_on]. rewrite Z.eqb_refl, <- app_assoc. f_equal.
        rewrite <- (take_drop (N.to_nat m) (take (N.to_nat m + k) (b :: buf))).
        rewrite take_take, Nat.min_l by lia. by rewrite take_drop_commute.
Qed.

Lemma psc_sendall_spec sock buf w :
  wp (psc_sendall sock buf) (sendall_post sock buf w) w.
Proof. by apply sendall_loop_spec. Qed.

(** The frame of a message, as specified by the protocol: the letters "PS",
    the message id and the length of the payload in network byte order, and
    the payload. *)
Definition frame (msgid : Z) (payload : list Z) : list Z :=
  [80; 83] ++ big_endian 2 msgid ++ big_endian 4 (Z.of_nat (length payload)) ++ payload.

Lemma frame_header msgid payload :
  frame msgid payload = psc_header msgid (Z.of_nat (length payload)) ++ payload.
Proof.
  unfold frame, psc_header, htons, htonl, big_endian. rewrite !to_le_bswap, <- !app_assoc.
  unfold u16, u32, wrap. change (2 ^ 16) with (256 ^ Z.of_nat 2).
  change (2 ^ 32) with (256 ^ Z.of_nat 4). by rewrite !to_le_mod.
Qed.

Lemma psc_sendmsg_spec sock msgid buf w :
  wp (psc_sendmsg sock msgid buf (Z.of_nat (length buf)))
     (sendall_post sock (frame msgid buf) w) w.
Proof.
  unfold psc_sendmsg, psc_sendhead. apply wp_bind.
  set (h := psc_header msgid (Z.of_nat (length buf))).
  eapply wp_mono; [apply psc_sendall_spec|].
  intros r w1 (k & Hs & Hr & Hk). rewrite frame_header. fold h.
  destruct (Z.eqb_spec r 0) as [->|N]; cbn [negb].
  - rewrite Z.ltb_irrefl, Nat2Z.id, firstn_all.
    eapply wp_mono; [apply psc_sendall_spec|].
    intros r w2 (k2 & Hs2 & Hr2 & Hk2). exists (length h + k2)%nat.
    rewrite Hs2, Hs, Hk, firstn_all, take_app_add, length_app, app_assoc.
    split_and!; [done..|]. destruct (r =? 0); lia.
  - apply wp_ret. exists k. rewrite take_app_le by lia. rewrite length_app.
    split_and!; [done..|]. destruct (Z.eqb_spec r 0); lia.
Qed.

(** ** Receiving *)

(** What [psc_recvall] promises: it returns; the bytes are those the socket
    delivered, all [n] of them on success and fewer on failure. *)
Definition recvall_post (sock n : Z) (got : list Z) (w : world) (r : Z * list Z) (w' : world) : Prop :=
  exists bs, r.2 = got ++ bs /\ received_on sock (trace w') = received_on sock (trace w) ++ bs /\
    0 <= r.1 /\ if r.1 =? 0 then Z.of_nat (length bs) = n else Z.of_nat (length bs) < n.

Lemma recvall_loop_spec fuel sock n got w :
  0 <= n -> (Z.to_nat n <= fuel)%nat ->
  wp (recvall_loop fuel sock n got) (recvall_post sock n got w) w.
Proof.
  revert n got w. induction fuel as [|fuel IH]; intros n got w Hn Hf; cbn [recvall_loop];
    (destruct (Z.eqb_spec n 0) as [->|N];
      [apply wp_ret; exists []; rewrite !app_nil_r; cbn; repeat split; lia|]); [lia|].
  apply wp_bind. unfold wp at 1, sock_recv. cbn beta iota zeta.
  destruct (env_recv (trace w) sock n) as [e|bs]; cbn beta iota.
  - apply wp_ret. exists []. cbn. rewrite !app_nil_r. repeat split; lia.
  - set (c := take _ _). assert (length c <= Z.to_nat n)%nat as Hc
      by (unfold c; rewrite length_take; lia).
    destruct (Z.eqb_spec (Z.of_nat (length c)) 0) as [E|E].
    + apply wp_ret. exists []. destruct c; [|done]. cbn. rewrite Z.eqb_refl, !app_nil_r.
      repeat split; lia.
    + eapply wp_mono; [apply IH; lia|].
      intros r w' (bs' & Hr & Hs & H0 & Hk). exists (c ++ bs').
      rewrite Hr, Hs. cbn [trace push received_on]. rewrite Z.eqb_refl, !app_assoc, length_app.
      repeat split; [done|]. destruct (r.1 =? 0); lia.
Qed.

Lemma psc_recvall_spec sock n w :
  0 <= n -> wp (psc_recvall sock n) (recvall_post sock n [] w) w.
Proof. intros H. by apply recvall_loop_spec. Qed.

(** TCP delivery of [stream] on [sock], after [base]: as long as bytes are
    left, [recv] yields at least one of them, in order, in pieces of the
    network's choice. *)
Definition tcp_delivers (sock : Z) (base stream : list Z) : Prop :=
  forall tr want k, 0 < want -> (k < length stream)%nat ->
    received_on sock tr = base ++ take k stream ->
    exists n, (1 <= n)%nat /\ env_recv tr sock want = RxBytes (take n (drop k stream)).

Lemma tcp_delivers_skip sock base s1 s2 :
  tcp_delivers sock base (s1 ++ s2) -> tcp_delivers sock (base ++ s1) s2.
Proof.
  intros H tr want k Hw Hk Ht. destruct (H tr want (length s1 + k)%nat Hw) as (n & Hn & E).
  - rewrite length_app. lia.
  - by rewrite Ht, take_app_add, app_assoc.
  - exists n. split; [done|]. by rewrite E, drop_app_add.
Qed.

Lemma recvall_loop_delivers fuel sock got w base stream n :
  bytes_ok stream -> tcp_delivers sock base stream -> received_on sock (trace w) = base ->
  (n <= length stream)%nat -> (n <= fuel)%nat ->
  wp (recvall_loop fuel sock (Z.of_nat n) got)
     (fun r w' => r = (0, got ++ take n stream) /\
        received_on sock (trace w') = base ++ take n stream) w.
Proof.
  revert got w base stream n.
  induction fuel as [|fuel IH]; intros got w base stream n Hb Ht Hw Hn Hf; cbn [recvall_loop];
    (destruct (Z.eqb_spec (Z.of_nat n) 0) as [E|N];
      [replace n with O by lia; apply wp_ret; cbn; by rewrite !app_nil_r|]); [lia|].
  apply wp_bind. unfold wp at 1, sock_recv. cbn beta iota zeta.
  destruct (Ht (trace w) (Z.of_nat n) 0%nat) as (m & Hm & ->); [lia|lia|by rewrite app_nil_r|].
  cbn beta iota. rewrite drop_0.
  assert (u8 <$> take m stream = take m stream) as ->.
  { by apply bytes_ok_u8, Forall_take. }
  rewrite Nat2Z.id, take_take. set (j := Nat.min n m).
  assert (length (take j stream) = j) as Hj by (rewrite length_take; lia).
  rewrite Hj. destruct (Z.eqb_spec (Z.of_nat j) 0); [lia|].
  rewrite <- Nat2Z.inj_sub by lia.
  eapply wp_mono.
  - apply (IH _ _ (base ++ take j stream) (drop j stream)); [by apply Forall_drop| | | |lia].
    + apply tcp_delivers_skip. by rewrite take_drop.
    + cbn. by rewrite Z.eqb_refl, Hw.
    + rewrite length_drop. lia.
  - intros r w' [-> ->]. rewrite <- !app_assoc.
    assert (take j stream ++ take (n - j) (drop j stream) = take n stream) as ->; [|done].
    rewrite take_drop_commute. replace (j + (n - j))%nat with n by lia.
    rewrite <- (take_drop j (take n stream)) at 2. rewrite take_take. by rewrite Nat.min_l by lia.
Qed.

Lemma psc_recvall_delivers sock w base s1 s2 :
  bytes_ok s1 -> bytes_ok s2 -> tcp_delivers sock base (s1 ++ s2) -> received_on sock (trace w) = base ->
  wp (psc_recvall sock (Z.of_nat (length s1)))
     (fun r w' => r = (0, s1) /\ received_on sock (trace w') = base ++ s1) w.
Proof.
  intros H1 H2 Ht Hw. unfold psc_recvall. rewrite Nat2Z.id.
  eapply wp_mono; [eapply (recvall_loop_delivers _ sock [] w base (s1 ++ s2) (length s1))|].
  - by apply Forall_app.
  - done.
  - done.
  - rewrite length_app. lia.
  - lia.
  - cbn. by rewrite take_app_length.
Qed.

(** ** The header *)

Lemma length_psc_header msgid msglen : length (psc_header msgid msglen) = 8%nat.
Proof. unfold psc_header. by rewrite !length_app, !length_to_le. Qed.

Lemma psc_header_ok msgid msglen : bytes_ok (psc_header msgid msglen).
Proof.
  unfold psc_header. apply Forall_app; split.
  - repeat constructor; done.
  - apply Forall_app; split; apply to_le_bytes.
Qed.

(** Decoding of eight received bytes, as [psc_recvhead] does it. *)
Definition decode_header (B : list Z) : Z * option (Z * Z) :=
  if negb (nth 0 B 0 =? 80) || negb (nth 1 B 0 =? 83) then (Zpos EIO, None)
  else (0, Some (htons (of_le (take 2 (drop 2 B))), htonl (of_le (take 4 (drop 4 B))))).

Lemma decode_psc_header msgid msglen :
  is_u 16 msgid -> is_u32 msglen ->
  decode_header (psc_header msgid msglen) = (0, Some (msgid, msglen)).
Proof.
  intros Hi Hl. unfold decode_header, psc_header. cbn [app nth negb orb Z.eqb Pos.eqb drop].
  rewrite drop_0, (take_app_length' _ _ 2), (drop_app_length' _ _ 2) by (rewrite length_to_le; done).
  rewrite (firstn_all2 (n := 4)) by (rewrite length_to_le; lia).
  rewrite !of_le_to_le. unfold u16, u32. rewrite !wrap_small by done.
  change (256 ^ Z.of_nat 2) with (2 ^ 16). change (256 ^ Z.of_nat 4) with (2 ^ 32).
  rewrite (Z.mod_small (htons _)), (Z.mod_small (htonl _))
    by (apply (bswap_range 2) || apply (bswap_range 4)).
  rewrite htons_htons, htonl_htonl. unfold u16, u32. by rewrite !wrap_small.
Qed.

Lemma psc_recvhead_run sock w B w' :
  psc_recvall sock 8 w = Done (0, B) w' ->
  psc_recvhead sock w = Done (decode_header B) w'.
Proof.
  intros H. unfold psc_recvhead. rewrite (run_bind _ _ _ _ _ H). cbn [fst snd].
  change (0 =? 0) with true. cbn [negb]. unfold decode_header. by destruct (_ || _).
Qed.

(** ** [psc_recvmsg] *)

Lemma psc_recvmsg_total sock maxlen w :
  0 <= maxlen ->
  wp (psc_recvmsg sock maxlen)
     (fun r w' =>
        Z.of_nat (length (rx_bytes r)) <= maxlen /\ 0 <= rx_code r /\
        (rx_code r = 0 -> exists mid,
           rx_head r = Some (mid, Z.of_nat (length (rx_bytes r))))) w.
Proof.
  intros Hm. unfold psc_recvmsg. apply wp_bind.
  destruct (wp_run _ _ _ (psc_recvall_spec sock 8 w ltac:(lia)))
    as ([c B] & w1 & E1 & bs & HB & _ & H0 & Hc).
  cbn [fst snd] in *.
  destruct (Z.eqb_spec c 0) as [->|Nc].
  - unfold wp at 1. rewrite (psc_recvhead_run sock w B w1 E1). unfold decode_header.
    destruct (_ || _); cbn [fst snd].
    + apply wp_ret. cbn. repeat split; [lia|done..].
    + set (mid := htons _). set (mlen := htonl _). clearbody mid.
      pose proof (htonl_range (of_le (take 4 (drop 4 B)))) as Hr. fold mlen in Hr. clearbody mlen.
      destruct (Z.ltb_spec maxlen mlen); [apply wp_ret; cbn; repeat split; [lia|done..]|].
      apply wp_bind. eapply wp_mono; [apply psc_recvall_spec; unfold is_u in Hr; lia|].
      intros [c2 b] w2 (bs2 & Hb & _ & H2 & Hc2). cbn [fst snd] in *. subst b.
      destruct (Z.eqb_spec c2 0) as [->|N2]; cbn [negb].
      * apply wp_ret. cbn. repeat split; [lia|done|]. intros _. exists mid. by rewrite Hc2.
      * apply wp_ret. cbn. repeat split; [lia|done|lia].
  - unfold wp at 1, psc_recvhead. rewrite (run_bind _ _ _ _ _ E1). cbn [fst snd].
    destruct (Z.eqb_spec c 0); [lia|]. cbn [negb ret fst snd].
    apply wp_ret. cbn. repeat split; [lia|done|lia].
Qed.

(** Under TCP delivery the first eight bytes decide. *)
Lemma psc_recvmsg_header sock maxlen w B rest :
  length B = 8%nat -> bytes_ok B -> bytes_ok rest ->
  tcp_delivers sock (received_on sock (trace w)) (B ++ rest) ->
  exists w1, received_on sock (trace w1) = received_on sock (trace w) ++ B /\
    psc_recvmsg sock maxlen w =
      match decode_header B with
      | (c, None) => Done (RxMsg c None []) w1
      | (_, Some (mid, mlen)) =>
          if maxlen <? mlen then Done (RxMsg (Zpos EMSGSIZE) (Some (mid, mlen)) []) w1
          else (let! b := psc_recvall sock mlen in
                if negb (b.1 =? 0) then ret (RxMsg b.1 None b.2)
                else ret (RxMsg 0 (Some (mid, mlen)) b.2)) w1
      end.
Proof.
  intros HB Hok Hrest Ht.
  destruct (wp_run _ _ _ (psc_recvall_delivers sock w _ B rest Hok Hrest Ht eq_refl))
    as (r & w1 & E1 & -> & Hr).
  rewrite HB in E1. exists w1. split; [done|]. unfold psc_recvmsg.
  rewrite (run_bind _ _ _ _ _ (psc_recvhead_run sock w B w1 E1)).
  destruct (decode_header B) as [c [[mid mlen]|]]; cbn [snd fst]; [|done].
  by destruct (maxlen <? mlen).
Qed.

(** A whole frame on the stream is received as its message. *)
Lemma psc_recvmsg_frame sock maxlen w msgid payload rest :
  is_u 16 msgid -> bytes_ok payload -> bytes_ok rest ->
  Z.of_nat (length payload) < 2 ^ 32 -> Z.of_nat (length payload) <= maxlen ->
  tcp_delivers sock (received_on sock (trace w)) (frame msgid payload ++ rest) ->
  exists w',
    psc_recvmsg sock maxlen w = Done (RxMsg 0 (Some (msgid, Z.of_nat (length payload))) payload) w' /\
    received_on sock (trace w') = received_on sock (trace w) ++ frame msgid payload.
Proof.
  intros Hi Hp Hrest Hl Hmax Ht.
  rewrite frame_header in *. set (h := psc_header msgid _) in *.
  rewrite <- app_assoc in Ht.
  destruct (psc_recvmsg_header sock maxlen w h (payload ++ rest))
    as (w3 & Hr3 & ->); [apply length_psc_header|apply psc_header_ok|by apply Forall_app|done|].
  unfold h. rewrite decode_psc_header by (done || unfold is_u; lia).
  destruct (Z.ltb_spec maxlen (Z.of_nat (length payload))); [lia|].
  destruct (wp_run _ _ _ (psc_recvall_delivers sock w3 _ payload rest Hp Hrest
    (tcp_delivers_skip _ _ _ _ Ht) Hr3)) as (r & w4 & E & -> & Hr4).
  exists w4. rewrite (run_bind _ _ _ _ _ E). split; [done|]. by rewrite Hr4, <- app_assoc.
Qed.
End Facts.

(** ** Properties *)

(** C22. [psc_sendmsg] returns whatever the socket does, and puts exactly the
    frame of the message on the stream: all of it when it returns 0, a strict
    prefix when it returns an error; nothing but the stream is touched. *)
Theorem psc_sendmsg_exact {env : Env} sock msgid buf w :
  exists r w' k,
    psc_sendmsg sock msgid buf (Z.of_nat (length buf)) w = Done r w' /\
    state_of w' = state_of w /\
    sent_on sock (trace w') = sent_on sock (trace w) ++ take k (frame msgid buf) /\
    0 <= r /\
    if r =? 0 then k = length (frame msgid buf) else (k < length (frame msgid buf))%nat.
Proof.
  destruct (wp_run _ _ _ (wp_and_respects _ _ _ _ (psc_sendmsg_quiet sock msgid buf _)
    (psc_sendmsg_spec sock msgid buf w))) as (r & w' & E & (k & Hk) & Hq & _).
  exists r, w', k. by destruct Hk as (? & ? & ?).
Qed.

(** C6. Round trip: the bytes [psc_sendmsg] put on the stream, delivered by TCP
    in order but in pieces of any size, make [psc_recvmsg] return the same
    message id and payload, and leave what follows on the stream. *)
Theorem psc_message_roundtrip (tx rx : Env) stx srx msgid payload rest maxlen w1 w1' w2 sent :
  is_u 16 msgid -> bytes_ok payload -> bytes_ok rest ->
  Z.of_nat (length payload) < 2 ^ 32 -> Z.of_nat (length payload) <= maxlen ->
  psc_sendmsg (env := tx) stx msgid payload (Z.of_nat (length payload)) w1 = Done 0 w1' ->
  sent_on stx (trace w1') = sent_on stx (trace w1) ++ sent ->
  tcp_delivers (env := rx) srx (received_on srx (trace w2)) (sent ++ rest) ->
  exists w2',
    psc_recvmsg (env := rx) srx maxlen w2
      = Done (RxMsg 0 (Some (msgid, Z.of_nat (length payload))) payload) w2' /\
    received_on srx (trace w2') = received_on srx (trace w2) ++ sent.
Proof.
  intros Hi Hp Hrest Hl Hmax Hsend Hsent Ht.
  assert (sent = frame msgid payload) as ->.
  { pose proof (psc_sendmsg_spec (env := tx) stx msgid payload w1) as H.
    unfold wp in H. rewrite Hsend in H. destruct H as (k & Hs & _ & Hk).
    change (k = length (frame msgid payload)) in Hk. subst k.
    rewrite Hsent, firstn_all in Hs. by apply app_inv_head in Hs. }
  by apply (psc_recvmsg_frame (env := rx) srx maxlen w2 msgid payload rest).
Qed.

(** C21. Memory safety of reception: for every environment [psc_recvmsg]
    returns, it never stores more than [maxlen] bytes into the caller's
    buffer, and when it returns 0 the reported length is the number of bytes
    stored. *)
Theorem psc_recvmsg_safe {env : Env} sock maxlen w :
  0 <= maxlen ->
  exists r w',
    psc_recvmsg sock maxlen w = Done r w' /\ state_of w' = state_of w /\
    Z.of_nat (length (rx_bytes r)) <= maxlen /\
    (rx_code r = 0 -> exists mid, rx_head r = Some (mid, Z.of_nat (length (rx_bytes r)))).
Proof.
  intros Hm.
  destruct (wp_run _ _ _ (wp_and_respects _ _ _ _ (psc_recvmsg_quiet sock maxlen)
    (psc_recvmsg_total sock maxlen w Hm))) as (r & w' & E & (H1 & _ & H2) & Hq & _).
  by exists r, w'.
Qed.

(** C38. A header whose length exceeds the buffer makes [psc_recvmsg] return
    [EMSGSIZE] with the announced id and length, having taken the eight header
    bytes and nothing of the payload; a wrong magic gives [EIO]. *)
Theorem psc_recvmsg_rejects {env : Env} sock maxlen w B rest :
  length B = 8%nat -> bytes_ok B -> bytes_ok rest ->
  tcp_delivers sock (received_on sock (trace w)) (B ++ rest) ->
  (take 2 B <> [80; 83] \/
   (exists mid mlen, B = psc_header mid mlen /\ is_u 16 mid /\ is_u32 mlen /\ maxlen < mlen)) ->
  exists r w',
    psc_recvmsg sock maxlen w = Done r w' /\
    received_on sock (trace w') = received_on sock (trace w) ++ B /\
    rx_bytes r = [] /\
    if decide (take 2 B = [80; 83]) then
      rx_code r = Zpos EMSGSIZE /\
      exists mid mlen, rx_head r = Some (mid, mlen) /\ B = psc_header mid mlen
    else rx_code r = Zpos EIO /\ rx_head r = None.
Proof.
  intros HB Hok Hrest Ht Hcase.
  destruct (psc_recvmsg_header sock maxlen w B rest HB Hok Hrest Ht) as (w1 & Hr & ->).
  destruct Hcase as [Hmagic|(mid & mlen & -> & Hi & Hl & Hmax)].
  - assert (decode_header B = (Zpos EIO, None)) as ->.
    { unfold decode_header. destruct B as [|b0 [|b1 B]]; try done. cbn [nth].
      destruct (Z.eqb_spec b0 80), (Z.eqb_spec b1 83); try done. by subst. }
    eexists _, w1. split; [done|]. by rewrite decide_False.
  - rewrite decode_psc_header by done.
    destruct (Z.ltb_spec maxlen mlen); [|lia].
    eexists _, w1. split; [done|]. rewrite decide_True by done. repeat split; [done|]. by eexists _, _.
Qed.

(** [psc_recvskip] keeps receiving after a failed chunk: when the first
    chunk of a skip longer than 128 bytes fails and the socket then delivers
    again, the remaining length goes into the 128-byte buffer at once and
    overruns it. *)
Theorem psc_recvskip_overruns {env : Env} sock len w e w1 got got2 w2 :
  128 < len ->
  psc_recvall sock 128 w = Done (Zpos e, got) w1 -> (length got <= 128)%nat ->
  psc_recvall sock len w1 = Done (0, got2) w2 -> length got2 = Z.to_nat len ->
  psc_recvskip sock len w = Fault OutOfBounds w2.
Proof.
  intros Hl E1 Hg E2 Hlen. unfold psc_recvskip. cbn [recvskip_loop].
  destruct (Z.ltb_spec 128 len); [|lia].
  assert (recv_into 128 sock 128 w = Done (Zpos e) w1) as E3.
  { unfold recv_into. rewrite (run_bind _ _ _ _ _ E1). cbn [fst snd].
    destruct (Z.ltb_spec 128 (Z.of_nat (length got))); [lia|done]. }
  rewrite (run_bind _ _ _ _ _ E3). change (Zpos e =? 0) with false. cbv iota.
  unfold recv_into. rewrite (run_bind _ _ _ _ _ E2). cbn [fst snd].
  destruct (Z.ltb_spec 128 (Z.of_nat (length got2))); [done|lia].
Qed.

(** ** Witnesses *)

Definition rx_env (S : list Z) : Env := sim_env ∅ (stream_of 3 S) send_all.

Lemma rx_env_delivers S sock : tcp_delivers (env := rx_env S) sock [] S.
Proof.
  intros tr want k _ Hk H. exists 3%nat. split; [lia|]. by apply (stream_of_answer 3 S sock).
Qed.

Lemma psc_message_roundtrip_witness :
  exists w2',
    psc_recvmsg (env := rx_env (frame 31 [1; 2; 3; 4; 5] ++ [80; 83])) 7 64 sim_world
      = Done (RxMsg 0 (Some (31, 5)) [1; 2; 3; 4; 5]) w2' /\
    received_on 7 (trace w2') = frame 31 [1; 2; 3; 4; 5].
Proof.
  destruct (psc_message_roundtrip sim (rx_env (frame 31 [1; 2; 3; 4; 5] ++ [80; 83]))
    9 7 31 [1; 2; 3; 4; 5] [80; 83] 64 sim_world
    (final (psc_sendmsg (env := sim) 9 31 [1; 2; 3; 4; 5] 5 sim_world)) sim_world
    (frame 31 [1; 2; 3; 4; 5])) as (w2' & E & Hr).
  - unfold is_u. lia.
  - repeat constructor; lia.
  - repeat constructor; lia.
  - simpl. lia.
  - simpl. lia.
  - vm_compute. reflexivity.
  - vm_compute. reflexivity.
  - apply rx_env_delivers.
  - exists w2'. split; [exact E|exact Hr].
Defined.

Lemma psc_recvmsg_safe_witness :
  exists r w',
    psc_recvmsg (env := rx_env [80; 83; 0]) 7 64 sim_world = Done r w' /\
    rx_code r = 107.
Proof.
  destruct (psc_recvmsg_safe (env := rx_env [80; 83; 0]) 7 64 sim_world) as (r & w' & E & _); [lia|].
  exists r, w'. split; [exact E|]. vm_compute in E. by injection E as <- _.
Defined.

Lemma psc_recvmsg_rejects_witness :
  exists r w',
    psc_recvmsg (env := rx_env (psc_header 1 65 ++ [1; 2])) 7 64 sim_world = Done r w' /\
    rx_code r = 90 /\ rx_bytes r = [].
Proof.
  destruct (psc_recvmsg_rejects (env := rx_env (psc_header 1 65 ++ [1; 2])) 7 64 sim_world
    (psc_header 1 65) [1; 2]) as (r & w' & E & _ & Hb & H).
  - apply length_psc_header.
  - apply psc_header_ok.
  - repeat constructor; lia.
  - apply rx_env_delivers.
  - right. exists 1, 65. split; [reflexivity|]. unfold is_u. lia.
  - exists r, w'. split; [exact E|]. split; [exact (proj1 H)|exact Hb].
Defined.

(** A socket that fails once and then delivers. *)
Definition flaky_env : Env :=
  sim_env ∅ (fun tr _ want => match tr with
                              | [] => RxErr 11
                              | _ => RxBytes (replicate (Z.to_nat want) 0)
                              end) send_all.

Lemma psc_recvskip_overruns_witness :
  exists w', psc_recvskip (env := flaky_env) 7 300 sim_world = Fault OutOfBounds w'.
Proof.
  set (w1 := final (psc_recvall (env := flaky_env) 7 128 sim_world)).
  exists (final (psc_recvall (env := flaky_env) 7 300 w1)).
  apply (psc_recvskip_overruns (env := flaky_env) 7 300 sim_world 11 w1 [] (replicate 300 0)).
  - lia.
  - vm_compute. reflexivity.
  - simpl. lia.
  - vm_compute. reflexivity.
  - vm_compute. reflexivity.
Defined.
