(* ===== verification/QspiFlash.v ===== *)
(** * Settings in the QSPI flash ([qspi_flash.c], [qspi_flash.h])

    Every channel owns one 64 KB sector.  Saving a channel gathers 37 of its
    registers and its scale factors into a [QspiData_t], erases the sector and
    programs one page; loading reads the page and writes the registers and
    scale factors back.  The first four bytes of the buffer, the structure's
    [header], are overwritten by the command when saving and are the bytes
    clocked in during the command when loading. *)

From Stdlib Require Import ZArith Lia Bool String.
From stdpp Require Import base list numbers strings gmap.
From S2P Require Import Prelude CFloat Registers World Logic Sim.

#[local] Open Scope Z_scope.

Definition FLASH_WRITE_CMD : Z := 0x02.
Definition FLASH_READ_CMD : Z := 0x03.
Definition FLASH_SECTOR_ERASE_CMD : Z := 0xD8.
Definition FLASH_WRITE_ENABLE_CMD : Z := 0x06.
Definition FLASH_READ_STATUS_CMD : Z := 0x05.
Definition FLASH_SECTOR_SIZE : Z := 0x10000.
Definition FLASH_PAGE_SIZE : nat := 256.

(** The registers [QspiData_t] holds after its header, in the order of the
    structure's fields. *)
Definition qspi_regs : list Z :=
  [DAC_SETPT_OFFSET_REG; DAC_SETPT_GAIN_REG;
   DCCT1_OFFSET_REG; DCCT1_GAIN_REG; DCCT2_OFFSET_REG; DCCT2_GAIN_REG;
   DACMON_OFFSET_REG; DACMON_GAIN_REG; VOLT_OFFSET_REG; VOLT_GAIN_REG;
   GND_OFFSET_REG; GND_GAIN_REG; SPARE_OFFSET_REG; SPARE_GAIN_REG;
   REG_OFFSET_REG; REG_GAIN_REG; ERR_OFFSET_REG; ERR_GAIN_REG;
   OVC1_THRESH_REG; OVC2_THRESH_REG; OVV_THRESH_REG;
   ERR1_THRESH_REG; ERR2_THRESH_REG; IGND_THRESH_REG;
   OVC1_CNTLIM_REG; OVC2_CNTLIM_REG; OVV_CNTLIM_REG;
   ERR1_CNTLIM_REG; ERR2_CNTLIM_REG; IGND_CNTLIM_REG; DCCT_CNTLIM_REG;
   FLT1_CNTLIM_REG; FLT2_CNTLIM_REG; FLT3_CNTLIM_REG; ON_CNTLIM_REG;
   HEARTBEAT_CNTLIM_REG; FAULT_MASK_REG].

(** [QspiData_t]: the header, the register words, the [sf_*] floats. *)
Record QspiData_t := QspiData { header : Z; regwords : list Z; sf : ScaleFactorType }.

Definition sf_words (s : ScaleFactorType) : list Z :=
  [ampspersec s; dac_dccts s; vout s; ignd s; spare s; regulator s; error s].

(** The structure's image in memory, and the structure an image holds. *)
Definition pack (d : QspiData_t) : list Z :=
  bytes_of_words (header d :: regwords d ++ sf_words (sf d)).

Definition sf_of_words (ws : list Z) : ScaleFactorType :=
  ScaleFactor (nth 0 ws 0) (nth 1 ws 0) (nth 2 ws 0) (nth 3 ws 0)
              (nth 4 ws 0) (nth 5 ws 0) (nth 6 ws 0).

Definition sizeof_QspiData : nat := 180.

Definition unpack (b : list Z) : QspiData_t :=
  let ws := words_of_bytes (take sizeof_QspiData b) in
  QspiData (nth 0 ws 0) (take (length qspi_regs) (drop 1 ws))
           (sf_of_words (drop (1 + length qspi_regs) ws)).

(** The three address bytes of a flash command. *)
Definition addr24 (a : Z) : list Z :=
  [u8 (Z.shiftr (Z.land a 0xFF0000) 16); u8 (Z.shiftr (Z.land a 0xFF00) 8); u8 (Z.land a 0xFF)].

(** The results of the drivers. *)
Definition XST_SUCCESS : Z := 0.
Definition XST_FAILURE : Z := 1.

Section Qspi.
Context {env : Env}.

(** [QspiFlashInit]: 0 is [XST_SUCCESS]. *)
Definition QspiFlashInit : M Z :=
  let! QspiConfig := driver XQspiPs_LookupConfig in
  if QspiConfig =? 0 then ret XST_FAILURE
  else
    let! Status := driver XQspiPs_CfgInitialize in
    if negb (Status =? XST_SUCCESS) then ret XST_FAILURE
    else
      let! _ := driver (XQspiPs_SetOptions ["XQSPIPS_MANUAL_START_OPTION"; "XQSPIPS_FORCE_SSELECT_OPTION"]%string) in
      let! _ := driver (XQspiPs_SetClkPrescaler "XQSPIPS_CLK_PRESCALE_8") in
      let! _ := driver XQspiPs_SetSlaveSelect in
      ret XST_SUCCESS.

(** [QspiFlashRead]: the command array has four bytes, but the transfer
    clocks out [ByteCount]: what follows the array in memory goes out too
    (the flash ignores it). *)
Definition QspiFlashRead (Address : Z) (ByteCount : nat) : M (list Z) :=
  let! beyond := uninit (ByteCount - 4) in
  XQspiPs_PolledTransfer (FLASH_READ_CMD :: addr24 Address ++ beyond).

(** The [while (1)] that polls the status register. *)
Fixpoint poll_ready (fuel : nat) : M unit :=
  match fuel with
  | O => stuck
  | S fuel =>
    let! FlashStatus := XQspiPs_PolledTransfer [FLASH_READ_STATUS_CMD; 0] in
    if Z.land (nth 1 FlashStatus 0) 0x01 =? 0 then ret tt else poll_ready fuel
  end.

(** [QspiFlashWrite]: overwrites the head of [WriteBuf] with the command and
    sends its first [ByteCount] bytes; the caller's buffer after the call. *)
Definition QspiFlashWrite (Address : Z) (ByteCount : nat) (WriteBuf : list Z) : M (list Z) :=
  let! _ := XQspiPs_PolledTransfer [FLASH_WRITE_ENABLE_CMD] in
  let WriteBuf := overwrite (FLASH_WRITE_CMD :: addr24 Address) WriteBuf in
  let! _ := XQspiPs_PolledTransfer (take ByteCount WriteBuf) in
  poll_ready env_patience ;;
  ret WriteBuf.

Definition QspiFlashEraseSect (sector : Z) : M unit :=
  let Address := u32 (sector * FLASH_SECTOR_SIZE) in
  let! _ := XQspiPs_PolledTransfer [FLASH_WRITE_ENABLE_CMD] in
  let! _ := XQspiPs_PolledTransfer
    [FLASH_SECTOR_ERASE_CMD; u8 (Z.land (Z.shiftr Address 16) 0xFF);
     u8 (Z.land (Z.shiftr Address 8) 0xFF); u8 (Z.land Address 0xFF)] in
  poll_ready env_patience.

Fixpoint read_regs (base : Z) (rs : list Z) : M (list Z) :=
  match rs with
  | [] => ret []
  | r :: rs =>
    let! v := Xil_In32 (base + r) in
    let! vs := read_regs base rs in
    ret (v :: vs)
  end.

Fixpoint write_regs (base : Z) (rs vs : list Z) : M unit :=
  match rs, vs with
  | r :: rs, v :: vs => Xil_Out32 (base + r) v ;; write_regs base rs vs
  | _, _ => ret tt
  end.

(** [QspiGatherData]: the header of the local structure is never set. *)
Definition QspiGatherData (chan : Z) (writebuf : list Z) : M (list Z) :=
  let! hdr := uninit 4 in
  let base := AXI + chan * CHBASEADDR in
  let! ws := read_regs base qspi_regs in
  let! s := get_sf chan in
  ret (overwrite (pack (QspiData (of_le hdr) ws s)) writebuf).

Definition QspiDisperseData (chan : Z) (readbuf : list Z) : M unit :=
  let qspidata := unpack readbuf in
  let base := AXI + chan * CHBASEADDR in
  write_regs base qspi_regs (regwords qspidata) ;;
  set_sf chan (fun _ => sf qspidata).

(** The body of the [WRITE_QSPI_MSG] and [READ_QSPI_MSG] cases. *)
Definition qspi_load (chan : Z) : M unit :=
  let! qspibuf := QspiFlashRead (u32 (chan * FLASH_SECTOR_SIZE)) FLASH_PAGE_SIZE in
  QspiDisperseData chan qspibuf.

Definition qspi_save (chan : Z) : M unit :=
  let! qspibuf := uninit FLASH_PAGE_SIZE in
  QspiFlashEraseSect chan ;;
  let! qspibuf := QspiGatherData chan qspibuf in
  let! _ := QspiFlashWrite (u32 (chan * FLASH_SECTOR_SIZE)) FLASH_PAGE_SIZE qspibuf in
  ret tt.

(** [InitSettingsfromQspi], at start-up. *)
Definition InitSettingsfromQspi : M unit :=
  Xil_Out32 (AXI + EVR_INJ_EVENTNUM_REG) 10 ;;
  Xil_Out32 (AXI + EVR_PM_EVENTNUM_REG) 10 ;;
  for_up 4 1 qspi_load.
End Qspi.

(** ** The flash device

    What the data sheet of the SPI NOR flash says of the commands used here,
    as a function of the transfers made so far: a write-enable latch, and
    memory contents that a sector erase sets to [0xFF] and a page program can
    only clear bits of (wrapping inside its 256-byte page). *)

Record nor_flash := NorState { wel : bool; cells : Z -> Z }.

Definition program (a : Z) (data : list Z) (mem : Z -> Z) : Z -> Z := fun x =>
  if x / 256 =? a / 256 then
    match data !! Z.to_nat ((x - a) mod 256) with
    | Some d => Z.land (mem x) d
    | None => mem x
    end
  else mem x.

Definition erase (a : Z) (mem : Z -> Z) : Z -> Z := fun x =>
  if x / 0x10000 =? a / 0x10000 then 0xFF else mem x.

Definition nor_step (tx : list Z) (s : nor_flash) : nor_flash :=
  match tx with
  | [c] => if c =? 0x06 then NorState true (cells s) else s
  | c :: a2 :: a1 :: a0 :: data =>
      let a := a2 * 65536 + a1 * 256 + a0 in
      if wel s then
        if c =? 0x02 then NorState false (program a data (cells s))
        else if c =? 0xD8 then NorState false (erase a (cells s))
        else s
      else s
  | _ => s
  end.

Fixpoint nor_after (init : Z -> Z) (tr : list event) : nor_flash :=
  match tr with
  | [] => NorState false init
  | EQspi tx _ :: tr => nor_step tx (nor_after init tr)
  | _ :: tr => nor_after init tr
  end.

(** Status polls since the last other event. *)
Fixpoint polls (tr : list event) : nat :=
  match tr with
  | EQspi [0x05; 0] _ :: tr => S (polls tr)
  | _ => O
  end.

(** The device behind [XQspiPs_PolledTransfer] is such a flash: a read returns
    four bytes of no meaning and then the cells, and an operation is over
    after less than [env_patience] status polls. *)
Class NorFlash (env : Env) (init : Z -> Z) := {
  nor_read : forall tr a tail, 0 <= a < 2 ^ 24 ->
    exists g, length g = 4%nat /\
      env_qspi tr (FLASH_READ_CMD :: addr24 a ++ tail) =
        g ++ map (fun i => cells (nor_after init tr) (a + Z.of_nat i)) (seq 0 (length tail));
  nor_ready : forall tr, (env_patience <= S (polls tr))%nat ->
    Z.land (nth 1 (env_qspi tr [FLASH_READ_STATUS_CMD; 0]) 0) 1 = 0;
  nor_patient : (0 < env_patience)%nat
}.

(** ** Facts *)

Lemma addr24_decode a : 0 <= a < 2 ^ 24 ->
  exists b2 b1 b0, addr24 a = [b2; b1; b0] /\ b2 * 65536 + b1 * 256 + b0 = a.
Proof.
  intros Ha. eexists _, _, _. split; [reflexivity|].
  rewrite !Z.shiftr_land.
  change (Z.shiftr 0xFF0000 16) with (Z.ones 8). change (Z.shiftr 0xFF00 8) with (Z.ones 8).
  change 0xFF with (Z.ones 8). rewrite !Z.land_ones, !Z.shiftr_div_pow2 by lia.
  unfold u8, wrap. rewrite !Z.mod_mod by lia.
  assert (a / 2 ^ 16 < 256) by (apply Z.div_lt_upper_bound; lia).
  rewrite (Z.mod_small (a / 2 ^ 16)) by (split; [apply Z.div_pos; lia|lia]).
  pose proof (Z.div_mod a (2 ^ 8) ltac:(lia)). pose proof (Z.div_mod (a / 2 ^ 8) (2 ^ 8) ltac:(lia)).
  rewrite Z.div_div in * by lia. change (2 ^ 8 * 2 ^ 8) with (2 ^ 16) in *. lia.
Qed.

Lemma erase_addr_bytes a : 0 <= a < 2 ^ 24 ->
  [u8 (Z.land (Z.shiftr a 16) 0xFF); u8 (Z.land (Z.shiftr a 8) 0xFF); u8 (Z.land a 0xFF)]
  = addr24 a.
Proof. intros Ha. unfold addr24. by rewrite !Z.shiftr_land. Qed.

Lemma words_of_bytes_app ws l :
  Forall (is_u 32) ws -> words_of_bytes (bytes_of_words ws ++ l) = ws ++ words_of_bytes l.
Proof.
  induction 1 as [|w ws Hw _ IH]; [done|].
  change (bytes_of_words (w :: ws)) with (to_le 4 w ++ bytes_of_words ws). rewrite <- app_assoc.
  change (words_of_bytes (to_le 4 w ++ bytes_of_words ws ++ l))
    with (of_le (to_le 4 w) :: words_of_bytes (bytes_of_words ws ++ l)).
  rewrite IH, of_le_to_le. cbn [app]. f_equal. exact (u32_small w Hw).
Qed.

Lemma length_pack d : length (regwords d) = 37%nat -> length (pack d) = 180%nat.
Proof.
  intros H. unfold pack. rewrite length_bytes_of_words. cbn [length].
  rewrite length_app, H. done.
Qed.

Definition sf_wf (s : ScaleFactorType) : Prop := Forall (is_u 32) (sf_words s).

(** The header word does not matter to the rest of the structure. *)
Lemma unpack_pack d h rest :
  length (regwords d) = 37%nat -> Forall (is_u 32) (regwords d) -> sf_wf (sf d) ->
  length h = 4%nat ->
  let d' := unpack (h ++ drop 4 (pack d) ++ rest) in
  regwords d' = regwords d /\ sf d' = sf d.
Proof.
  intros Hl Hr Hs Hh. unfold unpack.
  assert (drop 4 (pack d) = bytes_of_words (regwords d ++ sf_words (sf d))) as Hd by done.
  rewrite Hd.
  assert (take sizeof_QspiData (h ++ bytes_of_words (regwords d ++ sf_words (sf d)) ++ rest)
          = h ++ bytes_of_words (regwords d ++ sf_words (sf d))) as ->.
  { rewrite app_assoc. apply take_app_length'. rewrite length_app, length_bytes_of_words, length_app, Hl, Hh. done. }
  destruct h as [|h0 [|h1 [|h2 [|h3 [|? ?]]]]]; try done.
  cbn [app words_of_bytes].
  rewrite <- (app_nil_r (bytes_of_words _)), words_of_bytes_app by (by apply Forall_app).
  cbn [words_of_bytes]. rewrite app_nil_r. cbn [regwords sf drop].
  change (length qspi_regs) with 37%nat. rewrite <- Hl. split.
  - apply take_app_length.
  - transitivity (sf_of_words (sf_words (sf d))); [|by destruct (sf d)].
    f_equal. apply drop_app_length.
Qed.

Definition not_qspi (e : event) : Prop := match e with EQspi _ _ => False | _ => True end.

Lemma nor_after_skip init es tr :
  Forall not_qspi es -> nor_after init (es ++ tr) = nor_after init tr.
Proof. induction 1 as [|e es He _ IH]; [done|]. by destruct e. Qed.

Definition is_poll (e : event) : Prop := exists rx, e = EQspi [0x05; 0] rx.

Lemma nor_after_polls init es tr :
  Forall is_poll es -> nor_after init (es ++ tr) = nor_after init tr.
Proof. induction 1 as [|e es [rx ->] _ IH]; [done|]. exact IH. Qed.

Lemma reads_of_polls es tr : Forall is_poll es -> reads_of (es ++ tr) = reads_of tr.
Proof. induction 1 as [|e es [rx ->] _ IH]; [done|]. exact IH. Qed.

Lemma writes_of_polls es tr : Forall is_poll es -> writes_of (es ++ tr) = writes_of tr.
Proof. induction 1 as [|e es [rx ->] _ IH]; [done|]. exact IH. Qed.

Section Facts.
Context {env : Env}.

(** Registers that read as [R] as long as none is written. *)
Definition regs_hold (R : Z -> Z) (w : world) : Prop :=
  forall tr a, writes_of tr = writes_of (trace w) -> u32 (env_in32 tr a) = R a.

Lemma read_regs_spec base rs w :
  wp (read_regs base rs)
     (fun vs w' => length vs = length rs /\ Forall (is_u 32) vs /\ state_of w' = state_of w /\
        trace w' = rev (zip_with (fun r v => EIn32 (u32 (base + r)) v) rs vs) ++ trace w /\
        forall R, regs_hold R w -> vs = R <$> ((fun r => u32 (base + r)) <$> rs)) w.
Proof.
  revert w. induction rs as [|r rs IH]; intros w; cbn [read_regs]; [by apply wp_ret|].
  apply wp_bind. unfold wp at 1, Xil_In32. cbn beta iota zeta.
  apply wp_bind. eapply wp_mono; [apply IH|]. cbn beta.
  intros vs w' (Hl & Hu & Hs & Ht & Hh). apply wp_ret. cbn [length zip_with rev].
  split_and!; [by rewrite Hl|by constructor; [apply u32_range|]|done|rewrite Ht, <- app_assoc; done|].
  intros R HR. rewrite !fmap_cons, <- (Hh R) by exact HR. f_equal. by apply HR.
Qed.

Lemma write_regs_spec base rs vs w :
  length vs = length rs ->
  wp (write_regs base rs vs)
     (fun _ w' => state_of w' = state_of w /\
        trace w' = rev (zip_with (fun r v => EOut32 (u32 (base + r)) (u32 v)) rs vs) ++ trace w) w.
Proof.
  revert vs w. induction rs as [|r rs IH]; intros [|v vs] w Hl; try done; cbn [write_regs].
  apply wp_bind. unfold wp at 1. cbn.
  eapply wp_mono; [apply IH; by inv Hl|]. cbn. intros _ w' [Hs Ht].
  split; [done|]. by rewrite Ht, <- app_assoc.
Qed.

Context {init : Z -> Z} `{!NorFlash env init}.

(** The polling loop ends. *)
Lemma poll_ready_spec fuel w :
  (env_patience <= fuel + polls (trace w))%nat -> (0 < fuel)%nat ->
  wp (poll_ready fuel)
     (fun _ w' => state_of w' = state_of w /\
        exists es, trace w' = es ++ trace w /\ Forall is_poll es) w.
Proof.
  revert w. induction fuel as [|fuel IH]; intros w Hp Hf; [lia|]. cbn [poll_ready].
  apply wp_bind. unfold wp at 1, XQspiPs_PolledTransfer. cbn beta iota zeta.
  set (rx := take _ _).
  destruct (Z.eqb_spec (Z.land (nth 1 rx 0) 0x01) 0) as [E|E].
  - apply wp_ret. split; [done|]. exists [EQspi [FLASH_READ_STATUS_CMD; 0] rx].
    split; [done|]. constructor; [by exists rx|constructor].
  - destruct fuel as [|fuel].
    { exfalso. apply E. unfold rx.
      pose proof (nor_ready (trace w) ltac:(lia)) as H.
      destruct (env_qspi (trace w) [FLASH_READ_STATUS_CMD; 0]) as [|b0 [|b1 l]]; cbn in H |- *; [done..|].
      unfold u8, wrap. rewrite <- Z.land_ones by lia.
      rewrite <- Z.land_assoc. change (Z.land (Z.ones 8) 1) with 1. done. }
    assert (polls (trace (push (EQspi [FLASH_READ_STATUS_CMD; 0] rx) w)) = S (polls (trace w)))
      as Hpp by done.
    eapply wp_mono; [apply IH; [rewrite Hpp; lia|lia]|].
    intros ? w' (Hs & es & He & Hes). split; [done|].
    exists (es ++ [EQspi [FLASH_READ_STATUS_CMD; 0] rx]). rewrite He, <- app_assoc. split; [done|].
    apply Forall_app. split; [done|]. constructor; [by exists rx|constructor].
Qed.

Abbreviation mem w := (cells (nor_after init (trace w))).

(** What leaves registers and globals alone. *)
Definition same_regs (w w' : world) : Prop :=
  state_of w' = state_of w /\ reads_of (trace w') = reads_of (trace w) /\
  writes_of (trace w') = writes_of (trace w).

Lemma same_regs_trans a b c : same_regs a b -> same_regs b c -> same_regs a c.
Proof. intros (?&?&?) (?&?&?). split_and!; congruence. Qed.

Lemma poll_ready_flash w :
  wp (poll_ready env_patience)
     (fun _ w' => same_regs w w' /\ nor_after init (trace w') = nor_after init (trace w)) w.
Proof.
  eapply wp_mono; [apply poll_ready_spec; [lia|apply nor_patient]|].
  intros ? w' (Hs & es & Ht & He). unfold same_regs. rewrite Ht.
  rewrite reads_of_polls, writes_of_polls, nor_after_polls by done. done.
Qed.

Lemma QspiFlashEraseSect_spec chan w :
  1 <= chan <= 4 ->
  wp (QspiFlashEraseSect chan)
     (fun _ w' => same_regs w w' /\ mem w' = erase (chan * FLASH_SECTOR_SIZE) (mem w)) w.
Proof.
  intros Hc. unfold QspiFlashEraseSect, FLASH_SECTOR_SIZE.
  rewrite (u32_small (chan * _)) by (unfold is_u; lia).
  rewrite erase_addr_bytes by lia.
  destruct (addr24_decode (chan * 0x10000)) as (b2 & b1 & b0 & -> & Ha); [lia|].
  apply wp_bind. unfold wp at 1, XQspiPs_PolledTransfer. cbn beta iota zeta.
  apply wp_bind. unfold wp at 1. cbn beta iota zeta.
  eapply wp_mono; [apply poll_ready_flash|].
  intros ? w' [Hs Hn]. split.
  - destruct Hs as (?&?&?). by split_and!.
  - rewrite Hn. cbn [push trace nor_after nor_step wel cells Z.eqb Pos.eqb FLASH_WRITE_ENABLE_CMD].
    cbn -[erase]. by rewrite Ha.
Qed.

Lemma QspiFlashWrite_spec a buf w :
  0 <= a < 2 ^ 24 -> length buf = FLASH_PAGE_SIZE ->
  wp (QspiFlashWrite a FLASH_PAGE_SIZE buf)
     (fun _ w' => same_regs w w' /\ mem w' = program a (drop 4 buf) (mem w)) w.
Proof.
  intros Ha Hl. unfold QspiFlashWrite.
  destruct (addr24_decode a Ha) as (b2 & b1 & b0 & -> & Hd).
  apply wp_bind. unfold wp at 1, XQspiPs_PolledTransfer. cbn beta iota zeta.
  apply wp_bind. unfold wp at 1. cbn beta iota zeta.
  rewrite (firstn_all2 (n := FLASH_PAGE_SIZE)) by (rewrite length_overwrite; rewrite ?Hl; unfold FLASH_PAGE_SIZE; cbn; lia).
  apply wp_bind. eapply wp_mono; [apply poll_ready_flash|].
  intros ? w' [Hs Hn]. apply wp_ret. split.
  - destruct Hs as (?&?&?). by split_and!.
  - rewrite Hn. unfold overwrite. cbn -[program drop]. by rewrite Hd.
Qed.

Lemma program_erased a data m i d :
  a mod 256 = 0 -> (length data <= 256)%nat -> data !! i = Some d -> is_byte d ->
  program a data (erase a m) (a + Z.of_nat i) = d.
Proof.
  intros Ha Hl Hi Hd. pose proof (lookup_lt_Some _ _ _ Hi).
  unfold program, erase.
  assert ((a + Z.of_nat i) / 256 = a / 256) as E.
  { pose proof (Z.div_mod a 256 ltac:(lia)). symmetry. apply Z.div_unique with (Z.of_nat i); lia. }
  assert (forall x, x / 0x10000 = x / 256 / 256) as D by (intros; by rewrite Z.div_div by lia).
  rewrite !D, E, !Z.eqb_refl.
  replace (a + Z.of_nat i - a) with (Z.of_nat i) by lia.
  rewrite (Z.mod_small (Z.of_nat i)) by lia. rewrite Nat2Z.id, Hi.
  change 0xFF with (Z.ones 8). rewrite Z.land_comm, Z.land_ones by lia.
  by apply Z.mod_small.
Qed.

Lemma erase_program_other chan data m x :
  x / FLASH_SECTOR_SIZE <> chan ->
  program (chan * 0x10000) data (erase (chan * 0x10000) m) x = m x.
Proof.
  unfold FLASH_SECTOR_SIZE, program, erase. intros H.
  assert (chan * 0x10000 / 0x10000 = chan) as Ec by (by apply Z.div_mul).
  assert (forall y, y / 0x10000 = y / 256 / 256) as D by (intros; by rewrite Z.div_div by lia).
  destruct (Z.eqb_spec (x / 256) (chan * 0x10000 / 256)) as [E|_].
  - destruct H. by rewrite <- Ec, !D, E.
  - rewrite Ec. by destruct (Z.eqb_spec (x / 0x10000) chan).
Qed.

(** Reading 256 bytes gives four bytes and then the cells. *)
Lemma QspiFlashRead_spec a data w :
  0 <= a < 2 ^ 24 -> length data = 252%nat -> bytes_ok data ->
  (forall i, (i < 252)%nat -> Some (mem w (a + Z.of_nat i)) = data !! i) ->
  wp (QspiFlashRead a FLASH_PAGE_SIZE)
     (fun b w' => (same_regs w w' /\ mem w' = mem w) /\ exists g, length g = 4%nat /\ b = g ++ data) w.
Proof.
  intros Ha Hl Hd Hm. unfold QspiFlashRead.
  apply wp_bind. unfold wp at 1, uninit. cbn beta iota zeta.
  set (beyond := take _ _).
  assert (length beyond = 252%nat) as Hb.
  { unfold beyond, FLASH_PAGE_SIZE. rewrite length_take, length_app, length_replicate. lia. }
  clearbody beyond. unfold wp, XQspiPs_PolledTransfer. cbn beta iota zeta.
  split.
  { split; [by split_and!|]. destruct (addr24_decode a Ha) as (b2 & b1 & b0 & -> & _).
    cbn [push trace nor_after app nor_step]. by destruct (wel _). }
  destruct (nor_read (trace w) a beyond Ha) as (g & Hg & ->).
  exists (u8 <$> g). split; [by rewrite length_fmap|].
  assert (map (fun i => mem w (a + Z.of_nat i)) (seq 0 (length beyond)) = data) as ->.
  { rewrite Hb, <- Hl. apply map_seq_eq. intros i Hi. rewrite <- Hm by lia. done. }
  assert (length (FLASH_READ_CMD :: addr24 a ++ beyond) = 256%nat) as Hn.
  { destruct (addr24_decode a Ha) as (b2 & b1 & b0 & -> & _). cbn. by rewrite Hb. }
  rewrite Hn, fmap_app, (bytes_ok_u8 data) by done.
  apply take_app_length'. by rewrite length_app, length_fmap, Hg, Hl.
Qed.

(** The addresses a channel's saved registers have on the bus. *)
Definition saved_addrs (chan : Z) : list Z :=
  (fun r => u32 (AXI + chan * CHBASEADDR + r)) <$> qspi_regs.

Lemma reads_of_reads base rs vs :
  length vs = length rs ->
  reads_of (rev (zip_with (fun r v => EIn32 (u32 (base + r)) v) rs vs))
    = rev (zip ((fun r => u32 (base + r)) <$> rs) vs) /\
  writes_of (rev (zip_with (fun r v => EIn32 (u32 (base + r)) v) rs vs)) = [] /\
  nor_after init (rev (zip_with (fun r v => EIn32 (u32 (base + r)) v) rs vs)) = nor_after init [].
Proof.
  revert vs. induction rs as [|r rs IH]; intros [|v vs] Hl; try done.
  destruct (IH vs) as (H1 & H2 & _); [by inv Hl|]. cbn [zip_with rev fmap list_fmap].
  rewrite reads_of_app, writes_of_app, H1, H2. split_and!; [done..|].
  rewrite <- (app_nil_r (_ ++ _)). apply nor_after_skip. apply Forall_app; split; [|by constructor].
  apply Forall_rev. clear. revert vs. induction rs; intros [|? ?]; constructor; done || auto.
Qed.

Lemma nor_after_reads base rs vs tr :
  nor_after init (rev (zip_with (fun r v => EIn32 (u32 (base + r)) v) rs vs) ++ tr)
    = nor_after init tr.
Proof.
  apply nor_after_skip, Forall_rev. revert vs.
  induction rs; intros [|? ?]; constructor; done || auto.
Qed.

Lemma writes_of_writes base rs vs :
  length vs = length rs -> Forall (is_u 32) vs ->
  writes_of (rev (zip_with (fun r v => EOut32 (u32 (base + r)) (u32 v)) rs vs))
    = rev (zip ((fun r => u32 (base + r)) <$> rs) vs).
Proof.
  revert vs. induction rs as [|r rs IH]; intros [|v vs] Hl Hv; try done.
  inv Hv. cbn [zip_with rev fmap list_fmap]. rewrite writes_of_app, (IH vs) by (auto; by inv Hl).
  by rewrite (u32_small v).
Qed.

(** What a save does: the flash page holds the image of the registers read
    and of the scale factors. *)
Lemma qspi_save_spec chan w s :
  1 <= chan <= 4 -> scalefactors (glob w) !! sf_index chan = Some s -> sf_wf s ->
  wp (qspi_save chan)
     (fun _ w' => state_of w' = state_of w /\ writes_of (trace w') = writes_of (trace w) /\
        exists hdr ws rest,
          length ws = length qspi_regs /\ Forall (is_u 32) ws /\
          reads_of (trace w') = rev (zip (saved_addrs chan) ws) ++ reads_of (trace w) /\
          let data := drop 4 (pack (QspiData hdr ws s)) ++ rest in
          length data = 252%nat /\ bytes_ok data /\
          (forall i, (i < 252)%nat ->
            Some (mem w' (chan * FLASH_SECTOR_SIZE + Z.of_nat i)) = data !! i) /\
          (forall R, regs_hold R w -> ws = R <$> saved_addrs chan) /\
          forall x, x / FLASH_SECTOR_SIZE <> chan -> mem w' x = mem w x) w.
Proof.
  intros Hc Hs Hwf. unfold qspi_save.
  apply wp_bind. unfold wp at 1, uninit. cbn beta iota zeta.
  set (buf0 := take _ _).
  assert (length buf0 = 256%nat) as Hb.
  { unfold buf0, FLASH_PAGE_SIZE. rewrite length_take, length_app, length_replicate. lia. }
  assert (bytes_ok buf0) as Hbok.
  { apply Forall_take, Forall_app. split; [apply u8_bytes_ok|by apply Forall_replicate]. }
  clearbody buf0.
  apply wp_bind. eapply wp_mono; [by apply QspiFlashEraseSect_spec|].
  intros ? w1 [(S1 & R1 & W1) M1]. unfold QspiGatherData.
  apply wp_bind. apply wp_bind. unfold wp at 1, uninit. cbn beta iota zeta.
  set (hdr := of_le _). clearbody hdr.
  apply wp_bind. eapply wp_mono; [apply read_regs_spec|]. cbn beta.
  intros ws w2 (Hl & Hu & S2 & T2 & H2). unfold get_sf.
  apply wp_bind. unfold wp at 1, gets, bind. cbn beta iota.
  assert (glob w2 = glob w) as -> by (injection S2; injection S1; congruence).
  rewrite Hs. cbn [the ret]. apply wp_ret.
  set (d := QspiData hdr ws s).
  assert (length (pack d) = 180%nat) as Hp by (by apply length_pack).
  assert (length (overwrite (pack d) buf0) = 256%nat) as Ho
    by (rewrite length_overwrite; lia).
  apply wp_bind. unfold FLASH_SECTOR_SIZE in *. rewrite (u32_small (chan * _)) by (unfold is_u; lia).
  eapply wp_mono; [apply QspiFlashWrite_spec; [lia|done]|].
  intros ? w3 [(S3 & R3 & W3) M3]. apply wp_ret.
  destruct (reads_of_reads (AXI + chan * CHBASEADDR) qspi_regs ws Hl) as (HR & HW & _).
  split; [congruence|]. split.
  { rewrite W3, T2, writes_of_app, HW. exact W1. }
  assert (drop 4 (overwrite (pack d) buf0) = drop 4 (pack d) ++ drop 180 buf0) as Hd.
  { unfold overwrite. rewrite Hp. apply drop_app_le. lia. }
  exists hdr, ws, (drop 180 buf0). cbn zeta. fold d. rewrite <- Hd.
  assert (bytes_ok (drop 4 (overwrite (pack d) buf0))) as Hok.
  { apply Forall_drop. unfold overwrite. apply Forall_app.
    split; [apply bytes_of_words_ok|by apply Forall_drop]. }
  split_and!; [done|done| |by rewrite length_drop, Ho|done| |intros R HR'|intros x Hx].
  { rewrite R3, T2, reads_of_app, HR, R1. done. }
  2: { apply (H2 R). intros tr adr E. apply HR'. by rewrite E. }
  2: { rewrite M3, T2, nor_after_reads, M1. by apply erase_program_other. }
  intros i Hi. rewrite M3, T2, nor_after_reads, M1.
  destruct (lookup_lt_is_Some_2 (drop 4 (overwrite (pack d) buf0)) i) as [b Eb].
  { rewrite length_drop, Ho. lia. }
  rewrite Eb. f_equal. apply program_erased; [|rewrite length_drop, Ho; lia|done|].
  - change 0x10000 with (256 * 256). rewrite Z.mul_assoc. apply Z.mod_mul. lia.
  - rewrite Forall_lookup in Hok. by apply (Hok i).
Qed.

Lemma set_sf_run chan f w s :
  scalefactors (glob w) !! sf_index chan = Some s ->
  set_sf chan f w = Done tt (set_glob (map_sf (<[sf_index chan := f s]>) (glob w)) w).
Proof. intros H. unfold set_sf, get_sf, bind, gets. by rewrite H. Qed.

Lemma qspi_load_spec chan w hdr ws s rest :
  1 <= chan <= 4 -> is_Some (scalefactors (glob w) !! sf_index chan) ->
  length ws = length qspi_regs -> Forall (is_u 32) ws -> sf_wf s ->
  let data := drop 4 (pack (QspiData hdr ws s)) ++ rest in
  length data = 252%nat -> bytes_ok data ->
  (forall i, (i < 252)%nat ->
     Some (mem w (chan * FLASH_SECTOR_SIZE + Z.of_nat i)) = data !! i) ->
  wp (qspi_load chan)
     (fun _ w' => writes_of (trace w') = rev (zip (saved_addrs chan) ws) ++ writes_of (trace w) /\
        glob w' = map_sf (<[sf_index chan := s]>) (glob w) /\ mem w' = mem w) w.
Proof.
  intros Hc [s0 Hs0] Hl Hu Hwf data Hlen Hok Hm. unfold qspi_load, FLASH_SECTOR_SIZE in *.
  rewrite (u32_small (chan * _)) by (unfold is_u; lia).
  apply wp_bind. eapply wp_mono; [eapply QspiFlashRead_spec; [lia|exact Hlen|exact Hok|exact Hm]|].
  intros b w1 (((S1 & _ & W1) & M1) & g & Hg & ->). unfold QspiDisperseData. cbn zeta.
  destruct (unpack_pack (QspiData hdr ws s) g rest) as [Hr Hsf]; [done..|].
  fold data in Hr, Hsf. rewrite Hr, Hsf. cbn [regwords sf].
  apply wp_bind. eapply wp_mono; [by apply write_regs_spec|].
  intros ? w2 [S2 T2]. unfold wp.
  assert (glob w2 = glob w) as Hg2 by (injection S2; injection S1; congruence).
  rewrite (set_sf_run chan _ w2 s0) by (by rewrite Hg2).
  cbn. rewrite Hg2, T2, writes_of_app, writes_of_writes, W1 by done. split_and!; [done..|].
  rewrite <- M1. f_equal. apply nor_after_skip, Forall_rev. clear. generalize qspi_regs. intros rs.
  revert ws. induction rs; intros [|? ?]; constructor; done || auto.
Qed.
End Facts.

(** ** Properties *)

(** Settings round trip: saving channel [chan] (1 to 4) always succeeds,
    reads each of its 37 setting registers once and changes none; a later load
    of the channel, in any state where the flash page is still the one
    written, writes exactly the values read back to the same registers and
    restores the channel's scale factors, whatever the header bytes are. *)
Theorem qspi_save_load {env : Env} {init} `{!NorFlash env init} chan w s :
  1 <= chan <= 4 -> scalefactors (glob w) !! sf_index chan = Some s -> sf_wf s ->
  exists w1 ws,
    qspi_save chan w = Done tt w1 /\ state_of w1 = state_of w /\
    writes_of (trace w1) = writes_of (trace w) /\
    length ws = length qspi_regs /\
    reads_of (trace w1) = rev (zip (saved_addrs chan) ws) ++ reads_of (trace w) /\
    forall w2,
      is_Some (scalefactors (glob w2) !! sf_index chan) ->
      (forall i, 0 <= i < 252 ->
         cells (nor_after init (trace w2)) (chan * FLASH_SECTOR_SIZE + i)
         = cells (nor_after init (trace w1)) (chan * FLASH_SECTOR_SIZE + i)) ->
      exists w2', qspi_load chan w2 = Done tt w2' /\
        writes_of (trace w2') = rev (zip (saved_addrs chan) ws) ++ writes_of (trace w2) /\
        glob w2' = map_sf (<[sf_index chan := s]>) (glob w2).
Proof.
  intros Hc Hs Hwf.
  destruct (wp_run _ _ _ (qspi_save_spec (init := init) chan w s Hc Hs Hwf))
    as ([] & w1 & E1 & S1 & W1 & hdr & ws & rest & Hl & Hu & R1 & Hlen & Hok & Hm & _).
  exists w1, ws. split_and!; [done..|]. intros w2 Hs2 Hsame.
  destruct (wp_run _ _ _ (qspi_load_spec (init := init) chan w2 hdr ws s rest Hc Hs2 Hl Hu Hwf Hlen Hok
    ltac:(intros i Hi; rewrite Hsame by lia; by apply Hm))) as ([] & w2' & E2 & W2 & G2 & _).
  by exists w2'.
Qed.

(** ** Witnesses *)

Definition nor_answer (tr : list event) (tx : list Z) : list Z :=
  match tx with
  | 3 :: a2 :: a1 :: a0 :: tail =>
      replicate 4 0 ++ map (fun i => cells (nor_after (fun _ => 0xFF) tr)
                               (a2 * 65536 + a1 * 256 + a0 + Z.of_nat i)) (seq 0 (length tail))
  | _ => [0; 0]
  end.

(** The simulated environment with a flash chip, registers preset. *)
Definition flash_env (init : gmap Z Z) : Env := {|
  XPAR_M_AXI_BASEADDR := sim_base; pdMS_TO_TICKS ms := ms * 100 / 1000; portTICK_PERIOD_MS := 10; DHCP_FINE_TIMER_MSECS := 500; DHCP_COARSE_TIMER_SECS := 60;
  EIO := 5; EMSGSIZE := 90; ENOTCONN := 107;
  env_in32 := regfile init; env_load32 := fun _ a => a;
  env_tick := fun tr => Z.of_nat (length tr);
  env_send := send_all; env_recv := stream_of 3 []; env_select := fun _ rd => Some rd;
  env_accept := fun _ _ => None; env_qspi := nor_answer;
  env_i2c_busy := fun _ _ => false;
  env_i2c_recv := fun _ _ _ _ => []; env_uninit := fun _ _ => []; env_stat := fun _ _ => 0; env_ip_text := fun _ => [];
  env_uart_ready := fun _ => true; env_uart_rx := fun _ => 0; env_scanf := fun _ => None;
  env_strtof := fun _ => 0; env_tasks := fun _ => ([], 0);
  env_fat := fun _ _ => 1; env_fat_read := fun _ _ => (1, []); env_fat_write := fun _ _ => (1, 0);
  env_fat_lines := fun _ => [];
  env_malloc := fun _ _ => true; env_calloc := fun _ => true; env_socket := fun _ => Some 3; env_bind := fun _ _ _ => true;
  env_listen := fun _ _ => true; env_net := fun _ _ => 0; env_netif := fun _ _ => 0; env_driver := fun _ op => default_driver op; env_ntoa := fun _ => []; env_patience := 3
|}.

#[export] Instance flash_env_nor init : NorFlash (flash_env init) (fun _ => 0xFF).
Proof.
  split.
  - intros tr a tail Ha. exists (replicate 4 0). split; [done|].
    destruct (addr24_decode a Ha) as (b2 & b1 & b0 & -> & <-). done.
  - done.
  - cbn. lia.
Qed.

Definition one_word : Z := 0xFFFFF.

Lemma qspi_save_load_witness :
  exists w1 w2,
    qspi_save (env := flash_env {[sim_base + 0x454 := one_word]}) 2 sim_world = Done tt w1 /\
    qspi_load (env := flash_env {[sim_base + 0x454 := one_word]}) 2 w1 = Done tt w2 /\
    nth 33 (writes_of (trace w2)) (0, 0) = (sim_base + 0x454, one_word) /\
    glob w2 = glob sim_world.
Proof.
  destruct (qspi_save_load (env := flash_env {[sim_base + 0x454 := one_word]}) 2 sim_world sim_sf)
    as (w1 & ws & E1 & S1 & _ & _ & _ & H).
  - lia.
  - reflexivity.
  - unfold sf_wf. by_compute.
  - assert (glob w1 = glob sim_world) as G1 by exact (f_equal (fun p => fst (fst (fst p))) S1).
    destruct (H w1) as (w2 & E2 & _ & G2).
    + rewrite G1. by eexists.
    + reflexivity.
    + exists w1, w2. split_and!; [exact E1|exact E2| |].
      * vm_compute in E1. injection E1 as <-. vm_compute in E2. injection E2 as <-. reflexivity.
      * rewrite G2, G1. reflexivity.
Defined.
