(* ===== verification/Persist.v ===== *)
(** * Settings across a restart

    What [qspi_save] leaves in the flash for each channel and what
    [InitSettingsfromQspi] does with it at the next start, put together: the
    pages of the four channels do not disturb each other, whatever the order
    of the saves. *)

From Stdlib Require Import ZArith Lia Bool.
From stdpp Require Import base list numbers gmap.
From S2P Require Import Prelude CFloat Registers World Logic Sim QspiFlash.

#[local] Open Scope Z_scope.

(** The page of channel [chan] holds the register words [ws] and the scale
    factors [s]. *)
Definition page_holds (mem : Z -> Z) (chan : Z) (ws : list Z) (s : ScaleFactorType) : Prop :=
  length ws = length qspi_regs /\ Forall (is_u 32) ws /\ sf_wf s /\
  exists hdr rest,
    let data := drop 4 (pack (QspiData hdr ws s)) ++ rest in
    length data = 252%nat /\ bytes_ok data /\
    forall i, (i < 252)%nat -> Some (mem (chan * FLASH_SECTOR_SIZE + Z.of_nat i)) = data !! i.

Lemma page_holds_ext mem mem' chan ws s :
  (forall x, x / FLASH_SECTOR_SIZE = chan -> mem' x = mem x) ->
  page_holds mem chan ws s -> page_holds mem' chan ws s.
Proof.
  intros E (Hl & Hu & Hs & hdr & rest & H1 & H2 & H3). split_and!; try done. exists hdr, rest. split_and!; [done..|].
  intros i Hi. rewrite E; [by apply H3|]. unfold FLASH_SECTOR_SIZE.
  symmetry. apply Z.div_unique with (Z.of_nat i); lia.
Qed.

Section Persist.
Context {env : Env} {init : Z -> Z} `{!NorFlash env init}.
Abbreviation mem w := (cells (nor_after init (trace w))).

(** The registers restored for a channel, with their values. *)
Definition restored (R : Z -> Z) (chan : Z) : list (Z * Z) :=
  (fun a => (a, R a)) <$> saved_addrs chan.

Lemma zip_restored R chan : zip (saved_addrs chan) (R <$> saved_addrs chan) = restored R chan.
Proof. unfold restored. induction (saved_addrs chan) as [|a l IH]; [done|]. cbn. by rewrite IH. Qed.

(** One save: its own page, the others as they were. *)
Lemma save_page R chan w s :
  1 <= chan <= 4 -> scalefactors (glob w) !! sf_index chan = Some s -> sf_wf s -> regs_hold R w ->
  wp (qspi_save chan)
     (fun _ w' => state_of w' = state_of w /\ writes_of (trace w') = writes_of (trace w) /\
        page_holds (mem w') chan (R <$> saved_addrs chan) s /\
        forall c ws s', c <> chan -> page_holds (mem w) c ws s' -> page_holds (mem w') c ws s') w.
Proof.
  intros Hc Hs Hwf HR. eapply wp_mono; [by apply (qspi_save_spec (init := init))|].
  intros ? w' (S & W & hdr & ws & rest & Hl & Hu & _ & Hlen & Hok & Hm & HRws & Ho).
  split_and!; [done..| |].
  - rewrite <- (HRws R HR). split_and!; [done..|]. by exists hdr, rest.
  - intros c ws' s' Hne. apply page_holds_ext. intros x Hx. apply Ho. congruence.
Qed.

(** Any number of saves, in any order. *)
Lemma saves_pages R w cs :
  Forall (fun c => 1 <= c <= 4) cs -> length (scalefactors (glob w)) = 4%nat ->
  Forall sf_wf (scalefactors (glob w)) -> regs_hold R w ->
  wp (seq_all (qspi_save <$> cs))
     (fun _ w' => state_of w' = state_of w /\ writes_of (trace w') = writes_of (trace w) /\
        (forall c ws s, c ∉ cs -> page_holds (mem w) c ws s -> page_holds (mem w') c ws s) /\
        forall c s, c ∈ cs -> scalefactors (glob w) !! sf_index c = Some s ->
          page_holds (mem w') c (R <$> saved_addrs c) s) w.
Proof.
  intros Hcs. revert w. induction Hcs as [|c cs Hc _ IH]; intros w Hlen Hwf HR; cbn [fmap list_fmap seq_all].
  - apply wp_ret. split_and!; [done..|]. intros c s Hin. by apply not_elem_of_nil in Hin.
  - destruct (lookup_lt_is_Some_2 (scalefactors (glob w)) (sf_index c)) as [s Hs].
    { unfold sf_index. rewrite u32_small by (unfold is_u; lia). lia. }
    apply wp_bind. eapply wp_mono; [apply (save_page R c w s); try done; exact (Forall_lookup_1 _ _ _ _ Hwf Hs)|].
    intros ? w1 (S1 & W1 & P1 & O1). assert (glob w1 = glob w) as G1 by (by injection S1).
    eapply wp_mono; [apply IH; rewrite ?G1; try done; intros tr adr E; apply HR; congruence|].
    intros ? w2 (S2 & W2 & O2 & P2). split_and!; [congruence..| |].
    + intros c' ws s' [Hne Hnin]%not_elem_of_cons Hp. by apply O2, O1.
    + intros c' s' Hin Hs'. destruct (decide (c' ∈ cs)) as [Hin'|Hnin].
      * by apply P2; [|rewrite G1].
      * apply elem_of_cons in Hin as [->|?]; [|done]. apply O2; [done|]. congruence.
Qed.

Lemma load_page chan w ws s :
  1 <= chan <= 4 -> length (scalefactors (glob w)) = 4%nat -> page_holds (mem w) chan ws s ->
  wp (qspi_load chan)
     (fun _ w' => writes_of (trace w') = rev (zip (saved_addrs chan) ws) ++ writes_of (trace w) /\
        glob w' = map_sf (<[sf_index chan := s]>) (glob w) /\ mem w' = mem w) w.
Proof.
  intros Hc Hl (Hlw & Hu & Hs & hdr & rest & H1 & H2 & H3).
  eapply (qspi_load_spec (init := init)); try done.
  apply lookup_lt_is_Some_2. unfold sf_index. rewrite u32_small by (unfold is_u; lia). lia.
Qed.

Lemma wp_out32 {B} a v (k : unit -> M B) Q w :
  wp (k tt) Q (push (EOut32 (u32 a) (u32 v)) w) -> wp (bind (Xil_Out32 a v) k) Q w.
Proof. done. Qed.

(** The start-up load, on four pages. *)
Lemma init_settings_pages w ws s :
  length (scalefactors (glob w)) = 4%nat -> (forall c, 1 <= c <= 4 -> page_holds (mem w) c (ws c) (s c)) ->
  wp InitSettingsfromQspi
     (fun _ w' =>
        writes_of (trace w') = rev (concat ((fun c => zip (saved_addrs c) (ws c)) <$> [1; 2; 3; 4])) ++
          [(u32 (AXI + EVR_PM_EVENTNUM_REG), 10); (u32 (AXI + EVR_INJ_EVENTNUM_REG), 10)] ++ writes_of (trace w) /\
        glob w' = map_sf (fun _ => [s 1; s 2; s 3; s 4]) (glob w)) w.
Proof.
  intros Hl Hp. unfold InitSettingsfromQspi. do 2 apply wp_out32.
  lazymatch goal with |- wp _ _ ?v => set (w0 := v) end. cbn [for_up].
  assert (mem w0 = mem w /\ glob w0 = glob w) as [M0 G0] by done. rewrite <- M0 in Hp.
  assert (forall w' l, glob w' = map_sf (fun _ => l) (glob w) -> scalefactors (glob w') = l) as SF by (by intros ? ? ->).
  assert (exists a b c d, scalefactors (glob w) = [a; b; c; d]) as (a & b & c & d & Hsf).
  { destruct (scalefactors (glob w)) as [|a [|b [|c [|d [|]]]]]; try done. by exists a, b, c, d. }
  apply wp_bind. eapply wp_mono; [apply (load_page 1); [lia|exact Hl|apply Hp; lia]|].
  intros ? w1 (W1 & G1 & M1). rewrite <- M1 in Hp.
  apply wp_bind. eapply wp_mono; [apply (load_page 2); [lia|by rewrite G1; cbn; rewrite Hsf|apply Hp; lia]|].
  intros ? w2 (W2 & G2 & M2). rewrite <- M2 in Hp.
  apply wp_bind. eapply wp_mono; [apply (load_page 3); [lia|by rewrite G2, G1; cbn; rewrite Hsf|apply Hp; lia]|].
  intros ? w3 (W3 & G3 & M3). rewrite <- M3 in Hp.
  apply wp_bind. eapply wp_mono; [apply (load_page 4); [lia|by rewrite G3, G2, G1; cbn; rewrite Hsf|apply Hp; lia]|].
  intros ? w4 (W4 & G4 & _). apply wp_ret. split.
  - rewrite W4, W3, W2, W1. cbn [fmap list_fmap concat]. rewrite app_nil_r, !rev_app_distr, <- !app_assoc. done.
  - rewrite G4, G3, G2, G1, G0. destruct (glob w) as [sfs ? ? ? ? ?]. cbn in Hsf. subst sfs. reflexivity.
Qed.
End Persist.

(** C12. Saved settings survive a restart: after the channels' settings were
    saved, in any order and any number of times, each channel at least once,
    with the registers holding the values [R], a start of the firmware with
    whatever was in its memory (the flash still as it was left) terminates,
    writes to each of the 37 setting registers of each of the four channels
    exactly the value it had, and to no other register but the two event
    codes, and sets all the scale factors to what they were; the saving itself
    writes no register. *)
Theorem settings_survive_restart {env : Env} {init} `{!NorFlash env init} R cs w :
  (forall c, c ∈ cs <-> 1 <= c <= 4) -> length (scalefactors (glob w)) = 4%nat ->
  Forall sf_wf (scalefactors (glob w)) -> regs_hold R w ->
  exists w1, seq_all (qspi_save <$> cs) w = Done tt w1 /\ state_of w1 = state_of w /\
    writes_of (trace w1) = writes_of (trace w) /\
    forall w2, length (scalefactors (glob w2)) = 4%nat ->
      (forall x, cells (nor_after init (trace w2)) x = cells (nor_after init (trace w1)) x) ->
      exists w3, InitSettingsfromQspi w2 = Done tt w3 /\
        writes_of (trace w3) = rev (concat (restored R <$> [1; 2; 3; 4])) ++
          [(u32 (AXI + EVR_PM_EVENTNUM_REG), 10); (u32 (AXI + EVR_INJ_EVENTNUM_REG), 10)] ++ writes_of (trace w2) /\
        glob w3 = map_sf (fun _ => scalefactors (glob w)) (glob w2).
Proof.
  intros Hcs Hl Hwf HR.
  assert (Forall (fun c => 1 <= c <= 4) cs) as Hf by (apply list.Forall_forall; intros c; apply Hcs).
  destruct (wp_run _ _ _ (saves_pages (init := init) R w cs Hf Hl Hwf HR)) as ([] & w1 & E1 & S1 & W1 & _ & P1).
  exists w1. split_and!; [done..|]. intros w2 Hl2 Hsame.
  destruct (scalefactors (glob w)) as [|a [|b [|c [|d [|]]]]] eqn:Esf; try done.
  set (s := fun k => nth (sf_index k) [a; b; c; d] sim_sf).
  destruct (wp_run _ _ _ (init_settings_pages (init := init) w2 (fun k => R <$> saved_addrs k) s Hl2
    ltac:(intros k Hk; eapply page_holds_ext; [intros x _; apply Hsame|];
      apply P1; [by apply Hcs|];
      assert (k = 1 \/ k = 2 \/ k = 3 \/ k = 4) as [-> | [-> | [-> | ->]]] by lia; reflexivity)))
    as ([] & w3 & E3 & W3 & G3).
  exists w3. split_and!; [done| |exact G3]. rewrite W3. cbn [fmap list_fmap]. by rewrite !zip_restored.
Qed.

(** Channels saved as 3, 1, 2, 4, 2; then a restart with other scale factors. *)
Definition preset : gmap Z Z := {[sim_base + 0x454 := one_word]}.
Definition other_sf : ScaleFactorType := ScaleFactor 0 0 0 0 0 0 0.

Lemma last_out_none a tr : writes_of tr = [] -> last_out a tr = None.
Proof. induction tr as [|e tr IH]; [done|]. destruct e; cbn; try exact IH. done. Qed.

Lemma settings_survive_restart_witness :
  exists w1 w3,
    seq_all (qspi_save (env := flash_env preset) <$> [3; 1; 2; 4; 2]) sim_world = Done tt w1 /\
    InitSettingsfromQspi (env := flash_env preset) (set_glob (map_sf (fun _ => replicate 4 other_sf) (glob w1)) w1) =
      Done tt w3 /\
    (sim_base + 0x454, one_word) ∈ writes_of (trace w3) /\
    scalefactors (glob w3) = replicate 4 sim_sf.
Proof.
  destruct (settings_survive_restart (env := flash_env preset) (fun a => u32 (default 0 (preset !! a)))
    [3; 1; 2; 4; 2] sim_world) as (w1 & E1 & S1 & _ & H).
  - intros c. rewrite !elem_of_cons, elem_of_nil. lia.
  - reflexivity.
  - by_compute.
  - intros tr a E. cbn [env_in32 flash_env]. unfold regfile. by rewrite last_out_none.
  - assert (glob w1 = glob sim_world) as G1 by exact (f_equal (fun p => fst (fst (fst p))) S1).
    edestruct (H (set_glob (map_sf (fun _ => replicate 4 other_sf) (glob w1)) w1)) as (w3 & E3 & W3 & G3);
      [reflexivity|reflexivity|].
    exists w1, w3. split_and!; [exact E1|exact E3| |by rewrite G3].
    rewrite W3. apply elem_of_app. left. clear. by_compute.
Defined.
