(* ===== verification/Scaling.v ===== *)
(** * Unit conversions shared by the components

    The conversion constants of [local.h], the word-swapping helpers
    [hton_conv] and [htonf], and [ReadAccumSA], which reads an accumulated ADC
    value and undoes the averaging. *)

From Stdlib Require Import ZArith Lia Bool Floats.SpecFloat.
From stdpp Require Import base list numbers.
From S2P Require Import Prelude CFloat Registers World Logic.

#[local] Open Scope Z_scope.
#[local] Open Scope flt_scope.

(** The conversion constants of [local.h], [double] expressions. *)
Definition CONVVOLTSTO16BITS : spec_float := flit double 32768 10.
Definition CONV16BITSTOVOLTS : spec_float := fdiv double (fofZ double 1) CONVVOLTSTO16BITS.
Definition CONVVOLTSTO18BITS : spec_float := flit double 131072 10.
Definition CONV18BITSTOVOLTS : spec_float := fdiv double (fofZ double 1) CONVVOLTSTO18BITS.
Definition CONVVOLTSTO20BITS : spec_float := flit double 524288 10.
Definition CONV20BITSTOVOLTS : spec_float := fdiv double (fofZ double 1) CONVVOLTSTO20BITS.
Definition GAIN20BITFRACT : spec_float := fofZ double 1048575.
Definition SAMPLERATE : spec_float := fofZ double 10000.

(** [htonf] of [local.h]. *)
Definition htonf (f : spec_float) : Z := htonl (bits_of_f32 f).

(** [hton_conv] of [snapshots.c] and [sadata.c]: reverse the bytes of each
    4-byte segment in place. *)
Fixpoint hton_conv (l : list Z) : list Z :=
  match l with
  | a :: b :: c :: d :: l => d :: c :: b :: a :: hton_conv l
  | _ => l
  end.

Section Scaling.
Context {env : Env}.

(** The C conversion of a float, as an effect. *)
Definition cast_s32 (x : spec_float) : M Z := the FloatToInt (to_s32 x).
Definition cast_u32 (x : spec_float) : M Z := the FloatToInt (to_u32 x).

(** [ReadAccumSA] of [sadata.c]. *)
Definition ReadAccumSA (reg_addr ave_mode : Z) : M spec_float :=
  let! v := Xil_In32 reg_addr in
  let raw := s32 v in
  ret (if ave_mode =? 0 then fofZ single raw
       else if ave_mode =? 1 then to_float (fofZ double raw /d fofZ double 167)
       else if ave_mode =? 2 then to_float (fofZ double raw /d fofZ double 500)
       else S754_nan).
End Scaling.

(** ** Facts *)

Lemma length_hton_conv l : length (hton_conv l) = length l.
Proof.
  revert l. fix IH 1. intros [|a [|b [|c [|d l]]]]; [reflexivity..|]. cbn. by rewrite IH.
Qed.

Lemma hton_conv_bytes_of_words ws :
  hton_conv (bytes_of_words ws) = bytes_of_words (htonl <$> ws).
Proof.
  induction ws as [|w ws IH]; [done|].
  change (bytes_of_words (w :: ws)) with (to_le 4 w ++ bytes_of_words ws).
  change (bytes_of_words (htonl <$> w :: ws)) with (to_le 4 (htonl w) ++ bytes_of_words (htonl <$> ws)).
  change (to_le 4 (htonl w)) with (to_le 4 (bswap 4 w)). rewrite to_le_bswap, <- IH.
  done.
Qed.

Lemma hton_conv_involutive l : hton_conv (hton_conv l) = l.
Proof.
  revert l. fix IH 1. intros [|a [|b [|c [|d l]]]]; [reflexivity..|]. cbn. by rewrite IH.
Qed.
