(* ===== verification/I2c.v ===== *)
(** * EEPROM settings and the I2C devices ([i2c.c])

    The hardware flavour of the unit (channel count, resolution, bandwidth,
    polarity, dual and main-dipole mode, smooth-ramp type) is kept in eight
    bytes of a 24AA025E48 EEPROM at [0x10]; [ReadHardwareFlavor] copies it to
    the FPGA registers and to the globals the setpoint code uses. *)

From Stdlib Require Import ZArith Lia Bool Floats.SpecFloat.
From stdpp Require Import base list numbers gmap.
From S2P Require Import Prelude CFloat Registers World Logic Sim Scaling.

#[local] Open Scope Z_scope.

Definition si570_values : list (Z * Z) :=
  [(137, 0x10); (7, 0x00); (8, 0xC2); (9, 0xBB); (10, 0xBE); (11, 0x6E); (12, 0x69);
   (137, 0x0); (135, 0x40)].

Definition IIC_EEPROM_ADDR : Z := 0x50.
Definition IIC_MAC_REG : Z := 0xFA.

(** The globals [ReadHardwareFlavor] assigns. *)
Definition set_conv (v2d d2v : spec_float) (g : globals) : globals :=
  Globals (scalefactors g) (bits_of_f32 (to_float v2d)) (bits_of_f32 (to_float d2v))
    (smoothramp_type g) (smoothramp_percentcurved g) (git_hash g).
Definition set_smooth (ty pc : Z) (g : globals) : globals :=
  Globals (scalefactors g) (CONVVOLTSTODACBITS g) (CONVDACBITSTOVOLTS g) ty pc (git_hash g).

Definition modify_glob (f : globals -> globals) : M unit :=
  modify (fun w => set_glob (f (glob w)) w).

Section I2c.
Context {env : Env}.

(** [while (XIicPs_BusIsBusy(...));] *)
Fixpoint wait_bus (fuel : nat) (bus : Z) : M unit :=
  match fuel with
  | O => stuck
  | S fuel =>
    let! b := XIicPs_BusIsBusy bus in
    if b then wait_bus fuel bus else ret tt
  end.

(** A bus whose configuration is not found is reported, and the null pointer
    then followed for its base address. *)
Definition init_bus (bus : Z) : M unit :=
  let! ConfigPtr := driver (XIicPs_LookupConfig bus) in
  if ConfigPtr =? 0 then fail NullPointer
  else let! Status := driver (XIicPs_CfgInitialize bus) in ret tt.

Definition init_i2c : M unit :=
  init_bus 0 ;;
  init_bus 1 ;;
  let! _ := driver (XIicPs_SetSClk 0 100000) in
  let! _ := driver (XIicPs_SetSClk 1 100000) in
  ret tt.

Definition i2c_write (bus : Z) (buf : list Z) (dev : Z) : M unit :=
  wait_bus env_patience bus ;;
  XIicPs_MasterSendPolled bus dev buf.

Definition i2c_read (bus : Z) (len : nat) (dev : Z) : M (list Z) :=
  wait_bus env_patience bus ;;
  XIicPs_MasterRecvPolled bus dev len.

Definition i2c0_write := i2c_write 0.
Definition i2c0_read := i2c_read 0.
Definition i2c1_write := i2c_write 1.
Definition i2c1_read := i2c_read 1.

Definition read_si570 : M unit :=
  for_up 6 0 (fun i =>
    i2c0_write [u8 (i + 7)] 0x55 ;;
    let! _ := i2c0_read 1 0x55 in ret tt).

Definition prog_si570 : M unit :=
  read_si570 ;;
  seq_all ((fun rv => i2c0_write [rv.1; rv.2] 0x55) <$> si570_values) ;;
  read_si570.

Definition i2c_get_mac_address : M (list Z) :=
  i2c1_write [IIC_MAC_REG] IIC_EEPROM_ADDR ;;
  i2c1_read 6 IIC_EEPROM_ADDR.

Definition i2c_eeprom_writeBytes (startAddr : Z) (data : list Z) : M unit :=
  i2c1_write (u8 startAddr :: data) IIC_EEPROM_ADDR.

Definition i2c_eeprom_readBytes (startAddr : Z) (len : nat) : M (list Z) :=
  i2c1_write [u8 startAddr] IIC_EEPROM_ADDR ;;
  i2c1_read len IIC_EEPROM_ADDR.

(** The sections of [ReadHardwareFlavor], one EEPROM byte each. *)
Definition flavor_numchans (val : Z) : M unit :=
  if val =? 0 then Xil_Out32 (AXI + NUMCHANS_REG) 0
  else if val =? 1 then Xil_Out32 (AXI + NUMCHANS_REG) 1
  else Xil_Out32 (AXI + NUMCHANS_REG) 2.

Definition flavor_resolution (val : Z) : M unit :=
  Xil_Out32 (AXI + RESOLUTION_REG) val ;;
  if val =? 0 then modify_glob (set_conv CONVVOLTSTO18BITS CONV18BITSTOVOLTS)
  else if val =? 1 then modify_glob (set_conv CONVVOLTSTO20BITS CONV20BITSTOVOLTS)
  else Xil_Out32 (AXI + RESOLUTION_REG) 2.

Definition flavor_bandwidth (val : Z) : M unit :=
  if val =? 0 then Xil_Out32 (AXI + BANDWIDTH_REG) 0
  else if val =? 1 then Xil_Out32 (AXI + BANDWIDTH_REG) 1
  else Xil_Out32 (AXI + BANDWIDTH_REG) 2.

Definition flavor_polarity (b : Z) : M unit :=
  let val := Z.land b 0x0F in
  Xil_Out32 (AXI + POLARITY_REG) val.

Definition flavor_dualmode (val : Z) : M unit :=
  if val =? 0 then Xil_Out32 (AXI + CH34_DUALMODE_REG) 1
  else Xil_Out32 (AXI + CH34_DUALMODE_REG) 0.

Definition flavor_dipole (val : Z) : M unit :=
  if val =? 0 then Xil_Out32 (AXI + MAIN_DIPOLE_MODE_REG) 1
  else Xil_Out32 (AXI + MAIN_DIPOLE_MODE_REG) 0.

Definition flavor_smooth (val percent : Z) : M unit :=
  if val =? 0 then
    Xil_Out32 (AXI + SMOOTHRAMP_TYPE_REG) 0 ;;
    modify_glob (set_smooth 0 percent)
  else
    Xil_Out32 (AXI + SMOOTHRAMP_TYPE_REG) 1 ;;
    modify_glob (set_smooth 1 0).

Definition ReadHardwareFlavor : M unit :=
  let! rdBuf := i2c_eeprom_readBytes 0x10 8 in
  flavor_numchans (nth 0 rdBuf 0) ;;
  flavor_resolution (nth 1 rdBuf 0) ;;
  flavor_bandwidth (nth 2 rdBuf 0) ;;
  flavor_polarity (nth 3 rdBuf 0) ;;
  flavor_dualmode (nth 4 rdBuf 0) ;;
  flavor_dipole (nth 5 rdBuf 0) ;;
  flavor_smooth (nth 6 rdBuf 0) (nth 7 rdBuf 0).
End I2c.

(** ** Facts *)

(** A missing bus configuration does not stop the code. *)
Lemma init_i2c_null {env : Env} w :
  (forall tr, env_driver tr (XIicPs_LookupConfig 0) = 0) ->
  init_i2c w = Fault NullPointer (push (EDriver (XIicPs_LookupConfig 0) 0) w).
Proof. intros H. unfold init_i2c, init_bus, driver, bind. by rewrite H. Qed.

Definition is_i2c (e : event) : Prop :=
  match e with
  | EI2cBusy _ _ | EI2cSend _ _ _ | EI2cRecv _ _ _ => True
  | _ => False
  end.

Lemma writes_of_i2c es tr : Forall is_i2c es -> writes_of (es ++ tr) = writes_of tr.
Proof. induction 1 as [|e es He _ IH]; [done|]. by destruct e. Qed.

Section Facts.
Context {env : Env}.

Abbreviation i2c_only := (both (keeps state_of) (emits is_i2c)).
Ltac i2c_side := split; [done|by apply emits_push].

Lemma wait_bus_quiet fuel bus : respects i2c_only (wait_bus fuel bus).
Proof.
  induction fuel as [|fuel IH]; cbn [wait_bus]; respects_tac i2c_side.
Qed.
#[local] Hint Resolve wait_bus_quiet : respects.

Lemma i2c_eeprom_readBytes_quiet a n : respects i2c_only (i2c_eeprom_readBytes a n).
Proof.
  unfold i2c_eeprom_readBytes, i2c1_write, i2c1_read, i2c_write, i2c_read. respects_tac i2c_side.
Qed.

Lemma recv_length a n w bs w' :
  i2c_eeprom_readBytes a n w = Done bs w' -> length bs = n /\ bytes_ok bs.
Proof.
  unfold i2c_eeprom_readBytes, i2c1_read, i2c_read, XIicPs_MasterRecvPolled.
  intros E. repeat rewrite run_bind_eq in E.
  destruct (i2c1_write _ _ w) as [? w1|? ?|?]; [|done..]. rewrite run_bind_eq in E.
  destruct (wait_bus _ _ w1) as [? w2|? ?|?]; [|done..]. injection E as <- _. split.
  - rewrite length_take, length_app, length_replicate. lia.
  - apply Forall_take, Forall_app. split; [apply u8_bytes_ok|by apply Forall_replicate].
Qed.
End Facts.

Lemma list8 {A} (l : list A) : length l = 8%nat ->
  exists a b c d e f g h, l = [a; b; c; d; e; f; g; h].
Proof.
  destruct l as [|a [|b [|c [|d [|e [|f [|g [|h [|]]]]]]]]]; try done.
  intros _. by exists a, b, c, d, e, f, g, h.
Qed.

(** The effect of each section on a byte. *)
Section Sections.
Context {env : Env}.

Definition out (off v : Z) (w : world) : world := push (EOut32 (u32 (AXI + off)) (u32 v)) w.

Lemma flavor_numchans_run v w : 0 <= v ->
  flavor_numchans v w = Done tt (out NUMCHANS_REG (Z.min 2 v) w).
Proof.
  intros H. unfold flavor_numchans. destruct (Z.eqb_spec v 0) as [->|]; [done|].
  destruct (Z.eqb_spec v 1) as [->|]; [done|]. by rewrite Z.min_l by lia.
Qed.

Lemma flavor_bandwidth_run v w : 0 <= v ->
  flavor_bandwidth v w = Done tt (out BANDWIDTH_REG (Z.min 2 v) w).
Proof.
  intros H. unfold flavor_bandwidth. destruct (Z.eqb_spec v 0) as [->|]; [done|].
  destruct (Z.eqb_spec v 1) as [->|]; [done|]. by rewrite Z.min_l by lia.
Qed.

Lemma flavor_polarity_run v w : flavor_polarity v w = Done tt (out POLARITY_REG (v mod 16) w).
Proof. unfold flavor_polarity. change 0x0F with (Z.ones 4). by rewrite Z.land_ones by lia. Qed.

Lemma flavor_dualmode_run v w :
  flavor_dualmode v w = Done tt (out CH34_DUALMODE_REG (Z.b2z (v =? 0)) w).
Proof. unfold flavor_dualmode. by destruct (v =? 0). Qed.

Lemma flavor_dipole_run v w :
  flavor_dipole v w = Done tt (out MAIN_DIPOLE_MODE_REG (Z.b2z (v =? 0)) w).
Proof. unfold flavor_dipole. by destruct (v =? 0). Qed.

Lemma flavor_smooth_run v pc w : 0 <= v ->
  let w1 := out SMOOTHRAMP_TYPE_REG (Z.min 1 v) w in
  flavor_smooth v pc w = Done tt (set_glob (set_smooth (Z.min 1 v) (if v =? 0 then pc else 0) (glob w1)) w1).
Proof.
  intros H w1. unfold w1, flavor_smooth. destruct (Z.eqb_spec v 0) as [->|]; [done|].
  by rewrite Z.min_l by lia.
Qed.

Definition conv_globals (v : Z) (g : globals) : globals :=
  Globals (scalefactors g)
    (if v =? 0 then 0x464CCCCD else if v =? 1 then 0x474CCCCD else CONVVOLTSTODACBITS g)
    (if v =? 0 then 0x38A00000 else if v =? 1 then 0x37A00000 else CONVDACBITSTOVOLTS g)
    (smoothramp_type g) (smoothramp_percentcurved g) (git_hash g).

Lemma flavor_resolution_run v w : 0 <= v ->
  exists w', flavor_resolution v w = Done tt w' /\
    glob w' = conv_globals v (glob w) /\
    pdata w' = pdata w /\ snap w' = snap w /\ key w' = key w /\
    exists ws, writes_of (trace w') = (u32 (AXI + RESOLUTION_REG), Z.min 2 v) :: ws ++ writes_of (trace w) /\
      Forall (fun av => av.1 = u32 (AXI + RESOLUTION_REG)) ws.
Proof.
  intros H. unfold flavor_resolution, conv_globals.
  destruct (Z.eqb_spec v 0) as [->|].
  { eexists. split; [reflexivity|]. split_and!; [done..|]. by exists []. }
  destruct (Z.eqb_spec v 1) as [->|].
  { eexists. split; [reflexivity|]. split_and!; [done..|]. by exists []. }
  eexists. split; [reflexivity|]. split_and!; try done; [by destruct w as [[] ? ? ? ?]|].
  exists [(u32 (AXI + RESOLUTION_REG), u32 v)]. split; [by rewrite Z.min_l by lia|].
  by constructor.
Qed.

Lemma last_write_skip a ws l :
  Forall (fun av => av.1 <> a) ws -> last_write a (ws ++ l) = last_write a l.
Proof.
  induction 1 as [|[b v] ws Hb _ IH]; [done|]. cbn in *.
  by destruct (Z.eqb_spec b a).
Qed.

Lemma axi_eqb a b : (AXI + a =? AXI + b) = (a =? b).
Proof. destruct (Z.eqb_spec a b), (Z.eqb_spec (AXI + a) (AXI + b)); lia. Qed.

Lemma last_write_out `{!AxiWindow env} off off' v w :
  0 <= off' < 0x1000 ->
  last_write (AXI + off) (writes_of (trace (out off' v w)))
  = if off' =? off then Some (u32 v) else last_write (AXI + off) (writes_of (trace w)).
Proof. intros H. cbn. rewrite axi_addr, axi_eqb by done. done. Qed.
End Sections.

(** The run of [ReadHardwareFlavor], by the bytes it reads. *)
Lemma ReadHardwareFlavor_run {env : Env} `{!AxiWindow env} w bs w0 :
  i2c_eeprom_readBytes 0x10 8 w = Done bs w0 ->
  exists b0 b1 b2 b3 b4 b5 b6 b7 w',
    bs = [b0; b1; b2; b3; b4; b5; b6; b7] /\
    ReadHardwareFlavor w = Done tt w' /\
    (let r off := last_write (AXI + off) (writes_of (trace w')) in
     r NUMCHANS_REG = Some (Z.min 2 b0) /\ r RESOLUTION_REG = Some (Z.min 2 b1) /\
     r BANDWIDTH_REG = Some (Z.min 2 b2) /\ r POLARITY_REG = Some (b3 mod 16) /\
     r CH34_DUALMODE_REG = Some (Z.b2z (b4 =? 0)) /\
     r MAIN_DIPOLE_MODE_REG = Some (Z.b2z (b5 =? 0)) /\
     r SMOOTHRAMP_TYPE_REG = Some (Z.min 1 b6)) /\
    glob w' = Globals (scalefactors (glob w))
      (if b1 =? 0 then 0x464CCCCD else if b1 =? 1 then 0x474CCCCD else CONVVOLTSTODACBITS (glob w))
      (if b1 =? 0 then 0x38A00000 else if b1 =? 1 then 0x37A00000 else CONVDACBITSTOVOLTS (glob w))
      (Z.min 1 b6) (if b6 =? 0 then b7 else 0) (git_hash (glob w)) /\
    pdata w' = pdata w /\ snap w' = snap w /\ key w' = key w.
Proof.
  intros E. destruct (recv_length _ _ _ _ _ E) as [Hl Hb].
  destruct (list8 bs Hl) as (b0 & b1 & b2 & b3 & b4 & b5 & b6 & b7 & ->).
  pose proof (i2c_eeprom_readBytes_quiet 0x10 8 w) as [Hs _]. rewrite E in Hs.
  injection Hs as Hs1 Hs2 Hs3 Hs4. cbn [final] in *.
  rewrite !Forall_cons in Hb. unfold is_u in Hb. change (2 ^ 8) with 256 in Hb.
  unfold ReadHardwareFlavor. rewrite (run_bind _ _ _ _ _ E). cbn [nth].
  rewrite (run_bind _ _ _ _ _ (flavor_numchans_run b0 w0 ltac:(lia))).
  destruct (flavor_resolution_run b1 (out NUMCHANS_REG (Z.min 2 b0) w0) ltac:(lia))
    as (w1 & E1 & G1 & P1 & N1 & K1 & ws & W1 & F1).
  rewrite (run_bind _ _ _ _ _ E1).
  rewrite (run_bind _ _ _ _ _ (flavor_bandwidth_run b2 w1 ltac:(lia))).
  set (w2 := out BANDWIDTH_REG _ w1).
  set (w3 := out POLARITY_REG (b3 mod 16) w2).
  set (w4 := out CH34_DUALMODE_REG (Z.b2z (b4 =? 0)) w3).
  set (w5 := out MAIN_DIPOLE_MODE_REG (Z.b2z (b5 =? 0)) w4).
  set (w6 := out SMOOTHRAMP_TYPE_REG (Z.min 1 b6) w5).
  exists b0, b1, b2, b3, b4, b5, b6, b7,
    (set_glob (set_smooth (Z.min 1 b6) (if b6 =? 0 then b7 else 0) (glob w6)) w6).
  split; [done|]. split; [|split; [|split]].
  - rewrite (run_bind _ _ _ _ _ (flavor_polarity_run b3 w2)), (run_bind _ _ _ _ _ (flavor_dualmode_run b4 w3)),
      (run_bind _ _ _ _ _ (flavor_dipole_run b5 w4)). apply flavor_smooth_run. lia.
  - cbn [set_glob trace]. cbn zeta. unfold w6, w5, w4, w3, w2.
    assert (forall off, off <> RESOLUTION_REG ->
      last_write (AXI + off) (writes_of (trace w1))
      = last_write (AXI + off) (writes_of (trace (out NUMCHANS_REG (Z.min 2 b0) w0)))) as Skip.
    { intros off Hoff. rewrite W1. cbn [last_write]. rewrite axi_addr, axi_eqb by done.
      destruct (Z.eqb_spec RESOLUTION_REG off); [done|]. apply last_write_skip.
      eapply Forall_impl; [exact F1|]. intros [a v]. cbn. rewrite axi_addr by done. lia. }
    assert (last_write (AXI + RESOLUTION_REG) (writes_of (trace w1)) = Some (Z.min 2 b1)) as Res.
    { rewrite W1. cbn [last_write]. by rewrite axi_addr, axi_eqb by done. }
    rewrite !last_write_out, Res, !Skip, !last_write_out by done.
    cbn -[u32 Z.min Z.modulo Z.b2z].
    rewrite !(u32_small (Z.min 2 _)), !(u32_small (Z.min 1 _)), !(u32_small (b3 mod 16))
      by (unfold is_u; pose proof (Z.mod_pos_bound b3 16); lia).
    split_and!; try done; f_equal; apply u32_small; unfold is_u; clear; destruct (_ =? 0); simpl Z.b2z; lia.
  - cbn. rewrite G1. unfold conv_globals. cbn. by rewrite Hs1.
  - cbn. by rewrite P1, N1, K1, <- Hs2, <- Hs3, <- Hs4.
Qed.

(** C34. Whatever the eight EEPROM bytes are, [ReadHardwareFlavor] leaves the
    seven flavour registers and the globals in agreement: counts, resolution
    and bandwidth are coded 0, 1 or 2 (invalid), polarity is the low nibble,
    the two mode registers invert their byte, and the volts-to-bits factors
    are those of the resolution (13107.2 or 52428.8 and their inverses),
    untouched when the resolution byte is invalid.  The scale factors and the
    rest of the state stay as they were. *)
Theorem ReadHardwareFlavor_correct {env : Env} `{!AxiWindow env} w bs w0 :
  i2c_eeprom_readBytes 0x10 8 w = Done bs w0 ->
  exists b0 b1 b2 b3 b4 b5 b6 b7 w',
    bs = [b0; b1; b2; b3; b4; b5; b6; b7] /\
    ReadHardwareFlavor w = Done tt w' /\
    (let r off := last_write (AXI + off) (writes_of (trace w')) in
     r NUMCHANS_REG = Some (Z.min 2 b0) /\ r RESOLUTION_REG = Some (Z.min 2 b1) /\
     r BANDWIDTH_REG = Some (Z.min 2 b2) /\ r POLARITY_REG = Some (b3 mod 16) /\
     r CH34_DUALMODE_REG = Some (Z.b2z (b4 =? 0)) /\
     r MAIN_DIPOLE_MODE_REG = Some (Z.b2z (b5 =? 0)) /\
     r SMOOTHRAMP_TYPE_REG = Some (Z.min 1 b6)) /\
    glob w' = Globals (scalefactors (glob w))
      (if b1 =? 0 then 0x464CCCCD else if b1 =? 1 then 0x474CCCCD else CONVVOLTSTODACBITS (glob w))
      (if b1 =? 0 then 0x38A00000 else if b1 =? 1 then 0x37A00000 else CONVDACBITSTOVOLTS (glob w))
      (Z.min 1 b6) (if b6 =? 0 then b7 else 0) (git_hash (glob w)) /\
    pdata w' = pdata w /\ snap w' = snap w /\ key w' = key w.
Proof. apply ReadHardwareFlavor_run. Qed.

(** ** Witness *)

(** The simulated unit with an EEPROM: high resolution, four channels, a
    polarity byte with upper bits set, linear ramps of 12 percent. *)
Definition eeprom_env : Env := {|
  XPAR_M_AXI_BASEADDR := sim_base; pdMS_TO_TICKS ms := ms * 100 / 1000; portTICK_PERIOD_MS := 10; DHCP_FINE_TIMER_MSECS := 500; DHCP_COARSE_TIMER_SECS := 60;
  EIO := 5; EMSGSIZE := 90; ENOTCONN := 107;
  env_in32 := regfile ∅; env_load32 := fun _ a => a;
  env_tick := fun tr => Z.of_nat (length tr);
  env_send := send_all; env_recv := stream_of 3 []; env_select := fun _ rd => Some rd;
  env_accept := fun _ _ => None; env_qspi := fun _ _ => [];
  env_i2c_busy := fun tr _ => match tr with EI2cSend _ _ _ :: _ => true | _ => false end;
  env_i2c_recv := fun _ _ _ _ => [1; 1; 0; 0xF5; 1; 1; 0; 12];
  env_uninit := fun _ _ => []; env_stat := fun _ _ => 0; env_ip_text := fun _ => [];
  env_uart_ready := fun _ => true; env_uart_rx := fun _ => 0; env_scanf := fun _ => None;
  env_strtof := fun _ => 0; env_tasks := fun _ => ([], 0);
  env_fat := fun _ _ => 1; env_fat_read := fun _ _ => (1, []); env_fat_write := fun _ _ => (1, 0);
  env_fat_lines := fun _ => [];
  env_malloc := fun _ _ => true; env_calloc := fun _ => true; env_socket := fun _ => Some 3; env_bind := fun _ _ _ => true;
  env_listen := fun _ _ => true; env_net := fun _ _ => 0; env_netif := fun _ _ => 0; env_driver := fun _ op => default_driver op; env_ntoa := fun _ => []; env_patience := 3
|}.

#[export] Instance eeprom_env_window : AxiWindow eeprom_env.
Proof. by split. Qed.

Lemma ReadHardwareFlavor_correct_witness :
  exists w', ReadHardwareFlavor (env := eeprom_env) sim_world = Done tt w' /\
    last_write (sim_base + POLARITY_REG) (writes_of (trace w')) = Some 5 /\
    smoothramp_percentcurved (glob w') = 12.
Proof.
  destruct (ReadHardwareFlavor_correct (env := eeprom_env) sim_world [1; 1; 0; 0xF5; 1; 1; 0; 12]
    (final (i2c_eeprom_readBytes (env := eeprom_env) 0x10 8 sim_world)))
    as (b0 & b1 & b2 & b3 & b4 & b5 & b6 & b7 & w' & E & Er & (_ & _ & _ & Hp & _) & Hg & _).
  - vm_compute. reflexivity.
  - injection E as <- <- <- <- <- <- <- <-. exists w'. split; [exact Er|].
    split; [exact Hp|]. by rewrite Hg.
Defined.
