(* ===== verification/Control.v ===== *)
(** * Settings messages and the DAC

    [control.c]: the global and per-channel settings messages, the DAC set
    point with its limits, the two smooth-ramp calculations, and the ramp
    table.  A handler receives the receive buffer of the connection and reads
    the words of the message in it ([msgptr]). *)

From Stdlib Require Import ZArith Lia Bool Floats.SpecFloat.
From stdpp Require Import base list numbers gmap.
From S2P Require Import Prelude CFloat Registers World Logic Sim Scaling QspiFlash.

#[local] Open Scope Z_scope.
#[local] Open Scope flt_scope.

(** [switch (x)] whose cases all end in [break]. *)
Fixpoint switch {A} (x : Z) (cases : list (Z * A)) (default : A) : A :=
  match cases with
  | [] => default
  | (label, body) :: cases => if x =? label then body else switch x cases default
  end.

(** [msgptr[i]], a little-endian load. *)
Definition word_at (msg : list Z) (i : nat) : option Z :=
  let b := take 4 (drop (4 * i) msg) in
  if (length b =? 4)%nat then Some (of_le b) else None.

(** A setting message: the address word and the data word in network order,
    followed by what else is in the buffer. *)
Definition settings_msg (addr data : Z) (rest : list Z) : list Z :=
  bytes_of_words [htonl addr; htonl data] ++ rest.

Section Control.
Context {env : Env}.

Definition msg_word (msg : list Z) (i : nat) : M Z := the OutOfBounds (word_at msg i).

Definition set_fpleds (msgVal : Z) : M unit := Xil_Out32 (AXI + LEDS_REG) msgVal.

Definition soft_trig (msgVal : Z) : M unit :=
  Xil_Out32 (AXI + SOFTTRIG) msgVal ;;
  Xil_Out32 (AXI + SOFTTRIG) 0.

(** [dump_adcs] prints; its interactions are the register reads. *)
Definition dump_adcs (chan : Z) : M unit :=
  let base := u32 (AXI + chan * CHBASEADDR) in
  let! ave_mode := Xil_In32 (base + AVEMODE_REG) in
  let! _ := ReadAccumSA (base + DCCT1_REG) ave_mode in
  let! _ := get_sf chan in
  let! _ := ReadAccumSA (base + DCCT2_REG) ave_mode in
  let! _ := ReadAccumSA (base + DACMON_REG) ave_mode in
  let! _ := ReadAccumSA (base + VOLT_REG) ave_mode in
  let! _ := ReadAccumSA (base + GND_REG) ave_mode in
  let! _ := ReadAccumSA (base + SPARE_REG) ave_mode in
  let! _ := ReadAccumSA (base + REG_REG) ave_mode in
  let! _ := ReadAccumSA (base + ERR_REG) ave_mode in
  let! _ := Xil_In32 (base + DAC_CURRSETPT_REG) in
  let! _ := Xil_In32 (base + DAC_CURRSETPT_REG) in
  ret tt.

(** ** The ramp table *)

(** The saturation of [write_ramptable]. *)
Definition ramp_clamp (psc_resolution scaled_val : Z) : M Z :=
  let! a := (if (psc_resolution =? 1) || (psc_resolution =? 0)
             then int_abs scaled_val else ret 0) in
  ret (if (psc_resolution =? 1) && (2 ^ 20 <? a) then
         (if 0 <? scaled_val then 2 ^ 20 - 1 else - 2 ^ 20)
       else if (psc_resolution =? 0) && (2 ^ 18 <? a) then
         (if 0 <? scaled_val then 2 ^ 18 - 1 else - 2 ^ 18)
       else scaled_val).

(** [data.f*CONVVOLTSTODACBITS / scalefactors[chan-1].dac_dccts]. *)
Definition amps_to_bits (f : spec_float) (v2d sf : Z) : spec_float :=
  f *s f32_of_bits v2d /s f32_of_bits sf.

Definition volts_to_dacbits : M Z := gets (fun w => CONVVOLTSTODACBITS (glob w)).

Definition ramp_point (chan : Z) (msg : list Z) (psc_resolution i : Z) : M unit :=
  let! word := msg_word msg (Z.to_nat i) in
  let f := f32_of_bits (htonl word) in
  let! v2d := volts_to_dacbits in
  let! s := get_sf chan in
  let! scaled_val := cast_s32 (amps_to_bits f v2d (dac_dccts s)) in
  let! scaled_val := ramp_clamp psc_resolution scaled_val in
  Xil_Out32 (AXI + (DAC_RAMPADDR_REG + chan * CHBASEADDR)) i ;;
  Xil_Out32 (AXI + (DAC_RAMPDATA_REG + chan * CHBASEADDR)) scaled_val.

Definition write_ramptable (chan : Z) (msg : list Z) (msglen : Z) : M unit :=
  let ramp_len := msglen / 4 in
  for_up (Z.to_nat (Z.min 20 ramp_len)) 0
    (fun i => let! _ := msg_word msg (Z.to_nat i) in ret tt) ;;
  if 50000 <? ramp_len then ret tt else
  Xil_Out32 (AXI + DAC_RAMPLEN_REG + chan * CHBASEADDR) ramp_len ;;
  let! psc_resolution := Xil_In32 (AXI + RESOLUTION_REG) in
  let! _ := get_sf chan in
  for_up (Z.to_nat ramp_len) 0 (ramp_point chan msg psc_resolution).

(** ** Smooth ramps *)

Definition CORDIC_INIT_PHASE : Z := 421657300.

(** The ramp rate in bits per second. *)
Definition bits_per_sec (s : ScaleFactorType) (v2d : Z) : spec_float :=
  (f32_of_bits (ampspersec s) /s f32_of_bits (dac_dccts s)) *s f32_of_bits v2d.

Definition at_least_2s (ramp_duration : spec_float) (maindipole_mode : Z) : spec_float :=
  if float_lt ramp_duration (fofZ single 2) && (maindipole_mode =? 1)
  then fofZ single 2 else ramp_duration.

Definition Calc_WriteRaisedCosineSmooth (chan new_setpt : Z) : M unit :=
  let! r := Xil_In32 (AXI + DAC_CURRSETPT_REG + chan * CHBASEADDR) in
  let cur_setpt := s32 r in
  let! s := get_sf chan in
  let! v2d := volts_to_dacbits in
  let ramp_rate := bits_per_sec s v2d in
  let! d := int_op (new_setpt - cur_setpt) in
  let! d := int_abs d in
  let ramp_duration := fofZ single d /s ramp_rate in
  let! maindipole_mode := Xil_In32 (AXI + MAIN_DIPOLE_MODE_REG) in
  let ramp_duration := at_least_2s ramp_duration maindipole_mode in
  let! num_samples := cast_u32 (to_double ramp_duration *d SAMPLERATE) in
  let! smooth_len := cast_u32 (to_double (fofZ single d /s ramp_rate) *d SAMPLERATE) in
  if num_samples =? 0 then fail DivByZero else
  let phase_inc := fofZ single (CORDIC_INIT_PHASE / num_samples) in
  let! p := cast_u32 phase_inc in
  Xil_Out32 (AXI + SMOOTH_PHASEINC_REG + chan * CHBASEADDR) p ;;
  Xil_Out32 (AXI + DAC_SETPT_REG + chan * CHBASEADDR) new_setpt.

(** [if (abs(x) > 511) x = 0;] on a [double], [abs] being that of [int]. *)
Definition limit_511 (x : spec_float) : M spec_float :=
  let! i := cast_s32 x in
  let! a := int_abs i in
  ret (if 511 <? a then fofZ double 0 else x).

(** [(s64)llroundf(x * 281474976710656.0f)]. *)
Definition q16_48 (x : spec_float) : M Z :=
  the FloatToInt (llround (to_float (x *d fofZ double (2 ^ 48)))).

Definition hi32 (z : Z) : Z := u32 (Z.shiftr (u64 z) 32).

(** [Calc_WriteLinearSmooth]; the simulation at its end only prints. *)
Definition Calc_WriteLinearSmooth (chan new_setpt : Z) : M unit :=
  let! percent := gets (fun w => smoothramp_percentcurved (glob w)) in
  let percent_curved := to_float (fofZ double percent /d fofZ double 100) in
  let! r := Xil_In32 (AXI + DAC_CURRSETPT_REG + chan * CHBASEADDR) in
  let cur_setpt := s32 r in
  let! s := get_sf chan in
  let! v2d := volts_to_dacbits in
  let ramp_rate := bits_per_sec s v2d in
  let! diff := int_op (new_setpt - cur_setpt) in
  let! d := int_abs diff in
  let ramp_duration := fofZ single d /s ramp_rate in
  let! maindipole_mode := Xil_In32 (AXI + MAIN_DIPOLE_MODE_REG) in
  let ramp_duration := at_least_2s ramp_duration maindipole_mode in
  let! num_samples := cast_u32 (to_double ramp_duration *d SAMPLERATE) in
  let! linear_pts := cast_u32 (to_double ((fofZ single 1 -s fofZ single 2 *s percent_curved)
                                          *s ramp_duration) *d SAMPLERATE) in
  let! curved_pts := cast_u32 (to_double (percent_curved *s ramp_duration) *d SAMPLERATE) in
  let dy := fofZ double diff /d fofZ double (u32 (curved_pts + linear_pts)) in
  let dy_per_curve_pt := dy /d fofZ double curved_pts in
  Xil_Out32 (AXI + SMOOTH_LINEAR_LEN_REG + chan * CHBASEADDR) linear_pts ;;
  Xil_Out32 (AXI + SMOOTH_CURVED_LEN_REG + chan * CHBASEADDR) curved_pts ;;
  let! dy := limit_511 dy in
  let! dy_q16_48 := q16_48 dy in
  Xil_Out32 (AXI + SMOOTH_DY_LO_REG + chan * CHBASEADDR) (u32 dy_q16_48) ;;
  Xil_Out32 (AXI + SMOOTH_DY_HI_REG + chan * CHBASEADDR) (hi32 dy_q16_48) ;;
  let! dy_per_curve_pt := limit_511 dy_per_curve_pt in
  let! dy_per_pt_q16_48 := q16_48 dy_per_curve_pt in
  Xil_Out32 (AXI + SMOOTH_DY_PER_PT_LO_REG + chan * CHBASEADDR) (u32 dy_per_pt_q16_48) ;;
  Xil_Out32 (AXI + SMOOTH_DY_PER_PT_HI_REG + chan * CHBASEADDR) (hi32 dy_per_pt_q16_48) ;;
  Xil_Out32 (AXI + DAC_SETPT_REG + chan * CHBASEADDR) new_setpt.

(** ** Operating mode and set point *)

(** [1 / data.f * CONVVOLTSTODACBITS], as a bit pattern. *)
Definition fofb_scalefactor (sf v2d : Z) : Z :=
  bits_of_f32 (fofZ single 1 /s f32_of_bits sf *s f32_of_bits v2d).

Definition Set_dacOpmode (chan new_opmode : Z) : M unit :=
  when (new_opmode =? JUMP) (Xil_Out32 (AXI + DAC_OPMODE_REG + chan * CHBASEADDR) JUMP) ;;
  when (new_opmode =? FOFB)
    (let! s := get_sf chan in
     let! v2d := volts_to_dacbits in
     Xil_Out32 (AXI + FOFB_SCALEFACTOR_REG + chan * CHBASEADDR)
       (fofb_scalefactor (dac_dccts s) v2d) ;;
     Xil_Out32 (AXI + DAC_OPMODE_REG + chan * CHBASEADDR) FOFB) ;;
  when ((new_opmode =? SMOOTH) || (new_opmode =? RAMP))
    (Xil_Out32 (AXI + DAC_OPMODE_REG + chan * CHBASEADDR) new_opmode).

(** The boundary conditions of [Set_dac]. *)
Definition limit_amps (amps : spec_float) (sf : Z) : spec_float :=
  let sf := f32_of_bits sf in
  let high := flit double 99999 10000 *d to_double sf in
  let low := fofZ single (-10) *s sf in
  if float_gt (to_double amps) high then to_float high
  else if float_lt amps low then low
  else amps.

Definition Set_dac (chan : Z) (new_setpt_amps : spec_float) : M unit :=
  let! dac_mode := Xil_In32 (AXI + DAC_OPMODE_REG + chan * CHBASEADDR) in
  let! polarity_reg := Xil_In32 (AXI + POLARITY_REG) in
  if 32 <=? chan then fail ShiftRange else
  let polarity := Z.land (Z.shiftr polarity_reg chan) 1 in
  let! s := get_sf chan in
  let new_setpt_amps := limit_amps new_setpt_amps (dac_dccts s) in
  let! v2d := volts_to_dacbits in
  let! new_setpt := cast_s32 (amps_to_bits new_setpt_amps v2d (dac_dccts s)) in
  let new_setpt := if (polarity =? 1) && (new_setpt <? 0) then 0 else new_setpt in
  let! ramp_type := gets (fun w => smoothramp_type (glob w)) in
  if dac_mode =? SMOOTH then
    if ramp_type =? 1 then Calc_WriteRaisedCosineSmooth chan new_setpt
    else Calc_WriteLinearSmooth chan new_setpt
  else if dac_mode =? JUMP then
    Xil_Out32 (AXI + DAC_SETPT_REG + chan * CHBASEADDR) new_setpt
  else ret tt.
End Control.

Section Settings.
Context {env : Env}.

(** ** Global settings *)

Definition glob_word (reg u : Z) : M unit := Xil_Out32 (AXI + reg) u.

Definition glob_cases (u : Z) : list (Z * M unit) :=
  [(SOFT_TRIG_MSG, soft_trig u);
   (TEST_TRIG_MSG, Xil_Out32 (AXI + TESTTRIG) u ;; Xil_Out32 (AXI + TESTTRIG) 0);
   (FP_LED_MSG, set_fpleds u);
   (EVR_RESET_MSG, if u =? 1 then Xil_Out32 (AXI + EVR_RESET_REG) 0xFF
                   else Xil_Out32 (AXI + EVR_RESET_REG) 0);
   (EVR_INJ_EVENTNUM_MSG, glob_word EVR_INJ_EVENTNUM_REG u);
   (EVR_PM_EVENTNUM_MSG, glob_word EVR_PM_EVENTNUM_REG u);
   (EVR_1HZ_EVENTNUM_MSG, glob_word EVR_1HZ_EVENTNUM_REG u);
   (EVR_10HZ_EVENTNUM_MSG, glob_word EVR_10HZ_EVENTNUM_REG u);
   (EVR_10KHZ_EVENTNUM_MSG, glob_word EVR_10KHZ_EVENTNUM_REG u);
   (FOFB_IPADDR_MSG, glob_word FOFB_IPADDR_REG u)].

Definition glob_settings (msg : list Z) : M unit :=
  let! a := msg_word msg 0 in
  let! d := msg_word msg 1 in
  switch (htonl a) (glob_cases (htonl d)) (ret tt).

(** ** Channel settings

    The shapes of the cases of [chan_settings]; [u] is [data.u], and
    [f32_of_bits u] is [data.f]. *)

(** [Xil_Out32(.. reg .., data.u)]. *)
Definition set_word (reg chan u : Z) : M unit := Xil_Out32 (AXI + reg + chan * CHBASEADDR) u.

(** [Xil_Out32(.. reg .., data.f*GAIN20BITFRACT)]. *)
Definition set_gain (reg chan u : Z) : M unit :=
  let! v := cast_u32 (to_double (f32_of_bits u) *d GAIN20BITFRACT) in
  Xil_Out32 (AXI + reg + chan * CHBASEADDR) v.

(** [scaled_val = data.f*CONVVOLTSTODACBITS / scalefactors[chan-1].dac_dccts]. *)
Definition scaled_dac (chan u : Z) : M Z :=
  let! v2d := volts_to_dacbits in
  let! s := get_sf chan in
  cast_s32 (amps_to_bits (f32_of_bits u) v2d (dac_dccts s)).

Definition set_offset_dac (reg chan u : Z) : M unit :=
  let! scaled_val := scaled_dac chan u in
  Xil_Out32 (AXI + reg + chan * CHBASEADDR) scaled_val.

(** [scaled_val = data.f*CONVVOLTSTO16BITS / scalefactors[chan-1].field]. *)
Definition set_offset_16 (reg : Z) (field : ScaleFactorType -> Z) (chan u : Z) : M unit :=
  let! s := get_sf chan in
  let! scaled_val := cast_s32 (to_double (f32_of_bits u) *d CONVVOLTSTO16BITS
                               /d to_double (f32_of_bits (field s))) in
  Xil_Out32 (AXI + reg + chan * CHBASEADDR) scaled_val.

(** [fabs(data.f*CONVVOLTSTODACBITS) / fabs(scalefactors[chan-1].dac_dccts)]. *)
Definition set_thresh_dac (reg chan u : Z) : M unit :=
  let! v2d := volts_to_dacbits in
  let! s := get_sf chan in
  let! scaled_val := cast_s32 (fabs (to_double (f32_of_bits u *s f32_of_bits v2d))
                               /d fabs (to_double (f32_of_bits (dac_dccts s)))) in
  Xil_Out32 (AXI + reg + chan * CHBASEADDR) scaled_val.

(** [fabs(data.f*CONVVOLTSTO16BITS) / fabs(scalefactors[chan-1].field)],
    saturated at 32767. *)
Definition set_thresh_16 (reg : Z) (field : ScaleFactorType -> Z) (chan u : Z) : M unit :=
  let! s := get_sf chan in
  let! scaled_val := cast_s32 (fabs (to_double (f32_of_bits u) *d CONVVOLTSTO16BITS)
                               /d fabs (to_double (f32_of_bits (field s)))) in
  let scaled_val := if 32767 <=? scaled_val then 32767 else scaled_val in
  Xil_Out32 (AXI + reg + chan * CHBASEADDR) scaled_val.

(** [scaled_val = (s32)(data.f * SAMPLERATE)]. *)
Definition set_cntlim (reg chan u : Z) : M unit :=
  let! scaled_val := cast_s32 (to_double (f32_of_bits u) *d SAMPLERATE) in
  Xil_Out32 (AXI + reg + chan * CHBASEADDR) scaled_val.

(** The DAC. *)
Definition chan_dac (chan u : Z) : list (Z * M unit) :=
  [(DAC_OPMODE_MSG, Set_dacOpmode chan (s32 u));
   (DAC_SETPT_MSG, let! scaled_val := scaled_dac chan u in Set_dac chan (f32_of_bits u));
   (DAC_RAMPLEN_MSG, set_word DAC_RAMPLEN_REG chan u);
   (DAC_RUNRAMP_MSG, set_word DAC_RUNRAMP_REG chan u);
   (DAC_SETPT_GAIN_MSG, set_gain DAC_SETPT_GAIN_REG chan u);
   (DAC_SETPT_OFFSET_MSG, set_offset_dac DAC_SETPT_OFFSET_REG chan u)].

(** Gains and offsets of the analog inputs. *)
Definition chan_gains (chan u : Z) : list (Z * M unit) :=
  [(DCCT1_GAIN_MSG, set_gain DCCT1_GAIN_REG chan u);
   (DCCT1_OFFSET_MSG, set_offset_dac DCCT1_OFFSET_REG chan u);
   (DCCT2_GAIN_MSG, set_gain DCCT2_GAIN_REG chan u);
   (DCCT2_OFFSET_MSG, set_offset_dac DCCT2_OFFSET_REG chan u);
   (DACMON_GAIN_MSG, set_gain DACMON_GAIN_REG chan u);
   (DACMON_OFFSET_MSG, set_offset_16 DACMON_OFFSET_REG dac_dccts chan u);
   (VOLT_GAIN_MSG, set_gain VOLT_GAIN_REG chan u);
   (VOLT_OFFSET_MSG, set_offset_16 VOLT_OFFSET_REG vout chan u);
   (GND_GAIN_MSG, set_gain GND_GAIN_REG chan u);
   (GND_OFFSET_MSG, set_offset_16 GND_OFFSET_REG ignd chan u);
   (SPARE_GAIN_MSG, set_gain SPARE_GAIN_REG chan u);
   (SPARE_OFFSET_MSG, set_offset_16 SPARE_OFFSET_REG spare chan u);
   (REG_GAIN_MSG, set_gain REG_GAIN_REG chan u);
   (REG_OFFSET_MSG, set_offset_16 REG_OFFSET_REG regulator chan u);
   (ERR_GAIN_MSG, set_gain ERR_GAIN_REG chan u);
   (ERR_OFFSET_MSG, set_offset_16 ERR_OFFSET_REG error chan u)].

(** Fault thresholds. *)
Definition chan_thresholds (chan u : Z) : list (Z * M unit) :=
  [(OVC1_THRESH_MSG, set_thresh_dac OVC1_THRESH_REG chan u);
   (OVC2_THRESH_MSG, set_thresh_dac OVC2_THRESH_REG chan u);
   (OVV_THRESH_MSG, set_thresh_16 OVV_THRESH_REG vout chan u);
   (ERR1_THRESH_MSG, set_thresh_16 ERR1_THRESH_REG error chan u);
   (ERR2_THRESH_MSG, set_thresh_16 ERR2_THRESH_REG error chan u);
   (IGND_THRESH_MSG, set_thresh_16 IGND_THRESH_REG ignd chan u)].

(** Fault count limits, in seconds. *)
Definition chan_cntlims (chan u : Z) : list (Z * M unit) :=
  [(OVC1_CNTLIM_MSG, set_cntlim OVC1_CNTLIM_REG chan u);
   (OVC2_CNTLIM_MSG, set_cntlim OVC2_CNTLIM_REG chan u);
   (OVV_CNTLIM_MSG, set_cntlim OVV_CNTLIM_REG chan u);
   (ERR1_CNTLIM_MSG, set_cntlim ERR1_CNTLIM_REG chan u);
   (ERR2_CNTLIM_MSG, set_cntlim ERR2_CNTLIM_REG chan u);
   (IGND_CNTLIM_MSG, set_cntlim IGND_CNTLIM_REG chan u);
   (DCCT_CNTLIM_MSG, set_cntlim DCCT_CNTLIM_REG chan u);
   (FLT1_CNTLIM_MSG, set_cntlim FLT1_CNTLIM_REG chan u);
   (FLT2_CNTLIM_MSG, set_cntlim FLT2_CNTLIM_REG chan u);
   (FLT3_CNTLIM_MSG, set_cntlim FLT3_CNTLIM_REG chan u);
   (ON_CNTLIM_MSG, set_cntlim ON_CNTLIM_REG chan u);
   (HEART_CNTLIM_MSG, set_cntlim HEARTBEAT_CNTLIM_REG chan u)].

(** [FAULT_CLEAR_MSG]: all the channels in main dipole mode. *)
Definition fault_clear (chan u : Z) : M unit :=
  let! val := Xil_In32 (AXI + MAIN_DIPOLE_MODE_REG) in
  if val =? 1 then
    Xil_Out32 (AXI + FAULT_CLEAR_REG + 1 * CHBASEADDR) u ;;
    Xil_Out32 (AXI + FAULT_CLEAR_REG + 2 * CHBASEADDR) u ;;
    Xil_Out32 (AXI + FAULT_CLEAR_REG + 3 * CHBASEADDR) u ;;
    Xil_Out32 (AXI + FAULT_CLEAR_REG + 4 * CHBASEADDR) u
  else Xil_Out32 (AXI + FAULT_CLEAR_REG + chan * CHBASEADDR) u.

(** Faults and digital outputs. *)
Definition chan_digital (chan u : Z) : list (Z * M unit) :=
  [(FAULT_CLEAR_MSG, fault_clear chan u);
   (FAULT_MASK_MSG, set_word FAULT_MASK_REG chan u);
   (DIGOUT_ON1_MSG, set_word DIGOUT_ON1_REG chan u);
   (DIGOUT_ON2_MSG, set_word DIGOUT_ON2_REG chan u);
   (DIGOUT_RESET_MSG, set_word DIGOUT_RESET_REG chan u);
   (DIGOUT_SPARE_MSG, set_word DIGOUT_SPARE_REG chan u);
   (DIGOUT_PARK_MSG, set_word DIGOUT_PARK_REG chan u)].

(** The scale factors. *)
Definition chan_scalefactors (chan u : Z) : list (Z * M unit) :=
  [(SF_AMPS_PER_SEC_MSG, set_sf chan (fun s =>
      ScaleFactor u (dac_dccts s) (vout s) (ignd s) (spare s) (regulator s) (error s)));
   (SF_DAC_DCCTS_MSG,
      set_sf chan (fun s =>
        ScaleFactor (ampspersec s) u (vout s) (ignd s) (spare s) (regulator s) (error s)) ;;
      let! v2d := volts_to_dacbits in
      Xil_Out32 (AXI + FOFB_SCALEFACTOR_REG + chan * CHBASEADDR) (fofb_scalefactor u v2d));
   (SF_VOUT_MSG, set_sf chan (fun s =>
      ScaleFactor (ampspersec s) (dac_dccts s) u (ignd s) (spare s) (regulator s) (error s)));
   (SF_IGND_MSG, set_sf chan (fun s =>
      ScaleFactor (ampspersec s) (dac_dccts s) (vout s) u (spare s) (regulator s) (error s)));
   (SF_SPARE_MSG, set_sf chan (fun s =>
      ScaleFactor (ampspersec s) (dac_dccts s) (vout s) (ignd s) u (regulator s) (error s)));
   (SF_REGULATOR_MSG, set_sf chan (fun s =>
      ScaleFactor (ampspersec s) (dac_dccts s) (vout s) (ignd s) (spare s) u (error s)));
   (SF_ERROR_MSG, set_sf chan (fun s =>
      ScaleFactor (ampspersec s) (dac_dccts s) (vout s) (ignd s) (spare s) (regulator s) u))].

(** [1 << (chan - 1)]. *)
Definition chan_bit (chan : Z) : M Z :=
  let n := u32 (chan - 1) in
  if 32 <=? n then fail ShiftRange else ret (u32 (Z.shiftl 1 n)).

(** The rest: fast-feedback address, triggers, averaging, flash, dump. *)
Definition chan_misc (chan u : Z) : list (Z * M unit) :=
  [(FOFB_FASTADDR_MSG, set_word FOFB_FASTADDR_REG chan u);
   (USR_TRIG_MSG, when (u =? 1) (let! b := chan_bit chan in soft_trig b));
   (AVE_MODE_MSG, set_word AVEMODE_REG chan u);
   (WRITE_QSPI_MSG, when (u =? 1) (qspi_save chan ;; qspi_load chan));
   (READ_QSPI_MSG, when (u =? 1) (qspi_load chan));
   (DUMP_ADCS_MSG, dump_adcs chan)].

Definition chan_cases (chan u : Z) : list (Z * M unit) :=
  chan_dac chan u ++ chan_gains chan u ++ chan_thresholds chan u ++ chan_cntlims chan u ++
  chan_digital chan u ++ chan_scalefactors chan u ++ chan_misc chan u.

Definition chan_settings (chan : Z) (msg : list Z) (msglen : Z) : M unit :=
  let! a := msg_word msg 0 in
  let! d := msg_word msg 1 in
  switch (htonl a) (chan_cases chan (htonl d)) (ret tt).
End Settings.

(** ** Dispatch *)

Lemma switch_in {A} x (cases : list (Z * A)) d body :
  NoDup cases.*1 -> (x, body) ∈ cases -> switch x cases d = body.
Proof.
  induction cases as [|[l b] cases IH]; [intros _ H; by apply elem_of_nil in H|].
  cbn. intros [Hn Hd]%NoDup_cons [[= -> ->]|H]%elem_of_cons; [by rewrite Z.eqb_refl|].
  destruct (Z.eqb_spec x l) as [->|]; [|auto].
  destruct Hn. apply list_elem_of_fmap. by exists (l, body).
Qed.

Lemma switch_Forall {A} (P : A -> Prop) x cases d :
  P d -> Forall (fun c => P c.2) cases -> P (switch x cases d).
Proof.
  intros Hd. induction 1 as [|[l b] cases Hb _ IH]; [done|]. cbn in *. by destruct (x =? l).
Qed.

Lemma switch_lookup {A} x (cases : list (Z * A)) d k body :
  NoDup cases.*1 -> cases !! k = Some (x, body) -> switch x cases d = body.
Proof. intros Hn H. apply switch_in; [done|]. by eapply list_elem_of_lookup_2. Qed.

Lemma word_at_settings addr data rest :
  is_u32 addr -> is_u32 data ->
  word_at (settings_msg addr data rest) 0 = Some (htonl addr) /\
  word_at (settings_msg addr data rest) 1 = Some (htonl data).
Proof.
  intros Ha Hd. unfold word_at, settings_msg. cbn [bytes_of_words flat_map].
  rewrite app_nil_r, <- app_assoc. split.
  - rewrite drop_0. rewrite take_app_length' by (by rewrite length_to_le).
    rewrite length_to_le. cbn [Nat.eqb]. rewrite of_le_to_le. f_equal.
    apply u32_small, htonl_range.
  - rewrite drop_app_length' by (by rewrite length_to_le).
    rewrite take_app_length' by (by rewrite length_to_le).
    rewrite length_to_le. cbn [Nat.eqb]. rewrite of_le_to_le. f_equal.
    apply u32_small, htonl_range.
Qed.

Lemma word_at_range msg i a : bytes_ok msg -> word_at msg i = Some a -> is_u32 a.
Proof.
  unfold word_at. intros Hok.
  destruct (Nat.eqb_spec (length (take 4 (drop (4 * i) msg))) 4) as [E|]; [|done].
  intros [= <-]. pose proof (of_le_range (take 4 (drop (4 * i) msg))) as H. rewrite E in H.
  by apply H, Forall_take, Forall_drop.
Qed.

Section Dispatch.
Context {env : Env}.

Lemma chan_labels_NoDup chan u : NoDup (chan_cases chan u).*1.
Proof.
  let l := eval cbv in ((chan_cases (env := sim) 0 0).*1) in
  change (chan_cases chan u).*1 with l.
  by_compute.
Qed.

Lemma glob_labels_NoDup u : NoDup (glob_cases u).*1.
Proof.
  let l := eval cbv in ((glob_cases (env := sim) 0).*1) in
  change (glob_cases u).*1 with l.
  by_compute.
Qed.

Lemma chan_settings_run chan addr data rest len w :
  is_u32 addr -> is_u32 data ->
  chan_settings chan (settings_msg addr data rest) len w =
  switch addr (chan_cases chan data) (ret tt) w.
Proof.
  intros Ha Hd. destruct (word_at_settings addr data rest Ha Hd) as [E0 E1].
  unfold chan_settings, msg_word. rewrite E0, E1. unfold bind. cbn [the ret].
  by rewrite !htonl_htonl, !u32_small.
Qed.

Lemma glob_settings_run addr data rest w :
  is_u32 addr -> is_u32 data ->
  glob_settings (settings_msg addr data rest) w =
  switch addr (glob_cases data) (ret tt) w.
Proof.
  intros Ha Hd. destruct (word_at_settings addr data rest Ha Hd) as [E0 E1].
  unfold glob_settings, msg_word. rewrite E0, E1. unfold bind. cbn [the ret].
  by rewrite !htonl_htonl, !u32_small.
Qed.

(** The case of a label, by its position in the table. *)
Lemma chan_case chan data k m body rest len w :
  chan_cases chan data !! k = Some (m, body) -> is_u32 m -> is_u32 data ->
  chan_settings chan (settings_msg m data rest) len w = body w.
Proof.
  intros Hk Hm Hd. rewrite chan_settings_run by done.
  by rewrite (switch_lookup _ _ _ _ _ (chan_labels_NoDup chan data) Hk).
Qed.
End Dispatch.

(** ** What a channel message can touch *)

(** Everything but the scale factors of [chan]. *)
Definition others (chan : Z) (w : world) :=
  (take (sf_index chan) (scalefactors (glob w)), drop (S (sf_index chan)) (scalefactors (glob w)),
   CONVVOLTSTODACBITS (glob w), CONVDACBITSTOVOLTS (glob w), smoothramp_type (glob w),
   smoothramp_percentcurved (glob w), git_hash (glob w), pdata w, snap w, key w).

Section Isolation.
Context {env : Env} `{!AxiWindow env}.

(** Register writes of channel [chan]: inside its window, or the software
    trigger; no socket is used. *)
Definition chan_access (chan : Z) (e : event) : Prop :=
  match e with
  | EOut32 a _ =>
      AXI + chan * CHBASEADDR <= a < AXI + chan * CHBASEADDR + CHBASEADDR \/ a = AXI + SOFTTRIG
  | EIn32 _ _ | EQspi _ _ => True
  | _ => False
  end.

Definition chan_frame (chan : Z) := both (emits (chan_access chan)) (keeps (others chan)).

Lemma chan_frame_push chan e w : chan_access chan e -> chan_frame chan w (push e w).
Proof. intros H. split; [by apply emits_push|done]. Qed.

Lemma chan_frame_set_sf chan f w :
  chan_frame chan w (set_glob (map_sf (<[sf_index chan := f]>) (glob w)) w).
Proof.
  split; [by exists []|]. unfold keeps, others, map_sf. cbn.
  by rewrite take_insert_ge, drop_insert_lt by lia.
Qed.

Lemma chan_out chan reg : 1 <= chan <= 4 -> 0 <= reg < CHBASEADDR -> forall v w,
  chan_frame chan w (push (EOut32 (u32 (AXI + reg + chan * CHBASEADDR)) v) w).
Proof.
  intros Hc Hr v w. apply chan_frame_push. left. unfold CHBASEADDR in *.
  rewrite <- Z.add_assoc, axi_addr by lia. lia.
Qed.

Lemma chan_out' chan reg : 1 <= chan <= 4 -> 0 <= reg < CHBASEADDR -> forall v w,
  chan_frame chan w (push (EOut32 (u32 (AXI + (reg + chan * CHBASEADDR))) v) w).
Proof. intros. rewrite Z.add_assoc. by apply chan_out. Qed.

Lemma soft_out chan v w : chan_frame chan w (push (EOut32 (u32 (AXI + SOFTTRIG)) v) w).
Proof.
  apply chan_frame_push. right. by rewrite axi_addr by (unfold SOFTTRIG; lia).
Qed.

Ltac frame_side :=
  first [ apply chan_out; [done|unfold CHBASEADDR; vm_compute; split; congruence]
        | apply chan_out'; [done|unfold CHBASEADDR; vm_compute; split; congruence]
        | apply soft_out
        | apply chan_frame_set_sf
        | by apply chan_frame_push ].
Ltac frame := respects_tac frame_side.

Lemma frame_case chan (cases : list (Z * M unit)) :
  Forall (fun c => respects (chan_frame chan) c.2) cases ->
  forall x, respects (chan_frame chan) (switch x cases (ret tt)).
Proof. intros H x. apply (switch_Forall (respects (chan_frame chan))); [frame|done]. Qed.

Section Channel.
Context (chan : Z) (Hchan : 1 <= chan <= 4).
Abbreviation frames := (respects (chan_frame chan)).

Lemma frame_soft_trig v : frames (soft_trig v).
Proof. unfold soft_trig. frame. Qed.

Lemma frame_ramp m : frames (Calc_WriteRaisedCosineSmooth chan m).
Proof. unfold Calc_WriteRaisedCosineSmooth, volts_to_dacbits, cast_u32. frame. Qed.

Lemma frame_linear m : frames (Calc_WriteLinearSmooth chan m).
Proof.
  unfold Calc_WriteLinearSmooth, volts_to_dacbits, cast_u32, limit_511, q16_48, cast_s32.
  frame.
Qed.
#[local] Hint Resolve frame_soft_trig frame_ramp frame_linear : respects.

Lemma frame_Set_dac f : frames (Set_dac chan f).
Proof. unfold Set_dac, volts_to_dacbits, cast_s32. frame. Qed.

Lemma frame_opmode m : frames (Set_dacOpmode chan m).
Proof. unfold Set_dacOpmode, volts_to_dacbits. frame. Qed.
#[local] Hint Resolve frame_Set_dac frame_opmode : respects.

Lemma frame_poll fuel : frames (poll_ready fuel).
Proof. induction fuel; cbn [poll_ready]; frame. Qed.

Lemma frame_read_regs base rs : frames (read_regs base rs).
Proof. induction rs; cbn [read_regs]; frame. Qed.
#[local] Hint Resolve frame_poll frame_read_regs : respects.

Lemma frame_write_regs rs vs :
  Forall (fun r => 0 <= r < CHBASEADDR) rs -> frames (write_regs (AXI + chan * CHBASEADDR) rs vs).
Proof.
  intros H. revert vs. induction H as [|r rs Hr _ IH]; intros [|v vs]; cbn [write_regs]; frame.
  apply respects_out32. intros w.
  replace (AXI + chan * CHBASEADDR + r) with (AXI + r + chan * CHBASEADDR) by lia.
  by apply chan_out.
Qed.

Lemma frame_load : frames (qspi_load chan).
Proof.
  unfold qspi_load, QspiFlashRead, QspiDisperseData. frame.
  apply frame_write_regs. by_compute.
Qed.

Lemma frame_save : frames (qspi_save chan).
Proof. unfold qspi_save, QspiFlashEraseSect, QspiGatherData, QspiFlashWrite. frame. Qed.
#[local] Hint Resolve frame_load frame_save : respects.

Lemma frame_dump : frames (dump_adcs chan).
Proof. unfold dump_adcs, ReadAccumSA. frame. Qed.
#[local] Hint Resolve frame_dump : respects.

Lemma frame_cases u :
  Forall (fun c => c = (FAULT_CLEAR_MSG, fault_clear chan u) \/ frames c.2) (chan_cases chan u).
Proof.
  unfold chan_cases, chan_dac, chan_gains, chan_thresholds, chan_cntlims, chan_digital,
    chan_scalefactors, chan_misc.
  repeat (apply Forall_app; split); repeat (apply Forall_cons; split);
    try solve [constructor]; first [left; reflexivity|right]; cbn [snd];
    unfold set_word, set_gain, set_offset_dac, set_offset_16, set_thresh_dac, set_thresh_16,
      set_cntlim, scaled_dac, volts_to_dacbits, cast_u32, cast_s32, chan_bit; frame.
Qed.
End Channel.
End Isolation.

(** C2. Whatever the message, the environment's answers and the outcome, a
    settings message for channel 1 to 4 other than a fault clear writes no
    register outside that channel's 512-byte window, except the software
    trigger, uses no socket, and leaves the scale factors of the other
    channels and all the rest of the program's state as they were. *)
Theorem chan_settings_isolation {env : Env} `{!AxiWindow env} chan msg len w :
  1 <= chan <= 4 -> bytes_ok msg -> word_at msg 0 <> Some (htonl FAULT_CLEAR_MSG) ->
  chan_frame chan w (final (chan_settings chan msg len w)).
Proof.
  intros Hc Hok Hm. revert w. change (respects (chan_frame chan) (chan_settings chan msg len)).
  unfold chan_settings, msg_word. destruct (word_at msg 0) as [a|] eqn:Ea; cbn [the];
    [|intros w; apply wo_refl].
  change (respects (chan_frame chan) (let! d := the OutOfBounds (word_at msg 1) in
    switch (htonl a) (chan_cases chan (htonl d)) (ret tt))).
  apply respects_bind; [exact _|apply respects_the; exact _|]. intros d.
  pose proof (frame_cases chan Hc (htonl d)) as F.
  assert (htonl a <> FAULT_CLEAR_MSG) as Hne.
  { intros E. destruct Hm. f_equal. rewrite <- E, htonl_htonl. symmetry. apply u32_small.
    exact (word_at_range _ _ _ Hok Ea). }
  clear Ea Hm. induction F as [|[l b] cs Hb _ IH]; cbn [switch]; [apply respects_ret; exact _|].
  destruct (Z.eqb_spec (htonl a) l) as [<-|]; [|exact IH].
  destruct Hb as [[= E _]|Hb]; [by destruct Hne|exact Hb].
Qed.

Lemma chan_settings_isolation_witness :
  let msg := settings_msg DIGOUT_ON1_MSG 1 [] in
  word_at msg 0 <> Some (htonl FAULT_CLEAR_MSG) /\
  chan_frame (env := sim) 2 sim_world (final (chan_settings (env := sim) 2 msg 8 sim_world)).
Proof.
  cbn zeta.
  assert (word_at (settings_msg DIGOUT_ON1_MSG 1 []) 0 <> Some (htonl FAULT_CLEAR_MSG)) as H
    by (vm_compute; congruence).
  split; [exact H|].
  apply (chan_settings_isolation (env := sim) 2); [lia|by_compute|exact H].
Defined.

(** ** Settings that are written through *)

(** The settings whose data word goes to a register as it is. *)
Definition direct_settings : list (Z * Z) :=
  [(DAC_RAMPLEN_MSG, DAC_RAMPLEN_REG); (DAC_RUNRAMP_MSG, DAC_RUNRAMP_REG);
   (FAULT_MASK_MSG, FAULT_MASK_REG); (DIGOUT_ON1_MSG, DIGOUT_ON1_REG);
   (DIGOUT_ON2_MSG, DIGOUT_ON2_REG); (DIGOUT_RESET_MSG, DIGOUT_RESET_REG);
   (DIGOUT_SPARE_MSG, DIGOUT_SPARE_REG); (DIGOUT_PARK_MSG, DIGOUT_PARK_REG);
   (FOFB_FASTADDR_MSG, FOFB_FASTADDR_REG); (AVE_MODE_MSG, AVEMODE_REG)].

(** The settings in seconds, counted in samples of 10 kHz. *)
Definition cntlim_settings : list (Z * Z) :=
  [(OVC1_CNTLIM_MSG, OVC1_CNTLIM_REG); (OVC2_CNTLIM_MSG, OVC2_CNTLIM_REG);
   (OVV_CNTLIM_MSG, OVV_CNTLIM_REG); (ERR1_CNTLIM_MSG, ERR1_CNTLIM_REG);
   (ERR2_CNTLIM_MSG, ERR2_CNTLIM_REG); (IGND_CNTLIM_MSG, IGND_CNTLIM_REG);
   (DCCT_CNTLIM_MSG, DCCT_CNTLIM_REG); (FLT1_CNTLIM_MSG, FLT1_CNTLIM_REG);
   (FLT2_CNTLIM_MSG, FLT2_CNTLIM_REG); (FLT3_CNTLIM_MSG, FLT3_CNTLIM_REG);
   (ON_CNTLIM_MSG, ON_CNTLIM_REG); (HEART_CNTLIM_MSG, HEARTBEAT_CNTLIM_REG)].

Definition gain_settings : list (Z * Z) :=
  [(DAC_SETPT_GAIN_MSG, DAC_SETPT_GAIN_REG); (DCCT1_GAIN_MSG, DCCT1_GAIN_REG);
   (DCCT2_GAIN_MSG, DCCT2_GAIN_REG); (DACMON_GAIN_MSG, DACMON_GAIN_REG);
   (VOLT_GAIN_MSG, VOLT_GAIN_REG); (GND_GAIN_MSG, GND_GAIN_REG);
   (SPARE_GAIN_MSG, SPARE_GAIN_REG); (REG_GAIN_MSG, REG_GAIN_REG);
   (ERR_GAIN_MSG, ERR_GAIN_REG)].

(** The thresholds of 16-bit inputs. *)
Definition thresh16_settings : list (Z * Z * (ScaleFactorType -> Z)) :=
  [(OVV_THRESH_MSG, OVV_THRESH_REG, vout); (ERR1_THRESH_MSG, ERR1_THRESH_REG, error);
   (ERR2_THRESH_MSG, ERR2_THRESH_REG, error); (IGND_THRESH_MSG, IGND_THRESH_REG, ignd)].

Ltac find_case :=
  unfold chan_cases, chan_dac, chan_gains, chan_thresholds, chan_cntlims, chan_digital,
    chan_scalefactors, chan_misc; cbn [app fst snd];
  repeat first [apply list_elem_of_here | apply list_elem_of_further].
Ltac all_cases := repeat (apply Forall_cons; split); [find_case..|by constructor].

Section Written.
Context {env : Env}.

Lemma direct_cases chan u :
  Forall (fun p => (p.1, set_word p.2 chan u) ∈ chan_cases chan u) direct_settings.
Proof. all_cases. Qed.

Lemma cntlim_cases chan u :
  Forall (fun p => (p.1, set_cntlim p.2 chan u) ∈ chan_cases chan u) cntlim_settings.
Proof. all_cases. Qed.

Lemma gain_cases chan u :
  Forall (fun p => (p.1, set_gain p.2 chan u) ∈ chan_cases chan u) gain_settings.
Proof. all_cases. Qed.

Lemma thresh16_cases chan u :
  Forall (fun p => (p.1.1, set_thresh_16 p.1.2 p.2 chan u) ∈ chan_cases chan u) thresh16_settings.
Proof. all_cases. Qed.

(** A case found in the table is the one that runs. *)
Lemma chan_case_in chan data m body rest len w :
  (m, body) ∈ chan_cases chan data -> is_u32 m -> is_u32 data ->
  chan_settings chan (settings_msg m data rest) len w = body w.
Proof.
  intros Hk Hm Hd. rewrite chan_settings_run by done.
  by rewrite (switch_in _ _ _ _ (chan_labels_NoDup chan data) Hk).
Qed.

Lemma table_case {X} (l : list X) (f : X -> Z) (g : X -> M unit) chan data rest len w x :
  Forall (fun x => (f x, g x) ∈ chan_cases chan data) l ->
  Forall (fun x => is_u32 (f x)) l -> is_u32 data -> x ∈ l ->
  chan_settings chan (settings_msg (f x) data rest) len w = g x w.
Proof.
  intros H1 H2 Hd Hx. rewrite Forall_forall in H1. rewrite Forall_forall in H2.
  apply chan_case_in; auto.
Qed.
End Written.

(** Each of the ten settings in [direct_settings] performs exactly one
    register access: the data word of the message, unchanged, is written to
    its register of the addressed channel, and nothing else changes. *)
Theorem chan_settings_direct {env : Env} `{!AxiWindow env} m r chan data rest len w :
  (m, r) ∈ direct_settings -> 1 <= chan <= 4 -> is_u32 data ->
  chan_settings chan (settings_msg m data rest) len w =
  Done tt (push (EOut32 (AXI + r + chan * CHBASEADDR) data) w).
Proof.
  intros Hin Hc Hd.
  rewrite (table_case direct_settings fst (fun p => set_word p.2 chan data) chan data rest len w (m, r)
    (direct_cases chan data) ltac:(by_compute) Hd Hin).
  assert (Forall (fun p => 0 <= p.2 < CHBASEADDR) direct_settings) as H by by_compute.
  rewrite Forall_forall in H. specialize (H _ Hin). cbn in H.
  unfold set_word, Xil_Out32, log, modify. cbn [snd].
  unfold CHBASEADDR in *. rewrite <- !Z.add_assoc, axi_addr, (u32_small data) by (done || lia). done.
Qed.

Lemma chan_settings_direct_witness :
  (DIGOUT_ON1_MSG, DIGOUT_ON1_REG) ∈ direct_settings /\
  chan_settings (env := sim) 2 (settings_msg DIGOUT_ON1_MSG 1 [7]) 8 sim_world =
  Done tt (push (EOut32 (sim_base + DIGOUT_ON1_REG + 2 * CHBASEADDR) 1) sim_world).
Proof.
  assert ((DIGOUT_ON1_MSG, DIGOUT_ON1_REG) ∈ direct_settings) as H by by_compute.
  split; [exact H|].
  apply (chan_settings_direct (env := sim) _ _ 2 1 [7] 8 sim_world H); [lia|by_compute].
Defined.

(** The twelve count limits are given in seconds as a [float]; the
    register receives the number of 10 kHz samples, the double product
    truncated.  A limit whose count has no [s32] value (more than about
    214748 s, infinite or NaN) is undefined behaviour of the C code. *)
Theorem chan_settings_cntlim {env : Env} `{!AxiWindow env} m r chan data rest len w :
  (m, r) ∈ cntlim_settings -> 1 <= chan <= 4 -> is_u32 data ->
  chan_settings chan (settings_msg m data rest) len w =
  match to_s32 (to_double (f32_of_bits data) *d SAMPLERATE) with
  | Some n => Done tt (push (EOut32 (AXI + r + chan * CHBASEADDR) (u32 n)) w)
  | None => Fault FloatToInt w
  end.
Proof.
  intros Hin Hc Hd.
  rewrite (table_case cntlim_settings fst (fun p => set_cntlim p.2 chan data) chan data rest len w (m, r)
    (cntlim_cases chan data) ltac:(by_compute) Hd Hin).
  assert (Forall (fun p => 0 <= p.2 < CHBASEADDR) cntlim_settings) as H by by_compute.
  rewrite Forall_forall in H. specialize (H _ Hin). cbn in H.
  unfold set_cntlim, cast_s32, Xil_Out32, log, modify, bind. cbn [snd].
  destruct (to_s32 _); cbn [the ret fail]; [|done].
  unfold CHBASEADDR in *. rewrite <- !Z.add_assoc, axi_addr by lia. done.
Qed.

(** 0x40200000 is 2.5f. *)
Lemma chan_settings_cntlim_witness :
  (OVC1_CNTLIM_MSG, OVC1_CNTLIM_REG) ∈ cntlim_settings /\
  chan_settings (env := sim) 3 (settings_msg OVC1_CNTLIM_MSG 0x40200000 []) 8 sim_world =
  Done tt (push (EOut32 (sim_base + OVC1_CNTLIM_REG + 3 * CHBASEADDR) 25000) sim_world).
Proof.
  assert ((OVC1_CNTLIM_MSG, OVC1_CNTLIM_REG) ∈ cntlim_settings) as H by by_compute.
  split; [exact H|].
  apply (chan_settings_cntlim (env := sim) _ _ 3 0x40200000 [] 8 sim_world H); [lia|by_compute].
Defined.

(** C37. The fault thresholds of the 16-bit inputs saturate: for any value of
    the message and any scale factor, negative ones included, the handler
    either writes a number of 0 to 32767 to the threshold register, and
    nothing else, or the C conversion is undefined and nothing is written. *)
Theorem chan_settings_threshold_range {env : Env} `{!AxiWindow env} m r field chan data rest len w :
  (m, r, field) ∈ thresh16_settings -> 1 <= chan <= 4 -> is_u32 data ->
  length (scalefactors (glob w)) = 4%nat ->
  (exists v, 0 <= v <= 32767 /\
     chan_settings chan (settings_msg m data rest) len w =
     Done tt (push (EOut32 (AXI + r + chan * CHBASEADDR) v) w)) \/
  chan_settings chan (settings_msg m data rest) len w = Fault FloatToInt w.
Proof.
  intros Hin Hc Hd Hl.
  pose proof (table_case thresh16_settings (fun p => p.1.1) (fun p => set_thresh_16 p.1.2 p.2 chan data)
    chan data rest len w (m, r, field) (thresh16_cases chan data)
    ltac:(repeat constructor; vm_compute; congruence) Hd Hin) as E.
  cbn [fst snd] in E. rewrite E. clear E.
  assert (Forall (fun p => 0 <= p.1.2 < CHBASEADDR) thresh16_settings) as H
    by (repeat constructor; vm_compute; congruence).
  rewrite Forall_forall in H. specialize (H _ Hin). cbn in H.
  destruct (lookup_lt_is_Some_2 (scalefactors (glob w)) (sf_index chan)) as [s Hs].
  { unfold sf_index. rewrite Hl, u32_small by (unfold is_u; lia). lia. }
  unfold set_thresh_16, get_sf, bind, gets. cbn [fst snd]. rewrite Hs. cbn [the ret].
  unfold cast_s32. set (q := fabs _ /d fabs _). destruct (to_s32 q) as [z|] eqn:Ez; [left|by right].
  pose proof (to_s32_nonneg _ _ (fdiv_fabs_nonneg double _ _) Ez) as Hz.
  exists (if 32767 <=? z then 32767 else z). cbn [the ret].
  assert (0 <= (if 32767 <=? z then 32767 else z) <= 32767) as Hv
    by (destruct (Z.leb_spec 32767 z); lia).
  split; [exact Hv|]. unfold Xil_Out32, log, modify. set (v := if 32767 <=? z then 32767 else z) in *.
  rewrite (u32_small v) by (unfold is_u; lia).
  unfold CHBASEADDR in *. rewrite <- !Z.add_assoc, axi_addr by lia. done.
Qed.

(** 0x42C80000 is 100.0f. *)
Lemma chan_settings_threshold_range_witness :
  (exists v, 0 <= v <= 32767 /\
     chan_settings (env := sim) 1 (settings_msg OVV_THRESH_MSG 0x42C80000 []) 8 sim_world =
     Done tt (push (EOut32 (sim_base + OVV_THRESH_REG + 1 * CHBASEADDR) v) sim_world)) \/
  chan_settings (env := sim) 1 (settings_msg OVV_THRESH_MSG 0x42C80000 []) 8 sim_world =
    Fault FloatToInt sim_world.
Proof.
  apply (chan_settings_threshold_range (env := sim) OVV_THRESH_MSG OVV_THRESH_REG vout 1 0x42C80000);
    [apply list_elem_of_here|lia|by_compute|reflexivity].
Defined.

(** Setting any of the nine gains to a [float] whose product with 2^20-1
    truncates to a negative number is undefined behaviour of the C code (a
    negative [double] is converted to [u32]), although the registers are read
    back as signed values. *)
Theorem negative_gain_undefined {env : Env} m r chan data rest len w p e :
  (m, r) ∈ gain_settings -> is_u32 data ->
  to_double (f32_of_bits data) *d GAIN20BITFRACT = S754_finite true p e ->
  ftrunc (S754_finite true p e) <> Some 0 ->
  chan_settings chan (settings_msg m data rest) len w = Fault FloatToInt w.
Proof.
  intros Hin Hd Ep Hp.
  rewrite (table_case gain_settings fst (fun p => set_gain p.2 chan data) chan data rest len w (m, r)
    (gain_cases chan data) ltac:(by_compute) Hd Hin).
  unfold set_gain, cast_u32, bind. by rewrite Ep, to_u32_negative.
Qed.

(** 0xBF800000 is -1.0f. *)
Lemma negative_gain_undefined_witness :
  chan_settings (env := sim) 1 (settings_msg DCCT1_GAIN_MSG 0xBF800000 []) 8 sim_world =
  Fault FloatToInt sim_world.
Proof.
  eapply (negative_gain_undefined (env := sim) DCCT1_GAIN_MSG DCCT1_GAIN_REG 1 0xBF800000);
    [by_compute|by_compute|reflexivity|vm_compute; congruence].
Defined.

(** ** The ramp table *)

Lemma word_at_words ws rest i x :
  ws !! i = Some x -> is_u32 x -> word_at (bytes_of_words ws ++ rest) i = Some x.
Proof.
  revert i. induction ws as [|y ws IH]; intros [|i] Hi Hx; try done.
  - injection Hi as ->. unfold word_at. rewrite drop_0.
    change (bytes_of_words (x :: ws)) with (to_le 4 x ++ bytes_of_words ws).
    rewrite <- app_assoc, take_app_length' by (by rewrite length_to_le).
    rewrite length_to_le. cbn [Nat.eqb]. rewrite of_le_to_le. f_equal. exact (u32_small x Hx).
  - rewrite <- (IH i Hi Hx). unfold word_at.
    change (bytes_of_words (y :: ws)) with (to_le 4 y ++ bytes_of_words ws).
    replace (4 * S i)%nat with (length (to_le 4 y) + 4 * i)%nat by (rewrite length_to_le; lia).
    by rewrite <- app_assoc, <- drop_drop, drop_app_length.
Qed.

(** The values [write_ramptable] saturates to, for a resolution word. *)
Definition saturated (psc_resolution z : Z) : Z :=
  if (psc_resolution =? 1) && (2 ^ 20 <? Z.abs z) then
    (if 0 <? z then 2 ^ 20 - 1 else - 2 ^ 20)
  else if (psc_resolution =? 0) && (2 ^ 18 <? Z.abs z) then
    (if 0 <? z then 2 ^ 18 - 1 else - 2 ^ 18)
  else z.

Lemma saturated_cut res z :
  saturated res z =
    if res =? 1 then (if 2 ^ 20 <? z then 2 ^ 20 - 1 else if z <? - 2 ^ 20 then - 2 ^ 20 else z)
    else if res =? 0 then (if 2 ^ 18 <? z then 2 ^ 18 - 1 else if z <? - 2 ^ 18 then - 2 ^ 18 else z)
    else z.
Proof.
  unfold saturated. destruct (Z.eqb_spec res 1) as [->|]; cbn [andb Z.eqb Pos.eqb].
  - destruct (Z.ltb_spec (2 ^ 20) (Z.abs z)), (Z.ltb_spec (2 ^ 20) z), (Z.ltb_spec z (- 2 ^ 20)), (Z.ltb_spec 0 z); lia.
  - destruct (Z.eqb_spec res 0) as [->|]; cbn [andb]; [|done].
    destruct (Z.ltb_spec (2 ^ 18) (Z.abs z)), (Z.ltb_spec (2 ^ 18) z), (Z.ltb_spec z (- 2 ^ 18)), (Z.ltb_spec 0 z); lia.
Qed.

Section Ramp.
Context {env : Env} `{!AxiWindow env}.

Lemma ramp_clamp_run res z w : - 2 ^ 31 < z < 2 ^ 31 -> ramp_clamp res z w = Done (saturated res z) w.
Proof.
  intros Hz. unfold ramp_clamp, saturated, int_abs, int_op, bind.
  assert (fits_signed 32 (Z.abs z) = true) as -> by (apply (fits_signed_spec 32); lia).
  destruct (res =? 1), (res =? 0); done.
Qed.

(** The writes that load points [zs] into the table, in program order. *)
Definition ramp_image (chan : Z) (zs : list Z) : list (Z * Z) :=
  concat (imap (fun i z => [(AXI + DAC_RAMPADDR_REG + chan * CHBASEADDR, Z.of_nat i);
                            (AXI + DAC_RAMPDATA_REG + chan * CHBASEADDR, u32 z)]) zs).

Lemma ramp_image_snoc chan zs z :
  ramp_image chan (zs ++ [z]) = ramp_image chan zs ++
    [(AXI + DAC_RAMPADDR_REG + chan * CHBASEADDR, Z.of_nat (length zs));
     (AXI + DAC_RAMPDATA_REG + chan * CHBASEADDR, u32 z)].
Proof.
  unfold ramp_image. rewrite imap_app, concat_app. cbn. by rewrite Nat.add_0_r.
Qed.

Lemma ramp_point_spec chan msg res j w s x z :
  1 <= chan <= 4 -> 0 <= j < 50000 -> get_sf chan w = Done s w ->
  word_at msg (Z.to_nat j) = Some (htonl x) -> is_u32 x ->
  to_s32 (amps_to_bits (f32_of_bits x) (CONVVOLTSTODACBITS (glob w)) (dac_dccts s)) = Some z ->
  - 2 ^ 31 < z ->
  ramp_point chan msg res j w =
  Done tt (push (EOut32 (AXI + DAC_RAMPDATA_REG + chan * CHBASEADDR) (u32 (saturated res z)))
          (push (EOut32 (AXI + DAC_RAMPADDR_REG + chan * CHBASEADDR) j) w)).
Proof.
  intros Hc Hj Hs Hw Hx Hz Hm. unfold ramp_point, msg_word, volts_to_dacbits, cast_s32.
  rewrite Hw, run_some, htonl_htonl, u32_small, run_gets by done.
  rewrite (run_bind _ _ _ _ _ Hs), Hz, run_some.
  rewrite (run_bind _ _ _ _ _ (ramp_clamp_run _ _ _ (conj Hm (proj2 (to_s32_range _ _ Hz))))).
  unfold Xil_Out32, log, modify, bind, CHBASEADDR.
  rewrite !axi_addr by (unfold DAC_RAMPADDR_REG, DAC_RAMPDATA_REG; lia).
  rewrite (u32_small j) by (unfold is_u; lia). by rewrite !Z.add_assoc.
Qed.
End Ramp.

Section RampTable.
Context {env : Env} `{!AxiWindow env}.
Context (chan : Z) (xs zs : list Z) (rest : list Z) (s : ScaleFactorType) (w0 : world).

(** A ramp table of [float] patterns [xs], the first of which, or all of them,
    convert to the integers [zs]; [rest] is what follows it in the receive
    buffer. *)
Record ramp_ok := {
  ramp_chan : 1 <= chan <= 4;
  ramp_len : Z.of_nat (length xs) <= 50000;
  ramp_sf : scalefactors (glob w0) !! sf_index chan = Some s;
  ramp_words : Forall (is_u 32) xs;
  ramp_bits : Forall2 (fun x z =>
    to_s32 (f32_of_bits x *s f32_of_bits (CONVVOLTSTODACBITS (glob w0)) /s f32_of_bits (dac_dccts s)) = Some z
    /\ - 2 ^ 31 < z) (take (length zs) xs) zs
}.
Definition ramp_msg : list Z := bytes_of_words (htonl <$> xs) ++ rest.

Context (H : ramp_ok).

Lemma ramp_good_length : (length zs <= length xs)%nat.
Proof. pose proof (Forall2_length _ _ _ (ramp_bits H)) as L. rewrite length_take in L. lia. Qed.

Lemma ramp_word j x : xs !! j = Some x -> word_at ramp_msg j = Some (htonl x).
Proof.
  intros Hj. apply word_at_words; [|apply htonl_range]. by rewrite list_lookup_fmap, Hj.
Qed.

(** After [j] turns, the first [j] points are in the table. *)
Definition loaded (res : Z) (w1 : world) (j : Z) (w : world) : Prop :=
  state_of w = state_of w0 /\ reads_of (trace w) = reads_of (trace w1) /\
  writes_of (trace w) =
    rev (ramp_image chan (saturated res <$> take (Z.to_nat j) zs)) ++ writes_of (trace w1).

Lemma ramp_turn res w1 j w :
  0 <= j < Z.of_nat (length zs) -> loaded res w1 j w ->
  wp (ramp_point chan ramp_msg res j) (fun _ w' => loaded res w1 (j + 1) w') w.
Proof.
  intros Hj (Hst & Hr & Hw).
  pose proof ramp_good_length. destruct (lookup_lt_is_Some_2 xs (Z.to_nat j)) as [x Hx]; [lia|].
  destruct (Forall2_lookup_l _ _ _ (Z.to_nat j) x (ramp_bits H)) as (z & Hz & Ez & Hm);
    [by rewrite lookup_take_lt by lia|].
  pose proof (ramp_len H). pose proof (ramp_words H) as Hu. rewrite Forall_lookup in Hu.
  assert (glob w = glob w0) as Hg by (injection Hst; auto).
  assert (get_sf chan w = Done s w) as Hs.
  { unfold get_sf, bind, gets. by rewrite Hg, (ramp_sf H). }
  unfold wp. rewrite (ramp_point_spec chan ramp_msg res j w s x z (ramp_chan H) ltac:(lia) Hs
    (ramp_word _ _ Hx) (Hu _ _ Hx) ltac:(by rewrite Hg) Hm).
  split_and!; [done|exact Hr|]. cbn [writes_of omap list_omap push trace].
  fold (writes_of (trace w)). rewrite Hw.
  replace (Z.to_nat (j + 1)) with (S (Z.to_nat j)) by lia.
  rewrite (take_S_r _ _ _ Hz), fmap_app. change (saturated res <$> [z]) with [saturated res z].
  rewrite ramp_image_snoc, rev_app_distr. cbn [rev app]. rewrite length_fmap, length_take.
  by rewrite Nat.min_l, Z2Nat.id by lia.
Qed.

(** A point that does not convert stops the loop before anything is written
    for it. *)
Lemma ramp_stop res w1 w x : loaded res w1 (Z.of_nat (length zs)) w -> xs !! length zs = Some x ->
  let code := to_s32 (f32_of_bits x *s f32_of_bits (CONVVOLTSTODACBITS (glob w0)) /s f32_of_bits (dac_dccts s)) in
  (code = None -> ramp_point chan ramp_msg res (Z.of_nat (length zs)) w = Fault FloatToInt w) /\
  (code = Some (- 2 ^ 31) -> res = 0 \/ res = 1 ->
   ramp_point chan ramp_msg res (Z.of_nat (length zs)) w = Fault IntOverflow w).
Proof.
  intros (Hst & _) Hx code. assert (glob w = glob w0) as Hg by (injection Hst; auto).
  assert (get_sf chan w = Done s w) as Hs by (unfold get_sf, bind, gets; by rewrite Hg, (ramp_sf H)).
  assert (is_u32 x) as Hu by (pose proof (ramp_words H) as Hu; rewrite Forall_forall in Hu; apply Hu; by eapply list_elem_of_lookup_2).
  unfold ramp_point, msg_word, volts_to_dacbits, cast_s32.
  rewrite Nat2Z.id, (ramp_word _ _ Hx), run_some, htonl_htonl, u32_small, run_gets by done.
  rewrite (run_bind _ _ _ _ _ Hs), Hg. unfold amps_to_bits. fold code.
  split; [by intros ->|]. intros -> Hr. rewrite run_some.
  by destruct Hr as [-> | ->].
Qed.

Lemma ramp_preview (k : nat) :
  (k <= length xs)%nat ->
  for_up k 0 (fun i => let! _ := msg_word ramp_msg (Z.to_nat i) in ret tt) w0 = Done tt w0.
Proof.
  intros Hk. assert (forall n i, (Z.to_nat i + n <= length xs)%nat -> 0 <= i ->
    for_up n i (fun i => let! _ := msg_word ramp_msg (Z.to_nat i) in ret tt) w0 = Done tt w0) as G.
  { induction n as [|n IH]; intros i Hi Hp; [done|]. cbn [for_up].
    destruct (lookup_lt_is_Some_2 xs (Z.to_nat i)) as [x Hx]; [lia|].
    rewrite bind_assoc. unfold msg_word at 1. rewrite (ramp_word _ _ Hx), run_some, run_ret.
    apply IH; lia. }
  apply G; lia.
Qed.
End RampTable.

Lemma for_up_app a b i body w :
  for_up (a + b) i body w = bind (for_up a i body) (fun _ => for_up b (i + Z.of_nat a) body) w.
Proof.
  revert i w. induction a as [|a IH]; intros i w; cbn [Nat.add for_up].
  - rewrite run_ret. by rewrite Z.add_0_r.
  - rewrite bind_assoc. apply bind_ext. intros [] w' _. rewrite IH.
    by replace (i + 1 + Z.of_nat a) with (i + Z.of_nat (S a)) by lia.
Qed.

(** C16. [write_ramptable] loads the table, of up to 50000 points.  It reads
    the resolution register once and writes the number of points; then, for
    each point in order, as long as they convert to an [s32] other than the
    smallest one, the index to the address register and the converted value
    to the data register of the channel, and nothing else; it changes no
    state.  If all convert it returns.  A point that does not convert (NaN,
    infinite, too large) stops it there, with undefined behaviour, a partial
    table and the full length written; so does -2^31, whose [abs] overflows.
    The values written are cut off at 2^20 (high resolution) or 2^18 (medium
    resolution): beyond them a positive value becomes one less, a negative
    one minus that.  These bounds are the code's, twice the range of the
    converter. *)
Theorem write_ramptable_loads {env : Env} `{!AxiWindow env} chan xs zs rest s len w :
  ramp_ok chan xs zs s w -> len / 4 = Z.of_nat (length xs) ->
  exists res w',
    state_of w' = state_of w /\
    reads_of (trace w') = (AXI + RESOLUTION_REG, res) :: reads_of (trace w) /\
    (let cut z := if res =? 1 then (if 2 ^ 20 <? z then 2 ^ 20 - 1 else if z <? - 2 ^ 20 then - 2 ^ 20 else z)
                  else if res =? 0 then (if 2 ^ 18 <? z then 2 ^ 18 - 1 else if z <? - 2 ^ 18 then - 2 ^ 18 else z)
                  else z in
     writes_of (trace w') =
       rev ((AXI + DAC_RAMPLEN_REG + chan * CHBASEADDR, Z.of_nat (length xs)) ::
            ramp_image chan (cut <$> zs)) ++ writes_of (trace w)) /\
    (length zs = length xs -> write_ramptable chan (ramp_msg xs rest) len w = Done tt w') /\
    (forall x, xs !! length zs = Some x ->
       let code := to_s32 (f32_of_bits x *s f32_of_bits (CONVVOLTSTODACBITS (glob w)) /s f32_of_bits (dac_dccts s)) in
       (code = None -> write_ramptable chan (ramp_msg xs rest) len w = Fault FloatToInt w') /\
       (code = Some (- 2 ^ 31) -> res = 0 \/ res = 1 ->
        write_ramptable chan (ramp_msg xs rest) len w = Fault IntOverflow w')).
Proof.
  intros H Hlen. pose proof (ramp_len _ _ _ _ _ H) as Hn. pose proof (ramp_chan _ _ _ _ _ H).
  pose proof (ramp_good_length _ _ _ _ _ H) as Hg.
  unfold write_ramptable. rewrite Hlen.
  rewrite (run_bind _ _ _ _ _ (ramp_preview xs rest w (Z.to_nat (Z.min 20 (Z.of_nat (length xs)))) ltac:(lia))).
  destruct (Z.ltb_spec 50000 (Z.of_nat (length xs))); [lia|].
  rewrite run_out32. set (w1 := push _ w). rewrite run_in32. cbv zeta. set (res := u32 (env_in32 _ _)). set (w2 := push _ w1).
  assert (get_sf chan w2 = Done s w2) as Hs
    by (unfold get_sf, bind, gets, w2, w1; cbn; by rewrite (ramp_sf _ _ _ _ _ H)).
  rewrite (run_bind _ _ _ _ _ Hs).
  assert (loaded chan zs w res w2 0 w2) as L0 by done.
  destruct (wp_run _ _ _ (wp_for_up (loaded chan zs w res w2) (length zs) 0 _ w2 L0
    (fun j w' Hj => ramp_turn chan xs zs rest s w H res w2 j w' Hj))) as ([] & w' & E & L).
  rewrite Z.add_0_l in L. destruct (L) as (S & R & W). rewrite Nat2Z.id in *.
  pose proof (for_up_app (length zs) (length xs - length zs) 0 (ramp_point chan (ramp_msg xs rest) res) w2) as A.
  replace (length zs + (length xs - length zs))%nat with (length xs) in A by lia.
  rewrite A, (run_bind _ _ _ _ _ E), Z.add_0_l. clear A.
  exists res, w'. unfold CHBASEADDR, RESOLUTION_REG in *. split_and!; [exact S| | | |].
  - rewrite R. unfold w2, w1. cbn [push trace reads_of omap list_omap]. by rewrite axi_addr by lia.
  - cbv zeta. rewrite W. unfold w2, w1. cbn [push trace writes_of omap list_omap rev].
    rewrite <- !Z.add_assoc, axi_addr, (u32_small (Z.of_nat _)), <- app_assoc
      by (unfold is_u, DAC_RAMPLEN_REG; lia).
    cbn [app]. rewrite firstn_all. do 3 f_equal. apply list_fmap_ext. intros _ z _. apply saturated_cut.
  - intros Ee. by rewrite Ee, Nat.sub_diag.
  - intros x Hx. destruct (ramp_stop chan xs zs rest s w H res w2 w' x L Hx) as [F1 F2].
    pose proof (lookup_lt_Some _ _ _ Hx). destruct (length xs - length zs)%nat as [|k] eqn:Ek; [lia|]. cbn [for_up].
    split; [intros Hc|intros Hc Hr]; rewrite run_bind_eq; [by rewrite F1|by rewrite F2].
Qed.

(** Two points, 1.0f and -2.0f, in an environment with high resolution; and a
    table whose second point is a NaN. *)
Definition ramp_env : Env := sim_env {[ sim_base + RESOLUTION_REG := 1 ]} (stream_of 3 []) send_all.

Lemma write_ramptable_loads_witness :
  (exists w', write_ramptable (env := ramp_env) 1 (ramp_msg [f32_one; 0xC0000000] [9]) 8 sim_world = Done tt w' /\
    writes_of (trace w') =
      rev ((sim_base + DAC_RAMPLEN_REG + 1 * CHBASEADDR, 2) ::
           ramp_image (env := sim) 1 [52428; -104857])) /\
  exists w', write_ramptable (env := ramp_env) 1 (ramp_msg [f32_one; 0x7FC00000] []) 8 sim_world = Fault FloatToInt w' /\
    writes_of (trace w') =
      rev ((sim_base + DAC_RAMPLEN_REG + 1 * CHBASEADDR, 2) :: ramp_image (env := sim) 1 [52428]).
Proof.
  split.
  - destruct (write_ramptable_loads (env := ramp_env) 1 [f32_one; 0xC0000000] [52428; -104857] [9] sim_sf 8 sim_world)
      as (res & w' & _ & R & W & E & _).
    + split; [lia|vm_compute; congruence|reflexivity|by_compute|]. repeat constructor; vm_compute; congruence.
    + reflexivity.
    + specialize (E eq_refl). exists w'. split; [exact E|].
      assert (res = 1) as -> by (vm_compute in E; injection E as <-; vm_compute in R; congruence).
      rewrite W. vm_compute. reflexivity.
  - destruct (write_ramptable_loads (env := ramp_env) 1 [f32_one; 0x7FC00000] [52428] [] sim_sf 8 sim_world)
      as (res & w' & _ & R & W & _ & E).
    + split; [lia|vm_compute; congruence|reflexivity|by_compute|]. repeat constructor; vm_compute; congruence.
    + reflexivity.
    + assert (write_ramptable (env := ramp_env) 1 (ramp_msg [f32_one; 0x7FC00000] []) 8 sim_world = Fault FloatToInt w') as E'
        by (apply (E 0x7FC00000 eq_refl); vm_compute; reflexivity).
      exists w'. split; [exact E'|].
      assert (res = 1) as -> by (vm_compute in E'; injection E' as <-; vm_compute in R; congruence).
      rewrite W. vm_compute. reflexivity.
Defined.

(** A ramp table of more than 50000 points is rejected: nothing is
    written and no state changes, whatever the buffer holds. *)
Theorem write_ramptable_rejects {env : Env} chan msg len w :
  200004 <= len -> final (write_ramptable chan msg len w) = w.
Proof.
  intros Hlen. unfold write_ramptable.
  assert (50000 < len / 4) as H by (apply Z.lt_le_trans with (200004 / 4); [done|by apply Z.div_le_mono]).
  assert (forall n i, respects eq (for_up n i (fun i => let! _ := msg_word msg (Z.to_nat i) in ret tt))) as G.
  { intros n i. assert (WorldOrder eq) by (split; congruence).
    respects_tac idtac. unfold msg_word. respects_tac idtac. }
  specialize (G (Z.to_nat (Z.min 20 (len / 4))) 0 w). unfold bind at 1.
  destruct (for_up _ _ _ w) as [a w'| |]; cbn in *; [|by subst..].
  destruct (Z.ltb_spec 50000 (len / 4)); [|lia]. by subst.
Qed.

Lemma write_ramptable_rejects_witness :
  200004 <= 200004 /\ final (write_ramptable (env := sim) 1 [] 200004 sim_world) = sim_world.
Proof. split; [lia|]. apply (write_ramptable_rejects (env := sim)). lia. Defined.

(** A fault clear for one channel clears that channel, or, when the
    MAIN_DIPOLE_MODE register reads 1, all four in the order 1 to 4; one
    register is read and no state changes. *)
Theorem fault_clear_main_dipole {env : Env} `{!AxiWindow env} chan data rest len w :
  1 <= chan <= 4 -> is_u32 data ->
  exists mode w',
    chan_settings chan (settings_msg FAULT_CLEAR_MSG data rest) len w = Done tt w' /\
    state_of w' = state_of w /\
    reads_of (trace w') = (AXI + MAIN_DIPOLE_MODE_REG, mode) :: reads_of (trace w) /\
    writes_of (trace w') =
      rev ((fun c => (AXI + FAULT_CLEAR_REG + c * CHBASEADDR, data)) <$>
             (if mode =? 1 then [1; 2; 3; 4] else [chan])) ++ writes_of (trace w).
Proof.
  intros Hc Hd.
  assert ((FAULT_CLEAR_MSG, fault_clear chan data) ∈ chan_cases chan data) as Hin
    by (unfold chan_cases; rewrite !elem_of_app; do 4 right; left; apply list_elem_of_here).
  rewrite (chan_case_in _ _ _ _ rest len w Hin ltac:(by_compute) Hd).
  unfold fault_clear. rewrite run_in32. cbv zeta. set (mode := u32 (env_in32 _ _)).
  exists mode. unfold MAIN_DIPOLE_MODE_REG. rewrite axi_addr by lia.
  assert (forall c, 1 <= c <= 4 -> u32 (AXI + FAULT_CLEAR_REG + c * CHBASEADDR) =
                                   AXI + FAULT_CLEAR_REG + c * CHBASEADDR) as Ha.
  { intros c H. unfold FAULT_CLEAR_REG, CHBASEADDR. rewrite <- Z.add_assoc. apply axi_addr. lia. }
  destruct (mode =? 1).
  - eexists. split; [rewrite !run_out32; reflexivity|]. split_and!; [done|done|].
    cbn. by rewrite (u32_small data), !Ha by (done || lia).
  - eexists. split; [reflexivity|]. split_and!; [done|done|].
    cbn. by rewrite (u32_small data), Ha by (done || lia).
Qed.

Lemma fault_clear_main_dipole_witness :
  exists mode w',
    chan_settings (env := sim) 2 (settings_msg FAULT_CLEAR_MSG 1 []) 8 sim_world = Done tt w' /\
    state_of w' = state_of sim_world /\
    reads_of (trace w') = [(sim_base + MAIN_DIPOLE_MODE_REG, mode)] /\
    writes_of (trace w') =
      rev ((fun c => (sim_base + FAULT_CLEAR_REG + c * CHBASEADDR, 1)) <$>
             (if mode =? 1 then [1; 2; 3; 4] else [2])) ++ [].
Proof. apply (fault_clear_main_dipole (env := sim) 2 1 [] 8 sim_world); [lia|by_compute]. Defined.

(** ** The set point *)

(** The polarity register has a bit for each channel, channel 1 in bit 0: the
    flavour code writes a nibble and the logic takes bit [c - 1] for channel
    [c]. *)
Definition unipolar (polarity_reg c : Z) : bool := Z.testbit polarity_reg (c - 1).

(** The polarity register, at a moment. *)
Definition polarity_now {env : Env} (tr : list event) : Z := u32 (env_in32 tr (AXI + POLARITY_REG)).

Section Setpoint.
Context {env : Env} `{!AxiWindow env}.
Context (chan : Z) (Hchan : 1 <= chan <= 4).

Definition setpt_addr : Z := AXI + DAC_SETPT_REG + chan * CHBASEADDR.

(** No negative value reaches the set point register of [chan]. *)
Definition setpt_nonneg (e : event) : Prop :=
  match e with EOut32 a v => a = setpt_addr -> 0 <= s32 v | _ => True end.

Lemma chan_reg_addr r : 0 <= r < CHBASEADDR ->
  u32 (AXI + r + chan * CHBASEADDR) = AXI + r + chan * CHBASEADDR.
Proof. intros. unfold CHBASEADDR in *. rewrite <- Z.add_assoc. apply axi_addr. lia. Qed.

Lemma other_reg r v w : 0 <= r < CHBASEADDR -> r <> DAC_SETPT_REG ->
  emits setpt_nonneg w (push (EOut32 (u32 (AXI + r + chan * CHBASEADDR)) v) w).
Proof.
  intros Hr Hne. apply emits_push. cbn. rewrite chan_reg_addr by done. unfold setpt_addr. lia.
Qed.

Lemma setpt_reg z w : 0 <= z < 2 ^ 31 ->
  emits setpt_nonneg w (push (EOut32 (u32 (AXI + DAC_SETPT_REG + chan * CHBASEADDR)) (u32 z)) w).
Proof.
  intros Hz. apply emits_push. intros _. unfold s32, signed, u32. rewrite wrap_idem by lia.
  rewrite wrap_small by (unfold is_u; lia). destruct (Z.ltb_spec z (2 ^ (32 - 1))); lia.
Qed.

Ltac setpt_side :=
  first [ by apply setpt_reg
        | apply other_reg; [unfold CHBASEADDR; vm_compute; split; congruence|vm_compute; congruence]
        | by apply emits_push ].

Lemma nonneg_ramps z : 0 <= z < 2 ^ 31 ->
  respects (emits setpt_nonneg) (Calc_WriteRaisedCosineSmooth chan z) /\
  respects (emits setpt_nonneg) (Calc_WriteLinearSmooth chan z).
Proof.
  intros Hz. unfold Calc_WriteRaisedCosineSmooth, Calc_WriteLinearSmooth, volts_to_dacbits,
    cast_u32, limit_511, q16_48, cast_s32. split; respects_tac setpt_side.
Qed.
End Setpoint.

(** The bit [Set_dac] takes for a channel is that of the next one. *)
Lemma polarity_bit pol chan : 0 <= chan ->
  (Z.land (Z.shiftr pol chan) 1 =? 1) = unipolar pol (chan + 1).
Proof.
  intros Hc. unfold unipolar. rewrite Z.add_simpl_r. change 1 with (Z.ones 1) at 1. rewrite Z.land_ones by lia.
  change (2 ^ 1) with 2. rewrite <- Z.bit0_mod, Z.shiftr_spec, Z.add_0_l by lia. by destruct (Z.testbit pol chan).
Qed.

(** [Set_dac] in jump mode. *)
Lemma Set_dac_jump_run {env : Env} `{!AxiWindow env} chan amps w s :
  1 <= chan <= 4 -> scalefactors (glob w) !! sf_index chan = Some s ->
  u32 (env_in32 (trace w) (AXI + DAC_OPMODE_REG + chan * CHBASEADDR)) = JUMP ->
  let w0 := push (EIn32 (AXI + DAC_OPMODE_REG + chan * CHBASEADDR) JUMP) w in
  let pol := polarity_now (trace w0) in
  let w1 := push (EIn32 (AXI + POLARITY_REG) pol) w0 in
  Set_dac chan amps w =
  match to_s32 (amps_to_bits (limit_amps amps (dac_dccts s)) (CONVVOLTSTODACBITS (glob w)) (dac_dccts s)) with
  | Some z => Done tt (push (EOut32 (setpt_addr chan) (u32 (if unipolar pol (chan + 1) then Z.max 0 z else z))) w1)
  | None => Fault FloatToInt w1
  end.
Proof.
  intros Hc Hs Hm w0 pol w1. unfold Set_dac. rewrite run_in32. cbv zeta.
  rewrite (chan_reg_addr chan Hc DAC_OPMODE_REG), Hm by (vm_compute; split; congruence).
  fold w0. rewrite run_in32. cbv zeta.
  rewrite (axi_addr POLARITY_REG) by (unfold POLARITY_REG; lia).
  change (u32 (env_in32 (trace w0) (AXI + POLARITY_REG))) with pol. fold w1.
  rewrite polarity_bit by lia. destruct (Z.leb_spec 32 chan); [lia|].
  unfold get_sf, volts_to_dacbits, cast_s32. rewrite bind_assoc, run_gets.
  change (glob w1) with (glob w). rewrite Hs, run_some, run_gets. change (glob w1) with (glob w).
  destruct (to_s32 _) as [z|]; [|done]. rewrite run_some, run_gets. cbn [Z.eqb SMOOTH JUMP Pos.eqb].
  unfold Xil_Out32, log, modify, setpt_addr.
  rewrite chan_reg_addr by (done || vm_compute; split; congruence). do 5 f_equal.
  destruct (unipolar pol (chan + 1)), (Z.ltb_spec z 0); cbn [andb]; lia.
Qed.

(** C11. The unipolar clamp is one channel off.  [Set_dac] takes the polarity
    of a channel from the bit of the next one.  When the next channel is
    unipolar, no value [Set_dac] writes to the set point register of this one
    is negative as an [s32], in jump mode and in both smooth ramp modes, for
    every requested current (NaN and infinities included) and every scale
    factor.  When it is not, a current within the limits whose code is
    negative is written, negative, in jump mode, whether or not the channel
    itself is unipolar; for channel 4 this is always so, as the register has
    no bit for a channel 5. *)
Theorem Set_dac_unipolar {env : Env} `{!AxiWindow env} chan amps w :
  1 <= chan <= 4 ->
  ((forall tr, unipolar (polarity_now tr) (chan + 1) = true) ->
   emits (setpt_nonneg chan) w (final (Set_dac chan amps w))) /\
  (forall s z,
     (forall tr, unipolar (polarity_now tr) (chan + 1) = false) ->
     scalefactors (glob w) !! sf_index chan = Some s ->
     u32 (env_in32 (trace w) (AXI + DAC_OPMODE_REG + chan * CHBASEADDR)) = JUMP ->
     let sf := f32_of_bits (dac_dccts s) in
     float_gt (to_double amps) (flit double 99999 10000 *d to_double sf) = false ->
     float_lt amps (fofZ single (-10) *s sf) = false ->
     to_s32 (amps *s f32_of_bits (CONVVOLTSTODACBITS (glob w)) /s sf) = Some z -> z < 0 ->
     exists w', Set_dac chan amps w = Done tt w' /\
       writes_of (trace w') = (AXI + DAC_SETPT_REG + chan * CHBASEADDR, u32 z) :: writes_of (trace w) /\
       s32 (u32 z) < 0).
Proof.
  intros Hc. split.
  - intros Hp. unfold Set_dac. rewrite run_in32. cbv zeta. set (w1 := push _ w).
    rewrite run_in32. cbv zeta. set (w2 := push _ w1).
    rewrite (axi_addr POLARITY_REG) by (unfold POLARITY_REG; lia).
    change (u32 (env_in32 (trace w1) (AXI + POLARITY_REG))) with (polarity_now (trace w1)) in *.
    rewrite polarity_bit, Hp by lia.
    assert (emits (setpt_nonneg chan) w w2) as E2.
    { eapply wo_trans; by apply emits_push. }
    eapply wo_trans; [exact E2|]. clearbody w2. revert w2 E2. clear w1 Hp.
    intros w2 _. revert w2.
    destruct (Z.leb_spec 32 chan); [lia|].
    unfold get_sf, volts_to_dacbits, cast_s32. cbn [andb]. intros w2.
    rewrite bind_assoc, run_gets. destruct (scalefactors _ !! _) as [s|]; [|apply wo_refl].
    rewrite run_some, run_gets. destruct (to_s32 _) as [z|] eqn:Ez; [|apply wo_refl].
    rewrite run_some, run_gets. apply to_s32_range in Ez.
    set (z' := if z <? 0 then 0 else z).
    assert (0 <= z' < 2 ^ 31) as Hz by (unfold z'; destruct (Z.ltb_spec z 0); lia).
    destruct (nonneg_ramps chan Hc z' Hz) as [R L].
    destruct (_ =? SMOOTH); [destruct (smoothramp_type _ =? 1); [apply R|apply L]|].
    destruct (_ =? JUMP); [by apply setpt_reg|apply wo_refl].
  - intros s z Hp Hs Hm sf Hh Hl Ez Hn. rewrite (Set_dac_jump_run chan amps w s Hc Hs Hm).
    assert (limit_amps amps (dac_dccts s) = amps) as -> by (unfold limit_amps; fold sf; by rewrite Hh, Hl).
    unfold amps_to_bits. fold sf. rewrite Ez, Hp. eexists. split; [reflexivity|]. split; [reflexivity|].
    apply to_s32_range in Ez. unfold s32, u32. rewrite signed_wrap, signed_small by lia. exact Hn.
Qed.

(** Jump mode, and the polarity register [pol]: channel 1 unipolar is 1,
    channel 2 unipolar is 2. *)
Definition unipolar_env (pol : Z) : Env :=
  rom_env {[ sim_base + POLARITY_REG := pol; sim_base + DAC_OPMODE_REG + CHBASEADDR := JUMP ]}.

(** -3 A (0xC0400000) asked of channel 1: not driven negative when channel 2
    is unipolar, driven negative when channel 1 itself is. *)
Lemma Set_dac_unipolar_witness :
  emits (setpt_nonneg (env := unipolar_env 2) 1) sim_world
    (final (Set_dac (env := unipolar_env 2) 1 (f32_of_bits 0xC0400000) sim_world)) /\
  unipolar 1 1 = true /\
  exists w', Set_dac (env := unipolar_env 1) 1 (f32_of_bits 0xC0400000) sim_world = Done tt w' /\
    writes_of (trace w') = [(sim_base + DAC_SETPT_REG + 1 * CHBASEADDR, u32 (-157286))].
Proof.
  split; [|split; [reflexivity|]].
  - apply (Set_dac_unipolar (env := unipolar_env 2) 1 _ _ ltac:(lia)). intros tr. reflexivity.
  - destruct (proj2 (Set_dac_unipolar (env := unipolar_env 1) 1 (f32_of_bits 0xC0400000) sim_world ltac:(lia))
      sim_sf (-157286)) as (w' & E & W & _); try (vm_compute; reflexivity).
    exists w'. split; [exact E|exact W].
Defined.

(** The codes at the limits, with a scale factor of 1: just inside the range
    of the converter, for both resolutions. *)
Lemma full_scale_codes :
  let high := to_float (flit double 99999 10000 *d to_double (f32_of_bits f32_one)) in
  let low := fofZ single (-10) *s f32_of_bits f32_one in
  let code a v2d := to_s32 (a *s f32_of_bits v2d /s f32_of_bits f32_one) in
  code high 0x474CCCCD = Some 524282 /\ code low 0x474CCCCD = Some (- 2 ^ 19) /\
  code high 0x464CCCCD = Some 131070 /\ code low 0x464CCCCD = Some (- 2 ^ 17).
Proof. vm_compute. by split_and!. Qed.

(** C35. In jump mode, with the channel's operating mode as read, [Set_dac]
    limits the requested current to 9.9999 (above) and -10 (below) times the
    scale factor, multiplies it by the volts-to-bits factor and divides it by
    the scale factor, in [float] arithmetic, truncates, raises a negative
    code to 0 when the next channel (not this one) is unipolar, and writes
    the result, once, to the set point register; a conversion that is
    undefined writes nothing.  With a scale factor of 1 the limits are the
    codes 524282 and -2^19 in high resolution, 131070 and -2^17 in medium
    resolution: the range of the converter. *)
Theorem Set_dac_jump {env : Env} `{!AxiWindow env} chan amps w s :
  1 <= chan <= 4 -> scalefactors (glob w) !! sf_index chan = Some s ->
  u32 (env_in32 (trace w) (AXI + DAC_OPMODE_REG + chan * CHBASEADDR)) = JUMP ->
  let sf := f32_of_bits (dac_dccts s) in
  let v2d := CONVVOLTSTODACBITS (glob w) in
  let high := float_gt (to_double amps) (flit double 99999 10000 *d to_double sf) in
  let low := float_lt amps (fofZ single (-10) *s sf) in
  let limited := if high then to_float (flit double 99999 10000 *d to_double sf)
                 else if low then fofZ single (-10) *s sf else amps in
  let code := to_s32 (limited *s f32_of_bits v2d /s sf) in
  (exists pol, let w1 := push (EIn32 (AXI + POLARITY_REG) pol)
                           (push (EIn32 (AXI + DAC_OPMODE_REG + chan * CHBASEADDR) JUMP) w) in
   Set_dac chan amps w =
   match code with
   | Some z => Done tt (push (EOut32 (setpt_addr chan)
                 (u32 (if unipolar pol (chan + 1) then Z.max 0 z else z))) w1)
   | None => Fault FloatToInt w1
   end) /\
  (dac_dccts s = f32_one -> high = true ->
   (v2d = 0x474CCCCD -> code = Some 524282) /\ (v2d = 0x464CCCCD -> code = Some 131070)) /\
  (dac_dccts s = f32_one -> high = false -> low = true ->
   (v2d = 0x474CCCCD -> code = Some (- 2 ^ 19)) /\ (v2d = 0x464CCCCD -> code = Some (- 2 ^ 17))).
Proof.
  intros Hc Hs Hm sf v2d high low limited code. destruct full_scale_codes as (H1 & H2 & H3 & H4).
  split; [eexists; exact (Set_dac_jump_run chan amps w s Hc Hs Hm)|].
  unfold code, limited, sf. clear code limited. clearbody high low v2d.
  by split; [intros -> -> | intros -> -> ->]; split; intros ->.
Qed.

(** 2.0f through a 20-bit converter with a scale factor of 1. *)
Definition jump_env : Env := rom_env {[ sim_base + DAC_OPMODE_REG + CHBASEADDR := JUMP ]}.

Lemma Set_dac_jump_witness :
  exists pol, Set_dac (env := jump_env) 1 (f32_of_bits 0x40000000) sim_world =
    Done tt (push (EOut32 (setpt_addr (env := jump_env) 1)
                     (u32 (if unipolar pol 2 then Z.max 0 104857 else 104857)))
            (push (EIn32 (sim_base + POLARITY_REG) pol)
            (push (EIn32 (sim_base + DAC_OPMODE_REG + 1 * CHBASEADDR) JUMP) sim_world))).
Proof.
  apply (Set_dac_jump (env := jump_env) 1 (f32_of_bits 0x40000000) sim_world sim_sf);
    [lia|reflexivity|reflexivity].
Defined.

(** A negative DAC scale factor, which the fault thresholds allow for by
    taking its absolute value, makes [Set_dac] saturate: with -1.0 A/V a
    request of 0 A writes 524282, full scale, in jump mode. *)
Theorem Set_dac_negative_scale_saturates :
  let w := set_glob (map_sf (<[0%nat := ScaleFactor f32_one 0xBF800000 f32_one f32_one f32_one
                                          f32_one f32_one]>) (glob sim_world)) sim_world in
  writes_of (trace (final (Set_dac (env := jump_env) 1 (f32_of_bits 0) w))) =
  [(sim_base + DAC_SETPT_REG + CHBASEADDR, 524282)].
Proof. vm_compute. reflexivity. Qed.

(** ** Smooth ramps *)

(** The numbers of points [Calc_WriteLinearSmooth] computes. *)
Definition curve_share (percent : Z) : spec_float :=
  to_float (fofZ double percent /d fofZ double 100).
Definition linear_points (percent : Z) (ramp_duration : spec_float) : option Z :=
  to_u32 (to_double ((fofZ single 1 -s fofZ single 2 *s curve_share percent)
                     *s ramp_duration) *d SAMPLERATE).
Definition curved_points (percent : Z) (ramp_duration : spec_float) : option Z :=
  to_u32 (to_double (curve_share percent *s ramp_duration) *d SAMPLERATE).

(** A zero duration has no points, whatever the share of the curved parts:
    checked for the 256 values of the byte. *)
Definition no_points (percent : Z) : bool :=
  forallb (fun sg =>
    bool_decide (linear_points percent (S754_zero sg) = Some 0) &&
    bool_decide (curved_points percent (S754_zero sg) = Some 0)) [true; false].

Lemma zero_duration_points percent sg :
  0 <= percent < 256 ->
  linear_points percent (S754_zero sg) = Some 0 /\ curved_points percent (S754_zero sg) = Some 0.
Proof.
  intros Hp.
  assert (forallb (fun n => no_points (Z.of_nat n)) (seq 0 256) = true) as H by (vm_compute; reflexivity).
  rewrite forallb_forall in H. specialize (H (Z.to_nat percent)).
  rewrite Z2Nat.id, <- list_elem_of_In, elem_of_seq in H by lia.
  unfold no_points in H. rewrite forallb_forall in H.
  specialize (H ltac:(lia) sg ltac:(destruct sg; cbn; auto)).
  apply andb_true_iff in H as [H1 H2]. by split; eapply bool_decide_eq_true.
Qed.

Lemma zero_div_finite sg p e : fofZ single 0 /s S754_finite sg p e = S754_zero sg.
Proof. done. Qed.

(** The common part of the two ramp calculations, with a zero difference. *)
Ltac zero_ramp Ha Hcur Ez Hsf Hrate Hm Hd Hn w1 :=
  rewrite run_in32, Ha, Hcur; cbv beta zeta; rewrite Ez; fold w1;
  rewrite (run_bind _ _ _ _ _ Hsf); cbv beta; rewrite run_gets; cbn [glob push w1]; cbv beta zeta;
  rewrite Hrate, Z.sub_diag; change (int_op 0) with (ret 0);
  rewrite run_ret; cbv beta; change (int_abs 0) with (ret 0); rewrite run_ret; cbv beta zeta; rewrite run_in32, Hm; cbv beta zeta; rewrite zero_div_finite; unfold at_least_2s;
  rewrite Hd; cbv iota; rewrite Hn, run_some.

(** Outside main dipole mode, asking a channel in smooth mode for the set
    point it already has is undefined behaviour of the C code when the ramp
    rate is a finite non-zero number: the raised-cosine ramp divides by a
    number of samples of 0, and the linear ramp converts the NaN 0/0 to an
    integer. *)
Theorem smooth_equal_setpoint_undefined {env : Env} `{!AxiWindow env} chan z w s sg p e :
  1 <= chan <= 4 -> - 2 ^ 31 <= z < 2 ^ 31 ->
  scalefactors (glob w) !! sf_index chan = Some s ->
  bits_per_sec s (CONVVOLTSTODACBITS (glob w)) = S754_finite sg p e ->
  0 <= smoothramp_percentcurved (glob w) < 256 ->
  u32 (env_in32 (trace w) (AXI + DAC_CURRSETPT_REG + chan * CHBASEADDR)) = u32 z ->
  (forall tr, u32 (env_in32 tr (AXI + MAIN_DIPOLE_MODE_REG)) <> 1) ->
  (exists w', Calc_WriteRaisedCosineSmooth chan z w = Fault DivByZero w') /\
  (exists w', Calc_WriteLinearSmooth chan z w = Fault FloatToInt w').
Proof.
  intros Hc Hz Hs Hrate Hpc Hcur Hdip.
  assert (s32 (u32 z) = z) as Ez by (unfold s32, u32; rewrite signed_wrap by lia; by apply signed_small).
  destruct (zero_duration_points (smoothramp_percentcurved (glob w)) sg Hpc) as [L C].
  assert (forall tr b, b && (u32 (env_in32 tr (AXI + MAIN_DIPOLE_MODE_REG)) =? 1) = false) as Hd
    by (intros tr b; destruct (Z.eqb_spec (u32 (env_in32 tr (AXI + MAIN_DIPOLE_MODE_REG))) 1);
        [by destruct (Hdip tr)|apply andb_false_r]).
  unfold Calc_WriteRaisedCosineSmooth, Calc_WriteLinearSmooth, volts_to_dacbits, cast_u32.
  pose proof (chan_reg_addr chan Hc DAC_CURRSETPT_REG ltac:(vm_compute; split; congruence)) as Ha.
  set (w1 := push (EIn32 (AXI + DAC_CURRSETPT_REG + chan * CHBASEADDR) (u32 z)) w).
  assert (get_sf chan w1 = Done s w1) as Hsf by (unfold get_sf, bind, gets; cbn; by rewrite Hs).
  assert (to_u32 (to_double (S754_zero sg) *d SAMPLERATE) = Some 0) as Hn by done.
  pose proof (axi_addr MAIN_DIPOLE_MODE_REG ltac:(unfold MAIN_DIPOLE_MODE_REG; lia)) as Hm.
  split.
  - eexists. zero_ramp Ha Hcur Ez Hsf Hrate Hm Hd Hn w1. rewrite run_some. reflexivity.
  - eexists. rewrite run_gets. cbv beta zeta. zero_ramp Ha Hcur Ez Hsf Hrate Hm Hd Hn w1.
    fold (curve_share (smoothramp_percentcurved (glob w))).
    fold (linear_points (smoothramp_percentcurved (glob w)) (S754_zero sg)).
    fold (curved_points (smoothramp_percentcurved (glob w)) (S754_zero sg)).
    rewrite L, C, !run_some, !run_out32. reflexivity.
Qed.

Lemma smooth_equal_setpoint_undefined_witness :
  (exists w', Calc_WriteRaisedCosineSmooth (env := rom_env ∅) 1 0 sim_world = Fault DivByZero w') /\
  (exists w', Calc_WriteLinearSmooth (env := rom_env ∅) 1 0 sim_world = Fault FloatToInt w').
Proof.
  eapply (smooth_equal_setpoint_undefined (env := rom_env ∅) 1 0 sim_world sim_sf);
    [lia|lia|reflexivity|vm_compute; reflexivity|cbn; lia|reflexivity|].
  intros tr. vm_compute. congruence.
Defined.





