(* ===== verification/Listener.v ===== *)
(** * The server loop ([listener.c])

    [psc_run] owns the listening socket and the one client socket; it is the
    only code that accepts, receives, sends and closes.  The callbacks of
    [psc_config] are a record; the theorems assume of them only what the
    interface promises ([config_ok]), and [Main.v] shows that the program's
    callbacks keep the promise. *)

From Stdlib Require Import ZArith Lia Bool.
From stdpp Require Import base list numbers gmultiset.
From S2P Require Import Prelude CFloat Registers World Logic Sim PscMsg.

#[local] Open Scope Z_scope.

Definition PSC_SELECT_MS : Z := 20.
Definition PSC_HEARTBEAT_TIMEOUT_MS : Z := 5000.
Definition PSC_MAX_RX_MSG_LEN : Z := 200000.

(** The socket options of [configure_client_socket], by number. *)
Definition TCP_NODELAY : Z := 1.
Definition SO_SNDTIMEO : Z := 2.
Definition SO_RCVTIMEO : Z := 3.

Inductive psc_event := PSC_CONN | PSC_DIS.

(** [psc_config]: the port and the callbacks; [poll] is [pscdata_poll]. *)
(** [THREAD_STACKSIZE] of [local.h]. *)
Definition THREAD_STACKSIZE : Z := 1024.

Record psc_config := Config {
  port : Z;
  start : M unit;
  conn : psc_event -> M unit;
  recv : Z -> Z -> list Z -> M unit;
  poll : M unit
}.

Definition set_client (sock : Z) (w : world) : world :=
  set_key (PscKey (listen_sock (key w)) sock (last_rx_tick (key w)) (rxbuf (key w))) w.
Definition set_listen (sock : Z) (w : world) : world :=
  set_key (PscKey sock (client_sock (key w)) (last_rx_tick (key w)) (rxbuf (key w))) w.
Definition set_rx_tick (t : Z) (w : world) : world :=
  set_key (PscKey (listen_sock (key w)) (client_sock (key w)) t (rxbuf (key w))) w.
Definition set_rxbuf (b : list Z) (w : world) : world :=
  set_key (PscKey (listen_sock (key w)) (client_sock (key w)) (last_rx_tick (key w)) b) w.

Section Listener.
Context {env : Env} (conf : psc_config).

(** [configure_client_socket]: failures are only printed.  The two time-outs
    are conditional on lwIP's options; the project's build script
    ([src/src/sw/tcl/main.tcl], [udp_ttl]) defines both as 1. *)
Definition configure_client_socket (sock : Z) : M unit :=
  sock_setsockopt sock TCP_NODELAY ;;
  sock_setsockopt sock SO_SNDTIMEO ;;
  sock_setsockopt sock SO_RCVTIMEO.

Definition disconnect_client : M unit :=
  let! sock := gets (fun w => client_sock (key w)) in
  if sock <? 0 then ret tt else
  modify (set_client (-1)) ;;
  sock_shutdown sock ;;
  sock_close sock ;;
  conn conf PSC_DIS.

Definition accept_client : M unit :=
  let! l := gets (fun w => listen_sock (key w)) in
  let! r := sock_accept l in
  match r with
  | None => ret tt
  | Some sock =>
      let! old := gets (fun w => client_sock (key w)) in
      when (0 <=? old) disconnect_client ;;
      configure_client_socket sock ;;
      modify (set_client sock) ;;
      let! t := xTaskGetTickCount in
      modify (set_rx_tick t) ;;
      conn conf PSC_CONN
  end.

(** Reading and handling one message from the selected client. *)
Definition serve_client (sock : Z) : M unit :=
  let! r := psc_recvmsg sock PSC_MAX_RX_MSG_LEN in
  modify (fun w => set_rxbuf (overwrite (rx_bytes r) (rxbuf (key w))) w) ;;
  match rx_code r, rx_head r with
  | 0, Some (msgid, msglen) =>
      let! t := xTaskGetTickCount in
      modify (set_rx_tick t) ;;
      let! buf := gets (fun w => rxbuf (key w)) in
      recv conf msgid msglen buf
  | _, _ => disconnect_client
  end.

Definition check_heartbeat : M unit :=
  let! sock := gets (fun w => client_sock (key w)) in
  if sock <? 0 then ret tt else
  let! now := xTaskGetTickCount in
  let! last := gets (fun w => last_rx_tick (key w)) in
  when (pdMS_TO_TICKS PSC_HEARTBEAT_TIMEOUT_MS <=? u32 (now - last)) disconnect_client.

(** One turn of the [for (;;)] of [psc_run]. *)
Definition psc_turn : M unit :=
  let! l := gets (fun w => listen_sock (key w)) in
  let! selected_client := gets (fun w => client_sock (key w)) in
  let rfds := l :: (if 0 <=? selected_client then [selected_client] else []) in
  let! ready := sock_select rfds in
  match ready with
  | None => sys_msleep PSC_SELECT_MS
  | Some fds =>
      when (bool_decide (l ∈ fds)) accept_client ;;
      let! c := gets (fun w => client_sock (key w)) in
      when ((0 <=? selected_client) && (c =? selected_client) &&
            bool_decide (selected_client ∈ fds)) (serve_client selected_client)
  end ;;
  check_heartbeat ;;
  poll conf.

Fixpoint psc_loop (turns : nat) : M unit :=
  match turns with
  | O => ret tt
  | S turns => psc_turn ;; psc_loop turns
  end.

(** The record [mem_calloc] returns, with the sockets set to -1. *)
Definition new_key : psc_key :=
  PscKey (-1) (-1) 0 (replicate (Z.to_nat PSC_MAX_RX_MSG_LEN) 0).

(** [psc_run], [turns] turns of its endless loop; [key_set]: whether [*key]
    is set already.  It returns if the server cannot be set up. *)
Definition psc_run (key_set : bool) (turns : nat) : M unit :=
  if key_set then ret tt else
  let! allocated := gets (fun w => env_calloc (trace w)) in
  if negb allocated then ret tt else
  modify (set_key new_key) ;;
  let! s := sock_socket in
  match s with
  | None => ret tt
  | Some s =>
      modify (set_listen s) ;;
      let! bound := sock_bind s (port conf) in
      if negb bound then ret tt else
      let! listening := sock_listen s in
      if negb listening then ret tt else
      start conf ;;
      psc_loop turns
  end.

(** [psc_send] and [psc_send_one]; no callback runs with a null key. *)
Definition psc_send (msgid msglen : Z) (msg : list Z) : M unit :=
  let! sock := gets (fun w => client_sock (key w)) in
  if sock <? 0 then ret tt else
  let! r := psc_sendmsg sock msgid msg msglen in
  if r =? 0 then ret tt else
  let! c := gets (fun w => client_sock (key w)) in
  when (c =? sock) disconnect_client.

(** [psc_verror] and [psc_error] of [pscmsg.c]: [text] is what the format and
    its arguments denote.  [vsnprintf] stores at most 31 of its characters and
    a zero; the rest of the array, which is sent with them, is indeterminate. *)
Definition psc_verror (code : Z) (text : list Z) : M unit :=
  let! msg := uninit (Z.to_nat (THREAD_STACKSIZE / 32)) in
  let msg := overwrite (take (length msg - 1) text ++ [0]) msg in
  let msg := <[(length msg - 1)%nat := 0]> msg in
  psc_send code (THREAD_STACKSIZE / 32) msg.

Definition psc_error (code : Z) (text : list Z) : M unit := psc_verror code text.
End Listener.

(** What an error message is: 32 bytes, the text cut off at 31 characters, a
    zero, and whatever the stack held beyond it. *)
Lemma psc_error_message {env : Env} conf code text w :
  exists beyond, psc_error conf code text w = psc_send conf code 32 (take 31 text ++ 0 :: beyond) w /\
    length (take 31 text ++ 0 :: beyond) = 32%nat.
Proof.
  unfold psc_error, psc_verror, uninit. change (Z.to_nat (THREAD_STACKSIZE / 32)) with 32%nat.
  change (THREAD_STACKSIZE / 32) with 32. rewrite run_bind_eq. cbv beta iota zeta.
  set (m := take 32 _). assert (length m = 32%nat) as Hm.
  { unfold m. rewrite length_take, length_app, length_replicate. lia. }
  rewrite length_overwrite by (rewrite length_app, length_take; cbn; lia). rewrite Hm. cbn [Nat.sub].
  unfold overwrite. rewrite <- app_assoc. cbn [app]. set (rest := drop _ m).
  pose proof (length_take text 31) as Hk.
  destruct (decide (length text < 31)%nat) as [H|H].
  - exists (<[(31 - length (take 31 text) - 1)%nat := 0]> rest).
    rewrite insert_app_r_alt by lia.
    destruct (31 - length (take 31 text))%nat as [|n] eqn:En; [lia|]. cbn [insert list_insert].
    rewrite Nat.sub_succ, Nat.sub_0_r. split; [done|].
    rewrite length_app. cbn [length]. rewrite length_insert. unfold rest. rewrite length_drop, length_app. cbn. lia.
  - exists rest. rewrite list_insert_id; [split; [done|]|].
    + rewrite length_app. cbn [length]. unfold rest. rewrite length_drop, length_app. cbn. lia.
    + rewrite lookup_app_r by lia. by replace (31 - length (take 31 text))%nat with 0%nat by lia.
Qed.

(** ** Descriptors

    The descriptors that [accept] returned and that were not closed yet, as a
    multiset, and the discipline on their use: data is sent, received and
    options are set only on an open descriptor, and only an open one is shut
    down or closed (so none is closed twice). *)

Fixpoint open_fds (tr : list event) : gmultiset Z :=
  match tr with
  | [] => ∅
  | EAccept _ (Some s) :: tr => {[+ s +]} ⊎ open_fds tr
  | EClose s :: tr => open_fds tr ∖ {[+ s +]}
  | _ :: tr => open_fds tr
  end.

(** The descriptor an event uses. *)
Definition uses (e : event) : option Z :=
  match e with
  | ESend s _ _ | ERecv s _ _ | ESetsockopt s _ | EShutdown s | EClose s => Some s
  | _ => None
  end.

Fixpoint fd_safe (tr : list event) : Prop :=
  match tr with
  | [] => True
  | e :: tr => fd_safe tr /\ forall s, uses e = Some s -> s ∈ open_fds tr
  end.

Definition owns (X : gmultiset Z) (w : world) : Prop :=
  fd_safe (trace w) /\ open_fds (trace w) = X.
Definition safe (w : world) : Prop := fd_safe (trace w).

Definition client_fds (c : Z) : gmultiset Z := if c <? 0 then ∅ else {[+ c +]}.

(** The server's invariant: the only open descriptor is [client_sock]. *)
Definition server_inv (w : world) : Prop := owns (client_fds (client_sock (key w))) w.

(** Events that touch no socket. *)
Definition no_socket (e : event) : Prop :=
  match e with
  | ESend _ _ _ | ERecv _ _ _ | ESetsockopt _ _ | EShutdown _ | EClose _ | EAccept _ _ => False
  | _ => True
  end.

Lemma owns_emits (P : event -> Prop) X w w' :
  (forall e, P e -> no_socket e \/ exists s, io_on s e /\ s ∈ X) ->
  owns X w -> emits P w w' -> owns X w'.
Proof.
  intros HP [Hs Ho] (es & E & He). unfold owns. rewrite E. clear E.
  induction He as [|e es Pe _ [IHs IHo]]; [done|]. cbn [app fd_safe].
  destruct (HP e Pe) as [Hn|(s & Hio & Hin)].
  - split; [split; [done|]|]; destruct e; try done. all: intros s; discriminate.
  - split; [split; [done|]|]; destruct e; try done; cbn in Hio; subst; cbn; intros ? [= <-]; by rewrite IHo.
Qed.

(** ** The interface of the callbacks *)

Section Promise.
Context {env : Env}.

(** With the server's invariant kept by [conn], [recv] and [poll], and the
    disconnection callback harmless whatever else is open. *)
Class ConfigOk (conf : psc_config) := {
  dis_ok : forall X, triple (fun w => client_sock (key w) < 0 /\ owns X w) (conn conf PSC_DIS)
                       (fun _ w => client_sock (key w) < 0 /\ owns X w) safe;
  start_ok : triple server_inv (start conf) (fun _ => server_inv) safe;
  conn_ok : triple server_inv (conn conf PSC_CONN) (fun _ => server_inv) safe;
  recv_ok : forall i l b, triple server_inv (recv conf i l b) (fun _ => server_inv) safe;
  poll_ok : triple server_inv (poll conf) (fun _ => server_inv) safe
}.

(** A computation that leaves the server's record and the sockets alone. *)
Definition bystander {A} (m : M A) : Prop :=
  respects (both (keeps key) (emits no_socket)) m.

Lemma owns_quiet X w w' : owns X w -> emits no_socket w w' -> owns X w'.
Proof. apply owns_emits. auto. Qed.

Lemma bystander_inv {A} (m : M A) : bystander m -> triple server_inv m (fun _ => server_inv) safe.
Proof.
  intros H. eapply triple_respects; [exact H|..]; intros w w' Hw [Hk He].
  - unfold server_inv. rewrite Hk. by eapply owns_quiet.
  - by eapply owns_quiet.
Qed.
End Promise.

Section Safety.
Context {env : Env} (conf : psc_config).

(** The client's descriptor and [X] are open; without a client, [X] is. *)
Definition client_and (X : gmultiset Z) (w : world) : Prop :=
  owns (client_fds (client_sock (key w)) ⊎ X) w.
Definition no_client (X : gmultiset Z) (w : world) : Prop :=
  client_sock (key w) < 0 /\ owns X w.

Lemma no_client_inv w : no_client ∅ w -> server_inv w.
Proof.
  intros [Hc Ho]. unfold server_inv, client_fds. by destruct (Z.ltb_spec (client_sock (key w)) 0); [|lia].
Qed.

Lemma server_client_and w : server_inv w <-> client_and ∅ w.
Proof.
  unfold server_inv, client_and. by rewrite (right_id_L ∅ disj_union).
Qed.

Lemma disconnect_safe `{!ConfigOk conf} X :
  triple (client_and X) (disconnect_client conf) (fun _ => no_client X) safe.
Proof.
  unfold disconnect_client. apply triple_gets. intros sock.
  destruct (Z.ltb_spec sock 0) as [L|G].
  - intros w [Hw <-]. split; [done|]. unfold client_and, client_fds in Hw.
    destruct (Z.ltb_spec (client_sock (key w)) 0); [|lia]. by rewrite left_id_L in Hw by apply _.
  - eapply triple_bind with (R := fun _ => no_client ({[+ sock +]} ⊎ X)).
    { intros w [[Hs Ho] E]. split; [done|]. split; [done|]. cbn. rewrite Ho, E.
      unfold client_fds. by destruct (Z.ltb_spec sock 0); [lia|]. }
    intros _. eapply triple_bind with (R := fun _ => no_client ({[+ sock +]} ⊎ X)).
    { intros w [Hc [Hs Ho]]. split; [done|]. split; [|done]. split; [done|].
      intros ? [= <-]. rewrite Ho. multiset_solver. }
    intros _. eapply triple_bind with (R := fun _ => no_client X).
    { intros w [Hc [Hs Ho]]. split; [done|]. split.
      - split; [done|]. intros ? [= <-]. rewrite Ho. multiset_solver.
      - cbn. rewrite Ho. multiset_solver. }
    intros _. apply dis_ok.
Qed.

Lemma sockopts_safe X s :
  s ∈ X -> triple (no_client X) (configure_client_socket s) (fun _ => no_client X) safe.
Proof.
  intros Hin. unfold configure_client_socket.
  assert (forall o, triple (no_client X) (sock_setsockopt s o) (fun _ => no_client X) safe) as H.
  { intros o w [Hc [Hs Ho]]. split; [done|]. split; [|done]. split; [done|].
    intros ? [= <-]. by rewrite Ho. }
  eapply triple_bind; [apply H|]. intros ?. eapply triple_bind; [apply H|]. intros ?. apply H.
Qed.

Lemma accept_safe `{!ConfigOk conf} : triple server_inv (accept_client conf) (fun _ => server_inv) safe.
Proof.
  unfold accept_client. apply triple_gets. intros l.
  eapply triple_bind with (R := fun r => match r with
    | None => server_inv | Some s => fun w => 0 <= s /\ client_and {[+ s +]} w end).
  { intros w [[Hs Ho] _]. unfold sock_accept. cbv zeta beta.
    set (r := match env_accept _ _ with Some s => _ | None => None end).
    destruct r as [s|] eqn:E.
    - assert (0 <= s) as Hp by (unfold r in E; destruct (env_accept _ _) as [s'|]; [|done];
        destruct (Z.ltb_spec s' 0); [done|]; by injection E as <-).
      split; [done|]. split; [split; [done|]; intros; discriminate|].
      cbn [push trace open_fds key]. rewrite Ho. apply (comm_L disj_union).
    - split; [split; [done|]; intros; discriminate|exact Ho]. }
  intros [s|]; [|by intros w H]. apply triple_gets. intros old.
  eapply triple_bind with (R := fun _ w => 0 <= s /\ no_client {[+ s +]} w).
  { apply triple_when.
    - intros _ w [[Hs Hw] _]. generalize (disconnect_safe {[+ s +]} w Hw).
      destruct (disconnect_client conf w); auto.
    - intros Hold w [[Hs [Hw Ho]] E]. apply Z.leb_gt in Hold. split; [done|]. split; [lia|].
      split; [done|]. rewrite Ho. unfold client_fds. destruct (Z.ltb_spec (client_sock (key w)) 0); [|lia].
      multiset_solver. }
  intros _. eapply triple_bind with (R := fun _ w => 0 <= s /\ no_client {[+ s +]} w).
  { intros w [Hs Hw]. generalize (sockopts_safe {[+ s +]} s ltac:(multiset_solver) w Hw).
    destruct (configure_client_socket s w); auto. }
  intros _. eapply triple_bind with (R := fun _ => server_inv).
  { intros w [Hs [_ [Hf Ho]]]. split; [done|]. cbn. rewrite Ho. unfold client_fds.
    by destruct (Z.ltb_spec s 0); [lia|]. }
  intros _. eapply triple_bind with (R := fun _ => server_inv).
  { intros w [Hf Ho]. split; [split; [done|]; intros; discriminate|exact Ho]. }
  intros t. eapply triple_bind with (R := fun _ => server_inv); [by intros w H|].
  intros _. apply conn_ok.
Qed.

(** Transfers on the client's descriptor. *)
Definition client_is (c : Z) (w : world) : Prop := server_inv w /\ client_sock (key w) = c.

Lemma transfer_safe {A} (m : M A) c :
  0 <= c -> respects (both (keeps state_of) (emits (io_on c))) m ->
  triple (client_is c) m (fun _ => client_is c) safe.
Proof.
  intros Hc H.
  assert (forall w w', client_is c w -> both (keeps state_of) (emits (io_on c)) w w' -> client_is c w') as T.
  { intros w w' [Hi Hk] [Hs He]. assert (key w' = key w) as E by (injection Hs; auto).
    unfold client_is, server_inv in *. rewrite E. split; [|done].
    eapply (owns_emits (io_on c)); [|exact Hi|exact He]. intros e Hio. right. exists c. split; [done|].
    rewrite Hk. unfold client_fds. destruct (Z.ltb_spec c 0); [lia|]. multiset_solver. }
  eapply triple_respects; [exact H|exact T|]. intros w w' Hw HR. apply (T w w' Hw HR).
Qed.

Lemma disconnect_inv `{!ConfigOk conf} : triple server_inv (disconnect_client conf) (fun _ => server_inv) safe.
Proof.
  eapply triple_conseq; [apply (disconnect_safe ∅)| |].
  - intros w. apply server_client_and.
  - intros ? w. apply no_client_inv.
Qed.

(** Steps that only touch the clock and the fields of the key but the descriptor. *)
Lemma tick_inv : triple server_inv xTaskGetTickCount (fun _ => server_inv) safe.
Proof. intros w [Hf Ho]. split; [split; [done|]; intros; discriminate|exact Ho]. Qed.

Lemma modify_inv f :
  (forall w, trace (f w) = trace w /\ client_sock (key (f w)) = client_sock (key w)) ->
  triple server_inv (modify f) (fun _ => server_inv) safe.
Proof.
  intros H w Hw. cbn. destruct (H w) as [E1 E2]. unfold server_inv, owns in *. by rewrite E1, E2.
Qed.

Lemma serve_safe `{!ConfigOk conf} c : 0 <= c ->
  triple (client_is c) (serve_client conf c) (fun _ => server_inv) safe.
Proof.
  intros Hc. unfold serve_client.
  eapply triple_bind with (R := fun _ => client_is c);
    [apply transfer_safe; [done|apply psc_recvmsg_quiet]|]. intros r.
  eapply triple_bind with (R := fun _ => server_inv).
  { eapply triple_pre; [by apply modify_inv|intros w Hw; apply Hw]. }
  intros _. destruct (rx_code r); try apply disconnect_inv.
  destruct (rx_head r) as [[msgid msglen]|]; [|apply disconnect_inv].
  eapply triple_bind; [apply tick_inv|]. intros t.
  eapply triple_bind; [by apply modify_inv|]. intros [].
  apply triple_gets. intros buf.
  eapply triple_pre; [apply recv_ok|intros w Hw; apply Hw].
Qed.

Lemma heartbeat_safe `{!ConfigOk conf} : triple server_inv (check_heartbeat conf) (fun _ => server_inv) safe.
Proof.
  unfold check_heartbeat. apply triple_gets. intros c. destruct (c <? 0); [by intros w [Hw _]|].
  apply (triple_pre server_inv); [|by intros w [Hw _]].
  eapply triple_bind; [apply tick_inv|]. intros now. apply triple_gets. intros last.
  apply (triple_pre server_inv); [|by intros w [Hw _]].
  apply triple_when; [intros _; apply disconnect_inv|done].
Qed.

Lemma turn_safe `{!ConfigOk conf} : triple server_inv (psc_turn conf) (fun _ => server_inv) safe.
Proof.
  unfold psc_turn. apply triple_gets. intros l. apply triple_gets. intros sel.
  eapply triple_bind with (R := fun _ => server_inv).
  { intros w [[[Hf Ho] _] _]. split; [split; [done|]; intros; discriminate|exact Ho]. }
  intros ready. eapply triple_bind with (R := fun _ => server_inv).
  { destruct ready as [fds|].
    - eapply triple_bind with (R := fun _ => server_inv).
      { apply triple_when; [intros _; apply accept_safe|done]. }
      intros _. apply triple_gets. intros c. apply triple_when.
      + intros [[H1 H2]%andb_true_iff _]%andb_true_iff.
        apply Z.leb_le in H1. apply Z.eqb_eq in H2. subst c.
        eapply triple_pre; [by apply serve_safe|done].
      + by intros _ w [Hw _].
    - intros w [Hf Ho]. split; [split; [done|]; intros; discriminate|exact Ho]. }
  intros _. eapply triple_bind; [apply heartbeat_safe|]. intros ?. apply poll_ok.
Qed.

Lemma psc_send_safe `{!ConfigOk conf} i l b :
  triple server_inv (psc_send conf i l b) (fun _ => server_inv) safe.
Proof.
  unfold psc_send. apply triple_gets. intros c. destruct (Z.ltb_spec c 0); [by intros w [Hw _]|].
  eapply triple_bind with (R := fun _ => client_is c).
  { eapply triple_pre; [apply transfer_safe; [done|apply psc_sendmsg_quiet]|done]. }
  intros r. destruct (r =? 0); [by intros w [Hw _]|]. apply triple_gets. intros c'.
  apply triple_when.
  - intros _. eapply triple_pre; [apply disconnect_inv|intros w [[Hw _] _]; exact Hw].
  - by intros _ w [[Hw _] _].
Qed.
End Safety.

Lemma psc_loop_safe (conf : psc_config) {env : Env} `{!ConfigOk conf} n :
  triple server_inv (psc_loop conf n) (fun _ => server_inv) safe.
Proof.
  induction n as [|n IH]; cbn [psc_loop]; [by intros w H|].
  eapply triple_bind; [by apply turn_safe|intros ?; exact IH].
Qed.

(** The set-up of the server: the last thing done failed. *)
Definition sets_up (e : event) : Prop :=
  match e with ESocket _ | EBind _ _ _ | EListen _ _ => True | _ => False end.
Definition refused {env : Env} (w w' : world) : Prop :=
  (env_calloc (trace w) = false /\ w' = w) \/
  match trace w' with ESocket None :: _ | EBind _ _ false :: _ | EListen _ false :: _ => True | _ => False end.

(** [psc_run] either fails to set the server up, and returns, or starts. *)
Lemma psc_run_cases {env : Env} (conf : psc_config) n w : exists w1,
  keeps (fun w => (glob w, pdata w, snap w)) w w1 /\ emits sets_up w w1 /\
  (client_sock (key w1) = -1 \/ key w1 = key w) /\
  (psc_run conf false n w = (start conf ;; psc_loop conf n) w1 \/
   psc_run conf false n w = Done tt w1 /\ refused w w1).
Proof.
  unfold psc_run. rewrite run_gets. destruct (env_calloc (trace w)) eqn:Ec; cbn [negb].
  2: { exists w. split; [done|]. split; [by exists []|]. split; [by right|]. right. split; [done|]. by left. }
  rewrite (run_bind (modify _) _ w tt (set_key new_key w)) by done. set (w0 := set_key new_key w).
  rewrite (run_bind_eq sock_socket). unfold sock_socket. cbv zeta beta.
  destruct (match env_socket (trace w0) with Some s => if s <? 0 then None else Some s | None => None end) as [s|].
  2: { eexists. split; [|split; [|split; [|right; split; [reflexivity|by right]]]]; [done| |by left].
       exists [ESocket None]. split; [done|by constructor]. }
  rewrite (run_bind (modify _) _ _ tt (set_listen s (push (ESocket (Some s)) w0))) by done.
  rewrite (run_bind_eq (sock_bind s _)). unfold sock_bind. cbv zeta beta. destruct (env_bind _ s _) eqn:Eb; cbn [negb].
  2: { eexists. split; [|split; [|split; [|right; split; [reflexivity|by right]]]]; [done| |by left].
       eexists [_; _]. split; [reflexivity|by repeat constructor]. }
  rewrite (run_bind_eq (sock_listen s)). unfold sock_listen. cbv zeta beta. destruct (env_listen _ s) eqn:El; cbn [negb].
  2: { eexists. split; [|split; [|split; [|right; split; [reflexivity|by right]]]]; [done| |by left].
       eexists [_; _; _]. split; [reflexivity|by repeat constructor]. }
  eexists. split; [|split; [|split; [|left; reflexivity]]]; [done| |by left].
  eexists [_; _; _]. split; [reflexivity|by repeat constructor].
Qed.

Lemma no_client_set_up w w1 : emits sets_up w w1 -> client_sock (key w1) = -1 \/ key w1 = key w ->
  no_client ∅ w -> no_client ∅ w1.
Proof.
  intros He Hk [Hc Ho]. split; [by destruct Hk as [->| ->]; [lia|]|].
  eapply owns_quiet; [exact Ho|]. eapply emits_mono; [|exact He]. by intros [].
Qed.

(** Descriptor safety of the server, for every behaviour of the network, the
    clock and the peers, and for callbacks that keep their promise. *)
Lemma psc_run_safe (conf : psc_config) {env : Env} `{!ConfigOk conf} key_set n :
  triple (no_client ∅) (psc_run conf key_set n) (fun _ => server_inv) safe.
Proof.
  destruct key_set; [intros w H; by apply no_client_inv|]. intros w Hw.
  destruct (psc_run_cases conf n w) as (w1 & _ & He & Hk & H). apply (no_client_set_up w w1 He Hk), no_client_inv in Hw.
  destruct H as [-> | [-> _]]; [|done].
  assert (triple server_inv (start conf ;; psc_loop conf n) (fun _ => server_inv) safe) as T; [|exact (T w1 Hw)].
  eapply triple_bind; [apply start_ok|]. intros []. by apply psc_loop_safe.
Qed.

(** ** Witness configuration: callbacks that do nothing *)

Definition idle_conf : psc_config := Config 0 (ret tt) (fun _ => ret tt) (fun _ _ _ => ret tt) (ret tt).
#[export] Instance idle_conf_ok : ConfigOk idle_conf.
Proof. split; intros; intros w H; exact H. Qed.

(** ** Behaviour *)

Section Behaviour.
Context {env : Env} (conf : psc_config).
Context (quiet_dis : forall w, conn conf PSC_DIS w = Done tt w).

(** The state after the client [c] is disconnected. *)
Definition disconnected (c : Z) (w : world) : world :=
  push (EClose c) (push (EShutdown c) (set_client (-1) w)).

Lemma disconnect_run w :
  disconnect_client conf w =
  Done tt (if client_sock (key w) <? 0 then w else disconnected (client_sock (key w)) w).
Proof using quiet_dis.
  unfold disconnect_client. rewrite run_gets.
  destruct (client_sock (key w) <? 0); [done|].
  unfold bind, sock_shutdown, sock_close, log, modify. cbv beta iota. by rewrite quiet_dis.
Qed.

Lemma heartbeat_run w c t0 t1 :
  client_sock (key w) = c -> 0 <= c -> last_rx_tick (key w) = u32 t0 ->
  u32 (env_tick (trace w)) = u32 t1 -> t0 <= t1 < t0 + 2 ^ 32 ->
  check_heartbeat conf w =
  let w1 := push (ETick (u32 t1)) w in
  Done tt (if pdMS_TO_TICKS PSC_HEARTBEAT_TIMEOUT_MS <=? t1 - t0 then disconnected c w1 else w1).
Proof using quiet_dis.
  intros Hk Hc Hl Ht Hle. unfold check_heartbeat. rewrite run_gets, Hk.
  destruct (Z.ltb_spec c 0); [lia|]. unfold bind at 1, xTaskGetTickCount. rewrite Ht, run_gets.
  cbn [key push]. rewrite Hl.
  assert (u32 (u32 t1 - u32 t0) = t1 - t0) as ->.
  { unfold u32, wrap. rewrite <- Zminus_mod. apply Z.mod_small. lia. }
  destruct (_ <=? _); cbn [when]; [|done]. rewrite disconnect_run. cbn [key push]. rewrite Hk.
  by destruct (Z.ltb_spec c 0); [lia|].
Qed.
End Behaviour.

(** C17. Heartbeat.  In a turn in which [select] finds nothing readable, a
    connected client is disconnected, its descriptor shut down and closed,
    exactly when at least 5000 ms worth of ticks have passed since its last
    message; otherwise it stays.  [t0] and [t1] are true times: the
    wrap-around of the 32-bit tick counter between them changes nothing. *)
Theorem silent_client_disconnected {env : Env} (conf : psc_config) w c t0 t1 :
  (forall w, conn conf PSC_DIS w = Done tt w) ->
  client_sock (key w) = c -> 0 <= c -> last_rx_tick (key w) = u32 t0 ->
  let rfds := [listen_sock (key w); c] in
  env_select (trace w) rfds = Some [] ->
  u32 (env_tick (ESelect rfds (Some []) :: trace w)) = u32 t1 -> t0 <= t1 < t0 + 2 ^ 32 ->
  psc_turn conf w =
  let w1 := push (ETick (u32 t1)) (push (ESelect rfds (Some [])) w) in
  poll conf (if pdMS_TO_TICKS PSC_HEARTBEAT_TIMEOUT_MS <=? t1 - t0
             then push (EClose c) (push (EShutdown c) (set_client (-1) w1)) else w1).
Proof.
  intros Hd Hk Hc Hl rfds Hs Ht Hle. unfold psc_turn. rewrite !run_gets, Hk.
  destruct (Z.leb_spec 0 c); [|lia]. fold rfds.
  unfold bind at 1, sock_select. rewrite Hs.
  change (filter (fun s : Z => s ∈ rfds) []) with (@nil Z). cbv zeta.
  rewrite bool_decide_eq_false_2 by (by intros ?%elem_of_nil). cbn [when].
  rewrite bind_assoc, run_ret, bind_assoc, run_gets.
  rewrite bool_decide_eq_false_2 by (by intros ?%elem_of_nil).
  rewrite andb_false_r. cbn [when]. rewrite run_ret.
  by rewrite (run_bind _ _ _ _ _ (heartbeat_run conf Hd
    (push (ESelect rfds (Some [])) w) c t0 t1 Hk Hc Hl Ht Hle)).
Qed.

(** A clock of 100 Hz that wrapped: 6 s of silence. *)
Definition silent_env : Env := {|
  XPAR_M_AXI_BASEADDR := sim_base; pdMS_TO_TICKS ms := ms * 100 / 1000; portTICK_PERIOD_MS := 10; DHCP_FINE_TIMER_MSECS := 500; DHCP_COARSE_TIMER_SECS := 60; EIO := 5; EMSGSIZE := 90;
  ENOTCONN := 107; env_in32 := fun _ _ => 0; env_load32 := fun _ _ => 0;
  env_tick := fun _ => 500; env_send := send_all; env_recv := stream_of 3 [];
  env_select := fun _ _ => Some []; env_accept := fun _ _ => None; env_qspi := fun _ _ => [];
  env_i2c_busy := fun _ _ => false; env_i2c_recv := fun _ _ _ _ => [];
  env_uninit := fun _ _ => []; env_stat := fun _ _ => 0; env_ip_text := fun _ => [];
  env_uart_ready := fun _ => true; env_uart_rx := fun _ => 0; env_scanf := fun _ => None;
  env_strtof := fun _ => 0; env_tasks := fun _ => ([], 0);
  env_fat := fun _ _ => 1; env_fat_read := fun _ _ => (1, []); env_fat_write := fun _ _ => (1, 0);
  env_fat_lines := fun _ => [];
  env_malloc := fun _ _ => true; env_calloc := fun _ => true; env_socket := fun _ => Some 3; env_bind := fun _ _ _ => true;
  env_listen := fun _ _ => true; env_net := fun _ _ => 0; env_netif := fun _ _ => 0; env_driver := fun _ op => default_driver op; env_ntoa := fun _ => [];
  env_patience := 3 |}.

Definition connected_world (last : Z) : world :=
  set_rx_tick last (set_client 7 (push (EAccept 3 (Some 7)) sim_world)).

Lemma silent_client_disconnected_witness :
  exists w', psc_turn (env := silent_env) idle_conf (connected_world (2 ^ 32 - 100)) = Done tt w' /\
             client_sock (key w') = -1.
Proof.
  pose proof (silent_client_disconnected (env := silent_env) idle_conf (connected_world (2 ^ 32 - 100))
      7 (2 ^ 32 - 100) (2 ^ 32 + 500)
      ltac:(reflexivity) ltac:(reflexivity) ltac:(lia) ltac:(reflexivity)
      ltac:(reflexivity) ltac:(reflexivity) ltac:(lia)) as E.
  eexists. split; [exact E|reflexivity].
Defined.

(** C18. A new connection always wins: when the listening socket is readable
    and [accept] returns a descriptor while a client is connected, the old
    one is shut down and closed before the new one is configured, the new one
    becomes the client with a fresh heartbeat, and the connection callback
    runs; nothing is sent or received in between. *)
Theorem accept_supersedes {env : Env} (conf : psc_config) w old new :
  (forall w, conn conf PSC_DIS w = Done tt w) ->
  client_sock (key w) = old -> 0 <= old -> 0 <= new ->
  env_accept (trace w) (listen_sock (key w)) = Some new ->
  exists t w1,
    accept_client conf w = conn conf PSC_CONN w1 /\
    key w1 = PscKey (listen_sock (key w)) new t (rxbuf (key w)) /\
    (glob w1, pdata w1, snap w1) = (glob w, pdata w, snap w) /\
    trace w1 = [ETick t; ESetsockopt new SO_RCVTIMEO; ESetsockopt new SO_SNDTIMEO;
                ESetsockopt new TCP_NODELAY; EClose old; EShutdown old;
                EAccept (listen_sock (key w)) (Some new)] ++ trace w.
Proof.
  intros Hd Hk Ho Hn Ha. unfold accept_client. rewrite run_gets.
  unfold bind at 1, sock_accept. rewrite Ha. destruct (Z.ltb_spec new 0); [lia|].
  rewrite run_gets. cbn [key push]. rewrite Hk. destruct (Z.leb_spec 0 old); [|lia]. cbn [when].
  rewrite (run_bind _ _ _ _ _ (disconnect_run conf Hd _)). cbn [key push]. rewrite Hk.
  destruct (Z.ltb_spec old 0); [lia|].
  eexists _, _. split; [reflexivity|]. split; [reflexivity|]. split; [reflexivity|].
  destruct w. reflexivity.
Qed.

Lemma accept_supersedes_witness :
  exists t w1, accept_client (env := sim) idle_conf (connected_world 0) = conn idle_conf PSC_CONN w1 /\
    key w1 = PscKey 3 11 t (rxbuf (key sim_world)).
Proof.
  destruct (accept_supersedes (env := sim) idle_conf (connected_world 0) 7 11)
    as (t & w1 & H1 & H2 & _); [reflexivity|reflexivity|lia|lia|reflexivity|].
  exists t, w1. split; [exact H1|exact H2].
Defined.

(** C19. [psc_send] on every branch: without a client nothing happens; with
    one, either the whole frame of the message is on its stream and nothing
    else changed, or the transfer failed after a strict prefix and the client
    is disconnected, its descriptor closed. *)
Theorem psc_send_spec {env : Env} (conf : psc_config) msgid msg w :
  (forall w, conn conf PSC_DIS w = Done tt w) ->
  let c := client_sock (key w) in
  let r := psc_send conf msgid (Z.of_nat (length msg)) msg w in
  if c <? 0 then r = Done tt w
  else exists w1 k,
    state_of w1 = state_of w /\
    sent_on c (trace w1) = sent_on c (trace w) ++ take k (frame msgid msg) /\
    ((r = Done tt w1 /\ k = length (frame msgid msg)) \/
     (r = Done tt (disconnected c w1) /\ (k < length (frame msgid msg))%nat)).
Proof.
  intros Hd c r. subst r. unfold psc_send. rewrite run_gets. fold c.
  destruct (Z.ltb_spec c 0) as [L|G]; [done|].
  destruct (wp_run _ _ _ (wp_and_respects _ _ _ _ (psc_sendmsg_quiet c msgid msg _)
    (psc_sendmsg_spec c msgid msg w))) as (r & w' & E & (k & Hk) & Hq & _).
  destruct Hk as (Hsent & Hr & Hkr). exists w', k. split; [exact Hq|]. split; [exact Hsent|].
  rewrite (run_bind _ _ _ _ _ E).
  destruct (Z.eqb_spec r 0) as [->|Hne]; [by left|right]. rewrite run_gets.
  assert (client_sock (key w') = c) as -> by (injection Hq as _ _ _ Hkey; by rewrite Hkey).
  rewrite Z.eqb_refl. cbn [when]. rewrite disconnect_run by done.
  assert (client_sock (key w') = c) as -> by (injection Hq as _ _ _ Hkey; by rewrite Hkey).
  by destruct (Z.ltb_spec c 0); [lia|].
Qed.

Lemma psc_send_spec_witness :
  exists w1 k,
    sent_on 7 (trace w1) = take k (frame 256 [1%Z; 2%Z]) /\
    ((psc_send (env := sim) idle_conf 256 2 [1%Z; 2%Z] (connected_world 0) = Done tt w1 /\
      k = length (frame 256 [1%Z; 2%Z])) \/
     (psc_send (env := sim) idle_conf 256 2 [1%Z; 2%Z] (connected_world 0) = Done tt (disconnected 7 w1) /\
      (k < length (frame 256 [1%Z; 2%Z]))%nat)).
Proof.
  destruct (psc_send_spec (env := sim) idle_conf 256 [1%Z; 2%Z] (connected_world 0))
    as (w1 & k & _ & H1 & H2); [reflexivity|].
  exists w1, k. split; [exact H1|exact H2].
Defined.

(** ** The interface of the sender

    What the periodic data functions need of [psc_send]: it keeps the
    server's invariant, and it touches no state but the server's. *)
Class SenderOk (send : Z -> Z -> list Z -> M unit) := {
  send_inv : forall i l b, triple server_inv (send i l b) (fun _ => server_inv) safe;
  send_keeps : forall i l b, respects (keeps (fun w => (glob w, pdata w, snap w))) (send i l b)
}.

Lemma psc_send_ok {env : Env} (conf : psc_config) :
  ConfigOk conf -> (forall w, conn conf PSC_DIS w = Done tt w) -> SenderOk (psc_send conf).
Proof.
  intros Hc Hd. split; intros i l b; [by apply psc_send_safe|].
  unfold psc_send. respects_tac idtac.
  - intros w. pose proof (psc_sendmsg_quiet a i b l w) as [Hs _].
    unfold keeps in *. by injection Hs as -> -> -> _.
  - intros w. rewrite disconnect_run by done. unfold keeps. cbn [final]. by case_match.
Qed.

(** The sender that sends nothing. *)
Definition no_send : Z -> Z -> list Z -> M unit := fun _ _ _ => ret tt.
#[export] Instance no_send_ok : SenderOk no_send.
Proof. split; [by intros i l b w H|by intros i l b w]. Qed.
