(* ===== verification/Snapshot.v ===== *)
(** * Triggered waveforms ([snapshots.c])

    Each of twenty triggers (user, fault, error, injection and event
    receiver, for four channels) latches a position in a ring buffer of
    10 kHz samples in DDR memory, waits for the samples after the trigger,
    then converts and sends the samples around it.  [snapshot_process] runs
    every 100 ms. *)

From Stdlib Require Import ZArith Lia Bool Floats.SpecFloat.
From stdpp Require Import base list numbers.
From S2P Require Import Prelude CFloat Registers World Logic Sim Scaling Listener.

#[local] Open Scope Z_scope.
#[local] Open Scope flt_scope.

(** The five arrays of [TriggerTypes]. *)
Inductive trig_kind := Usr | Flt | Err | Inj | Evr.

#[export] Instance trig_kind_eq_dec : EqDecision trig_kind.
Proof. solve_decision. Defined.

Definition triggers_of (k : trig_kind) (t : TriggerTypes) : list TriggerInfo :=
  match k with Usr => usr t | Flt => flt t | Err => err t | Inj => inj t | Evr => evr t end.

Definition with_triggers (k : trig_kind) (l : list TriggerInfo) (t : TriggerTypes) : TriggerTypes :=
  match k with
  | Usr => Triggers l (flt t) (err t) (inj t) (evr t)
  | Flt => Triggers (usr t) l (err t) (inj t) (evr t)
  | Err => Triggers (usr t) (flt t) l (inj t) (evr t)
  | Inj => Triggers (usr t) (flt t) (err t) l (evr t)
  | Evr => Triggers (usr t) (flt t) (err t) (inj t) l
  end.

Definition set_snapshot_trig (t : TriggerTypes) (s : snapshots) : snapshots :=
  Snapshots t (msgUsr_buf s) (msgFlt_buf s) (msgErr_buf s) (msgInj_buf s) (msgWfmStats_buf s).

(** The waveform buffers; event-receiver waveforms have none. *)
Definition bufs_of (k : trig_kind) (s : snapshots) : list (list Z) :=
  match k with
  | Usr => msgUsr_buf s | Flt => msgFlt_buf s | Err => msgErr_buf s | Inj => msgInj_buf s
  | Evr => []
  end.

Definition with_bufs (k : trig_kind) (b : list (list Z)) (s : snapshots) : snapshots :=
  match k with
  | Usr => Snapshots (snapshot_trig s) b (msgFlt_buf s) (msgErr_buf s) (msgInj_buf s) (msgWfmStats_buf s)
  | Flt => Snapshots (snapshot_trig s) (msgUsr_buf s) b (msgErr_buf s) (msgInj_buf s) (msgWfmStats_buf s)
  | Err => Snapshots (snapshot_trig s) (msgUsr_buf s) (msgFlt_buf s) b (msgInj_buf s) (msgWfmStats_buf s)
  | Inj => Snapshots (snapshot_trig s) (msgUsr_buf s) (msgFlt_buf s) (msgErr_buf s) b (msgWfmStats_buf s)
  | Evr => s
  end.

(** The ring buffer, as [ReadDMABuf] sees it. *)
Definition BUFSTART : Z := 0x10000000.
Definition BUFLEN : Z := 0x01E84800.
Definition BUFSTEPBYTES : Z := 0xA0.
Definition BUFSTEPWORDS : Z := BUFSTEPBYTES / 4.
Definition WORDSPERSAMPLE : Z := 40.

(** [ProcessTrigger]. *)
Definition ProcessTrigger (t : TriggerInfo) : TriggerInfo :=
  let t :=
    if negb (addr t =? addr_last t) && (active t =? 0) then
      Trigger (addr t) (addr t) (pretrigpts t) (posttrigpts t) 1 0 (sendbuf t) (msgID t)
        (channum t) (trigcnt t)
    else t in
  if active t =? 1 then
    if postdlycnt t <? posttrigpts t / 1000 then
      Trigger (addr t) (addr_last t) (pretrigpts t) (posttrigpts t) (active t)
        (u32 (postdlycnt t + 1)) (sendbuf t) (msgID t) (channum t) (trigcnt t)
    else
      Trigger (addr t) (addr_last t) (pretrigpts t) (posttrigpts t) (active t)
        (postdlycnt t) 1 (msgID t) (channum t) (trigcnt t)
  else t.

(** The [if (.. active == 0) .. addr = Xil_In32(..)] before it. *)
Definition with_addr (a : Z) (t : TriggerInfo) : TriggerInfo :=
  Trigger a (addr_last t) (pretrigpts t) (posttrigpts t) (active t) (postdlycnt t) (sendbuf t)
    (msgID t) (channum t) (trigcnt t).

(** The start of [SendWfmData], and its [trigcnt++]. *)
Definition with_sent (t : TriggerInfo) : TriggerInfo :=
  Trigger (addr t) (addr_last t) (pretrigpts t) (posttrigpts t) 0 (postdlycnt t) 0
    (msgID t) (channum t) (trigcnt t).
Definition with_counted (t : TriggerInfo) : TriggerInfo :=
  Trigger (addr t) (addr_last t) (pretrigpts t) (posttrigpts t) (active t) (postdlycnt t) (sendbuf t)
    (msgID t) (channum t) (u32 (trigcnt t + 1)).

(** [InitTriggerInfo]; the user, fault, error and event counters are left as
    they are. *)
Definition init_trigger (pre post : Z) (id : Z) (reset_count : bool) (i : Z) (t : TriggerInfo) : TriggerInfo :=
  Trigger 0 0 pre post 0 0 0 (id + i) (i + 1) (if reset_count then 0 else trigcnt t).

Definition init_row (pre post id : Z) (reset_count : bool) (l : list TriggerInfo) : list TriggerInfo :=
  imap (fun i => init_trigger pre post id reset_count (Z.of_nat i)) l.

Definition InitTriggerInfo (t : TriggerTypes) : TriggerTypes :=
  Triggers (init_row 50000 50000 MSGUSRCH1 false (usr t))
           (init_row 50000 50000 MSGFLTCH1 false (flt t))
           (init_row 50000 50000 MSGERRCH1 false (err t))
           (init_row 0 8000 MSGINJCH1 true (inj t))
           (init_row 50000 50000 MSGEVRCH1 false (evr t)).

Definition get_trig (k : trig_kind) (i : nat) : M TriggerInfo :=
  let! l := gets (fun w => triggers_of k (snapshot_trig (snap w))) in
  the OutOfBounds (l !! i).

Definition upd_trig (k : trig_kind) (i : nat) (f : TriggerInfo -> TriggerInfo) : M unit :=
  modify (fun w =>
    let t := snapshot_trig (snap w) in
    set_snap (set_snapshot_trig (with_triggers k (alter f i (triggers_of k t)) t) (snap w)) w).

Definition is_inj_id (id : Z) : bool :=
  (id =? MSGINJCH1) || (id =? MSGINJCH2) || (id =? MSGINJCH3) || (id =? MSGINJCH4).

(** The message of a trigger: its length. *)
Definition wfm_len (id : Z) : Z := if is_inj_id id then MSGINJWFMLEN else MSGWFMLEN.

Section Snapshot.
Context {env : Env} (psc_send : Z -> Z -> list Z -> M unit).

(** *** [CopyDataChan] *)

(** [(float)(s32)v * CONVDACBITSTOVOLTS * sf] and the 16-bit variant. *)
Definition dac_volts (v d2v sf : Z) : Z :=
  bits_of_f32 (fofZ single (s32 v) *s f32_of_bits d2v *s f32_of_bits sf).
Definition adc_volts (v sf : Z) : Z :=
  bits_of_f32 (to_float (to_double (fofZ single (s32 v)) *d CONV16BITSTOVOLTS
                         *d to_double (f32_of_bits sf))).

(** The ten words of a sample for a channel, from the words of memory. *)
Definition sample_words (s : ScaleFactorType) (d2v : Z) (v : Z -> Z) (base : Z) : list Z :=
  [bits_of_f32 (fofZ single (v 0)); bits_of_f32 (fofZ single (v 1));
   dac_volts (v base) d2v (dac_dccts s); dac_volts (v (base + 1)) d2v (dac_dccts s);
   adc_volts (v (base + 2)) (dac_dccts s); adc_volts (v (base + 3)) (vout s);
   adc_volts (v (base + 4)) (ignd s); adc_volts (v (base + 5)) (spare s);
   adc_volts (v (base + 6)) (regulator s); adc_volts (v (base + 7)) (error s)].

(** The first word of a channel in a sample. *)
Definition chan_base (chan : Z) : option Z :=
  if chan =? 1 then Some 2 else if chan =? 2 then Some 10
  else if chan =? 3 then Some 18 else if chan =? 4 then Some 26 else None.

Fixpoint load_words (a : Z) (offs : list Z) : M (list Z) :=
  match offs with
  | [] => ret []
  | o :: offs =>
      let! v := load32 (a + 4 * o) in
      let! vs := load_words a offs in
      ret (v :: vs)
  end.

Definition sample_offsets (base : Z) : list Z :=
  [0; 1; base; base + 1; base + 2; base + 3; base + 4; base + 5; base + 6; base + 7].

(** One turn of the loop: [buf_data[i+..]]. *)
Definition copy_sample (chan base a : Z) : M (list Z) :=
  let! vs := load_words a (sample_offsets base) in
  let! s := get_sf chan in
  let! d2v := gets (fun w => CONVDACBITSTOVOLTS (glob w)) in
  ret (sample_words s d2v
         (fun o => nth (Z.to_nat (if o <? 2 then o else o - base + 2)) vs 0) base).

(** [for (i=0; i<numwords; i=i+40)], [i] a [u32]; the words appended. *)
Fixpoint copy_loop (fuel : nat) (chan base buf_data numwords i : Z) : M (list Z) :=
  match fuel with
  | O => stuck
  | S fuel =>
      if i <? numwords then
        let! ws := copy_sample chan base (buf_data + 4 * i) in
        let! rest := copy_loop fuel chan base buf_data numwords (u32 (i + 40)) in
        ret (ws ++ rest)
      else ret []
  end.

Definition CopyDataChan (buf_data numwords chan : Z) : M (list Z) :=
  match chan_base chan with
  | Some base => copy_loop (S (Z.to_nat (numwords / 40 + 1))) chan base buf_data numwords 0
  | None => ret []
  end.

(** *** [ReadDMABuf]: the words written from the start of the message *)

Definition ReadDMABuf (t : TriggerInfo) : M (list Z) :=
  Xil_DCacheInvalidateRange 0x10000000 16000000 ;;
  let startaddr := u32 (addr t - u32 (pretrigpts t * BUFSTEPBYTES)) in
  let stopaddr := u32 (addr t + u32 (posttrigpts t * BUFSTEPBYTES)) in
  if startaddr <? 0x10000000 then
    let presecnumwords := Z.shiftr (u32 (addr t - BUFSTART)) 2 in
    let prefirstnumwords := u32 (u32 (pretrigpts t * WORDSPERSAMPLE) - presecnumwords) in
    let startaddr := u32 (BUFSTART + BUFLEN - u32 (prefirstnumwords * 4)) in
    let! a := CopyDataChan startaddr prefirstnumwords (channum t) in
    let! b := CopyDataChan BUFSTART presecnumwords (channum t) in
    let! c := CopyDataChan (addr t) (u32 (posttrigpts t * BUFSTEPWORDS)) (channum t) in
    ret (a ++ b ++ c)
  else if BUFSTART + BUFLEN <? stopaddr then
    let postfirstnumwords := Z.shiftr (u32 (BUFSTART + BUFLEN - addr t)) 2 in
    let postsecnumwords := u32 (u32 (posttrigpts t * WORDSPERSAMPLE) - postfirstnumwords) in
    let! a := CopyDataChan startaddr (u32 (pretrigpts t * BUFSTEPWORDS)) (channum t) in
    let! b := CopyDataChan (addr t) postfirstnumwords (channum t) in
    let! c := CopyDataChan BUFSTART postsecnumwords (channum t) in
    ret (a ++ b ++ c)
  else
    CopyDataChan startaddr (u32 (u32 (pretrigpts t + posttrigpts t) * BUFSTEPWORDS)) (channum t).

(** *** [SendWfmData] for buffer and trigger [i] of kind [k] *)

(** [hton_conv(msg, len)]: the first [len] bytes. *)
Definition hton_prefix (len : Z) (msg : list Z) : list Z :=
  hton_conv (take (Z.to_nat len) msg) ++ drop (Z.to_nat len) msg.

Definition SendWfmData (k : trig_kind) (i : nat) : M unit :=
  upd_trig k i with_sent ;;
  let! t := get_trig k i in
  let! bufs := gets (fun w => bufs_of k (snap w)) in
  let! msg := the OutOfBounds (bufs !! i) in
  let! words := ReadDMABuf t in
  if (length msg <? 4 * length words)%nat then fail OutOfBounds else
  let msg := overwrite (bytes_of_words words) msg in
  upd_trig k i with_counted ;;
  let len := wfm_len (msgID t) in
  let msg := hton_prefix len msg in
  modify (fun w => set_snap (with_bufs k (<[i := msg]> (bufs_of k (snap w))) (snap w)) w) ;;
  psc_send (msgID t) len msg.

(** *** [CheckforTriggers] *)

Definition check_trigger (reg : Z) (k : trig_kind) (i : nat) : M unit :=
  let! t := get_trig k i in
  when (active t =? 0)
    (let! a := Xil_In32 (AXI + reg) in upd_trig k i (with_addr a)) ;;
  upd_trig k i ProcessTrigger.

Definition trigger_regs : list (Z * trig_kind * nat) :=
  [(USR1TRIG_BUFPTR, Usr, 0%nat); (USR2TRIG_BUFPTR, Usr, 1%nat);
   (USR3TRIG_BUFPTR, Usr, 2%nat); (USR4TRIG_BUFPTR, Usr, 3%nat);
   (FLT1TRIG_BUFPTR, Flt, 0%nat); (FLT2TRIG_BUFPTR, Flt, 1%nat);
   (FLT3TRIG_BUFPTR, Flt, 2%nat); (FLT4TRIG_BUFPTR, Flt, 3%nat);
   (ERR1TRIG_BUFPTR, Err, 0%nat); (ERR2TRIG_BUFPTR, Err, 1%nat);
   (ERR3TRIG_BUFPTR, Err, 2%nat); (ERR4TRIG_BUFPTR, Err, 3%nat);
   (INJ1TRIG_BUFPTR, Inj, 0%nat); (INJ2TRIG_BUFPTR, Inj, 1%nat);
   (INJ3TRIG_BUFPTR, Inj, 2%nat); (INJ4TRIG_BUFPTR, Inj, 3%nat);
   (EVRTRIG_BUFPTR, Evr, 0%nat); (EVRTRIG_BUFPTR, Evr, 1%nat);
   (EVRTRIG_BUFPTR, Evr, 2%nat); (EVRTRIG_BUFPTR, Evr, 3%nat)].

Definition CheckforTriggers : M unit :=
  seq_all ((fun c => check_trigger c.1.1 c.1.2 c.2) <$> trigger_regs).

(** *** [SendSnapShotStats] *)

Definition snap_trig_data (ptr ts_s ts_ns : Z) (k : trig_kind) (i : nat) : M (list Z) :=
  let! lataddr := Xil_In32 (AXI + ptr + Z.of_nat i * 0x10) in
  let! t := get_trig k i in
  let! s := Xil_In32 (AXI + ts_s + Z.of_nat i * 0x10) in
  let! ns := Xil_In32 (AXI + ts_ns + Z.of_nat i * 0x10) in
  ret [lataddr; active t; s; ns].

(** The loop over the channels: the rows of the four kinds. *)
Fixpoint snap_stats (chans : list nat) : M (list (list Z * list Z * list Z * list Z)) :=
  match chans with
  | [] => ret []
  | i :: chans =>
      let! u := snap_trig_data USR1TRIG_BUFPTR USR1TRIG_TS_S USR1TRIG_TS_NS Usr i in
      let! f := snap_trig_data FLT1TRIG_BUFPTR FLT1TRIG_TS_S FLT1TRIG_TS_NS Flt i in
      let! e := snap_trig_data ERR1TRIG_BUFPTR ERR1TRIG_TS_S ERR1TRIG_TS_NS Err i in
      let! j := snap_trig_data INJ1TRIG_BUFPTR INJ1TRIG_TS_S INJ1TRIG_TS_NS Inj i in
      let! rest := snap_stats chans in
      ret ((u, f, e, j) :: rest)
  end.

Definition SendSnapShotStats : M unit :=
  let! cur_bufaddr := Xil_In32 (AXI + SNAPSHOT_ADDRPTR) in
  let! totalfacnt := Xil_In32 (AXI + SNAPSHOT_TOTALTRIGS) in
  let! rows := snap_stats [0%nat; 1%nat; 2%nat; 3%nat] in
  let words := [cur_bufaddr; totalfacnt] ++
    concat ((fun r => r.1.1.1) <$> rows) ++ concat ((fun r => r.1.1.2) <$> rows) ++
    concat ((fun r => r.1.2) <$> rows) ++ concat ((fun r => r.2) <$> rows) ++
    replicate 16 0 in
  let! msg := gets (fun w => msgWfmStats_buf (snap w)) in
  let msg := overwrite (hton_conv (bytes_of_words words)) msg in
  modify (fun w => let s := snap w in
    set_snap (Snapshots (snapshot_trig s) (msgUsr_buf s) (msgFlt_buf s) (msgErr_buf s)
                        (msgInj_buf s) msg) w) ;;
  psc_send MSGWFMSTATS MSGWFMSTATSLEN msg.

Definition snapshot_init : M unit :=
  modify (fun w => set_snap (set_snapshot_trig (InitTriggerInfo (snapshot_trig (snap w))) (snap w)) w).

(** The scan of [snapshot_process]. *)
Definition send_if_ready (k : trig_kind) (i : nat) : M unit :=
  let! t := get_trig k i in
  when (sendbuf t =? 1) (SendWfmData k i).

Definition snapshot_process : M unit :=
  CheckforTriggers ;;
  seq_all ((fun i => send_if_ready Usr i ;; send_if_ready Flt i ;;
                     send_if_ready Err i ;; send_if_ready Inj i)
           <$> [0%nat; 1%nat; 2%nat; 3%nat]) ;;
  SendSnapShotStats.
End Snapshot.

(** ** Copying from the ring buffer *)

Definition RING : Z := BUFLEN / BUFSTEPBYTES.       (* 200000 samples *)

Section Ring.
Context {env : Env}.
Context (w0 : world) (mem : Z -> Z) (s : ScaleFactorType) (chan base : Z).

(** The events of a copy. *)
Definition is_copy (e : event) : Prop :=
  match e with ELoad _ _ | EInvalidate _ _ => True | _ => False end.

(** During the copy that starts at [w0] memory reads as [mem]. *)
Definition ring_stable : Prop :=
  forall es a, Forall is_copy es -> is_u32 a -> u32 (env_load32 (es ++ trace w0) a) = mem a.

Context (Hmem : ring_stable) (Hbase : chan_base chan = Some base)
        (Hs : scalefactors (glob w0) !! sf_index chan = Some s).

Definition copying (w : world) : Prop :=
  state_of w = state_of w0 /\ exists es, trace w = es ++ trace w0 /\ Forall is_copy es.

(** The words of the sample at address [a]. *)
Definition sample_at (a : Z) : list Z :=
  sample_words s (CONVDACBITSTOVOLTS (glob w0)) (fun o => mem (a + 4 * o)) base.

Lemma base_range : 2 <= base <= 26.
Proof using Hbase.
  unfold chan_base in Hbase. repeat case_match; simplify_eq; lia.
Qed.

Lemma load_words_spec a offs w :
  copying w -> Forall (fun o => is_u32 (a + 4 * o)) offs ->
  wp (load_words a offs) (fun vs w' => copying w' /\ vs = (fun o => mem (a + 4 * o)) <$> offs) w.
Proof using Hmem.
  intros Hw Ho. revert w Hw. induction Ho as [|o offs Ha _ IH]; intros w Hw; cbn [load_words];
    [by apply wp_ret|].
  apply wp_bind. unfold wp at 1, load32. cbv zeta. rewrite (u32_small (a + 4 * o)) by done.
  destruct Hw as (Hst & es & E & Hes).
  assert (u32 (env_load32 (trace w) (a + 4 * o)) = mem (a + 4 * o)) as -> by (rewrite E; by apply Hmem).
  apply wp_bind. eapply wp_mono; [apply IH|].
  - split; [done|]. exists (ELoad (a + 4 * o) (mem (a + 4 * o)) :: es). cbn. rewrite E.
    split; [done|]. by constructor.
  - cbn. intros vs w' [H1 ->]. by split.
Qed.

Lemma copy_sample_spec a w :
  copying w -> 0 <= a -> a + 160 <= 2 ^ 32 ->
  wp (copy_sample chan base a) (fun ws w' => copying w' /\ ws = sample_at a) w.
Proof using Hmem Hbase Hs.
  intros Hw H0 H1. pose proof base_range as Hb. unfold copy_sample. apply wp_bind.
  eapply wp_mono; [apply load_words_spec; [done|]|].
  { unfold sample_offsets, is_u. repeat constructor; lia. }
  intros vs w' [Hc ->]. apply wp_bind. unfold get_sf, wp, bind, gets. cbn beta iota.
  assert (glob w' = glob w0) as Hg by (destruct Hc as [Hst _]; injection Hst; auto).
  rewrite Hg, Hs. cbn [the ret]. split; [done|]. rewrite Hg. unfold sample_at.
  unfold chan_base in Hbase. repeat case_match; simplify_eq; reflexivity.
Qed.

Lemma copy_loop_spec (n : nat) fuel buf j w :
  copying w -> 0 <= buf -> buf + 160 * (j + Z.of_nat n) <= 2 ^ 32 -> 0 <= j ->
  (n < fuel)%nat -> 40 * (j + Z.of_nat n) + 40 < 2 ^ 32 ->
  wp (copy_loop fuel chan base buf (40 * (j + Z.of_nat n)) (40 * j))
     (fun ws w' => copying w' /\ ws = concat ((fun m => sample_at (buf + 160 * m)) <$> seqZ j (Z.of_nat n))) w.
Proof using Hmem Hbase Hs.
  revert fuel j w. induction n as [|n IH]; intros fuel j w Hw Hb Hmax Hj Hf Hov;
    (destruct fuel as [|fuel]; [lia|]); cbn [copy_loop].
  - destruct (Z.ltb_spec (40 * j) (40 * (j + Z.of_nat 0))); [lia|]. by apply wp_ret.
  - destruct (Z.ltb_spec (40 * j) (40 * (j + Z.of_nat (S n)))); [|lia].
    apply wp_bind. eapply wp_mono; [apply copy_sample_spec; [done|lia|lia]|].
    intros ws w1 [H1 ->]. apply wp_bind.
    replace (j + Z.of_nat (S n)) with ((j + 1) + Z.of_nat n) by lia.
    rewrite (u32_small (40 * j + 40)) by (unfold is_u; lia).
    replace (40 * j + 40) with (40 * (j + 1)) by lia.
    eapply wp_mono; [apply IH; (done || lia)|]. intros rest w2 [H2 ->]. apply wp_ret.
    split; [done|]. rewrite (seqZ_cons j) by lia.
    replace (Z.pred (Z.of_nat (S n))) with (Z.of_nat n) by lia.
    cbn [fmap list_fmap concat]. replace (Z.succ j) with (j + 1) by lia. do 2 f_equal; lia.
Qed.

(** [n] samples from ring position [r], without wrapping. *)
Lemma CopyDataChan_spec a nw r n w :
  copying w -> 0 <= r -> 0 <= n -> r + n <= RING -> a = BUFSTART + 160 * r -> nw = 40 * n ->
  wp (CopyDataChan a nw chan)
     (fun ws w' => copying w' /\ ws = concat ((fun m => sample_at (BUFSTART + 160 * m)) <$> seqZ r n)) w.
Proof using Hmem Hbase Hs.
  intros Hw Hr Hn Hle -> ->. unfold CopyDataChan. rewrite Hbase.
  change RING with 200000 in Hle. unfold BUFSTART.
  set (fuel := S _). assert (Z.to_nat n < fuel)%nat as Hf.
  { unfold fuel. rewrite (Z.mul_comm 40), Z.div_mul by lia. lia. }
  clearbody fuel.
  pose proof (copy_loop_spec (Z.to_nat n) fuel (0x10000000 + 160 * r) 0 w Hw) as H.
  rewrite Z.add_0_l, Z2Nat.id in H by lia. change (40 * 0) with 0 in H.
  eapply wp_mono; [apply H; (done || lia)|]. intros ws w' [H1 ->]. split; [done|]. f_equal.
  replace (seqZ r n) with (Z.add r <$> seqZ 0 n) by (rewrite fmap_add_seqZ; by rewrite Z.add_0_r).
  rewrite <- list_fmap_compose. apply list_fmap_ext. intros i m _. cbn. f_equal. lia.
Qed.

(** The samples around ring position [k], the ring read modulo its size. *)
Definition ring_message (k pre post : Z) : list Z :=
  concat ((fun j => sample_at (BUFSTART + 160 * ((k - pre + j) mod RING))) <$> seqZ 0 (pre + post)).

(** A stretch of the message that is a stretch of the ring. *)
Lemma ring_stretch k pre j n r :
  0 <= n -> (forall i, 0 <= i < n -> (k - pre + (j + i)) mod RING = r + i) ->
  concat ((fun j => sample_at (BUFSTART + 160 * ((k - pre + j) mod RING))) <$> seqZ j n) =
  concat ((fun m => sample_at (BUFSTART + 160 * m)) <$> seqZ r n).
Proof.
  intros Hn H. f_equal. apply list_eq. intros i. rewrite !list_lookup_fmap.
  destruct (Z.lt_ge_cases (Z.of_nat i) n) as [L|G].
  - rewrite !lookup_seqZ_lt by done. cbn. do 3 f_equal. f_equal. apply H. lia.
  - by rewrite !lookup_seqZ_ge.
Qed.

Lemma shiftr2 z : Z.shiftr z 2 = z / 4.
Proof. by rewrite Z.shiftr_div_pow2 by lia. Qed.

Lemma copying_invalidate a n w : copying w -> copying (push (EInvalidate a n) w).
Proof.
  intros (Hst & es & E & Hes). split; [done|]. exists (EInvalidate a n :: es). cbn. rewrite E.
  split; [done|]. by constructor.
Qed.

Ltac copy r n :=
  eapply wp_mono;
    [apply (CopyDataChan_spec _ _ r n);
       [eassumption|lia|lia|change RING with 200000; lia|change BUFSTART with 268435456; lia|lia]|];
  cbv beta; intros ? ? [? ->].
Ltac stretch := symmetry; apply ring_stretch; [lia|]; intros i Hi; change RING with 200000;
  first [rewrite Z.mod_small by lia; lia
        | symmetry; apply Z.mod_unique with (-1); lia | symmetry; apply Z.mod_unique with 1; lia].

Lemma ReadDMABuf_spec t k w :
  channum t = chan -> copying w -> 0 <= k < RING -> addr t = BUFSTART + 160 * k ->
  0 <= pretrigpts t -> 0 <= posttrigpts t -> pretrigpts t + posttrigpts t <= RING ->
  wp (ReadDMABuf t) (fun ws w' => copying w' /\ ws = ring_message k (pretrigpts t) (posttrigpts t)) w.
Proof using Hmem Hbase Hs.
  intros Hch Hw Hk Ha Hpre Hpost Hle. unfold ReadDMABuf.
  apply wp_bind. cbn [wp Xil_DCacheInvalidateRange log modify].
  apply (copying_invalidate 0x10000000 16000000) in Hw. set (w1 := push _ w) in *. clearbody w1.
  rewrite Hch, Ha. set (pre := pretrigpts t) in *. set (post := posttrigpts t) in *.
  change RING with 200000 in Hk, Hle. unfold ring_message, WORDSPERSAMPLE.
  change BUFSTEPBYTES with 160. change BUFSTEPWORDS with 40. change BUFLEN with 32000000.
  change BUFSTART with 268435456 in *.
  rewrite (u32_small (pre * 160)), (u32_small (post * 160)), (u32_small (pre * 40)),
    (u32_small (post * 40)), (u32_small (pre + post)), (u32_small ((pre + post) * 40)),
    (u32_small (_ - pre * 160)), (u32_small (_ + post * 160)) by (unfold is_u; lia).
  change 0x10000000 with 268435456.
  rewrite !shiftr2.
  destruct (Z.ltb_spec (268435456 + 160 * k - pre * 160) 268435456).
  - rewrite (u32_small (_ - 268435456)) by (unfold is_u; lia).
    replace ((268435456 + 160 * k - 268435456) / 4) with (40 * k) by (apply Z.div_unique with 0; lia).
    rewrite (u32_small (pre * 40 - _)), (u32_small (_ * 4)), (u32_small (268435456 + 32000000 - _))
      by (unfold is_u; lia).
    apply wp_bind. copy (200000 - (pre - k)) (pre - k).
    apply wp_bind. copy 0 k. apply wp_bind. copy k post. apply wp_ret. split; [done|].
    replace (pre + post) with ((pre - k) + (k + post)) by lia.
    rewrite seqZ_app, fmap_app, concat_app, (seqZ_app _ k post), fmap_app, concat_app by lia.
    f_equal; [|f_equal]; stretch.
  - change (268435456 + 32000000) with 300435456.
    destruct (Z.ltb_spec 300435456 (268435456 + 160 * k + post * 160)).
    + rewrite (u32_small (300435456 - _)) by (unfold is_u; lia).
      replace ((300435456 - (268435456 + 160 * k)) / 4) with (40 * (200000 - k))
        by (apply Z.div_unique with 0; lia).
      rewrite (u32_small (post * 40 - _)) by (unfold is_u; lia).
      apply wp_bind. copy (k - pre) pre. apply wp_bind. copy k (200000 - k).
      apply wp_bind. copy 0 (post - (200000 - k)). apply wp_ret. split; [done|].
      replace (pre + post) with (pre + ((200000 - k) + (post - (200000 - k)))) by lia.
      rewrite seqZ_app, fmap_app, concat_app, (seqZ_app _ (200000 - k)), fmap_app, concat_app by lia.
      f_equal; [|f_equal]; stretch.
    + copy (k - pre) (pre + post). split; [done|]. stretch.
Qed.
End Ring.

(** C9. [ReadDMABuf] is the ring buffer: for a trigger latched at sample [k]
    of the ring of 200000, whose window is not longer than the ring, it
    returns normally with the converted samples [k - pre .. k + post - 1]
    taken modulo the ring size, ten words each, in order, in each of the
    three cases of the code (window wrapping before the trigger, after it,
    or not at all), provided memory does not change during the copy. *)
Theorem ReadDMABuf_ring {env : Env} w mem s base t k :
  ring_stable w mem -> chan_base (channum t) = Some base ->
  scalefactors (glob w) !! sf_index (channum t) = Some s ->
  0 <= k < RING -> addr t = BUFSTART + 160 * k ->
  0 <= pretrigpts t -> 0 <= posttrigpts t -> pretrigpts t + posttrigpts t <= RING ->
  exists w', ReadDMABuf t w = Done (ring_message w mem s base k (pretrigpts t) (posttrigpts t)) w' /\
             state_of w' = state_of w.
Proof.
  intros Hm Hb Hs Hk Ha Hp Hq Hle.
  assert (copying w w) as Hw by (split; [done|by exists []]).
  destruct (wp_run _ _ _ (ReadDMABuf_spec w mem s (channum t) base Hm Hb Hs t k w eq_refl Hw Hk Ha Hp Hq Hle))
    as (ws & w' & E & [Hst _] & ->).
  by exists w'.
Qed.

(** A window that wraps: two samples before position 1, one after. *)
Definition ring_trigger : TriggerInfo := Trigger (BUFSTART + 160) 0 2 1 1 0 0 MSGUSRCH1 1 0.

Lemma ReadDMABuf_ring_witness :
  exists w', ReadDMABuf (env := sim) ring_trigger sim_world =
    Done (ring_message sim_world (fun a => a) sim_sf 2 1 2 1) w'.
Proof.
  destruct (ReadDMABuf_ring (env := sim) sim_world (fun a => a) sim_sf 2 ring_trigger 1)
    as (w' & E & _).
  - intros es a _ Ha. exact (u32_small a Ha).
  - reflexivity.
  - reflexivity.
  - change RING with 200000. lia.
  - reflexivity.
  - cbn. lia.
  - cbn. lia.
  - change RING with 200000. cbn. lia.
  - exists w'. exact E.
Defined.

(** ** The life of a trigger *)

(** One poll of a trigger, [a] being what its address register reads. *)
Definition trig_step (a : Z) (t : TriggerInfo) : TriggerInfo :=
  ProcessTrigger (if active t =? 0 then with_addr a t else t).

(** Waiting or ready, or idle. *)
Record trig_ok (t : TriggerInfo) : Prop := {
  ok_active : active t = 0 \/ active t = 1;
  ok_sendbuf : sendbuf t = 0 \/ (sendbuf t = 1 /\ active t = 1 /\ postdlycnt t = posttrigpts t / 1000);
  ok_waiting : active t = 1 -> addr t = addr_last t /\ 0 <= postdlycnt t <= posttrigpts t / 1000;
  ok_post : is_u32 (posttrigpts t)
}.

Lemma post_polls p : is_u32 p -> 0 <= p / 1000 < 2 ^ 31.
Proof. unfold is_u. intros. split; [apply Z.div_pos|apply Z.div_lt_upper_bound]; lia. Qed.

(** The trigger invariant: every poll, whatever the address register
    reads, and every send keep a trigger in one of three states: idle;
    latched and counting polls, its address recorded as the last seen, the
    count within [posttrigpts / 1000]; or ready to be sent, which implies
    latched with the count complete. *)
Theorem trigger_invariant a t : trig_ok t -> trig_ok (trig_step a t) /\ trig_ok (with_counted (with_sent t)).
Proof.
  intros [Ha Hs Hw Hp]. pose proof (post_polls _ Hp).
  split; [|split; cbn; auto; lia].
  unfold trig_step, ProcessTrigger, with_addr.
  destruct t as [ad la pre po ac pd sb id ch ct]; cbn in *.
  assert (forall z, 0 <= z < 2 ^ 31 -> u32 (z + 1) = z + 1) as Hu by (intros; apply u32_small; unfold is_u; lia).
  assert (u32 (0 + 1) = 1) as Hu1 by done.
  destruct Ha as [-> | ->].
  - cbn. destruct (Z.eqb_spec a la); cbn.
    + split; cbn; auto; lia.
    + destruct (Z.ltb_spec 0 (po / 1000)); split; cbn; rewrite ?Hu1; try assumption; lia.
  - cbn. rewrite andb_false_r. cbn.
    destruct (Z.ltb_spec pd (po / 1000)); split; cbn; rewrite ?Hu by lia; try assumption; lia.
Qed.

Lemma zero_trig_ok post : is_u32 post -> trig_ok (Trigger 0 0 0 post 0 0 0 0 0 0).
Proof. intros H. split; cbn; auto; lia. Qed.

Lemma trigger_invariant_witness :
  trig_ok (trig_step 5 (Trigger 0 0 0 8000 0 0 0 0 0 0)) /\
  trig_ok (with_counted (with_sent (Trigger 0 0 0 8000 0 0 0 0 0 0))).
Proof. apply (trigger_invariant 5). apply zero_trig_ok. by_compute. Defined.

Lemma trig_step_latched b t :
  active t = 1 ->
  trig_step b t =
  if postdlycnt t <? posttrigpts t / 1000 then
    Trigger (addr t) (addr_last t) (pretrigpts t) (posttrigpts t) 1
      (u32 (postdlycnt t + 1)) (sendbuf t) (msgID t) (channum t) (trigcnt t)
  else
    Trigger (addr t) (addr_last t) (pretrigpts t) (posttrigpts t) 1
      (postdlycnt t) 1 (msgID t) (channum t) (trigcnt t).
Proof.
  intros H. unfold trig_step, ProcessTrigger. rewrite H. cbn. rewrite H, andb_false_r, H. done.
Qed.

Lemma latched_steps as_ a p c t :
  active t = 1 -> addr t = a -> posttrigpts t = p -> postdlycnt t = c -> is_u32 p ->
  0 <= c <= p / 1000 -> sendbuf t = 0 \/ c = p / 1000 ->
  let t' := foldl (fun t a => trig_step a t) t as_ in
  active t' = 1 /\ addr t' = a /\
  (sendbuf t' = 1 <-> sendbuf t = 1 \/ p / 1000 < c + Z.of_nat (length as_)).
Proof.
  intros Hact Ha Hp Hc Hu. revert t c Hact Ha Hp Hc. pose proof (post_polls _ Hu).
  induction as_ as [|b as_ IH]; intros t c Hact Ha Hp Hc Hr Hsb; cbn [foldl length].
  { split_and!; [done..|]. split; [auto|]. intros [?|?]; [done|lia]. }
  rewrite (trig_step_latched b t Hact), Hp, Hc.
  destruct (Z.ltb_spec c (p / 1000)) as [L|G].
  - assert (u32 (c + 1) = c + 1) as E by (apply u32_small; unfold is_u; lia). rewrite E.
    assert (sendbuf t = 0) as E0 by lia.
    destruct (IH (Trigger (addr t) (addr_last t) (pretrigpts t) p 1 (c + 1) (sendbuf t)
      (msgID t) (channum t) (trigcnt t)) (c + 1) eq_refl Ha eq_refl eq_refl ltac:(lia) ltac:(cbn; auto))
      as (I1 & I2 & I3).
    split_and!; [done..|]. rewrite I3. cbn [sendbuf]. lia.
  - destruct (IH (Trigger (addr t) (addr_last t) (pretrigpts t) p 1 c 1
      (msgID t) (channum t) (trigcnt t)) c eq_refl Ha eq_refl eq_refl ltac:(lia) ltac:(right; lia))
      as (I1 & I2 & I3).
    split_and!; [done..|]. rewrite I3. cbn [sendbuf]. lia.
Qed.

(** C15. Liveness of a trigger: when an idle trigger reads a new address, that
    address is latched, whatever the register reads afterwards, and the
    trigger becomes ready at exactly the poll number [posttrigpts/1000 + 1]
    counted from that one, i.e. once the samples after the trigger are in
    memory (at 100 ms per poll and 10 kHz), never earlier. *)
Theorem trigger_waits a as_ t :
  trig_ok t -> active t = 0 -> a <> addr_last t ->
  let t' := foldl (fun t a => trig_step a t) t (a :: as_) in
  active t' = 1 /\ addr t' = a /\
  (sendbuf t' = 1 <-> posttrigpts t / 1000 <= Z.of_nat (length as_)).
Proof.
  intros [_ Hsb _ Hp] Hact Hne. cbn [foldl]. pose proof (post_polls _ Hp) as Hb.
  assert (sendbuf t = 0) as Hs0 by lia.
  unfold trig_step at 2 4 6, ProcessTrigger. rewrite Hact. cbn [Z.eqb with_addr addr addr_last active].
  destruct (Z.eqb_spec a (addr_last t)); [done|]. rewrite Hact. cbn -[Z.div].
  destruct (Z.ltb_spec 0 (posttrigpts t / 1000)) as [L|G].
  - destruct (latched_steps as_ a (posttrigpts t) 1
      (Trigger a a (pretrigpts t) (posttrigpts t) 1 (u32 (0 + 1)) (sendbuf t) (msgID t) (channum t) (trigcnt t))
      eq_refl eq_refl eq_refl eq_refl Hp ltac:(lia) ltac:(by left)) as (I1 & I2 & I3).
    split_and!; [done..|]. rewrite I3. cbn [sendbuf]. lia.
  - destruct (latched_steps as_ a (posttrigpts t) 0
      (Trigger a a (pretrigpts t) (posttrigpts t) 1 0 1 (msgID t) (channum t) (trigcnt t))
      eq_refl eq_refl eq_refl eq_refl Hp ltac:(lia) ltac:(right; lia)) as (I1 & I2 & I3).
    split_and!; [done..|]. rewrite I3. cbn [sendbuf]. lia.
Qed.

(** An injection trigger (8000 points): ready at the ninth poll. *)
Lemma trigger_waits_witness :
  let t := Trigger 0 0 0 8000 0 0 0 0 0 0 in
  let t' := foldl (fun t a => trig_step a t) t (5 :: replicate 8 9) in
  addr t' = 5 /\ (sendbuf t' = 1 <-> 8000 / 1000 <= 8).
Proof.
  cbn zeta.
  destruct (trigger_waits 5 (replicate 8 9) (Trigger 0 0 0 8000 0 0 0 0 0 0)) as (_ & H1 & H2);
    [apply zero_trig_ok; by_compute|reflexivity|vm_compute; congruence|].
  split; [exact H1|exact H2].
Defined.

(** ** The poll of all the triggers *)

Lemma triggers_with k k' l t :
  triggers_of k' (with_triggers k l t) =
  if bool_decide (k' = k) then l else triggers_of k' t.
Proof. by destruct k, k'. Qed.

(** Trigger [i] of kind [k] in a state. *)
Definition trig_at (k : trig_kind) (i : nat) (w : world) : option TriggerInfo :=
  triggers_of k (snapshot_trig (snap w)) !! i.

Lemma trig_at_alter k i f w :
  forall k' i', trig_at k' i' (final (upd_trig k i f w)) =
    if bool_decide ((k', i') = (k, i)) then f <$> trig_at k' i' w else trig_at k' i' w.
Proof.
  intros k' i'. unfold trig_at, upd_trig. cbn. rewrite triggers_with.
  destruct (decide (k' = k)) as [->|Hk].
  - rewrite bool_decide_true by done. destruct (decide (i' = i)) as [->|Hi].
    + rewrite bool_decide_true by done. apply list_lookup_alter_eq.
    + rewrite bool_decide_false by congruence. by apply list_lookup_alter_ne.
  - by rewrite !bool_decide_false by congruence.
Qed.

Section Poll.
Context {env : Env}.

Lemma check_trigger_run reg k i w t :
  trig_at k i w = Some t ->
  exists a w', check_trigger reg k i w = Done tt w' /\
    (glob w', pdata w', key w') = (glob w, pdata w, key w) /\
    forall k' i', trig_at k' i' w' =
      if bool_decide ((k', i') = (k, i)) then Some (trig_step a t) else trig_at k' i' w.
Proof.
  intros Ht. unfold check_trigger, get_trig. rewrite bind_assoc, run_gets.
  fold (trig_at k i w). rewrite Ht, run_some. destruct (Z.eqb_spec (active t) 0) as [E|E]; cbn [when].
  - rewrite bind_assoc, run_in32. cbv zeta. set (a := u32 (env_in32 _ _)). exists a.
    set (w1 := push _ w). exists (final (upd_trig k i ProcessTrigger (final (upd_trig k i (with_addr a) w1)))).
    split; [done|]. split; [done|]. intros k' i'. rewrite !trig_at_alter.
    case_bool_decide as H; [|done]. injection H as -> ->. change (trig_at k i w1) with (trig_at k i w).
    rewrite Ht. unfold trig_step. by rewrite E.
  - exists 0, (final (upd_trig k i ProcessTrigger w)). split; [done|]. split; [done|].
    intros k' i'. rewrite trig_at_alter. case_bool_decide as H; [|done]. injection H as -> ->.
    rewrite Ht. unfold trig_step. by destruct (Z.eqb_spec (active t) 0).
Qed.

Lemma check_all_run (cs : list (Z * trig_kind * nat)) w :
  NoDup ((fun c => (c.1.2, c.2)) <$> cs) ->
  Forall (fun c => is_Some (trig_at c.1.2 c.2 w)) cs ->
  exists w', seq_all ((fun c => check_trigger c.1.1 c.1.2 c.2) <$> cs) w = Done tt w' /\
    (glob w', pdata w', key w') = (glob w, pdata w, key w) /\
    forall k i, if bool_decide ((k, i) ∈ ((fun c => (c.1.2, c.2)) <$> cs))
      then exists t a, trig_at k i w = Some t /\ trig_at k i w' = Some (trig_step a t)
      else trig_at k i w' = trig_at k i w.
Proof.
  revert w. induction cs as [|[[reg k0] i0] cs IH]; intros w Hn Hs.
  { exists w. split; [done|]. split; [done|]. intros k i. by rewrite bool_decide_false by apply not_elem_of_nil. }
  cbn [fmap list_fmap seq_all fst snd] in *. apply list.NoDup_cons in Hn as [Hni Hn]. inv Hs.
  destruct H1 as [t0 Ht0]. cbn [fst snd] in Ht0.
  destruct (check_trigger_run reg k0 i0 w t0 Ht0) as (a & w1 & E1 & G1 & T1).
  rewrite (run_bind _ _ _ _ _ E1).
  destruct (IH w1 Hn) as (w' & E & G & T).
  { eapply list.Forall_impl; [exact H2|]. intros [[r k] i] [t Ht]. cbn [fst snd] in *. rewrite T1.
    case_bool_decide; eauto. }
  exists w'. split; [done|]. split; [congruence|]. intros k i. specialize (T k i).
  destruct (decide ((k, i) = (k0, i0))) as [[= -> ->]|Hne].
  - rewrite bool_decide_false in T by done. rewrite bool_decide_true by apply list_elem_of_here.
    exists t0, a. split; [done|]. rewrite T, T1. by rewrite bool_decide_true.
  - rewrite T1, (bool_decide_false ((k, i) = (k0, i0))) in T by done.
    case_bool_decide as H.
    + rewrite bool_decide_true by (by apply list_elem_of_further). done.
    + rewrite bool_decide_false; [done|]. intros [?|?]%elem_of_cons; congruence.
Qed.
End Poll.

(** [CheckforTriggers] polls each of the twenty triggers exactly once:
    from any state with four triggers of each kind it returns normally, every
    trigger has made one [trig_step], and nothing else of the program's state
    has changed. *)
Theorem CheckforTriggers_steps {env : Env} w :
  (forall k, length (triggers_of k (snapshot_trig (snap w))) = 4%nat) ->
  exists w', CheckforTriggers w = Done tt w' /\
    (glob w', pdata w', key w') = (glob w, pdata w, key w) /\
    forall k i, (i < 4)%nat ->
      exists t a, trig_at k i w = Some t /\ trig_at k i w' = Some (trig_step a t).
Proof.
  intros Hlen. unfold CheckforTriggers.
  destruct (check_all_run trigger_regs w) as (w' & E & G & T).
  - by_compute.
  - assert (Forall (fun c => (c.2 < 4)%nat) trigger_regs) as F by by_compute.
    eapply list.Forall_impl; [exact F|]. intros c Hc. apply lookup_lt_is_Some. by rewrite Hlen.
  - exists w'. split; [done|]. split; [done|]. intros k i Hi. specialize (T k i).
    rewrite bool_decide_true in T; [done|].
    destruct k, i as [|[|[|[|i]]]]; try lia; by_compute.
Qed.

Lemma CheckforTriggers_steps_witness :
  exists w', CheckforTriggers (env := sim) sim_world = Done tt w' /\
    exists t a, trig_at Inj 3 sim_world = Some t /\ trig_at Inj 3 w' = Some (trig_step a t).
Proof.
  destruct (CheckforTriggers_steps (env := sim) sim_world) as (w' & E & _ & T);
    [intros []; reflexivity|].
  exists w'. split; [exact E|]. apply T. lia.
Defined.

(** ** Event-receiver triggers *)

(** A latched event-receiver trigger stays latched at its address. *)
Definition evr_latched (w w' : world) : Prop :=
  forall i t, trig_at Evr i w = Some t -> active t = 1 ->
    exists t', trig_at Evr i w' = Some t' /\ active t' = 1 /\ addr t' = addr t.

#[export] Instance evr_latched_order : WorldOrder evr_latched.
Proof.
  split.
  - intros w i t H1 H2. by exists t.
  - intros a b c H1 H2 i t Ht Ha. destruct (H1 i t Ht Ha) as (t1 & Ht1 & Ha1 & E1).
    destruct (H2 i t1 Ht1 Ha1) as (t2 & Ht2 & Ha2 & E2). exists t2. by rewrite E2, E1.
Qed.

Lemma evr_latched_keeps w w' : keeps (fun w => evr (snapshot_trig (snap w))) w w' -> evr_latched w w'.
Proof. intros H i t Ht Ha. exists t. unfold trig_at in *. cbn in *. by rewrite H. Qed.

Section Evr.
Context {env : Env} (send : Z -> Z -> list Z -> M unit) `{!SenderOk send}.

Ltac evr_side := apply evr_latched_keeps; reflexivity.

Lemma evr_upd_other k i f : k <> Evr -> respects evr_latched (upd_trig k i f).
Proof.
  intros Hk w. apply evr_latched_keeps. unfold keeps, upd_trig. cbn. by destruct k.
Qed.

Lemma evr_send i l b : respects evr_latched (send i l b).
Proof.
  intros w. apply evr_latched_keeps. pose proof (send_keeps i l b w) as H. unfold keeps in *.
  by injection H as _ _ ->.
Qed.

Lemma evr_load_words a offs : respects evr_latched (load_words a offs).
Proof. revert a. induction offs; intros ?; cbn [load_words]; respects_tac evr_side. Qed.
#[local] Hint Resolve evr_load_words evr_send : respects.

Lemma evr_copy_loop fuel c b d n i : respects evr_latched (copy_loop fuel c b d n i).
Proof.
  revert i. induction fuel as [|fuel IH]; intros i; cbn [copy_loop]; unfold copy_sample; respects_tac evr_side.
Qed.
#[local] Hint Resolve evr_copy_loop : respects.

Lemma evr_ReadDMABuf t : respects evr_latched (ReadDMABuf t).
Proof. unfold ReadDMABuf, CopyDataChan. respects_tac evr_side. Qed.
#[local] Hint Resolve evr_ReadDMABuf : respects.

Lemma evr_send_if_ready k i : k <> Evr -> respects evr_latched (send_if_ready send k i).
Proof.
  intros Hk. pose proof (evr_upd_other k i) as Hu. unfold send_if_ready, SendWfmData, get_trig.
  respects_tac evr_side; auto. apply respects_modify. intros w'. apply evr_latched_keeps.
  unfold keeps. by destruct k.
Qed.

Lemma evr_check reg k i : respects evr_latched (check_trigger reg k i).
Proof.
  intros w. destruct (trig_at k i w) as [t|] eqn:Ht.
  - destruct (check_trigger_run reg k i w t Ht) as (a & w' & E & _ & T). rewrite E. cbn [final].
    intros j tj Hj Ha. rewrite T. case_bool_decide as H; [|by exists tj].
    injection H as <- ->. rewrite Hj in Ht. injection Ht as ->.
    eexists. split; [done|]. rewrite trig_step_latched by done. by destruct (_ <? _).
  - unfold check_trigger, get_trig. rewrite bind_assoc, run_gets. fold (trig_at k i w). rewrite Ht.
    apply wo_refl.
Qed.

Lemma evr_stats chans : respects evr_latched (snap_stats chans).
Proof.
  induction chans; cbn [snap_stats]; unfold snap_trig_data, get_trig; respects_tac evr_side.
Qed.
#[local] Hint Resolve evr_stats : respects.

Lemma evr_snapshot_process : respects evr_latched (snapshot_process send).
Proof.
  unfold snapshot_process. apply respects_bind; [exact _| |intros _; apply respects_bind; [exact _| |intros _]].
  - apply respects_seq_all; [exact _|]. apply list.Forall_fmap, list.Forall_true. intros c. apply evr_check.
  - apply respects_seq_all; [exact _|]. apply list.Forall_fmap, list.Forall_true. intros i. cbn.
    repeat (apply respects_bind; [exact _|by apply evr_send_if_ready|intros _]). by apply evr_send_if_ready.
  - unfold SendSnapShotStats. respects_tac evr_side.
Qed.
End Evr.

Fixpoint times (n : nat) (m : M unit) : M unit :=
  match n with O => ret tt | S n => m ;; times n m end.

(** Event-receiver triggers are one-shot: once latched, such a trigger
    stays active at the same address through any number of calls of
    [snapshot_process], whatever the hardware, the memory and the network do;
    no later event is ever latched (their waveforms are never sent, so
    nothing resets them). *)
Theorem evr_trigger_never_rearmed {env : Env} send `{!SenderOk send} n i t w :
  trig_at Evr i w = Some t -> active t = 1 ->
  exists t', trig_at Evr i (final (times n (snapshot_process send) w)) = Some t' /\
             active t' = 1 /\ addr t' = addr t.
Proof.
  assert (respects evr_latched (times n (snapshot_process send))) as H.
  { induction n as [|n IH]; cbn [times]; [apply respects_ret; exact _|].
    apply respects_bind; [exact _|by apply evr_snapshot_process|intros _; exact IH]. }
  intros Ht Ha. exact (H w i t Ht Ha).
Qed.

Definition evr_world : world :=
  set_snap (Snapshots (with_triggers Evr [Trigger 5 5 0 0 1 0 0 MSGEVRCH1 1 0] zero_triggers)
    [] [] [] [] []) sim_world.

Lemma evr_trigger_never_rearmed_witness :
  exists t', trig_at Evr 0 (final (times 3 (snapshot_process (env := sim) no_send) evr_world)) = Some t' /\
             active t' = 1 /\ addr t' = 5.
Proof.
  apply (evr_trigger_never_rearmed (env := sim) no_send 3 0 (Trigger 5 5 0 0 1 0 0 MSGEVRCH1 1 0));
    reflexivity.
Defined.

(** ** The server's invariant *)

Section Bystander.
Context {env : Env} (send : Z -> Z -> list Z -> M unit) `{!SenderOk send}.
Abbreviation inv m := (triple server_inv m (fun _ => server_inv) safe).

Ltac by_side := split; [reflexivity|first [by apply emits_push | by exists []]].

Lemma by_upd k i f : bystander (upd_trig k i f).
Proof. intros w. by_side. Qed.
#[local] Hint Resolve by_upd : respects.

Lemma by_load_words a offs : bystander (load_words a offs).
Proof. unfold bystander. revert a. induction offs; intros ?; cbn [load_words]; respects_tac by_side. Qed.

Lemma by_copy_loop fuel c b d n i : bystander (copy_loop fuel c b d n i).
Proof.
  pose proof by_load_words. unfold bystander in *. revert i.
  induction fuel as [|fuel IH]; intros i; cbn [copy_loop]; unfold copy_sample; respects_tac by_side; auto.
Qed.

Lemma by_ReadDMABuf t : bystander (ReadDMABuf t).
Proof.
  pose proof by_copy_loop. unfold bystander, ReadDMABuf, CopyDataChan in *. respects_tac by_side; auto.
Qed.
#[local] Hint Resolve by_ReadDMABuf : respects.

Lemma inv_bind {A B} (m : M A) (k : A -> M B) :
  bystander m -> (forall a, inv (k a)) -> inv (bind m k).
Proof. intros H1 H2. eapply triple_bind; [by apply bystander_inv|exact H2]. Qed.

Lemma inv_seq ms : Forall (fun m => inv m) ms -> inv (seq_all ms).
Proof.
  induction 1 as [|m ms Hm _ IH]; cbn [seq_all]; [by intros w H|].
  eapply triple_bind; [exact Hm|intros ?; exact IH].
Qed.

Lemma inv_SendWfmData k i : inv (SendWfmData send k i).
Proof.
  unfold SendWfmData, get_trig.
  apply inv_bind; [apply by_upd|intros _]. apply inv_bind; [unfold bystander; respects_tac by_side|intros t].
  apply inv_bind; [unfold bystander; respects_tac by_side|intros bufs].
  apply inv_bind; [unfold bystander; respects_tac by_side|intros msg].
  apply inv_bind; [apply by_ReadDMABuf|intros words]. destruct (_ <? _)%nat.
  { intros w Hw. apply Hw. }
  apply inv_bind; [apply by_upd|intros _]. apply inv_bind; [unfold bystander; respects_tac by_side|intros _].
  apply send_inv.
Qed.

Lemma inv_snapshot_process : inv (snapshot_process send).
Proof.
  unfold snapshot_process. apply inv_bind; [|intros _; eapply triple_bind; [|intros ?]].
  - apply respects_seq_all; [exact _|]. apply list.Forall_fmap, list.Forall_true. intros c.
    unfold compose, check_trigger, get_trig. respects_tac by_side; apply by_upd.
  - apply inv_seq. apply list.Forall_fmap, list.Forall_true. intros i. cbn.
    assert (forall k, inv (send_if_ready send k i)) as H.
    { intros k. unfold send_if_ready, get_trig. apply inv_bind; [unfold bystander; respects_tac by_side|].
      intros t. apply triple_when; [intros _; apply inv_SendWfmData|done]. }
    do 3 (eapply triple_bind; [apply H|intros ?]). apply H.
  - unfold SendSnapShotStats. apply inv_bind; [unfold bystander; respects_tac by_side|intros ?].
    apply inv_bind; [unfold bystander; respects_tac by_side|intros b].
    apply inv_bind; [|intros rows].
    { unfold bystander. generalize [0%nat; 1%nat; 2%nat; 3%nat]. intros l. induction l as [|i l IH]; cbn [snap_stats];
        unfold snap_trig_data, get_trig; respects_tac by_side; auto. }
    apply inv_bind; [unfold bystander; respects_tac by_side|intros msg].
    apply inv_bind; [unfold bystander; respects_tac by_side|intros _]. apply send_inv.
Qed.
End Bystander.

(** ** The waveform message *)

Lemma length_concat_const {A B} (f : A -> list B) (l : list A) n :
  (forall x, length (f x) = n) -> length (concat (f <$> l)) = (n * length l)%nat.
Proof.
  intros H. induction l as [|x l IH]; [by rewrite Nat.mul_0_r|].
  rewrite fmap_cons. cbn [concat length]. rewrite length_app, IH, H. lia.
Qed.

Lemma length_ring_message w mem s base k pre post :
  length (ring_message w mem s base k pre post) = (10 * Z.to_nat (pre + post))%nat.
Proof.
  unfold ring_message. rewrite (length_concat_const _ _ 10) by done. by rewrite length_seqZ.
Qed.

Lemma take_bytes_of_words n ws : take (4 * n) (bytes_of_words ws) = bytes_of_words (take n ws).
Proof.
  revert n. induction ws as [|w ws IH]; intros [|n]; try done.
  change (bytes_of_words (w :: ws)) with (to_le 4 w ++ bytes_of_words ws).
  cbn [take]. change (bytes_of_words (w :: take n ws)) with (to_le 4 w ++ bytes_of_words (take n ws)).
  replace (4 * S n)%nat with (length (to_le 4 w) + 4 * n)%nat by (rewrite length_to_le; lia).
  by rewrite take_app_add, IH.
Qed.

(** C10. The waveform message.  When a trigger of a sent kind is ready and its
    buffer is large enough, [SendWfmData] hands to the sender, once, its
    message id and 40000 bytes for an injection trigger, 4000000 bytes
    otherwise; those bytes are the ring samples around the trigger, as 32-bit
    words in network order; the trigger is idle again and its send counter
    has advanced.  (The buffers are 4000000 bytes: 100000 samples fit.) *)
Theorem SendWfmData_message {env : Env} send k i w t msg mem s base pos :
  trig_at k i w = Some t -> bufs_of k (snap w) !! i = Some msg -> k <> Evr ->
  ring_stable w mem -> chan_base (channum t) = Some base ->
  scalefactors (glob w) !! sf_index (channum t) = Some s ->
  0 <= pos < RING -> addr t = BUFSTART + 160 * pos -> 0 <= pretrigpts t -> 0 <= posttrigpts t ->
  pretrigpts t + posttrigpts t <= RING ->
  40 * (pretrigpts t + posttrigpts t) <= Z.of_nat (length msg) ->
  wfm_len (msgID t) <= 40 * (pretrigpts t + posttrigpts t) ->
  exists w1 msg1,
    SendWfmData send k i w = send (msgID t) (wfm_len (msgID t)) msg1 w1 /\
    take (Z.to_nat (wfm_len (msgID t))) msg1 =
      bytes_of_words (htonl <$> take (Z.to_nat (wfm_len (msgID t) / 4))
        (ring_message w mem s base pos (pretrigpts t) (posttrigpts t))) /\
    length msg1 = length msg /\
    trig_at k i w1 = Some (Trigger (addr t) (addr_last t) (pretrigpts t) (posttrigpts t) 0
                       (postdlycnt t) 0 (msgID t) (channum t) (u32 (trigcnt t + 1))) /\
    key w1 = key w.
Proof.
  intros Ht Hb Hk Hm Hch Hs Hpos Ha Hp Hq Hle Hroom Hlen.
  set (w0 := final (upd_trig k i with_sent w)).
  assert (trig_at k i w0 = Some (with_sent t)) as Ht0.
  { unfold w0. by rewrite trig_at_alter, bool_decide_true, Ht. }
  assert (bufs_of k (snap w0) = bufs_of k (snap w)) as Hb0 by (by destruct k).
  assert (copying w0 w0) as Hc by (split; [done|by exists []]).
  destruct (wp_run _ _ _ (ReadDMABuf_spec w0 mem s (channum t) base Hm Hch Hs (with_sent t) pos w0
    eq_refl Hc Hpos Ha Hp Hq Hle)) as (words & w2 & E & [Hst _] & ->).
  set (words := ring_message w0 mem s base pos _ _) in *.
  change (ring_message w mem s base pos (pretrigpts t) (posttrigpts t)) with words.
  assert (length words = (10 * Z.to_nat (pretrigpts t + posttrigpts t))%nat) as Hlw by apply length_ring_message.
  assert (snap w2 = snap w0 /\ key w2 = key w0) as [Hsn Hky] by (injection Hst; auto).
  set (msg0 := overwrite (bytes_of_words words) msg).
  assert (0 <= wfm_len (msgID t) /\ wfm_len (msgID t) = 4 * (wfm_len (msgID t) / 4)) as [Hl0 Hl4]
    by (unfold wfm_len; destruct (is_inj_id _); done).
  assert (length msg0 = length msg) as Hlm by (apply length_overwrite; rewrite length_bytes_of_words; lia).
  unfold SendWfmData. rewrite (run_bind (upd_trig k i with_sent) _ w tt w0) by done.
  unfold get_trig. rewrite bind_assoc, run_gets. fold (trig_at k i w0). rewrite Ht0, run_some, run_gets.
  rewrite Hb0, Hb, run_some, (run_bind _ _ _ _ _ E).
  destruct (Nat.ltb_spec (length msg) (4 * length words)); [lia|].
  fold msg0. change (msgID (with_sent t)) with (msgID t).
  set (w3 := final (upd_trig k i with_counted w2)).
  rewrite (run_bind (upd_trig k i with_counted) _ w2 tt w3) by done.
  set (msg1 := hton_prefix (wfm_len (msgID t)) msg0).
  eexists _, msg1. split; [reflexivity|]. split_and!.
  - unfold msg1, hton_prefix. set (n := Z.to_nat (wfm_len (msgID t) / 4)).
    replace (Z.to_nat (wfm_len (msgID t))) with (4 * n)%nat by (unfold n; lia).
    rewrite take_app_length' by (rewrite length_hton_conv, length_take; unfold n in *; lia).
    unfold msg0, overwrite. rewrite take_app_le by (rewrite length_bytes_of_words; unfold n; lia).
    by rewrite take_bytes_of_words, hton_conv_bytes_of_words.
  - unfold msg1, hton_prefix. rewrite length_app, length_hton_conv, length_take, length_drop. lia.
  - change (trig_at k i _) with (trig_at k i (set_snap (with_bufs k (<[i:=msg1]> (bufs_of k (snap w3))) (snap w3)) w3)).
    assert (forall b w, trig_at k i (set_snap (with_bufs k b (snap w)) w) = trig_at k i w) as -> by (by destruct k).
    unfold w3. rewrite trig_at_alter, bool_decide_true by done.
    unfold trig_at. rewrite Hsn. fold (trig_at k i w0). by rewrite Ht0.
  - cbn. by rewrite Hky.
Qed.

(** The window of [ring_trigger], as an injection trigger of 1000 samples. *)
Definition inj_trigger : TriggerInfo := Trigger (BUFSTART + 160) 0 0 8000 1 8 1 MSGINJCH1 1 0.
Definition inj_world : world :=
  set_snap (Snapshots (with_triggers Inj [inj_trigger] zero_triggers) [] [] []
    [replicate (Z.to_nat 320000) 0] []) sim_world.

Lemma SendWfmData_message_witness :
  exists w1 msg1,
    SendWfmData (env := sim) no_send Inj 0 inj_world = no_send MSGINJCH1 40000 msg1 w1 /\
    trig_at Inj 0 w1 = Some (with_counted (with_sent inj_trigger)).
Proof.
  destruct (SendWfmData_message (env := sim) no_send Inj 0 inj_world inj_trigger
    (replicate (Z.to_nat 320000) 0) (fun a => a) sim_sf 2 1) as (w1 & m & E & _ & _ & T & _);
    [reflexivity|reflexivity|discriminate| |reflexivity|reflexivity|..].
  - intros es a _ Ha. exact (u32_small a Ha).
  - change RING with 200000. lia.
  - reflexivity.
  - cbn. lia.
  - cbn. lia.
  - change RING with 200000. cbn. lia.
  - rewrite length_replicate. cbn [pretrigpts posttrigpts inj_trigger]. lia.
  - change (wfm_len (msgID inj_trigger)) with 40000. cbn [pretrigpts posttrigpts inj_trigger]. lia.
  - exists w1, m. split; [exact E|exact T].
Defined.
