(* ===== verification/SaData.v ===== *)
(** * 10 Hz data ([sadata.c])

    The slow-acquisition message: every reading, setting and scale factor of
    the four channels, converted to engineering units and sent as message 31.
    A message is a list of 32-bit words in the order of [struct SAdataMsg];
    the reads are in the order of the code. *)

From Stdlib Require Import ZArith Lia Bool String Floats.SpecFloat.
From stdpp Require Import base list numbers strings gmap.
From S2P Require Import Prelude CFloat Registers World Logic Sim Scaling Listener.

#[local] Open Scope Z_scope.
#[local] Open Scope flt_scope.

(** ** The layout of the message ([sadata.h]) *)

Inductive ctype := Cfloat | Cu32 | Cs32.

(** A member, and its number of words when it is an array. *)
Record member := Field { member_type : ctype; member_name : string; member_words : nat }.

Definition SAdataChan : list member :=
  [Field Cfloat "dcct1" 1; Field Cfloat "dcct1_offset" 1; Field Cfloat "dcct1_gain" 1;
   Field Cfloat "dcct2" 1; Field Cfloat "dcct2_offset" 1; Field Cfloat "dcct2_gain" 1;
   Field Cfloat "dacmon" 1; Field Cfloat "dacmon_offset" 1; Field Cfloat "dacmon_gain" 1;
   Field Cfloat "volt" 1; Field Cfloat "volt_offset" 1; Field Cfloat "volt_gain" 1; Field Cfloat "gnd" 1;
   Field Cfloat "gnd_offset" 1; Field Cfloat "gnd_gain" 1; Field Cfloat "spare" 1;
   Field Cfloat "spare_offset" 1; Field Cfloat "spare_gain" 1; Field Cfloat "reg" 1;
   Field Cfloat "reg_offset" 1; Field Cfloat "reg_gain" 1; Field Cfloat "error" 1;
   Field Cfloat "error_offset" 1; Field Cfloat "error_gain" 1; Field Cfloat "dac_setpt" 1;
   Field Cfloat "dac_setpt_offset" 1; Field Cfloat "dac_setpt_gain" 1; Field Cs32 "dac_rampactive" 1;
   Field Cfloat "ovc1_thresh" 1; Field Cfloat "ovc2_thresh" 1; Field Cfloat "ovv_thresh" 1;
   Field Cfloat "err1_thresh" 1; Field Cfloat "err2_thresh" 1; Field Cfloat "ignd_thresh" 1;
   Field Cfloat "ovc1_cntlim" 1; Field Cfloat "ovc2_cntlim" 1; Field Cfloat "ovv_cntlim" 1;
   Field Cfloat "err1_cntlim" 1; Field Cfloat "err2_cntlim" 1; Field Cfloat "ignd_cntlim" 1;
   Field Cfloat "dcct_cntlim" 1; Field Cfloat "flt1_cntlim" 1; Field Cfloat "flt2_cntlim" 1;
   Field Cfloat "flt3_cntlim" 1; Field Cfloat "on_cntlim" 1; Field Cfloat "heartbeat_cntlim" 1;
   Field Cu32 "fault_clear" 1; Field Cu32 "fault_mask" 1; Field Cu32 "digout_on1" 1;
   Field Cu32 "digout_on2" 1; Field Cu32 "digout_reset" 1; Field Cu32 "digout_spare" 1;
   Field Cu32 "digout_park" 1; Field Cu32 "digin" 1; Field Cu32 "faults_live" 1;
   Field Cu32 "faults_latched" 1; Field Cfloat "sf_ampspersec" 1; Field Cfloat "sf_dac_dccts" 1;
   Field Cfloat "sf_vout" 1; Field Cfloat "sf_ignd" 1; Field Cfloat "sf_spare" 1;
   Field Cfloat "sf_regulator" 1; Field Cfloat "sf_error" 1; Field Cs32 "dac_setpt_raw" 1;
   Field Cfloat "fofb_dacsetpt" 1; Field Cu32 "rsvd" 10].

(** [SAdataMsg] up to its last member, [struct SAdataChan ps[4]]. *)
Definition SAdataMsg : list member :=
  [Field Cu32 "numchans" 1; Field Cu32 "evr_ts_ns" 1; Field Cu32 "evr_ts_s" 1; Field Cu32 "resolution" 1;
   Field Cu32 "git_shasum" 1; Field Cfloat "die_temp" 1; Field Cfloat "vccint" 1;
   Field Cfloat "vccaux" 1; Field Cu32 "bandwidth" 1; Field Cu32 "polarity" 1;
   Field Cu32 "fofb_pktsrcvd" 1; Field Cu32 "fofb_command" 1; Field Cu32 "fofb_nonce" 1;
   Field Cfloat "tenkhz_freq" 1; Field Cfloat "onehz_freq" 1; Field Cu32 "ch34_dualmode" 1;
   Field Cu32 "main_dipole_mode" 1; Field Cu32 "rsvd" 8].

(** The size of a structure in words: every member is aligned. *)
Definition struct_words (l : list member) : nat := sum_list (member_words <$> l).

(** The offset of a member, in words. *)
Fixpoint offset (l : list member) (name : string) : option nat :=
  match l with
  | [] => None
  | m :: l =>
      if String.eqb (member_name m) name then Some 0%nat
      else Nat.add (member_words m) <$> offset l name
  end.

(** The word of a member of the structure that starts at word [start]. *)
Definition member_at (l : list member) (start : nat) (ws : list Z) (name : string) : option Z :=
  offset l name ≫= fun n => ws !! (start + n)%nat.

(** The structure of channel [chan + 1]. *)
Definition ps_start (chan : Z) : nat := struct_words SAdataMsg + struct_words SAdataChan * Z.to_nat chan.

(** The byte offsets that the header documents. *)
Lemma documented_offsets :
  (fun m => Nat.mul 4 <$> offset SAdataMsg (member_name m)) <$> take 17 SAdataMsg =
    Some <$> [0; 4; 8; 12; 16; 20; 24; 28; 32; 36; 40; 44; 48; 52; 56; 60; 64]%nat /\
  (4 * ps_start 0 = 100)%nat.
Proof. split; reflexivity. Qed.

Section SaData.
Context {env : Env}.

(** Uninitialised 32-bit words of a local structure. *)
Definition uninit_words (n : nat) : M (list Z) :=
  let! b := uninit (4 * n) in
  ret (words_of_bytes b).

Definition dacbits_to_volts : M spec_float :=
  gets (fun w => f32_of_bits (CONVDACBITSTOVOLTS (glob w))).

(** The shapes of the assignments to the fields of [sadata.ps[chan]];
    [sf] is the bit pattern of the scale factor they use. *)
Definition word (base reg : Z) : M Z := Xil_In32 (base + reg).

Definition accum_dac (base ave_mode reg sf : Z) : M Z :=
  let! v := ReadAccumSA (base + reg) ave_mode in
  let! d2v := dacbits_to_volts in
  ret (bits_of_f32 (v *s d2v *s f32_of_bits sf)).

Definition accum_16 (base ave_mode reg sf : Z) : M Z :=
  let! v := ReadAccumSA (base + reg) ave_mode in
  ret (bits_of_f32 (to_float (to_double v *d CONV16BITSTOVOLTS *d to_double (f32_of_bits sf)))).

Definition value_dac (base reg sf : Z) : M Z :=
  let! v := Xil_In32 (base + reg) in
  let! d2v := dacbits_to_volts in
  ret (bits_of_f32 (fofZ single (s32 v) *s d2v *s f32_of_bits sf)).

Definition value_16 (base reg sf : Z) : M Z :=
  let! v := Xil_In32 (base + reg) in
  ret (bits_of_f32 (to_float (fofZ double (s32 v) *d CONV16BITSTOVOLTS *d to_double (f32_of_bits sf)))).

Definition gain (base reg : Z) : M Z :=
  let! v := Xil_In32 (base + reg) in
  ret (bits_of_f32 (to_float (fofZ double (s32 v) /d GAIN20BITFRACT))).

Definition thresh_dac (base reg sf : Z) : M Z :=
  let! v := Xil_In32 (base + reg) in
  let! d2v := dacbits_to_volts in
  ret (bits_of_f32 (to_float (to_double (fofZ single (s32 v) *s d2v)
                              *d fabs (to_double (f32_of_bits sf))))).

Definition thresh_16 (base reg sf : Z) : M Z :=
  let! v := Xil_In32 (base + reg) in
  ret (bits_of_f32 (to_float (fofZ double v *d CONV16BITSTOVOLTS *d fabs (to_double (f32_of_bits sf))))).

Definition seconds (base reg : Z) : M Z :=
  let! v := Xil_In32 (base + reg) in
  ret (bits_of_f32 (to_float (fofZ double v /d SAMPLERATE))).

(** [1 / ((float)Xil_In32(..) * 10e-9)]. *)
Definition frequency (reg : Z) : M Z :=
  let! v := Xil_In32 (AXI + reg) in
  ret (bits_of_f32 (to_float (fofZ double 1 /d (to_double (fofZ single v) *d flit double 1 100000000)))).

(** The body of the loop over the channels, for channel number [chan + 1];
    the words of [struct SAdataChan]. *)
Definition sadata_chan (chan : Z) : M (list Z) :=
  let base := u32 (AXI + (chan + 1) * CHBASEADDR) in
  let! ave_mode := Xil_In32 (base + AVEMODE_REG) in
  let! s := get_sf (chan + 1) in
  let! sa_dcct1 := accum_dac base ave_mode DCCT1_REG (dac_dccts s) in
  let! sa_dcct1_offset := value_dac base DCCT1_OFFSET_REG (dac_dccts s) in
  let! sa_dcct1_gain := gain base DCCT1_GAIN_REG in
  let! sa_dcct2 := accum_dac base ave_mode DCCT2_REG (dac_dccts s) in
  let! sa_dcct2_offset := value_dac base DCCT2_OFFSET_REG (dac_dccts s) in
  let! sa_dcct2_gain := gain base DCCT2_GAIN_REG in
  let! sa_dacmon := accum_16 base ave_mode DACMON_REG (dac_dccts s) in
  let! sa_dacmon_offset := value_16 base DACMON_OFFSET_REG (dac_dccts s) in
  let! sa_dacmon_gain := gain base DACMON_GAIN_REG in
  let! sa_volt := accum_16 base ave_mode VOLT_REG (vout s) in
  let! sa_volt_offset := value_16 base VOLT_OFFSET_REG (vout s) in
  let! sa_volt_gain := gain base VOLT_GAIN_REG in
  let! sa_gnd := accum_16 base ave_mode GND_REG (ignd s) in
  let! sa_gnd_offset := value_16 base GND_OFFSET_REG (ignd s) in
  let! sa_gnd_gain := gain base GND_GAIN_REG in
  let! sa_spare := accum_16 base ave_mode SPARE_REG (spare s) in
  let! sa_spare_offset := value_16 base SPARE_OFFSET_REG (spare s) in
  let! sa_spare_gain := gain base SPARE_GAIN_REG in
  let! sa_reg := accum_16 base ave_mode REG_REG (regulator s) in
  let! sa_reg_offset := value_16 base REG_OFFSET_REG (regulator s) in
  let! sa_reg_gain := gain base REG_GAIN_REG in
  let! sa_error := accum_16 base ave_mode ERR_REG (error s) in
  let! sa_error_offset := value_16 base ERR_OFFSET_REG (error s) in
  let! sa_error_gain := gain base ERR_GAIN_REG in
  let! sa_dac_setpt := value_dac base DAC_CURRSETPT_REG (dac_dccts s) in
  let! sa_dac_setpt_raw := word base DAC_CURRSETPT_REG in
  let! sa_dac_setpt_offset := value_dac base DAC_SETPT_OFFSET_REG (dac_dccts s) in
  let! sa_dac_setpt_gain := gain base DAC_SETPT_GAIN_REG in
  let! sa_dac_rampactive := word base DAC_RAMPACTIVE_REG in
  let! sa_ovc1_thresh := thresh_dac base OVC1_THRESH_REG (dac_dccts s) in
  let! sa_ovc2_thresh := thresh_dac base OVC2_THRESH_REG (dac_dccts s) in
  let! sa_ovv_thresh := thresh_16 base OVV_THRESH_REG (vout s) in
  let! sa_err1_thresh := thresh_16 base ERR1_THRESH_REG (error s) in
  let! sa_err2_thresh := thresh_16 base ERR2_THRESH_REG (error s) in
  let! sa_ignd_thresh := thresh_16 base IGND_THRESH_REG (ignd s) in
  let! sa_ovc1_cntlim := seconds base OVC1_CNTLIM_REG in
  let! sa_ovc2_cntlim := seconds base OVC2_CNTLIM_REG in
  let! sa_ovv_cntlim := seconds base OVV_CNTLIM_REG in
  let! sa_err1_cntlim := seconds base ERR1_CNTLIM_REG in
  let! sa_err2_cntlim := seconds base ERR2_CNTLIM_REG in
  let! sa_ignd_cntlim := seconds base IGND_CNTLIM_REG in
  let! sa_dcct_cntlim := seconds base DCCT_CNTLIM_REG in
  let! sa_flt1_cntlim := seconds base FLT1_CNTLIM_REG in
  let! sa_flt2_cntlim := seconds base FLT2_CNTLIM_REG in
  let! sa_flt3_cntlim := seconds base FLT3_CNTLIM_REG in
  let! sa_on_cntlim := seconds base ON_CNTLIM_REG in
  let! sa_heartbeat_cntlim := seconds base HEARTBEAT_CNTLIM_REG in
  let! sa_fault_clear := word base FAULT_CLEAR_REG in
  let! sa_fault_mask := word base FAULT_MASK_REG in
  let! sa_digout_on1 := word base DIGOUT_ON1_REG in
  let! sa_digout_on2 := word base DIGOUT_ON1_REG in
  let! sa_digout_reset := word base DIGOUT_ON1_REG in
  let! sa_digout_spare := word base DIGOUT_RESET_REG in
  let! sa_digout_park := word base DIGOUT_PARK_REG in
  let! sa_digin := word base DIGIN_REG in
  let! sa_faults_live := word base FAULTS_LIVE_REG in
  let! sa_faults_latched := word base FAULTS_LAT_REG in
  let sa_sf_ampspersec := ampspersec s in
  let sa_sf_dac_dccts := dac_dccts s in
  let sa_sf_vout := vout s in
  let sa_sf_ignd := ignd s in
  let sa_sf_spare := spare s in
  let sa_sf_regulator := regulator s in
  let sa_sf_error := error s in
  let! sa_fofb_dacsetpt := word base FOFB_DACSETPT_REG in
  let! rsvd := uninit_words 10 in
  ret ([sa_dcct1; sa_dcct1_offset; sa_dcct1_gain; sa_dcct2; sa_dcct2_offset; sa_dcct2_gain;
        sa_dacmon; sa_dacmon_offset; sa_dacmon_gain; sa_volt; sa_volt_offset; sa_volt_gain;
        sa_gnd; sa_gnd_offset; sa_gnd_gain; sa_spare; sa_spare_offset; sa_spare_gain;
        sa_reg; sa_reg_offset; sa_reg_gain; sa_error; sa_error_offset; sa_error_gain;
        sa_dac_setpt; sa_dac_setpt_offset; sa_dac_setpt_gain; sa_dac_rampactive;
        sa_ovc1_thresh; sa_ovc2_thresh; sa_ovv_thresh; sa_err1_thresh; sa_err2_thresh;
        sa_ignd_thresh; sa_ovc1_cntlim; sa_ovc2_cntlim; sa_ovv_cntlim; sa_err1_cntlim;
        sa_err2_cntlim; sa_ignd_cntlim; sa_dcct_cntlim; sa_flt1_cntlim; sa_flt2_cntlim;
        sa_flt3_cntlim; sa_on_cntlim; sa_heartbeat_cntlim; sa_fault_clear; sa_fault_mask;
        sa_digout_on1; sa_digout_on2; sa_digout_reset; sa_digout_spare; sa_digout_park;
        sa_digin; sa_faults_live; sa_faults_latched; sa_sf_ampspersec; sa_sf_dac_dccts;
        sa_sf_vout; sa_sf_ignd; sa_sf_spare; sa_sf_regulator; sa_sf_error; sa_dac_setpt_raw;
        sa_fofb_dacsetpt] ++ rsvd).

(** [sadata_send] up to its [memcpy]: the words of the structure. *)
Definition sadata_gather : M (list Z) :=
  Xil_Out32 (AXI + TENHZ_DATASEND_REG) 1 ;;
  Xil_Out32 (AXI + TENHZ_DATASEND_REG) 0 ;;
  let! resolution := Xil_In32 (AXI + RESOLUTION_REG) in
  let! numchans := Xil_In32 (AXI + NUMCHANS_REG) in
  let! polarity := Xil_In32 (AXI + POLARITY_REG) in
  let! bandwidth := Xil_In32 (AXI + BANDWIDTH_REG) in
  let! ch34_dualmode := Xil_In32 (AXI + CH34_DUALMODE_REG) in
  let! main_dipole_mode := Xil_In32 (AXI + MAIN_DIPOLE_MODE_REG) in
  let! git_shasum := Xil_In32 (AXI + PRJ_SHASUM) in
  let! evr_ts_s := Xil_In32 (AXI + EVR_TS_S_REG) in
  let! evr_ts_ns := Xil_In32 (AXI + EVR_TS_NS_REG) in
  let! fofb_pktsrcvd := Xil_In32 (AXI + FOFB_PACKETS_RCVD_REG) in
  let! fofb_command := Xil_In32 (AXI + FOFB_COMMAND_REG) in
  let! fofb_nonce := Xil_In32 (AXI + FOFB_NONCE_REG) in
  let! tenkhz_freq := frequency TENKHZ_FREQ_REG in
  let! onehz_freq := frequency ONEHZ_FREQ_REG in
  let! sensors := uninit_words 3 in     (* die_temp, vccint, vccaux *)
  let! rsvd := uninit_words 8 in
  let! ps0 := sadata_chan 0 in
  let! ps1 := sadata_chan 1 in
  let! ps2 := sadata_chan 2 in
  let! ps3 := sadata_chan 3 in
  ret ([numchans; evr_ts_ns; evr_ts_s; resolution; git_shasum] ++ sensors ++
    [bandwidth; polarity; fofb_pktsrcvd; fofb_command; fofb_nonce; tenkhz_freq; onehz_freq;
     ch34_dualmode; main_dipole_mode] ++ rsvd ++ ps0 ++ ps1 ++ ps2 ++ ps3).

Definition sadata_send (psc_send : Z -> Z -> list Z -> M unit) : M unit :=
  let! sadata := sadata_gather in
  let! msg := gets (fun w => sadata_msg (pdata w)) in
  let msg := overwrite (hton_conv (bytes_of_words sadata)) msg in
  modify (fun w => let p := pdata w in
    set_pdata (PscData (last_fast p) (last_slow p) (bpc_enabled p) (bpc_msg p) msg) w) ;;
  psc_send 31 1400 msg.
End SaData.

(** ** What the message promises

    Where each word of the message comes from, in the order of the structures,
    and in which unit. *)

(** The sources of a word: a register as it is; the averaged reading of a
    20-bit or a 16-bit input, in amps or volts by a scale factor; an offset or
    a set point in the same units, as a signed value; a gain with 20 fractional
    bits; a threshold, of the absolute scale factor; a limit in samples, as
    seconds; a scale factor; a frequency from a period of 10 ns ticks. *)
Inductive source :=
| Copy (reg : Z)
| Reading20 (reg : Z) (sf : ScaleFactorType -> Z)
| Reading16 (reg : Z) (sf : ScaleFactorType -> Z)
| Value20 (reg : Z) (sf : ScaleFactorType -> Z)
| Value16 (reg : Z) (sf : ScaleFactorType -> Z)
| Gain (reg : Z)
| Thresh20 (reg : Z) (sf : ScaleFactorType -> Z)
| Thresh16 (reg : Z) (sf : ScaleFactorType -> Z)
| Seconds (reg : Z)
| Factor (sf : ScaleFactorType -> Z)
| Frequency (reg : Z).

(** Averaging sums 167 or 500 samples; for another mode the mean is a NaN. *)
Definition mean (ave_mode raw : Z) : spec_float :=
  match ave_mode with
  | 0 => fofZ single raw
  | 1 => to_float (fofZ double raw /d fofZ double 167)
  | 2 => to_float (fofZ double raw /d fofZ double 500)
  | _ => S754_nan
  end.

(** The word, as its bits: [rd] reads a register, [d2v] is the value of a DAC
    bit in volts, [s] the channel's scale factors. *)
Definition meaning (rd : Z -> Z) (d2v : spec_float) (ave_mode : Z) (s : ScaleFactorType) (src : source) : Z :=
  let f sf := f32_of_bits (sf s) in
  match src with
  | Copy r => rd r
  | Reading20 r sf => bits_of_f32 (mean ave_mode (s32 (rd r)) *s d2v *s f sf)
  | Reading16 r sf => bits_of_f32 (to_float (to_double (mean ave_mode (s32 (rd r))) *d CONV16BITSTOVOLTS *d to_double (f sf)))
  | Value20 r sf => bits_of_f32 (fofZ single (s32 (rd r)) *s d2v *s f sf)
  | Value16 r sf => bits_of_f32 (to_float (fofZ double (s32 (rd r)) *d CONV16BITSTOVOLTS *d to_double (f sf)))
  | Gain r => bits_of_f32 (to_float (fofZ double (s32 (rd r)) /d GAIN20BITFRACT))
  | Thresh20 r sf => bits_of_f32 (to_float (to_double (fofZ single (s32 (rd r)) *s d2v) *d fabs (to_double (f sf))))
  | Thresh16 r sf => bits_of_f32 (to_float (fofZ double (rd r) *d CONV16BITSTOVOLTS *d fabs (to_double (f sf))))
  | Seconds r => bits_of_f32 (to_float (fofZ double (rd r) /d SAMPLERATE))
  | Factor sf => sf s
  | Frequency r => bits_of_f32 (to_float (fofZ double 1 /d (to_double (fofZ single (rd r)) *d flit double 1 100000000)))
  end.

(** [struct SAdataChan], all of it but the reserved words; [digout_on2] and
    [digout_reset] come from the ON1 register and [digout_spare] from the
    reset register. *)
Definition chan_sources : list (string * source) :=
  [("dcct1"%string, Reading20 DCCT1_REG dac_dccts); ("dcct1_offset"%string, Value20 DCCT1_OFFSET_REG dac_dccts);
   ("dcct1_gain"%string, Gain DCCT1_GAIN_REG);
   ("dcct2"%string, Reading20 DCCT2_REG dac_dccts); ("dcct2_offset"%string, Value20 DCCT2_OFFSET_REG dac_dccts);
   ("dcct2_gain"%string, Gain DCCT2_GAIN_REG);
   ("dacmon"%string, Reading16 DACMON_REG dac_dccts); ("dacmon_offset"%string, Value16 DACMON_OFFSET_REG dac_dccts);
   ("dacmon_gain"%string, Gain DACMON_GAIN_REG);
   ("volt"%string, Reading16 VOLT_REG vout); ("volt_offset"%string, Value16 VOLT_OFFSET_REG vout);
   ("volt_gain"%string, Gain VOLT_GAIN_REG);
   ("gnd"%string, Reading16 GND_REG ignd); ("gnd_offset"%string, Value16 GND_OFFSET_REG ignd);
   ("gnd_gain"%string, Gain GND_GAIN_REG);
   ("spare"%string, Reading16 SPARE_REG spare); ("spare_offset"%string, Value16 SPARE_OFFSET_REG spare);
   ("spare_gain"%string, Gain SPARE_GAIN_REG);
   ("reg"%string, Reading16 REG_REG regulator); ("reg_offset"%string, Value16 REG_OFFSET_REG regulator);
   ("reg_gain"%string, Gain REG_GAIN_REG);
   ("error"%string, Reading16 ERR_REG error); ("error_offset"%string, Value16 ERR_OFFSET_REG error);
   ("error_gain"%string, Gain ERR_GAIN_REG);
   ("dac_setpt"%string, Value20 DAC_CURRSETPT_REG dac_dccts);
   ("dac_setpt_offset"%string, Value20 DAC_SETPT_OFFSET_REG dac_dccts); ("dac_setpt_gain"%string, Gain DAC_SETPT_GAIN_REG);
   ("dac_rampactive"%string, Copy DAC_RAMPACTIVE_REG);
   ("ovc1_thresh"%string, Thresh20 OVC1_THRESH_REG dac_dccts); ("ovc2_thresh"%string, Thresh20 OVC2_THRESH_REG dac_dccts);
   ("ovv_thresh"%string, Thresh16 OVV_THRESH_REG vout); ("err1_thresh"%string, Thresh16 ERR1_THRESH_REG error);
   ("err2_thresh"%string, Thresh16 ERR2_THRESH_REG error); ("ignd_thresh"%string, Thresh16 IGND_THRESH_REG ignd);
   ("ovc1_cntlim"%string, Seconds OVC1_CNTLIM_REG); ("ovc2_cntlim"%string, Seconds OVC2_CNTLIM_REG);
   ("ovv_cntlim"%string, Seconds OVV_CNTLIM_REG); ("err1_cntlim"%string, Seconds ERR1_CNTLIM_REG);
   ("err2_cntlim"%string, Seconds ERR2_CNTLIM_REG); ("ignd_cntlim"%string, Seconds IGND_CNTLIM_REG);
   ("dcct_cntlim"%string, Seconds DCCT_CNTLIM_REG); ("flt1_cntlim"%string, Seconds FLT1_CNTLIM_REG);
   ("flt2_cntlim"%string, Seconds FLT2_CNTLIM_REG); ("flt3_cntlim"%string, Seconds FLT3_CNTLIM_REG);
   ("on_cntlim"%string, Seconds ON_CNTLIM_REG); ("heartbeat_cntlim"%string, Seconds HEARTBEAT_CNTLIM_REG);
   ("fault_clear"%string, Copy FAULT_CLEAR_REG); ("fault_mask"%string, Copy FAULT_MASK_REG);
   ("digout_on1"%string, Copy DIGOUT_ON1_REG); ("digout_on2"%string, Copy DIGOUT_ON1_REG);
   ("digout_reset"%string, Copy DIGOUT_ON1_REG); ("digout_spare"%string, Copy DIGOUT_RESET_REG);
   ("digout_park"%string, Copy DIGOUT_PARK_REG); ("digin"%string, Copy DIGIN_REG);
   ("faults_live"%string, Copy FAULTS_LIVE_REG); ("faults_latched"%string, Copy FAULTS_LAT_REG);
   ("sf_ampspersec"%string, Factor ampspersec); ("sf_dac_dccts"%string, Factor dac_dccts); ("sf_vout"%string, Factor vout);
   ("sf_ignd"%string, Factor ignd); ("sf_spare"%string, Factor spare); ("sf_regulator"%string, Factor regulator);
   ("sf_error"%string, Factor error);
   ("dac_setpt_raw"%string, Copy DAC_CURRSETPT_REG); ("fofb_dacsetpt"%string, Copy FOFB_DACSETPT_REG)].

(** The head of [struct SAdataMsg], but for [die_temp], [vccint] and [vccaux],
    which nothing assigns, and the reserved words. *)
Definition head_sources : list (string * source) :=
  [("numchans"%string, Copy NUMCHANS_REG); ("evr_ts_ns"%string, Copy EVR_TS_NS_REG); ("evr_ts_s"%string, Copy EVR_TS_S_REG);
   ("resolution"%string, Copy RESOLUTION_REG); ("git_shasum"%string, Copy PRJ_SHASUM);
   ("bandwidth"%string, Copy BANDWIDTH_REG); ("polarity"%string, Copy POLARITY_REG);
   ("fofb_pktsrcvd"%string, Copy FOFB_PACKETS_RCVD_REG); ("fofb_command"%string, Copy FOFB_COMMAND_REG);
   ("fofb_nonce"%string, Copy FOFB_NONCE_REG); ("tenkhz_freq"%string, Frequency TENKHZ_FREQ_REG);
   ("onehz_freq"%string, Frequency ONEHZ_FREQ_REG); ("ch34_dualmode"%string, Copy CH34_DUALMODE_REG);
   ("main_dipole_mode"%string, Copy MAIN_DIPOLE_MODE_REG)].

(** Every member is accounted for. *)
Lemma sources_complete :
  member_name <$> SAdataChan = chan_sources.*1 ++ ["rsvd"%string] /\
  (forall m, m ∈ member_name <$> SAdataMsg -> m ∈ head_sources.*1 \/ m ∈ ["die_temp"; "vccint"; "vccaux"; "rsvd"]%string).
Proof.
  split; [reflexivity|]. intros m Hm.
  apply elem_of_app. revert m Hm. apply list.Forall_forall. by_compute.
Qed.

(** ** Facts *)

(** Only register accesses happened. *)
Abbreviation later := (both (keeps state_of) (emits no_socket)).

Section Facts.
Context {env : Env}.

Ltac read_side := split; [reflexivity|by apply emits_push].

(** A computation that always returns, and only accesses registers. *)
Definition reader {A} (m : M A) : Prop := forall w, wp m (fun _ w' => later w w') w.

Lemma later_refl w : later w w.
Proof. apply wo_refl. Qed.

Lemma later_trans a b c : later a b -> later b c -> later a c.
Proof. apply wo_trans. Qed.

Lemma reader_ret {A} (a : A) : reader (ret a).
Proof. intros w. apply wp_ret, later_refl. Qed.

Lemma reader_bind {A B} (m : M A) (k : A -> M B) :
  reader m -> (forall a, reader (k a)) -> reader (bind m k).
Proof.
  intros Hm Hk w. apply wp_bind. eapply wp_mono; [apply Hm|]. cbn. intros a w1 H1.
  eapply wp_mono; [apply Hk|]. cbn. intros b w2 H2. by eapply later_trans.
Qed.

Lemma reader_in32 a : reader (Xil_In32 a).
Proof. intros w. unfold wp, Xil_In32. cbv zeta. read_side. Qed.

Lemma reader_out32 a v : reader (Xil_Out32 a v).
Proof. intros w. unfold wp, Xil_Out32, log, modify. read_side. Qed.

Lemma reader_gets {A} (f : world -> A) : reader (gets f).
Proof. intros w. apply later_refl. Qed.

Lemma reader_uninit n : reader (uninit_words n).
Proof. intros w. apply later_refl. Qed.

Lemma reader_accum a m : reader (ReadAccumSA a m).
Proof. apply reader_bind; [apply reader_in32|]. intros v. apply reader_ret. Qed.
End Facts.

Create HintDb reader.
#[export] Hint Resolve reader_ret reader_bind reader_in32 reader_out32 reader_gets reader_uninit reader_accum : reader.
#[export] Hint Unfold dacbits_to_volts word accum_dac accum_16 value_dac value_16 gain thresh_dac
  thresh_16 seconds frequency : reader.

Lemma words_of_bytes_length l n : length l = (4 * n)%nat -> length (words_of_bytes l) = n.
Proof.
  revert l. induction n as [|n IH]; intros l H; [by destruct l|].
  destruct l as [|a [|b [|c [|d l]]]]; cbn in H; try lia. cbn. f_equal. apply IH. lia.
Qed.

Lemma member_block l a b c name x :
  member_at l 0 b name = Some x -> member_at l (length a) (a ++ b ++ c) name = Some x.
Proof.
  unfold member_at. destruct (offset l name) as [n|]; [|done]. cbn. intros H.
  rewrite lookup_app_r by lia. replace (length a + n - length a)%nat with n by lia.
  rewrite lookup_app_l; [done|]. by eapply lookup_lt_Some.
Qed.

Lemma channel_block {B} a b c ws start (f : string * B -> Z) l :
  length a = start -> ws = a ++ b ++ c ->
  Forall (fun p => member_at SAdataChan 0 b p.1 = Some (f p)) l ->
  Forall (fun p => member_at SAdataChan start ws p.1 = Some (f p)) l.
Proof. intros <- -> H. eapply list.Forall_impl; [exact H|]. intros p. apply member_block. Qed.

Section Message.
Context {env : Env} (R : Z -> Z).

(** Registers that read the same throughout. *)
Definition stable_regs : Prop := forall tr a, u32 (env_in32 tr a) = R a.

Lemma wp_reader {A B} (m : M A) (k : A -> M B) Q w0 w :
  reader m -> later w0 w -> (forall a w', later w0 w' -> wp (k a) Q w') -> wp (bind m k) Q w.
Proof.
  intros Hm Hw Hk. apply wp_bind. eapply wp_mono; [apply Hm|]. cbn. intros a w' H. apply Hk.
  by eapply later_trans.
Qed.

(** Only registers are read, and the result is [x]. *)
Definition value {A} (w0 : world) (m : M A) (x : A) : Prop :=
  forall w, later w0 w -> wp m (fun y w' => y = x /\ later w0 w') w.

Lemma value_ret {A} w0 (a : A) : value w0 (ret a) a.
Proof. intros w L. by split. Qed.

Lemma value_bind {A B} w0 (m : M A) a (k : A -> M B) b : value w0 m a -> value w0 (k a) b -> value w0 (bind m k) b.
Proof.
  intros Hm Hk w L. apply wp_bind. eapply wp_mono; [exact (Hm w L)|]. cbn. intros ? w' [-> L']. by apply Hk.
Qed.

Lemma value_in32 w0 a : stable_regs -> value w0 (Xil_In32 a) (R (u32 a)).
Proof.
  intros HR w L. unfold wp, Xil_In32. cbv zeta. split; [apply HR|].
  eapply later_trans; [exact L|]. split; [reflexivity|by apply emits_push].
Qed.

Lemma value_d2v w0 : value w0 dacbits_to_volts (f32_of_bits (CONVDACBITSTOVOLTS (glob w0))).
Proof. intros w [Hst L]. split; [|done]. by injection Hst as -> _ _ _. Qed.

Lemma value_mean w0 a m : stable_regs -> value w0 (ReadAccumSA a m) (mean m (s32 (R (u32 a)))).
Proof.
  intros HR. eapply value_bind; [by apply value_in32|]. cbv zeta. intros w L. split; [|done].
  destruct (Z.eqb_spec m 0) as [->|]; [done|]. destruct (Z.eqb_spec m 1) as [->|]; [done|].
  destruct (Z.eqb_spec m 2) as [->|]; [done|]. unfold mean. destruct m as [|[[|[]|]|[[]|[]|]|]|]; done || lia.
Qed.

Lemma wp_value {A B} w0 (m : M A) x (k : A -> M B) Q w :
  value w0 m x -> later w0 w -> (forall w', later w0 w' -> wp (k x) Q w') -> wp (bind m k) Q w.
Proof. intros Hm L Hk. apply wp_bind. eapply wp_mono; [exact (Hm w L)|]. cbn. intros ? w' [-> L']. by apply Hk. Qed.

Lemma wp_uninit {B} n (k : list Z -> M B) Q w0 w :
  later w0 w -> (forall ws w', length ws = n -> later w0 w' -> wp (k ws) Q w') ->
  wp (bind (uninit_words n) k) Q w.
Proof.
  intros Hw Hk. apply wp_bind. eapply wp_mono with (P := fun ws w' => length ws = n /\ later w w').
  - split; [|apply later_refl]. apply words_of_bytes_length.
    rewrite length_take, length_app, length_fmap, length_replicate. lia.
  - intros ws w' [Hl H]. apply Hk; [done|]. by eapply later_trans.
Qed.

Lemma wp_get_sf {B} chan s (k : ScaleFactorType -> M B) Q w0 w :
  later w0 w -> scalefactors (glob w0) !! sf_index chan = Some s -> wp (k s) Q w ->
  wp (bind (get_sf chan) k) Q w.
Proof.
  intros [Hst _] Hs Hk. apply wp_bind. unfold get_sf, wp at 1, bind, gets.
  assert (glob w = glob w0) as -> by (injection Hst; auto). by rewrite Hs.
Qed.

Create HintDb value.
#[local] Hint Resolve value_ret value_in32 value_d2v value_mean : value.

Ltac value_tac := repeat (eapply value_bind; [solve [auto with value]|]); apply value_ret.

Section Channel.
Context (w0 : world) (HR : stable_regs) (base ave : Z) (s : ScaleFactorType).

(** The volts of a DAC bit, and what a source means for this channel. *)
Definition bit_volts : spec_float := f32_of_bits (CONVDACBITSTOVOLTS (glob w0)).
Abbreviation stores m src := (value w0 m (meaning (fun r => R (u32 (base + r))) bit_volts ave s src)).

(** Each shape of assignment stores what its source means. *)
Lemma value_word reg : stores (word base reg) (Copy reg).
Proof. by apply value_in32. Qed.
Lemma value_accum_dac reg sf : stores (accum_dac base ave reg (sf s)) (Reading20 reg sf).
Proof. unfold accum_dac. value_tac. Qed.
Lemma value_accum_16 reg sf : stores (accum_16 base ave reg (sf s)) (Reading16 reg sf).
Proof. unfold accum_16. value_tac. Qed.
Lemma value_value_dac reg sf : stores (value_dac base reg (sf s)) (Value20 reg sf).
Proof. unfold value_dac. value_tac. Qed.
Lemma value_value_16 reg sf : stores (value_16 base reg (sf s)) (Value16 reg sf).
Proof. unfold value_16. value_tac. Qed.
Lemma value_gain reg : stores (gain base reg) (Gain reg).
Proof. unfold gain. value_tac. Qed.
Lemma value_thresh_dac reg sf : stores (thresh_dac base reg (sf s)) (Thresh20 reg sf).
Proof. unfold thresh_dac. value_tac. Qed.
Lemma value_thresh_16 reg sf : stores (thresh_16 base reg (sf s)) (Thresh16 reg sf).
Proof. unfold thresh_16. value_tac. Qed.
Lemma value_seconds reg : stores (seconds base reg) (Seconds reg).
Proof. unfold seconds. value_tac. Qed.
End Channel.

Lemma value_frequency w0 reg : stable_regs ->
  value w0 (frequency reg)
    (bits_of_f32 (to_float (fofZ double 1 /d (to_double (fofZ single (R (u32 (AXI + reg)))) *d flit double 1 100000000)))).
Proof. intros HR. unfold frequency. value_tac. Qed.

#[local] Hint Resolve value_word value_accum_dac value_accum_16 value_value_dac value_value_16 value_gain
  value_thresh_dac value_thresh_16 value_seconds value_frequency : value.

Ltac read_all :=
  repeat match goal with
  | L : later _ ?w |- wp (bind (uninit_words _) _) _ ?w =>
      apply (wp_uninit _ _ _ _ _ L); clear w L; intros ? w ? L
  | L : later _ ?w, H : scalefactors _ !! _ = Some _ |- wp (bind (get_sf _) _) _ ?w =>
      apply (wp_get_sf _ _ _ _ _ _ L H)
  | L : later _ ?w |- wp (bind (Xil_Out32 _ _) _) _ ?w =>
      eapply wp_reader; [apply reader_out32|exact L|]; clear w L; intros ? w L
  | L : later _ ?w |- wp (bind _ _) _ ?w =>
      eapply wp_value; [solve [eauto with value]|exact L|]; clear w L; intros w L
  end.

(** The words of [struct SAdataChan] for channel [chan + 1]. *)
Definition chan_ok (w0 : world) (chan : Z) (s : ScaleFactorType) (start : nat) (ws : list Z) : Prop :=
  let base := u32 (AXI + (chan + 1) * CHBASEADDR) in
  let rd r := R (u32 (base + r)) in
  Forall (fun p => member_at SAdataChan start ws p.1 = Some (meaning rd (bit_volts w0) (rd AVEMODE_REG) s p.2)) chan_sources.

Lemma sadata_chan_spec chan s w0 w :
  stable_regs -> scalefactors (glob w0) !! sf_index (chan + 1) = Some s -> later w0 w ->
  wp (sadata_chan chan) (fun ws w' => (length ws = struct_words SAdataChan /\ chan_ok w0 chan s 0 ws) /\ later w0 w') w.
Proof.
  intros HR Hs L. unfold sadata_chan. cbv zeta. read_all. apply wp_ret.
  split; [|exact L]. split; [rewrite length_app; cbn; lia|]. unfold chan_ok. cbv zeta.
  repeat (apply list.Forall_cons; split); [reflexivity..|by constructor].
  Unshelve. all: first [exact 0|exact s].
Qed.

(** What the message promises, word by word. *)
Definition sadata_words_ok (w0 : world) (ws : list Z) : Prop :=
  length ws = ps_start 4 /\
  (forall ave s, Forall (fun p => member_at SAdataMsg 0 ws p.1 =
     Some (meaning (fun r => R (u32 (AXI + r))) (bit_volts w0) ave s p.2)) head_sources) /\
  forall c s, 0 <= c < 4 -> scalefactors (glob w0) !! Z.to_nat c = Some s -> chan_ok w0 c s (ps_start c) ws.

Lemma sadata_gather_spec w0 :
  stable_regs -> length (scalefactors (glob w0)) = 4%nat ->
  wp sadata_gather (fun ws w' => sadata_words_ok w0 ws /\ later w0 w') w0.
Proof.
  intros HR Hlen.
  assert (forall c, 0 <= c < 4 -> sf_index (c + 1) = Z.to_nat c) as Hi.
  { intros c Hc. unfold sf_index. rewrite u32_small by (unfold is_u; lia). lia. }
  assert (forall c, 0 <= c < 4 -> exists s, scalefactors (glob w0) !! sf_index (c + 1) = Some s) as Hsf.
  { intros c Hc. apply lookup_lt_is_Some_2. rewrite Hi; lia. }
  destruct (Hsf 0 ltac:(lia)) as [s0 H0], (Hsf 1 ltac:(lia)) as [s1 H1],
    (Hsf 2 ltac:(lia)) as [s2 H2], (Hsf 3 ltac:(lia)) as [s3 H3].
  unfold sadata_gather. pose proof (later_refl w0) as L. revert L. generalize w0 at 2 5. intros w L.
  read_all.
  apply wp_bind. eapply wp_mono; [exact (sadata_chan_spec 0 s0 w0 w HR H0 L)|].
  clear w L. intros ps0 w [[L0 P0] L].
  apply wp_bind. eapply wp_mono; [exact (sadata_chan_spec 1 s1 w0 w HR H1 L)|].
  clear w L. intros ps1 w [[L1 P1] L].
  apply wp_bind. eapply wp_mono; [exact (sadata_chan_spec 2 s2 w0 w HR H2 L)|].
  clear w L. intros ps2 w [[L2 P2] L].
  apply wp_bind. eapply wp_mono; [exact (sadata_chan_spec 3 s3 w0 w HR H3 L)|].
  clear w L. intros ps3 w [[L3 P3] L]. apply wp_ret. split; [|exact L].
  destruct ws as [|x0 [|x1 [|x2 [|]]]]; try discriminate.
  do 9 (destruct ws0 as [|? ws0]; try discriminate).
  split; [|split].
  - cbn [app]. cbn [length]. rewrite !length_app, L0, L1, L2, L3. done.
  - intros ave s. repeat (apply list.Forall_cons; split); [reflexivity..|by constructor].
  - intros c s Hc Hs. rewrite <- Hi in Hs by done. unfold chan_ok in *. cbv zeta in *. rewrite !app_assoc.
    match goal with |- context [?h ++ ps0] => set (hd := h) end.
    assert (length hd = 25%nat) as Lh by reflexivity. clearbody hd. change (struct_words SAdataChan) with 75%nat in *. rewrite <- !app_assoc.
    assert (c = 0 \/ c = 1 \/ c = 2 \/ c = 3) as [-> | [-> | [-> | ->]]] by lia.
    + assert (s = s0) as -> by congruence. by eapply (channel_block hd ps0 (ps1 ++ ps2 ++ ps3)).
    + assert (s = s1) as -> by congruence.
      eapply (channel_block (hd ++ ps0) ps1 (ps2 ++ ps3)); [rewrite length_app, Lh, L0; done|by rewrite <- !app_assoc|done].
    + assert (s = s2) as -> by congruence.
      eapply (channel_block ((hd ++ ps0) ++ ps1) ps2 ps3); [rewrite !length_app, Lh, L0, L1; done|by rewrite <- !app_assoc|done].
    + assert (s = s3) as -> by congruence.
      eapply (channel_block (((hd ++ ps0) ++ ps1) ++ ps2) ps3 []);
        [rewrite !length_app, Lh, L0, L1, L2; done|by rewrite app_nil_r, <- !app_assoc|done].
  Unshelve. all: first [exact 0|exact s0].
Qed.
End Message.

(** C23. The 10 Hz message: [sadata_send] always completes up to its one send,
    of message 31 with 1400 bytes, the first 1300 being the 325 words of the
    structure in network order (what follows them is what the static buffer
    held).  With registers that read the same throughout (register [a] reads
    [R a]), every member of [sadata.h]'s structures but five stands at its
    offset with the value [head_sources] and [chan_sources] name: which
    register, of the right channel, by which scale factor of that channel, in
    which unit.  [digout_on2] and [digout_reset] report the ON1 register and
    [digout_spare] the reset register.  The five are [die_temp], [vccint] and
    [vccaux] and the two reserved arrays: nothing assigns them, and what is
    sent is uninitialised memory. *)
Theorem sadata_message {env : Env} R send w :
  stable_regs R -> length (scalefactors (glob w)) = 4%nat ->
  length (sadata_msg (pdata w)) = 1400%nat ->
  exists words tail w1,
    sadata_send send w = send 31 1400 (bytes_of_words (htonl <$> words) ++ tail) w1 /\
    length (bytes_of_words (htonl <$> words) ++ tail) = 1400%nat /\
    sadata_words_ok R w words /\
    (glob w1, snap w1, key w1) = (glob w, snap w, key w).
Proof.
  intros HR Hlen Hmsg.
  destruct (wp_run _ _ _ (sadata_gather_spec R w HR Hlen)) as (words & w1 & E & Hok & [Hst _]).
  assert (length (bytes_of_words (htonl <$> words)) = 1300%nat) as Hl
    by (rewrite length_bytes_of_words, length_fmap; destruct Hok as [-> _]; reflexivity).
  assert (pdata w1 = pdata w /\ (glob w1, snap w1, key w1) = (glob w, snap w, key w)) as [Hp Hg]
    by (injection Hst as -> -> -> ->; done).
  exists words, (drop 1300 (sadata_msg (pdata w))).
  eexists. split; [|split; [|split]].
  - unfold sadata_send. rewrite (run_bind _ _ _ _ _ E), run_gets, hton_conv_bytes_of_words, Hp.
    unfold overwrite. rewrite Hl. reflexivity.
  - rewrite length_app, length_drop, Hl, Hmsg. done.
  - exact Hok.
  - exact Hg.
Qed.

(** Channel 2 with ON1 set and ON2 clear: word 49 reports 1. *)
Definition on1_env : Env := rom_env {[ sim_base + 2 * CHBASEADDR + DIGOUT_ON1_REG := 1 ]}.

Lemma sadata_message_witness :
  exists words w1,
    (exists tail, sadata_send (env := on1_env) no_send sim_world =
       no_send 31 1400 (bytes_of_words (htonl <$> words) ++ tail) w1) /\
    member_at SAdataChan (ps_start 1) words "digout_on2" = Some 1.
Proof.
  set (R := fun a => u32 (default 0 (({[ sim_base + 2 * CHBASEADDR + DIGOUT_ON1_REG := 1 ]} : gmap Z Z) !! a))).
  assert (stable_regs (env := on1_env) R) as HR by (intros tr a; reflexivity).
  destruct (sadata_message (env := on1_env) R no_send sim_world HR eq_refl eq_refl)
    as (words & tail & w1 & E & _ & (_ & _ & Hc) & _).
  exists words, w1. split; [by exists tail|].
  specialize (Hc 1 sim_sf ltac:(lia) eq_refl). unfold chan_ok in Hc. cbv zeta in Hc.
  apply (proj1 (list.Forall_lookup _ _)) with (i := 49%nat) (x := ("digout_on2"%string, Copy DIGOUT_ON1_REG)) in Hc;
    [|reflexivity].
  etransitivity; [exact Hc|]. by_compute.
Defined.
