(* ===== verification/Periodic.v ===== *)
(** * Periodic data ([pscdata.c], [bpc.c], [lstats.c])

    The scheduler [pscdata_poll], called at the end of every turn of the
    server loop, and the two slow messages: the Manchester-encoded data of the
    bipolar converters, and the statistics. *)

From Stdlib Require Import ZArith Lia Bool String Floats.SpecFloat.
From stdpp Require Import base list numbers strings gmap.
From S2P Require Import Prelude CFloat Registers World Logic Sim Scaling Listener Snapshot SaData.

#[local] Open Scope Z_scope.

Definition FAST_PERIOD_MS : Z := 100.
Definition SLOW_PERIOD_MS : Z := 500.

Definition set_last_fast (t : Z) (p : pscdata) : pscdata :=
  PscData t (last_slow p) (bpc_enabled p) (bpc_msg p) (sadata_msg p).
Definition set_last_slow (t : Z) (p : pscdata) : pscdata :=
  PscData (last_fast p) t (bpc_enabled p) (bpc_msg p) (sadata_msg p).
Definition set_bpc_enabled (b : bool) (p : pscdata) : pscdata :=
  PscData (last_fast p) (last_slow p) b (bpc_msg p) (sadata_msg p).
Definition set_bpc_msg (m : list Z) (p : pscdata) : pscdata :=
  PscData (last_fast p) (last_slow p) (bpc_enabled p) m (sadata_msg p).
Definition on_pdata (f : pscdata -> pscdata) : M unit :=
  modify (fun w => set_pdata (f (pdata w)) w).

Section Periodic.
Context {env : Env} (psc_send : Z -> Z -> list Z -> M unit).

(** ** [bpc.c] *)

Definition BPC : Z := AXI + CHBASEADDR.

Definition bpc_reset : M unit :=
  Xil_Out32 (BPC + MANCH_FIFO_RESET_REG) 1 ;;
  Xil_Out32 (BPC + MANCH_FIFO_RESET_REG) 0.

Definition bpc_init : M unit :=
  let! _ := Xil_In32 (BPC + MANCH_FIFO_WDCNT_REG) in
  let! _ := Xil_In32 (BPC + MANCH_FIFO_DATA_REG) in
  bpc_reset.

(** The loop over the FIFO, [n] turns from [i].  The [float] passed to
    [htonf] is only copied, so the word keeps its bits. *)
Fixpoint bpc_read (n : nat) (i : nat) (msg : list Z) : M (list Z) :=
  match n with
  | O => ret msg
  | S n =>
      let! u := Xil_In32 (BPC + MANCH_FIFO_DATA_REG) in
      bpc_read n (S i) (if (2 <=? i)%nat then <[(i - 2)%nat := htonl u]> msg else msg)
  end.

Definition bpc_send : M unit :=
  let! numwords := Xil_In32 (BPC + MANCH_FIFO_WDCNT_REG) in
  when (62 <=? numwords)
    (let! msg := gets (fun w => bpc_msg (pdata w)) in
     let! msg := bpc_read 62 0 msg in
     on_pdata (set_bpc_msg msg) ;;
     bpc_reset) ;;
  let! msg := gets (fun w => bpc_msg (pdata w)) in
  psc_send 15 240 (bytes_of_words msg).

(** ** [lstats.c] *)

Definition lstats_link : list stat :=
  [LinkXmit; LinkRecv; LinkDrop; LinkChkerr; LinkMemerr; LinkProterr; LinkErr].
Definition lstats_mem : list stat := [MemErr; MemAvail; MemUsed; MemMax; MemIllegal].
Definition lstats_sensors : list stat := [SensorTemp; SensorVccint; SensorVccaux].

Fixpoint os_stats (l : list stat) : M (list Z) :=
  match l with
  | [] => ret []
  | s :: l =>
      let! v := os_stat s in
      let! vs := os_stats l in
      ret (v :: vs)
  end.

(** [strncpy(ip_addr, .., 16)]: the text up to its end, padded with zeros. *)
Fixpoint until_nul (l : list Z) : list Z :=
  match l with
  | [] => []
  | c :: l => if c =? 0 then [] else c :: until_nul l
  end.
Definition strncpy (n : nat) (text : list Z) : list Z :=
  take n (until_nul (u8 <$> text) ++ replicate n 0).

(** [lstats_send]: the message is zero-initialised, so without the system
    monitor the sensors are zero. *)
Definition lstats_send : M unit :=
  let! live := Xil_In32 (AXI + LIVE_TIME_REG) in
  let uptime := htonl (bits_of_f32 (fofZ single live)) in
  let! nthread := os_stat NThread in
  let! link := os_stats lstats_link in
  let! mem := os_stats lstats_mem in
  let! avail := os_stat HeapAvail in
  let! lowest := os_stat HeapLowest in
  let! largest := os_stat HeapLargest in
  let! allocs := os_stat HeapAllocs in
  let! frees := os_stat HeapFrees in
  let! ready := os_stat XmonReady in
  let! sensors := (if ready =? 0 then ret [0; 0; 0] else os_stats lstats_sensors) in
  let msg := uptime :: (htonl <$> (nthread :: link ++ mem ++ sensors ++
               [avail; largest; lowest; u32 (allocs - frees)])) in
  let! ip := gets (fun w => env_ip_text (trace w)) in
  psc_send 11 16 (strncpy 16 ip) ;;
  psc_send 10 84 (bytes_of_words msg).

(** ** [pscdata.c] *)

(** The system monitor; without a configuration it stays unused. *)
Definition lstats_init : M unit :=
  let! conf := driver XSysMon_LookupConfig in
  when (negb (conf =? 0))
    (let! _ := driver XSysMon_CfgInitialize in
     let! _ := driver (XSysMon_SetSequencerMode "XSM_SEQ_MODE_SAFE") in
     let! _ := driver (XSysMon_SetAvg "XSM_AVG_256_SAMPLES") in
     let! _ := driver (XSysMon_SetSeqAvgEnables "XSM_SEQ_CH_TEMP") in
     let! _ := driver (XSysMon_SetSeqChEnables "XSM_SEQ_CH_TEMP") in
     let! _ := driver (XSysMon_SetAdcClkDivisor 32) in
     let! _ := driver (XSysMon_SetSequencerMode "XSM_SEQ_MODE_CONTINPASS") in
     ret tt).

Definition pscdata_init : M unit :=
  let! now := xTaskGetTickCount in
  on_pdata (fun p => set_last_slow now (set_last_fast now p)) ;;
  lstats_init ;;
  snapshot_init ;;
  let! polarity := Xil_In32 (AXI + POLARITY_REG) in
  on_pdata (set_bpc_enabled (polarity =? 0)) ;;
  when (polarity =? 0) bpc_init.

Definition pscdata_poll : M unit :=
  let! now := xTaskGetTickCount in
  let! last := gets (fun w => last_fast (pdata w)) in
  if u32 (now - last) <? pdMS_TO_TICKS FAST_PERIOD_MS then ret tt else
  on_pdata (set_last_fast now) ;;
  sadata_send psc_send ;;
  let! slow := gets (fun w => last_slow (pdata w)) in
  when (pdMS_TO_TICKS SLOW_PERIOD_MS <=? u32 (now - slow))
    (on_pdata (set_last_slow now) ;;
     lstats_send ;;
     let! en := gets (fun w => bpc_enabled (pdata w)) in
     when en bpc_send) ;;
  snapshot_process psc_send.
End Periodic.

(** ** The server's invariant *)

Section Invariant.
Context {env : Env} (send : Z -> Z -> list Z -> M unit) `{!SenderOk send}.
Abbreviation inv m := (triple server_inv m (fun _ => server_inv) safe).

Ltac by_side := split; [reflexivity|first [by apply emits_push | by exists []]].
Ltac by_tac := unfold bystander; respects_tac by_side.

Lemma by_accum a m : bystander (ReadAccumSA a m).
Proof. unfold ReadAccumSA. by_tac. Qed.

Lemma by_uninit n : bystander (uninit_words n).
Proof. unfold uninit_words. by_tac. Qed.

Lemma by_sadata_chan c : bystander (sadata_chan c).
Proof.
  pose proof by_accum. pose proof by_uninit. unfold bystander in *.
  unfold sadata_chan, dacbits_to_volts, word, accum_dac, accum_16, value_dac, value_16, gain,
    thresh_dac, thresh_16, seconds, dacbits_to_volts. respects_tac by_side; auto.
Qed.

Lemma inv_sadata : inv (sadata_send send).
Proof.
  unfold sadata_send. apply inv_bind; [|intros ws].
  - pose proof by_sadata_chan. pose proof by_uninit. unfold bystander in *.
    unfold sadata_gather, frequency. respects_tac by_side; auto.
  - apply inv_bind; [by_tac|intros msg]. apply inv_bind; [by_tac|intros _]. apply send_inv.
Qed.

Lemma by_os_stats l : bystander (os_stats l).
Proof.
  induction l as [|s l IH]; cbn [os_stats]; unfold bystander, os_stat in *; respects_tac by_side; auto.
Qed.

Lemma inv_lstats : inv (lstats_send send).
Proof.
  pose proof by_os_stats as Hs. unfold lstats_send, os_stat.
  repeat (apply inv_bind; [first [apply Hs|solve [by_tac]|by_tac; apply Hs]|intros ?]).
  eapply triple_bind; [apply send_inv|intros ?; apply send_inv].
Qed.

Lemma by_bpc_read n i msg : bystander (bpc_read n i msg).
Proof.
  revert i msg. induction n as [|n IH]; intros i msg; cbn [bpc_read]; unfold bystander in *;
    respects_tac by_side; auto.
Qed.

Lemma inv_bpc : inv (bpc_send send).
Proof.
  pose proof by_bpc_read as Hr. unfold bpc_send, bpc_reset, on_pdata. unfold bystander in Hr.
  apply inv_bind; [by_tac|intros n]. apply inv_bind; [unfold bystander; respects_tac by_side; auto|intros _].
  apply inv_bind; [by_tac|intros msg]. apply send_inv.
Qed.

Lemma inv_pscdata_poll : inv (pscdata_poll send).
Proof.
  unfold pscdata_poll, on_pdata. apply inv_bind; [by_tac|intros now].
  apply inv_bind; [by_tac|intros last]. destruct (_ <? _); [by intros w Hw|].
  apply inv_bind; [by_tac|intros _].
  eapply triple_bind; [apply inv_sadata|intros ?].
  apply inv_bind; [by_tac|intros slow].
  eapply triple_bind with (R := fun _ => server_inv); [|intros _; by apply inv_snapshot_process].
  apply triple_when; [intros _|done]. apply inv_bind; [by_tac|intros _].
  eapply triple_bind; [apply inv_lstats|intros ?]. apply inv_bind; [by_tac|intros en].
  apply triple_when; [intros _; apply inv_bpc|done].
Qed.
End Invariant.

(** ** The Manchester FIFO *)

Section Bpc.
Context {env : Env} `{!AxiWindow env}.

Definition FIFO : Z := AXI + (CHBASEADDR + MANCH_FIFO_DATA_REG).

Lemma fifo_addr : u32 (BPC + MANCH_FIFO_DATA_REG) = FIFO.
Proof. unfold BPC, FIFO. rewrite <- Z.add_assoc. apply axi_addr. vm_compute. split; congruence. Qed.

(** The FIFO data register is read for each of [vs], in order. *)
Definition fifo_reads (vs : list Z) (w w' : world) : Prop :=
  state_of w' = state_of w /\ trace w' = rev (EIn32 FIFO <$> vs) ++ trace w.

Lemma fifo_reads_cons v vs w w' :
  fifo_reads vs (push (EIn32 FIFO v) w) w' -> fifo_reads (v :: vs) w w'.
Proof. intros [Hs Ht]. split; [done|]. rewrite Ht. cbn. by rewrite <- app_assoc. Qed.

Lemma bpc_read_spec n i msg w :
  (2 <= i)%nat -> length msg = (i - 2 + n)%nat ->
  exists vs w', bpc_read n i msg w = Done (take (i - 2) msg ++ (htonl <$> vs)) w' /\
    length vs = n /\ fifo_reads vs w w'.
Proof.
  revert i msg w. induction n as [|n IH]; intros i msg w Hi Hl; cbn [bpc_read].
  - exists [], w. rewrite app_nil_r, take_ge by lia. done.
  - rewrite run_in32. cbv zeta. rewrite fifo_addr. set (v := u32 (env_in32 _ _)).
    destruct (Nat.leb_spec 2 i); [|lia].
    destruct (IH (S i) (<[(i - 2)%nat := htonl v]> msg) (push (EIn32 FIFO v) w)) as (vs & w' & E & L & F).
    { lia. } { rewrite length_insert. lia. }
    exists (v :: vs), w'. rewrite E. split; [|split; [cbn; lia|by apply fifo_reads_cons]].
    f_equal. replace (S i - 2)%nat with (S (i - 2)) by lia.
    rewrite (take_S_r _ _ (htonl v)) by (rewrite list_lookup_insert_eq; [done|lia]).
    rewrite take_insert_ge by lia. by rewrite <- app_assoc.
Qed.

Lemma bpc_read_all n msg w :
  length msg = n ->
  exists vs w', bpc_read (S (S n)) 0 msg w = Done (htonl <$> drop 2 vs) w' /\
    length vs = S (S n) /\ fifo_reads vs w w'.
Proof.
  intros Hl.
  cbn [bpc_read]. rewrite run_in32. cbv zeta. rewrite fifo_addr, run_in32. cbv zeta. rewrite fifo_addr.
  set (v0 := u32 (env_in32 (trace w) _)). set (w1 := push _ w).
  set (v1 := u32 (env_in32 _ _)). set (w2 := push _ w1).
  destruct (bpc_read_spec n 2 msg w2) as (vs & w' & E & L & F); [lia|lia|].
  exists (v0 :: v1 :: vs), w'. split; [exact E|]. split; [cbn; lia|].
  by do 2 apply fifo_reads_cons.
Qed.
End Bpc.

(** C25. [bpc_send] always sends message 15 with 60 words.  When the FIFO
    holds a full frame of 62 words it is read out, the first two words are
    dropped, the other sixty are the message in network order, kept for the
    next time, and the FIFO is reset once; when it holds less, nothing is
    read or reset and the previous message is sent again. *)
Theorem bpc_send_frame {env : Env} `{!AxiWindow env} send w :
  length (bpc_msg (pdata w)) = 60%nat ->
  exists n msg w1,
    bpc_send send w = send 15 240 (bytes_of_words msg) w1 /\ length msg = 60%nat /\
    bpc_msg (pdata w1) = msg /\ (glob w1, snap w1, key w1) = (glob w, snap w, key w) /\
    let fifo r := AXI + (CHBASEADDR + r) in
    let reset := [EOut32 (fifo MANCH_FIFO_RESET_REG) 0; EOut32 (fifo MANCH_FIFO_RESET_REG) 1] in
    if 62 <=? n then
      exists vs, length vs = 62%nat /\ msg = htonl <$> drop 2 vs /\
        trace w1 = reset ++ rev (EIn32 (fifo MANCH_FIFO_DATA_REG) <$> vs) ++
                   EIn32 (fifo MANCH_FIFO_WDCNT_REG) n :: trace w
    else msg = bpc_msg (pdata w) /\ trace w1 = EIn32 (fifo MANCH_FIFO_WDCNT_REG) n :: trace w.
Proof.
  intros Hl. unfold bpc_send. rewrite run_in32. cbv zeta.
  assert (forall r, 0 <= r < CHBASEADDR -> u32 (BPC + r) = AXI + (CHBASEADDR + r)) as Ha.
  { intros r Hr. unfold BPC, CHBASEADDR in *. rewrite <- Z.add_assoc. apply axi_addr. lia. }
  rewrite (Ha MANCH_FIFO_WDCNT_REG) by (vm_compute; split; congruence).
  set (n := u32 (env_in32 _ _)). set (w0 := push _ w). exists n.
  destruct (62 <=? n); cbn [when].
  - rewrite bind_assoc, run_gets, bind_assoc.
    destruct (bpc_read_all 60 (bpc_msg (pdata w0)) w0 Hl) as (vs & w1 & E & L & Hs & Ht).
    rewrite (run_bind _ _ _ _ _ E).
    exists (htonl <$> drop 2 vs). eexists. split; [reflexivity|].
    split; [by rewrite length_fmap, length_drop, L|]. split; [reflexivity|].
    split; [cbn; by injection Hs as -> _ -> ->|].
    exists vs. split; [exact L|]. split; [reflexivity|]. cbn [trace push set_pdata final].
    rewrite !Ha by (vm_compute; split; congruence). unfold set_pdata. cbn [trace]. by rewrite Ht.
  - exists (bpc_msg (pdata w)). eexists. split; [reflexivity|]. by split_and!.
Qed.

Lemma bpc_send_frame_witness :
  exists n msg w1, bpc_send (env := sim) no_send sim_world = no_send 15 240 (bytes_of_words msg) w1 /\
    length msg = 60%nat /\ bpc_msg (pdata w1) = msg /\ n = 0.
Proof.
  destruct (bpc_send_frame (env := sim) no_send sim_world) as (n & msg & w1 & E & L & B & _ & H);
    [reflexivity|].
  exists n, msg, w1. split; [exact E|]. split; [exact L|]. split; [exact B|].
  cbn zeta in H. destruct (Z.leb_spec 62 n) as [G|G].
  - destruct H as (vs & Lv & _ & T). exfalso.
    assert (length (trace w1) = 1%nat) as E1 by (injection E as <-; reflexivity).
    rewrite T, length_app in E1. cbn in E1. lia.
  - destruct H as [_ T]. injection E as <-. vm_compute in T. by injection T.
Defined.

(** ** The schedule *)

Section Schedule.
Context {env : Env} (send : Z -> Z -> list Z -> M unit) `{!SenderOk send}.
Abbreviation paced := (keeps (fun w => last_fast (pdata w))).

Ltac paced_side := reflexivity.

Lemma paced_send i l b : respects paced (send i l b).
Proof. intros w. pose proof (send_keeps i l b w) as H. unfold keeps in *. by injection H as _ -> _. Qed.

#[local] Hint Resolve paced_send : respects.

Lemma paced_words n : respects paced (uninit_words n).
Proof. unfold uninit_words. respects_tac paced_side. Qed.
Lemma paced_sadata_chan c : respects paced (sadata_chan c).
Proof.
  pose proof paced_words.
  unfold sadata_chan, dacbits_to_volts, word, accum_dac, accum_16, value_dac, value_16, gain,
    thresh_dac, thresh_16, seconds, dacbits_to_volts, ReadAccumSA. respects_tac paced_side; auto.
Qed.
#[local] Hint Resolve paced_words paced_sadata_chan : respects.

Lemma paced_sadata : respects paced (sadata_send send).
Proof. unfold sadata_send, sadata_gather, frequency. respects_tac paced_side. Qed.

Lemma paced_os_stats l : respects paced (os_stats l).
Proof. induction l; cbn [os_stats]; unfold os_stat; respects_tac paced_side. Qed.
#[local] Hint Resolve paced_sadata paced_os_stats : respects.

Lemma paced_lstats : respects paced (lstats_send send).
Proof. unfold lstats_send, os_stat. respects_tac paced_side. Qed.

Lemma paced_bpc_read n i msg : respects paced (bpc_read n i msg).
Proof. revert i msg. induction n; intros i msg; cbn [bpc_read]; respects_tac paced_side. Qed.
#[local] Hint Resolve paced_bpc_read : respects.

Lemma paced_bpc : respects paced (bpc_send send).
Proof. unfold bpc_send, bpc_reset, on_pdata. respects_tac paced_side. Qed.

Lemma paced_upd k i f : respects paced (upd_trig k i f).
Proof. by intros w. Qed.
#[local] Hint Resolve paced_lstats paced_bpc paced_upd : respects.

Lemma paced_load_words a offs : respects paced (load_words a offs).
Proof. revert a. induction offs; intros ?; cbn [load_words]; respects_tac paced_side. Qed.
#[local] Hint Resolve paced_load_words : respects.
Lemma paced_copy_loop fuel c b d n i : respects paced (copy_loop fuel c b d n i).
Proof.
  revert i. induction fuel; intros i; cbn [copy_loop]; unfold copy_sample; respects_tac paced_side.
Qed.
#[local] Hint Resolve paced_copy_loop : respects.

Lemma paced_wfm k i : respects paced (SendWfmData send k i).
Proof. unfold SendWfmData, get_trig, ReadDMABuf, CopyDataChan. respects_tac paced_side. Qed.
#[local] Hint Resolve paced_wfm : respects.

Lemma paced_stats l : respects paced (snap_stats l).
Proof. induction l; cbn [snap_stats]; unfold snap_trig_data, get_trig; respects_tac paced_side. Qed.
#[local] Hint Resolve paced_stats : respects.

Lemma paced_snapshot : respects paced (snapshot_process send).
Proof.
  unfold snapshot_process, CheckforTriggers, SendSnapShotStats.
  apply respects_bind; [exact _| |intros _; apply respects_bind; [exact _| |intros _]].
  - apply respects_seq_all; [exact _|]. apply list.Forall_fmap, list.Forall_true. intros c.
    unfold compose, check_trigger, get_trig. respects_tac paced_side.
  - apply respects_seq_all; [exact _|]. apply list.Forall_fmap, list.Forall_true. intros i.
    unfold compose, send_if_ready, get_trig. respects_tac paced_side.
  - respects_tac paced_side.
Qed.
End Schedule.

(** C24. Pacing.  A poll less than 100 ms after the last working one does
    nothing but read the clock; any other poll restarts the period at the
    time it read, whatever it sends, however long the sends take and however
    they end.  So two working polls are at least 100 ms apart, and a long
    transfer is not followed by a burst.  [t0] and [t1] are true times. *)
Theorem pscdata_poll_paced {env : Env} send `{!SenderOk send} w t0 t1 :
  last_fast (pdata w) = u32 t0 -> u32 (env_tick (trace w)) = u32 t1 -> t0 <= t1 < t0 + 2 ^ 32 ->
  if t1 - t0 <? pdMS_TO_TICKS FAST_PERIOD_MS
  then pscdata_poll send w = Done tt (push (ETick (u32 t1)) w)
  else last_fast (pdata (final (pscdata_poll send w))) = u32 t1.
Proof.
  intros Hl Ht Hle. unfold pscdata_poll. rewrite !run_tick. cbv zeta. rewrite !Ht, !run_gets.
  cbn [pdata push]. rewrite Hl.
  assert (u32 (u32 t1 - u32 t0) = t1 - t0) as ->
    by (unfold u32, wrap; rewrite <- Zminus_mod; apply Z.mod_small; lia).
  destruct (_ <? _); [done|]. cbv beta iota.
  set (rest := fun _ : unit => sadata_send send ;; _).
  assert (respects (keeps (fun w => last_fast (pdata w))) (rest tt)) as H.
  { pose proof (paced_sadata send). pose proof (paced_lstats send). pose proof (paced_bpc send).
    pose proof (paced_snapshot send). unfold rest, on_pdata. respects_tac ltac:(idtac; reflexivity); auto. }
  exact (H (set_pdata (set_last_fast (u32 t1) (pdata w)) (push (ETick (u32 t1)) w))).
Qed.

Lemma pscdata_poll_paced_witness :
  last_fast (pdata (final (pscdata_poll (env := silent_env) no_send sim_world))) = 500.
Proof.
  exact (pscdata_poll_paced (env := silent_env) no_send sim_world 0 500 eq_refl eq_refl ltac:(lia)).
Defined.
