(* ===== verification/Polling.v ===== *)
(** * What the periodic data touches

    [pscdata_poll] reads registers and memory, keeps its own records
    ([pdata], [snap]), resets the Manchester FIFO, pulses the 10 Hz
    indicator, and sends.  Any relation
    on states that this keeps, and the sender keeps, it keeps. *)

From Stdlib Require Import ZArith Lia Bool.
From stdpp Require Import base list numbers.
From S2P Require Import Prelude CFloat Registers World Logic Sim Scaling Control Listener Snapshot SaData Periodic.

#[local] Open Scope Z_scope.

(** Its interactions, but for those of the sender. *)
Definition poll_event {env : Env} (e : event) : Prop :=
  match e with
  | EIn32 _ _ | ELoad _ _ | EInvalidate _ _ | ETick _ | ESleep _ => True
  | EOut32 a _ => a = u32 (BPC + MANCH_FIFO_RESET_REG) \/ a = u32 (AXI + TENHZ_DATASEND_REG)
  | _ => False
  end.

Section Polling.
Context {env : Env} (R : world -> world -> Prop) {RO : WorldOrder R} (send : Z -> Z -> list Z -> M unit).
Context (R_send : forall i l b, respects R (send i l b)).
Context (R_event : forall e w, poll_event e -> R w (push e w)).
Context (R_pdata : forall p w, R w (set_pdata p w)) (R_snap : forall s w, R w (set_snap s w)).
Abbreviation touches m := (respects R m).

Ltac poll_side := first [apply R_event; first [exact I|by left|by right] | apply R_pdata | apply R_snap | apply wo_refl].
Ltac poll_tac := respects_tac poll_side.
#[local] Hint Resolve R_send : respects.

Lemma poll_upd k i f : touches (upd_trig k i f).
Proof. unfold upd_trig. poll_tac. Qed.

Lemma poll_load_words a offs : touches (load_words a offs).
Proof. revert a. induction offs; intros ?; cbn [load_words]; poll_tac. Qed.
#[local] Hint Resolve poll_upd poll_load_words : respects.

Lemma poll_copy_loop fuel c b d n i : touches (copy_loop fuel c b d n i).
Proof. revert i. induction fuel as [|fuel IH]; intros i; cbn [copy_loop]; unfold copy_sample; poll_tac. Qed.
#[local] Hint Resolve poll_copy_loop : respects.

Lemma poll_SendWfmData k i : touches (SendWfmData send k i).
Proof. unfold SendWfmData, ReadDMABuf, CopyDataChan, get_trig. poll_tac. Qed.

Lemma poll_stats chans : touches (snap_stats chans).
Proof. induction chans as [|i l IH]; cbn [snap_stats]; unfold snap_trig_data, get_trig; poll_tac. Qed.
#[local] Hint Resolve poll_SendWfmData poll_stats : respects.

Lemma poll_snapshot_process : touches (snapshot_process send).
Proof.
  unfold snapshot_process, CheckforTriggers, SendSnapShotStats.
  apply respects_bind; [exact _| |intros _; apply respects_bind; [exact _| |intros _; poll_tac]].
  - apply respects_seq_all; [exact _|]. apply list.Forall_fmap, list.Forall_true. intros [[reg k] i].
    unfold compose, check_trigger, get_trig. poll_tac.
  - apply respects_seq_all; [exact _|]. apply list.Forall_fmap, list.Forall_true. intros i.
    unfold compose, send_if_ready, get_trig. poll_tac.
Qed.

Lemma poll_sadata_chan c : touches (sadata_chan c).
Proof.
  unfold sadata_chan, dacbits_to_volts, word, accum_dac, accum_16, value_dac, value_16, gain,
    thresh_dac, thresh_16, seconds, dacbits_to_volts, ReadAccumSA, uninit_words. poll_tac.
Qed.
#[local] Hint Resolve poll_snapshot_process poll_sadata_chan : respects.

Lemma poll_sadata_send : touches (sadata_send send).
Proof. unfold sadata_send, sadata_gather, frequency, uninit_words, on_pdata. poll_tac. Qed.

Lemma poll_os_stats l : touches (os_stats l).
Proof. induction l as [|s l IH]; cbn [os_stats]; unfold os_stat; poll_tac. Qed.

Lemma poll_bpc_read n i msg : touches (bpc_read n i msg).
Proof. revert i msg. induction n as [|n IH]; intros; cbn [bpc_read]; poll_tac; apply IH. Qed.
#[local] Hint Resolve poll_sadata_send poll_os_stats poll_bpc_read : respects.

Lemma poll_bpc_send : touches (bpc_send send).
Proof. unfold bpc_send, bpc_reset, BPC, on_pdata. poll_tac. Qed.

Lemma poll_lstats_send : touches (lstats_send send).
Proof. unfold lstats_send, os_stat. poll_tac. Qed.
#[local] Hint Resolve poll_bpc_send poll_lstats_send : respects.

Lemma respects_pscdata_poll : touches (pscdata_poll send).
Proof. unfold pscdata_poll, on_pdata. poll_tac. Qed.
End Polling.
