(* ===== verification/Tftp.v ===== *)
(** * TFTP server ([tftp_server.c], [tftp_handler.c])

    The server that reads and writes the files of the SD card, one transfer
    at a time.  It runs on the TCP/IP thread and shares nothing with the rest
    of the firmware, so it has a state of its own: the [tftp_state] of the
    code and the trace of its interactions with lwIP and FatFs. *)

From Stdlib Require Import ZArith Lia Bool.
From stdpp Require Import base list numbers.
From S2P Require Import Prelude.

#[local] Open Scope Z_scope.

Definition TFTP_MAX_PAYLOAD_SIZE : Z := 512.
Definition TFTP_HEADER_LENGTH : Z := 4.
Definition TFTP_RRQ : Z := 1.
Definition TFTP_WRQ : Z := 2.
Definition TFTP_DATA : Z := 3.
Definition TFTP_ACK : Z := 4.
Definition TFTP_ERROR : Z := 5.
Definition TFTP_TIMEOUT_MSECS : Z := 10000.
Definition TFTP_MAX_RETRIES : Z := 5.
Definition TFTP_TIMER_MSECS : Z := TFTP_TIMEOUT_MSECS / 10.
Definition TFTP_MAX_FILENAME_LEN : Z := 20.
Definition TFTP_MAX_MODE_LEN : Z := 7.

Inductive tftp_error :=
| TFTP_ERROR_FILE_NOT_FOUND
| TFTP_ERROR_ACCESS_VIOLATION
| TFTP_ERROR_DISK_FULL
| TFTP_ERROR_ILLEGAL_OPERATION
| TFTP_ERROR_UNKNOWN_TRFR_ID
| TFTP_ERROR_FILE_EXISTS
| TFTP_ERROR_NO_SUCH_USER.

Definition error_code (e : tftp_error) : Z :=
  match e with
  | TFTP_ERROR_FILE_NOT_FOUND => 1
  | TFTP_ERROR_ACCESS_VIOLATION => 2
  | TFTP_ERROR_DISK_FULL => 3
  | TFTP_ERROR_ILLEGAL_OPERATION => 4
  | TFTP_ERROR_UNKNOWN_TRFR_ID => 5
  | TFTP_ERROR_FILE_EXISTS => 6
  | TFTP_ERROR_NO_SUCH_USER => 7
  end.

(** A received [struct pbuf]: the payloads of the chain. *)
Abbreviation pbuf := (list (list Z)).

Inductive tev :=
| TAlloc (n : Z) (ok : bool)                       (* pbuf_alloc *)
| TSendto (addr port : Z) (bs : list Z)            (* udp_sendto *)
| TOpen (fname : list Z) (write ok : bool)         (* f_open *)
| TRead (n : Z) (r : option (list Z))              (* f_read; None is an error *)
| TWrite (bs : list Z) (r : option Z)              (* f_write; the bytes written *)
| TClose                                           (* f_close *)
| TTimeout                                         (* sys_timeout *)
| TUntimeout                                       (* sys_untimeout *)
| TRemove.                                         (* udp_remove *)

(** lwIP and FatFs. *)
Class TftpEnv := {
  env_alloc : list tev -> Z -> bool;
  env_open : list tev -> list Z -> bool -> bool;
  env_read : list tev -> Z -> option (list Z);
  env_write : list tev -> list Z -> option Z;
  pbuf_memfind : pbuf -> list Z -> Z -> Z;
  pbuf_copy_partial : pbuf -> Z -> Z -> list Z;
  pbuf_remove_header : pbuf -> Z -> pbuf
}.

(** [struct tftp_state], its constant fields left out, and the trace (latest
    first).  There is one file object, so [handle] is whether it is open;
    address 0 is the "any" address. *)
Record tftp_state := TftpState {
  handle : bool;
  last_data : option (list Z);
  addr : Z;
  port : Z;
  timer : Z;
  last_pkt : Z;
  blknum : Z;
  retries : Z;
  mode_write : Z;
  trace : list tev
}.

Definition set_handle (h : bool) (s : tftp_state) :=
  TftpState h (last_data s) (addr s) (port s) (timer s) (last_pkt s) (blknum s) (retries s) (mode_write s) (trace s).
Definition set_last_data (d : option (list Z)) (s : tftp_state) :=
  TftpState (handle s) d (addr s) (port s) (timer s) (last_pkt s) (blknum s) (retries s) (mode_write s) (trace s).
Definition set_peer (a p : Z) (s : tftp_state) :=
  TftpState (handle s) (last_data s) a p (timer s) (last_pkt s) (blknum s) (retries s) (mode_write s) (trace s).
Definition set_timer (t : Z) (s : tftp_state) :=
  TftpState (handle s) (last_data s) (addr s) (port s) t (last_pkt s) (blknum s) (retries s) (mode_write s) (trace s).
Definition set_last_pkt (t : Z) (s : tftp_state) :=
  TftpState (handle s) (last_data s) (addr s) (port s) (timer s) t (blknum s) (retries s) (mode_write s) (trace s).
Definition set_blknum (b : Z) (s : tftp_state) :=
  TftpState (handle s) (last_data s) (addr s) (port s) (timer s) (last_pkt s) b (retries s) (mode_write s) (trace s).
Definition set_retries (r : Z) (s : tftp_state) :=
  TftpState (handle s) (last_data s) (addr s) (port s) (timer s) (last_pkt s) (blknum s) r (mode_write s) (trace s).
Definition set_mode_write (m : Z) (s : tftp_state) :=
  TftpState (handle s) (last_data s) (addr s) (port s) (timer s) (last_pkt s) (blknum s) (retries s) m (trace s).
Definition tlog (e : tev) (s : tftp_state) :=
  TftpState (handle s) (last_data s) (addr s) (port s) (timer s) (last_pkt s) (blknum s) (retries s) (mode_write s) (e :: trace s).

Section Tftp.
Context {env : TftpEnv}.

(** ** [tftp_handler.c] *)

Definition octet : list Z := [111; 99; 116; 101; 116].

Definition tftp_sdcard_open (fname mode : list Z) (write : bool) (s : tftp_state) : bool * tftp_state :=
  if bool_decide (mode = octet) then
    let ok := env_open (trace s) fname write in (ok, tlog (TOpen fname write ok) s)
  else (false, s).

(** At most the bytes asked for are read. *)
Definition tftp_sdcard_read (bytes : Z) (s : tftp_state) : option (list Z) * tftp_state :=
  let r := take (Z.to_nat bytes) <$> env_read (trace s) bytes in
  (r, tlog (TRead bytes r) s).

(** The loop over the chain; [false] for the result [-1]. *)
Fixpoint tftp_sdcard_write (p : pbuf) (s : tftp_state) : bool * tftp_state :=
  match p with
  | [] => (true, s)
  | payload :: next =>
      if (length (concat p) =? 0)%nat then (true, s)
      else if (length payload =? 0)%nat then tftp_sdcard_write next s
      else
        let r := env_write (trace s) payload in
        let s := tlog (TWrite payload r) s in
        match r with
        | None => (false, s)
        | Some n => if n =? Z.of_nat (length payload) then tftp_sdcard_write next s else (false, s)
        end
  end.

(** ** [tftp_server.c] *)

Definition close_handle (s : tftp_state) : tftp_state :=
  let s := set_last_data None (set_peer 0 0 s) in
  let s := tlog TUntimeout s in
  if handle s then set_handle false (tlog TClose s) else s.

(** [pbuf_alloc] of [n] bytes, and sending them if that succeeds. *)
Definition send_new (a p : Z) (bs : list Z) (s : tftp_state) : tftp_state :=
  let n := Z.of_nat (length bs) in
  let ok := env_alloc (trace s) n in
  let s := tlog (TAlloc n ok) s in
  if ok then tlog (TSendto a p bs) s else s.

(** The text of the message is left to [str]. *)
Definition send_error (a p : Z) (code : tftp_error) (str : list Z) (s : tftp_state) : tftp_state :=
  send_new a p (to_le 2 (htons TFTP_ERROR) ++ to_le 2 (htons (error_code code)) ++ str ++ [0]) s.

Definition send_ack (blk : Z) (s : tftp_state) : tftp_state :=
  send_new (addr s) (port s) (to_le 2 (htons TFTP_ACK) ++ to_le 2 (htons blk)) s.

Definition resend_data (s : tftp_state) : tftp_state :=
  match last_data s with
  | Some d => send_new (addr s) (port s) d s
  | None => s
  end.

Definition send_data (msg_read_error : list Z) (s : tftp_state) : tftp_state :=
  let n := TFTP_HEADER_LENGTH + TFTP_MAX_PAYLOAD_SIZE in
  let ok := env_alloc (trace s) n in
  let s := tlog (TAlloc n ok) (set_last_data None s) in
  if ok then
    let head := to_le 2 (htons TFTP_DATA) ++ to_le 2 (htons (blknum s)) in
    let '(r, s) := tftp_sdcard_read TFTP_MAX_PAYLOAD_SIZE s in
    match r with
    | None => close_handle (send_error (addr s) (port s) TFTP_ERROR_ACCESS_VIOLATION msg_read_error s)
    | Some data => resend_data (set_last_data (Some (head ++ data)) s)
    end
  else s.

(** [sbuf[i]]: the payload of the first [pbuf] of the chain. *)
Definition sbuf (p : pbuf) (i : nat) : option Z :=
  let b := take 2 (drop (2 * i) (hd [] p)) in
  if (length b =? 2)%nat then Some (of_le b) else None.

Fixpoint until_nul (l : list Z) : list Z :=
  match l with
  | [] => []
  | c :: l => if c =? 0 then [] else c :: until_nul l
  end.

(** The texts of the error messages. *)
Context (text : Z -> list Z).

(** [TFTP_RRQ] and [TFTP_WRQ]. *)
Definition recv_request (write : bool) (p : pbuf) (a pt : Z) (s : tftp_state) : tftp_state :=
  if handle s then send_error a pt TFTP_ERROR_ACCESS_VIOLATION (text 0) s
  else
    let s := tlog TTimeout s in
    let filename_end_offset := pbuf_memfind p [0] 2 in
    if TFTP_MAX_FILENAME_LEN + 1 <? u16 (filename_end_offset - 1) then
      send_error a pt TFTP_ERROR_ACCESS_VIOLATION (text 1) s
    else
      let filename := until_nul (pbuf_copy_partial p (filename_end_offset - 1) 2) in
      let mode_end_offset := pbuf_memfind p [0] (filename_end_offset + 1) in
      if TFTP_MAX_MODE_LEN + 1 <? u16 (mode_end_offset - filename_end_offset) then
        send_error a pt TFTP_ERROR_ACCESS_VIOLATION (text 2) s
      else
        let mode := until_nul (pbuf_copy_partial p (mode_end_offset - filename_end_offset)
                                 (filename_end_offset + 1)) in
        let '(ok, s) := tftp_sdcard_open filename mode write s in
        let s := set_blknum 1 (set_handle ok s) in
        if negb ok then send_error a pt TFTP_ERROR_FILE_NOT_FOUND (text 3) s
        else
          let s := set_peer a pt s in
          if write then send_ack 0 (set_mode_write 1 s)
          else send_data (text 4) (set_mode_write 0 s).

(** [TFTP_DATA]; [None] for a read beyond the packet. *)
Definition recv_data (p : pbuf) (a pt : Z) (s : tftp_state) : option tftp_state :=
  if negb (handle s) then Some (send_error a pt TFTP_ERROR_ACCESS_VIOLATION (text 5) s)
  else if negb (mode_write s =? 1) then Some (send_error a pt TFTP_ERROR_ACCESS_VIOLATION (text 6) s)
  else
    w ← sbuf p 1;
    let blk := htons w in
    Some (if blk =? blknum s then
      let p := pbuf_remove_header p TFTP_HEADER_LENGTH in
      let '(ok, s) := tftp_sdcard_write p s in
      let s := if ok then send_ack blk s
               else close_handle (send_error a pt TFTP_ERROR_ACCESS_VIOLATION (text 7) s) in
      if Z.of_nat (length (concat p)) <? TFTP_MAX_PAYLOAD_SIZE then close_handle s
      else set_blknum (u16 (blknum s + 1)) s
    else if u16 (blk + 1) =? blknum s then send_ack blk s
    else send_error a pt TFTP_ERROR_UNKNOWN_TRFR_ID (text 8) s).

(** [TFTP_ACK]. *)
Definition recv_ack (p : pbuf) (a pt : Z) (s : tftp_state) : option tftp_state :=
  if negb (handle s) then Some (send_error a pt TFTP_ERROR_ACCESS_VIOLATION (text 5) s)
  else if negb (mode_write s =? 0) then Some (send_error a pt TFTP_ERROR_ACCESS_VIOLATION (text 9) s)
  else
    w ← sbuf p 1;
    let blk := htons w in
    Some (if negb (blk =? blknum s) then send_error a pt TFTP_ERROR_UNKNOWN_TRFR_ID (text 8) s
    else
      let lastpkt := match last_data s with
                     | Some d => negb (Z.of_nat (length d) =? TFTP_MAX_PAYLOAD_SIZE + TFTP_HEADER_LENGTH)
                     | None => false
                     end in
      if negb lastpkt then send_data (text 4) (set_blknum (u16 (blknum s + 1)) s)
      else close_handle s).

(** [recv]: a datagram [p] from [a], [pt]. *)
Definition recv (p : pbuf) (a pt : Z) (s : tftp_state) : option tftp_state :=
  if (negb (port s =? 0) && negb (pt =? port s)) || (negb (addr s =? 0) && negb (addr s =? a)) then
    Some (send_error a pt TFTP_ERROR_ACCESS_VIOLATION (text 0) s)
  else
    opcode ← sbuf p 0;
    let s := set_retries 0 (set_last_pkt (timer s) s) in
    if opcode =? htons TFTP_RRQ then Some (recv_request false p a pt s)
    else if opcode =? htons TFTP_WRQ then Some (recv_request true p a pt s)
    else if opcode =? htons TFTP_DATA then recv_data p a pt s
    else if opcode =? htons TFTP_ACK then recv_ack p a pt s
    else Some (send_error a pt TFTP_ERROR_ILLEGAL_OPERATION (text 10) s).

(** [tftp_tmr]: the timer expired. *)
Definition tftp_tmr (s : tftp_state) : tftp_state :=
  let s := set_timer (timer s + 1) s in
  if negb (handle s) then s
  else
    let s := tlog TTimeout s in
    if TFTP_TIMEOUT_MSECS / TFTP_TIMER_MSECS <? timer s - last_pkt s then
      match last_data s with
      | Some _ =>
          if retries s <? TFTP_MAX_RETRIES
          then let s := resend_data s in set_retries (u8 (retries s + 1)) s
          else close_handle s
      | None => close_handle s
      end
    else s.

(** [tftp_init] on the zero-initialised state. *)
Definition tftp_init : tftp_state := TftpState false None 0 0 0 0 0 0 0 [].

(** [tftp_cleanup] of an initialised server: the control block is given back,
    a file that is open is closed, and the state is cleared. *)
Definition tftp_cleanup (s : tftp_state) : tftp_state :=
  let s := close_handle (tlog TRemove s) in
  TftpState false None 0 0 0 0 0 0 0 (trace s).
End Tftp.

(** ** lwIP *)

Fixpoint find_nul (l : list Z) : option Z :=
  match l with
  | [] => None
  | c :: l => if c =? 0 then Some 0 else Z.succ <$> find_nul l
  end.

(** The documented behaviour of the [pbuf] functions, with memory to
    allocate from. *)
Class LwipOk (env : TftpEnv) := {
  alloc_ok : forall tr n, env_alloc tr n = true;
  memfind_law : forall p off, 0 <= off ->
    pbuf_memfind p [0] off =
      match find_nul (drop (Z.to_nat off) (concat p)) with Some i => off + i | None => 0xFFFF end;
  copy_law : forall p n off, 0 <= n -> 0 <= off ->
    pbuf_copy_partial p n off = take (Z.to_nat n) (drop (Z.to_nat off) (concat p));
  remove_law : forall seg rest n, 0 <= n <= Z.of_nat (length seg) ->
    pbuf_remove_header (seg :: rest) n = drop (Z.to_nat n) seg :: rest
}.

(** The chain [p] carries the datagram [bs], its header in the first buffer. *)
Definition carries (p : pbuf) (bs : list Z) : Prop := concat p = bs /\ (4 <= length (hd [] p))%nat.

Lemma carries_sbuf p bs i :
  carries p bs -> (i < 2)%nat -> sbuf p i = Some (of_le (take 2 (drop (2 * i) bs))).
Proof.
  intros [<- H] Hi. unfold sbuf. destruct p as [|seg p]; [cbn in H; lia|]. cbn [hd concat] in *.
  rewrite drop_app_le, take_app_le by (rewrite ?length_drop; lia).
  by rewrite length_take, length_drop, Nat.min_l by lia.
Qed.

Lemma carries_remove {env : TftpEnv} `{!LwipOk env} p bs :
  carries p bs -> concat (pbuf_remove_header p TFTP_HEADER_LENGTH) = drop 4 bs.
Proof.
  intros [<- H]. destruct p as [|seg p]; [cbn in H; lia|]. cbn [hd concat] in *.
  rewrite remove_law by (unfold TFTP_HEADER_LENGTH; lia). cbn [concat].
  by rewrite drop_app_le by done.
Qed.

Lemma find_nul_app l r : Forall (fun c => c <> 0) l -> find_nul (l ++ 0 :: r) = Some (Z.of_nat (length l)).
Proof.
  induction 1 as [|c l Hc _ IH]; [done|]. cbn [app find_nul length]. destruct (Z.eqb_spec c 0); [done|].
  rewrite IH. cbn. f_equal. lia.
Qed.

Lemma until_nul_app l r : Forall (fun c => c <> 0) l -> until_nul (l ++ 0 :: r) = l.
Proof.
  induction 1 as [|c l Hc _ IH]; [done|]. cbn [app until_nul]. destruct (Z.eqb_spec c 0); [done|].
  by rewrite IH.
Qed.

(** ** Datagrams of the protocol *)

Definition request (op : Z) (fname : list Z) : list Z := big_endian 2 op ++ fname ++ 0 :: octet ++ [0].
Definition data_bytes (k : nat) (chunk : list Z) : list Z :=
  big_endian 2 TFTP_DATA ++ big_endian 2 (Z.of_nat k) ++ chunk.
Definition ack_bytes (k : nat) : list Z := big_endian 2 TFTP_ACK ++ big_endian 2 (Z.of_nat k).
Definition error_bytes (code : tftp_error) (str : list Z) : list Z :=
  big_endian 2 TFTP_ERROR ++ big_endian 2 (error_code code) ++ str ++ [0].

(** A file in blocks of 512 bytes, numbered from 1; the last is shorter. *)
Definition block (F : list Z) (k : nat) : list Z := take 512 (drop (512 * (k - 1)) F).
Definition nblocks (F : list Z) : nat := S (length F / 512).

(** The datagrams sent, in order. *)
Fixpoint sent (tr : list tev) : list (Z * Z * list Z) :=
  match tr with
  | [] => []
  | TSendto a p bs :: tr => sent tr ++ [(a, p, bs)]
  | _ :: tr => sent tr
  end.

(** Since the file was opened: the bytes read, and what was written. *)
Fixpoint read_pos (tr : list tev) : nat :=
  match tr with
  | [] => 0
  | TOpen _ _ _ :: _ => 0
  | TRead _ (Some bs) :: tr => length bs + read_pos tr
  | _ :: tr => read_pos tr
  end.
Fixpoint written (tr : list tev) : list Z :=
  match tr with
  | [] => []
  | TOpen _ _ _ :: _ => []
  | TWrite bs (Some _) :: tr => written tr ++ bs
  | _ :: tr => written tr
  end.

(** A file on the card that held [old] when it was opened: the position in it,
    and what it holds.  [FA_OPEN_ALWAYS] opens a file at its beginning and
    leaves what it holds; [f_write] goes over that and beyond. *)
Fixpoint on_card (old : list Z) (tr : list tev) : nat * list Z :=
  match tr with
  | [] => (0%nat, old)
  | TOpen _ _ _ :: _ => (0%nat, old)
  | TWrite bs (Some n) :: tr =>
      let '(pos, held) := on_card old tr in
      let bs := take (Z.to_nat n) bs in
      ((pos + length bs)%nat, take pos held ++ bs ++ drop (pos + length bs) held)
  | _ :: tr => on_card old tr
  end.

(** [W] was written since the file was opened, and stands at its beginning. *)
Definition stores (tr : list tev) (W : list Z) : Prop :=
  written tr = W /\ forall old, on_card old tr = (length W, W ++ drop (length W) old).

Lemma stores_write tr W bs : stores tr W -> stores (TWrite bs (Some (Z.of_nat (length bs))) :: tr) (W ++ bs).
Proof.
  intros [Hw Hc]. split; [cbn; by rewrite Hw|]. intros old. cbn [on_card].
  rewrite Hc, Nat2Z.id, take_ge, length_app by done. f_equal.
  by rewrite take_app_length, <- drop_drop, drop_app_length, drop_drop, <- app_assoc.
Qed.

(** No transfer in progress. *)
Definition idle (s : tftp_state) : Prop :=
  handle s = false /\ last_data s = None /\ addr s = 0 /\ port s = 0.

Lemma blocks_concat F : concat (block F <$> seq 1 (nblocks F)) = F.
Proof.
  assert (forall n j, (length F <= 512 * (j - 1 + n))%nat -> (1 <= j)%nat ->
    concat (block F <$> seq j n) = drop (512 * (j - 1)) F) as H.
  { induction n as [|n IH]; intros j Hl Hj; cbn [seq fmap list_fmap concat].
    - by rewrite drop_ge by lia.
    - rewrite IH by lia. unfold block. replace (512 * (S j - 1))%nat with (512 * (j - 1) + 512)%nat by lia.
      by rewrite <- drop_drop, take_drop. }
  apply (H (nblocks F) 1%nat); [|lia]. unfold nblocks. pose proof (Nat.div_mod_eq (length F) 512).
  pose proof (Nat.mod_upper_bound (length F) 512 ltac:(lia)). lia.
Qed.

(** A block is full exactly when it is not the last. *)
Lemma block_full F k :
  (1 <= k <= nblocks F)%nat -> length (block F k) = if decide (k < nblocks F)%nat then 512%nat else (length F - 512 * (k - 1))%nat.
Proof.
  unfold block, nblocks. intros Hk. rewrite length_take, length_drop.
  pose proof (Nat.div_mod_eq (length F) 512). pose proof (Nat.mod_upper_bound (length F) 512 ltac:(lia)).
  destruct (decide _); lia.
Qed.

Lemma last_block_short F k : k = nblocks F -> (length (block F k) < 512)%nat.
Proof.
  intros ->. rewrite block_full by (unfold nblocks; lia).
  destruct (decide _); [lia|]. unfold nblocks.
  pose proof (Nat.div_mod_eq (length F) 512). pose proof (Nat.mod_upper_bound (length F) 512 ltac:(lia)). lia.
Qed.

Lemma wire_number k : htons (of_le (big_endian 2 k)) = u16 k.
Proof. exact (htons_htons k). Qed.

Lemma wire_head op : to_le 2 (htons op) = big_endian 2 op.
Proof. exact (to_le_bswap 2 op). Qed.

(** ** Transfers *)

Section Transfer.
Context {env : TftpEnv} `{!LwipOk env} (text : Z -> list Z) (a pt : Z).

(** The datagrams [ps] of the client, one after the other. *)
Fixpoint transfer (ps : list pbuf) (s : tftp_state) : option tftp_state :=
  match ps with
  | [] => Some s
  | p :: ps => s ← recv text p a pt s; transfer ps s
  end.

(** What a step leaves alone but for one datagram sent. *)
Lemma send_new_run bs s :
  send_new a pt bs s = tlog (TSendto a pt bs) (tlog (TAlloc (Z.of_nat (length bs)) true) s).
Proof. unfold send_new. by rewrite alloc_ok. Qed.

(** A request for a file, up to its opening. *)
Lemma recv_request_run (write : bool) p fname s :
  idle s -> carries p (request (if write then TFTP_WRQ else TFTP_RRQ) fname) ->
  Forall (fun c => c <> 0) fname -> (length fname <= 20)%nat ->
  env_open (TTimeout :: trace s) fname write = true ->
  exists s1,
    recv text p a pt s = Some (if write then send_ack 0 (set_mode_write 1 s1)
                               else send_data (text 4) (set_mode_write 0 s1)) /\
    handle s1 = true /\ addr s1 = a /\ port s1 = pt /\ blknum s1 = 1 /\ last_data s1 = None /\
    trace s1 = TOpen fname write true :: TTimeout :: trace s.
Proof.
  intros (Hh & Hl & Ha & Hp) Hc Hf Hlen Hopen.
  pose proof (carries_sbuf p _ 0 Hc ltac:(lia)) as Hop. destruct Hc as [Hcat _].
  assert (pbuf_memfind p [0] 2 = 2 + Z.of_nat (length fname)) as M1.
  { rewrite memfind_law, Hcat by lia. change (Z.to_nat 2) with 2%nat. unfold request.
    rewrite drop_app_length' by (by destruct write). by rewrite find_nul_app. }
  assert (pbuf_memfind p [0] (3 + Z.of_nat (length fname)) = 8 + Z.of_nat (length fname)) as M2.
  { rewrite memfind_law, Hcat by lia. unfold request.
    replace (Z.to_nat (3 + Z.of_nat (length fname))) with (2 + (length fname + 1))%nat by lia.
    rewrite <- drop_drop, drop_app_length' by (by destruct write).
    rewrite <- drop_drop, drop_app_length. cbn. lia. }
  assert (pbuf_copy_partial p (1 + Z.of_nat (length fname)) 2 = fname ++ [0]) as C1.
  { rewrite copy_law, Hcat by lia. change (Z.to_nat 2) with 2%nat. unfold request.
    rewrite drop_app_length' by (by destruct write).
    replace (Z.to_nat (1 + Z.of_nat (length fname))) with (length fname + 1)%nat by lia.
    by rewrite take_app_add. }
  assert (pbuf_copy_partial p 6 (3 + Z.of_nat (length fname)) = octet ++ [0]) as C2.
  { rewrite copy_law, Hcat by lia. unfold request.
    replace (Z.to_nat (3 + Z.of_nat (length fname))) with (2 + (length fname + 1))%nat by lia.
    rewrite <- drop_drop, drop_app_length' by (by destruct write).
    by rewrite <- drop_drop, drop_app_length. }
  set (s1 := set_peer a pt (set_blknum 1 (set_handle true (tlog (TOpen fname write true)
               (tlog TTimeout (set_retries 0 (set_last_pkt (timer s) s))))))).
  assert (recv_request text write p a pt (set_retries 0 (set_last_pkt (timer s) s)) =
    if write then send_ack 0 (set_mode_write 1 s1) else send_data (text 4) (set_mode_write 0 s1)) as R.
  { unfold recv_request. cbn [handle set_retries set_last_pkt]. rewrite Hh, M1.
    replace (2 + Z.of_nat (length fname) - 1) with (1 + Z.of_nat (length fname)) by lia.
    replace (2 + Z.of_nat (length fname) + 1) with (3 + Z.of_nat (length fname)) by lia.
    rewrite M2. replace (8 + Z.of_nat (length fname) - (2 + Z.of_nat (length fname))) with 6 by lia.
    unfold u16. rewrite (wrap_small 16 (1 + _)) by (unfold is_u; lia).
    change (wrap 16 6) with 6. unfold TFTP_MAX_FILENAME_LEN, TFTP_MAX_MODE_LEN.
    destruct (Z.ltb_spec (20 + 1) (1 + Z.of_nat (length fname))); [lia|].
    change (7 + 1 <? 6) with false. cbv iota. rewrite C1, C2, until_nul_app by done.
    unfold tftp_sdcard_open. change (until_nul (octet ++ [0])) with octet. rewrite bool_decide_true by done.
    change (trace (tlog TTimeout (set_retries 0 (set_last_pkt (timer s) s)))) with (TTimeout :: trace s).
    rewrite Hopen. reflexivity. }
  exists s1. split; [|done].
  unfold recv. rewrite Hp, Ha. cbn [Z.eqb negb andb orb]. rewrite Hop. cbn [mbind option_bind].
  destruct write; rewrite <- R; reflexivity.
Qed.
(** ** Reading a file *)

Section Read.
Context (F : list Z).

(** [f_read] serves the file [F]. *)
Definition serves : Prop := forall tr, env_read tr 512 = Some (take 512 (drop (read_pos tr) F)).
Context (Hserves : serves).

(** Block [k] was sent last. *)
Definition reading (k : nat) (s : tftp_state) : Prop :=
  handle s = true /\ addr s = a /\ port s = pt /\ mode_write s = 0 /\ blknum s = u16 (Z.of_nat k) /\
  last_data s = Some (data_bytes k (block F k)) /\
  read_pos (trace s) = (512 * (k - 1) + length (block F k))%nat.

Lemma send_data_reading k s :
  handle s = true -> addr s = a -> port s = pt -> mode_write s = 0 -> blknum s = u16 (Z.of_nat k) ->
  read_pos (trace s) = (512 * (k - 1))%nat ->
  reading k (send_data (text 4) s) /\
  sent (trace (send_data (text 4) s)) = sent (trace s) ++ [(a, pt, data_bytes k (block F k))].
Proof.
  intros Hh Ha Hp Hm Hb Hr. unfold send_data. rewrite alloc_ok. unfold tftp_sdcard_read.
  change (TFTP_HEADER_LENGTH + TFTP_MAX_PAYLOAD_SIZE) with 516. change TFTP_MAX_PAYLOAD_SIZE with 512.
  cbn [trace tlog set_last_data]. rewrite (Hserves (TAlloc 516 true :: trace s)).
  cbn [read_pos]. rewrite Hr. cbn [fmap option_fmap option_map]. rewrite take_take.
  change (Z.to_nat 512 `min` 512)%nat with 512%nat. fold (block F k).
  unfold resend_data. cbn [last_data set_last_data tlog]. cbn [blknum tlog set_last_data].
  cbn [addr port set_last_data tlog]. rewrite Ha, Hp, send_new_run, Hb.
  rewrite !wire_head.
  assert (big_endian 2 (u16 (Z.of_nat k)) = big_endian 2 (Z.of_nat k)) as ->.
  { unfold big_endian, u16, wrap. f_equal. exact (to_le_mod 2 _). }
  rewrite <- app_assoc. split; [|done]. unfold reading.
  cbn [handle addr port mode_write blknum last_data trace tlog set_last_data read_pos].
  split_and!; try done. rewrite Hr. lia.
Qed.

Lemma recv_ack_reading k p s :
  reading k s -> (1 <= k <= nblocks F)%nat -> carries p (ack_bytes k) ->
  exists s', recv text p a pt s = Some s' /\
    if decide (k < nblocks F)%nat
    then reading (S k) s' /\ sent (trace s') = sent (trace s) ++ [(a, pt, data_bytes (S k) (block F (S k)))]
    else idle s' /\ sent (trace s') = sent (trace s).
Proof.
  intros (Hh & Ha & Hp & Hm & Hb & Hl & Hr) Hk Hc.
  pose proof (carries_sbuf p _ 0 Hc ltac:(lia)) as Hop. pose proof (carries_sbuf p _ 1 Hc ltac:(lia)) as Hn.
  change (of_le (take 2 (drop (2 * 1) (ack_bytes k)))) with (of_le (big_endian 2 (Z.of_nat k))) in Hn.
  unfold recv. rewrite Hp, Ha, !Z.eqb_refl, !andb_false_r. cbn [orb]. rewrite Hop.
  cbn [mbind option_bind]. change (of_le (take 2 (drop (2 * 0) (ack_bytes k)))) with 1024.
  change (1024 =? htons TFTP_RRQ) with false. change (1024 =? htons TFTP_WRQ) with false.
  change (1024 =? htons TFTP_DATA) with false. change (1024 =? htons TFTP_ACK) with true. cbv iota.
  unfold recv_ack. cbn [handle mode_write set_retries set_last_pkt]. rewrite Hh, Hm, Hn.
  cbn [negb Z.eqb mbind option_bind blknum last_data set_retries set_last_pkt].
  rewrite wire_number, Hb, Z.eqb_refl, Hl. cbn [negb].
  unfold data_bytes at 1. rewrite !length_app, !length_big_endian. eexists. split; [reflexivity|].
  change (TFTP_MAX_PAYLOAD_SIZE + TFTP_HEADER_LENGTH) with 516.
  pose proof (block_full F k Hk) as Hlen.
  destruct (decide (k < nblocks F)%nat) as [Hlt|Hge].
  - rewrite Hlen. cbn [Nat.add Z.of_nat Z.eqb negb]. rewrite Z.eqb_refl. cbn [negb].
    apply (send_data_reading (S k) (set_blknum (u16 (u16 (Z.of_nat k) + 1))
      (set_retries 0 (set_last_pkt (timer s) s)))); try done; cbn [blknum trace set_blknum set_retries set_last_pkt].
    + unfold u16, wrap. rewrite Zplus_mod_idemp_l. f_equal. lia.
    + rewrite Hr, Hlen. lia.
  - pose proof (last_block_short F k ltac:(lia)).
    destruct (Z.eqb_spec (Z.of_nat (2 + (2 + length (block F k)))) 516); [lia|]. cbn [negb].
    unfold close_handle. cbn. by rewrite Hh.
Qed.

Lemma acks_reading n k acks s :
  reading k s -> (1 <= k)%nat -> (k + n = nblocks F)%nat ->
  Forall2 (fun k p => carries p (ack_bytes k)) (seq k (S n)) acks ->
  exists s', transfer acks s = Some s' /\ idle s' /\
    sent (trace s') = sent (trace s) ++ ((fun k => (a, pt, data_bytes k (block F k))) <$> seq (S k) n).
Proof.
  revert k acks s. induction n as [|n IH]; intros k acks s Hr Hk Hn H;
    cbn [seq] in H; apply Forall2_cons_inv_l in H as (p & acks' & Hp & H & ->); cbn [transfer];
    destruct (recv_ack_reading k p s Hr ltac:(lia) Hp) as (s1 & -> & Hs1); cbn [mbind option_bind].
  - rewrite decide_False in Hs1 by lia. apply Forall2_nil_inv_l in H as ->.
    exists s1. by rewrite app_nil_r.
  - rewrite decide_True in Hs1 by lia. destruct Hs1 as [Hr1 Hs1].
    destruct (IH (S k) acks' s1 Hr1 ltac:(lia) ltac:(lia) H) as (s' & Et & Hi & E).
    exists s'. split_and!; [done..|]. by rewrite E, Hs1, <- app_assoc.
Qed.
End Read.
(** ** Writing a file *)

Section Write.
Context (F : list Z).

(** [f_write] stores all it is given. *)
Context (Hwrites : forall tr bs, env_write tr bs = Some (Z.of_nat (length bs))).

(** Block [k] is expected. *)
Definition writing (k : nat) (s : tftp_state) : Prop :=
  handle s = true /\ addr s = a /\ port s = pt /\ mode_write s = 1 /\ blknum s = u16 (Z.of_nat k) /\
  last_data s = None /\ stores (trace s) (take (512 * (k - 1)) F).

Lemma sdcard_write_spec p s :
  exists es, tftp_sdcard_write p s = (true, foldr tlog s es) /\
    (forall W, stores (trace s) W -> stores (es ++ trace s) (W ++ concat p)) /\ sent (es ++ trace s) = sent (trace s).
Proof.
  revert s. induction p as [|seg p IH]; intros s; cbn [tftp_sdcard_write concat].
  - exists []. split_and!; [done| |done]. intros W. by rewrite app_nil_r.
  - destruct (Nat.eqb_spec (length (seg ++ concat p)) 0) as [E|_].
    { exists []. apply nil_length_inv in E as ->. split_and!; [done| |done]. intros W. by rewrite app_nil_r. }
    destruct (Nat.eqb_spec (length seg) 0) as [E|_].
    { apply nil_length_inv in E as ->. apply IH. }
    rewrite Hwrites, Z.eqb_refl.
    destruct (IH (tlog (TWrite seg (Some (Z.of_nat (length seg)))) s)) as (es & -> & Hw & Hs).
    exists (es ++ [TWrite seg (Some (Z.of_nat (length seg)))]).
    cbn [trace tlog] in Hw, Hs. rewrite foldr_app, <- !app_assoc. cbn [app foldr].
    split_and!; [done| |exact Hs]. intros W HW. rewrite app_assoc. by apply Hw, stores_write.
Qed.

Lemma foldr_tlog es s :
  foldr tlog s es = TftpState (handle s) (last_data s) (addr s) (port s) (timer s) (last_pkt s)
                      (blknum s) (retries s) (mode_write s) (es ++ trace s).
Proof. induction es as [|e es IH]; cbn [foldr]; [by destruct s|]. by rewrite IH. Qed.

(** The dispatch of a data packet during a write. *)
Lemma recv_data_run j k p s :
  writing k s -> carries p (data_bytes j (block F j)) ->
  recv text p a pt s = recv_data text p a pt (set_retries 0 (set_last_pkt (timer s) s)) /\
  sbuf p 1 = Some (of_le (big_endian 2 (Z.of_nat j))).
Proof.
  intros (Hh & Ha & Hp & _) Hc.
  pose proof (carries_sbuf p _ 0 Hc ltac:(lia)) as Hop. pose proof (carries_sbuf p _ 1 Hc ltac:(lia)) as Hn.
  unfold data_bytes in Hn. change (2 * 1)%nat with 2%nat in Hn.
  rewrite drop_app_length', take_app_length' in Hn by (by rewrite ?length_big_endian).
  split; [|exact Hn]. unfold recv. rewrite Hp, Ha, !Z.eqb_refl, !andb_false_r. cbn [orb]. rewrite Hop.
  reflexivity.
Qed.

(** The block that is expected. *)
Lemma recv_data_next k p s :
  writing k s -> (1 <= k <= nblocks F)%nat -> carries p (data_bytes k (block F k)) ->
  exists s', recv text p a pt s = Some s' /\
    sent (trace s') = sent (trace s) ++ [(a, pt, ack_bytes k)] /\
    if decide (k < nblocks F)%nat then writing (S k) s' else idle s' /\ stores (trace s') F.
Proof.
  intros Hw Hk Hc. destruct (recv_data_run k k p s Hw Hc) as [-> Hn].
  destruct Hw as (Hh & Ha & Hp & Hm & Hb & Hl & Hwr).
  pose proof (carries_remove p _ Hc) as Hcat. change (drop 4 (data_bytes k (block F k))) with (block F k) in Hcat.
  unfold recv_data. cbn [handle mode_write set_retries set_last_pkt]. rewrite Hh, Hm, Hn.
  cbn [negb Z.eqb Pos.eqb mbind option_bind blknum set_retries set_last_pkt].
  rewrite wire_number, Hb, Z.eqb_refl.
  destruct (sdcard_write_spec (pbuf_remove_header p TFTP_HEADER_LENGTH)
              (set_retries 0 (set_last_pkt (timer s) s))) as (es & -> & Hes & Hsent).
  cbn [trace set_retries set_last_pkt] in Hes, Hsent. rewrite Hcat in Hes |- *.
  rewrite foldr_tlog. cbn [handle last_data addr port timer last_pkt blknum retries mode_write trace set_retries set_last_pkt].
  unfold send_ack. cbn [addr port]. rewrite Ha, Hp, send_new_run, !wire_head.
  assert (big_endian 2 (u16 (Z.of_nat k)) = big_endian 2 (Z.of_nat k)) as ->.
  { unfold big_endian, u16, wrap. f_equal. exact (to_le_mod 2 _). }
  change (big_endian 2 TFTP_ACK ++ big_endian 2 (Z.of_nat k)) with (ack_bytes k).
  change TFTP_MAX_PAYLOAD_SIZE with 512. eexists. split; [reflexivity|].
  assert (take (512 * (k - 1)) F ++ block F k = take (512 * k) F) as Htk.
  { unfold block. rewrite take_take_drop. f_equal. lia. }
  specialize (Hes _ Hwr). rewrite Htk in Hes. pose proof (block_full F k Hk) as Hlen. destruct (decide (k < nblocks F)%nat) as [Hlt|Hge].
  - destruct (Z.ltb_spec (Z.of_nat (length (block F k))) 512); [lia|]. cbn [trace set_blknum tlog sent].
    rewrite Hsent. split; [done|]. unfold writing.
    cbn [handle addr port mode_write blknum last_data trace tlog set_blknum].
    rewrite Hb. split_and!; try done.
    + unfold u16, wrap. rewrite Zplus_mod_idemp_l. f_equal. lia.
    + replace (S k - 1)%nat with k by lia. exact Hes.
  - pose proof (last_block_short F k ltac:(lia)).
    destruct (Z.ltb_spec (Z.of_nat (length (block F k))) 512); [|lia].
    unfold close_handle. cbn [handle last_data addr port tlog set_handle set_last_data set_peer trace sent].
    rewrite Hh. cbn [handle last_data addr port tlog set_handle set_last_data set_peer trace sent].
    rewrite Hsent. split; [done|]. split; [done|]. rewrite take_ge in Hes; [exact Hes|].
    unfold block in *. rewrite length_take, length_drop in *. lia.
Qed.

(** A block that was accepted already is acknowledged and not written again. *)
Lemma recv_data_again k p s :
  writing (S k) s -> (k < nblocks F)%nat -> carries p (data_bytes k (block F k)) ->
  exists s', recv text p a pt s = Some s' /\ writing (S k) s' /\
    sent (trace s') = sent (trace s) ++ [(a, pt, ack_bytes k)].
Proof.
  intros Hw Hk Hc. destruct (recv_data_run k (S k) p s Hw Hc) as [-> Hn].
  destruct Hw as (Hh & Ha & Hp & Hm & Hb & Hl & Hwr).
  unfold recv_data. cbn [handle mode_write set_retries set_last_pkt]. rewrite Hh, Hm, Hn.
  cbn [negb Z.eqb Pos.eqb mbind option_bind blknum set_retries set_last_pkt].
  rewrite wire_number, Hb.
  assert (u16 (u16 (Z.of_nat k) + 1) = u16 (Z.of_nat (S k))) as E.
  { unfold u16, wrap. rewrite Zplus_mod_idemp_l. f_equal. lia. }
  destruct (Z.eqb_spec (u16 (Z.of_nat k)) (u16 (Z.of_nat (S k)))) as [Ex|_].
  { exfalso. rewrite <- E in Ex. pose proof (wrap_range 16 (Z.of_nat k) ltac:(lia)) as R.
    unfold u16, wrap, is_u in *. change (2 ^ 16) with 65536 in *.
    destruct (Z.eq_dec (Z.of_nat k mod 65536) 65535) as [X|X];
      [rewrite X in Ex; done|rewrite (Z.mod_small (_ + 1)) in Ex; lia]. }
  rewrite E, Z.eqb_refl. unfold send_ack. cbn [addr port set_retries set_last_pkt].
  rewrite Ha, Hp, send_new_run, !wire_head.
  assert (big_endian 2 (u16 (Z.of_nat k)) = big_endian 2 (Z.of_nat k)) as ->.
  { unfold big_endian, u16, wrap. f_equal. exact (to_le_mod 2 _). }
  eexists. split; [reflexivity|]. by split_and!.
Qed.

(** What a client sends from block [k] on: each block, and any number of
    times more before the next, in datagrams cut up in any way; [ks] are the
    numbers of the blocks sent. *)
Inductive stream : nat -> list pbuf -> list nat -> Prop :=
| stream_last k p :
    k = nblocks F -> carries p (data_bytes k (block F k)) -> stream k [p] [k]
| stream_next k p dups ps ks :
    (1 <= k < nblocks F)%nat -> carries p (data_bytes k (block F k)) ->
    Forall (fun q => carries q (data_bytes k (block F k))) dups ->
    stream (S k) ps ks -> stream k (p :: dups ++ ps) (k :: replicate (length dups) k ++ ks).

Lemma dups_writing k dups s :
  writing (S k) s -> (k < nblocks F)%nat ->
  Forall (fun q => carries q (data_bytes k (block F k))) dups ->
  exists s', transfer dups s = Some s' /\ writing (S k) s' /\
    sent (trace s') = sent (trace s) ++ replicate (length dups) (a, pt, ack_bytes k).
Proof.
  intros Hw Hk H. revert s Hw. induction H as [|q dups Hq _ IH]; intros s Hw.
  - exists s. by rewrite app_nil_r.
  - cbn [transfer]. destruct (recv_data_again k q s Hw Hk Hq) as (s1 & -> & Hw1 & Hs1).
    cbn [mbind option_bind]. destruct (IH s1 Hw1) as (s' & -> & Hw' & Hs').
    exists s'. split_and!; [done..|]. rewrite Hs', Hs1, <- app_assoc. done.
Qed.

Lemma transfer_app ps qs s : transfer (ps ++ qs) s = s' ← transfer ps s; transfer qs s'.
Proof.
  revert s. induction ps as [|p ps IH]; intros s; [done|]. cbn [app transfer].
  destruct (recv text p a pt s); [apply IH|done].
Qed.

Lemma stream_writing k ps ks s :
  stream k ps ks -> writing k s -> (1 <= k)%nat ->
  exists s', transfer ps s = Some s' /\ idle s' /\ stores (trace s') F /\
    sent (trace s') = sent (trace s) ++ ((fun k => (a, pt, ack_bytes k)) <$> ks).
Proof.
  intros H. revert s. induction H as [k p Hk Hp|k p dups ps ks Hk Hp Hd _ IH]; intros s Hw H1;
    destruct (recv_data_next k p s Hw ltac:(lia) Hp) as (s1 & E & Hs1 & Hn); cbn [transfer]; rewrite E;
    cbn [mbind option_bind].
  - rewrite decide_False in Hn by lia. destruct Hn as [Hi Hf]. by exists s1.
  - rewrite decide_True in Hn by lia.
    destruct (dups_writing k dups s1 Hn ltac:(lia) Hd) as (s2 & E2 & Hw2 & Hs2).
    rewrite transfer_app, E2. cbn [mbind option_bind].
    destruct (IH s2 Hw2 ltac:(lia)) as (s3 & E3 & Hi & Hf & Hs3).
    exists s3. split_and!; [done..|]. rewrite Hs3, Hs2, Hs1. cbn [fmap list_fmap].
    rewrite fmap_app, fmap_replicate, <- !app_assoc. done.
Qed.

(** After the transfer, a data packet is refused, whatever its block. *)
Lemma late_data k chunk ps s :
  idle s -> Forall (fun q => carries q (data_bytes k chunk)) ps ->
  exists s', transfer ps s = Some s' /\ idle s' /\
    (forall W, stores (trace s) W -> stores (trace s') W) /\
    sent (trace s') = sent (trace s) ++
      replicate (length ps) (a, pt, error_bytes TFTP_ERROR_ACCESS_VIOLATION (text 5)).
Proof.
  intros Hi H. revert s Hi. induction H as [|q ps Hq _ IH]; intros s (Hh & Hl & Ha & Hp).
  - exists s. rewrite app_nil_r. split_and!; done.
  - pose proof (carries_sbuf q _ 0 Hq ltac:(lia)) as Hop. cbn [transfer].
    unfold recv. rewrite Hp, Ha. cbn [Z.eqb negb andb orb]. rewrite Hop. cbn [mbind option_bind].
    change (of_le (take 2 (drop (2 * 0) (data_bytes k chunk)))) with (htons TFTP_DATA).
    change (htons TFTP_DATA =? htons TFTP_RRQ) with false. change (htons TFTP_DATA =? htons TFTP_WRQ) with false.
    rewrite Z.eqb_refl. cbv iota. unfold recv_data. cbn [handle set_retries set_last_pkt]. rewrite Hh. cbn [negb].
    unfold send_error. rewrite send_new_run, !wire_head.
    fold (error_bytes TFTP_ERROR_ACCESS_VIOLATION (text 5)). cbn [mbind option_bind].
    match goal with |- context [transfer ps ?s1] => destruct (IH s1) as (s' & E & Hi' & Hst & Hse) end; [by split_and!|].
    exists s'. split_and!; [exact E|apply Hi'..| |].
    + intros W HW. apply Hst. exact HW.
    + rewrite Hse. cbn [trace tlog sent set_retries set_last_pkt length replicate]. by rewrite <- app_assoc.
Qed.
End Write.
End Transfer.

(** C27. Reading a file.  From the idle state, a request for a file and an
    acknowledgement of each block, in datagrams cut up in any way, make the
    server send exactly the blocks of the file, numbered from 1 (modulo 2^16)
    and each once, the last shorter than 512 bytes: together they are the
    file, of any length, the empty one and those beyond 65535 blocks
    included.  Then the file is closed and the server idle again. *)
Theorem tftp_read_transfer {env : TftpEnv} `{!LwipOk env} text a pt F fname rrq acks s :
  idle s -> serves F -> (forall tr, env_open tr fname false = true) ->
  Forall (fun c => c <> 0) fname -> (length fname <= 20)%nat ->
  carries rrq (request TFTP_RRQ fname) ->
  Forall2 (fun k p => carries p (ack_bytes k)) (seq 1 (nblocks F)) acks ->
  exists s' ds,
    transfer text a pt (rrq :: acks) s = Some s' /\ idle s' /\
    sent (trace s') = sent (trace s) ++ ((fun d => (a, pt, d)) <$> ds) /\
    ds = (fun k => data_bytes k (block F k)) <$> seq 1 (nblocks F) /\
    concat (drop 4 <$> ds) = F.
Proof.
  intros Hi Hs Ho Hf Hl Hr Hacks.
  destruct (recv_request_run text a pt false rrq fname s Hi Hr Hf Hl (Ho _))
    as (s1 & E & Hh & Ha & Hp & Hb & _ & Ht).
  destruct (send_data_reading text a pt F Hs 1 (set_mode_write 0 s1)) as [H1 S1]; try done.
  { cbn. by rewrite Ht. }
  destruct (acks_reading text a pt F Hs (length F / 512) 1 acks _ H1) as (s' & Et & Hi' & Hs');
    [lia|done|exact Hacks|].
  exists s', ((fun k => data_bytes k (block F k)) <$> seq 1 (nblocks F)).
  cbn [transfer]. rewrite E. cbn [mbind option_bind]. split_and!; [done..| |done|].
  - rewrite Hs', S1. cbn [trace set_mode_write]. rewrite Ht. cbn [sent].
    by rewrite <- list_fmap_compose, <- app_assoc.
  - rewrite <- list_fmap_compose. exact (blocks_concat F).
Qed.

(** C26. Writing a file.  From the idle state, a write request followed by the
    blocks of a file in order, each but the last repeated any number of times
    before the next one is sent (as a client does whose acknowledgement was
    lost), make the server write the file: each block exactly once, in order.
    Every one of these datagrams, the repeated ones included, is answered by
    the acknowledgement of its block and by nothing else; after the last block
    the file is closed and the server idle.  From there on the last block is
    refused: a client that repeats it, as when the last acknowledgement was
    lost, is told of an access violation each time, and nothing is written.
    The file on the card then begins with what the client sent; it is not
    truncated, and what an older, longer file held beyond it stays. *)
Theorem tftp_write_transfer {env : TftpEnv} `{!LwipOk env} text a pt F fname wrq ps ks lates s :
  idle s -> (forall tr bs, env_write tr bs = Some (Z.of_nat (length bs))) ->
  (forall tr, env_open tr fname true = true) ->
  Forall (fun c => c <> 0) fname -> (length fname <= 20)%nat ->
  carries wrq (request TFTP_WRQ fname) -> stream F 1 ps ks ->
  Forall (fun q => carries q (data_bytes (nblocks F) (block F (nblocks F)))) lates ->
  exists s1 s',
    transfer text a pt (wrq :: ps) s = Some s1 /\ idle s1 /\
    transfer text a pt lates s1 = Some s' /\ idle s' /\
    written (trace s') = F /\ (forall old, (on_card old (trace s')).2 = F ++ drop (length F) old) /\
    sent (trace s') = sent (trace s) ++ ((fun k => (a, pt, ack_bytes k)) <$> 0%nat :: ks) ++
      replicate (length lates) (a, pt, error_bytes TFTP_ERROR_ACCESS_VIOLATION (text 5)).
Proof.
  intros Hi Hw Ho Hf Hl Hr Hps Hlates.
  destruct (recv_request_run text a pt true wrq fname s Hi Hr Hf Hl (Ho _))
    as (s1 & E & Hh & Ha & Hp & Hb & Hd & Ht).
  set (s2 := send_ack 0 (set_mode_write 1 s1)) in *.
  assert (s2 = tlog (TSendto a pt (ack_bytes 0)) (tlog (TAlloc 4 true) (set_mode_write 1 s1))) as Es2.
  { unfold s2, send_ack. cbn [addr port set_mode_write]. by rewrite Ha, Hp, send_new_run. }
  assert (writing a pt F 1 s2) as H1.
  { rewrite Es2. split_and!; try done; cbn; by rewrite Ht. }
  destruct (stream_writing text a pt F Hw 1 ps ks s2 Hps H1 ltac:(lia)) as (s3 & Et & Hi' & Hf' & Hs').
  destruct (late_data text a pt _ _ lates s3 Hi' Hlates) as (s' & El & Hil & Hst & Hsl).
  destruct (Hst F Hf') as [Hwr Hcard].
  exists s3, s'. cbn [transfer]. rewrite E. cbn [mbind option_bind]. split_and!; try done; try apply Hi'; try apply Hil.
  - intros old. by rewrite Hcard.
  - rewrite Hsl, Hs', Es2. cbn [trace tlog sent set_mode_write]. rewrite Ht. cbn [sent].
    by rewrite <- !app_assoc.
Qed.

(** ** A card with one file *)

Definition file_env (F : list Z) : TftpEnv := {|
  env_alloc _ _ := true;
  env_open _ _ _ := true;
  env_read tr n := Some (take (Z.to_nat n) (drop (read_pos tr) F));
  env_write _ bs := Some (Z.of_nat (length bs));
  pbuf_memfind p _ off :=
    match find_nul (drop (Z.to_nat off) (concat p)) with Some i => off + i | None => 0xFFFF end;
  pbuf_copy_partial p n off := take (Z.to_nat n) (drop (Z.to_nat off) (concat p));
  pbuf_remove_header p n :=
    match p with
    | seg :: rest => if n <=? Z.of_nat (length seg) then drop (Z.to_nat n) seg :: rest else p
    | [] => []
    end
|}.

#[export] Instance file_env_ok F : LwipOk (file_env F).
Proof.
  split; try done. intros seg rest n [_ H]. cbn. destruct (Z.leb_spec n (Z.of_nat (length seg))); [done|lia].
Qed.

Definition boot_bin : list Z := [66; 79; 79; 84; 46; 66; 73; 78].

Lemma tftp_read_transfer_witness :
  let F := replicate 700 7 in
  exists s', transfer (env := file_env F) (fun _ => []) 9 2000
    [[request TFTP_RRQ boot_bin]; [ack_bytes 1]; [ack_bytes 2]] tftp_init = Some s' /\
    sent (trace s') = [(9, 2000, data_bytes 1 (replicate 512 7)); (9, 2000, data_bytes 2 (replicate 188 7))].
Proof.
  intros F.
  destruct (tftp_read_transfer (env := file_env F) (fun _ => []) 9 2000 F boot_bin
    [request TFTP_RRQ boot_bin] [[ack_bytes 1]; [ack_bytes 2]] tftp_init) as (s' & ds & E & _ & Hs & -> & _).
  - done.
  - intros tr. reflexivity.
  - reflexivity.
  - by_compute.
  - cbn. lia.
  - split; [reflexivity|cbn; lia].
  - change (seq 1 (nblocks F)) with [1%nat; 2%nat].
    repeat constructor; vm_compute; lia.
  - exists s'. split; [exact E|]. rewrite Hs. reflexivity.
Defined.

Lemma tftp_write_transfer_witness :
  let F := replicate 512 7 ++ [1; 2; 3] in
  let last := [big_endian 2 TFTP_DATA ++ [0; 2]; [1; 2]; []; [3]] in
  exists s1 s', transfer (env := file_env []) (fun _ => []) 9 2000
    [[request TFTP_WRQ boot_bin]; [data_bytes 1 (replicate 512 7)];
     [data_bytes 1 (replicate 512 7)]; last] tftp_init = Some s1 /\
    transfer (env := file_env []) (fun _ => []) 9 2000 [last] s1 = Some s' /\
    written (trace s') = F /\ (on_card (replicate 600 8) (trace s')).2 = F ++ replicate 85 8.
Proof.
  intros F last.
  destruct (tftp_write_transfer (env := file_env []) (fun _ => []) 9 2000 F boot_bin
    [request TFTP_WRQ boot_bin]
    ([data_bytes 1 (replicate 512 7)] :: [[data_bytes 1 (replicate 512 7)]] ++ [last])
    (1%nat :: replicate 1 1%nat ++ [2%nat]) [last] tftp_init) as (s1 & s' & E & _ & El & _ & Hw & Hc & _).
  - done.
  - reflexivity.
  - reflexivity.
  - by_compute.
  - cbn. lia.
  - split; [reflexivity|cbn; lia].
  - apply (stream_next F 1 _ [[data_bytes 1 (replicate 512 7)]] [last] [2%nat]).
    + vm_compute. lia.
    + split; [reflexivity|cbn; lia].
    + constructor; [|constructor]. split; [reflexivity|cbn; lia].
    + apply stream_last; [reflexivity|]. split; [reflexivity|cbn; lia].
  - constructor; [|constructor]. split; [reflexivity|cbn; lia].
  - exists s1, s'. split; [exact E|]. split; [exact El|]. split; [exact Hw|]. rewrite Hc. reflexivity.
Defined.
