(* ===== verification/TftpFiles.v ===== *)
(** * The files and timers of the TFTP server

    [tftp_server.c] as a state machine: datagrams from anyone, with any
    contents, and expirations of its timer, in any order, with any behaviour
    of lwIP and of the file system.  Its one file object is used as it must
    be, and its timers are counted. *)

From Stdlib Require Import ZArith Lia Bool.
From stdpp Require Import base list numbers relations.
From S2P Require Import Prelude Tftp.

#[local] Open Scope Z_scope.

(** A datagram, or the timer. *)
Inductive tftp_step {env : TftpEnv} (text : Z -> list Z) : tftp_state -> tftp_state -> Prop :=
| step_recv p a pt s s' : recv text p a pt s = Some s' -> tftp_step text s s'
| step_tmr s : tftp_step text s (tftp_tmr s).

(** Whether the file object is open, after the events [tr]. *)
Fixpoint opened (tr : list tev) : bool :=
  match tr with
  | [] => false
  | TOpen _ _ ok :: _ => ok
  | TClose :: _ => false
  | _ :: tr => opened tr
  end.

(** It is opened only when it is not open, and read, written and closed only
    when it is. *)
Fixpoint file_safe (tr : list tev) : Prop :=
  match tr with
  | [] => True
  | e :: tr => file_safe tr /\
      match e with
      | TOpen _ _ _ => opened tr = false
      | TRead _ _ | TWrite _ _ | TClose => opened tr = true
      | _ => True
      end
  end.

Definition files_inv (s : tftp_state) : Prop := file_safe (trace s) /\ opened (trace s) = handle s.

Section Files.
Context {env : TftpEnv} (text : Z -> list Z).

(** What leaves the file object alone. *)
Lemma inv_send a p bs s : files_inv s -> files_inv (send_new a p bs s).
Proof. intros [H1 H2]. unfold send_new. destruct (env_alloc _ _); by split. Qed.

Lemma handle_send a p bs s : handle (send_new a p bs s) = handle s.
Proof. unfold send_new. by destruct (env_alloc _ _). Qed.

Lemma inv_resend s : files_inv s -> files_inv (resend_data s).
Proof. unfold resend_data. destruct (last_data s); [apply inv_send|done]. Qed.

Lemma inv_close s : files_inv s -> files_inv (close_handle s) /\ handle (close_handle s) = false.
Proof.
  intros [H1 H2]. unfold close_handle. cbn. destruct (handle s) eqn:E; cbn.
  - split; [|done]. split; [|done]. cbn. split; [by split|exact H2].
  - split; [|exact E]. split; [by split|]. cbn. congruence.
Qed.

Lemma inv_send_data msg s : files_inv s -> handle s = true -> files_inv (send_data msg s).
Proof.
  intros [H1 H2] Hh. unfold send_data, tftp_sdcard_read. cbv zeta.
  destruct (env_alloc _ _); [|by split]. set (r := _ <$> env_read _ _). clearbody r. destruct r as [bs|].
  - apply inv_resend. split; [split; [by split|cbn; congruence]|exact H2].
  - apply inv_close, inv_send. split; [split; [by split|cbn; congruence]|exact H2].
Qed.

Lemma inv_write p s : files_inv s -> handle s = true ->
  files_inv (tftp_sdcard_write p s).2 /\ handle (tftp_sdcard_write p s).2 = true.
Proof.
  revert s. induction p as [|seg p IH]; intros s Hs Hh; cbn [tftp_sdcard_write]; [done|].
  destruct (_ =? 0)%nat; [done|]. destruct (_ =? 0)%nat; [by apply IH|].
  assert (forall r, files_inv (tlog (TWrite seg r) s)) as Hw.
  { intros r. destruct Hs as [H1 H2]. split; [split; [exact H1|cbn; congruence]|exact H2]. }
  destruct (env_write _ _) as [n|]; [|split; [apply Hw|exact Hh]].
  destruct (n =? _); [by apply IH|split; [apply Hw|exact Hh]].
Qed.

Lemma inv_request write p a pt s : files_inv s -> files_inv (recv_request text write p a pt s).
Proof.
  intros Hs. unfold recv_request, send_error. destruct (handle s) eqn:Hh; [by apply inv_send|].
  assert (files_inv (tlog TTimeout s)) as Ht by (destruct Hs; by split).
  destruct (_ <? _); [by apply inv_send|]. destruct (_ <? _); [by apply inv_send|].
  unfold tftp_sdcard_open. destruct (bool_decide _).
  - set (ok := env_open _ _ _). clearbody ok. cbv iota beta.
    set (s1 := set_blknum 1 (set_handle ok _)).
    assert (files_inv s1) as H1.
    { destruct Hs as [H1 H2]. split; [|done]. split; [by split|]. cbn. congruence. }
    destruct ok; cbn [negb]; [|by apply inv_send].
    assert (files_inv (set_peer a pt s1)) as H2 by exact H1.
    destruct write; [by apply inv_send|by apply inv_send_data].
  - cbn [negb]. apply inv_send. destruct Hs as [H1 H2]. split; [by split|]. cbn. congruence.
Qed.

Lemma inv_recv_data p a pt s s' : files_inv s -> recv_data text p a pt s = Some s' -> files_inv s'.
Proof.
  intros Hs. unfold recv_data, send_error. destruct (handle s) eqn:Hh; cbn [negb]; [|by intros [= <-]; apply inv_send].
  destruct (negb _); [by intros [= <-]; apply inv_send|].
  destruct (sbuf p 1) as [w|]; [|done]. cbn [mbind option_bind]. intros [= <-].
  destruct (htons w =? blknum s); [|destruct (_ =? _); by apply inv_send].
  pose proof (inv_write (pbuf_remove_header p TFTP_HEADER_LENGTH) s Hs Hh) as [Hw _].
  destruct (tftp_sdcard_write _ s) as [ok s1]. cbn [snd] in Hw.
  assert (files_inv (if ok then send_ack (htons w) s1 else close_handle (send_new a pt
    (to_le 2 (htons TFTP_ERROR) ++ to_le 2 (htons (error_code TFTP_ERROR_ACCESS_VIOLATION)) ++ text 7 ++ [0]) s1))) as H.
  { destruct ok; [by apply inv_send|by apply inv_close, inv_send]. }
  destruct (_ <? _); [by apply inv_close|exact H].
Qed.

Lemma inv_recv_ack p a pt s s' : files_inv s -> recv_ack text p a pt s = Some s' -> files_inv s'.
Proof.
  intros Hs. unfold recv_ack, send_error. destruct (handle s) eqn:Hh; cbn [negb]; [|by intros [= <-]; apply inv_send].
  destruct (negb _); [by intros [= <-]; apply inv_send|].
  destruct (sbuf p 1) as [w|]; [|done]. cbn [mbind option_bind]. intros [= <-].
  destruct (negb (htons w =? blknum s)); [by apply inv_send|].
  destruct (negb _); [by apply inv_send_data|by apply inv_close].
Qed.

Lemma inv_step s s' : files_inv s -> tftp_step text s s' -> files_inv s'.
Proof.
  intros Hs Hst. destruct Hst as [p a pt s s' E|s].
  - unfold recv in E. destruct (_ || _); [injection E as <-; by apply inv_send|].
    destruct (sbuf p 0) as [op|]; [|done]. cbn [mbind option_bind] in E.
    assert (files_inv (set_retries 0 (set_last_pkt (timer s) s))) as H by exact Hs.
    repeat destruct (op =? _) in E; try (injection E as <-; by apply inv_request);
      [by eapply inv_recv_data|by eapply inv_recv_ack|injection E as <-; by apply inv_send].
  - unfold tftp_tmr. assert (files_inv (set_timer (timer s + 1) s)) as H by exact Hs.
    destruct (negb _); [exact H|].
    assert (files_inv (tlog TTimeout (set_timer (timer s + 1) s))) as H' by (destruct Hs; by split).
    destruct (_ <? _); [|exact H'].
    destruct (last_data _); [destruct (_ <? _)|]; [by apply inv_resend|by apply inv_close..].
Qed.
End Files.

(** C28. The file of the TFTP server.  From the initial state, whatever datagrams
    arrive from whomever, malformed or out of order, and whenever its timer
    expires, with any answers of lwIP and of the file system: the file object
    is opened only when it is closed, read, written and closed only when it is
    open, and [handle] tells whether it is; [tftp_cleanup] leaves nothing
    open. *)
Theorem tftp_files_safe {env : TftpEnv} text s :
  rtc (tftp_step text) tftp_init s ->
  file_safe (trace s) /\ opened (trace s) = handle s /\
  file_safe (trace (tftp_cleanup s)) /\ opened (trace (tftp_cleanup s)) = false.
Proof.
  intros H. assert (files_inv s) as Hs.
  { assert (files_inv tftp_init) as H0 by by split. revert H0.
    induction H as [x|x y z Hxy _ IH]; intros Hx; [exact Hx|]. eapply IH, inv_step; eassumption. }
  destruct (inv_close (tlog TRemove s)) as [[H1 H2] H3]; [by destruct Hs|]. destruct Hs as [Hs1 Hs2].
  split; [exact Hs1|]. split; [exact Hs2|]. split; [exact H1|]. rewrite H3 in H2. exact H2.
Qed.

(** A file of 4 bytes is asked for, in a second request after one with a name
    that is too long; its one block goes out, a stray acknowledgement of
    block 7 is refused. *)
Definition long_request : list Z := big_endian 2 TFTP_RRQ ++ replicate 30 65 ++ 0 :: octet ++ [0].
Definition no_text (_ : Z) : list Z := [].
Definition files_run : option tftp_state :=
  let recv bs := recv (env := file_env [1; 2; 3; 4]) no_text [bs] 5 2000 in
  s1 ← recv long_request tftp_init;
  s2 ← recv (request TFTP_RRQ boot_bin) s1;
  recv (ack_bytes 7) s2.

Lemma tftp_files_safe_witness :
  exists s, files_run = Some s /\ handle s = true /\ opened (trace s) = true /\
    opened (trace (tftp_cleanup s)) = false.
Proof.
  eexists. split; [vm_compute; reflexivity|].
  match goal with |- handle ?x = true /\ _ => set (s := x) end.
  destruct (tftp_files_safe (env := file_env [1; 2; 3; 4]) no_text s) as (_ & Ho & _ & Hc).
  - eapply rtc_l; [eapply (step_recv (env := file_env [1; 2; 3; 4]) no_text [long_request] 5 2000); vm_compute; reflexivity|].
    eapply rtc_l; [eapply (step_recv (env := file_env [1; 2; 3; 4]) no_text [request TFTP_RRQ boot_bin] 5 2000); vm_compute; reflexivity|].
    apply rtc_once. eapply (step_recv (env := file_env [1; 2; 3; 4]) no_text [ack_bytes 7] 5 2000). vm_compute. reflexivity.
  - split; [reflexivity|]. split; [rewrite Ho; reflexivity|exact Hc].
Defined.

(** ** Timers *)

(** The timers started and not stopped. *)
Fixpoint armed (tr : list tev) : Z :=
  match tr with
  | [] => 0
  | TTimeout :: tr => armed tr + 1
  | TUntimeout :: tr => armed tr - 1
  | _ :: tr => armed tr
  end.

Lemma armed_send {env : TftpEnv} a p bs s : armed (trace (send_new a p bs s)) = armed (trace s).
Proof. unfold send_new. by destruct (env_alloc _ _). Qed.

(** A request that is refused leaves its timer running, although nothing is
    transferred. *)
Lemma refused_request_armed {env : TftpEnv} text write p a pt s :
  handle s = false -> TFTP_MAX_FILENAME_LEN + 1 < u16 (pbuf_memfind p [0] 2 - 1) ->
  let s' := recv_request text write p a pt s in
  handle s' = false /\ armed (trace s') = armed (trace s) + 1.
Proof.
  intros Hh Hl. unfold recv_request. rewrite Hh. destruct (Z.ltb_spec (TFTP_MAX_FILENAME_LEN + 1) (u16 (pbuf_memfind p [0] 2 - 1))); [|lia].
  unfold send_error. rewrite handle_send, armed_send. split; [exact Hh|reflexivity].
Qed.

(** In the run above, in which no timer expired, the transfer has two of them,
    and each starts itself again: its time-outs come twice as fast. *)
Lemma two_timers : exists s, files_run = Some s /\ handle s = true /\ armed (trace s) = 2.
Proof. eexists. split; [vm_compute; reflexivity|by split]. Qed.
