(* ===== verification/Discover.v ===== *)
(** * Discovery responder ([discover.c])

    A client finds the controllers of a network by a PSC message 1234 to UDP
    port 3000; each answers with its build number.  The responder runs on the
    TCP/IP thread; what it does with a datagram is the list of its calls of
    lwIP. *)

From Stdlib Require Import ZArith Lia Bool.
From stdpp Require Import base list numbers.
From S2P Require Import Prelude PscMsg.

#[local] Open Scope Z_scope.

(** The two buffers of [disco_recv]. *)
Inductive buffer := Request | Answer.

Inductive call :=
| PbufAlloc (ok : bool)
| PbufChain                      (* the static reply, appended to the answer *)
| UdpSendto (bs : list Z)
| PbufFree (b : buffer).

(** [sizeof(msg)]: the header and the union, padded to the alignment of a
    [uint32_t]. *)
Definition sizeof_msg : Z := 12.

(** [disco_reply]: the header, the hash, the serial number and two bytes of
    padding. *)
Definition disco_reply (git_hash : Z) : list Z :=
  [80; 83] ++ to_le 2 (htons 1234) ++ to_le 4 (htonl 8) ++
  to_le 4 (htonl git_hash) ++ to_le 2 0 ++ [0; 0].

Section Discover.
Context (pbuf_copy_partial : list (list Z) -> Z -> Z -> list Z) (alloc_ok : bool).

(** [disco_recv]; the address it answers to is that of the request. *)
Definition disco_recv (git_hash : Z) (p : list (list Z)) : list call :=
  let msg := pbuf_copy_partial p sizeof_msg 0 in
  let n := Z.of_nat (length msg) in
  if (n <? 8) || negb (nth 0 msg 0 =? 80) || negb (nth 1 msg 0 =? 83) then []
  else
    let msgid := htons (of_le (take 2 (drop 2 msg))) in
    let msglen := htonl (of_le (take 4 (drop 4 msg))) in
    if u32 (n - 8) <? msglen then []
    else if negb (msgid =? 1234) then []
    else if alloc_ok
    then [PbufAlloc true; PbufChain; UdpSendto (disco_reply git_hash); PbufFree Answer]
    else [PbufAlloc false].
End Discover.

(** ** Facts *)

Lemma disco_reply_frame git_hash :
  disco_reply git_hash = frame 1234 (big_endian 4 git_hash ++ [0; 0; 0; 0]).
Proof.
  unfold frame, disco_reply, htons, htonl. rewrite length_app, length_big_endian, !to_le_bswap. reflexivity.
Qed.

(** The fields of a header, read back. *)
Lemma header_fields mid len rest :
  is_u 16 mid -> is_u32 len ->
  let msg := [80; 83] ++ big_endian 2 mid ++ big_endian 4 len ++ rest in
  htons (of_le (take 2 (drop 2 msg))) = mid /\ htonl (of_le (take 4 (drop 4 msg))) = len.
Proof.
  intros Hm Hl msg.
  assert (drop 2 msg = big_endian 2 mid ++ big_endian 4 len ++ rest) as E2 by done.
  assert (drop 4 msg = big_endian 4 len ++ rest) as E4.
  { change 4%nat with (2 + 2)%nat at 1. by rewrite <- drop_drop, E2, drop_app_length' by (by rewrite length_big_endian). }
  rewrite E2, E4, !take_app_length' by (by rewrite length_big_endian). split.
  - etransitivity; [exact (htons_htons mid)|]. by apply wrap_small.
  - etransitivity; [exact (htonl_htonl len)|]. by apply wrap_small.
Qed.

(** C32. Discovery.  To a well-formed PSC message, in a datagram cut up in any
    way, the responder answers exactly when the message is 1234 with at most
    four bytes of payload (the request proper has two) and a buffer is
    available; the answer is itself a well-formed message 1234 that carries
    the build number.  A longer payload is taken for a truncated one and
    ignored.  On no path is the buffer of the request released, although lwIP
    passes its ownership to the receive callback. *)
Theorem disco_recv_spec copy ok git_hash p mid body :
  (forall p n off, 0 <= n -> 0 <= off -> copy p n off = take (Z.to_nat n) (drop (Z.to_nat off) (concat p))) ->
  is_u 16 mid -> Z.of_nat (length body) < 2 ^ 32 -> concat p = frame mid body ->
  disco_recv copy ok git_hash p =
    (if (mid =? 1234) && (Z.of_nat (length body) <=? 4) then
       if ok then [PbufAlloc true; PbufChain;
                   UdpSendto (frame 1234 (big_endian 4 git_hash ++ [0; 0; 0; 0])); PbufFree Answer]
       else [PbufAlloc false]
     else []) /\
  PbufFree Request ∉ disco_recv copy ok git_hash p.
Proof.
  intros Hcopy Hm Hl Hp.
  match goal with |- ?l = ?r /\ _ => assert (l = r) as E; [|split; [exact E|rewrite E]] end.
  - unfold disco_recv. rewrite Hcopy, Hp by done. change (drop (Z.to_nat 0) ?x) with x.
    assert (take (Z.to_nat sizeof_msg) (frame mid body) =
      [80; 83] ++ big_endian 2 mid ++ big_endian 4 (Z.of_nat (length body)) ++ take 4 body) as ->.
    { unfold frame. change (Z.to_nat sizeof_msg) with 12%nat. rewrite !app_assoc. rewrite take_app_ge.
      - rewrite !length_app, !length_big_endian. done.
      - rewrite !length_app, !length_big_endian. cbn. lia. }
    destruct (header_fields mid (Z.of_nat (length body)) (take 4 body) Hm ltac:(unfold is_u; lia)) as [-> ->].
    rewrite !length_app, !length_big_endian, length_take. change (length [80; 83]) with 2%nat.
    change (nth 0 ([80; 83] ++ ?x) 0) with 80. change (nth 1 ([80; 83] ++ ?x) 0) with 83.
    set (n := Nat.min 4 (length body)).
    replace (Z.of_nat (2 + (2 + (4 + n)))) with (8 + Z.of_nat n) by lia.
    destruct (Z.ltb_spec (8 + Z.of_nat n) 8); [lia|]. cbn [orb negb Z.eqb Pos.eqb].
    replace (8 + Z.of_nat n - 8) with (Z.of_nat n) by lia.
    unfold u32. rewrite wrap_small by (unfold is_u; change (2 ^ 32) with 4294967296; lia). rewrite disco_reply_frame.
    destruct (Z.ltb_spec (Z.of_nat n) (Z.of_nat (length body))), (Z.leb_spec (Z.of_nat (length body)) 4);
      try lia; destruct (mid =? 1234); done.
  - intros Hin. destruct (_ && _), ok;
      repeat (apply elem_of_cons in Hin as [Hin|Hin]; [discriminate|]); by apply elem_of_nil in Hin.
Qed.

(** lwIP's [pbuf_copy_partial]. *)
Definition copy_partial (p : list (list Z)) (n off : Z) : list Z :=
  take (Z.to_nat n) (drop (Z.to_nat off) (concat p)).

Lemma disco_recv_spec_witness :
  disco_recv copy_partial true 0x1234567 [[80; 83; 4]; [210; 0; 0; 0; 2; 0; 0]] =
    [PbufAlloc true; PbufChain;
     UdpSendto [80; 83; 4; 210; 0; 0; 0; 8; 1; 35; 69; 103; 0; 0; 0; 0]; PbufFree Answer] /\
  disco_recv copy_partial true 0x1234567 [[80; 83; 4; 210; 0; 0; 0; 6]; [0; 0; 0; 0; 0; 0]] = [].
Proof.
  destruct (disco_recv_spec copy_partial true 0x1234567 [[80; 83; 4]; [210; 0; 0; 0; 2; 0; 0]]
    1234 [0; 0]) as [H1 _]; [done|done|done|done|].
  destruct (disco_recv_spec copy_partial true 0x1234567 [[80; 83; 4; 210; 0; 0; 0; 6]; [0; 0; 0; 0; 0; 0]]
    1234 [0; 0; 0; 0; 0; 0]) as [H2 _]; [done|done|done|done|].
  split; [exact H1|exact H2].
Defined.
