(* ===== verification/Console.v ===== *)
(** * The serial console ([console.c])

    The operator's menu: the commands that change the EEPROM settings and
    reload the hardware flavour, the dumps, and the command line that runs a
    channel's setting.  What is printed is an event with the format and the
    arguments of the source (its escapes as they are written there). *)

From Stdlib Require Import ZArith Lia Bool String Floats.SpecFloat.
From stdpp Require Import base list numbers strings.
From S2P Require Import Prelude CString CFloat Registers World Logic Sim Scaling I2c Control.

#[local] Open Scope Z_scope.
#[local] Open Scope flt_scope.

Definition MAX_INPUT_LEN : nat := 64.
Definition MAX_TASKS : nat := 16.

Section Console.
Context {env : Env}.

(** ** The other tasks

    The console's task has a lower priority than the network thread's
    ([console_setup]), so whenever it waits or prints other tasks may run:
    [yield] is what they do there.  It is an argument of every command; with
    [ret tt] the console is alone. *)
Context (yield : M unit).

Definition say (fmt : string) (args : list print_arg) : M unit := print fmt args ;; yield.

(** [vTaskDelay(pdMS_TO_TICKS(ms))] *)
Definition sleep (ms : Z) : M unit := vTaskDelay (pdMS_TO_TICKS ms) ;; yield.

(** [inbyte], which waits until there is a character. *)
Definition getc : M Z := yield ;; inbyte.

(** ** Input *)

(** A digit 0 or 1, or 255 for [(u8)-1]. *)
Definition get_binary_input : M Z :=
  let! c := getc in
  say "%c" [AInt c] ;;
  if c =? 48 then ret 0
  else if c =? 49 then ret 1
  else say "\r\nInvalid input. Please enter 0 or 1.\r\n" [] ;; ret (u8 (-1)).

(** A number that does not fit an [int] is undefined behaviour. *)
Definition atoi (s : list Z) : M Z :=
  match scan_dec s with
  | None => ret 0
  | Some (neg, n, _) => int_op (if neg then - n else n)
  end.

Fixpoint percent_loop (fuel : nat) (buf : list Z) : M Z :=
  match fuel with
  | O => stuck
  | S fuel =>
    let! c := getc in
    if (c =? 13) || (c =? 10) then say "\r\n" [] ;; atoi buf
    else if isdigit c && (length buf <? 16 - 1)%nat then
      say "%c" [AInt c] ;; percent_loop fuel (buf ++ [c])
    else percent_loop fuel buf
  end.

Definition get_percent_input : M Z := percent_loop env_patience [].

(** [while (!XUartPs_IsReceiveData(...)) vTaskDelay(...)] *)
Fixpoint wait_uart (fuel : nat) (ms : Z) : M unit :=
  match fuel with
  | O => stuck
  | S fuel =>
    let! b := XUartPs_IsReceiveData in
    if b then ret tt else sleep ms ;; wait_uart fuel ms
  end.

(** [n] is what is left of [max_len - 1] characters. *)
Fixpoint read_chars (n : nat) : M (list Z) :=
  match n with
  | O => ret []
  | S n =>
    wait_uart env_patience 1 ;;
    let! c := uart_rx in
    XUartPs_SendByte c ;;
    yield ;;
    if (c =? 13) || (c =? 10) then ret []
    else let! l := read_chars n in ret (c :: l)
  end.

(** The string left in the buffer. *)
Definition uart_read_line (max_len : nat) : M (list Z) :=
  let! l := read_chars (max_len - 1) in
  say "\r\n" [] ;;
  ret (cstr l).

(** The word a [%9s] conversion finds in what is typed. *)
Definition scan_word (s : list Z) : option (list Z) :=
  match take 9 (upto (fun c => negb (isspace c)) (skip isspace (u8 <$> s))) with
  | [] => None
  | word => Some word
  end.

(** [scanf("%9s", input)] into a fresh [char input[10]]. *)
Definition scanf_9s : M (list Z) :=
  let! input := uninit 10 in
  yield ;;
  let! r := gets (fun w => env_scanf (trace w) ≫= scan_word) in
  log (EScanf r) ;;
  ret (match r with Some word => overwrite (word ++ [0]) input | None => input end).

(** [strcmp(input, "yes") == 0] *)
Definition is_yes (input : list Z) : bool := bool_decide (cstr input = [121; 101; 115]).

(** ** Commands that print *)

Definition eeprom_dump : M unit :=
  let! rdBuf := i2c_eeprom_readBytes 0 128 in
  for_up 128 0 (fun i =>
    when (Z.rem i 16 =? 0) (say "\r\n0x%02x:  " [AInt i]) ;;
    say "%02x  " [AInt (nth (Z.to_nat i) rdBuf 0)]) ;;
  say "\r\n" [].

Definition dump_eeprom : M unit := say "Reading EEPROM...\r\n" [] ;; eeprom_dump.

Definition print_snapshot_stats : M unit :=
  let! ssbufptr := Xil_In32 (AXI + SNAPSHOT_ADDRPTR) in
  let! totaltrigs := Xil_In32 (AXI + SNAPSHOT_TOTALTRIGS) in
  say "BufPtr: %x\t TotalTrigs: %d\r\n" [AInt ssbufptr; AInt totaltrigs].

(** The text for a setting of 0 or 1. *)
Definition show_binary (val : Z) (zero one : string) : M unit :=
  if val =? 0 then say zero []
  else if val =? 1 then say one []
  else say "Invalid Setting\r\n" [].

Definition show_polarity (val ch : Z) : M unit :=
  let p := Z.land (Z.shiftr val ch) 1 in
  if p =? 0 then say "Polarity Ch%d: Bipolar\r\n" [AInt ch]
  else say "Polarity Ch%d: Unipolar\r\n" [AInt ch].

Definition display_settings : M unit :=
  let! rdBuf := i2c_eeprom_readBytes 0x10 16 in
  say "Number of Channels: " [] ;;
  show_binary (nth 0 rdBuf 0) "2\r\n" "4\r\n" ;;
  say "Resolution: " [] ;;
  show_binary (nth 1 rdBuf 0) "Medium\r\n" "High\r\n" ;;
  say "Bandwidth: " [] ;;
  show_binary (nth 2 rdBuf 0) "Fast\r\n" "Slow\r\n" ;;
  for_up 4 0 (show_polarity (Z.land (nth 3 rdBuf 0) 0x0F)) ;;
  (if nth 4 rdBuf 0 =? 0
   then say "Dual Mode is enabled for Ch3-Ch4 (Series Connected supplies)\r\n" []
   else say "Dual Mode is disabled for Ch3-Ch4\r\n" []) ;;
  (if nth 5 rdBuf 0 =? 0
   then say "Main Dipole Mode is enabled\r\n" []
   else say "Main Dipole Mode is disabled\r\n" []) ;;
  (if nth 6 rdBuf 0 =? 0
   then say "Smooth Ramp Type is Linear.  " [] ;;
        say "  Curved portion is %d%\r\n" [AInt (nth 7 rdBuf 0)]
   else say "Smooth Ramp Type is Cosine\r\n" []).

(** The letter of an [eTaskState]: running, ready, blocked, suspended, deleted. *)
Definition task_state (s : Z) : Z :=
  if s =? 0 then 82 else if s =? 1 then 89 else if s =? 2 then 66
  else if s =? 3 then 83 else if s =? 4 then 68 else 63.

(** [uxTaskGetSystemState] reports no task when the array is too small.  The
    load of a task is printed from its [float] bits. *)
Definition printTaskStats : M unit :=
  let! r := gets (fun w => env_tasks (trace w)) in
  let tasks := if (length r.1 <=? MAX_TASKS)%nat then r.1 else [] in
  let totalRunTime := u32 r.2 in
  say "\n%-16s %-6s %-5s %-12s %-12s %-8s\n"
    (AStr <$> (str <$> ["Task"; "State"; "Prio"; "Stack Free"; "Runtime"; "%%CPU"]%list)) ;;
  seq_all ((fun t =>
    let cpuPercent := if 0 <? totalRunTime
                      then fofZ single (u32 (ulRunTimeCounter t)) *s fofZ single 100 /s fofZ single totalRunTime
                      else fofZ single 0 in
    say "%-16s %-6c %-5lu %-12lu %-12lu %6.2f%%\n"
      [AStr (pcTaskName t); AInt (task_state (eCurrentState t)); AInt (uxCurrentPriority t);
       AInt (usStackHighWaterMark t); AInt (u32 (ulRunTimeCounter t)); AInt (bits_of_f32 cpuPercent)]) <$> tasks).

(** ** Commands that change the EEPROM *)

Definition clear_eeprom : M unit :=
  say "Are you sure you want to clear the EEPROM? Type 'yes' to proceed: " [] ;;
  let! input := scanf_9s in
  if negb (is_yes input) then say "\r\nEEPROM clear aborted.\r\n" []
  else
    say "\r\nClearing EEPROM\r\n" [] ;;
    for_up 128 0 (fun i =>
      i2c_eeprom_writeBytes i [0xFF] ;;
      say "Clearing Address: %d\r\n" [AInt i] ;;
      usleep 10000 ;;
      yield).

Definition test_eeprom : M unit :=
  say "Are you sure you want to write a test pattern the EEPROM? Type 'yes' to proceed: " [] ;;
  let! input := scanf_9s in
  if negb (is_yes input) then say "\r\nEEPROM clear aborted.\r\n" []
  else
    say "\r\nWriting Test Pattern to EEPROM\r\n" [] ;;
    for_up 128 0 (fun i =>
      i2c_eeprom_writeBytes (127 - i) [u8 i] ;;
      say "Writing Address: %d\r\n" [AInt i] ;;
      usleep 10000 ;;
      yield).

(** A byte of the settings, and the pause for the EEPROM's write cycle. *)
Definition write_setting (addr val ms : Z) : M unit :=
  i2c_eeprom_writeBytes addr [val] ;;
  sleep ms.

(** The common form of the five commands that set one byte. *)
Definition set_binary (prompt : string) (addr : Z) : M unit :=
  say prompt [] ;;
  let! val := get_binary_input in
  when (negb (val =? u8 (-1))) (say "\r\n" [] ;; write_setting addr val 10) ;;
  ReadHardwareFlavor.

Definition set_numchans : M unit :=
  set_binary "\r\nSet Number of Channels of PSC: 0 = 2 Channel, 1 = 4 Channel  " 0x10.
Definition set_resolution : M unit :=
  set_binary "\r\nSet Resolution of PSC: 0 = Medium (18bit), 1 = High (20bit)  " 0x11.
Definition set_bandwidth : M unit :=
  set_binary "\r\nSet Bandwidth of PSC: 0 = Fast, 1 = Slow  " 0x12.
Definition set_dualmode : M unit :=
  set_binary "\r\nEnable Dual Mode for Ch3-Ch4: 0 = Enable, 1 = Disable  " 0x14.
Definition set_maindipole : M unit :=
  set_binary "\r\nEnable Main Dipole Mode 0 = Enable, 1 = Disable  " 0x15.

Definition set_percent : M unit :=
  say "Enter percent curved amount, 5 to 50: " [] ;;
  let! p := get_percent_input in
  let percent_curved := u8 p in
  if (5 <=? percent_curved) && (percent_curved <=? 50) then
    say "\r\nPercent curved set to %d\r\n" [AInt percent_curved] ;;
    write_setting 0x17 percent_curved 10
  else say "\r\nInvalid value. Percent curved must be between 5 and 40.\r\n" [].

Definition set_smoothramptype : M unit :=
  say "\r\nSet Smooth Ramp Type 0 = Linear, 1 = Cosine  " [] ;;
  let! val := get_binary_input in
  when (negb (val =? u8 (-1)))
    (say "\r\n" [] ;; write_setting 0x16 val 10 ;; when (val =? 0) set_percent) ;;
  ReadHardwareFlavor.

(** The four answers, [n] left to ask; [None] if one is not 0 or 1. *)
Fixpoint polarity_loop (n : nat) (ch polarity : Z) : M (option Z) :=
  match n with
  | O => ret (Some polarity)
  | S n =>
    say "\r\nChannel %d polarity: " [AInt ch] ;;
    let! val := get_binary_input in
    if val =? u8 (-1) then say "\r\nAborted.\r\n" [] ;; ret None
    else polarity_loop n (ch + 1) (u8 (Z.lor polarity (Z.shiftl (Z.land val 1) ch)))
  end.

Definition set_polarity : M unit :=
  say "\r\nSet Polarity of PSC per channel" [] ;;
  say "\r\n0 = Bipolar, 1 = Unipolar\r\n" [] ;;
  let! r := polarity_loop 4 0 0 in
  match r with
  | None => ret tt
  | Some polarity =>
    say "\r\nFinal polarity bitfield = 0x%X\r\n" [AInt polarity] ;;
    write_setting 0x13 polarity 100 ;;
    ReadHardwareFlavor
  end.

(** ** The command line *)

(** A [%u] conversion: too large a number is undefined behaviour. *)
Definition scan_uint (s : list Z) : M (option (Z * list Z)) :=
  match scan_dec s with
  | None => ret None
  | Some (neg, n, rest) =>
      if fits_unsigned 32 n then ret (Some (u32 (if neg then - n else n), rest)) else fail IntOverflow
  end.

(** [sscanf(input, "%u %u %31s", ...)], when it converts all three. *)
Definition scan_command (input : list Z) : M (option (Z * Z * list Z)) :=
  let! r1 := scan_uint input in
  match r1 with
  | None => ret None
  | Some (chan, s) =>
    let! r2 := scan_uint (skip isspace s) in
    match r2 with
    | None => ret None
    | Some (addr, s) =>
      match take 31 (upto (fun c => negb (isspace c)) (skip isspace s)) with
      | [] => ret None
      | val_str => ret (Some (chan, addr, val_str))
      end
    end
  end.

(** The data word: a [float]'s bits if there is a point, an integer if not. *)
Definition parse_value (val_str : list Z) : Z :=
  if existsb (Z.eqb 46) val_str then u32 (env_strtof val_str) else strtoul val_str.

Definition receive_console_cmd : M unit :=
  say "Enter:  <channel> <command> <value> \n" [] ;;
  let! input := uart_read_line MAX_INPUT_LEN in
  let! r := scan_command input in
  match r with
  | None => say "Invalid input.\n" []
  | Some (chan, addr, val_str) =>
    chan_settings chan (bytes_of_words [htonl addr; htonl (parse_value val_str)]) 8
  end.

(** ** The menu *)

Record menu_entry_t := Entry { entryCh : Z; entryStr : string; entryFunc : option (M unit) }.

(** [toupper] of a letter, in the C locale. *)
Definition upcase (c : Z) : Z := if (97 <=? c) && (c <=? 122) then c - 32 else c.

Fixpoint run_entry (m : list menu_entry_t) (choice : Z) : M unit :=
  match m with
  | [] => ret tt
  | e :: m =>
      if entryCh e =? choice then match entryFunc e with Some f => f | None => ret tt end
      else run_entry m choice
  end.

(** [fuel] turns of [while (!exit_flag)]. *)
Fixpoint exec_menu (fuel : nat) (head : option string) (m : list menu_entry_t) : M unit :=
  match fuel with
  | O => stuck
  | S fuel =>
    sleep 100 ;;
    say "\r\n%s\r\n" [AStr (str (default "Select:"%string head))] ;;
    seq_all ((fun e => say "  %c:  %s\r\n" [AInt (entryCh e); AStr (str (entryStr e))]) <$> m) ;;
    say "  Q:  quit\r\n" [] ;;
    wait_uart env_patience 10 ;;
    let! c := uart_rx in
    let choice := upcase c in
    say "%c\r\n\r\n" [AInt choice] ;;
    run_entry m choice ;;
    if choice =? 81 then ret tt else exec_menu fuel head m
  end.

Definition menu : list menu_entry_t :=
  [Entry 65 "Display PSC Settings" (Some display_settings);
   Entry 66 "Set Number of Channels (2 or 4)" (Some set_numchans);
   Entry 67 "Set Resolution (High or Medium)" (Some set_resolution);
   Entry 68 "Set Bandwidth (Fast or Slow)" (Some set_bandwidth);
   Entry 69 "Set Polarity (Bipolar or Unipolar)" (Some set_polarity);
   Entry 70 "Set Ch3-Ch4 to Dual Mode" (Some set_dualmode);
   Entry 71 "Set Main Dipole Mode" (Some set_maindipole);
   Entry 72 "Display Snapshot Stats" (Some print_snapshot_stats);
   Entry 73 "Print FreeRTOS Stats" (Some printTaskStats);
   Entry 74 "Dump EEPROM" (Some dump_eeprom);
   Entry 75 "Clear EEPROM" (Some clear_eeprom);
   Entry 76 "Test EEPROM" (Some test_eeprom);
   Entry 77 "Dave Bergman Calibration Mode" (Some receive_console_cmd);
   Entry 78 "Set Smooth Ramp Type (Linear, Cosine)" (Some set_smoothramptype)].

(** [turns] rounds of the endless loop; leaving the menu starts it again. *)
Definition console_menu (turns fuel : nat) : M unit :=
  for_up turns 0 (fun _ =>
    sleep 10 ;;
    say "Running PSC Menu (len = %ld)\r\n" [AInt (Z.of_nat (length menu))] ;;
    exec_menu fuel (Some "Select an option:"%string) menu).

(** [reboot], with the address of the Zynq's control registers. *)
Definition reboot (XPS_SYS_CTRL_BASEADDR : Z) : M unit :=
  say "\r\nAre you sure you want to reboot?\r\n" [] ;;
  say "Press 1 to continue, any other key to not reboot\r\n" [] ;;
  let! val := get_binary_input in
  when (val =? 1)
    (Xil_Out32 (Z.lor XPS_SYS_CTRL_BASEADDR 0x008) 0xDF0D ;;
     Xil_Out32 (Z.lor XPS_SYS_CTRL_BASEADDR 0x200) 0x1).
End Console.
