(* ===== verification/Operator.v ===== *)
(** * The operator at the console

    The characters typed, the promise [Keyboard] that they are those of a
    given sequence, and [Served], that a character comes before the console
    gives up waiting.  The rules say how the console's input and output
    behave when other tasks run in between: they keep any invariant that the
    console's own interactions and the other tasks keep ([Idles]). *)

From Stdlib Require Import ZArith Lia Bool String.
From stdpp Require Import base list numbers.
From S2P Require Import Prelude CString CFloat Registers World Logic Sim Console.

#[local] Open Scope Z_scope.

(** ** The keyboard *)

(** The characters typed so far, in order. *)
Fixpoint typed (tr : list event) : list Z :=
  match tr with
  | [] => []
  | EUartRx c :: tr => typed tr ++ [c]
  | _ :: tr => typed tr
  end.

(** How often the console looked in vain since the last character. *)
Fixpoint misses (tr : list event) : nat :=
  match tr with
  | [] | EUartRx _ :: _ => 0
  | EUartReady false :: tr => S (misses tr)
  | _ :: tr => misses tr
  end.

(** The operator types [S], in answer to each read of the console. *)
Class Keyboard (env : Env) (S : list Z) := {
  kb_bytes : bytes_ok S;
  kb_rx : forall tr c, S !! length (typed tr) = Some c -> env_uart_rx tr = c
}.

(** The console is served: a character arrives while it is waited for. *)
Class Served (env : Env) := {
  patient : (0 < env_patience)%nat;
  served : forall tr, (env_patience <= S (misses tr))%nat -> env_uart_ready tr = true
}.

(** What is left of the operator's input. *)
Definition rest_typed (S : list Z) (w : world) : list Z := drop (length (typed (trace w))) S.

(** Only the console looks at the keyboard. *)
Definition no_keyboard (e : event) : Prop :=
  match e with EUartReady _ | EUartRx _ => False | _ => True end.

Lemma no_keyboard_trace es tr : Forall no_keyboard es ->
  typed (es ++ tr) = typed tr /\ misses (es ++ tr) = misses tr.
Proof. induction 1 as [|e es He _ IH]; [done|]. by destruct e. Qed.

Lemma no_keyboard_keeps w w' : emits no_keyboard w w' ->
  typed (trace w') = typed (trace w) /\ misses (trace w') = misses (trace w).
Proof. intros (es & -> & H). by apply no_keyboard_trace. Qed.

(** The end of a line. *)
Definition is_eol (c : Z) : bool := (c =? 13) || (c =? 10).

Lemma cstr_no_nul l : Forall (fun c => c <> 0) l -> cstr l = l.
Proof.
  intros H. apply upto_all. eapply list.Forall_impl; [exact H|].
  intros c Hc. cbn beta. by destruct (Z.eqb_spec c 0).
Qed.

(** The console's own interactions. *)
Definition is_console (e : event) : Prop :=
  match e with
  | EUartReady _ | EUartRx _ | EUartTx _ | EPrint _ _ | ETaskDelay _ | EScanf _ | EDelay _ => True
  | _ => False
  end.

Definition console_only : world -> world -> Prop := both (keeps state_of) (emits is_console).

#[export] Instance console_only_order : WorldOrder console_only.
Proof. apply both_order; exact _. Qed.

Lemma console_push e w : is_console e -> console_only w (push e w).
Proof. intros H. split; [done|by apply emits_push]. Qed.

Lemma rx_run {env : Env} S `{!Keyboard env S} c inp w : rest_typed S w = c :: inp ->
  uart_rx w = Done c (push (EUartRx c) w) /\ rest_typed S (push (EUartRx c) w) = inp.
Proof.
  unfold rest_typed. intros Hi.
  assert (S !! length (typed (trace w)) = Some c) as Hl.
  { rewrite <- (Nat.add_0_r (length _)), <- lookup_drop, Hi. done. }
  split.
  - unfold uart_rx. rewrite (kb_rx _ c Hl), u8_small; [done|]. exact (Forall_lookup_1 _ _ _ _ kb_bytes Hl).
  - cbn. rewrite length_app. cbn. rewrite <- drop_drop, Hi. done.
Qed.

(** ** Waiting *)

(** [J] holds whenever the console waits: its own interactions and the other
    tasks keep it, where [E] describes a run that stops in another task. *)
Class Idles (yield : M unit) (J E : world -> Prop) := {
  idles_own : forall w w', console_only w w' -> J w -> J w';
  idles_yield : triple J yield (fun _ => J) E;
  idles_keys : respects (emits no_keyboard) yield
}.

Section Rules.
Context {env : Env} (S : list Z) `{!Keyboard env S} (yield : M unit) (J E : world -> Prop) `{!Idles yield J E}.

(** [inp] is still to be typed, and the console has looked in vain at
    least [m] times. *)
Definition waits (m : nat) (inp : list Z) (w : world) : Prop :=
  (rest_typed S w = inp /\ (m <= misses (trace w))%nat) /\ J w.
Definition typing (inp : list Z) (w : world) : Prop := rest_typed S w = inp /\ J w.

Lemma waits_typing inp w : waits 0 inp w <-> typing inp w.
Proof. unfold waits, typing. intuition lia. Qed.

Lemma waits_weaken m inp w : waits m inp w -> typing inp w.
Proof. unfold waits, typing. tauto. Qed.

Lemma waits_yield m inp : triple (waits m inp) yield (fun _ => waits m inp) E.
Proof.
  apply (triple_frame (emits no_keyboard)); [exact idles_keys| |exact idles_yield].
  intros w w' H. destruct (no_keyboard_keeps w w' H) as [Et Em]. unfold rest_typed. by rewrite Et, Em.
Qed.

Lemma typing_yield inp : triple (typing inp) yield (fun _ => typing inp) E.
Proof.
  eapply triple_conseq; [exact (waits_yield 0 inp)|intros w; apply waits_typing|intros ? w; apply waits_typing].
Qed.

Lemma waits_push e m inp w : no_keyboard e -> is_console e -> waits m inp w -> waits m inp (push e w).
Proof.
  intros Hk Hc [H Hj]. split; [by destruct e|]. exact (idles_own _ _ (console_push e w Hc) Hj).
Qed.

(** An interaction, and the other tasks. *)
Lemma waits_act e m inp : no_keyboard e -> is_console e ->
  triple (waits m inp) (log e ;; yield) (fun _ => waits m inp) E.
Proof.
  intros Hk Hc. eapply triple_bind with (R := fun _ => waits m inp); [|intros _; apply waits_yield].
  intros w Hw. by apply waits_push.
Qed.

Lemma typing_act e inp : no_keyboard e -> is_console e ->
  triple (typing inp) (log e ;; yield) (fun _ => typing inp) E.
Proof.
  intros Hk Hc.
  eapply triple_conseq; [exact (waits_act e 0 inp Hk Hc)|intros w; apply waits_typing|intros ? w; apply waits_typing].
Qed.

Lemma typing_say fmt args inp : triple (typing inp) (say yield fmt args) (fun _ => typing inp) E.
Proof. by apply typing_act. Qed.

Lemma typing_sleep ms inp : triple (typing inp) (sleep yield ms) (fun _ => typing inp) E.
Proof. by apply typing_act. Qed.

Lemma typing_rx c inp : triple (typing (c :: inp)) uart_rx (fun c' w => c' = c /\ typing inp w) E.
Proof.
  apply triple_wp. intros w [Hr Hj]. unfold wp. destruct (rx_run S c inp w Hr) as [-> Hr'].
  split; [done|]. split; [exact Hr'|]. by exact (idles_own _ _ (console_push (EUartRx c) w I) Hj).
Qed.

Lemma typing_tx c inp : triple (typing inp) (XUartPs_SendByte c) (fun _ => typing inp) E.
Proof. intros w [Hr Hj]. split; [exact Hr|]. by exact (idles_own _ _ (console_push (EUartTx c) w I) Hj). Qed.

Lemma typing_getc c inp : triple (typing (c :: inp)) (getc yield) (fun c' w => c' = c /\ typing inp w) E.
Proof. eapply triple_bind; [apply typing_yield|intros []; apply typing_rx]. Qed.

(** The wait ends, whatever the other tasks do in between. *)
Lemma waits_look `{!Served env} m inp : triple (waits m inp) XUartPs_IsReceiveData
  (fun b w => if b then typing inp w else waits (Datatypes.S m) inp w /\ (Datatypes.S m < env_patience)%nat) E.
Proof.
  intros w [[Hr Hw] Hj]. unfold XUartPs_IsReceiveData. cbv zeta.
  assert (forall b, J (push (EUartReady b) w)) as Hj' by (intros b; exact (idles_own _ _ (console_push (EUartReady b) w I) Hj)).
  destruct (env_uart_ready (trace w)) eqn:E1; [by split|].
  split; [split; [split; [exact Hr|cbn; lia]|apply Hj']|].
  destruct (Nat.lt_ge_cases (Datatypes.S m) env_patience) as [|H]; [done|]. rewrite served in E1; [done|lia].
Qed.

Lemma waits_wait `{!Served env} ms inp n m : (env_patience <= n + m)%nat -> (m < env_patience)%nat ->
  triple (waits m inp) (wait_uart yield n ms) (fun _ => typing inp) E.
Proof.
  revert m. induction n as [|n IH]; intros m Hm Hp; [lia|]. cbn [wait_uart].
  eapply triple_bind; [apply waits_look|]. intros []; [by intros w H|].
  intros w [Hw Hp']. revert w Hw.
  apply (triple_bind (waits (Datatypes.S m) inp) _ (fun _ => waits (Datatypes.S m) inp)); [by apply waits_act|].
  intros []. apply IH; lia.
Qed.

Lemma typing_wait `{!Served env} ms inp :
  triple (typing inp) (wait_uart yield env_patience ms) (fun _ => typing inp) E.
Proof.
  apply (triple_pre (waits 0 inp)); [|intros w; apply waits_typing].
  apply waits_wait; [lia|exact patient].
Qed.

(** A line, up to its end. *)
Lemma typing_read_chars `{!Served env} eol l : is_eol eol = true -> Forall (fun c => is_eol c = false) l ->
  forall n inp, (length l < n)%nat ->
  triple (typing (l ++ eol :: inp)) (read_chars yield n) (fun l' w => l' = l /\ typing inp w) E.
Proof.
  intros He Hl. induction Hl as [|c l Hc _ IH]; intros [|n] inp Hn; try (cbn in Hn; lia); cbn [read_chars app];
    (eapply triple_bind; [apply typing_wait|intros []]);
    (eapply triple_bind; [apply typing_rx|intros c']); apply triple_pure; intros ->;
    (eapply triple_bind; [apply typing_tx|intros []]); (eapply triple_bind; [apply typing_yield|intros []]).
  - fold (is_eol eol). rewrite He. by intros w H.
  - fold (is_eol c). rewrite Hc. eapply triple_bind; [apply IH; cbn in Hn; lia|].
    intros l'. apply triple_pure. intros ->. by intros w H.
Qed.

Lemma typing_read_line `{!Served env} eol l inp n : is_eol eol = true ->
  Forall (fun c => is_eol c = false /\ c <> 0) l -> (length l < n - 1)%nat ->
  triple (typing (l ++ eol :: inp)) (uart_read_line yield n) (fun l' w => l' = l /\ typing inp w) E.
Proof.
  intros He Hl Hn. apply list.Forall_and in Hl as [H1 H2]. unfold uart_read_line.
  eapply triple_bind; [by apply typing_read_chars|]. intros l'. apply triple_pure. intros ->.
  eapply triple_bind; [apply typing_say|]. intros []. rewrite (cstr_no_nul l H2). by intros w H.
Qed.
End Rules.
