(* ===== verification/Eeprom.v ===== *)
(** * The settings EEPROM as a device, and the settings as data

    A model of the 24AA025E48 driven by the I2C transactions of the trace, the
    promise [EepromOk] that the environment behaves like it, and the abstract
    state of the settings: the bytes of the EEPROM and the flavour in force.
    [holds] relates it to the program's state; the rules below say how the
    operations of [i2c.c] act on it. *)

From Stdlib Require Import ZArith Lia Bool.
From stdpp Require Import base list numbers gmap.
From S2P Require Import Prelude CFloat Registers World Logic Sim I2c Listener Operator.

#[local] Open Scope Z_scope.

(** ** The device *)

Record eeprom := Eeprom { cells : list Z; pointer : Z }.

(** A write stays in its page of 16 bytes and wraps around in it; the upper
    half of the device is write protected. *)
Fixpoint page_write (a : Z) (data : list Z) (e : eeprom) : eeprom :=
  match data with
  | [] => Eeprom (cells e) a
  | v :: data =>
      page_write (16 * (a / 16) + (a + 1) mod 16) data
        (Eeprom (if a <? 128 then <[Z.to_nat a := v]> (cells e) else cells e) (pointer e))
  end.

Definition eeprom_step (ev : event) (e : eeprom) : eeprom :=
  match ev with
  | EI2cSend bus dev (a :: data) =>
      if (bus =? 1) && (dev =? IIC_EEPROM_ADDR) then page_write a data e else e
  | EI2cRecv bus dev bs =>
      if (bus =? 1) && (dev =? IIC_EEPROM_ADDR)
      then Eeprom (cells e) ((pointer e + Z.of_nat (length bs)) mod 256) else e
  | _ => e
  end.

Fixpoint eeprom_state (ee0 : list Z) (tr : list event) : eeprom :=
  match tr with
  | [] => Eeprom ee0 0
  | ev :: tr => eeprom_step ev (eeprom_state ee0 tr)
  end.

(** A sequential read wraps around at the end. *)
Definition eeprom_read (e : eeprom) (n : nat) : list Z :=
  (fun i => nth (Z.to_nat ((pointer e + Z.of_nat i) mod 256)) (cells e) 0) <$> seq 0 n.

(** The environment has this device, first holding [ee0], on a bus that
    becomes free; a write cycle has ended by the next transaction. *)
Class EepromOk (env : Env) (ee0 : list Z) := {
  ee_size : length ee0 = 256%nat;
  ee_bytes : bytes_ok ee0;
  ee_recv : forall tr n, env_i2c_recv tr 1 IIC_EEPROM_ADDR n = eeprom_read (eeprom_state ee0 tr) n;
  ee_bus : forall w, exists w', wait_bus env_patience 1 w = Done tt w'
}.

(** ** The settings *)

(** The flavour registers, the ramp's percentage, and the volts-to-bits
    factors in force. *)
Record flavour := Flavour {
  numchans : Z; resolution : Z; bandwidth : Z; polarity : Z; dualmode : Z; dipole : Z;
  smooth : Z; percent : Z; v2d : Z; d2v : Z
}.

(** What the eight bytes at [0x10] mean. *)
Definition decode (b : list Z) (f : flavour) : flavour :=
  let b i := nth i b 0 in
  {| numchans := Z.min 2 (b 0%nat);
     resolution := Z.min 2 (b 1%nat);
     bandwidth := Z.min 2 (b 2%nat);
     polarity := b 3%nat mod 16;
     dualmode := Z.b2z (b 4%nat =? 0);
     dipole := Z.b2z (b 5%nat =? 0);
     smooth := Z.min 1 (b 6%nat);
     percent := if b 6%nat =? 0 then b 7%nat else 0;
     v2d := if b 1%nat =? 0 then 0x464CCCCD else if b 1%nat =? 1 then 0x474CCCCD else v2d f;
     d2v := if b 1%nat =? 0 then 0x38A00000 else if b 1%nat =? 1 then 0x37A00000 else d2v f |}.

Record settings := Settings { image : list Z; in_force : flavour }.

Definition settings_at (bs : list Z) : list Z := take 8 (drop 16 bs).
Definition put (a v : Z) (s : settings) : settings :=
  Settings (<[Z.to_nat a := v]> (image s)) (in_force s).
Definition reload (s : settings) : settings :=
  Settings (image s) (decode (settings_at (image s)) (in_force s)).

(** The registers and globals of the program show the flavour [f]. *)
Definition shows {env : Env} (f : flavour) (w : world) : Prop :=
  (let r off := last_write (AXI + off) (writes_of (trace w)) in
   r NUMCHANS_REG = Some (numchans f) /\ r RESOLUTION_REG = Some (resolution f) /\
   r BANDWIDTH_REG = Some (bandwidth f) /\ r POLARITY_REG = Some (polarity f) /\
   r CH34_DUALMODE_REG = Some (dualmode f) /\ r MAIN_DIPOLE_MODE_REG = Some (dipole f) /\
   r SMOOTHRAMP_TYPE_REG = Some (smooth f)) /\
  smoothramp_type (glob w) = smooth f /\ smoothramp_percentcurved (glob w) = percent f /\
  CONVVOLTSTODACBITS (glob w) = v2d f /\ CONVDACBITSTOVOLTS (glob w) = d2v f.

(** ** Events that leave them alone *)

Definition quiet (e : event) : Prop :=
  match e with
  | EOut32 _ _ | EUartRx _ => False
  | ESend _ _ _ | ERecv _ _ _ | ESetsockopt _ _ | EShutdown _ | EClose _ | EAccept _ _ => False
  | EI2cSend _ _ bs => (length bs <= 1)%nat
  | _ => True
  end.

Lemma quiet_cells ee0 e tr : quiet e -> cells (eeprom_state ee0 (e :: tr)) = cells (eeprom_state ee0 tr).
Proof.
  destruct e; try done.
  - destruct bs as [|a [|b bs]]; cbn; [done|intros _; by destruct (_ && _)|lia].
  - intros _. cbn. by destruct (_ && _).
Qed.

Lemma quiet_typed e tr : quiet e -> typed (e :: tr) = typed tr.
Proof. by destruct e. Qed.

Lemma quiet_writes e tr : quiet e -> writes_of (e :: tr) = writes_of tr.
Proof. by destruct e. Qed.

Lemma page_write_length a data e : length (cells (page_write a data e)) = length (cells e).
Proof.
  revert a e. induction data as [|v data IH]; intros a e; cbn [page_write]; [done|].
  rewrite IH. cbn. destruct (a <? 128); [by rewrite length_insert|done].
Qed.

Lemma eeprom_size env ee0 tr `{!EepromOk env ee0} : length (cells (eeprom_state ee0 tr)) = 256%nat.
Proof.
  induction tr as [|e tr IH]; [exact ee_size|]. cbn [eeprom_state].
  destruct e; try exact IH; cbn [eeprom_step].
  - destruct bs; [exact IH|]. destruct (_ && _); [by rewrite page_write_length|exact IH].
  - by destruct (_ && _).
Qed.

(** ** The rules *)

(** What the settings commands leave alone. *)
Definition frame (w : world) :=
  (scalefactors (glob w), git_hash (glob w), pdata w, snap w, key w).

(** What the console's own steps do to the rest of the program: nothing. *)
Definition own : world -> world -> Prop := both (keeps frame) (emits no_socket).

#[export] Instance own_order : WorldOrder own.
Proof. apply both_order; exact _. Qed.

Lemma console_own w w' : console_only w w' -> own w w'.
Proof.
  intros [Hk He]. split; [|eapply emits_mono; [|exact He]; by intros []].
  unfold keeps, state_of, frame in *. by injection Hk as -> -> -> ->.
Qed.

(** The EEPROM and the flavour in force are [s], and [inp] is still to be
    typed. *)
Definition holds {env : Env} (ee0 S : list Z) (inp : list Z) (s : settings) (w : world) : Prop :=
  cells (eeprom_state ee0 (trace w)) = image s /\ bytes_ok (image s) /\
  rest_typed S w = inp /\ shows (in_force s) w.

(** The globals of the flavour. *)
Definition flavour_globals (w : world) :=
  (CONVVOLTSTODACBITS (glob w), CONVDACBITSTOVOLTS (glob w), smoothramp_type (glob w), smoothramp_percentcurved (glob w)).
Definition flavour_regs : list Z :=
  [NUMCHANS_REG; RESOLUTION_REG; BANDWIDTH_REG; POLARITY_REG; CH34_DUALMODE_REG; MAIN_DIPOLE_MODE_REG; SMOOTHRAMP_TYPE_REG].

(** What another task may do beside the console: anything but looking at the
    keyboard, writing on the EEPROM's bus, or setting the flavour. *)
Definition spares_settings {env : Env} (e : event) : Prop :=
  match e with
  | EOut32 a _ => a ∉ Z.add AXI <$> flavour_regs
  | EUartReady _ | EUartRx _ => False
  | EI2cSend bus _ bs => bus <> 1 \/ (length bs <= 1)%nat
  | _ => True
  end.
Definition spares {env : Env} : world -> world -> Prop := both (keeps flavour_globals) (emits spares_settings).

#[export] Instance spares_order {env : Env} : WorldOrder spares.
Proof. apply both_order; exact _. Qed.

Lemma quiet_own w w' : both (keeps state_of) (emits quiet) w w' -> own w w'.
Proof.
  intros [Hk He]. split; [|eapply emits_mono; [|exact He]; by intros []].
  unfold keeps, state_of, frame in *. by injection Hk as -> -> -> ->.
Qed.

Lemma spares_keyboard {env : Env} {A} (m : M A) : respects spares m -> respects (emits no_keyboard) m.
Proof. intros H w. destruct (H w) as [_ He]. eapply emits_mono; [|exact He]. by intros []. Qed.

Section Rules.
Context {env : Env} `{!AxiWindow env} (ee0 S : list Z) `{!EepromOk env ee0}.
Abbreviation holds := (holds ee0 S).
Abbreviation quietly := (both (keeps state_of) (emits quiet)).

Lemma quiet_events es tr : Forall quiet es ->
  cells (eeprom_state ee0 (es ++ tr)) = cells (eeprom_state ee0 tr) /\
  typed (es ++ tr) = typed tr /\ writes_of (es ++ tr) = writes_of tr.
Proof.
  induction 1 as [|e es He _ IH]; [done|]. cbn [app].
  rewrite quiet_cells, quiet_typed, quiet_writes by done. exact IH.
Qed.

Lemma holds_quietly inp s w w' : quietly w w' -> holds inp s w -> holds inp s w'.
Proof.
  intros [Hk (es & Ht & Hq)] (Hc & Hb & Hi & Hs). unfold keeps, state_of in Hk.
  destruct (quiet_events es (trace w) Hq) as (Ec & Et & Ew). rewrite <- Ht in Ec, Et, Ew.
  injection Hk as Hg _ _ _. unfold Eeprom.holds, rest_typed, shows in *. rewrite Ec, Et, Ew, Hg. done.
Qed.

Lemma holds_push inp s e w : quiet e -> holds inp s w -> holds inp s (push e w).
Proof. intros He. apply holds_quietly. split; [done|by apply emits_push]. Qed.

(** The other tasks leave the settings alone. *)
Lemma spares_shows f w w' : spares w w' -> shows f w -> shows f w'.
Proof.
  intros [Hg (es & Ht & He)] [Hr Hs]. unfold keeps, flavour_globals in Hg. injection Hg as E1 E2 E3 E4.
  split; [|by rewrite E1, E2, E3, E4].
  assert (forall r, r ∈ flavour_regs -> last_write (AXI + r) (writes_of (trace w')) = last_write (AXI + r) (writes_of (trace w))) as L.
  { intros r Hin. rewrite Ht, writes_of_app. clear -He Hin.
    induction He as [|e es He _ IH]; [done|]. destruct e; try exact IH.
    cbn [writes_of omap list_omap app last_write]. destruct (Z.eqb_spec a (AXI + r)) as [->|]; [|exact IH].
    destruct He. by apply list_elem_of_fmap_2. }
  cbv beta zeta in *. rewrite !L by (unfold flavour_regs; rewrite !elem_of_cons; tauto). exact Hr.
Qed.

Lemma spares_cells w w' : spares w w' ->
  cells (eeprom_state ee0 (trace w')) = cells (eeprom_state ee0 (trace w)) /\ rest_typed S w' = rest_typed S w.
Proof.
  intros [_ (es & Ht & He)]. split.
  - rewrite Ht. clear -He. induction He as [|e es He _ IH]; [done|]. rewrite <- IH.
    destruct e; try done; [|cbn; by destruct (_ && _)].
    destruct bs as [|a bs]; [done|]. cbn. destruct He as [Hb|Hl].
    + by destruct (Z.eqb_spec bus 1).
    + destruct bs as [|b bs]; [by destruct (_ && _)|cbn in Hl; lia].
  - unfold rest_typed. rewrite Ht. do 2 f_equal.
    apply no_keyboard_trace. eapply list.Forall_impl; [exact He|]. by intros [].
Qed.

Lemma holds_spares inp s w w' : spares w w' -> holds inp s w -> holds inp s w'.
Proof.
  intros Hs (Hc & Hb & Hi & Hsh). destruct (spares_cells w w' Hs) as [Ec Er].
  split; [by rewrite Ec|]. split; [done|]. split; [by rewrite Er|by eapply spares_shows].
Qed.

Lemma wait_bus_run w : exists es, wait_bus env_patience 1 w =
  Done tt (World (glob w) (pdata w) (snap w) (key w) (es ++ trace w)) /\
  Forall quiet es /\ eeprom_state ee0 (es ++ trace w) = eeprom_state ee0 (trace w).
Proof.
  destruct (ee_bus w) as [w' E].
  assert (respects (both (keeps state_of) (emits (fun e => exists b, e = EI2cBusy 1 b))) (wait_bus env_patience 1)) as H.
  { generalize env_patience. intros n. induction n as [|n IH]; cbn [wait_bus]; [apply respects_stuck; exact _|].
    apply respects_bind; [exact _| |intros []; [exact IH|apply respects_ret; exact _]].
    apply respects_i2c_busy. intros r w1. split; [done|]. apply emits_push. by exists r. }
  specialize (H w). rewrite E in H. destruct H as [Hk (es & Ht & Hq)]. cbn [final] in *.
  exists es. destruct w' as [g' p' s' k' t']. cbn in *. injection Hk as -> -> -> ->. subst t'.
  split_and!; [done| |].
  - eapply list.Forall_impl; [exact Hq|]. by intros e [b ->].
  - clear E. induction Hq as [|e es [b ->] _ IH]; [done|]. exact IH.
Qed.

(** The bytes read from address [a]. *)
Definition bytes_at (a : Z) (n : nat) (bs : list Z) : list Z :=
  (fun i => nth (Z.to_nat ((a + Z.of_nat i) mod 256)) bs 0) <$> seq 0 n.

Lemma bytes_at_ok a n bs : bytes_ok bs -> bytes_ok (bytes_at a n bs).
Proof.
  intros H. apply Forall_fmap, Forall_true. intros i. cbn. rewrite nth_lookup.
  destruct (bs !! _) as [v|] eqn:E; [exact (Forall_lookup_1 _ _ _ _ H E)|by split].
Qed.

Lemma readBytes_run a n w : is_byte a -> bytes_ok (cells (eeprom_state ee0 (trace w))) ->
  exists w', i2c_eeprom_readBytes a n w = Done (bytes_at a n (cells (eeprom_state ee0 (trace w)))) w' /\
    quietly w w'.
Proof.
  intros Ha Hb. unfold i2c_eeprom_readBytes, i2c1_write, i2c1_read, i2c_write, i2c_read.
  rewrite (u8_small a Ha).
  destruct (wait_bus_run w) as (es & E1 & Q1 & S1).
  rewrite bind_assoc, (run_bind _ _ _ _ _ E1). unfold XIicPs_MasterSendPolled, log.
  rewrite (run_bind (modify _) _ _ tt _ eq_refl). set (w1 := push _ _).
  destruct (wait_bus_run w1) as (es2 & E2 & Q2 & S2). rewrite (run_bind _ _ _ _ _ E2).
  assert (eeprom_state ee0 (es2 ++ trace w1) = Eeprom (cells (eeprom_state ee0 (trace w))) a) as St.
  { rewrite S2. unfold w1. cbn [push trace eeprom_state eeprom_step]. by rewrite S1. }
  unfold XIicPs_MasterRecvPolled. cbn [trace]. rewrite ee_recv, St. unfold eeprom_read. cbn [pointer cells].
  fold (bytes_at a n (cells (eeprom_state ee0 (trace w)))).
  rewrite (bytes_ok_u8 _ (bytes_at_ok a n _ Hb)), take_app_length' by (unfold bytes_at; by rewrite length_fmap, length_seq).
  eexists. split; [reflexivity|]. split; [done|]. unfold emits. cbn [trace push].
  exists (EI2cRecv 1 IIC_EEPROM_ADDR (bytes_at a n (cells (eeprom_state ee0 (trace w)))) :: es2 ++ EI2cSend 1 IIC_EEPROM_ADDR [a] :: es).
  split; [cbn; by rewrite <- app_assoc|].
  constructor; [done|]. apply Forall_app. split; [done|]. by constructor; [cbn; lia|].
Qed.

Lemma wp_readBytes a n inp s w : is_byte a -> holds inp s w ->
  wp (i2c_eeprom_readBytes a n)
    (fun bs w' => (bs = bytes_at a n (image s)) /\ holds inp s w' /\ own w w') w.
Proof.
  intros Ha Hs. destruct (Hs) as (Hc & Hb & _).
  destruct (readBytes_run a n w Ha) as (w' & E & Q); [by rewrite Hc|].
  unfold wp. rewrite E, Hc. split; [done|]. split; [by eapply holds_quietly|by apply quiet_own].
Qed.

Lemma wp_writeByte a v inp s w : 0 <= a < 128 -> is_byte v -> holds inp s w ->
  wp (i2c_eeprom_writeBytes a [v]) (fun _ w' => holds inp (put a v s) w' /\ own w w') w.
Proof.
  intros Ha Hv (Hc & Hb & Hi & Hs). unfold wp, i2c_eeprom_writeBytes, i2c1_write, i2c_write.
  assert (is_byte a) as Ha' by (unfold is_u; lia). rewrite (u8_small a Ha').
  destruct (wait_bus_run w) as (es & E & Q & St). rewrite (run_bind _ _ _ _ _ E).
  destruct (quiet_events es (trace w) Q) as (Ec & Et & Ew).
  unfold XIicPs_MasterSendPolled, log, modify. cbn [push glob pdata snap key trace].
  split; [|split; [done|]]; [unfold Eeprom.holds, rest_typed, shows|].
  2: { exists (EI2cSend 1 IIC_EEPROM_ADDR [a; v] :: es). split; [done|]. constructor; [done|].
       eapply list.Forall_impl; [exact Q|]. by intros []. }
  cbn [eeprom_state eeprom_step trace glob pdata snap key typed push]. cbn [writes_of omap list_omap].
  change ((1 =? 1) && (IIC_EEPROM_ADDR =? IIC_EEPROM_ADDR)) with true. cbv iota. cbn [page_write cells].
  destruct (Z.ltb_spec a 128); [|lia]. rewrite Ec, Hc, Et.
  change (omap _ (es ++ trace w)) with (writes_of (es ++ trace w)). rewrite Ew.
  split; [done|]. split; [|done]. by apply Forall_insert.
Qed.

(** Register writes leave the EEPROM and the keyboard alone too. *)
Definition quiet_or_out (e : event) : Prop := quiet e \/ exists a v, e = EOut32 a v.

Lemma quiet_or_out_events es tr : Forall quiet_or_out es ->
  cells (eeprom_state ee0 (es ++ tr)) = cells (eeprom_state ee0 tr) /\ typed (es ++ tr) = typed tr.
Proof.
  induction 1 as [|e es [He|(a & v & ->)] _ IH]; [done| |exact IH]. cbn [app].
  rewrite quiet_cells, quiet_typed by done. exact IH.
Qed.

Ltac out_side :=
  first [apply emits_push; first [by left | right; by do 2 eexists | left; cbn; lia] | by exists []].

Lemma wait_bus_out n bus : respects (emits quiet_or_out) (wait_bus n bus).
Proof. induction n as [|n IH]; cbn [wait_bus]; respects_tac out_side. Qed.
#[local] Hint Resolve wait_bus_out : respects.

Lemma ReadHardwareFlavor_out : respects (emits quiet_or_out) ReadHardwareFlavor.
Proof.
  unfold ReadHardwareFlavor, i2c_eeprom_readBytes, i2c1_write, i2c1_read, i2c_write, i2c_read,
    flavor_numchans, flavor_resolution, flavor_bandwidth, flavor_polarity, flavor_dualmode,
    flavor_dipole, flavor_smooth, modify_glob. respects_tac out_side.
Qed.

Lemma settings_at_bytes bs : length bs = 256%nat -> bytes_at 0x10 8 bs = settings_at bs.
Proof.
  intros H. unfold bytes_at, settings_at. do 25 (destruct bs as [|? bs]; [discriminate H|]). reflexivity.
Qed.

(** The flavour is loaded, whatever the registers showed before. *)
Lemma wp_flavor_from inp s w :
  cells (eeprom_state ee0 (trace w)) = image s -> bytes_ok (image s) -> rest_typed S w = inp ->
  CONVVOLTSTODACBITS (glob w) = v2d (in_force s) -> CONVDACBITSTOVOLTS (glob w) = d2v (in_force s) ->
  wp ReadHardwareFlavor (fun _ w' => holds inp (reload s) w' /\ own w w') w.
Proof.
  intros Hc Hb Hi Ev Ed.
  destruct (readBytes_run 0x10 8 w ltac:(done)) as (w0 & E0 & Q0); [by rewrite Hc|].
  rewrite Hc, settings_at_bytes in E0 by (rewrite <- Hc; by apply (eeprom_size env)).
  destruct (ReadHardwareFlavor_run w _ w0 E0) as
    (b0 & b1 & b2 & b3 & b4 & b5 & b6 & b7 & w' & Eb & E & Hr & Hg & Hp & Hn & Hk).
  pose proof (ReadHardwareFlavor_out w) as Ho. rewrite E in Ho. destruct Ho as (es & Ht & Hq). cbn [final] in *.
  destruct (quiet_or_out_events es (trace w) Hq) as [Ec Et]. rewrite <- Ht in Ec, Et.
  unfold wp. rewrite E. split.
  - unfold Eeprom.holds, rest_typed in *. rewrite Ec, Et. split; [done|]. split; [done|]. split; [done|].
    unfold shows, reload, decode. cbn [in_force image]. rewrite Eb. cbn [nth].
    split; [exact Hr|]. rewrite Hg. by rewrite <- Ev, <- Ed.
  - split; [unfold keeps, frame; by rewrite Hg, Hp, Hn, Hk|]. exists es. split; [done|].
    eapply list.Forall_impl; [exact Hq|]. intros e [He|(x & v & ->)]; [by destruct e|done].
Qed.

Lemma wp_flavor inp s w : holds inp s w ->
  wp ReadHardwareFlavor (fun _ w' => holds inp (reload s) w' /\ own w w') w.
Proof. intros (Hc & Hb & Hi & _ & _ & _ & Ev & Ed). by apply wp_flavor_from. Qed.
End Rules.

(** ** A concrete unit *)

(** The environment [e] with the EEPROM, first holding [ee0], an operator who
    types [S], and [words] for the standard input. *)
Definition with_console (e : Env) (ee0 S : list Z) (words : list event -> option (list Z)) : Env := {|
  XPAR_M_AXI_BASEADDR := XPAR_M_AXI_BASEADDR; pdMS_TO_TICKS := pdMS_TO_TICKS;
  portTICK_PERIOD_MS := portTICK_PERIOD_MS; DHCP_FINE_TIMER_MSECS := DHCP_FINE_TIMER_MSECS;
  DHCP_COARSE_TIMER_SECS := DHCP_COARSE_TIMER_SECS;
  EIO := EIO; EMSGSIZE := EMSGSIZE; ENOTCONN := ENOTCONN;
  env_in32 := env_in32; env_load32 := env_load32; env_tick := env_tick;
  env_send := env_send; env_recv := env_recv; env_select := env_select; env_accept := env_accept;
  env_qspi := env_qspi;
  env_i2c_busy := fun tr _ => match tr with EI2cSend _ _ _ :: _ => true | _ => false end;
  env_i2c_recv := fun tr bus dev n =>
    if (bus =? 1) && (dev =? IIC_EEPROM_ADDR) then eeprom_read (eeprom_state ee0 tr) n else [];
  env_uninit := env_uninit; env_stat := env_stat; env_ip_text := env_ip_text;
  env_uart_ready := fun tr => (0 <? misses tr)%nat;
  env_uart_rx := fun tr => nth (length (typed tr)) S 0;
  env_scanf := words; env_strtof := env_strtof; env_tasks := env_tasks;
  env_fat := env_fat; env_fat_read := env_fat_read; env_fat_write := env_fat_write; env_fat_lines := env_fat_lines;
  env_malloc := env_malloc; env_calloc := env_calloc; env_socket := env_socket; env_bind := env_bind; env_listen := env_listen;
  env_net := env_net; env_netif := env_netif; env_driver := env_driver; env_ntoa := env_ntoa;
  env_patience := 20
|}.

#[export] Instance with_console_window e ee0 S words `{H : !AxiWindow e} : AxiWindow (with_console e ee0 S words).
Proof. exact H. Qed.

Lemma with_console_eeprom e ee0 S words :
  length ee0 = 256%nat -> bytes_ok ee0 -> EepromOk (with_console e ee0 S words) ee0.
Proof.
  intros Hl Hb. split; [done|done|done|]. intros w.
  change env_patience with 20%nat. cbn [wait_bus]. unfold bind, XIicPs_BusIsBusy.
  destruct (env_i2c_busy (trace w) 1) eqn:E; [|by eexists]. cbn. by eexists.
Qed.

Lemma with_console_keyboard e ee0 S words : bytes_ok S -> Keyboard (with_console e ee0 S words) S.
Proof. intros H. split; [done|]. intros tr c E. cbn. by rewrite nth_lookup, E. Qed.

Lemma with_console_served e ee0 S words : Served (with_console e ee0 S words).
Proof.
  split; change env_patience with 20%nat; [lia|]. intros tr H. apply Nat.ltb_lt. lia.
Qed.
