(* ===== verification/NetConf.v ===== *)
(** * Network configuration file ([sdcard.c])

    The parser of [NET.CNF].  A C string is the list of its characters
    without the final NUL; the lines are the successive results of [f_gets].
    The card it is read from is in [SdCard.v]. *)

From Stdlib Require Import ZArith Lia Bool Ascii String.
From stdpp Require Import base list numbers.
From S2P Require Import Prelude CString World Logic Sim I2c Eeprom.

#[local] Open Scope Z_scope.

(** ** Data and characters *)

(** [net_config] of [local.h]; an [ip_addr_t] is its 32-bit value. *)
Record net_config := NetConfig {
  addr : Z;
  mask : Z;
  gw : Z;
  use_static : Z;
  hwaddr : list Z
}.

(** The length of a hardware address in lwIP. *)
Definition NETIF_MAX_HWADDR_LEN : nat := 6.

(** The command and the argument of a line, if it has one. *)
Definition parse_line (line : list Z) : option (list Z * option (list Z)) :=
  match skip isspace line with
  | [] => None
  | (c :: _) as line =>
      if c =? 35 then None (* # *)
      else
        let word x := negb (isspace x) in
        let cmd := upto word line in
        match skip isspace (skip word line) with
        | [] => Some (cmd, None)
        | line => Some (cmd, Some (upto word line))
        end
  end.

(** [parse_hex]: the digit is or-ed into [*out]. *)
Definition parse_hex (c out : Z) : option Z :=
  if (48 <=? c) && (c <=? 57) then Some (Z.lor out (c - 48))
  else if (65 <=? c) && (c <=? 70) then Some (Z.lor out (c - 65 + 10))
  else if (97 <=? c) && (c <=? 102) then Some (Z.lor out (c - 97 + 10))
  else None.

Definition set_addr (a : Z) (c : net_config) := NetConfig a (mask c) (gw c) (use_static c) (hwaddr c).
Definition set_mask (m : Z) (c : net_config) := NetConfig (addr c) m (gw c) (use_static c) (hwaddr c).
Definition set_gw (g : Z) (c : net_config) := NetConfig (addr c) (mask c) g (use_static c) (hwaddr c).
Definition set_static (s : Z) (c : net_config) := NetConfig (addr c) (mask c) (gw c) s (hwaddr c).
Definition set_hwaddr (h : list Z) (c : net_config) := NetConfig (addr c) (mask c) (gw c) (use_static c) h.

Section NetConf.
Context {env : Env} (inet_aton : list Z -> option Z).

Definition sdcard_parse_inet (arg : option (list Z)) (out : Z) : Z :=
  match arg with
  | Some a => match inet_aton a with Some x => x | None => out end
  | None => out
  end.

(** [arg[i]], the final NUL included. *)
Definition char_at (arg : list Z) (i : nat) : M Z := the OutOfBounds ((arg ++ [0]) !! i).

(** The loop over the bytes of a hardware address, from byte [n], with the
    bytes so far; the whole address if it is accepted. *)
Fixpoint hwaddr_loop (todo n : nat) (arg hw : list Z) : M (option (list Z)) :=
  match todo with
  | O => ret None
  | S todo =>
      let! c0 := char_at arg (n * 3) in
      match parse_hex c0 (nth n hw 0) with
      | None => ret None
      | Some h =>
          let h := u8 (Z.shiftl h 4) in
          let! c1 := char_at arg (n * 3 + 1) in
          match parse_hex c1 h with
          | None => ret None
          | Some h =>
              let hw := <[n := h]> hw in
              let! c2 := char_at arg (n * 3 + 2) in
              if (n <? NETIF_MAX_HWADDR_LEN - 1)%nat && (c2 =? 58) (* : *)
              then hwaddr_loop todo (S n) arg hw
              else if (n =? NETIF_MAX_HWADDR_LEN - 1)%nat && (c2 =? 0) then ret (Some hw)
              else ret None
          end
      end
  end.

(** The argument is printed with [%s] before it is compared with [NULL]. *)
Definition netconf_hwaddr (arg : option (list Z)) (conf : net_config) : M net_config :=
  let! a := the NullPointer arg in
  if bool_decide (a = str "eeprom") then
    let! mac := i2c_get_mac_address in ret (set_hwaddr mac conf)
  else
    let! r := hwaddr_loop NETIF_MAX_HWADDR_LEN 0 a (replicate NETIF_MAX_HWADDR_LEN 0) in
    ret (match r with Some hw => set_hwaddr hw conf | None => conf end).

(** The chain of [strcmp]s. *)
Definition netconf_command (cmd : list Z) (arg : option (list Z)) (conf : net_config) : M net_config :=
  if bool_decide (cmd = str "dhcp") then
    ret (if bool_decide (arg = None \/ arg = Some (str "yes")) then set_static 0 conf
         else if bool_decide (arg = Some (str "no")) then set_static 1 conf
         else conf)
  else if bool_decide (cmd = str "addr") then
    ret (set_static 1 (set_addr (sdcard_parse_inet arg (addr conf)) conf))
  else if bool_decide (cmd = str "mask") then ret (set_mask (sdcard_parse_inet arg (mask conf)) conf)
  else if bool_decide (cmd = str "gw") then ret (set_gw (sdcard_parse_inet arg (gw conf)) conf)
  else if bool_decide (cmd = str "hwaddr") then netconf_hwaddr arg conf
  else ret conf.

Fixpoint sdcard_netconf (conf : net_config) (lines : list (list Z)) : M net_config :=
  match lines with
  | [] => ret conf
  | line :: lines =>
      let! conf := (match parse_line line with
                    | None => ret conf
                    | Some (cmd, arg) => netconf_command cmd arg conf
                    end) in
      sdcard_netconf conf lines
  end.
End NetConf.

(** ** Lines *)

(** [line] is a statement: a command and an argument, with any white space
    before and between them, and whatever follows a white space after. *)
Definition statement (line cmd arg : list Z) : Prop :=
  exists pre mid post, line = pre ++ cmd ++ mid ++ arg ++ post /\
    blank pre /\ blank mid /\ mid <> [] /\ is_word cmd /\ is_word arg /\ hd 0 cmd <> 35 /\
    (post = [] \/ exists c rest, post = c :: rest /\ isspace c = true).

(** [line] is empty, blank, or a comment. *)
Definition ignorable (line : list Z) : Prop :=
  blank line \/ exists pre rest, line = pre ++ 35 :: rest /\ blank pre.

Lemma parse_ignorable line : ignorable line -> parse_line line = None.
Proof.
  unfold parse_line. intros [H|(pre & rest & -> & H)].
  - rewrite <- (app_nil_r line), skip_app by done. done.
  - by rewrite skip_app, skip_stop.
Qed.

Lemma parse_statement line cmd arg :
  statement line cmd arg -> parse_line line = Some (cmd, Some arg).
Proof.
  intros (pre & mid & post & -> & Hpre & Hmid & Hne & Hc & Ha & Hh & Hpost).
  pose proof (word_negb _ Hc) as Hcw. pose proof (word_negb _ Ha) as Haw.
  destruct Hc as [Hc0 Hc], Ha as [Ha0 Ha].
  unfold parse_line. rewrite skip_app by done.
  rewrite (skip_word cmd) by done.
  destruct (cmd ++ mid ++ arg ++ post) as [|c line] eqn:E; [by destruct cmd|].
  assert (c = hd 0 cmd) as -> by (clear -Hc0 E; destruct cmd; [done|]; cbn in E; by injection E).
  destruct (Z.eqb_spec (hd 0 cmd) 35); [done|].
  rewrite <- E. clear E. destruct mid as [|m mid]; [done|].
  apply list.Forall_cons_1 in Hmid as [Em Hmid].
  rewrite upto_app, skip_app by done. cbn [app].
  rewrite upto_stop, app_nil_r, skip_stop by (by rewrite Em).
  cbn [skip]. rewrite Em, skip_app by done. rewrite (skip_word arg) by done.
  destruct (arg ++ post) as [|a line'] eqn:E; [by destruct arg|]. rewrite <- E.
  rewrite upto_app by done.
  destruct Hpost as [->|(x & rest & -> & Ex)]; cbn [upto]; [|rewrite Ex]; by rewrite ?app_nil_r.
Qed.

(** ** Hardware addresses *)

Definition lower (d : Z) : Z := if d <? 10 then 48 + d else 87 + d.
Definition upper (d : Z) : Z := if d <? 10 then 48 + d else 55 + d.

(** A choice of digits: lower or upper case for each value. *)
Definition digits (dig : Z -> Z) : Prop := forall d, 0 <= d < 16 -> dig d = lower d \/ dig d = upper d.

(** "XX:XX:XX:XX:XX:XX". *)
Definition byte_text (dig : Z -> Z) (b : Z) : list Z := [dig (b / 16); dig (b mod 16)].
Fixpoint mac_text (dig : Z -> Z) (hw : list Z) : list Z :=
  match hw with
  | [] => []
  | [b] => byte_text dig b
  | b :: hw => byte_text dig b ++ 58 :: mac_text dig hw
  end.

Lemma parse_digit dig d out : digits dig -> 0 <= d < 16 -> parse_hex (dig d) out = Some (Z.lor out d).
Proof.
  intros Hd H. assert (d ∈ seqZ 0 16) as Hin by (by apply elem_of_seqZ).
  destruct (Hd d H) as [-> | ->]; clear Hd H;
    repeat (apply elem_of_cons in Hin as [->|Hin]; [reflexivity|]); by apply elem_of_nil in Hin.
Qed.

Lemma nibbles b : is_u 8 b -> Z.lor (u8 (Z.shiftl (Z.lor 0 (b / 16)) 4)) (b mod 16) = b.
Proof.
  intros Hb. rewrite Z.lor_0_l, Z.shiftl_mul_pow2 by lia.
  unfold is_u in Hb. change (2 ^ 8) with 256 in Hb.
  pose proof (Z.div_lt_upper_bound b 16 16 ltac:(lia) ltac:(lia)).
  pose proof (Z.div_pos b 16 ltac:(lia) ltac:(lia)).
  unfold u8. rewrite wrap_small by (unfold is_u; change (2 ^ 4) with 16; change (2 ^ 8) with 256; lia).
  assert (Z.land (b / 16 * 2 ^ 4) (b mod 16) = 0) as Hdis.
  { rewrite <- Z.shiftl_mul_pow2 by lia. apply Z.bits_inj'. intros n Hn.
    rewrite Z.bits_0, Z.land_spec. change 16 with (2 ^ 4). destruct (Z.ltb_spec n 4).
    - by rewrite Z.shiftl_spec_low.
    - by rewrite Z.mod_pow2_bits_high, andb_false_r by lia. }
  rewrite <- Z.lxor_lor, <- Z.add_nocarry_lxor by done.
  change (2 ^ 4) with 16. rewrite (Z_div_mod_eq_full b 16) at 3. lia.
Qed.

Section Facts.
Context {env : Env} (inet_aton : list Z -> option Z).

Lemma char_at_run arg i c w : (arg ++ [0]) !! i = Some c -> char_at arg i w = Done c w.
Proof. intros H. unfold char_at. by rewrite H. Qed.

(** One turn of the loop over an accepted byte. *)
Lemma hwaddr_step dig todo n arg hw b c w :
  digits dig -> is_u 8 b -> nth n hw 0 = 0 -> (n < 6)%nat ->
  (forall i, (i < 3)%nat -> (arg ++ [0]) !! (n * 3 + i)%nat = (byte_text dig b ++ [c]) !! i) ->
  hwaddr_loop (S todo) n arg hw w =
    (if (n <? 5)%nat && (c =? 58) then hwaddr_loop todo (S n) arg (<[n := b]> hw)
     else if (n =? 5)%nat && (c =? 0) then ret (Some (<[n := b]> hw)) else ret None) w.
Proof.
  intros Hdig Hb H0 Hn Harg. cbn [hwaddr_loop]. unfold is_u in Hb. change (2 ^ 8) with 256 in Hb.
  assert (0 <= b / 16 < 16) by (split; [apply Z.div_pos; lia|apply Z.div_lt_upper_bound; lia]).
  assert (0 <= b mod 16 < 16) by (apply Z.mod_pos_bound; lia).
  pose proof (Harg 0%nat ltac:(lia)) as A0. pose proof (Harg 1%nat ltac:(lia)) as A1.
  pose proof (Harg 2%nat ltac:(lia)) as A2. rewrite Nat.add_0_r in A0.
  rewrite (run_bind _ _ _ _ _ (char_at_run _ _ _ w A0)), H0, parse_digit by done.
  rewrite (run_bind _ _ _ _ _ (char_at_run _ _ _ w A1)), parse_digit by done.
  rewrite (run_bind _ _ _ _ _ (char_at_run _ _ _ w A2)), nibbles by done. reflexivity.
Qed.

Ltac byte I3 h c := erewrite (hwaddr_step _ _ _ _ _ h c)
  by (eassumption || reflexivity || lia || by intros i [->|[->| ->]]%I3);
  cbn [Nat.ltb Nat.leb Nat.eqb andb Z.eqb Pos.eqb].

Lemma hwaddr_text dig h0 h1 h2 h3 h4 h5 w :
  digits dig -> bytes_ok [h0; h1; h2; h3; h4; h5] ->
  hwaddr_loop 6 0 (mac_text dig [h0; h1; h2; h3; h4; h5]) (replicate 6 0) w
  = Done (Some [h0; h1; h2; h3; h4; h5]) w.
Proof.
  intros Hd Hb. repeat (apply list.Forall_cons_1 in Hb as [? Hb]).
  assert (forall i, (i < 3)%nat -> i = 0%nat \/ i = 1%nat \/ i = 2%nat) as I3 by lia.
  byte I3 h0 58. byte I3 h1 58. byte I3 h2 58. byte I3 h3 58. byte I3 h4 58. byte I3 h5 0.
  reflexivity.
Qed.

(** ** Whole files *)

(** The statements of a static configuration. *)
Definition statements (dig : Z -> Z) (ta tm tg hw : list Z) : list (list Z * list Z) :=
  [(str "dhcp", str "no"); (str "addr", ta); (str "mask", tm); (str "gw", tg);
   (str "hwaddr", mac_text dig hw)].

Lemma netconf_cons conf line lines w c :
  (match parse_line line with
   | None => ret conf
   | Some (cmd, arg) => netconf_command inet_aton cmd arg conf
   end) w = Done c w ->
  sdcard_netconf inet_aton conf (line :: lines) w = sdcard_netconf inet_aton c lines w.
Proof. intros H. cbn [sdcard_netconf]. by rewrite (run_bind _ _ _ _ _ H). Qed.

Context (dig : Z -> Z) (ta tm tg : list Z) (a m g h0 h1 h2 h3 h4 h5 : Z).
Context (Hdig : digits dig) (Hhw : bytes_ok [h0; h1; h2; h3; h4; h5]).
Context (Ha : inet_aton ta = Some a) (Hm : inet_aton tm = Some m) (Hg : inet_aton tg = Some g).

#[local] Abbreviation hw := [h0; h1; h2; h3; h4; h5].
#[local] Abbreviation stmts := (statements dig ta tm tg hw).

(** What a statement sets. *)
Definition apply_stmt (i : nat) (c : net_config) : net_config :=
  match i with
  | 0%nat => set_static 1 c
  | 1%nat => set_static 1 (set_addr a c)
  | 2%nat => set_mask m c
  | 3%nat => set_gw g c
  | _ => set_hwaddr hw c
  end.

Lemma command_run i s c w :
  stmts !! i = Some s -> netconf_command inet_aton s.1 (Some s.2) c w = Done (apply_stmt i c) w.
Proof.
  intros Hi. destruct i as [|[|[|[|[|i]]]]]; [injection Hi as <-..|done]; unfold netconf_command;
    cbn [fst snd sdcard_parse_inet]; rewrite ?Ha, ?Hm, ?Hg; [reflexivity..|].
  rewrite !(bool_decide_false (str "hwaddr" = _)) by done. rewrite bool_decide_true by done.
  unfold netconf_hwaddr. rewrite run_some. change NETIF_MAX_HWADDR_LEN with 6%nat. rewrite bool_decide_false.
  - rewrite (run_bind _ _ _ _ _ (hwaddr_text dig h0 h1 h2 h3 h4 h5 w Hdig Hhw)). reflexivity.
  - done.
Qed.

(** The statements among the lines read so far are in force at the end. *)
Lemma netconf_statements lines c0 w :
  Forall (fun line => parse_line line = None \/
            exists i s, stmts !! i = Some s /\ parse_line line = Some (s.1, Some s.2)) lines ->
  exists c, sdcard_netconf inet_aton c0 lines w = Done c w /\
    forall i s, stmts !! i = Some s ->
      apply_stmt i c0 = c0 \/ Some (s.1, Some s.2) ∈ parse_line <$> lines -> apply_stmt i c = c.
Proof.
  intros H. revert c0. induction H as [|line lines Hl _ IH]; intros c0.
  - exists c0. split; [done|]. intros i s _ [H|H]; [done|by apply elem_of_nil in H].
  - destruct Hl as [E|(j & t & Hj & E)].
    + destruct (IH c0) as (c & Hr & Hc). exists c. rewrite (netconf_cons _ _ _ _ c0) by (by rewrite E).
      split; [done|]. intros i s Hi [H|H]; [by apply (Hc i s); auto|].
      rewrite fmap_cons, E in H. apply elem_of_cons in H as [H|H]; [done|]. apply (Hc i s); auto.
    + destruct (IH (apply_stmt j c0)) as (c & Hr & Hc). exists c.
      rewrite (netconf_cons _ _ _ _ (apply_stmt j c0)) by (rewrite E; by apply command_run).
      split; [done|]. intros i s Hi H. apply (Hc i s Hi).
      rewrite fmap_cons, E in H.
      assert (apply_stmt i c0 = c0 -> apply_stmt i (apply_stmt j c0) = apply_stmt j c0) as Hkeep.
      { clear. destruct c0, i as [|[|[|[|i]]]], j as [|[|[|[|j]]]];
          cbv [apply_stmt set_addr set_mask set_gw set_static set_hwaddr addr mask gw use_static hwaddr];
          intros [=]; congruence. }
      destruct H as [H|H]; [by left; apply Hkeep|].
      apply elem_of_cons in H as [H|H]; [|by right].
      left. assert (i = j) as ->; [|by destruct c0, j as [|[|[|[|j]]]]].
      injection H as H _. clear -Hi Hj H.
      destruct i as [|[|[|[|[|i]]]]], j as [|[|[|[|[|j]]]]]; try done;
        injection Hi as <-; by injection Hj as <-.
Qed.
End Facts.

(** ** Safety *)

Section Safety.
Context {env : Env} (inet_aton : list Z -> option Z).

Lemma char_at_inside arg i w :
  (i <= length arg)%nat -> exists c, char_at arg i w = Done c w /\ (c <> 0 -> (i < length arg)%nat).
Proof.
  intros H. destruct (lookup_lt_is_Some_2 (arg ++ [0]) i) as [c Hc]; [rewrite length_app; cbn; lia|].
  exists c. split; [by apply char_at_run|]. intros Hne.
  destruct (decide (i < length arg)%nat); [done|]. rewrite lookup_app_r in Hc by lia.
  replace (i - length arg)%nat with 0%nat in Hc by lia. by injection Hc as <-.
Qed.

Lemma parse_hex_nonzero c out h : parse_hex c out = Some h -> c <> 0.
Proof. by intros H ->. Qed.

(** The loop reads nothing beyond the end of the argument. *)
Lemma hwaddr_loop_safe todo n arg hw w :
  (n * 3 <= length arg)%nat -> exists r, hwaddr_loop todo n arg hw w = Done r w.
Proof.
  revert n hw. induction todo as [|todo IH]; intros n hw Hn; [by exists None|]. cbn [hwaddr_loop].
  destruct (char_at_inside arg (n * 3) w Hn) as (c0 & R0 & L0). rewrite (run_bind _ _ _ _ _ R0).
  destruct (parse_hex c0 _) as [h|] eqn:E0; [|by exists None].
  specialize (L0 (parse_hex_nonzero _ _ _ E0)).
  destruct (char_at_inside arg (n * 3 + 1) w ltac:(lia)) as (c1 & R1 & L1).
  rewrite (run_bind _ _ _ _ _ R1). destruct (parse_hex c1 _) as [h'|] eqn:E1; [|by exists None].
  specialize (L1 (parse_hex_nonzero _ _ _ E1)).
  destruct (char_at_inside arg (n * 3 + 2) w ltac:(lia)) as (c2 & R2 & L2).
  rewrite (run_bind _ _ _ _ _ R2). destruct (_ && (c2 =? 58)) eqn:E2.
  - apply andb_prop in E2 as [_ E2%Z.eqb_eq]. apply IH. specialize (L2 ltac:(lia)). lia.
  - destruct (_ && (c2 =? 0)); eexists; reflexivity.
Qed.

(** A computation that keeps the program's state and whose interactions are
    in [P]; its only fault is a null pointer, and only if [Null]. *)
Definition harmless {A} (P : event -> Prop) (Null : Prop) (m : M A) : Prop :=
  forall w, both (keeps state_of) (emits P) w (final (m w)) /\
            (forall f w', m w = Fault f w' -> f = NullPointer /\ Null).

(** The transactions of the I2C bus that only read. *)
Definition i2c_reading (e : event) : Prop := is_i2c e /\ quiet e.

Lemma harmless_ret {A} P Null (a : A) : harmless P Null (ret a).
Proof. intros w. split; [apply wo_refl|done]. Qed.

Lemma harmless_bind {A B} P Null (m : M A) (k : A -> M B) :
  harmless P Null m -> (forall a, harmless P Null (k a)) -> harmless P Null (bind m k).
Proof.
  intros Hm Hk w. destruct (Hm w) as [R F]. unfold bind. destruct (m w) as [a w1|f w1|w1] eqn:E.
  - destruct (Hk a w1) as [R' F']. split; [|exact F']. eapply wo_trans; [exact R|exact R'].
  - split; [exact R|]. intros f' w' [= <- <-]. by apply (F f w1).
  - split; [exact R|done].
Qed.

Lemma harmless_mono {A} (P Q : event -> Prop) (N N' : Prop) (m : M A) :
  (forall e, P e -> Q e) -> (N -> N') -> harmless P N m -> harmless Q N' m.
Proof.
  intros H HN Hm w. destruct (Hm w) as [[K E] F]. split.
  - split; [done|]. by eapply emits_mono.
  - intros f w' Hf. destruct (F f w' Hf). auto.
Qed.

Lemma harmless_log (P : event -> Prop) Null e : P e -> harmless P Null (log e).
Proof. intros H w. split; [split; [done|by apply emits_push]|done]. Qed.

Lemma harmless_pointer {A} P (Null : Prop) (p : option A) : (p = None -> Null) -> harmless P Null (the NullPointer p).
Proof.
  intros H w. destruct p; [apply harmless_ret|]. split; [apply wo_refl|]. intros f w' [= <- <-]. auto.
Qed.

Lemma harmless_wait Null fuel bus : harmless i2c_reading Null (wait_bus fuel bus).
Proof.
  induction fuel as [|fuel IH]; [intros w; split; [apply wo_refl|done]|]. cbn [wait_bus].
  apply harmless_bind.
  - intros w. split; [split; [done|by apply emits_push]|done].
  - intros []; [exact IH|apply harmless_ret].
Qed.

Lemma harmless_mac Null : harmless i2c_reading Null i2c_get_mac_address.
Proof.
  unfold i2c_get_mac_address, i2c1_write, i2c1_read, i2c_write, i2c_read.
  repeat (apply harmless_bind; [|intros ?]); try apply harmless_wait; [apply harmless_log; split; cbn; [done|lia]|].
  intros w. split; [split; [done|by apply emits_push]|done].
Qed.

Lemma harmless_hwaddr (Null : Prop) arg conf : (arg = None -> Null) -> harmless i2c_reading Null (netconf_hwaddr arg conf).
Proof.
  intros H. unfold netconf_hwaddr. apply harmless_bind; [by apply harmless_pointer|intros a].
  case_bool_decide; (apply harmless_bind; [|intros; apply harmless_ret]); [apply harmless_mac|].
  intros w. destruct (hwaddr_loop_safe NETIF_MAX_HWADDR_LEN 0 a (replicate NETIF_MAX_HWADDR_LEN 0) w) as [r ->];
    [cbn; lia|]. split; [apply wo_refl|done].
Qed.

(** The line [hwaddr], with no argument, and the one that asks for the
    address in the EEPROM. *)
Definition bare_hwaddr (line : list Z) : Prop := parse_line line = Some (str "hwaddr", None).
Definition eeprom_hwaddr (line : list Z) : Prop := parse_line line = Some (str "hwaddr", Some (str "eeprom")).

Definition netconf_line (line : list Z) (conf : net_config) : M net_config :=
  match parse_line line with
  | None => ret conf
  | Some (cmd, arg) => netconf_command inet_aton cmd arg conf
  end.

Lemma harmless_line conf line : harmless i2c_reading (bare_hwaddr line) (netconf_line line conf).
Proof.
  unfold netconf_line, bare_hwaddr. destruct (parse_line line) as [[cmd arg]|]; [|apply harmless_ret].
  unfold netconf_command. repeat case_bool_decide; subst; try apply harmless_ret.
  apply harmless_hwaddr. by intros ->.
Qed.

(** A line that is parsed has an argument for [hwaddr]; only the EEPROM makes
    the parser wait. *)
Lemma line_outcome conf line w :
  match netconf_line line conf w with
  | Done _ _ => ~ bare_hwaddr line
  | Fault _ _ => True
  | NoFuel _ => eeprom_hwaddr line
  end.
Proof.
  unfold netconf_line, bare_hwaddr, eeprom_hwaddr. destruct (parse_line line) as [[cmd arg]|]; [|done].
  unfold netconf_command.
  repeat case_bool_decide; subst; try (by intros [=]); try (intros [= ->]; congruence).
  unfold netconf_hwaddr. destruct arg as [a|]; [|done]. rewrite run_some. case_bool_decide; subst.
  - destruct (bind _ _ w); done.
  - destruct (hwaddr_loop_safe NETIF_MAX_HWADDR_LEN 0 a (replicate NETIF_MAX_HWADDR_LEN 0) w) as [r E];
      [cbn; lia|]. by rewrite (run_bind _ _ _ _ _ E).
Qed.

Lemma harmless_netconf conf lines : harmless i2c_reading (Exists bare_hwaddr lines) (sdcard_netconf inet_aton conf lines).
Proof.
  revert conf. induction lines as [|line lines IH]; intros conf; [apply harmless_ret|].
  cbn [sdcard_netconf]. fold (netconf_line line conf). apply harmless_bind.
  - eapply harmless_mono; [done| |apply harmless_line]. by left.
  - intros c. eapply harmless_mono; [done| |apply IH]. by right.
Qed.

(** C31. Parsing the configuration file, whatever it holds.  The one thing
    that makes the behaviour undefined is a line [hwaddr] with no argument,
    which is printed as a string: the parser returns only if there is none,
    and stops in a fault (a null pointer, never a character beyond the end
    of an argument) only if there is one; apart from that it can only wait
    for the EEPROM's bus, when a line asks for the address there.  Nothing of
    the program's state changes, no register and no byte of the EEPROM is
    written: the only interactions are those of reading the address. *)
Theorem sdcard_netconf_safe conf lines w :
  both (keeps state_of) (emits i2c_reading) w (final (sdcard_netconf inet_aton conf lines w)) /\
  match sdcard_netconf inet_aton conf lines w with
  | Done _ _ => Forall (fun line => ~ bare_hwaddr line) lines
  | Fault f _ => f = NullPointer /\ Exists bare_hwaddr lines
  | NoFuel _ => Exists eeprom_hwaddr lines
  end.
Proof.
  destruct (harmless_netconf conf lines w) as [E F]. split; [exact E|]. clear E.
  assert (match sdcard_netconf inet_aton conf lines w with
    | Done _ _ => Forall (fun line => ~ bare_hwaddr line) lines
    | Fault _ _ => True | NoFuel _ => Exists eeprom_hwaddr lines end) as O.
  { clear F. revert conf w. induction lines as [|line lines IH]; intros conf w; [constructor|].
    cbn [sdcard_netconf]. fold (netconf_line line conf). rewrite run_bind_eq.
    pose proof (line_outcome conf line w) as L. destruct (netconf_line line conf w) as [c w1| |]; [|done|by left].
    specialize (IH c w1). destruct (sdcard_netconf inet_aton c lines w1); [by constructor|done|by right]. }
  destruct (sdcard_netconf inet_aton conf lines w) as [|f w'|]; [exact O| |exact O]. by apply (F f w').
Qed.

(** C30. The configuration file, in any layout.  If every line is a blank, a
    comment or one of the five statements of a static configuration (with any
    white space around the words and either case of the hexadecimal digits),
    and each statement occurs, in whatever order and however often, then the
    parser returns exactly that configuration, whatever the initial one was. *)
Theorem sdcard_netconf_static dig ta tm tg a m g hw lines c0 w :
  digits dig -> bytes_ok hw -> length hw = 6%nat ->
  inet_aton ta = Some a -> inet_aton tm = Some m -> inet_aton tg = Some g ->
  (forall line, line ∈ lines -> ignorable line \/
     exists s, s ∈ statements dig ta tm tg hw /\ statement line s.1 s.2) ->
  (forall s, s ∈ statements dig ta tm tg hw -> exists line, line ∈ lines /\ statement line s.1 s.2) ->
  sdcard_netconf inet_aton c0 lines w = Done (NetConfig a m g 1 hw) w.
Proof.
  intros Hd Hhw Hl Ha Hm Hg Hin Hall.
  destruct hw as [|h0 [|h1 [|h2 [|h3 [|h4 [|h5 [|]]]]]]]; try done.
  destruct (netconf_statements inet_aton dig ta tm tg a m g h0 h1 h2 h3 h4 h5 Hd Hhw Ha Hm Hg lines c0 w)
    as (c & -> & Hc).
  { apply list.Forall_forall. intros line [H|(s & [i Hi]%list_elem_of_lookup & H)]%Hin;
      [left; by apply parse_ignorable|right; exists i, s; split; [done|by apply parse_statement]]. }
  assert (forall i s, statements dig ta tm tg [h0; h1; h2; h3; h4; h5] !! i = Some s ->
    apply_stmt a m g h0 h1 h2 h3 h4 h5 i c = c) as Hfix.
  { intros i s Hi. apply (Hc i s Hi). right.
    destruct (Hall s) as (line & Hline & Hs); [by eapply list_elem_of_lookup_2|].
    apply list_elem_of_fmap. exists line. split; [|done]. symmetry. by apply parse_statement. }
  f_equal. destruct c as [ca cm cg cs ch].
  pose proof (Hfix 1%nat _ eq_refl) as [= <- <-]. pose proof (Hfix 2%nat _ eq_refl) as [= <-].
  pose proof (Hfix 3%nat _ eq_refl) as [= <-]. by pose proof (Hfix 4%nat _ eq_refl) as [= <-].
Qed.
End Safety.

(** A file, with an [inet_aton] that knows its addresses. *)
Definition net_cnf : list (list Z) :=
  [str "# static address" ++ [10]; str "dhcp no" ++ [13; 10]; [10];
   str "  addr 10.0.142.2" ++ [10]; str "gw 10.0.142.1" ++ [10];
   str "mask 255.255.255.0" ++ [10]; str "hwaddr 00:1b:C5:00:0f:A1"].

Definition known_addrs (s : list Z) : option Z :=
  if bool_decide (s = str "10.0.142.2") then Some 0x028E000A
  else if bool_decide (s = str "10.0.142.1") then Some 0x018E000A
  else if bool_decide (s = str "255.255.255.0") then Some 0x00FFFFFF else None.

Lemma statement_intro line cmd arg pre mid post :
  line = pre ++ cmd ++ mid ++ arg ++ post ->
  forallb isspace pre && forallb isspace mid && negb (bool_decide (mid = [])) &&
  forallb (fun c => negb (isspace c)) cmd && negb (bool_decide (cmd = [])) &&
  forallb (fun c => negb (isspace c)) arg && negb (bool_decide (arg = [])) &&
  negb (hd 0 cmd =? 35) && (match post with [] => true | c :: _ => isspace c end) = true ->
  statement line cmd arg.
Proof.
  intros -> H. rewrite !andb_true_iff, !negb_true_iff in H.
  destruct H as ((((((((H1 & H2) & H3) & H4) & H5) & H6) & H7) & H8) & H9).
  assert (forall l, forallb (fun c => negb (isspace c)) l = true -> Forall (fun c => isspace c = false) l) as Hw.
  { intros l Hl. apply list.Forall_forall. intros x Hx. rewrite forallb_forall in Hl.
    apply negb_true_iff, Hl. by apply list_elem_of_In. }
  assert (forall l, forallb isspace l = true -> blank l) as Hb.
  { intros l Hl. apply list.Forall_forall. intros x Hx. rewrite forallb_forall in Hl.
    apply Hl. by apply list_elem_of_In. }
  apply bool_decide_eq_false_1 in H3, H5, H7. exists pre, mid, post.
  split_and!; auto; [by split; auto|by split; auto|by apply Z.eqb_neq|].
  destruct post as [|c rest]; [by left|]. right. by exists c, rest.
Qed.

Lemma sdcard_netconf_static_witness :
  sdcard_netconf (env := sim) known_addrs (NetConfig 0 0 0 0 []) net_cnf sim_world =
  Done (NetConfig 0x028E000A 0x00FFFFFF 0x018E000A 1 [0x00; 0x1B; 0xC5; 0x00; 0x0F; 0xA1]) sim_world.
Proof.
  set (dig := fun d => if d =? 11 then lower d else if d =? 15 then lower d else upper d).
  assert (statement (str "dhcp no" ++ [13; 10]) (str "dhcp") (str "no")) as S1
    by (by apply (statement_intro _ _ _ [] [32] [13; 10])).
  assert (statement (str "  addr 10.0.142.2" ++ [10]) (str "addr") (str "10.0.142.2")) as S2
    by (by apply (statement_intro _ _ _ [32; 32] [32] [10])).
  assert (statement (str "gw 10.0.142.1" ++ [10]) (str "gw") (str "10.0.142.1")) as S3
    by (by apply (statement_intro _ _ _ [] [32] [10])).
  assert (statement (str "mask 255.255.255.0" ++ [10]) (str "mask") (str "255.255.255.0")) as S4
    by (by apply (statement_intro _ _ _ [] [32] [10])).
  assert (statement (str "hwaddr 00:1b:C5:00:0f:A1") (str "hwaddr")
            (mac_text dig [0x00; 0x1B; 0xC5; 0x00; 0x0F; 0xA1])) as S5
    by (by apply (statement_intro _ _ _ [] [32] [])).
  apply (sdcard_netconf_static (env := sim) known_addrs dig (str "10.0.142.2") (str "255.255.255.0") (str "10.0.142.1")).
  - intros d _. unfold dig. destruct (d =? 11), (d =? 15); auto.
  - by_compute.
  - reflexivity.
  - reflexivity.
  - reflexivity.
  - reflexivity.
  - unfold net_cnf. intros line Hl.
    repeat (apply elem_of_cons in Hl as [->|Hl]); [..|by apply elem_of_nil in Hl].
    + left. right. exists [], (tl (str "# static address" ++ [10])). split; [reflexivity|constructor].
    + right. exists (str "dhcp", str "no"). split; [by left|exact S1].
    + left. left. by repeat constructor.
    + right. eexists. split; [right; left|exact S2].
    + right. eexists. split; [do 3 right; left|exact S3].
    + right. eexists. split; [do 2 right; left|exact S4].
    + right. eexists. split; [do 4 right; left|exact S5].
  - intros s Hs. unfold statements in Hs.
    repeat (apply elem_of_cons in Hs as [->|Hs]); [..|by apply elem_of_nil in Hs];
      eexists; (split; [|first [exact S1|exact S2|exact S3|exact S4|exact S5]]);
      by_compute.
Defined.
