(* ===== verification/SdCard.v ===== *)
(** * The memory card ([sdcard.c])

    Mounting the card, the configuration file, and the two EEPROM images.  The
    card's file system is the environment's, and so is whether [malloc] finds
    a block; what it returns is indeterminate. *)

From Stdlib Require Import ZArith Lia Bool String.
From stdpp Require Import base list numbers strings.
From S2P Require Import Prelude CString World Logic Sim I2c Eeprom NetConf.

#[local] Open Scope Z_scope.

Definition EE_SIZE : nat := 256.

(** FatFs: the results and the modes of opening that the code uses. *)
Definition FR_OK : Z := 0.
Definition FA_READ : Z := 0x01.
Definition FA_WRITE : Z := 0x02.
Definition FA_OPEN_EXISTING : Z := 0x00.
Definition FA_OPEN_ALWAYS : Z := 0x10.

Section SdCard.
Context {env : Env} (inet_aton : list Z -> option Z).

(** [MUST_]: whether the operation failed; what it prints is left out. *)
Definition MUST_ (res : Z) : bool := negb (res =? FR_OK).
Definition MUST (cmd : M Z) : M bool := let! res := cmd in ret (MUST_ res).

(** C's [a || b]. *)
Definition or_else (a b : M bool) : M bool := let! x := a in if x then ret true else b.

(** [eewrite]: the file to the EEPROM; otherwise the EEPROM to the file.  What
    [malloc] returns is not looked at: a null pointer is passed to [f_read]
    and [f_write], and read when the file has the right size. *)
Definition sdcard_sync_eeprom (eewrite : bool) : M unit :=
  let! ee := malloc EE_SIZE in
  let! file := malloc EE_SIZE in
  let! file := the NullPointer file in
  let! r := f_read EE_SIZE in
  if MUST_ r.1 then ret tt
  else
    let n := length r.2 in
    let file := overwrite r.2 file in
    let! match_ := (if (n =? EE_SIZE)%nat
                    then let! ee := the NullPointer ee in ret (bool_decide (ee = file))
                    else ret false) in
    if match_ then ret tt
    else if eewrite then ret tt
    else
      let! _ := or_else (MUST (fat (FLseek 0)))
                  (or_else (MUST (fat FTruncate))
                     (let! ee := the NullPointer ee in
                      let! w := f_write ee in
                      if MUST_ w.1 || negb (w.2 =? Z.of_nat EE_SIZE) then ret true
                      else MUST (fat FSync))) in
      ret tt.

Definition sdcard_process (conf : net_config) : M net_config :=
  let! r := fat (FOpen "NET.CNF" (Z.lor FA_OPEN_EXISTING FA_READ)) in
  let! conf := (if MUST_ r then ret conf
                else
                  let! lines := gets (fun w => env_fat_lines (trace w)) in
                  let! conf := sdcard_netconf inet_aton conf lines in
                  let! _ := MUST (fat FClose) in
                  ret conf) in
  let! r := fat (FOpen "EEPROM.NEW" (Z.lor FA_OPEN_EXISTING FA_READ)) in
  (if MUST_ r then ret tt
   else
     sdcard_sync_eeprom true ;;
     let! _ := MUST (fat FClose) in
     let! _ := MUST (fat (FUnlink "EEPROM.NEW")) in
     ret tt) ;;
  let! r := fat (FOpen "EEPROM.DAT" (Z.lor (Z.lor FA_OPEN_ALWAYS FA_READ) FA_WRITE)) in
  (if MUST_ r then ret tt
   else
     sdcard_sync_eeprom false ;;
     let! _ := MUST (fat FClose) in
     ret tt) ;;
  ret conf.

(** Whether it failed, and the configuration. *)
Definition sdcard_trypart (conf : net_config) (root : string) : M (bool * net_config) :=
  let! m := MUST (fat (FMount root)) in
  if m then ret (true, conf)
  else
    let! d := MUST (fat (FChdir root)) in
    if d then
      let! _ := MUST (fat (FUnmount root)) in
      ret (true, conf)
    else
      let! conf := sdcard_process conf in
      ret (false, conf).

Definition sdcard_handle (conf : net_config) : M net_config :=
  let! r := sdcard_trypart conf "0:/" in
  if r.1 then
    let! r := sdcard_trypart r.2 "1:/" in
    ret r.2
  else ret r.2.
End SdCard.

(** ** Facts *)

(** What the code does to the card, and reading from the I2C bus. *)
Definition card_event (e : event) : Prop :=
  match e with
  | EFat _ _ | EFatRead _ _ | EFatWrite _ _ _ | EMalloc _ _ => True
  | _ => i2c_reading e
  end.

Section Facts.
Context {env : Env} (inet_aton : list Z -> option Z).

(** What makes the behaviour undefined: an allocation fails, or the
    configuration file has a line [hwaddr] with no argument. *)
Definition card_hazard : Prop :=
  (exists tr, env_malloc tr EE_SIZE = false) \/ exists tr, Exists bare_hwaddr (env_fat_lines tr).
Abbreviation card m := (harmless card_event card_hazard m).

Lemma card_fat op : card (fat op).
Proof. intros w. split; [split; [done|by apply emits_push]|done]. Qed.

Lemma card_f_read n : card (f_read n).
Proof. intros w. unfold f_read. destruct (env_fat_read _ _). split; [split; [done|by apply emits_push]|done]. Qed.

Lemma card_f_write bs : card (f_write bs).
Proof. intros w. unfold f_write. destruct (env_fat_write _ _). split; [split; [done|by apply emits_push]|done]. Qed.

(** A block, and what is done with the pointer. *)
Lemma card_malloc {A} (k : option (list Z) -> M A) :
  (forall p, (p = None -> card_hazard) -> card (k p)) -> card (bind (malloc EE_SIZE) k).
Proof.
  intros H w. rewrite run_bind_eq. unfold malloc. cbv zeta beta iota. set (w1 := push _ w).
  destruct (env_malloc (trace w) EE_SIZE) eqn:E.
  - destruct (H (Some (take EE_SIZE ((u8 <$> env_uninit (trace w1) EE_SIZE) ++ replicate EE_SIZE 0))) ltac:(done) w1)
      as [R F]. split; [|exact F]. eapply wo_trans; [|exact R]. split; [done|by apply emits_push].
  - destruct (H None ltac:(intros _; left; by eexists) w1) as [R F]. split; [|exact F].
    eapply wo_trans; [|exact R]. split; [done|by apply emits_push].
Qed.

Lemma card_netconf conf : card (let! lines := gets (fun w => env_fat_lines (trace w)) in sdcard_netconf inet_aton conf lines).
Proof.
  intros w. rewrite run_gets. revert w. generalize (eq_refl (env_fat_lines)). intros _ w.
  apply (harmless_mono i2c_reading card_event (Exists bare_hwaddr (env_fat_lines (trace w))) card_hazard);
    [by intros [] []|by right; eexists|apply harmless_netconf].
Qed.

Lemma card_or_else a b : card a -> card b -> card (or_else a b).
Proof. intros Ha Hb. apply harmless_bind; [done|]. intros []; [apply harmless_ret|done]. Qed.

Ltac card_step :=
  lazymatch goal with
  | |- harmless _ _ (bind (malloc EE_SIZE) _) => apply card_malloc; intros ? ?
  | |- harmless _ _ (bind _ _) => apply harmless_bind; [|intros ?]
  | |- harmless _ _ (ret _) => apply harmless_ret
  | |- harmless _ _ (the NullPointer _) => by apply harmless_pointer
  | |- harmless _ _ (fat _) => apply card_fat
  | |- harmless _ _ (f_read _) => apply card_f_read
  | |- harmless _ _ (f_write _) => apply card_f_write
  | |- harmless _ _ (or_else _ _) => apply card_or_else
  | |- harmless _ _ (MUST _) => unfold MUST
  | |- harmless _ _ (if ?b then _ else _) => destruct b
  | |- harmless _ _ (let _ := _ in _) => cbv zeta
  | |- harmless _ _ _ => solve [auto with card]
  end.
Ltac card_tac := repeat card_step.
Create HintDb card.

Lemma card_sync b : card (sdcard_sync_eeprom b).
Proof. unfold sdcard_sync_eeprom. card_tac. Qed.
#[local] Hint Resolve card_sync : card.

Lemma card_process conf : card (sdcard_process inet_aton conf).
Proof.
  unfold sdcard_process. apply harmless_bind; [card_tac|intros r]. apply harmless_bind; [|intros c; card_tac].
  destruct (MUST_ r); [card_tac|]. intros w. rewrite <- bind_assoc. revert w.
  change (card (let! c := (let! lines := gets (fun w => env_fat_lines (trace w)) in sdcard_netconf inet_aton conf lines) in
    let! _ := MUST (fat FClose) in ret c)).
  apply harmless_bind; [apply card_netconf|intros c; card_tac].
Qed.
#[local] Hint Resolve card_process : card.

Lemma card_handle conf : card (sdcard_handle inet_aton conf).
Proof. unfold sdcard_handle, sdcard_trypart. card_tac. Qed.

Lemma card_cells ee0 es tr : Forall card_event es ->
  cells (eeprom_state ee0 (es ++ tr)) = cells (eeprom_state ee0 tr).
Proof.
  induction 1 as [|e es He _ IH]; [done|]. cbn [app]. rewrite quiet_cells; [exact IH|].
  by destruct e; try exact I; destruct He.
Qed.

(** C20. Whatever the card holds and however it fails, reading it at start-up
    changes nothing of the program's state but the configuration it returns,
    writes no register, and leaves every byte of the EEPROM as it was.  Its
    behaviour can be undefined in two ways only, both a null pointer: [malloc]
    has no block, as its result is not looked at, or the configuration file
    has a line [hwaddr] with no argument, which is printed.  With memory and
    without such a line there is no undefined behaviour. *)
Theorem sdcard_handle_safe conf ee0 w :
  (forall f w', sdcard_handle inet_aton conf w = Fault f w' ->
     f = NullPointer /\
     ((exists tr, env_malloc tr EE_SIZE = false) \/ exists tr, Exists bare_hwaddr (env_fat_lines tr))) /\
  state_of (final (sdcard_handle inet_aton conf w)) = state_of w /\
  writes_of (trace (final (sdcard_handle inet_aton conf w))) = writes_of (trace w) /\
  cells (eeprom_state ee0 (trace (final (sdcard_handle inet_aton conf w)))) = cells (eeprom_state ee0 (trace w)).
Proof.
  destruct (card_handle conf w) as [[K (es & Et & Ee)] F]. rewrite Et. split_and!; [exact F|exact K| |].
  - clear -Ee. induction Ee as [|e es He _ IH]; [done|]. cbn [app].
    rewrite <- IH. by destruct e; try done; destruct He.
  - by apply card_cells.
Qed.

(** The indeterminate contents of a block from [malloc]. *)
Definition heap_block (bs : list Z) : Prop :=
  exists tr, bs = take EE_SIZE ((u8 <$> env_uninit tr EE_SIZE) ++ replicate EE_SIZE 0).

Definition writes_heap (e : event) : Prop :=
  match e with EFatWrite bs _ _ => heap_block bs | _ => True end.

Lemma respects_weaken {A} (P Q : event -> Prop) (m : M A) : (forall e, P e -> Q e) ->
  respects (emits P) m -> respects (emits Q) m.
Proof. intros H Hm w. eapply emits_mono; [exact H|apply Hm]. Qed.

Ltac heap_side := by apply emits_push.

Lemma malloc_writes {A} (k : option (list Z) -> M A) :
  (forall p, (forall b, p = Some b -> heap_block b) -> respects (emits writes_heap) (k p)) ->
  respects (emits writes_heap) (bind (malloc EE_SIZE) k).
Proof.
  intros H w. rewrite run_bind_eq. unfold malloc. cbv zeta beta iota. set (w1 := push _ w).
  eapply wo_trans; [|apply H]; [by apply emits_push|].
  destruct (env_malloc _ _); intros b [= <-]. by eexists.
Qed.

(** Only a block that was allocated is written. *)
Lemma pointer_writes {A} (p : option (list Z)) (k : list Z -> M A) :
  (forall b, p = Some b -> respects (emits writes_heap) (k b)) -> respects (emits writes_heap) (bind (the NullPointer p) k).
Proof. intros H. destruct p as [b|]; [exact (H b eq_refl)|]. intros w. exact (wo_refl w). Qed.

Lemma sync_writes b : respects (emits writes_heap) (sdcard_sync_eeprom b).
Proof.
  unfold sdcard_sync_eeprom, or_else, MUST. apply malloc_writes. intros ee He. apply malloc_writes. intros file _.
  repeat first [apply pointer_writes; intros ? ?%He | respects_step heap_side].
Qed.
#[local] Hint Resolve sync_writes : respects.

Lemma netconf_writes conf lines : respects (emits writes_heap) (sdcard_netconf inet_aton conf lines).
Proof.
  intros w. destruct (harmless_netconf inet_aton conf lines w) as [[_ E] _].
  eapply emits_mono; [|exact E]. by intros [] [].
Qed.
#[local] Hint Resolve netconf_writes : respects.

Lemma process_writes conf : respects (emits writes_heap) (sdcard_process inet_aton conf).
Proof. unfold sdcard_process, MUST. respects_tac heap_side. Qed.

(** The trace only grows. *)
Definition grows (w w' : world) : Prop := forall e, e ∈ trace w -> e ∈ trace w'.

#[export] Instance grows_order : WorldOrder grows.
Proof. split; unfold grows; auto. Qed.

Ltac grow_side := unfold grows; intros; by apply list_elem_of_further.

Lemma card_grows {A} (m : M A) : card m -> respects grows m.
Proof. intros H w e He. destruct (H w) as [[_ (es & -> & _)] _]. apply elem_of_app. by right. Qed.

(** The part of [sdcard_process] after the configuration, when both images
    are on the card. *)
Lemma process_unlinks conf c w w' :
  (forall tr name mode, env_fat tr (FOpen name mode) = FR_OK) ->
  sdcard_process inet_aton conf w = Done c w' -> exists r, EFat (FUnlink "EEPROM.NEW") r ∈ trace w'.
Proof.
  intros Ho E. unfold sdcard_process in E.
  apply bind_done in E as (r1 & w1 & _ & E). apply bind_done in E as (c1 & w2 & _ & E).
  unfold fat at 1 in E. rewrite run_bind_eq in E. cbn beta iota in E. rewrite Ho in E.
  change (MUST_ FR_OK) with false in E. cbv iota in E.
  apply bind_done in E as ([] & w3 & E3 & E).
  apply bind_done in E3 as ([] & w4 & _ & E3). apply bind_done in E3 as (b & w5 & _ & E3).
  apply bind_done in E3 as (b' & w6 & E6 & E3). injection E3 as <-.
  unfold MUST, fat, bind in E6. injection E6 as _ <-.
  match type of E with ?m ?x = _ => assert (respects grows m) as G end.
  { repeat (apply respects_bind; [exact _| |intros ?]);
      try (apply card_grows; first [apply card_fat | apply harmless_ret]).
    destruct (MUST_ a); [apply card_grows, harmless_ret|].
    apply card_grows. card_tac. }
  specialize (G (push (EFat (FUnlink "EEPROM.NEW") (env_fat (trace w5) (FUnlink "EEPROM.NEW"))) w5)).
  rewrite E in G. eexists. apply G. apply list_elem_of_here.
Qed.
End Facts.

(** The EEPROM images.  With both image files on the card, [EEPROM.NEW],
    whatever it holds, is deleted although no byte of it reaches the EEPROM;
    and whatever is written to [EEPROM.DAT] is a block of uninitialised heap
    memory, not the contents of the EEPROM. *)
Theorem eeprom_images_not_exchanged {env : Env} inet_aton conf c ee0 w w' :
  (forall tr name mode, env_fat tr (FOpen name mode) = FR_OK) ->
  sdcard_process inet_aton conf w = Done c w' ->
  (exists r, EFat (FUnlink "EEPROM.NEW") r ∈ trace w') /\
  cells (eeprom_state ee0 (trace w')) = cells (eeprom_state ee0 (trace w)) /\
  exists es, trace w' = es ++ trace w /\ forall bs r n, EFatWrite bs r n ∈ es -> heap_block bs.
Proof.
  intros Ho E. split; [by eapply process_unlinks|].
  pose proof (card_process inet_aton conf w) as [[_ (es & Et & Ee)] _]. rewrite E in Et. cbn [final] in Et.
  split; [rewrite Et; by apply card_cells|].
  pose proof (process_writes inet_aton conf w) as (es' & Et' & Ew). rewrite E in Et'. cbn [final] in Et'.
  exists es'. split; [done|]. intros bs r n Hin. rewrite Forall_forall in Ew. exact (Ew _ Hin).
Qed.

(** A card with a new image of 256 zero bytes, and a heap block of 0xA5. *)
Definition card_env : Env := {|
  XPAR_M_AXI_BASEADDR := sim_base; pdMS_TO_TICKS ms := ms; portTICK_PERIOD_MS := 10; DHCP_FINE_TIMER_MSECS := 500; DHCP_COARSE_TIMER_SECS := 60; EIO := 5; EMSGSIZE := 90; ENOTCONN := 107;
  env_in32 := fun _ _ => 0; env_load32 := fun _ a => a; env_tick := fun _ => 0;
  env_send := send_all; env_recv := stream_of 3 []; env_select := fun _ rd => Some rd;
  env_accept := fun _ _ => None; env_qspi := fun _ _ => []; env_i2c_busy := fun _ _ => false;
  env_i2c_recv := fun _ _ _ n => replicate n 0x11;
  env_uninit := fun _ n => replicate n 0xA5; env_stat := fun _ _ => 0; env_ip_text := fun _ => [];
  env_uart_ready := fun _ => true; env_uart_rx := fun _ => 0; env_scanf := fun _ => None;
  env_strtof := fun _ => 0; env_tasks := fun _ => ([], 0);
  env_fat := fun _ _ => 0; env_fat_read := fun _ n => (0, replicate n 0);
  env_fat_write := fun _ bs => (0, Z.of_nat (length bs));
  env_fat_lines := fun _ => [str "hwaddr eeprom"];
  env_malloc := fun _ _ => true; env_calloc := fun _ => true; env_socket := fun _ => Some 3; env_bind := fun _ _ _ => true;
  env_listen := fun _ _ => true; env_net := fun _ _ => 0; env_netif := fun _ _ => 0; env_driver := fun _ op => default_driver op; env_ntoa := fun _ => []; env_patience := 3
|}.

Lemma eeprom_images_not_exchanged_witness :
  exists c w', sdcard_process (env := card_env) (fun _ => None) (NetConfig 0 0 0 0 []) sim_world = Done c w' /\
    hwaddr c = replicate 6 0x11 /\ (exists r, EFat (FUnlink "EEPROM.NEW") r ∈ trace w') /\
    EFatWrite (replicate 256 0xA5) 0 256 ∈ trace w'.
Proof.
  destruct (sdcard_process (env := card_env) (fun _ => None) (NetConfig 0 0 0 0 []) sim_world) as [c w'| |] eqn:E;
    [|vm_compute in E; discriminate E|vm_compute in E; discriminate E].
  destruct (eeprom_images_not_exchanged (env := card_env) (fun _ => None) (NetConfig 0 0 0 0 []) c [] sim_world w'
    ltac:(reflexivity) E) as (H & _).
  exists c, w'. split; [done|]. split; [|split; [exact H|]].
  - vm_compute in E. injection E as <- _. reflexivity.
  - vm_compute in E. injection E as _ <-. cbn [trace].
    repeat first [apply list_elem_of_here | apply list_elem_of_further].
Defined.
