(* ===== verification/NetSetup.v ===== *)
(** * The network interface and the UDP services ([net_setup.c])

    Bringing the interface up with the configuration of the card, the task
    that drives lwIP's two DHCP timers, and the set-up of the discovery
    responder and the TFTP server, which lwIP runs on its own thread. *)

From Stdlib Require Import ZArith Lia Bool String.
From stdpp Require Import base list numbers strings.
From S2P Require Import Prelude CString World Logic Sim I2c Eeprom NetConf Discover.

#[local] Open Scope Z_scope.

Section NetSetup.
Context {env : Env}.

Definition netif (f : netif_field) : M Z := gets (fun w => u32 (env_netif (trace w) f)).

Definition show_ip_info (prefix : string) : M unit :=
  let! a := netif ip_addr in
  print "%s: %s" [AStr (str prefix); AStr (env_ntoa a)] ;;
  let! m := netif netmask in
  print "/%s" [AStr (env_ntoa m)] ;;
  let! g := netif gateway in
  print " gw: %s\n" [AStr (env_ntoa g)].

(** One turn of the task's loop, on [mscnt] and [prev]. *)
Definition dhcp_turn (mscnt prev : Z) : M (Z * Z) :=
  vTaskDelay (DHCP_FINE_TIMER_MSECS / portTICK_PERIOD_MS) ;;
  let! _ := net dhcp_fine_tmr in
  let! mscnt := int_op (mscnt + DHCP_FINE_TIMER_MSECS) in
  let! mscnt := (if DHCP_COARSE_TIMER_SECS * 1000 <=? mscnt
                 then let! _ := net dhcp_coarse_tmr in ret 0 else ret mscnt) in
  let! a := netif ip_addr in
  if a =? prev then ret (mscnt, prev)
  else
    show_ip_info "DHCP address assigned" ;;
    let! prev := netif ip_addr in
    ret (mscnt, prev).

Fixpoint dhcp_loop (turns : nat) (mscnt prev : Z) : M unit :=
  match turns with
  | O => ret tt
  | S turns => let! r := dhcp_turn mscnt prev in dhcp_loop turns r.1 r.2
  end.

Definition dhcp_client (turns : nat) : M unit :=
  print "DHCP client running...\n" [] ;;
  dhcp_loop turns 0 0.

Definition net_setup (conf : net_config) : M unit :=
  let! _ := net lwip_init in
  print "MAC: %02X:%02X:%02X:%02X:%02X:%02X\n" ((fun i => AInt (nth i (hwaddr conf) 0)) <$> seq 0 6) ;;
  let! added := net xemac_add in
  if added =? 0 then print "Error adding N/W interface\r\n" []
  else
    let! _ := net netif_set_default in
    let! _ := net netif_set_up in
    when (negb (use_static conf =? 0)) (show_ip_info "Static address assigned") ;;
    let! _ := net (sys_thread_new "NIC") in
    when (use_static conf =? 0)
      (let! e := net dhcp_start in
       if e =? 0 then let! _ := net (sys_thread_new "dhcpcd") in ret tt
       else print "ERROR: Unable to initialize DHCP client.\n" []).

Definition ERR_OK : Z := 0.
Definition ERR_MEM : Z := -1.
Definition TFTP_PORT : Z := 69.

(** [discover_prep]: a port that cannot be bound is only reported. *)
Definition discover_prep : M unit :=
  let! pcb := net udp_new_ip_type in
  if pcb =? 0 then print "Error: unable to allocate discovery socket\n" []
  else
    let! err := net (udp_bind 3000) in
    when (negb (err =? ERR_OK)) (print "Error %d: unable to bind UDP discovery\n" [AInt err]) ;;
    let! h := gets (fun w => git_hash (glob w)) in
    let! buf := net (pbuf_alloc_reference (disco_reply h)) in
    if buf =? 0 then print "Error: unable to allocate discovery reply pbuf\n" []
    else let! _ := net (udp_recv "disco_recv") in ret tt.

Definition discover_setup : M unit :=
  let! err := net (tcpip_callback "discover_prep") in
  when (negb (err =? ERR_OK)) (print "Error %d: unable to setup UDP discovery\n" [AInt err]).

(** The descriptor of [tftp_init]; its state is in [Tftp.v]. *)
Definition tftp_listen : M Z :=
  let! pcb := net udp_new_ip_type in
  if pcb =? 0 then ret ERR_MEM
  else
    let! err := net (udp_bind TFTP_PORT) in
    if negb (err =? ERR_OK) then let! _ := net udp_remove in ret err
    else let! _ := net (udp_recv "recv") in ret ERR_OK.

(** Its error is not looked at. *)
Definition tftp_prepare : M unit := let! _ := tftp_listen in ret tt.

Definition tftp_setup : M unit :=
  let! err := net (tcpip_callback "tftp_prepare") in
  when (negb (err =? ERR_OK)) (print "Error %d: unable to setup TFTP\n" [AInt err]).
End NetSetup.

(** ** The timers *)

#[export] Instance net_op_eq_dec : EqDecision net_op.
Proof. solve_decision. Defined.

(** How often an operation was called. *)
Fixpoint calls (op : net_op) (tr : list event) : nat :=
  match tr with
  | [] => 0
  | ENet o _ :: tr => if decide (o = op) then Datatypes.S (calls op tr) else calls op tr
  | _ :: tr => calls op tr
  end.

(** The number of fine ticks between two coarse ones. *)
Definition coarse_every {env : Env} : nat :=
  Z.to_nat ((DHCP_COARSE_TIMER_SECS * 1000 + DHCP_FINE_TIMER_MSECS - 1) / DHCP_FINE_TIMER_MSECS).

(** lwIP's periods: positive, and their sum is an [int]. *)
Class DhcpPeriods (env : Env) := {
  fine_pos : 0 < DHCP_FINE_TIMER_MSECS;
  coarse_pos : 0 < DHCP_COARSE_TIMER_SECS;
  periods_fit : DHCP_COARSE_TIMER_SECS * 1000 + DHCP_FINE_TIMER_MSECS < 2 ^ 31
}.

Section Timers.
Context {env : Env} `{!DhcpPeriods env}.
Abbreviation F := (@DHCP_FINE_TIMER_MSECS env).
Abbreviation C := (@DHCP_COARSE_TIMER_SECS env * 1000).
Abbreviation k := (coarse_every (env := env)).

Lemma coarse_bounds : (0 < k)%nat /\ Z.of_nat k * F >= C /\ (Z.of_nat k - 1) * F < C.
Proof.
  pose proof (fine_pos (env := env)) as Hf. pose proof (coarse_pos (env := env)) as Hc. unfold coarse_every.
  pose proof (Z.div_mod (C + F - 1) F ltac:(lia)) as E.
  pose proof (Z.mod_pos_bound (C + F - 1) F ltac:(lia)).
  set (q := (C + F - 1) / F) in *. assert (0 < q) by nia. rewrite Z2Nat.id by lia. split_and!; [lia|nia|nia].
Qed.

(** After [t] fine ticks: [t mod k] since the last coarse one. *)
Lemma next_tick t :
  let m := Z.of_nat (t mod k) * F + F in
  (if C <=? m then 0 else m) = Z.of_nat (Datatypes.S t mod k) * F /\
  (Datatypes.S t / k = t / k + (if (C <=? m)%Z then 1 else 0))%nat /\ 0 <= m < 2 ^ 31.
Proof.
  intros m. pose proof (fine_pos (env := env)) as Hf. pose proof (periods_fit (env := env)) as Hp. destruct coarse_bounds as (K0 & K1 & K2).
  pose proof (Nat.mod_upper_bound t k ltac:(lia)) as B.
  pose proof (Nat.div_mod t k ltac:(lia)) as E. unfold m. clear m.
  set (r := (t mod k)%nat) in *. set (q := (t / k)%nat) in *. set (kk := k) in *.
  destruct (Z.leb_spec C (Z.of_nat r * F + F)) as [L|L].
  - assert (Datatypes.S r = kk) as Er by nia.
    assert (Datatypes.S t = kk * Datatypes.S q + 0)%nat as Et by nia.
    split; [|split].
    + rewrite Et, <- (Nat.mod_unique (kk * Datatypes.S q + 0) kk (Datatypes.S q) 0) by lia. done.
    + rewrite <- (Nat.div_unique (Datatypes.S t) kk (Datatypes.S q) 0) by lia. lia.
    + nia.
  - assert (Datatypes.S r < kk)%nat by nia.
    split; [|split].
    + rewrite <- (Nat.mod_unique (Datatypes.S t) kk q (Datatypes.S r)) by lia. lia.
    + rewrite <- (Nat.div_unique (Datatypes.S t) kk q (Datatypes.S r)) by lia. lia.
    + nia.
Qed.

Lemma dhcp_turn_run t prev w : exists prev' w',
  dhcp_turn (Z.of_nat (t mod k) * F) prev w = Done (Z.of_nat (Datatypes.S t mod k) * F, prev') w' /\
  calls dhcp_fine_tmr (trace w') = Datatypes.S (calls dhcp_fine_tmr (trace w)) /\
  (calls dhcp_coarse_tmr (trace w') + t / k = calls dhcp_coarse_tmr (trace w) + Datatypes.S t / k)%nat /\
  state_of w' = state_of w.
Proof.
  destruct (next_tick t) as (E1 & E2 & E3). cbv zeta in *.
  unfold dhcp_turn, vTaskDelay, log. rewrite (run_bind (modify _) _ _ tt _ eq_refl).
  rewrite run_net. cbv zeta. unfold int_op.
  assert (fits_signed 32 (Z.of_nat (t mod k) * F + F) = true) as ->.
  { apply fits_signed_spec. change (2 ^ (32 - 1)) with (2 ^ 31). lia. }
  rewrite run_ret. rewrite <- E1.
  destruct (C <=? Z.of_nat (t mod k) * F + F); rewrite ?bind_assoc, ?run_net, ?run_ret;
    cbv zeta; unfold netif at 1; rewrite run_gets;
    destruct (_ =? prev); (do 2 eexists; split; [reflexivity|]); split_and!; try reflexivity; rewrite E2; cbn -[Nat.div Nat.modulo coarse_every];
    rewrite ?(decide_True (P := dhcp_coarse_tmr = dhcp_coarse_tmr)), ?(decide_False (P := dhcp_fine_tmr = dhcp_coarse_tmr)) by done; lia.
Qed.

Lemma dhcp_loop_run n : forall t prev w, exists w',
  dhcp_loop n (Z.of_nat (t mod k) * F) prev w = Done tt w' /\
  (calls dhcp_fine_tmr (trace w') = calls dhcp_fine_tmr (trace w) + n)%nat /\
  (calls dhcp_coarse_tmr (trace w') + t / k = calls dhcp_coarse_tmr (trace w) + (t + n) / k)%nat /\
  state_of w' = state_of w.
Proof.
  induction n as [|n IH]; intros t prev w; cbn [dhcp_loop].
  - exists w. rewrite !Nat.add_0_r. by split_and!.
  - destruct (dhcp_turn_run t prev w) as (prev' & w1 & E1 & F1 & C1 & S1). rewrite (run_bind _ _ _ _ _ E1).
    cbn [fst snd]. destruct (IH (Datatypes.S t) prev' w1) as (w2 & E2 & F2 & C2 & S2).
    exists w2. replace (t + Datatypes.S n)%nat with (Datatypes.S t + n)%nat by lia.
    split_and!; [done|lia|lia|congruence].
Qed.
End Timers.

(** C33. The DHCP task keeps lwIP's two timers in step: in any number [n] of
    turns it calls the fine timer [n] times and the coarse timer once in
    every [coarse_every] fine ticks (120 with lwIP's periods of 500 ms and
    60 s), the least number of ticks that makes a coarse period; it never
    overflows its counter and never touches the program's state. *)
Theorem dhcp_timers {env : Env} `{!DhcpPeriods env} n w :
  let k := coarse_every in
  (Z.of_nat k - 1) * DHCP_FINE_TIMER_MSECS < DHCP_COARSE_TIMER_SECS * 1000 <= Z.of_nat k * DHCP_FINE_TIMER_MSECS /\
  exists w', dhcp_client n w = Done tt w' /\
    calls dhcp_fine_tmr (trace w') = (calls dhcp_fine_tmr (trace w) + n)%nat /\
    calls dhcp_coarse_tmr (trace w') = (calls dhcp_coarse_tmr (trace w) + n / k)%nat /\
    state_of w' = state_of w.
Proof.
  intros k. destruct coarse_bounds as (K0 & K1 & K2). split; [subst k; lia|].
  unfold dhcp_client, print, log. rewrite (run_bind (modify _) _ _ tt _ eq_refl).
  destruct (dhcp_loop_run n 0 0 (push (EPrint "DHCP client running...\n"%string []) w)) as (w' & E & F1 & C1 & S1).
  rewrite Nat.Div0.mod_0_l, Nat.Div0.div_0_l in *. exists w'. subst k. split_and!; try done; cbn in *; lia.
Qed.

#[export] Instance sim_periods : DhcpPeriods sim.
Proof. by split. Qed.

Lemma dhcp_timers_witness :
  exists w', dhcp_client (env := sim) 250 sim_world = Done tt w' /\
    calls dhcp_fine_tmr (trace w') = 250%nat /\ calls dhcp_coarse_tmr (trace w') = 2%nat.
Proof.
  destruct (dhcp_timers (env := sim) 250 sim_world) as (_ & w' & E & F & C & _).
  exists w'. split; [exact E|]. split; [exact F|exact C].
Defined.
