(* ===== verification/Main.v ===== *)
(** * The program ([main.c])

    The server's callbacks, the configuration [psc_run] is started with, and
    the start-up sequence.  Here the interfaces are put together: the
    callbacks keep the promise the server loop asks of them. *)

From Stdlib Require Import ZArith Lia Bool String.
From stdpp Require Import base list numbers gmap strings.
From S2P Require Import Prelude CFloat Registers World Logic Sim PscMsg Scaling QspiFlash I2c Control Listener Snapshot SaData Periodic Eeprom NetConf SdCard NetSetup.

#[local] Open Scope Z_scope.

Section Main.
Context {env : Env}.

(** [client_event] with the [psc_send_one] it calls: on a connection it
    sends the 8-byte static information, 0x100; it returns at once on a
    disconnection. *)
Definition greeting : M (list Z) :=
  gets (fun w => to_le 4 (htonl (git_hash (glob w))) ++ to_le 4 0).

Definition client_event_with (psc_send_one : Z -> Z -> list Z -> M unit) (evt : psc_event) : M unit :=
  match evt with
  | PSC_DIS => ret tt
  | PSC_CONN => let! msg := greeting in psc_send_one 0x100 8 msg
  end.

Definition client_msg (msgid msglen : Z) (msg : list Z) : M unit :=
  Xil_Out32 (AXI + IOC_ACCESS_REG) 1 ;;
  Xil_Out32 (AXI + IOC_ACCESS_REG) 0 ;;
  if msgid =? 0 then glob_settings msg
  else if (1 <=? msgid) && (msgid <=? 4) then chan_settings msgid msg msglen
  else if msgid =? 101 then write_ramptable 1 msg msglen
  else ret tt.

(** The configuration.  [psc_send] calls the connection callback only for a
    disconnection, on which [client_event] returns at once: the callback
    that [client_event] itself may reach through [psc_send] is [on_dis]. *)
Definition on_dis : psc_config := Config 0 (ret tt) (client_event_with (fun _ _ _ => ret tt)) (fun _ _ _ => ret tt) (ret tt).
Definition client_event : psc_event -> M unit := client_event_with (psc_send on_dis).
Definition main_send : Z -> Z -> list Z -> M unit := psc_send on_dis.

(** [console_setup] only starts the console's task. *)
Definition console_setup : M unit :=
  let! _ := net (sys_thread_new "console") in ret tt.
Definition on_startup : M unit := pscdata_init ;; console_setup.

Definition main_conf : psc_config := Config 3000 on_startup client_event client_msg (pscdata_poll main_send).

(** [realmain]'s call of [psc_run]; [the_server] is still null. *)
Definition server (turns : nat) : M unit := psc_run main_conf false turns.

(** [main] up to the scheduler; what is printed is left out, and so is
    [PrintCacheState], which only prints.  The status of [QspiFlashInit] is
    not looked at. *)
Definition print_firmware_version : M unit :=
  for_up 6 0 (fun i => let! _ := Xil_In32 (AXI + (ID + 4 * i)) in ret tt).

Definition park (c : Z) : M unit := Xil_Out32 (AXI + DIGOUT_PARK_REG + c * CHBASEADDR) 1.

Definition main_init : M unit :=
  print_firmware_version ;;
  Xil_Out32 (AXI + NCO_STEPSIZE_REG) 427853 ;;
  init_i2c ;;
  prog_si570 ;;
  let! _ := QspiFlashInit in
  usleep 100 ;;
  ReadHardwareFlavor ;;
  park 1 ;; park 2 ;; park 3 ;; park 4 ;;
  Xil_Out32 (AXI + EVR_RESET_REG) 0xFF ;;
  usleep 100 ;;
  usleep 100 ;;
  Xil_Out32 (AXI + EVR_PM_EVENTNUM_REG) 29 ;;
  Xil_Out32 (AXI + EVR_1HZ_EVENTNUM_REG) 32 ;;
  Xil_Out32 (AXI + EVR_INJ_EVENTNUM_REG) 32 ;;
  Xil_Out32 (AXI + FOFB_IPADDR_REG) 0x0A008E64 ;;
  usleep 100.

(** The set-up of [realmain]: the card, the saved settings, the network. *)
Definition net_config_zero : net_config := NetConfig 0 0 0 0 (replicate NETIF_MAX_HWADDR_LEN 0).

Definition startup (inet_aton : list Z -> option Z) : M unit :=
  let! conf := sdcard_handle inet_aton net_config_zero in
  InitSettingsfromQspi ;;
  net_setup conf ;;
  discover_setup ;;
  tftp_setup.

(** [realmain], with [turns] turns of the server; if the server could not be
    set up, [idle] turns of the endless complaint. *)
Definition realmain (inet_aton : list Z -> option Z) (turns idle : nat) : M unit :=
  startup inet_aton ;;
  server turns ;;
  for_up idle 0 (fun _ => sys_msleep 1000).

(** Start-up: [main], which starts [realmain]'s task, up to the server. *)
Definition boot (inet_aton : list Z -> option Z) : M unit := main_init ;; startup inet_aton.

Definition program (inet_aton : list Z -> option Z) (turns idle : nat) : M unit :=
  main_init ;; realmain inet_aton turns idle.
End Main.

(** ** The callbacks keep their promise *)

Section Promise.
Context {env : Env} `{!AxiWindow env}.
Abbreviation inv m := (triple server_inv m (fun _ => server_inv) safe).

Ltac by_side := split; [reflexivity|first [by apply emits_push | by exists []]].

(** The knot: both configurations disconnect alike. *)
Lemma main_send_eq : main_send = psc_send main_conf.
Proof. reflexivity. Qed.

Lemma dis_quiet w : conn main_conf PSC_DIS w = Done tt w.
Proof. reflexivity. Qed.

#[export] Instance on_dis_ok : ConfigOk on_dis.
Proof.
  split; [intros X w H; exact H|intros w H; exact H| |intros i l b w H; exact H|intros w H; exact H].
  intros w Hw. exact Hw.
Qed.

#[export] Instance main_send_ok : SenderOk main_send.
Proof. apply psc_send_ok; [exact _|reflexivity]. Qed.

Lemma msg_word_bystander msg i : bystander (msg_word msg i).
Proof. unfold bystander, msg_word. respects_tac by_side. Qed.
#[local] Hint Resolve msg_word_bystander : respects.

(** The settings of a channel, whatever its number. *)
Lemma poll_ready_bystander fuel : bystander (poll_ready fuel).
Proof. unfold bystander. induction fuel as [|n IH]; cbn [poll_ready]; respects_tac by_side. Qed.

Lemma read_regs_bystander base rs : bystander (read_regs base rs).
Proof. unfold bystander. induction rs as [|r rs IH]; cbn [read_regs]; respects_tac by_side. Qed.

Lemma write_regs_bystander base rs vs : bystander (write_regs base rs vs).
Proof. unfold bystander. revert vs. induction rs as [|r rs IH]; intros [|v vs]; cbn [write_regs]; respects_tac by_side; apply IH. Qed.

Lemma flash_bystander chan : bystander (qspi_save chan) /\ bystander (qspi_load chan).
Proof.
  pose proof poll_ready_bystander as P. pose proof read_regs_bystander as Q. pose proof write_regs_bystander as W.
  unfold bystander in *. split;
    unfold qspi_save, qspi_load, QspiFlashEraseSect, QspiGatherData, QspiFlashWrite, QspiFlashRead, QspiDisperseData;
    respects_tac by_side; auto.
Qed.

Lemma Set_dac_bystander chan f : bystander (Set_dac chan f).
Proof.
  unfold bystander, Set_dac, Calc_WriteLinearSmooth, Calc_WriteRaisedCosineSmooth, volts_to_dacbits, soft_trig, limit_511, q16_48,
    cast_u32, cast_s32. respects_tac by_side.
Qed.

Lemma chan_settings_bystander chan msg len : bystander (chan_settings chan msg len).
Proof.
  pose proof (flash_bystander chan) as [F1 F2]. pose proof (Set_dac_bystander chan) as D.
  unfold bystander in *. unfold chan_settings.
  do 2 (apply respects_bind; [exact _|apply msg_word_bystander|intros ?]).
  apply (switch_Forall bystander); [apply respects_ret; exact _|].
  unfold chan_cases, chan_dac, chan_gains, chan_thresholds, chan_cntlims, chan_digital, chan_scalefactors, chan_misc.
  repeat (apply Forall_app; split); repeat (apply list.Forall_cons; split); try solve [constructor]; cbn [snd];
    unfold bystander, set_word, set_gain, set_offset_dac, set_offset_16, set_thresh_dac, set_thresh_16,
      set_cntlim, scaled_dac, volts_to_dacbits, cast_u32, cast_s32, chan_bit, fault_clear, soft_trig,
      Set_dacOpmode, dump_adcs, ReadAccumSA, volts_to_dacbits; respects_tac by_side; auto.
Qed.

Lemma glob_settings_bystander msg : bystander (glob_settings msg).
Proof.
  unfold glob_settings, bystander.
  apply respects_bind; [exact _|apply msg_word_bystander|intros a].
  apply respects_bind; [exact _|apply msg_word_bystander|intros d].
  apply (switch_Forall bystander); [apply respects_ret; exact _|].
  unfold glob_cases, bystander. repeat (apply list.Forall_cons; split); try solve [constructor];
    cbn [snd]; unfold soft_trig, set_fpleds, glob_word; respects_tac by_side.
Qed.

Lemma write_ramptable_bystander chan msg len : bystander (write_ramptable chan msg len).
Proof.
  pose proof msg_word_bystander as H. unfold bystander in *.
  unfold write_ramptable, ramp_point, ramp_clamp, volts_to_dacbits, cast_s32. respects_tac by_side; auto.
Qed.

Lemma client_msg_bystander i l b : bystander (client_msg i l b).
Proof.
  unfold client_msg, bystander.
  apply respects_bind; [exact _|respects_tac by_side|intros _].
  apply respects_bind; [exact _|respects_tac by_side|intros _].
  destruct (i =? 0); [apply glob_settings_bystander|].
  destruct (_ && _); [apply chan_settings_bystander|].
  destruct (i =? 101); [apply write_ramptable_bystander|apply respects_ret; exact _].
Qed.

#[export] Instance main_conf_ok : ConfigOk main_conf.
Proof.
  split.
  - intros X w H. exact H.
  - apply bystander_inv. unfold bystander, main_conf, on_startup, console_setup, pscdata_init, lstats_init, snapshot_init,
      on_pdata, bpc_init, bpc_reset. cbn [start]. respects_tac by_side.
  - unfold main_conf, client_event, client_event_with, greeting. cbn [conn].
    apply inv_bind; [unfold bystander; respects_tac by_side|intros msg]. by apply psc_send_safe, on_dis_ok.
  - intros i l b. apply bystander_inv, client_msg_bystander.
  - apply inv_pscdata_poll. exact _.
Qed.

(** Start-up touches no socket. *)
Lemma wait_bus_bystander n bus : bystander (wait_bus n bus).
Proof. unfold bystander. induction n; cbn [wait_bus]; respects_tac by_side. Qed.

Lemma main_init_bystander : bystander main_init.
Proof.
  pose proof wait_bus_bystander as W. unfold bystander in *.
  assert (bystander read_si570) as S.
  { unfold bystander, read_si570, i2c0_write, i2c0_read, i2c_write, i2c_read. respects_tac by_side; auto. }
  assert (bystander prog_si570) as P.
  { unfold bystander, prog_si570. apply respects_bind; [exact _|exact S|intros _].
    apply respects_bind; [exact _| |intros _; exact S].
    apply respects_seq_all; [exact _|]. apply list.Forall_fmap, list.Forall_true. intros rv.
    unfold compose, i2c0_write, i2c_write. respects_tac by_side; auto. }
  unfold bystander in P. unfold main_init, print_firmware_version, park, init_i2c, init_bus, QspiFlashInit, ReadHardwareFlavor, i2c_eeprom_readBytes,
    i2c1_write, i2c1_read, i2c_write, i2c_read, flavor_numchans, flavor_resolution, flavor_bandwidth,
    flavor_polarity, flavor_dualmode, flavor_dipole, flavor_smooth, modify_glob. respects_tac by_side; auto.
Qed.

Lemma card_bystander inet_aton conf : bystander (sdcard_handle inet_aton conf).
Proof.
  intros w. destruct (card_handle inet_aton conf w) as [[K E] _]. split.
  - unfold keeps, state_of in *. by injection K.
  - eapply emits_mono; [|exact E]. by intros [] He; try exact I; destruct He.
Qed.

Lemma init_settings_bystander : bystander InitSettingsfromQspi.
Proof. unfold bystander, InitSettingsfromQspi. respects_tac by_side; apply flash_bystander. Qed.

Lemma startup_bystander inet_aton : bystander (startup inet_aton).
Proof.
  unfold bystander, startup. apply respects_bind; [exact _|apply card_bystander|intros conf].
  apply respects_bind; [exact _|apply init_settings_bystander|intros _].
  unfold net_setup, show_ip_info, netif, discover_setup, tftp_setup. respects_tac by_side.
Qed.

Lemma bystander_no_client {A} (m : M A) X : bystander m -> triple (no_client X) m (fun _ => no_client X) safe.
Proof.
  intros H. eapply triple_respects; [exact H|..]; intros w w' [Hc Hw] [Hk He].
  - split; [by rewrite Hk|by eapply owns_quiet].
  - by eapply owns_quiet.
Qed.
End Promise.

(** C1. Descriptor safety of the running program: from a state in which no
    client descriptor is open, after start-up, the set-up of the server, with
    or without success, and any number of turns of its loop with the program's
    own callbacks and periodic data, whatever the network, the peers, the
    clock and the hardware do, data was only ever sent or received on a
    descriptor that [accept] returned and that was not closed yet, no
    descriptor was closed twice, and at the end of each turn the only open one
    is [client_sock] (none when it is negative). *)
Theorem server_descriptors {env : Env} `{!AxiWindow env} inet_aton n idle w :
  fd_safe (trace w) -> open_fds (trace w) = ∅ -> client_sock (key w) < 0 ->
  match program inet_aton n idle w with
  | Done _ w' => fd_safe (trace w') /\ open_fds (trace w') = client_fds (client_sock (key w'))
  | Fault _ w' | NoFuel w' => fd_safe (trace w')
  end.
Proof.
  intros Hs Ho Hc.
  assert (triple (no_client ∅) (program inet_aton n idle) (fun _ => server_inv) safe) as H.
  { unfold program, realmain.
    eapply triple_bind; [apply (bystander_no_client _ ∅), main_init_bystander|intros []].
    eapply triple_bind; [apply (bystander_no_client _ ∅), startup_bystander|intros []].
    eapply triple_bind; [apply (psc_run_safe main_conf)|intros []].
    apply bystander_inv. unfold bystander. respects_tac ltac:(split; [reflexivity|by apply emits_push]). }
  exact (H w (conj Hc (conj Hs Ho))).
Qed.

Lemma server_descriptors_witness :
  fd_safe (trace sim_world) /\
  match program (env := sim) known_addrs 2 0 sim_world with
  | Done _ w' => fd_safe (trace w') /\ open_fds (trace w') = client_fds (client_sock (key w'))
  | Fault _ w' | NoFuel w' => fd_safe (trace w')
  end.
Proof.
  split; [exact I|]. apply (server_descriptors (env := sim) known_addrs 2 0 sim_world); [exact I|reflexivity|reflexivity].
Defined.

(** ** Messages *)

(** Messages whose id is not 0 to 4 or 101 have no effect but the pulse of
    the access indicator; ramp tables for channels 2, 3 and 4 (ids 102 to
    104) are among them. *)
Theorem client_msg_ignored {env : Env} `{!AxiWindow env} msgid msglen msg w :
  ~ 0 <= msgid <= 4 -> msgid <> 101 ->
  client_msg msgid msglen msg w =
  Done tt (push (EOut32 (AXI + IOC_ACCESS_REG) 0) (push (EOut32 (AXI + IOC_ACCESS_REG) 1) w)).
Proof.
  intros H1 H2. unfold client_msg. rewrite !run_out32.
  rewrite (axi_addr IOC_ACCESS_REG) by (unfold IOC_ACCESS_REG; lia).
  destruct (Z.eqb_spec msgid 0); [lia|].
  destruct ((1 <=? msgid) && (msgid <=? 4)) eqn:E; [zbool; lia|].
  by destruct (Z.eqb_spec msgid 101).
Qed.

Lemma client_msg_ignored_witness :
  client_msg (env := sim) 102 8 (settings_msg 0 1 []) sim_world =
  Done tt (push (EOut32 (sim_base + IOC_ACCESS_REG) 0) (push (EOut32 (sim_base + IOC_ACCESS_REG) 1) sim_world)).
Proof. apply (client_msg_ignored (env := sim)); lia. Defined.

(** C39. The receive buffer is not cleared between messages and the length of
    a settings message is not checked: a message with an empty payload, for
    any channel, executes again the address and data words that the previous
    settings message left in the buffer. *)
Theorem empty_message_replays {env : Env} `{!AxiWindow env} sock msgid addr data rest w w1 :
  1 <= msgid <= 4 -> is_u32 addr -> is_u32 data ->
  rxbuf (key w) = settings_msg addr data rest ->
  psc_recvmsg sock PSC_MAX_RX_MSG_LEN w = Done (RxMsg 0 (Some (msgid, 0)) []) w1 ->
  exists w2, key w2 = PscKey (listen_sock (key w)) (client_sock (key w)) (last_rx_tick (key w2)) (rxbuf (key w)) /\
    serve_client main_conf sock w =
    switch addr (chan_cases msgid data) (ret tt)
      (push (EOut32 (AXI + IOC_ACCESS_REG) 0) (push (EOut32 (AXI + IOC_ACCESS_REG) 1) w2)).
Proof.
  intros Hm Ha Hd Hbuf E.
  assert (key w1 = key w) as Hk.
  { pose proof (psc_recvmsg_quiet sock PSC_MAX_RX_MSG_LEN w) as [Hs _]. rewrite E in Hs. cbn in Hs. by injection Hs. }
  unfold serve_client. rewrite (run_bind _ _ _ _ _ E). cbn [rx_code rx_head rx_bytes].
  rewrite (run_bind (modify _) _ w1 tt (set_rxbuf (rxbuf (key w)) w1)) by
    (unfold modify, overwrite, set_rxbuf; cbn; by rewrite Hk).
  rewrite run_tick. cbv zeta. set (t := u32 _). set (w1' := push _ _).
  rewrite (run_bind (modify _) _ w1' tt (set_rx_tick t w1')) by done. rewrite run_gets.
  exists (set_rx_tick t w1'). split; [cbn; by rewrite Hk|].
  unfold main_conf at 1. cbn [recv]. unfold client_msg. rewrite !run_out32.
  rewrite (axi_addr IOC_ACCESS_REG) by (unfold IOC_ACCESS_REG; lia).
  destruct (Z.eqb_spec msgid 0); [lia|].
  assert ((1 <=? msgid) && (msgid <=? 4) = true) as -> by (apply andb_true_iff; split; apply Z.leb_le; lia).
  cbn [key set_rx_tick set_rxbuf set_key w1' push rxbuf]. rewrite Hbuf.
  by rewrite chan_settings_run.
Qed.

(** The header ['P' 'S' 0 1 0 0 0 0] after a message that set DIGOUT_ON1. *)
Definition replay_env : Env := sim_env ∅ (stream_of 8 [80; 83; 0; 1; 0; 0; 0; 0]) send_all.
Definition replay_world : world :=
  set_rxbuf (settings_msg DIGOUT_ON1_MSG 1 []) (connected_world 0).

Lemma empty_message_replays_witness :
  exists w2, serve_client (env := replay_env) (main_conf (env := replay_env)) 7 replay_world =
    switch DIGOUT_ON1_MSG (chan_cases (env := replay_env) 1 1) (ret tt)
      (push (EOut32 (sim_base + IOC_ACCESS_REG) 0) (push (EOut32 (sim_base + IOC_ACCESS_REG) 1) w2)).
Proof.
  assert (exists w1, psc_recvmsg (env := replay_env) 7 PSC_MAX_RX_MSG_LEN replay_world =
    Done (RxMsg 0 (Some (1, 0)) []) w1) as [w1 E] by (eexists; vm_compute; reflexivity).
  destruct (empty_message_replays (env := replay_env) 7 1 DIGOUT_ON1_MSG 1 [] replay_world w1)
    as (w2 & _ & H); [lia|by_compute|by_compute|reflexivity|exact E|].
  exists w2. exact H.
Defined.

(** ** Start-up *)

(** The channel registers that act at once: outputs, resets, operating mode
    and averaging, set point and ramp. *)
Definition drive_regs : list Z :=
  [DIGOUT_ON1_REG; DIGOUT_ON2_REG; DIGOUT_RESET_REG; DIGOUT_SPARE_REG; FAULT_CLEAR_REG; DAC_SETPT_REG; DAC_OPMODE_REG;
   DAC_CNTRL_REG; DAC_RESET_REG; DAC_RUNRAMP_REG; DAC_RAMPLEN_REG; DAC_RAMPADDR_REG; DAC_RAMPDATA_REG; AVEMODE_REG].

(** The global registers start-up writes: the oscillator, the event receiver,
    the address of the fast feedback, the flavour. *)
Definition boot_globals : list Z :=
  [NCO_STEPSIZE_REG; EVR_RESET_REG; EVR_PM_EVENTNUM_REG; EVR_1HZ_EVENTNUM_REG; EVR_INJ_EVENTNUM_REG; FOFB_IPADDR_REG]
  ++ flavour_regs.

Section Boot.
Context {env : Env} `{!AxiWindow env}.

(** The writes of start-up, all of them: those global registers, and of each
    channel the saved settings and the park output, which is set. *)
Definition boot_write (e : event) : Prop :=
  match e with
  | EOut32 a v =>
      (exists r, r ∈ boot_globals /\ a = AXI + r) \/
      exists c q, 1 <= c <= 4 /\ a = AXI + q + c * CHBASEADDR /\ (q ∈ qspi_regs \/ q = DIGOUT_PARK_REG /\ v = 1)
  | _ => True
  end.
Abbreviation quiet := (respects (emits boot_write)).

Lemma boot_chan q c v w : 1 <= c <= 4 -> 0 <= q < CHBASEADDR -> q ∈ qspi_regs \/ q = DIGOUT_PARK_REG /\ v = 1 ->
  emits boot_write w (push (EOut32 (u32 (AXI + q + c * CHBASEADDR)) v) w).
Proof.
  intros Hc Hq Hb. apply emits_push. right. exists c, q. unfold CHBASEADDR in *.
  by rewrite <- Z.add_assoc, axi_addr by lia.
Qed.

Lemma boot_glob r v w : 0 <= r < CHBASEADDR -> r ∈ boot_globals ->
  emits boot_write w (push (EOut32 (u32 (AXI + r)) v) w).
Proof.
  intros Hr Hin. apply emits_push. left. exists r. unfold CHBASEADDR in *. by rewrite axi_addr by lia.
Qed.

Ltac boot_side :=
  first [ apply boot_glob; [vm_compute; split; congruence|by_compute]
        | apply boot_chan; [lia|vm_compute; split; congruence|by right]
        | by exists [] | by apply emits_push ].

Lemma quiet_wait fuel bus : quiet (wait_bus fuel bus).
Proof. induction fuel; cbn [wait_bus]; respects_tac boot_side. Qed.
#[local] Hint Resolve quiet_wait : respects.

Lemma quiet_si570 : quiet prog_si570.
Proof.
  assert (quiet read_si570) as H
    by (unfold read_si570, i2c0_write, i2c0_read, i2c_write, i2c_read; respects_tac boot_side).
  unfold prog_si570. apply respects_bind; [exact _|exact H|intros _].
  apply respects_bind; [exact _| |intros _; exact H].
  apply respects_seq_all; [exact _|]. apply list.Forall_fmap, list.Forall_true. intros rv.
  unfold compose, i2c0_write, i2c_write. respects_tac boot_side.
Qed.

Lemma quiet_flavor : quiet ReadHardwareFlavor.
Proof.
  unfold ReadHardwareFlavor, i2c_eeprom_readBytes, i2c1_write, i2c1_read, i2c_write, i2c_read,
    flavor_numchans, flavor_resolution, flavor_bandwidth, flavor_polarity, flavor_dualmode,
    flavor_dipole, flavor_smooth, modify_glob. respects_tac boot_side.
Qed.
#[local] Hint Resolve quiet_si570 quiet_flavor : respects.

Lemma quiet_main_init : quiet main_init.
Proof.
  unfold main_init, init_i2c, init_bus, QspiFlashInit, print_firmware_version, park. respects_tac boot_side.
Qed.

Lemma quiet_write_regs c rs vs :
  1 <= c <= 4 -> Forall (fun r => r ∈ qspi_regs) rs -> quiet (write_regs (AXI + c * CHBASEADDR) rs vs).
Proof.
  intros Hc H. revert vs. induction H as [|r rs Hr _ IH]; intros [|v vs]; cbn [write_regs];
    try (apply respects_ret; exact _).
  apply respects_bind; [exact _| |intros _; apply IH]. apply respects_out32. intros w.
  replace (AXI + c * CHBASEADDR + r) with (AXI + r + c * CHBASEADDR) by lia.
  apply boot_chan; [done| |by left].
  assert (Forall (fun r => 0 <= r < CHBASEADDR) qspi_regs) as Q by by_compute.
  rewrite list.Forall_forall in Q. by apply Q.
Qed.

Lemma quiet_qspi_load c : 1 <= c <= 4 -> quiet (qspi_load c).
Proof.
  intros Hc. unfold qspi_load, QspiFlashRead, QspiDisperseData. respects_tac boot_side.
  apply quiet_write_regs; [done|]. by apply list.Forall_forall.
Qed.

Lemma respects_for_range R `{!WorldOrder R} n i body :
  (forall j, i <= j < i + Z.of_nat n -> respects R (body j)) -> respects R (for_up n i body).
Proof.
  revert i. induction n as [|n IH]; intros i H; cbn [for_up]; [apply respects_ret; exact _|].
  apply respects_bind; [exact _|apply H; lia|intros _]. apply IH. intros j Hj. apply H. lia.
Qed.

Lemma quiet_init_settings : quiet InitSettingsfromQspi.
Proof.
  unfold InitSettingsfromQspi.
  do 2 (apply respects_bind; [exact _|respects_tac boot_side|intros _]).
  apply respects_for_range; [exact _|]. intros j Hj. apply quiet_qspi_load. lia.
Qed.

Lemma quiet_card inet_aton conf : quiet (sdcard_handle inet_aton conf).
Proof.
  intros w. destruct (card_handle inet_aton conf w) as [[_ E] _].
  eapply emits_mono; [|exact E]. by intros [] He; try exact I; destruct He.
Qed.

Lemma quiet_network conf : quiet (net_setup conf ;; discover_setup ;; tftp_setup).
Proof.
  unfold net_setup, show_ip_info, netif, discover_setup, tftp_setup. respects_tac boot_side.
Qed.

Lemma quiet_boot inet_aton : quiet (boot inet_aton).
Proof.
  unfold boot, startup. apply respects_bind; [exact _|apply quiet_main_init|intros _].
  apply respects_bind; [exact _|apply quiet_card|intros conf].
  apply respects_bind; [exact _|apply quiet_init_settings|intros _]. apply quiet_network.
Qed.
End Boot.

(** C14. Start-up drives nothing: whatever the EEPROM, the memory card, the flash,
    the network and the hardware answer and wherever it stops, every register
    the start-up sequence ([main] and [realmain] up to the server) writes is
    one of thirteen global ones (the oscillator, the event receiver, the
    address of the fast feedback, the flavour), or one of the saved settings
    of a channel, or a park output, which is set.  In particular it never
    writes an ON or spare output, a reset, a fault clear, an operating or
    averaging mode, a set point or a ramp of any channel. *)
Theorem boot_drives_nothing {env : Env} `{!AxiWindow env} inet_aton w es :
  trace (final (boot inet_aton w)) = es ++ trace w ->
  (forall a v, EOut32 a v ∈ es ->
     (exists r, r ∈ boot_globals /\ a = AXI + r) \/
     exists c q, 1 <= c <= 4 /\ a = AXI + q + c * CHBASEADDR /\ (q ∈ qspi_regs \/ q = DIGOUT_PARK_REG /\ v = 1)) /\
  (forall c q v, 1 <= c <= 4 -> q ∈ drive_regs -> EOut32 (AXI + q + c * CHBASEADDR) v ∉ es).
Proof.
  intros E. destruct (quiet_boot inet_aton w) as (es' & E' & H).
  assert (es' = es) as -> by (apply (app_inv_tail (trace w)); congruence).
  rewrite list.Forall_forall in H.
  assert (forall a v, EOut32 a v ∈ es -> boot_write (EOut32 a v)) as W by (intros a v; apply H).
  split; [exact W|]. intros c q v Hc Hq Hin.
  assert (Forall (fun q => 0 <= q < CHBASEADDR /\ q ∉ DIGOUT_PARK_REG :: qspi_regs) drive_regs) as D by by_compute.
  assert (Forall (fun r => 0 <= r < CHBASEADDR) boot_globals) as G by by_compute.
  assert (Forall (fun r => 0 <= r < CHBASEADDR) (DIGOUT_PARK_REG :: qspi_regs)) as Q by by_compute.
  rewrite list.Forall_forall in D, G, Q. destruct (D _ Hq) as [Hrange Hno].
  destruct (W _ _ Hin) as [(r & Hr & Ea)|(c' & q' & Hc' & Ea & Hb)].
  - specialize (G _ Hr). unfold CHBASEADDR in *. lia.
  - assert (q' ∈ DIGOUT_PARK_REG :: qspi_regs) as Hq' by (rewrite elem_of_cons; tauto).
    specialize (Q _ Hq'). unfold CHBASEADDR in *. assert (q = q') as -> by lia. done.
Qed.

Lemma boot_drives_nothing_witness :
  let es := trace (final (boot (env := sim) known_addrs sim_world)) in
  DAC_SETPT_REG ∈ drive_regs /\ EOut32 (sim_base + DAC_SETPT_REG + 2 * CHBASEADDR) 5 ∉ es.
Proof.
  cbn zeta. assert (DAC_SETPT_REG ∈ drive_regs) as H by by_compute. split; [exact H|].
  destruct (boot_drives_nothing (env := sim) known_addrs sim_world (trace (final (boot (env := sim) known_addrs sim_world))))
    as [_ N]; [symmetry; apply app_nil_r|]. apply N; [lia|exact H].
Defined.

(** ** Event codes *)

(** A write outside the block of global registers. *)
Definition chan_write (base : Z) (e : event) : Prop :=
  match e with EOut32 a _ => base + CHBASEADDR <= a | _ => True end.

Lemma last_write_chan base a w w' :
  a < base + CHBASEADDR -> emits (chan_write base) w w' ->
  last_write a (writes_of (trace w')) = last_write a (writes_of (trace w)).
Proof.
  intros Ha (es & -> & H). rewrite writes_of_app. induction H as [|e es He _ IH]; [done|].
  destruct e; try exact IH. cbn in *. by destruct (Z.eqb_spec a0 a); [lia|].
Qed.

Lemma restore_far {env : Env} `{!AxiWindow env} : respects (emits (chan_write AXI)) (for_up 4 1 qspi_load).
Proof.
  apply respects_for_range; [exact _|]. intros j Hj. unfold qspi_load, QspiFlashRead, QspiDisperseData.
  respects_tac ltac:(first [by apply emits_push|by exists []]).
  assert (Forall (fun r => 0 <= r < CHBASEADDR) qspi_regs) as Q by by_compute.
  revert Q. generalize qspi_regs, (regwords (unpack a)). intros rs vs Q. revert vs.
  induction Q as [|r rs Hr _ IH]; intros [|v vs]; cbn [write_regs]; try (apply respects_ret; exact _).
  apply respects_bind; [exact _| |intros _; apply IH]. apply respects_out32. intros w0. apply emits_push.
  unfold chan_write, CHBASEADDR in *.
  replace (AXI + j * 512 + r) with (AXI + (r + j * 512)) by lia. rewrite axi_addr by lia. lia.
Qed.

Lemma network_far {env : Env} conf : respects (emits (chan_write AXI)) (net_setup conf ;; discover_setup ;; tftp_setup).
Proof.
  unfold net_setup, show_ip_info, netif, discover_setup, tftp_setup.
  respects_tac ltac:(by apply emits_push).
Qed.

(** The event codes after start-up: the injection and post-mortem codes
    that [main] sets (32 and 29) are overwritten when the settings are
    restored; both end up 10. *)
Theorem boot_event_codes {env : Env} `{!AxiWindow env} inet_aton w w' :
  boot inet_aton w = Done tt w' ->
  last_write (AXI + EVR_INJ_EVENTNUM_REG) (writes_of (trace w')) = Some 10 /\
  last_write (AXI + EVR_PM_EVENTNUM_REG) (writes_of (trace w')) = Some 10.
Proof.
  unfold boot, startup. intros ([] & w0 & _ & H)%bind_done. apply bind_done in H as (conf & w1 & _ & H).
  apply bind_done in H as ([] & w3 & H1 & H2). unfold InitSettingsfromQspi in H1.
  rewrite !run_out32 in H1. set (w2 := push _ (push _ w1)) in H1.
  assert (emits (chan_write AXI) w2 w') as He.
  { eapply wo_trans; [|specialize (network_far conf w3) as R; rewrite H2 in R; exact R].
    specialize (restore_far w2) as R. by rewrite H1 in R. }
  rewrite !(last_write_chan AXI _ w2 w') by (done || unfold EVR_INJ_EVENTNUM_REG, EVR_PM_EVENTNUM_REG, CHBASEADDR; lia).
  unfold w2, EVR_INJ_EVENTNUM_REG, EVR_PM_EVENTNUM_REG. cbn [writes_of omap list_omap trace push last_write].
  rewrite !axi_addr by lia.
  destruct (Z.eqb_spec (AXI + 0x24) (AXI + 0x20)); [lia|]. by rewrite !Z.eqb_refl.
Qed.

Lemma boot_event_codes_witness :
  exists w', boot (env := sim) known_addrs sim_world = Done tt w' /\
    last_write (sim_base + EVR_INJ_EVENTNUM_REG) (writes_of (trace w')) = Some 10.
Proof.
  assert (exists w', boot (env := sim) known_addrs sim_world = Done tt w') as [w' E] by (eexists; vm_compute; reflexivity).
  exists w'. split; [exact E|]. apply (boot_event_codes (env := sim) known_addrs sim_world w' E).
Defined.
