(* ===== verification/Delivery.v ===== *)
(** * Messages from the client to the handlers

    The server loop as a receiver: the messages a client sends are handed to
    the program's handler one by one, in order, each once, whatever else the
    server does between them. *)

From Stdlib Require Import ZArith Lia Bool.
From stdpp Require Import base list numbers gmultiset.
From S2P Require Import Prelude CFloat Registers World Logic Sim PscMsg Scaling Control Listener Snapshot SaData Periodic Polling Main.

#[local] Open Scope Z_scope.

(** ** One readable client *)

Section Serve.
Context {env : Env} (conf : psc_config).

(** A message is received whole, the heartbeat restarts, and the handler gets
    it at the start of the buffer, over what was there. *)
Lemma serve_client_run c msgid payload rest w :
  is_u 16 msgid -> bytes_ok payload -> bytes_ok rest -> Z.of_nat (length payload) <= PSC_MAX_RX_MSG_LEN ->
  tcp_delivers c (received_on c (trace w)) (frame msgid payload ++ rest) ->
  exists w1 t,
    serve_client conf c w =
      recv conf msgid (Z.of_nat (length payload)) (overwrite payload (rxbuf (key w))) w1 /\
    key w1 = PscKey (listen_sock (key w)) (client_sock (key w)) t (overwrite payload (rxbuf (key w))) /\
    (glob w1, pdata w1, snap w1) = (glob w, pdata w, snap w) /\
    emits (fun e => io_on c e \/ exists t, e = ETick t) w w1 /\
    received_on c (trace w1) = received_on c (trace w) ++ frame msgid payload.
Proof.
  intros Hi Hp Hr Hl Ht.
  destruct (psc_recvmsg_frame c PSC_MAX_RX_MSG_LEN w msgid payload rest) as (w1 & E & Hrx);
    [done|done|done|unfold PSC_MAX_RX_MSG_LEN in Hl; lia|done|done|].
  pose proof (psc_recvmsg_quiet c PSC_MAX_RX_MSG_LEN w) as [Hk (es & Hes & He)].
  rewrite E in Hk, Hes. cbn [final] in Hk, Hes. unfold keeps, state_of in Hk. injection Hk as Hg Hpd Hs Hkey.
  unfold serve_client. rewrite (run_bind _ _ _ _ _ E). cbn [rx_code rx_head rx_bytes].
  rewrite (run_bind (modify _) _ w1 tt (set_rxbuf (overwrite payload (rxbuf (key w1))) w1)) by done.
  rewrite run_tick. cbv zeta. set (t := u32 _). set (w2 := push _ _).
  rewrite (run_bind (modify _) _ w2 tt (set_rx_tick t w2)) by done. rewrite run_gets.
  exists (set_rx_tick t w2), t. cbn. rewrite Hkey, Hg, Hpd, Hs. split; [done|]. split; [done|]. split; [done|].
  split; [|exact Hrx]. exists (ETick t :: es). split; [cbn; by rewrite Hes|].
  constructor; [right; by exists t|]. eapply list.Forall_impl; [exact He|]. by left.
Qed.
End Serve.

(** ** What the server does between messages *)

(** Register writes of the periodic data only. *)
Definition background_event {env : Env} (e : event) : Prop :=
  match e with EOut32 a v => poll_event (EOut32 a v) | _ => True end.

(** The settings are as before: the globals, and every register but those of
    the periodic data. *)
Definition background {env : Env} : world -> world -> Prop := both (keeps glob) (emits background_event).

#[export] Instance background_order {env : Env} : WorldOrder background.
Proof. apply both_order; exact _. Qed.

(** The same, and nothing is received from [c]. *)
Definition between {env : Env} (c : Z) : world -> world -> Prop :=
  both background (keeps (fun w => (received_on c (trace w), listen_sock (key w)))).

#[export] Instance between_order {env : Env} c : WorldOrder (between c).
Proof. apply both_order; exact _. Qed.

Section Between.
Context {env : Env} `{!AxiWindow env} (c : Z).
Abbreviation betw m := (respects (between c) m).

Ltac between_side :=
  split; [split; [reflexivity|first [by apply emits_push | by exists []]]|reflexivity].
Ltac between_tac := respects_tac between_side.

Lemma between_sendall fuel s buf : betw (sendall_loop fuel s buf).
Proof.
  revert buf. induction fuel as [|fuel IH]; intros [|b buf]; cbn [sendall_loop]; between_tac.
Qed.
#[local] Hint Resolve between_sendall : respects.

Lemma between_send i l b : betw (psc_send main_conf i l b).
Proof.
  unfold psc_send, psc_sendmsg, psc_sendhead, psc_sendall, disconnect_client.
  cbn [conn main_conf client_event client_event_with]. between_tac.
Qed.

Lemma between_main_send i l b : betw (main_send i l b).
Proof. rewrite main_send_eq. apply between_send. Qed.

Lemma between_disconnect : betw (disconnect_client main_conf).
Proof. unfold disconnect_client. cbn [conn main_conf client_event client_event_with]. between_tac. Qed.
#[local] Hint Resolve between_disconnect : respects.

Lemma between_accept : betw (accept_client main_conf).
Proof.
  unfold accept_client, configure_client_socket. cbn [conn main_conf]. unfold client_event, client_event_with, greeting.
  fold main_send. pose proof between_main_send as H. unfold main_send in H. between_tac; apply H.
Qed.

Lemma between_heartbeat : betw (check_heartbeat main_conf).
Proof. unfold check_heartbeat. between_tac. Qed.

Lemma between_poll : betw (poll main_conf).
Proof.
  cbn [poll main_conf]. apply respects_pscdata_poll; [exact _|exact between_main_send| | |].
  - intros [] w He; try done; by (split; [split; [done|by apply emits_push]|done]).
  - intros p w. split; [split; [done|by exists []]|done].
  - intros p w. split; [split; [done|by exists []]|done].
Qed.
End Between.

(** ** The stream of messages *)

(** A message: its id and its payload. *)
Definition message : Type := Z * list Z.
Definition wf_message (m : message) : Prop :=
  is_u 16 m.1 /\ bytes_ok m.2 /\ Z.of_nat (length m.2) <= PSC_MAX_RX_MSG_LEN.
Definition stream_bytes (ms : list message) : list Z := concat ((fun m => frame m.1 m.2) <$> ms).

(** The messages [ms] are handled one after the other: each by [client_msg],
    with its id and its length, and its payload at the start of the buffer;
    between them nothing changes the settings. *)
Inductive applied {env : Env} : list message -> world -> world -> Prop :=
| applied_none w w' : background w w' -> applied [] w w'
| applied_next m ms w w1 w2 w' :
    background w w1 -> take (length m.2) (rxbuf (key w1)) = m.2 ->
    client_msg m.1 (Z.of_nat (length m.2)) (rxbuf (key w1)) w1 = Done tt w2 ->
    applied ms w2 w' -> applied (m :: ms) w w'.

Section Stream.
Context {env : Env} `{!AxiWindow env}.

Lemma applied_after ms w w1 w' : background w w1 -> applied ms w1 w' -> applied ms w w'.
Proof.
  intros H Ha. destruct Ha as [w1 w' Hb|m ms w1 w2 w3 w' Hb Hp Hm Ha].
  - apply applied_none. by eapply wo_trans.
  - eapply applied_next; [by eapply wo_trans|done..].
Qed.

Lemma applied_app ms1 ms2 w w1 w' : applied ms1 w w1 -> applied ms2 w1 w' -> applied (ms1 ++ ms2) w w'.
Proof.
  induction 1 as [w w1 Hb|m ms w w2 w3 w1 Hb Hp Hm _ IH]; intros H2; [by eapply applied_after|].
  eapply applied_next; [done|done|done|by apply IH].
Qed.

Lemma frame_ok m : wf_message m -> bytes_ok (frame m.1 m.2).
Proof. intros (_ & H & _). rewrite frame_header. apply Forall_app. split; [apply psc_header_ok|exact H]. Qed.

Lemma stream_ok ms : Forall wf_message ms -> bytes_ok (stream_bytes ms).
Proof.
  induction 1 as [|m ms Hm _ IH]; [constructor|]. apply Forall_app. split; [by apply frame_ok|exact IH].
Qed.

(** What a handler receives from the client: nothing. *)
Lemma client_msg_receives c i l b : respects (keeps (fun w => (received_on c (trace w), listen_sock (key w)))) (client_msg i l b).
Proof.
  intros w. destruct (client_msg_bystander i l b w) as [Hk (es & Ht & He)]. unfold keeps in *. rewrite Hk, Ht.
  f_equal. clear Ht. induction He as [|e es He _ IH]; [done|]. by destruct e.
Qed.

(** One turn with a client whose next message is [m]. *)
Lemma turn_messages c m ms rest w w' :
  0 <= c -> client_sock (key w) = c -> wf_message m -> Forall wf_message ms -> bytes_ok rest ->
  tcp_delivers c (received_on c (trace w)) (stream_bytes (m :: ms) ++ rest) ->
  psc_turn main_conf w = Done tt w' ->
  exists now, (now = [] \/ now = [m]) /\ applied now w w' /\
    received_on c (trace w') = received_on c (trace w) ++ stream_bytes now /\
    listen_sock (key w') = listen_sock (key w) /\
    (env_select (trace w) [listen_sock (key w); c] = Some [c] -> listen_sock (key w) <> c -> now = [m]).
Proof.
  intros Hc Hk Hm Hms Hr Ht E. unfold psc_turn in E. rewrite !run_gets in E. rewrite Hk in E.
  destruct (Z.leb_spec 0 c); [|lia]. set (l := listen_sock (key w)) in *.
  unfold sock_select at 1 in E. rewrite run_bind_eq in E. cbv zeta beta iota in E.
  set (r := match env_select (trace w) [l; c] with None => None | Some fds => Some (filter (fun s => s ∈ [l; c]) fds) end) in *.
  set (w0 := push (ESelect [l; c] r) w) in *.
  assert (between c w w0) as H0 by (split; [split; [done|by apply emits_push]|done]).
  apply bind_done in E as ([] & w3 & E1 & E).
  apply bind_done in E as ([] & w4 & E4 & E5).
  assert (between c w3 w') as H3.
  { eapply wo_trans; [pose proof (between_heartbeat c w3) as B; rewrite E4 in B; exact B|].
    pose proof (between_poll c w4) as B. by rewrite E5 in B. }
  assert (between c w w3 -> exists now, (now = [] \/ now = [m]) /\ applied now w w' /\
    received_on c (trace w') = received_on c (trace w) ++ stream_bytes now /\ listen_sock (key w') = l /\ now = []) as Idle.
  { intros B. exists []. pose proof (wo_trans _ _ _ B H3) as [Hb Hx]. unfold keeps in Hx. injection Hx as Hx Hl.
    split_and!; [by left|by apply applied_none|by rewrite app_nil_r|exact Hl|done]. }
  destruct r as [fds|] eqn:Er.
  2: { destruct Idle as (now & H1 & H2 & H4 & H5 & _).
       { eapply wo_trans; [exact H0|]. injection E1 as <-. split; [split; [done|by apply emits_push]|done]. }
       exists now. split_and!; try done. intros Hsel _. unfold r in Er. by rewrite Hsel in Er. }
  apply bind_done in E1 as ([] & w1 & Ea & E1). rewrite run_gets in E1.
  assert (between c w w1) as H1.
  { eapply wo_trans; [exact H0|]. destruct (bool_decide (l ∈ fds)); cbn [when] in Ea.
    - pose proof (between_accept c w0) as B. by rewrite Ea in B.
    - injection Ea as <-. apply wo_refl. }
  assert (env_select (trace w) [l; c] = Some [c] -> l <> c ->
    (client_sock (key w1) =? c) && bool_decide (c ∈ fds) = true) as Hready.
  { intros Hsel Hl. unfold r in Er. rewrite Hsel in Er. injection Er as <-.
    rewrite (bool_decide_eq_true_2 (c ∈ _)); [|rewrite list_elem_of_filter, !elem_of_cons; tauto].
    rewrite bool_decide_eq_false_2 in Ea by (rewrite list_elem_of_filter, list_elem_of_singleton; tauto).
    injection Ea as <-. unfold w0. cbn [key push]. by rewrite Hk, Z.eqb_refl. }
  cbn [andb] in E1. destruct ((client_sock (key w1) =? c) && _) eqn:G; cbn [when] in E1.
  2: { injection E1 as <-. destruct (Idle H1) as (now & HH1 & HH2 & HH4 & HH5 & _). exists now. split_and!; try done.
       intros Hsel Hl. by specialize (Hready Hsel Hl). }
  clear Idle. destruct H1 as [Hb1 Hx1]. unfold keeps in Hx1. injection Hx1 as Hx1 Hl1.
  destruct Hm as (Hi & Hp & Hlen). unfold stream_bytes in Ht. cbn [fmap list_fmap concat] in Ht.
  fold (stream_bytes ms) in Ht. rewrite <- app_assoc, <- Hx1 in Ht.
  destruct (serve_client_run main_conf c m.1 m.2 (stream_bytes ms ++ rest) w1 Hi Hp
    ltac:(apply Forall_app; split; [by apply stream_ok|done]) Hlen Ht)
    as (w2 & t & Es & Hkey & Hst & (es & Hes & He) & Hrx).
  rewrite Es in E1. cbn [recv main_conf] in E1.
  pose proof (client_msg_receives c m.1 (Z.of_nat (length m.2)) (overwrite m.2 (rxbuf (key w1))) w2) as Hc2.
  rewrite E1 in Hc2. unfold keeps in Hc2. cbn [final] in Hc2. injection Hc2 as Hc2 Hl2.
  destruct H3 as [Hb3 Hx3]. unfold keeps in Hx3. injection Hx3 as Hx3 Hl3.
  exists [m]. split; [by right|]. split; [|split; [|split; [|done]]].
  - apply (applied_next m [] w w2 w3 w').
    + eapply wo_trans; [exact Hb1|]. split; [unfold keeps; by injection Hst|]. exists es. split; [done|].
      eapply list.Forall_impl; [exact He|]. intros e [He'|[t' ->]]; [by destruct e|done].
    + rewrite Hkey. cbn [rxbuf]. apply take_overwrite.
    + rewrite Hkey. cbn [rxbuf]. exact E1.
    + by apply applied_none.
  - rewrite Hx3, Hc2, Hrx, Hx1. unfold stream_bytes. cbn. by rewrite app_nil_r.
  - rewrite Hl3, Hl2, Hkey. cbn. exact Hl1.
Qed.
End Stream.

(** C5. Messages are handled in order, each once.  A client sends any messages,
    framed, the network delivering them in pieces of any size.  Follow the
    server for any number of turns: until all messages are handled, the
    client is gone (disconnected, silent for too long, or superseded) or a
    turn stops inside a handler, exactly the frames of the first messages
    have been taken from the stream and exactly those messages were handed to
    [client_msg], one by one in order, each with its id, its length and its
    payload; between them neither a global nor a register of the settings
    changed.  When [select] keeps reporting the client, and it alone, every
    turn handles a message. *)
Theorem messages_in_order {env : Env} `{!AxiWindow env} c rest n : forall msgs w,
  0 <= c -> client_sock (key w) = c -> Forall wf_message msgs -> bytes_ok rest ->
  tcp_delivers c (received_on c (trace w)) (stream_bytes msgs ++ rest) ->
  exists k handled todo w', (k <= n)%nat /\ msgs = handled ++ todo /\
    psc_loop main_conf k w = Done tt w' /\ applied handled w w' /\
    received_on c (trace w') = received_on c (trace w) ++ stream_bytes handled /\
    (k = n \/ todo = [] \/ client_sock (key w') <> c \/ forall w2, psc_turn main_conf w' <> Done tt w2) /\
    ((forall tr, env_select tr [listen_sock (key w); c] = Some [c]) -> listen_sock (key w) <> c ->
      length handled = k).
Proof.
  assert (forall (msgs : list message) w, exists k : nat, k = 0%nat /\ msgs = [] ++ msgs /\
    psc_loop main_conf k w = Done tt w /\ applied [] w w /\
    received_on c (trace w) = received_on c (trace w) ++ stream_bytes []) as Stay.
  { intros msgs w. exists 0%nat. split_and!; [done|done|done|apply applied_none, wo_refl|by rewrite app_nil_r]. }
  induction n as [|n IH]; intros msgs w Hc Hk Hm Hr Ht; destruct (Stay msgs w) as (k0 & -> & Hs).
  - exists 0%nat, [], msgs, w. destruct Hs as (? & ? & ? & ?). split_and!; try done. by left.
  - destruct Hm as [|m ms Hm Hms].
    { exists 0%nat, [], [], w. destruct Hs as (? & ? & ? & ?). split_and!; try done; [lia|right; by left]. }
    destruct (psc_turn main_conf w) as [[] w1| |] eqn:E.
    2, 3: exists 0%nat, [], (m :: ms), w; destruct Hs as (? & ? & ? & ?); split_and!; try done;
      [lia|right; right; right; by rewrite E].
    clear Hs. destruct (turn_messages c m ms rest w w1 Hc Hk Hm Hms Hr Ht E) as (now & Hnow & Ha & Hrx & Hl & Hsel).
    assert (exists left, m :: ms = now ++ left /\ Forall wf_message left) as (left & El & Hleft).
    { destruct Hnow as [-> | ->]; [exists (m :: ms); split; [done|by constructor]|by exists ms]. }
    destruct (decide (client_sock (key w1) = c)) as [Hk1|Hk1].
    + rewrite El in Ht. unfold stream_bytes in Ht. rewrite fmap_app, concat_app, <- app_assoc in Ht.
      apply tcp_delivers_skip in Ht. fold (stream_bytes now) in Ht. fold (stream_bytes left) in Ht. rewrite <- Hrx in Ht.
      destruct (IH left w1 Hc Hk1 Hleft Hr Ht) as (k & handled & todo & w' & Hkn & Eleft & El' & Ha' & Hrx' & Hend & Hlen).
      exists (S k), (now ++ handled), todo, w'. split_and!; [lia|by rewrite El, Eleft, app_assoc| | | | |].
      * cbn [psc_loop]. by rewrite (run_bind _ _ _ _ _ E).
      * by eapply applied_app.
      * unfold stream_bytes. rewrite fmap_app, concat_app, app_assoc, Hrx', Hrx. done.
      * destruct Hend as [->|Hend]; [by left|by right].
      * intros Hs Hne. rewrite (Hsel (Hs _) Hne). cbn. f_equal. rewrite Hl in Hlen. by apply Hlen.
    + exists 1%nat, now, left, w1. split_and!; [lia|done| |done|done|right; right; by left|].
      * cbn [psc_loop]. by rewrite (run_bind _ _ _ _ _ E).
      * intros Hs Hne. by rewrite (Hsel (Hs _) Hne).
Qed.

(** ** Two messages *)

(** A clock that stands still, and a client on descriptor 7 that alone is
    readable, its bytes arriving three at a time. *)
Definition chat_env (bytes : list Z) : Env := {|
  XPAR_M_AXI_BASEADDR := sim_base; pdMS_TO_TICKS ms := ms * 100 / 1000; portTICK_PERIOD_MS := 10; DHCP_FINE_TIMER_MSECS := 500; DHCP_COARSE_TIMER_SECS := 60; EIO := 5; EMSGSIZE := 90;
  ENOTCONN := 107; env_in32 := fun _ _ => 0; env_load32 := fun _ _ => 0;
  env_tick := fun _ => 0; env_send := send_all; env_recv := stream_of 3 bytes;
  env_select := fun _ _ => Some [7]; env_accept := fun _ _ => None; env_qspi := fun _ _ => [];
  env_i2c_busy := fun _ _ => false; env_i2c_recv := fun _ _ _ _ => [];
  env_uninit := fun _ _ => []; env_stat := fun _ _ => 0; env_ip_text := fun _ => [];
  env_uart_ready := fun _ => true; env_uart_rx := fun _ => 0; env_scanf := fun _ => None;
  env_strtof := fun _ => 0; env_tasks := fun _ => ([], 0);
  env_fat := fun _ _ => 1; env_fat_read := fun _ _ => (1, []); env_fat_write := fun _ _ => (1, 0);
  env_fat_lines := fun _ => [];
  env_malloc := fun _ _ => true; env_calloc := fun _ => true; env_socket := fun _ => Some 3; env_bind := fun _ _ _ => true;
  env_listen := fun _ _ => true; env_net := fun _ _ => 0; env_netif := fun _ _ => 0; env_driver := fun _ op => default_driver op; env_ntoa := fun _ => [];
  env_patience := 3 |}.

#[export] Instance chat_axi bytes : AxiWindow (chat_env bytes).
Proof. exact sim_axi. Qed.

Lemma chat_delivers bytes sock : tcp_delivers (env := chat_env bytes) sock [] bytes.
Proof.
  intros tr want k _ Hk H. exists 3%nat. split; [lia|]. by apply (stream_of_answer 3 bytes sock).
Qed.

(** Switch channel 1 on, then channel 2. *)
Definition two_messages : list message :=
  [(1, settings_msg DIGOUT_ON1_MSG 1 []); (2, settings_msg DIGOUT_ON1_MSG 1 [])].
Definition two_env : Env := chat_env (stream_bytes two_messages).

Definition two_after (k : nat) : world := final (psc_loop (env := two_env) (main_conf (env := two_env)) k (connected_world 0)).

Lemma messages_in_order_witness :
  exists w', psc_loop (env := two_env) (main_conf (env := two_env)) 2 (connected_world 0) = Done tt w' /\
    applied (env := two_env) two_messages (connected_world 0) w' /\
    last_write (sim_base + DIGOUT_ON1_REG + 2 * CHBASEADDR) (writes_of (trace w')) = Some 1.
Proof.
  assert (Forall wf_message two_messages) as Hm by by_compute.
  destruct (messages_in_order (env := two_env) 7 [] 2 two_messages (connected_world 0))
    as (k & handled & todo & w' & Hk & Em & El & Ha & _ & Hend & Hlen);
    [lia|reflexivity|exact Hm|constructor|rewrite app_nil_r; exact (chat_delivers _ 7)|].
  specialize (Hlen (fun _ => eq_refl) ltac:(discriminate)).
  assert (k = 2%nat) as ->.
  { assert (length handled + length todo = 2)%nat as Hl by (rewrite <- length_app, <- Em; done).
    assert (w' = two_after k) as -> by (unfold two_after; by rewrite El).
    clear El Ha. destruct (decide (k = 2%nat)) as [|Hk2]; [assumption|exfalso].
    destruct Hend as [->|[->|[Hc|Hs]]]; [lia|cbn [length] in Hl; lia| |].
    - apply Hc. destruct k as [|[|k]]; [vm_compute; reflexivity..|lia].
    - destruct k as [|[|k]]; [apply (Hs (two_after 1))|apply (Hs (two_after 2))|lia]; vm_compute; reflexivity. }
  exists w'. split; [exact El|]. destruct todo; [|apply (f_equal length) in Em; rewrite length_app, Hlen in Em; cbn in Em; lia].
  rewrite app_nil_r in Em. rewrite Em. split; [exact Ha|].
  assert (w' = two_after 2) as -> by (unfold two_after; by rewrite El). vm_compute. reflexivity.
Defined.
