(* ===== verification/Typed.v ===== *)
(** * The types of the program's state

    Every static object keeps its size and its type in the whole program: the
    arrays have the lengths of their declarations, the words are 32-bit
    words.  [typed] is the invariant, and each operation that assigns to the
    state preserves it. *)

From Stdlib Require Import ZArith Lia Bool.
From stdpp Require Import base list numbers.
From S2P Require Import Prelude Eeprom NetConf SdCard NetSetup CFloat Registers World Logic Sim Scaling PscMsg QspiFlash I2c Control Listener Snapshot SaData Periodic Main.

#[local] Open Scope Z_scope.

(** ** The invariant *)

Definition sf_typed (s : ScaleFactorType) : Prop := Forall (is_u 32) (sf_words s).

Definition trigger_typed (t : TriggerInfo) : Prop :=
  Forall (is_u 32) [addr t; addr_last t; pretrigpts t; posttrigpts t; active t; postdlycnt t; sendbuf t;
    msgID t; channum t; trigcnt t].

(** The size of the waveform buffers, [msgUsr_buf] to [msgInj_buf]: those of
    the injection triggers are as large as the others, though their messages
    are shorter. *)
Definition buf_len : Z := MSGWFMLEN.

Definition globals_typed (g : globals) : Prop :=
  length (scalefactors g) = 4%nat /\ Forall sf_typed (scalefactors g) /\
  is_u32 (CONVVOLTSTODACBITS g) /\ is_u32 (CONVDACBITSTOVOLTS g) /\
  0 <= smoothramp_type g <= 1 /\ is_byte (smoothramp_percentcurved g) /\ is_u32 (git_hash g).

Definition pscdata_typed (p : pscdata) : Prop :=
  is_u32 (last_fast p) /\ is_u32 (last_slow p) /\
  length (bpc_msg p) = 60%nat /\ Forall (is_u 32) (bpc_msg p) /\ length (sadata_msg p) = 1400%nat.

Definition row_typed (l : list TriggerInfo) : Prop := length l = 4%nat /\ Forall trigger_typed l.

Definition snapshots_typed (s : snapshots) : Prop :=
  (forall k, row_typed (triggers_of k (snapshot_trig s))) /\
  (forall k, k <> Evr -> length (bufs_of k s) = 4%nat /\ Forall (fun b => Z.of_nat (length b) = buf_len) (bufs_of k s)) /\
  Z.of_nat (length (msgWfmStats_buf s)) = MSGWFMSTATSLEN.

Definition typed_state (g : globals) (p : pscdata) (s : snapshots) : Prop :=
  globals_typed g /\ pscdata_typed p /\ snapshots_typed s.
Definition typed (w : world) : Prop := typed_state (glob w) (pdata w) (snap w).

(** ** Preservation *)

Definition keeps_typed (w w' : world) : Prop := typed w -> typed w'.

#[export] Instance keeps_typed_order : WorldOrder keeps_typed.
Proof. split; unfold keeps_typed; auto. Qed.

Abbreviation types m := (respects keeps_typed m).

(** What a computation returns. *)
Definition yields {A} (P : A -> Prop) (m : M A) : Prop :=
  forall w, match m w with Done a _ => P a | _ => True end.

Lemma yields_ret {A} (P : A -> Prop) a : P a -> yields P (ret a).
Proof. by intros H w. Qed.

Lemma yields_bind {A B} (P : A -> Prop) (Q : B -> Prop) (m : M A) (k : A -> M B) :
  yields P m -> (forall a, P a -> yields Q (k a)) -> yields Q (bind m k).
Proof.
  intros Hm Hk w. unfold bind. specialize (Hm w). destruct (m w) as [a w'| |]; [|done..]. by apply Hk.
Qed.

(** A bind whose first result does not matter. *)
Lemma yields_any {A B} (Q : B -> Prop) (m : M A) (k : A -> M B) :
  (forall a, yields Q (k a)) -> yields Q (bind m k).
Proof. intros Hk. apply yields_bind with (P := fun _ => True); [intros w; by destruct (m w)|auto]. Qed.

Lemma respects_yields {A B} R `{!WorldOrder R} (P : A -> Prop) (m : M A) (k : A -> M B) :
  respects R m -> yields P m -> (forall a, P a -> respects R (k a)) -> respects R (bind m k).
Proof.
  intros Hm Hy Hk w. unfold bind. specialize (Hm w). specialize (Hy w). destruct (m w) as [a w'| |]; [|done..].
  eapply wo_trans; [exact Hm|by apply Hk].
Qed.

(** The same, for what holds of the result in a typed state. *)
Lemma types_bind {A B} (P : A -> Prop) (m : M A) (k : A -> M B) :
  types m -> (forall w, typed w -> match m w with Done a _ => P a | _ => True end) ->
  (forall a, P a -> types (k a)) -> types (bind m k).
Proof.
  intros Hm Hy Hk w Hw. unfold bind. specialize (Hm w Hw). specialize (Hy w Hw).
  destruct (m w) as [a w'| |]; [|done..]. by apply (Hk a Hy).
Qed.

Lemma keeps_typed_state w w' : (glob w', pdata w', snap w') = (glob w, pdata w, snap w) -> keeps_typed w w'.
Proof. unfold keeps_typed, typed. by intros [= -> -> ->]. Qed.

Ltac typed_side := first [let H := fresh in intros H; exact H | by apply keeps_typed_state].

Section Preservation.
Context {env : Env}.

(** *** Scale factors *)

Lemma types_set_sf chan f : (forall s, sf_typed s -> sf_typed (f s)) -> types (set_sf chan f).
Proof.
  intros Hf w. unfold set_sf, get_sf. rewrite run_bind_eq, run_gets.
  destruct (scalefactors (glob w) !! sf_index chan) as [s|] eqn:E; [|intros H; exact H].
  cbn. intros ((Hl & Hs & Hg) & Hp & Hn). split; [|done]. unfold globals_typed. cbn.
  rewrite length_insert. split; [done|]. split; [|done].
  apply Forall_insert; [done|]. apply Hf. exact (Forall_lookup_1 _ _ _ _ Hs E).
Qed.

Lemma words_of_bytes_range l : bytes_ok l -> Forall (is_u 32) (words_of_bytes l).
Proof.
  revert l. fix IH 1. intros [|a [|b [|c [|d l]]]] H; try constructor.
  - apply (of_le_range [a; b; c; d]). exact (list.Forall_take _ 4 _ H).
  - apply IH. exact (list.Forall_drop _ 4 _ H).
Qed.

Lemma nth_typed ws i : Forall (is_u 32) ws -> is_u32 (nth i ws 0).
Proof.
  intros H. rewrite nth_lookup. destruct (ws !! i) as [v|] eqn:E; [exact (Forall_lookup_1 _ _ _ _ H E)|by split].
Qed.

Lemma unpack_typed b : bytes_ok b -> sf_typed (sf (unpack b)).
Proof.
  intros H. unfold unpack. cbn [sf].
  assert (Forall (is_u 32) (drop (1 + length qspi_regs) (words_of_bytes (take sizeof_QspiData b)))) as Hw.
  { apply Forall_drop, words_of_bytes_range. by apply Forall_take. }
  revert Hw. generalize (drop (1 + length qspi_regs) (words_of_bytes (take sizeof_QspiData b))). intros ws Hw.
  unfold sf_typed, sf_of_words, sf_words. repeat (apply list.Forall_cons; split); try (by apply nth_typed). constructor.
Qed.

(** *** Settings *)

Ltac types_step :=
  lazymatch goal with
  | |- respects keeps_typed (set_sf _ _) => apply types_set_sf; intros ? ?
  | |- _ => respects_step typed_side
  end.
Ltac types_tac := repeat types_step.

Lemma types_keeps {A} (m : M A) : respects (keeps (fun w => (glob w, pdata w, snap w))) m -> types m.
Proof. intros H w. apply keeps_typed_state. exact (H w). Qed.

Lemma types_wait_bus n bus : types (wait_bus n bus).
Proof. induction n as [|n IH]; cbn [wait_bus]; types_tac. Qed.

Lemma types_poll fuel : types (poll_ready fuel).
Proof. induction fuel as [|n IH]; cbn [poll_ready]; types_tac. Qed.

Lemma types_read_regs base rs : types (read_regs base rs).
Proof. induction rs as [|r rs IH]; cbn [read_regs]; types_tac. Qed.

Lemma types_write_regs base rs vs : types (write_regs base rs vs).
Proof. revert vs. induction rs as [|r rs IH]; intros [|v vs]; cbn [write_regs]; types_tac. Qed.
#[local] Hint Resolve types_wait_bus types_poll types_read_regs types_write_regs : respects.

Lemma yields_transfer tx : yields bytes_ok (XQspiPs_PolledTransfer tx).
Proof. intros w. apply Forall_take, Forall_app. split; [apply u8_bytes_ok|by apply Forall_replicate]. Qed.

Lemma types_qspi_load chan : types (qspi_load chan).
Proof.
  unfold qspi_load. apply (respects_yields _ bytes_ok).
  - unfold QspiFlashRead. types_tac.
  - unfold QspiFlashRead. apply yields_any. intros b. apply yields_transfer.
  - intros b Hb. unfold QspiDisperseData. types_tac. by apply unpack_typed.
Qed.

Lemma types_qspi_save chan : types (qspi_save chan).
Proof. unfold qspi_save, QspiFlashEraseSect, QspiGatherData, QspiFlashWrite. types_tac. Qed.
#[local] Hint Resolve types_qspi_load types_qspi_save : respects.

Lemma types_Set_dac chan f : types (Set_dac chan f).
Proof.
  unfold Set_dac, Calc_WriteLinearSmooth, Calc_WriteRaisedCosineSmooth, volts_to_dacbits, soft_trig, limit_511, q16_48,
    cast_u32, cast_s32. types_tac.
Qed.

Lemma types_opmode chan m : types (Set_dacOpmode chan m).
Proof. unfold Set_dacOpmode, volts_to_dacbits. types_tac. Qed.

Lemma types_dump chan : types (dump_adcs chan).
Proof. unfold dump_adcs, ReadAccumSA. types_tac. Qed.
#[local] Hint Resolve types_Set_dac types_opmode types_dump : respects.

Lemma types_cases chan u : is_u32 u -> Forall (fun c => types c.2) (chan_cases chan u).
Proof.
  intros Hu. unfold chan_cases, chan_dac, chan_gains, chan_thresholds, chan_cntlims, chan_digital,
    chan_scalefactors, chan_misc.
  repeat (apply Forall_app; split); repeat (apply list.Forall_cons; split); try solve [constructor]; cbn [snd];
    unfold set_word, set_gain, set_offset_dac, set_offset_16, set_thresh_dac, set_thresh_16,
      set_cntlim, scaled_dac, volts_to_dacbits, cast_u32, cast_s32, chan_bit, fault_clear, soft_trig; types_tac;
    unfold sf_typed, sf_words in *; rewrite !list.Forall_cons in *; cbn [ampspersec dac_dccts vout ignd spare regulator error];
    tauto.
Qed.

Lemma types_chan_settings chan msg len : types (chan_settings chan msg len).
Proof.
  unfold chan_settings, msg_word. do 2 (apply respects_bind; [exact _|types_tac|intros ?]).
  apply (switch_Forall (fun m => types m)); [apply respects_ret; exact _|]. apply types_cases, htonl_range.
Qed.

Lemma types_glob_settings msg : types (glob_settings msg).
Proof.
  unfold glob_settings, msg_word. do 2 (apply respects_bind; [exact _|types_tac|intros ?]).
  apply (switch_Forall (fun m => types m)); [apply respects_ret; exact _|].
  unfold glob_cases. repeat (apply list.Forall_cons; split); try solve [constructor];
    cbn [snd]; unfold soft_trig, set_fpleds, glob_word; types_tac.
Qed.

Lemma types_write_ramptable chan msg len : types (write_ramptable chan msg len).
Proof. unfold write_ramptable, ramp_point, ramp_clamp, volts_to_dacbits, cast_s32, msg_word. types_tac. Qed.
#[local] Hint Resolve types_chan_settings types_glob_settings types_write_ramptable : respects.

Lemma types_client_msg i l b : types (client_msg i l b).
Proof. unfold client_msg. types_tac. Qed.

(** *** The hardware flavour *)

Lemma types_glob f : (forall g, globals_typed g -> globals_typed (f g)) -> types (modify_glob f).
Proof. intros Hf w (Hg & H). split; [by apply Hf|exact H]. Qed.

Lemma nth_byte l i : bytes_ok l -> is_byte (nth i l 0).
Proof.
  intros H. rewrite nth_lookup. destruct (l !! i) as [v|] eqn:E; [exact (Forall_lookup_1 _ _ _ _ H E)|by split].
Qed.

Lemma yields_i2c_read bus len dev : yields bytes_ok (i2c_read bus len dev).
Proof.
  unfold i2c_read. apply yields_any. intros ? w.
  apply Forall_take, Forall_app. split; [apply u8_bytes_ok|by apply Forall_replicate].
Qed.

Lemma types_ReadHardwareFlavor : types ReadHardwareFlavor.
Proof.
  unfold ReadHardwareFlavor. apply (respects_yields _ bytes_ok).
  - unfold i2c_eeprom_readBytes, i2c1_write, i2c1_read, i2c_write, i2c_read. types_tac.
  - unfold i2c_eeprom_readBytes, i2c1_read. apply yields_any. intros ?. apply yields_i2c_read.
  - intros b Hb. unfold flavor_numchans, flavor_resolution, flavor_bandwidth,
      flavor_polarity, flavor_dualmode, flavor_dipole, flavor_smooth. types_tac; try solve [intros H; exact H];
    apply types_glob; intros g (H1 & H2 & H3 & H4 & H5 & H6 & H7); unfold globals_typed;
      cbn -[bits_of_f32]; split_and!; try done; try (by apply nth_byte); by apply H5.
Qed.
#[local] Hint Resolve types_ReadHardwareFlavor : respects.

(** *** The snapshots *)

Lemma types_snap (f : snapshots -> snapshots) w :
  (snapshots_typed (snap w) -> snapshots_typed (f (snap w))) -> keeps_typed w (set_snap (f (snap w)) w).
Proof. intros Hf (Hg & Hp & Hs). split; [exact Hg|]. split; [exact Hp|]. by apply Hf. Qed.

Lemma triggers_with' k k' l t :
  triggers_of k (with_triggers k' l t) = if bool_decide (k = k') then l else triggers_of k t.
Proof. by destruct k, k'. Qed.

Lemma bufs_with k k' b s : k' <> Evr -> bufs_of k (with_bufs k' b s) = if bool_decide (k = k') then b else bufs_of k s.
Proof. intros H. by destruct k, k'. Qed.

Lemma types_upd k i f : (forall t, trigger_typed t -> trigger_typed (f t)) -> types (upd_trig k i f).
Proof.
  intros Hf w. apply (types_snap (fun s => set_snapshot_trig
    (with_triggers k (alter f i (triggers_of k (snapshot_trig s))) (snapshot_trig s)) s)).
  intros (Ht & Hb & Hst). split; [|split].
  - intros k'. cbn [set_snapshot_trig snapshot_trig]. rewrite triggers_with'. case_bool_decide as E; [|exact (Ht k')].
    destruct (Ht k) as [Hl Hr]. split; [by rewrite length_alter|].
    apply list.Forall_forall. intros t Hin.
    apply list_elem_of_lookup in Hin as [j Hj]. destruct (decide (j = i)) as [->|Hn].
    + rewrite list_lookup_alter_eq in Hj. destruct (triggers_of k _ !! i) as [t0|] eqn:E0; [|done].
      injection Hj as <-. apply Hf. exact (Forall_lookup_1 _ _ _ _ Hr E0).
    + rewrite list_lookup_alter_ne in Hj by done. exact (Forall_lookup_1 _ _ _ _ Hr Hj).
  - intros k'. destruct k'; exact (Hb _).
  - exact Hst.
Qed.

Lemma types_load_words a offs : types (load_words a offs).
Proof. revert a. induction offs; intros ?; cbn [load_words]; types_tac. Qed.

Lemma types_copy_loop fuel c b d n i : types (copy_loop fuel c b d n i).
Proof.
  pose proof types_load_words. revert i.
  induction fuel as [|fuel IH]; intros i; cbn [copy_loop]; unfold copy_sample; types_tac; auto.
Qed.
#[local] Hint Resolve types_copy_loop types_load_words : respects.

Lemma types_ReadDMABuf t : types (ReadDMABuf t).
Proof. unfold ReadDMABuf, CopyDataChan. types_tac. Qed.
#[local] Hint Resolve types_ReadDMABuf : respects.

Lemma length_hton_prefix n msg : length (hton_prefix n msg) = length msg.
Proof. unfold hton_prefix. rewrite length_app, length_hton_conv, length_take, length_drop. lia. Qed.

Context (send : Z -> Z -> list Z -> M unit) `{!SenderOk send}.

Lemma types_send i l b : types (send i l b).
Proof. apply types_keeps, send_keeps. Qed.
#[local] Hint Resolve types_send : respects.

Lemma types_store k i msg : k <> Evr -> Z.of_nat (length msg) = buf_len ->
  types (modify (fun w => set_snap (with_bufs k (<[i := msg]> (bufs_of k (snap w))) (snap w)) w)).
Proof.
  intros Hk Hl w. apply (types_snap (fun s => with_bufs k (<[i := msg]> (bufs_of k s)) s)).
  intros (Ht & Hb & Hst). split; [|split].
  - intros k'. by destruct k; try exact (Ht k').
  - intros k' Hk'. rewrite bufs_with by done. case_bool_decide as E; [subst k'|exact (Hb k' Hk')].
    destruct (Hb k Hk) as [Hn Hf]. split; [by rewrite length_insert|by apply Forall_insert].
  - by destruct k.
Qed.

Lemma types_SendWfmData k i : types (SendWfmData send k i).
Proof.
  unfold SendWfmData, get_trig.
  apply respects_bind; [exact _|apply types_upd|intros _].
  { unfold trigger_typed, with_sent. intros t. cbn -[is_u]. rewrite !list.Forall_cons. unfold is_u. intuition lia. }
  apply respects_bind; [exact _|types_tac|intros t].
  apply (types_bind (fun bufs => bufs = [] \/ k <> Evr /\ Forall (fun b => Z.of_nat (length b) = buf_len) bufs));
    [types_tac| |intros bufs Hbufs].
  { intros w (_ & _ & _ & Hb & _). destruct (decide (k = Evr)) as [->|Hk]; [by left|right; split; [done|by apply Hb]]. }
  apply (respects_yields _ (fun msg => k <> Evr /\ Z.of_nat (length msg) = buf_len)); [types_tac| |intros msg [Hk Hm]].
  { intros w. destruct (bufs !! i) as [b|] eqn:E; [|done]. destruct Hbufs as [->|[Hk Hf]]; [done|].
    split; [done|exact (Forall_lookup_1 _ _ _ _ Hf E)]. }
  apply respects_bind; [exact _|types_tac|intros words]. destruct (_ <? _)%nat eqn:El; [apply respects_fail; exact _|].
  apply Nat.ltb_ge in El. cbv zeta.
  apply respects_bind; [exact _|apply types_upd|intros _].
  { unfold trigger_typed, with_counted. intros t'. cbn -[is_u u32]. rewrite !list.Forall_cons. pose proof (u32_range (trigcnt t' + 1)). tauto. }
  apply respects_bind; [exact _| |intros _; types_tac].
  apply types_store; [done|]. rewrite length_hton_prefix, length_overwrite; [done|]. by rewrite length_bytes_of_words.
Qed.

Lemma types_check reg k i : types (check_trigger reg k i).
Proof.
  unfold check_trigger, get_trig.
  apply respects_bind; [exact _|types_tac|intros t]. apply respects_bind; [exact _| |intros _].
  - apply respects_when; [exact _|intros _].
    apply (respects_yields _ (is_u 32)); [types_tac|intros w; apply u32_range|intros a Ha].
    apply types_upd. unfold trigger_typed, with_addr. intros t'. cbn -[is_u]. rewrite !list.Forall_cons. tauto.
  - apply types_upd. unfold trigger_typed, ProcessTrigger. intros t'. rewrite !list.Forall_cons.
    assert (is_u32 0 /\ is_u32 1) as [H0 H1] by (unfold is_u; lia). pose proof u32_range as Hu.
    repeat case_match; cbn -[is_u u32] in *; intuition auto.
Qed.

Lemma types_stats chans : types (snap_stats chans).
Proof. induction chans as [|i l IH]; cbn [snap_stats]; unfold snap_trig_data, get_trig; types_tac; auto. Qed.
#[local] Hint Resolve types_SendWfmData types_check types_stats : respects.

Definition stats_row (r : list Z * list Z * list Z * list Z) : Prop :=
  (length r.1.1.1, length r.1.1.2, length r.1.2, length r.2) = (4, 4, 4, 4)%nat.

Lemma yields_stats chans : yields (fun rows => length rows = length chans /\ Forall stats_row rows) (snap_stats chans).
Proof.
  induction chans as [|i l IH]; cbn [snap_stats]; [by apply yields_ret|].
  assert (forall p s n k, yields (fun r => length r = 4%nat) (snap_trig_data p s n k i)) as Hd.
  { intros. unfold snap_trig_data. repeat (apply yields_any; intros ?). by apply yields_ret. }
  do 4 (eapply yields_bind; [apply Hd|cbn beta; intros ? ?]).
  eapply yields_bind; [exact IH|]. intros rest [Hl Hf]. apply yields_ret. split; [cbn; by rewrite Hl|].
  constructor; [|done]. unfold stats_row. cbn. congruence.
Qed.

Lemma types_stats_buf msg : Z.of_nat (length msg) = MSGWFMSTATSLEN ->
  types (modify (fun w => let s := snap w in
    set_snap (Snapshots (snapshot_trig s) (msgUsr_buf s) (msgFlt_buf s) (msgErr_buf s) (msgInj_buf s) msg) w)).
Proof.
  intros Hm w. apply (types_snap (fun s =>
    Snapshots (snapshot_trig s) (msgUsr_buf s) (msgFlt_buf s) (msgErr_buf s) (msgInj_buf s) msg)).
  intros (Ht & Hb & _). split; [exact Ht|]. split; [|exact Hm]. intros k. exact (Hb k).
Qed.

Lemma types_SendSnapShotStats : types (SendSnapShotStats send).
Proof.
  unfold SendSnapShotStats. apply respects_bind; [exact _|types_tac|intros b]. apply respects_bind; [exact _|types_tac|intros n].
  apply (respects_yields _ _ _ _ (types_stats _) (yields_stats _)). intros rows [Hl Hr]. cbv zeta.
  apply (types_bind (fun msg => Z.of_nat (length msg) = MSGWFMSTATSLEN)); [types_tac|by intros w (_ & _ & _ & _ & H)|].
  intros msg Hm. apply respects_bind; [exact _|apply types_stats_buf|intros _; types_tac].
  rewrite length_overwrite; [done|]. rewrite length_hton_conv, length_bytes_of_words.
  do 4 (destruct rows as [|? rows]; [done|]). destruct rows; [|done].
  rewrite !list.Forall_cons in Hr. unfold stats_row in Hr. destruct Hr as ([= ? ? ? ?] & [= ? ? ? ?] & [= ? ? ? ?] & [= ? ? ? ?] & _).
  cbn [fmap list_fmap concat]. rewrite !length_app. cbn [length]. unfold MSGWFMSTATSLEN in Hm.
  rewrite !length_replicate. lia.
Qed.

Lemma types_snapshot_process : types (snapshot_process send).
Proof.
  unfold snapshot_process, CheckforTriggers.
  apply respects_bind; [exact _| |intros _; apply respects_bind; [exact _| |intros _; apply types_SendSnapShotStats]].
  - apply respects_seq_all; [exact _|]. apply list.Forall_fmap, list.Forall_true. intros c. apply types_check.
  - apply respects_seq_all; [exact _|]. apply list.Forall_fmap, list.Forall_true. intros i.
    unfold compose, send_if_ready, get_trig. types_tac.
Qed.

Lemma types_init_row pre post id b l :
  is_u32 pre -> is_u32 post -> 0 <= id <= 1000 -> row_typed l -> row_typed (init_row pre post id b l).
Proof.
  intros Hp Hq Hid [Hl Hf]. unfold init_row. split; [by rewrite length_imap|].
  apply list.Forall_forall. intros t Hin. apply list_elem_of_lookup in Hin as [j Hj].
  rewrite list_lookup_imap in Hj. destruct (l !! j) as [t0|] eqn:E; [|done]. cbn in Hj. injection Hj as <-.
  apply lookup_lt_Some in E as Hlt. pose proof (Forall_lookup_1 _ _ _ _ Hf E) as Ht.
  unfold trigger_typed, init_trigger in *. cbn -[is_u]. rewrite !list.Forall_cons in *.
  assert (is_u32 0 /\ is_u32 (id + Z.of_nat j) /\ is_u32 (Z.of_nat j + 1)) by (unfold is_u; lia).
  destruct b; tauto.
Qed.

Lemma types_snapshot_init : types snapshot_init.
Proof.
  intros w. apply (types_snap (fun s => set_snapshot_trig (InitTriggerInfo (snapshot_trig s)) s)).
  intros (Ht & Hb & Hst). split; [|split; [intros k; destruct k; exact (Hb _)|exact Hst]].
  assert (is_u32 50000 /\ is_u32 0 /\ is_u32 8000) as (? & ? & ?) by (unfold is_u; lia).
  intros k. destruct k; cbn [set_snapshot_trig snapshot_trig InitTriggerInfo triggers_of];
    (apply types_init_row; [assumption..|by vm_compute; split|]);
    [exact (Ht Usr)|exact (Ht Flt)|exact (Ht Err)|exact (Ht Inj)|exact (Ht Evr)].
Qed.
#[local] Hint Resolve types_snapshot_process types_snapshot_init : respects.

(** *** Periodic data *)

Lemma types_pdata f : (forall p, pscdata_typed p -> pscdata_typed (f p)) -> types (on_pdata f).
Proof. intros Hf w (Hg & Hp & Hs). split; [exact Hg|]. split; [by apply Hf|exact Hs]. Qed.

Lemma yields_uninit n : yields (fun ws => length ws = n) (uninit_words n).
Proof.
  intros w. apply words_of_bytes_length. rewrite length_take, length_app, length_fmap, length_replicate. lia.
Qed.

Ltac yields_step :=
  lazymatch goal with
  | |- yields _ (bind (uninit_words _) _) => eapply yields_bind; [apply yields_uninit|cbn beta; intros ? ?]
  | |- yields _ (bind _ _) => apply yields_any; intros ?
  | |- yields _ (ret _) => apply yields_ret
  | |- yields _ (let _ := _ in _) => cbv zeta
  end.

Lemma yields_sadata_chan c : yields (fun ws => length ws = 75%nat) (sadata_chan c).
Proof. unfold sadata_chan. repeat yields_step. rewrite length_app. cbn. lia. Qed.

Lemma yields_sadata_gather : yields (fun ws => length ws = 325%nat) sadata_gather.
Proof.
  unfold sadata_gather. repeat lazymatch goal with
  | |- yields _ (bind (sadata_chan _) _) => eapply yields_bind; [apply yields_sadata_chan|cbn beta; intros ? ?]
  | |- _ => yields_step
  end.
  rewrite !length_app. cbn [length]. lia.
Qed.

Lemma types_uninit n : types (uninit_words n).
Proof. unfold uninit_words. types_tac. Qed.
#[local] Hint Resolve types_uninit : respects.

Lemma types_sadata_chan c : types (sadata_chan c).
Proof.
  unfold sadata_chan, dacbits_to_volts, word, accum_dac, accum_16, value_dac, value_16, gain,
    thresh_dac, thresh_16, seconds, dacbits_to_volts, ReadAccumSA. types_tac.
Qed.
#[local] Hint Resolve types_sadata_chan : respects.

Lemma types_sadata_send : types (sadata_send send).
Proof.
  unfold sadata_send. eapply respects_yields; [exact _| |apply yields_sadata_gather|cbn beta; intros ws Hws].
  { unfold sadata_gather, frequency. types_tac. }
  apply (types_bind (fun msg => length msg = 1400%nat)); [types_tac|by intros w (_ & (_ & _ & _ & _ & H) & _)|].
  intros msg Hm. cbv zeta. apply respects_bind; [exact _| |intros _; types_tac].
  apply (types_pdata (fun p => PscData (last_fast p) (last_slow p) (bpc_enabled p) (bpc_msg p) _)).
  intros p (H1 & H2 & H3 & H4 & H5). split_and!; try assumption. cbn.
  rewrite length_overwrite; [done|]. rewrite length_hton_conv, length_bytes_of_words. lia.
Qed.

Lemma types_os_stats l : types (os_stats l).
Proof. induction l as [|s l IH]; cbn [os_stats]; unfold os_stat; types_tac. Qed.
#[local] Hint Resolve types_sadata_send types_os_stats : respects.

Lemma types_lstats : types (lstats_send send).
Proof. unfold lstats_send, os_stat. types_tac. Qed.

Definition bpc_typed (msg : list Z) : Prop := length msg = 60%nat /\ Forall (is_u 32) msg.

Lemma types_bpc_read n i msg : types (bpc_read n i msg).
Proof. revert i msg. induction n as [|n IH]; intros; cbn [bpc_read]; types_tac; apply IH. Qed.

Lemma yields_bpc_read n i msg : bpc_typed msg -> yields bpc_typed (bpc_read n i msg).
Proof.
  revert i msg. induction n as [|n IH]; intros i msg H; cbn [bpc_read]; [by apply yields_ret|].
  apply yields_any. intros u. apply IH. destruct H as [Hl Hf]. destruct (2 <=? i)%nat; [|done].
  split; [by rewrite length_insert|]. apply Forall_insert; [done|apply htonl_range].
Qed.

Lemma types_bpc_send : types (bpc_send send).
Proof.
  unfold bpc_send, bpc_reset. apply respects_bind; [exact _|types_tac|intros n].
  apply respects_bind; [exact _| |intros _; types_tac]. apply respects_when; [exact _|intros _].
  apply (types_bind bpc_typed); [types_tac|by intros w (_ & (_ & _ & H1 & H2 & _) & _)|intros msg Hm].
  apply (respects_yields _ _ _ _ (types_bpc_read _ _ _) (yields_bpc_read _ _ _ Hm)). intros msg' [Hl Hf].
  apply respects_bind; [exact _| |intros _; types_tac].
  apply types_pdata. intros p (H1 & H2 & H3 & H4 & H5). by split_and!.
Qed.
#[local] Hint Resolve types_lstats types_bpc_send : respects.

Lemma yields_tick : yields (is_u 32) xTaskGetTickCount.
Proof. intros w. apply u32_range. Qed.

Lemma types_pscdata_poll : types (pscdata_poll send).
Proof.
  unfold pscdata_poll. apply (respects_yields _ (is_u 32)); [types_tac|apply yields_tick|intros now Hn].
  types_tac; apply types_pdata; intros p (H1 & H2 & H3 & H4 & H5); by split_and!.
Qed.

Lemma types_pscdata_init : types pscdata_init.
Proof.
  unfold pscdata_init, lstats_init, bpc_init, bpc_reset. apply (respects_yields _ (is_u 32)); [types_tac|apply yields_tick|intros now Hn].
  types_tac; apply types_pdata; intros p (H1 & H2 & H3 & H4 & H5); by split_and!.
Qed.
#[local] Hint Resolve types_pscdata_poll types_pscdata_init : respects.
End Preservation.

(** *** The program *)

Section Program.
Context {env : Env} `{!AxiWindow env}.

Lemma types_quiet {A} (m : M A) : respects (keeps state_of) m -> types m.
Proof. intros H w. apply keeps_typed_state. specialize (H w). unfold keeps in H. by injection H as -> -> -> _. Qed.

Ltac types_tac := repeat (respects_step typed_side).

Lemma types_disconnect : types (disconnect_client main_conf).
Proof. unfold disconnect_client. cbn [conn main_conf client_event client_event_with]. types_tac. Qed.
#[local] Hint Resolve types_disconnect : respects.

Lemma types_main_send i l b : types (main_send i l b).
Proof. apply types_keeps, send_keeps. Qed.

Lemma types_client_event e : types (client_event e).
Proof. unfold client_event, client_event_with, greeting. pose proof types_main_send. unfold main_send in *. types_tac; auto. Qed.
#[local] Hint Resolve types_client_event : respects.

Lemma types_recvmsg s n : types (psc_recvmsg s n).
Proof. apply types_quiet. intros w. apply psc_recvmsg_quiet. Qed.

Lemma types_psc_turn : types (psc_turn main_conf).
Proof.
  pose proof types_recvmsg. pose proof types_client_msg. pose proof (types_pscdata_poll main_send).
  unfold psc_turn, accept_client, serve_client, check_heartbeat, configure_client_socket.
  cbn [conn recv poll main_conf]. types_tac; auto.
Qed.

Lemma types_psc_loop n : types (psc_loop main_conf n).
Proof. pose proof types_psc_turn. induction n; cbn [psc_loop]; types_tac; auto. Qed.

Lemma types_server n : types (server n).
Proof.
  unfold server, psc_run. cbn [start main_conf port]. unfold on_startup, console_setup.
  pose proof types_pscdata_init. pose proof types_psc_loop. types_tac; auto.
Qed.

Lemma types_main_init : types main_init.
Proof.
  pose proof types_wait_bus. pose proof types_ReadHardwareFlavor.
  unfold main_init, init_i2c, init_bus, QspiFlashInit, print_firmware_version, park, prog_si570.
  assert (types read_si570) by (unfold read_si570, i2c0_write, i2c0_read, i2c_write, i2c_read; types_tac; auto).
  types_tac; auto.
  apply respects_seq_all; [exact _|]. apply list.Forall_fmap, list.Forall_true. intros rv.
  unfold compose, i2c0_write, i2c_write. types_tac; auto.
Qed.

Lemma types_startup inet_aton : types (startup inet_aton).
Proof.
  pose proof types_qspi_load.
  unfold startup, InitSettingsfromQspi, net_setup, show_ip_info, netif, discover_setup, tftp_setup.
  apply respects_bind; [exact _| |intros conf; types_tac; auto].
  apply types_quiet. intros w. apply card_handle.
Qed.
End Program.

(** C7. The types of the state are an invariant of the whole program: from any
    state in which the static objects have the sizes and the types of their
    declarations, they have them after start-up and any number of turns of the
    server, with whatever messages, hardware and memory card, also where the
    run stops in a fault: the four channels' scale factors, the conversion
    factors and all twenty triggers remain 32-bit words, the waveform, 10 Hz
    and statistics buffers keep their lengths. *)
Theorem program_typed {env : Env} `{!AxiWindow env} inet_aton turns idle w :
  typed w -> typed (final (program inet_aton turns idle w)).
Proof.
  assert (types (program inet_aton turns idle)) as H; [|exact (H w)].
  unfold program, realmain. apply respects_bind; [exact _|apply types_main_init|intros _].
  apply respects_bind; [exact _|apply types_startup|intros _].
  apply respects_bind; [exact _|apply types_server|intros _]. respects_tac typed_side.
Qed.

(** The state at reset, with buffers of the sizes the code declares. *)
Definition zero_bufs (n : Z) : list (list Z) := replicate 4 (replicate (Z.to_nat n) 0).
Definition reset_world : world :=
  set_snap (Snapshots zero_triggers (zero_bufs MSGWFMLEN) (zero_bufs MSGWFMLEN) (zero_bufs MSGWFMLEN)
    (zero_bufs MSGWFMLEN) (replicate (Z.to_nat MSGWFMSTATSLEN) 0)) sim_world.

Lemma zero_bufs_typed n : 0 <= n ->
  length (zero_bufs n) = 4%nat /\ Forall (fun b => Z.of_nat (length b) = n) (zero_bufs n).
Proof.
  intros H. split; [apply length_replicate|]. apply list.Forall_replicate. rewrite length_replicate. lia.
Qed.

Lemma reset_typed : typed reset_world.
Proof.
  split; [by_compute|]. split; [by_compute|]. split; [|split].
  - intros k. unfold row_typed. destruct k; by_compute.
  - intros k Hk. destruct k; [apply zero_bufs_typed; unfold buf_len, MSGWFMLEN; lia..|done].
  - cbn [snap reset_world set_snap msgWfmStats_buf]. rewrite length_replicate. unfold MSGWFMSTATSLEN. lia.
Qed.

Lemma program_typed_witness :
  typed reset_world /\ typed (final (program (env := sim) known_addrs 2 1 reset_world)).
Proof.
  split; [exact reset_typed|]. apply (program_typed (env := sim) known_addrs 2 1 reset_world), reset_typed.
Defined.
