(* ===== verification/Session.v ===== *)
(** * Sessions at the console

    The console's settings commands refine the abstract settings of
    [Eeprom.v]: whatever an operator does in a session, the EEPROM, the
    flavour registers and the globals end as the commands say, whatever other
    tasks, which leave the settings alone, do in the console's waits. *)

From Stdlib Require Import ZArith Lia Bool String Floats.SpecFloat.
From stdpp Require Import base list numbers gmap.
From S2P Require Import Prelude CString CFloat Registers World Logic Sim I2c Control Listener Console Operator Eeprom.

#[local] Open Scope Z_scope.

(** ** The specification *)

(** An answer to a question: 0, 1, or neither. *)
Definition answer (c : Z) : option Z :=
  if c =? 48 then Some 0 else if c =? 49 then Some 1 else None.

(** What an operator may type, from the key of the menu on: a key that only
    displays or is not in the menu, a setting of one byte, the four
    polarities (or fewer and a wrong answer), the type of the smooth ramp
    with, if it is linear, a line for the percentage. *)
Inductive command :=
| Display (key : Z)
| SetByte (key a c : Z)
| SetPolarity (key : Z) (cs : list Z)
| SetSmooth (key c : Z) (line : list Z) (eol : Z).

Definition keys (cmd : command) : list Z :=
  match cmd with
  | Display k => [k]
  | SetByte k _ c => [k; c]
  | SetPolarity k cs => k :: cs
  | SetSmooth k c line eol => k :: c :: (if c =? 48 then line ++ [eol] else [])
  end.

Definition byte_settings : list (Z * Z) := [(66, 0x10); (67, 0x11); (68, 0x12); (70, 0x14); (71, 0x15)].
Definition menu_keys : list Z := seqZ 65 14.
Definition display_keys : list Z := [65; 72; 73; 74].

(** The number a line for the percentage denotes: its first 15 digits. *)
Definition line_number (line : list Z) : Z := dec_val (take 15 (filter isdigit line)).

Definition wf_command (patience : nat) (cmd : command) : Prop :=
  match cmd with
  | Display k => upcase k ∈ display_keys \/ upcase k <> 81 /\ upcase k ∉ menu_keys
  | SetByte k a c => (upcase k, a) ∈ byte_settings
  | SetPolarity k cs => upcase k = 69 /\
      exists good bad, cs = good ++ bad /\ Forall (fun c => answer c <> None) good /\
        ((length good = 4%nat /\ bad = []) \/
         ((length good < 4)%nat /\ exists c, bad = [c] /\ answer c = None))
  | SetSmooth k c line eol => upcase k = 78 /\ is_eol eol = true /\
      Forall (fun c => is_eol c = false) line /\ (length line < patience)%nat /\ line_number line < 2 ^ 31
  end.

Definition put_answer (a c : Z) (s : settings) : settings :=
  match answer c with Some v => put a v s | None => s end.

(** The polarities, channel 1 in bit 0. *)
Fixpoint polarity_byte (ch : Z) (cs : list Z) : Z :=
  match cs with
  | [] => 0
  | c :: cs => default 0 (answer c) * 2 ^ ch + polarity_byte (ch + 1) cs
  end.

Definition put_percent (p : Z) (s : settings) : settings :=
  if (5 <=? p) && (p <=? 50) then put 0x17 p s else s.

Definition effect (cmd : command) (s : settings) : settings :=
  match cmd with
  | Display _ => s
  | SetByte _ a c => reload (put_answer a c s)
  | SetPolarity _ cs =>
      if bool_decide (Forall (fun c => answer c <> None) cs)
      then reload (put 0x13 (polarity_byte 0 cs) s) else s
  | SetSmooth _ c line _ =>
      reload (match answer c with
              | Some 0 => put_percent (line_number line mod 256) (put 0x16 0 s)
              | _ => put_answer 0x16 c s
              end)
  end.

(** ** The rules of the console's operations *)

(** What runs beside the console: [I] holds whenever the console waits, its
    own steps and the other tasks keep it, and the other tasks leave the
    settings alone; [Stop] describes a run that stops in another task. *)
Class Beside {env : Env} (yield : M unit) (I Stop : world -> Prop) := {
  beside_own : forall w w', own w w' -> I w -> I w';
  beside_inv : triple I yield (fun _ => I) Stop;
  beside_spares : respects spares yield
}.

Section Rules.
Context {env : Env} `{!AxiWindow env} (ee0 S : list Z) `{!EepromOk env ee0} `{!Keyboard env S}.
Context (yield : M unit) (I Stop : world -> Prop) `{!Beside yield I Stop}.

(** What the EEPROM and the flavour are, whatever is typed. *)
Definition settled (s : settings) (w : world) : Prop := holds ee0 [] [] s w /\ I w.

(** [s] holds, [inp] is still to be typed, and [I] holds. *)
Definition at_ (inp : list Z) (s : settings) : world -> Prop := typing S (settled s) inp.

Lemma at_holds inp s w : at_ inp s w <-> holds ee0 S inp s w /\ I w.
Proof.
  unfold at_, typing, settled, holds. assert (rest_typed [] w = []) as -> by (unfold rest_typed; apply drop_nil). tauto.
Qed.

#[export] Instance settled_idles s : Idles yield (settled s) Stop.
Proof.
  split.
  - intros w w' Hc [Hh Hi]. split; [|exact (beside_own _ _ (console_own _ _ Hc) Hi)].
    destruct Hc as [Hk (es & Ht & He)], Hh as (H1 & H2 & _ & H3).
    assert (cells (eeprom_state ee0 (trace w')) = cells (eeprom_state ee0 (trace w)) /\
      writes_of (trace w') = writes_of (trace w)) as [Ec Ew].
    { rewrite Ht. clear -He. induction He as [|e es He _ [IH1 IH2]]; [done|]. by destruct e. }
    unfold holds, shows in *. rewrite Ec, Ew. unfold keeps, state_of in Hk. injection Hk as -> _ _ _.
    unfold rest_typed. rewrite drop_nil. done.
  - apply (triple_frame spares); [exact beside_spares| |exact beside_inv]. intros w w'. by apply holds_spares.
  - apply spares_keyboard, beside_spares.
Qed.

(** A rule of [Eeprom.v], with the invariant. *)
Lemma at_rule {A} (m : M A) (p : A -> Prop) inp inp' s s' :
  (forall w, holds ee0 S inp s w -> wp m (fun a w' => p a /\ holds ee0 S inp' s' w' /\ own w w') w) ->
  triple (at_ inp s) m (fun a w => p a /\ at_ inp' s' w) Stop.
Proof.
  intros H. apply triple_wp. intros w [Hh Hi]%at_holds. eapply wp_mono; [exact (H w Hh)|].
  cbn. intros a w' (Hp & Hh' & Ho). split; [done|]. apply at_holds. split; [done|by eapply beside_own].
Qed.

Lemma at_rule_unit (m : M unit) inp inp' s s' :
  (forall w, holds ee0 S inp s w -> wp m (fun _ w' => holds ee0 S inp' s' w' /\ own w w') w) ->
  triple (at_ inp s) m (fun _ => at_ inp' s') Stop.
Proof.
  intros H. eapply triple_conseq; [apply (at_rule m (fun _ => True) inp inp' s s')|done|by intros ? ? []].
  intros w Hw. eapply wp_mono; [exact (H w Hw)|]. cbn. tauto.
Qed.

(** An operation that only emits quiet events, and returns. *)
Lemma at_quietly {A} (m : M A) inp s :
  respects (both (keeps state_of) (emits quiet)) m -> returns m -> triple (at_ inp s) m (fun _ => at_ inp s) Stop.
Proof.
  intros Hr Hw. eapply triple_conseq; [apply (at_rule m (fun _ => True) inp inp s s)|done|by intros ? ? []].
  intros w Hs. eapply wp_mono; [exact (wp_and_respects _ _ _ _ Hr (Hw w))|].
  cbn. intros _ w' [_ H]. split; [done|]. split; [by eapply holds_quietly|by apply quiet_own].
Qed.

Lemma at_say fmt args inp s : triple (at_ inp s) (say yield fmt args) (fun _ => at_ inp s) Stop.
Proof. apply typing_say; exact _. Qed.

Lemma at_getc c inp s : triple (at_ (c :: inp) s) (getc yield) (fun c' w => c' = c /\ at_ inp s w) Stop.
Proof. apply typing_getc; exact _. Qed.

Lemma at_write a v ms inp s : 0 <= a < 128 -> is_byte v ->
  triple (at_ inp s) (write_setting yield a v ms) (fun _ => at_ inp (put a v s)) Stop.
Proof.
  intros Ha Hv. unfold write_setting.
  apply triple_bind with (R := fun _ => at_ inp (put a v s)); [|intros []; apply typing_sleep; exact _].
  apply at_rule_unit. intros w Hw. by apply wp_writeByte.
Qed.

Lemma at_flavor inp s : triple (at_ inp s) ReadHardwareFlavor (fun _ => at_ inp (reload s)) Stop.
Proof. apply at_rule_unit. intros w Hw. by apply wp_flavor. Qed.

(** Ends a bind with a rule for its first part. *)
Ltac step_by rule := eapply triple_bind; [apply rule|cbn beta; intros ?].
Ltac step_pure rule := step_by rule; apply triple_pure; intros ->.
Ltac stop_here := first [by intros ? ? | by intros ? []].

Lemma at_binary_input c inp s :
  triple (at_ (c :: inp) s) (get_binary_input yield) (fun v w => v = default 255 (answer c) /\ at_ inp s w) Stop.
Proof.
  unfold get_binary_input, answer. step_pure at_getc. step_by at_say.
  destruct (c =? 48); [by intros w H|]. destruct (c =? 49); [by intros w H|].
  step_by at_say. by intros w H.
Qed.

Lemma answer_range c v : answer c = Some v -> 0 <= v <= 1.
Proof. unfold answer. destruct (c =? 48); [by intros [= <-]|]. destruct (c =? 49); [by intros [= <-]|done]. Qed.

Lemma at_set_binary prompt a c inp s : 0 <= a < 128 ->
  triple (at_ (c :: inp) s) (set_binary yield prompt a) (fun _ => at_ inp (reload (put_answer a c s))) Stop.
Proof.
  intros Ha. unfold set_binary, put_answer. step_by at_say. step_pure at_binary_input.
  apply triple_bind with (R := fun _ => at_ inp (match answer c with Some v => put a v s | None => s end));
    [|intros []; apply at_flavor].
  destruct (answer c) as [v|] eqn:E; [|by intros w H].
  change (default 255 (Some v)) with v. apply answer_range in E.
  replace (v =? u8 (-1)) with false by (symmetry; apply Z.eqb_neq; change (u8 (-1)) with 255; lia).
  cbn [negb when]. step_by at_say. apply at_write; [done|unfold is_u; lia].
Qed.

Lemma atoi_digits ds w : digits10 ds -> dec_val ds < 2 ^ 31 -> atoi ds w = Done (dec_val ds) w.
Proof.
  intros Hd Hv. unfold atoi. destruct ds as [|c ds]; [done|].
  pose proof (scan_dec_digits [] (c :: ds) [] ltac:(constructor) Hd ltac:(done) ltac:(done)) as E.
  rewrite app_nil_r in E. cbn [app] in E. rewrite E. unfold int_op.
  pose proof (dec_val_nonneg _ Hd) as H0.
  destruct (fits_signed 32 (dec_val (c :: ds))) eqn:F; [done|].
  apply not_true_iff_false in F. destruct F. apply fits_signed_spec. split; [|exact Hv].
  change (- 2 ^ (32 - 1)) with (-2147483648). lia.
Qed.

Lemma at_percent eol line : is_eol eol = true -> Forall (fun c => is_eol c = false) line ->
  forall fuel buf inp s, (length line < fuel)%nat -> digits10 buf -> (length buf <= 15)%nat ->
  dec_val (take 15 (buf ++ filter isdigit line)) < 2 ^ 31 ->
  triple (at_ (line ++ eol :: inp) s) (percent_loop yield fuel buf)
    (fun v w => v = dec_val (take 15 (buf ++ filter isdigit line)) /\ at_ inp s w) Stop.
Proof.
  intros He Hl. induction Hl as [|c line Hc _ IH]; intros [|fuel] buf inp s Hf Hd Hb Hv;
    try (cbn in Hf; lia); cbn [percent_loop app]; step_pure at_getc.
  - fold (is_eol eol). rewrite He. step_by at_say.
    cbn [filter list_filter] in *. rewrite app_nil_r, take_ge in * by lia.
    intros w H. by rewrite atoi_digits.
  - cbn [length] in *. fold (is_eol c). rewrite Hc. change (16 - 1)%nat with 15%nat.
    rewrite filter_cons in Hv |- *. destruct (isdigit c) eqn:E; cbn [andb].
    + rewrite decide_True in Hv |- * by done.
      destruct (Nat.ltb_spec (length buf) 15) as [L|L].
      * rewrite (app_assoc buf [c] (filter _ _) : buf ++ c :: filter _ line = _) in Hv |- *.
        step_by at_say. apply IH; try lia; try done.
        -- apply Forall_app. split; [done|by constructor].
        -- rewrite length_app. cbn. lia.
      * rewrite take_app_le, <- (take_app_le buf (filter isdigit line)) in Hv |- * by lia.
        apply IH; (done || lia).
    + rewrite decide_False in Hv |- * by (intros []). apply IH; (done || lia).
Qed.

Lemma at_set_percent eol line inp s : is_eol eol = true -> Forall (fun c => is_eol c = false) line ->
  (length line < env_patience)%nat -> line_number line < 2 ^ 31 ->
  triple (at_ (line ++ eol :: inp) s) (set_percent yield) (fun _ => at_ inp (put_percent (line_number line mod 256) s)) Stop.
Proof.
  intros He Hl Hp Hv. unfold set_percent, put_percent, get_percent_input. step_by at_say.
  step_pure (at_percent eol line He Hl env_patience [] inp s Hp ltac:(constructor) ltac:(cbn; lia) Hv).
  change (dec_val _) with (line_number line).
  change (u8 (line_number line)) with (line_number line mod 256).
  destruct (_ && _) eqn:E; [|by apply at_say]. step_by at_say. zbool.
  apply at_write; [done|unfold is_u; lia].
Qed.

Lemma at_set_smooth k c eol line inp s : wf_command env_patience (SetSmooth k c line eol) ->
  triple (at_ (drop 1 (keys (SetSmooth k c line eol)) ++ inp) s) (set_smoothramptype yield)
    (fun _ => at_ inp (effect (SetSmooth k c line eol) s)) Stop.
Proof.
  intros (_ & He & Hl & Hp & Hv). cbn [keys drop effect app]. unfold set_smoothramptype.
  step_by at_say. step_pure at_binary_input.
  match goal with |- triple _ _ (fun _ => at_ _ (reload ?s')) _ =>
    apply triple_bind with (R := fun _ => at_ inp s'); [|intros []; apply at_flavor] end.
  unfold answer, put_answer, answer. destruct (Z.eqb_spec c 48) as [->|Hc].
  - change (default 255 (Some 0) =? u8 (-1)) with false. change (default 255 (Some 0) =? 0) with true.
    cbn [negb when]. step_by at_say. step_by (at_write 0x16 0 10); [done|by split|].
    rewrite <- app_assoc. exact (at_set_percent eol line inp _ He Hl Hp Hv).
  - destruct (c =? 49); [|by intros w H].
    change (default 255 (Some 1) =? u8 (-1)) with false. change (default 255 (Some 1) =? 0) with false.
    cbn [negb when]. step_by at_say. step_by (at_write 0x16 1 10); [done|by split|]. by intros w H.
Qed.

(** The bits of the answers so far, and those to come. *)
Lemma polarity_step acc v ch : 0 <= ch < 4 -> 0 <= acc < 2 ^ ch -> 0 <= v <= 1 ->
  u8 (Z.lor acc (Z.shiftl (Z.land v 1) ch)) = acc + v * 2 ^ ch /\ acc + v * 2 ^ ch < 2 ^ (ch + 1).
Proof.
  intros Hch Ha Hv.
  assert (2 ^ ch <= 2 ^ 3) as H3 by (apply Z.pow_le_mono_r; lia).
  assert (acc + v * 2 ^ ch < 2 ^ (ch + 1)) as Hr by (rewrite Z.pow_add_r by lia; nia).
  split; [|done].
  assert (acc < 8) by lia.
  assert (v = 0 \/ v = 1) as [-> | ->] by lia;
  assert (ch = 0 \/ ch = 1 \/ ch = 2 \/ ch = 3) as [-> | [-> | [-> | ->]]] by lia;
  assert (acc = 0 \/ acc = 1 \/ acc = 2 \/ acc = 3 \/ acc = 4 \/ acc = 5 \/ acc = 6 \/ acc = 7)
    as [-> | [-> | [-> | [-> | [-> | [-> | [-> | ->]]]]]]] by lia; try reflexivity; cbn in Ha; lia.
Qed.

Lemma polarity_byte_nonneg ch cs : 0 <= ch -> 0 <= polarity_byte ch cs.
Proof.
  revert ch. induction cs as [|c cs IH]; intros ch H; cbn [polarity_byte]; [done|].
  specialize (IH (ch + 1) ltac:(lia)).
  assert (0 <= default 0 (answer c)) by (destruct (answer c) as [v|] eqn:E; cbn; [apply answer_range in E|]; lia).
  nia.
Qed.

(** An answer that is not 0 or 1 is not the mark of a wrong answer. *)
Lemma answered c : answer c <> None ->
  exists v, answer c = Some v /\ 0 <= v <= 1 /\ (default 255 (answer c) =? u8 (-1)) = false /\
    default 255 (answer c) = v.
Proof.
  destruct (answer c) as [v|] eqn:E; [|done]. intros _. exists v. apply answer_range in E as ?.
  change (default 255 (Some v)) with v. split_and!; try lia; try done.
  apply Z.eqb_neq. change (u8 (-1)) with 255. lia.
Qed.

(** All of the remaining channels are answered. *)
Lemma at_polarity_all cs : Forall (fun c => answer c <> None) cs ->
  forall ch acc inp s, 0 <= ch -> ch + Z.of_nat (length cs) <= 4 -> 0 <= acc < 2 ^ ch ->
  triple (at_ (cs ++ inp) s) (polarity_loop yield (length cs) ch acc)
    (fun r w => (r = Some (acc + polarity_byte ch cs) /\ acc + polarity_byte ch cs < 16) /\ at_ inp s w) Stop.
Proof.
  induction 1 as [|c cs Hc _ IH]; intros ch acc inp s H0 H4 Ha; cbn [length polarity_loop polarity_byte app] in *.
  - rewrite Z.add_0_r. intros w H. split; [|done]. split; [done|].
    assert (2 ^ ch <= 2 ^ 4) by (apply Z.pow_le_mono_r; lia). lia.
  - step_by at_say. step_pure at_binary_input. destruct (answered c Hc) as (v & E & Hv & -> & ->). rewrite E.
    change (default 0 (Some v)) with v.
    destruct (polarity_step acc v ch ltac:(lia) Ha Hv) as [-> L].
    rewrite Z.add_assoc. apply IH; try done; lia.
Qed.

(** One is not: the command is abandoned. *)
Lemma at_polarity_abort c good : answer c = None -> Forall (fun c => answer c <> None) good ->
  forall n ch acc inp s, (length good < n)%nat ->
  triple (at_ (good ++ c :: inp) s) (polarity_loop yield n ch acc) (fun r w => r = None /\ at_ inp s w) Stop.
Proof.
  intros Hc. induction 1 as [|g good Hg _ IH]; intros [|n] ch acc inp s Hn; cbn [length polarity_loop app] in *;
    try lia; step_by at_say; step_pure at_binary_input.
  - rewrite Hc. change (default 255 None =? u8 (-1)) with true. cbv iota.
    step_by at_say. by intros w H.
  - destruct (answered g Hg) as (v & _ & _ & -> & _). apply IH. lia.
Qed.

Lemma at_set_polarity k cs inp s : wf_command env_patience (SetPolarity k cs) ->
  triple (at_ (cs ++ inp) s) (set_polarity yield) (fun _ => at_ inp (effect (SetPolarity k cs) s)) Stop.
Proof.
  intros (_ & good & bad & -> & Hg & Hc). unfold set_polarity, effect.
  step_by at_say. step_by at_say. destruct Hc as [[L ->]|(L & c & -> & Hc)].
  - rewrite app_nil_r in *. rewrite bool_decide_true by done. rewrite <- L.
    eapply triple_bind; [apply (at_polarity_all good Hg 0 0 inp s); lia|]. cbn beta. intros r.
    apply triple_pure. rewrite Z.add_0_l. intros [-> Hr]. step_by at_say.
    pose proof (polarity_byte_nonneg 0 good ltac:(lia)) as H0'.
    step_by (at_write 0x13 (polarity_byte 0 good) 100); [done|unfold is_u; lia|apply at_flavor].
  - rewrite bool_decide_false by (rewrite Forall_app, Forall_cons; tauto).
    rewrite <- app_assoc. step_pure (at_polarity_abort c good Hc Hg 4 0 0 inp s L). by intros w H.
Qed.

(** ** The commands that display *)

Lemma returns_wait_bus : returns (wait_bus env_patience 1).
Proof. intros w. destruct (ee_bus w) as [w' E]. unfold wp. by rewrite E. Qed.
#[local] Hint Resolve returns_wait_bus : returns.

Lemma returns_readBytes a n : returns (i2c_eeprom_readBytes a n).
Proof. unfold i2c_eeprom_readBytes, i2c1_write, i2c1_read, i2c_write, i2c_read. returns_tac. Qed.
#[local] Hint Resolve returns_readBytes : returns.

Ltac quiet_side := split; [reflexivity|first [by apply emits_push | apply emits_push; cbn; lia]].

Lemma wait_bus_quietly n bus : respects (both (keeps state_of) (emits quiet)) (wait_bus n bus).
Proof. induction n as [|n IH]; cbn [wait_bus]; respects_tac quiet_side. Qed.
#[local] Hint Resolve wait_bus_quietly : respects.

(** A computation that changes nothing the operator sees. *)
Definition idle {A} (m : M A) : Prop := forall inp s, triple (at_ inp s) m (fun _ => at_ inp s) Stop.

Lemma idle_bind {A B} (m : M A) (k : A -> M B) : idle m -> (forall a, idle (k a)) -> idle (bind m k).
Proof. intros Hm Hk inp s. eapply triple_bind; [apply Hm|intros a; apply Hk]. Qed.

Lemma idle_seq_all ms : Forall idle ms -> idle (seq_all ms).
Proof. intros H inp s. apply triple_seq_all. eapply list.Forall_impl; [exact H|]. intros m Hm. apply Hm. Qed.

Lemma idle_for_up n i body : (forall j, idle (body j)) -> idle (for_up n i body).
Proof. intros H inp s. apply (triple_for_up (fun _ => at_ inp s)). intros j _. apply H. Qed.

Lemma idle_readBytes a n : idle (i2c_eeprom_readBytes a n).
Proof.
  intros inp s. unfold i2c_eeprom_readBytes, i2c1_write, i2c1_read, i2c_write, i2c_read.
  apply at_quietly; [respects_tac quiet_side|returns_tac].
Qed.

Ltac idle_step :=
  lazymatch goal with
  | |- idle (bind _ _) => apply idle_bind; [|intros ?]
  | |- idle (ret _) => by intros ? ? ? ?
  | |- idle (gets _) => by intros ? ? ? ?
  | |- idle (say _ _ _) => intros ? ?; apply at_say
  | |- idle (Xil_In32 _) => intros ? ?; apply at_quietly; [respects_tac quiet_side|by intros ?]
  | |- idle (i2c_eeprom_readBytes _ _) => apply idle_readBytes
  | |- idle (for_up _ _ _) => apply idle_for_up; intros ?
  | |- idle (seq_all (_ <$> _)) => apply idle_seq_all, Forall_fmap, Forall_true; intros ?; unfold compose; cbn beta
  | |- idle (when ?b _) => destruct b; cbn [when]
  | |- idle (if ?b then _ else _) => destruct b
  | |- idle (let _ := _ in _) => cbv zeta
  end.
Ltac idle_tac := repeat idle_step.

Definition displays : list (M unit) :=
  [display_settings yield; print_snapshot_stats yield; printTaskStats yield; dump_eeprom yield].

Lemma display_idle f : f ∈ displays -> idle f.
Proof.
  intros H. repeat (apply elem_of_cons in H as [-> | H]); [..|by apply elem_of_nil in H];
    unfold display_settings, show_binary, show_polarity, print_snapshot_stats, printTaskStats, dump_eeprom, eeprom_dump;
    cbv zeta; idle_tac.
Qed.

(** ** The menu *)

Lemma menu_entries : entryCh <$> menu yield = menu_keys.
Proof. reflexivity. Qed.

Lemma run_entry_missing (m : list menu_entry_t) c w : c ∉ entryCh <$> m -> run_entry m c w = Done tt w.
Proof.
  induction m as [|e m IH]; [done|]. cbn. rewrite not_elem_of_cons. intros [Hc Hm].
  destruct (Z.eqb_spec (entryCh e) c) as [E|]; [by destruct Hc|by apply IH].
Qed.

Lemma at_command cmd inp s : wf_command env_patience cmd ->
  triple (at_ (drop 1 (keys cmd) ++ inp) s) (run_entry (menu yield) (upcase (hd 0 (keys cmd))))
    (fun _ => at_ inp (effect cmd s)) Stop.
Proof.
  intros Hw. destruct cmd as [k|k a c|k cs|k c line eol]; cbn [keys hd] in *.
  - cbn [drop app effect]. assert (forall f, f ∈ displays -> triple (at_ inp s) f (fun _ => at_ inp s) Stop) as Hd.
    { intros f Hf. by apply display_idle. }
    unfold displays in Hd. destruct Hw as [Hk|[_ Hk]].
    + unfold display_keys in Hk. repeat (apply elem_of_cons in Hk as [-> | Hk]); [..|by apply elem_of_nil in Hk];
        (apply Hd; rewrite !elem_of_cons; tauto).
    + rewrite <- menu_entries in Hk. intros w H. by rewrite run_entry_missing.
  - cbn [drop app]. unfold wf_command, byte_settings in Hw.
    repeat (apply elem_of_cons in Hw as [[= -> ->] | Hw]); [..|by apply elem_of_nil in Hw];
      cbn [run_entry menu entryCh entryFunc Z.eqb Pos.eqb];
      apply (at_set_binary _ _ c inp s); done.
  - pose proof Hw as [-> _]. exact (at_set_polarity k cs inp s Hw).
  - pose proof Hw as [-> _]. exact (at_set_smooth k c eol line inp s Hw).
Qed.

(** One turn of the menu, up to the choice. *)
Lemma at_turn `{!Served env} head c fuel inp s (Q : unit -> world -> Prop) :
  triple (at_ inp s)
    (run_entry (menu yield) (upcase c) ;; if upcase c =? 81 then ret tt else exec_menu yield fuel head (menu yield)) Q Stop ->
  triple (at_ (c :: inp) s) (exec_menu yield (Datatypes.S fuel) head (menu yield)) Q Stop.
Proof.
  intros HQ. cbn [exec_menu]. step_by typing_sleep; [exact _|]. step_by at_say.
  eapply triple_bind; [apply (idle_seq_all ((fun e => say yield _ _) <$> _)), Forall_fmap, Forall_true; intros e; unfold compose; idle_tac|intros []].
  step_by at_say. eapply triple_bind; [apply typing_wait; exact _|intros []].
  eapply triple_bind; [apply (typing_rx S yield (settled s) Stop c inp)|]. intros c'. apply triple_pure. intros ->. step_by at_say. exact HQ.
Qed.

Lemma wf_not_quit p cmd : wf_command p cmd -> upcase (hd 0 (keys cmd)) <> 81.
Proof.
  destruct cmd as [k|k a c|k cs|k c line eol]; cbn [keys hd].
  - intros [Hk|[Hk _]]; [|done]. intros E. rewrite E in Hk.
    repeat (apply elem_of_cons in Hk as [Hk|Hk]; [done|]). by apply elem_of_nil in Hk.
  - intros Hk E. cbn in Hk. rewrite E in Hk.
    repeat (apply elem_of_cons in Hk as [Hk|Hk]; [by injection Hk|]). by apply elem_of_nil in Hk.
  - intros [-> _]. done.
  - intros [-> _]. done.
Qed.

Lemma at_session `{!Served env} head q inp cmds : upcase q = 81 -> Forall (wf_command env_patience) cmds ->
  forall s fuel, (length cmds < fuel)%nat ->
  triple (at_ (concat (keys <$> cmds) ++ q :: inp) s) (exec_menu yield fuel head (menu yield))
    (fun _ => at_ inp (fold_left (fun s c => effect c s) cmds s)) Stop.
Proof.
  intros Hq. induction 1 as [|cmd cmds Hc _ IH]; intros s [|fuel] Hf; try (cbn in Hf; lia).
  - apply at_turn. rewrite Hq. cbn [Z.eqb Pos.eqb]. intros w H.
    rewrite (run_bind _ _ w tt w); [exact H|]. apply run_entry_missing. rewrite menu_entries. by_compute.
  - assert (exists k r, keys cmd = k :: r) as (k & r & E) by (destruct cmd; cbn; eauto).
    pose proof (wf_not_quit _ _ Hc) as Hk. rewrite E in Hk. cbn [hd] in Hk.
    change (concat (keys <$> cmd :: cmds)) with (keys cmd ++ concat (keys <$> cmds)).
    rewrite <- app_assoc, E. apply at_turn.
    pose proof (at_command cmd (concat (keys <$> cmds) ++ q :: inp) s Hc) as Hcmd.
    rewrite E in Hcmd. cbn [hd drop] in Hcmd. eapply triple_bind; [exact Hcmd|].
    intros []. destruct (Z.eqb_spec (upcase k) 81); [done|].
    cbn [fold_left]. apply IH. cbn in Hf. lia.
Qed.

(** ** Clearing the EEPROM and the test pattern *)

Definition confirmed (word : list Z) : bool := bool_decide (cstr word = [121; 101; 115]).

Lemma cstr_word word rest : cstr (word ++ 0 :: rest) = cstr word.
Proof.
  unfold cstr. induction word as [|c word IH]; [done|]. cbn [app upto].
  destruct (negb (c =? 0)); [by rewrite IH|done].
Qed.

(** The next word on the standard input, whenever it is read. *)
Definition types_word (word : list Z) : Prop := forall tr, env_scanf tr ≫= scan_word = Some word.

Lemma at_scanf word inp s : types_word word ->
  triple (at_ inp s) (scanf_9s yield) (fun input w => is_yes input = confirmed word /\ at_ inp s w) Stop.
Proof.
  intros E. unfold scanf_9s. apply triple_bind with (R := fun _ => at_ inp s); [by intros w H|]. intros input.
  step_by typing_yield; [exact _|]. eapply triple_gets. intros r.
  apply (triple_pre (fun w => r = Some word /\ at_ inp s w)); [|intros w [H <-]; split; [apply E|exact H]].
  apply triple_pure. intros ->. apply triple_bind with (R := fun _ => at_ inp s).
  - intros w [Hr Hj]. split; [exact Hr|]. exact (idles_own _ _ (console_push (EScanf (Some word)) w Logic.I) Hj).
  - intros []. intros w H. split; [|exact H].
    unfold is_yes, confirmed, overwrite. rewrite <- app_assoc. cbn [app]. by rewrite cstr_word.
Qed.

(** The bytes written by [n] turns. *)
Fixpoint fill (addr v : Z -> Z) (n : nat) (s : settings) : settings :=
  match n with
  | O => s
  | Datatypes.S n => put (addr (Z.of_nat n)) (v (Z.of_nat n)) (fill addr v n s)
  end.

Lemma at_fill addr v fmt us inp s : (forall i, 0 <= i < 128 -> 0 <= addr i < 128 /\ is_byte (v i)) ->
  triple (at_ inp s)
    (for_up 128 0 (fun i => i2c_eeprom_writeBytes (addr i) [v i] ;; say yield fmt [AInt i] ;; usleep us ;; yield))
    (fun _ => at_ inp (fill addr v 128 s)) Stop.
Proof.
  intros Ha. apply (triple_for_up (fun k => at_ inp (fill addr v (Z.to_nat k) s)) Stop 128 0).
  intros k Hk. destruct (Ha k ltac:(lia)) as [A V].
  replace (Z.to_nat (k + 1)) with (Datatypes.S (Z.to_nat k)) by lia. cbn [fill]. rewrite Z2Nat.id by lia.
  eapply triple_bind; [apply at_rule_unit; intros w Hw; by apply wp_writeByte|]. intros [].
  step_by at_say. by apply typing_act; [exact _|..].
Qed.

Lemma fill_lookup addr inv v n s j :
  (forall i, 0 <= i < Z.of_nat n -> 0 <= addr i /\ inv (addr i) = i) ->
  (0 <= inv (Z.of_nat j) < Z.of_nat n -> addr (inv (Z.of_nat j)) = Z.of_nat j) -> (j < length (image s))%nat ->
  image (fill addr v n s) !! j =
  (if (0 <=? inv (Z.of_nat j)) && (inv (Z.of_nat j) <? Z.of_nat n) then Some (v (inv (Z.of_nat j))) else image s !! j) /\
  length (image (fill addr v n s)) = length (image s) /\ in_force (fill addr v n s) = in_force s.
Proof.
  intros Ha Hi Hj. induction n as [|n IH]; cbn [fill put image in_force].
  { destruct (Z.leb_spec 0 (inv (Z.of_nat j))); [|done]. destruct (Z.ltb_spec (inv (Z.of_nat j)) (Z.of_nat 0)); [lia|done]. }
  destruct IH as (E & L & F); [intros i Hi'; apply Ha; lia|intros; apply Hi; lia|].
  rewrite length_insert. split; [|done]. destruct (Ha (Z.of_nat n) ltac:(lia)) as [A1 A2].
  destruct (Nat.eq_dec (Z.to_nat (addr (Z.of_nat n))) j) as [<-|N].
  - rewrite list_lookup_insert_eq by lia. rewrite Z2Nat.id, A2 by lia.
    destruct (Z.leb_spec 0 (Z.of_nat n)); [|lia]. by destruct (Z.ltb_spec (Z.of_nat n) (Z.of_nat (Datatypes.S n))); [|lia].
  - rewrite list_lookup_insert_ne, E by done.
    destruct (Z.leb_spec 0 (inv (Z.of_nat j))); [|done].
    destruct (Z.ltb_spec (inv (Z.of_nat j)) (Z.of_nat n)), (Z.ltb_spec (inv (Z.of_nat j)) (Z.of_nat (Datatypes.S n)));
      try done; try lia.
    destruct N. specialize (Hi ltac:(lia)). replace (Z.of_nat n) with (inv (Z.of_nat j)) by lia. rewrite Hi. lia.
Qed.

(** The settings after the two commands, when the word is [word]. *)
Definition rewritten (word : list Z) (byte : Z -> Z) (s s' : settings) : Prop :=
  in_force s' = in_force s /\
  forall j, (j < 256)%nat -> image s' !! j =
    if confirmed word && (Z.of_nat j <? 128) then Some (byte (Z.of_nat j)) else image s !! j.

Lemma fill_rewritten addr inv v word s : confirmed word = true -> length (image s) = 256%nat ->
  (forall i, 0 <= i < 128 -> 0 <= addr i < 128 /\ inv (addr i) = i) ->
  (forall j, 0 <= inv j < 128 <-> 0 <= j < 128) -> (forall j, 0 <= j < 128 -> addr (inv j) = j) ->
  rewritten word (fun j => v (inv j)) s (fill addr v 128 s).
Proof.
  intros Hc L Ha Hi Hb.
  assert (forall j, (j < 256)%nat ->
    image (fill addr v 128 s) !! j = (if Z.of_nat j <? 128 then Some (v (inv (Z.of_nat j))) else image s !! j) /\
    in_force (fill addr v 128 s) = in_force s) as HF.
  2: { split; [by apply (HF 0%nat); lia|]. rewrite Hc. intros j Hj. by apply HF. }
  intros j Hj. destruct (fill_lookup addr inv v 128 s j) as (E & _ & F).
  - intros i Hi'. destruct (Ha i Hi') as [A B]. split; [lia|done].
  - intros Hj'. apply Hb, Hi, Hj'.
  - lia.
  - rewrite E, F. split; [|done]. specialize (Hi (Z.of_nat j)). change (Z.of_nat 128) with 128.
    destruct (Z.leb_spec 0 (inv (Z.of_nat j))), (Z.ltb_spec (inv (Z.of_nat j)) 128), (Z.ltb_spec (Z.of_nat j) 128);
      cbn [andb]; try done; lia.
Qed.

(** The common form of the two commands: asked for confirmation, they rewrite
    the addresses [addr i] for [i] from 0 to 127. *)
Lemma at_rewrite prompt no yes addr inv v fmt us word inp s :
  (forall i, 0 <= i < 128 -> 0 <= addr i < 128 /\ is_byte (v i) /\ inv (addr i) = i) ->
  (forall j, 0 <= inv j < 128 <-> 0 <= j < 128) -> (forall j, 0 <= j < 128 -> addr (inv j) = j) ->
  types_word word -> length (image s) = 256%nat ->
  triple (at_ inp s)
    (say yield prompt [] ;;
     let! input := scanf_9s yield in
     if negb (is_yes input) then say yield no []
     else
       say yield yes [] ;;
       for_up 128 0 (fun i => i2c_eeprom_writeBytes (addr i) [v i] ;; say yield fmt [AInt i] ;; usleep us ;; yield))
    (fun _ w => exists s', at_ inp s' w /\ rewritten word (fun j => v (inv j)) s s') Stop.
Proof.
  intros Ha Hi Hb Hw L. step_by at_say. step_by (at_scanf word inp s Hw). apply triple_pure. intros ->.
  destruct (confirmed word) eqn:Hc; cbn [negb].
  - step_by at_say. eapply triple_conseq; [apply (at_fill addr v fmt us inp s)|done|].
    + intros i Hi'. split; apply Ha; done.
    + intros ? w H. eexists. split; [exact H|]. apply fill_rewritten; try done.
      intros i Hi'. split; apply Ha; done.
  - eapply triple_conseq; [apply at_say|done|]. intros ? w H. exists s. split; [exact H|].
    split; [done|]. by rewrite Hc.
Qed.

(** The two commands, and the byte each leaves at an address. *)
Definition rewriting : list (M unit * (Z -> Z)) :=
  [(clear_eeprom yield, fun _ => 0xFF); (test_eeprom yield, fun j => 127 - j)].

Lemma at_rewriting f byte word inp s : (f, byte) ∈ rewriting -> types_word word -> length (image s) = 256%nat ->
  triple (at_ inp s) f (fun _ w => exists s', at_ inp s' w /\ rewritten word byte s s') Stop.
Proof.
  intros Hf Hw L. unfold rewriting in Hf.
  repeat (apply elem_of_cons in Hf as [[= -> ->] | Hf]); [..|by apply elem_of_nil in Hf].
  - unfold clear_eeprom. apply (at_rewrite _ _ _ (fun i => i) (fun j => j) (fun _ => 0xFF)); done.
  - unfold test_eeprom. eapply triple_conseq.
    + apply (at_rewrite _ _ _ (fun i => 127 - i) (fun j => 127 - j) u8 _ _ word inp s); [| |intros j Hj; lia|exact Hw|exact L].
      * intros i Hi. split; [lia|]. split; [by apply wrap_range|lia].
      * intros j. lia.
    + done.
    + cbn beta. intros ? w (s' & H' & F & R). exists s'. split; [done|]. split; [done|]. intros j Hj. rewrite R by done.
      destruct (confirmed word); [cbn [andb]|done]. destruct (Z.ltb_spec (Z.of_nat j) 128); [|done].
      by rewrite u8_small by (unfold is_u; lia).
Qed.

Lemma holds_size inp s w : holds ee0 S inp s w -> length (image s) = 256%nat.
Proof. intros (<- & _). by apply (eeprom_size env). Qed.
End Rules.

(** The console on its own: nothing runs beside it, and the rest of the
    program's state stays what it is. *)
#[export] Instance beside_nothing {env : Env} o : Beside (ret tt) (fun w => frame w = o) (fun _ => False).
Proof.
  split; [by intros w w' [Hf _] <-|by intros w H|apply respects_ret; exact _].
Qed.

(** A session at the console refines the abstract settings, also with other
    tasks at work.  From any state that shows some settings, an operator
    types any sequence of settings and display commands, with right or wrong
    answers, and quits; whenever the console prints or waits, other tasks
    run, which leave the keyboard, the EEPROM and the flavour alone.  Then
    the menu ends, having read exactly those keys, and the EEPROM, the
    flavour registers, the volts-to-bits factors and the ramp's globals show
    what the commands say one after the other: a right answer is stored and
    the whole flavour loaded again, a wrong one changes nothing in the
    EEPROM.  What the other tasks rely on, [I], holds at the end; the only
    other outcome is a stop inside one of them.  Alone ([beside_nothing]) the
    menu always ends, with the rest of the program's state as before. *)
Theorem session_refines {env : Env} `{!AxiWindow env} ee0 S `{!EepromOk env ee0} `{!Keyboard env S} `{!Served env}
    yield I Stop `{!Beside yield I Stop} head cmds q inp s w fuel :
  Forall (wf_command env_patience) cmds -> upcase q = 81 -> (length cmds < fuel)%nat ->
  holds ee0 S (concat (keys <$> cmds) ++ q :: inp) s w -> I w ->
  match exec_menu yield fuel head (menu yield) w with
  | Done _ w' => holds ee0 S inp (fold_left (fun s c => effect c s) cmds s) w' /\ I w'
  | Fault _ w' | NoFuel w' => Stop w'
  end.
Proof.
  intros Hc Hq Hf H Hi.
  pose proof (at_session ee0 S yield I Stop head q inp cmds Hq Hc s fuel Hf w) as T.
  specialize (T (proj2 (at_holds ee0 S I _ s w) (conj H Hi))).
  destruct (exec_menu yield fuel head (menu yield) w); [by apply at_holds|exact T..].
Qed.

(** A new unit: a blank EEPROM but for the settings of two medium-resolution
    channels.  High resolution, a polarity for each channel, linear ramps of
    "2x61" percent (261, stored as 5), a look at the settings, a wrong answer
    and the end. *)
Definition demo_ee : list Z := replicate 16 255 ++ [0; 0; 0; 0; 1; 1; 1; 10] ++ replicate 232 255.
Definition demo_session : list command :=
  [SetByte 67 0x11 49; SetPolarity 101 [49; 48; 49; 48]; SetSmooth 78 48 [50; 120; 54; 49] 13;
   Display 65; SetByte 66 0x10 55].
Definition demo_keys : list Z := concat (keys <$> demo_session) ++ [113].
Definition demo_env : Env := with_console sim demo_ee demo_keys (fun _ => None).
Definition demo_start : world := final (ReadHardwareFlavor (env := demo_env) sim_world).
Definition demo_settings : settings := Settings demo_ee (decode (settings_at demo_ee) (Flavour 0 0 0 0 0 0 0 0 0 0)).

Lemma demo_session_wf : Forall (wf_command (@env_patience demo_env)) demo_session.
Proof.
  repeat (apply list.Forall_cons; split); [..|by constructor].
  + cbn. set_solver.
  + split; [done|]. exists [49; 48; 49; 48], []. split; [done|]. split; [by_compute|]. by left.
  + split_and!; try done; [by_compute|vm_compute; lia].
  + left. vm_compute. set_solver.
  + cbn. set_solver.
Qed.

Lemma session_refines_witness :
  holds (env := demo_env) demo_ee demo_keys demo_keys demo_settings demo_start /\
  exists w', exec_menu (env := demo_env) (ret tt) 10 None (menu (env := demo_env) (ret tt)) demo_start = Done tt w' /\
    take 8 (drop 16 (cells (eeprom_state demo_ee (trace w')))) = [0; 1; 0; 5; 1; 1; 0; 5] /\
    last_write (sim_base + POLARITY_REG) (writes_of (trace w')) = Some 5 /\
    CONVVOLTSTODACBITS (glob w') = 0x474CCCCD /\ smoothramp_percentcurved (glob w') = 5.
Proof.
  assert (holds (env := demo_env) demo_ee demo_keys demo_keys demo_settings demo_start) as H.
  { split; [vm_compute; reflexivity|]. split; [by_compute|]. split; [vm_compute; reflexivity|].
    split; [|split_and!; vm_compute; reflexivity]. cbn zeta. split_and!; vm_compute; reflexivity. }
  split; [exact H|].
  pose proof demo_session_wf as Hc.
  pose proof (session_refines (env := demo_env) (EepromOk0 := with_console_eeprom sim demo_ee demo_keys _ eq_refl ltac:(by_compute))
    (Keyboard0 := with_console_keyboard sim demo_ee demo_keys _ ltac:(by_compute)) (Served0 := with_console_served _ _ _ _)
    demo_ee demo_keys (ret tt) (fun w => frame w = frame demo_start) (fun _ => False)
    None demo_session 113 [] demo_settings demo_start 10 Hc eq_refl ltac:(cbn; lia) H eq_refl) as T.
  run_ends T as ((Hcell & _ & _ & (_ & _ & _ & Hp & _) & _ & Hpc & Hv & _) & _).
  exists w. split; [reflexivity|]. rewrite Hcell. split; [vm_compute; reflexivity|].
  split; [etransitivity; [exact Hp|]|split; [rewrite Hv|rewrite Hpc]]; vm_compute; reflexivity.
Defined.

(** C29. "Clear EEPROM" and "Test EEPROM" rewrite the whole writable half of the
    EEPROM (0xFF everywhere, resp. the address counted down) exactly when the
    word typed is "yes", and nothing at all otherwise, also with other tasks
    running wherever they wait or print; neither loads the flavour again, so that the registers and globals keep showing settings
    that the EEPROM no longer holds. *)
Theorem eeprom_rewritten {env : Env} `{!AxiWindow env} ee0 S `{!EepromOk env ee0} `{!Keyboard env S}
    yield I Stop `{!Beside yield I Stop} f byte word inp s w :
  (f, byte) ∈ rewriting yield -> types_word word -> holds ee0 S inp s w -> I w ->
  match f w with
  | Done _ w' => exists s', holds ee0 S inp s' w' /\ I w' /\ in_force s' = in_force s /\
      forall j, (j < 256)%nat -> image s' !! j =
        if confirmed word && (Z.of_nat j <? 128) then Some (byte (Z.of_nat j)) else image s !! j
  | Fault _ w' | NoFuel w' => Stop w'
  end.
Proof.
  intros Hf Hw H Hi.
  pose proof (at_rewriting ee0 S yield I Stop f byte word inp s Hf Hw (holds_size ee0 S _ _ _ H) w) as T.
  specialize (T (proj2 (at_holds ee0 S I _ s w) (conj H Hi))).
  destruct (f w) as [[] w'| |]; [|exact T..]. destruct T as (s' & Ha & R). exists s'.
  apply at_holds in Ha as [Hh Hi']. split; [exact Hh|]. split; [exact Hi'|exact R].
Qed.

(** The unit above, and an operator who confirms the test pattern. *)
Definition yes_env : Env := with_console sim demo_ee [] (fun _ => Some [121; 101; 115]).
Definition yes_start : world := final (ReadHardwareFlavor (env := yes_env) sim_world).

Lemma eeprom_rewritten_witness :
  exists w' s', test_eeprom (env := yes_env) (ret tt) yes_start = Done tt w' /\
    holds (env := yes_env) demo_ee [] [] s' w' /\ image s' !! 16%nat = Some 111 /\ image s' !! 200%nat = Some 255 /\
    numchans (in_force s') = 0.
Proof.
  assert (holds (env := yes_env) demo_ee [] [] demo_settings yes_start) as H.
  { split; [vm_compute; reflexivity|]. split; [by_compute|]. split; [vm_compute; reflexivity|].
    split; [|split_and!; vm_compute; reflexivity]. cbn zeta. split_and!; vm_compute; reflexivity. }
  assert ((test_eeprom (env := yes_env) (ret tt), fun j => 127 - j) ∈ rewriting (env := yes_env) (ret tt)) as Hf.
  { unfold rewriting. apply elem_of_cons. right. apply list_elem_of_singleton. reflexivity. }
  assert (types_word (env := yes_env) [121; 101; 115]) as Hw by (intros tr; reflexivity).
  pose proof (eeprom_rewritten (env := yes_env) (EepromOk0 := with_console_eeprom sim demo_ee [] _ eq_refl ltac:(by_compute))
    (Keyboard0 := with_console_keyboard sim demo_ee [] _ ltac:(by_compute)) demo_ee []
    (ret tt) (fun w => frame w = frame yes_start) (fun _ => False) _ _ _ [] demo_settings yes_start Hf Hw H eq_refl) as T.
  run_ends T as (s' & H' & _ & F & I).
  exists w, s'. split; [reflexivity|]. split; [exact H'|]. rewrite F, !I by lia.
  split_and!; vm_compute; reflexivity.
Defined.
