(* ===== verification/CommandLine.v ===== *)
(** * The command line of the console

    "Dave Bergman Calibration Mode" of [console.c]: a line
    [<channel> <command> <value>] runs the same code as a settings message
    from the network, without the network's check of the channel. *)

From Stdlib Require Import ZArith Lia Bool String.
From stdpp Require Import base list numbers strings.
From S2P Require Import Prelude CString CFloat Registers World Logic Sim I2c Control Console Operator Eeprom Main Session.

#[local] Open Scope Z_scope.

(** What can happen while the console reads a line: its own input and output,
    and the other tasks' turns. *)
Inductive meanwhile (yield : M unit) (w : world) : world -> Prop :=
| meanwhile_refl : meanwhile yield w w
| meanwhile_own w1 w2 : meanwhile yield w w1 -> console_only w1 w2 -> meanwhile yield w w2
| meanwhile_other w1 w2 : meanwhile yield w w1 -> yield w1 = Done tt w2 -> meanwhile yield w w2.

(** A run that stops in a turn of the other tasks, in [w']. *)
Definition stopped_in (yield : M unit) (w w' : world) : Prop :=
  exists w1, meanwhile yield w w1 /\ match yield w1 with Done _ _ => False | Fault _ w2 | NoFuel w2 => w2 = w' end.

Lemma meanwhile_idles yield w : respects (emits no_keyboard) yield ->
  Idles yield (meanwhile yield w) (stopped_in yield w).
Proof.
  intros Hk. split; [|intros w1 H|exact Hk].
  - intros w1 w2 Hc H. by apply (meanwhile_own yield w w1).
  - destruct (yield w1) as [[] w2| |] eqn:E; [by apply (meanwhile_other yield w w1)|..];
      exists w1; by rewrite E.
Qed.

(** What the other tasks keep, stays. *)
Lemma meanwhile_keeps {X} (f : world -> X) yield w w' : respects (keeps f) yield ->
  (forall w1 w2, console_only w1 w2 -> f w2 = f w1) -> meanwhile yield w w' -> f w' = f w.
Proof.
  intros Hy Ho. induction 1 as [|w1 w2 _ IH Hc|w1 w2 _ IH E]; [done|by rewrite (Ho _ _ Hc)|].
  specialize (Hy w1). rewrite E in Hy. unfold keeps in Hy. cbn in Hy. congruence.
Qed.

(** On its own the console does not stop, and changes no state. *)
Lemma alone_stopped w w' : ~ stopped_in (ret tt) w w'.
Proof. by intros (w1 & _ & H). Qed.

Lemma alone_state w w' : meanwhile (ret tt) w w' -> state_of w' = state_of w.
Proof.
  apply meanwhile_keeps; [apply respects_ret; exact _|]. by intros w1 w2 [H _].
Qed.

(** [text] is a command line: two numbers and a word, with white space
    between them, perhaps before, and anything after a white space. *)
Definition command_line (text ds1 ds2 val : list Z) : Prop :=
  exists pre mid1 mid2 post, text = pre ++ ds1 ++ mid1 ++ ds2 ++ mid2 ++ val ++ post /\
    blank pre /\ blank mid1 /\ mid1 <> [] /\ blank mid2 /\ mid2 <> [] /\
    digits10 ds1 /\ ds1 <> [] /\ digits10 ds2 /\ ds2 <> [] /\ is_word val /\ (length val <= 31)%nat /\
    (post = [] \/ exists c rest, post = c :: rest /\ isspace c = true).

Section CommandLine.
Context {env : Env} (S : list Z) `{!Keyboard env S} `{!Served env}.

(** ** Parsing a line *)

Lemma space_not_digit c : isspace c = true -> isdigit c = false.
Proof.
  unfold isspace, isdigit. intros H. apply orb_true_iff in H as [H|H]; zbool; subst; [done|].
  destruct (Z.leb_spec 48 c); [lia|done].
Qed.

Lemma digits_not_space ds : digits10 ds -> Forall (fun c => isspace c = false) ds.
Proof.
  intros H. eapply list.Forall_impl; [exact H|]. intros c Hc. destruct (isspace c) eqn:E; [|done].
  apply space_not_digit in E. cbv beta in Hc. congruence.
Qed.

Lemma blank_upto_digit mid rest : blank mid -> mid <> [] -> upto isdigit (mid ++ rest) = [].
Proof. destruct mid as [|c mid]; [done|]. intros [H _]%list.Forall_cons_1 _. apply upto_stop. by apply space_not_digit. Qed.

Lemma scan_uint_digits pre ds rest w : blank pre -> digits10 ds -> ds <> [] -> upto isdigit rest = [] ->
  dec_val ds < 2 ^ 32 -> scan_uint (pre ++ ds ++ rest) w = Done (Some (dec_val ds, rest)) w.
Proof.
  intros Hp Hd Hn Hr Hv. unfold scan_uint. rewrite scan_dec_digits by done.
  assert (is_u 32 (dec_val ds)) as Hu by (split; [by apply dec_val_nonneg|done]).
  apply fits_unsigned_spec in Hu as F. rewrite F. by rewrite (u32_small _ Hu).
Qed.

Lemma scan_command_line text ds1 ds2 val w : command_line text ds1 ds2 val ->
  dec_val ds1 < 2 ^ 32 -> dec_val ds2 < 2 ^ 32 ->
  scan_command text w = Done (Some (dec_val ds1, dec_val ds2, val)) w.
Proof.
  intros (pre & mid1 & mid2 & post & -> & Hp & Hm1 & Hm1' & Hm2 & Hm2' & Hd1 & Hn1 & Hd2 & Hn2 & Hv & Hl & Hpost) B1 B2.
  unfold scan_command.
  rewrite (run_bind _ _ _ _ _ (scan_uint_digits pre ds1 _ w Hp Hd1 Hn1 (blank_upto_digit mid1 _ Hm1 Hm1') B1)).
  rewrite skip_app, (skip_word ds2) by (done || by apply digits_not_space).
  pose proof (scan_uint_digits [] ds2 (mid2 ++ val ++ post) w ltac:(constructor) Hd2 Hn2 (blank_upto_digit mid2 _ Hm2 Hm2') B2) as E2.
  cbn [app] in E2. rewrite (run_bind _ _ _ _ _ E2).
  rewrite skip_app, (skip_word val) by (done || apply Hv).
  rewrite upto_app by (by apply word_negb).
  assert (upto (fun c => negb (isspace c)) post = []) as ->.
  { destruct Hpost as [->|(c & rest & -> & Hc)]; [done|]. cbn. by rewrite Hc. }
  rewrite app_nil_r, take_ge by done. by destruct val; [destruct Hv|].
Qed.

(** ** The command *)

Lemma strtoul_range s : is_u32 (strtoul s).
Proof.
  unfold strtoul. destruct (scan_dec s) as [[[neg n] rest]|]; [|done].
  destruct (fits_unsigned 32 n); [apply u32_range|done].
Qed.

Lemma parse_value_range s : is_u32 (parse_value s).
Proof. unfold parse_value. destruct (existsb _ _); [apply u32_range|apply strtoul_range]. Qed.

Lemma settings_rest chan addr data rest len rest' len' w : is_u32 addr -> is_u32 data ->
  chan_settings chan (settings_msg addr data rest) len w = chan_settings chan (settings_msg addr data rest') len' w.
Proof. intros Ha Hd. by rewrite !chan_settings_run. Qed.

(** The command, with other tasks at work: the setting it runs, or where it
    stopped before. *)
Lemma console_cmd_run yield text ds1 ds2 val eol inp w : respects (emits no_keyboard) yield ->
  command_line text ds1 ds2 val ->
  Forall (fun c => is_eol c = false /\ c <> 0) text -> (length text < 63)%nat -> is_eol eol = true ->
  dec_val ds1 < 2 ^ 32 -> dec_val ds2 < 2 ^ 32 -> rest_typed S w = text ++ eol :: inp ->
  (exists w', receive_console_cmd yield w = chan_settings (dec_val ds1) (settings_msg (dec_val ds2) (parse_value val) []) 8 w' /\
    meanwhile yield w w' /\ rest_typed S w' = inp) \/
  match receive_console_cmd yield w with Done _ _ => False | Fault _ w' | NoFuel w' => stopped_in yield w w' end.
Proof.
  intros Hk Ht Hc Hl He B1 B2 Hw. pose proof (meanwhile_idles yield w Hk) as HI.
  assert (triple (typing S (meanwhile yield w) (text ++ eol :: inp))
    (say yield "Enter:  <channel> <command> <value> \n" [] ;; uart_read_line yield MAX_INPUT_LEN)
    (fun l w' => l = text /\ typing S (meanwhile yield w) inp w') (stopped_in yield w)) as T.
  { eapply triple_bind; [by apply typing_say|intros []]. by apply typing_read_line. }
  specialize (T w (conj Hw (meanwhile_refl yield w))).
  unfold receive_console_cmd. rewrite <- bind_assoc.
  destruct (bind _ _ w) as [l w1|f w1|w1] eqn:E.
  - destruct T as [-> [Hr Hm]]. left. exists w1. split; [|by split].
    rewrite (run_bind _ _ _ _ _ E), (run_bind _ _ _ _ _ (scan_command_line text ds1 ds2 val w1 Ht B1 B2)).
    unfold settings_msg. by rewrite app_nil_r.
  - right. by rewrite (run_bind_fault _ _ _ _ _ E).
  - right. by rewrite run_bind_eq, E.
Qed.
End CommandLine.

(** C13. The command line and the network agree.  A line
    [<channel> <command> <value>], in any layout, runs the very same setting
    as a settings message for that channel with the same address and value:
    after the line is read, with turns of other tasks in between, the
    program continues as [chan_settings] on the message, or it stopped in
    one of those turns; for the channels 1 to 4 the network's handler does
    the same after its access pulse, whatever follows the two words in its
    buffer. *)
Theorem console_network_agree {env : Env} `{!AxiWindow env} S `{!Keyboard env S} `{!Served env}
    yield text ds1 ds2 val eol inp w :
  respects (emits no_keyboard) yield ->
  command_line text ds1 ds2 val -> Forall (fun c => is_eol c = false /\ c <> 0) text -> (length text < 63)%nat ->
  is_eol eol = true -> dec_val ds1 < 2 ^ 32 -> dec_val ds2 < 2 ^ 32 ->
  rest_typed S w = text ++ eol :: inp ->
  let chan := dec_val ds1 in
  let addr := dec_val ds2 in
  let data := parse_value val in
  ((exists w', receive_console_cmd yield w = chan_settings chan (settings_msg addr data []) 8 w' /\
      meanwhile yield w w' /\ rest_typed S w' = inp) \/
   match receive_console_cmd yield w with Done _ _ => False | Fault _ w' | NoFuel w' => stopped_in yield w w' end) /\
  (forall rest len w1, 1 <= chan <= 4 ->
    client_msg chan len (settings_msg addr data rest) w1 =
    chan_settings chan (settings_msg addr data []) 8
      (push (EOut32 (AXI + IOC_ACCESS_REG) 0) (push (EOut32 (AXI + IOC_ACCESS_REG) 1) w1))).
Proof.
  intros Hk Ht Hc Hl He B1 B2 Hw chan addr data.
  split; [by apply (console_cmd_run S yield text ds1 ds2 val eol inp w)|].
  intros rest len w1 H14. unfold client_msg. rewrite !run_out32, (axi_addr IOC_ACCESS_REG) by (unfold IOC_ACCESS_REG; lia).
  destruct (Z.eqb_spec chan 0); [lia|]. destruct ((1 <=? chan) && (chan <=? 4)) eqn:G.
  - apply settings_rest; [|apply parse_value_range].
    destruct Ht as (? & ? & ? & ? & _ & _ & _ & _ & _ & _ & _ & _ & H2 & _). split; [by apply dec_val_nonneg|exact B2].
  - apply andb_false_iff in G as [G|G]; zbool; lia.
Qed.

(** The settings that use the scale factors of a channel. *)
Definition scale_messages : list Z :=
  [SF_AMPS_PER_SEC_MSG; SF_DAC_DCCTS_MSG; SF_VOUT_MSG; SF_IGND_MSG; SF_SPARE_MSG; SF_REGULATOR_MSG; SF_ERROR_MSG].

Lemma scale_setting_faults {env : Env} chan addr data w : addr ∈ scale_messages -> is_u32 data ->
  is_u32 chan -> ~ 1 <= chan <= 4 -> length (scalefactors (glob w)) = 4%nat ->
  chan_settings chan (settings_msg addr data []) 8 w = Fault OutOfBounds w.
Proof.
  intros Ha Hd Hu Hc Hl.
  assert (forall f, set_sf chan f w = Fault OutOfBounds w) as F.
  { intros f. unfold set_sf, get_sf. rewrite run_bind_eq, run_gets. rewrite lookup_ge_None_2; [done|].
    rewrite Hl. unfold sf_index, u32, wrap. unfold is_u in Hu.
    destruct (Z.eq_dec chan 0) as [->|]; [change ((0 - 1) mod 2 ^ 32) with 4294967295; lia|]. rewrite Z.mod_small by lia. lia. }
  assert (addr ∈ (chan_scalefactors chan data).*1) as Hin by exact Ha.
  apply list_elem_of_fmap in Hin as ([m body] & -> & Hin). cbn [fst].
  assert (is_u32 m) as Hm.
  { assert (Forall (is_u 32) scale_messages) as H by by_compute. rewrite Forall_forall in H. by apply (H m). }
  rewrite (chan_case_in chan data m body); [|unfold chan_cases; rewrite !elem_of_app; tauto|done|done].
  unfold chan_scalefactors in Hin.
  repeat (apply elem_of_cons in Hin as [[= -> ->] | Hin]); [..|by apply elem_of_nil in Hin];
    first [apply F | by rewrite run_bind_eq, F].
Qed.

(** A direct setting writes its word wherever the channel's number leads. *)
Lemma direct_setting_writes {env : Env} chan m r data w : (m, r) ∈ direct_settings -> is_u32 data ->
  chan_settings chan (settings_msg m data []) 8 w = Done tt (push (EOut32 (u32 (AXI + r + chan * CHBASEADDR)) data) w).
Proof.
  intros Hin Hd.
  rewrite (table_case direct_settings fst (fun p => set_word p.2 chan data) chan data [] 8 w (m, r)
    (direct_cases chan data) ltac:(by_compute) Hd Hin).
  unfold set_word, Xil_Out32, log, modify. cbn [snd]. by rewrite (u32_small data).
Qed.

(** C40. The channel of a command line is not checked.  For a channel that does
    not exist (0, or any above 4), and with other tasks at work, which may
    stop the program before: a setting of a scale factor is undefined
    behaviour, it reads past the end of [scalefactors]; and a setting whose
    value is written as it is goes to the address where that channel's
    register would be, in the global registers for channel 0 and anywhere in
    the 32-bit address space for the others.  A network message with such an
    id reaches no channel's settings: 0 is a message of global settings, 101
    a ramp table for channel 1, and any other id is ignored. *)
Theorem console_channel_unchecked {env : Env} `{!AxiWindow env} S `{!Keyboard env S} `{!Served env}
    yield text ds1 ds2 val eol inp w :
  respects (emits no_keyboard) yield -> respects (keeps (fun w => length (scalefactors (glob w)))) yield ->
  command_line text ds1 ds2 val -> Forall (fun c => is_eol c = false /\ c <> 0) text -> (length text < 63)%nat ->
  is_eol eol = true -> dec_val ds1 < 2 ^ 32 -> dec_val ds2 < 2 ^ 32 ->
  ~ 1 <= dec_val ds1 <= 4 -> length (scalefactors (glob w)) = 4%nat ->
  rest_typed S w = text ++ eol :: inp ->
  let chan := dec_val ds1 in
  let addr := dec_val ds2 in
  let data := parse_value val in
  (addr ∈ scale_messages ->
   match receive_console_cmd yield w with
   | Done _ _ => False
   | Fault f w' => f = OutOfBounds /\ meanwhile yield w w' \/ stopped_in yield w w'
   | NoFuel w' => stopped_in yield w w'
   end) /\
  (forall r, (addr, r) ∈ direct_settings ->
   (exists w', meanwhile yield w w' /\
      receive_console_cmd yield w = Done tt (push (EOut32 (u32 (AXI + r + chan * CHBASEADDR)) data) w')) \/
   match receive_console_cmd yield w with Done _ _ => False | Fault _ w' | NoFuel w' => stopped_in yield w w' end) /\
  (forall len msg w1,
   let w2 := push (EOut32 (AXI + IOC_ACCESS_REG) 0) (push (EOut32 (AXI + IOC_ACCESS_REG) 1) w1) in
   client_msg chan len msg w1 =
     if decide (chan = 0) then glob_settings msg w2
     else if decide (chan = 101) then write_ramptable 1 msg len w2
     else Done tt w2).
Proof.
  intros Hk Hy Ht Hc Hl He B1 B2 Hn Hs Hw chan addr data.
  assert (0 <= chan) as H0.
  { destruct Ht as (? & ? & ? & ? & _ & _ & _ & _ & _ & _ & H1 & _). by apply dec_val_nonneg. }
  pose proof (console_cmd_run S yield text ds1 ds2 val eol inp w Hk Ht Hc Hl He B1 B2 Hw) as Hrun.
  fold chan addr data in Hrun. split; [|split].
  - intros Ha. destruct Hrun as [(w' & E & Hm & _)|H].
    + rewrite E, scale_setting_faults; try done; [by left|apply parse_value_range|].
      rewrite <- Hs. revert Hm. apply (meanwhile_keeps (fun w => length (scalefactors (glob w)))); [exact Hy|].
      intros w1 w2 [F _]. unfold keeps, state_of in F. by injection F as -> _ _ _.
    + destruct (receive_console_cmd yield w); [done|by right|done].
  - intros r Hr. destruct Hrun as [(w' & E & Hm & _)|H]; [left|by right].
    exists w'. split; [exact Hm|]. rewrite E. apply direct_setting_writes; [exact Hr|apply parse_value_range].
  - intros len msg w1 w2. unfold client_msg.
    rewrite !run_out32, (axi_addr IOC_ACCESS_REG) by (unfold IOC_ACCESS_REG; lia). fold w2.
    destruct (Z.eqb_spec chan 0); [by rewrite decide_True|rewrite decide_False by done].
    destruct ((1 <=? chan) && (chan <=? 4)) eqn:G; [zbool; lia|].
    destruct (Z.eqb_spec chan 101); [by rewrite decide_True|by rewrite decide_False].
Qed.

(** ** Witnesses *)

(** "2  100 37" and "7 300 1.5", with an end of line. *)
Definition line_two : list Z := [50; 32; 32; 49; 48; 48; 32; 51; 55].
Definition line_seven : list Z := [55; 32; 51; 48; 48; 32; 49; 46; 53].
Definition line_env (l : list Z) : Env := with_console sim [] (l ++ [13]) (fun _ => None).

Lemma console_network_agree_witness :
  exists w', receive_console_cmd (env := line_env line_two) (ret tt) sim_world =
    chan_settings (env := line_env line_two) 2 (settings_msg 100 37 []) 8 w' /\ state_of w' = state_of sim_world.
Proof.
  destruct (console_network_agree (env := line_env line_two) (line_two ++ [13])
    (Keyboard0 := with_console_keyboard sim [] (line_two ++ [13]) _ ltac:(by_compute)) (Served0 := with_console_served _ _ _ _)
    (ret tt) line_two [50] [49; 48; 48] [51; 55] 13 [] sim_world) as [[(w' & E & F & _)|H] _].
  - apply respects_ret. exact _.
  - exists [], [32; 32], [32], []. split_and!; try done; try by_compute. by left.
  - by_compute.
  - cbn. lia.
  - reflexivity.
  - reflexivity.
  - reflexivity.
  - reflexivity.
  - exists w'. split; [exact E|]. by apply alone_state.
  - exfalso. destruct (receive_console_cmd _ _); [exact H|by apply alone_stopped in H..].
Defined.

(** "7 300 1.5" is undefined behaviour, and "0 268 1", ON1 of channel 0,
    writes a word among the global registers. *)
Definition line_zero : list Z := [48; 32; 50; 54; 56; 32; 49].

Lemma console_channel_unchecked_witness :
  (exists w', receive_console_cmd (env := line_env line_seven) (ret tt) sim_world = Fault OutOfBounds w') /\
  (exists w', receive_console_cmd (env := line_env line_zero) (ret tt) sim_world =
     Done tt (push (EOut32 (sim_base + DIGOUT_ON1_REG) 1) w')).
Proof.
  split.
  - destruct (console_channel_unchecked (env := line_env line_seven) (line_seven ++ [13])
      (Keyboard0 := with_console_keyboard sim [] (line_seven ++ [13]) _ ltac:(by_compute)) (Served0 := with_console_served _ _ _ _)
      (ret tt) line_seven [55] [51; 48; 48] [49; 46; 53] 13 [] sim_world) as [H _].
    + apply respects_ret. exact _.
    + apply respects_ret. exact _.
    + exists [], [32], [32], []. split_and!; try done; try by_compute. by left.
    + by_compute.
    + cbn. lia.
    + reflexivity.
    + reflexivity.
    + reflexivity.
    + vm_compute. intros [_ H]. by apply H.
    + reflexivity.
    + reflexivity.
    + specialize (H ltac:(apply list_elem_of_here)).
      destruct (receive_console_cmd _ _) as [|f w'|]; [done| |by apply alone_stopped in H].
      destruct H as [[-> _]|H]; [by exists w'|by apply alone_stopped in H].
  - destruct (console_channel_unchecked (env := line_env line_zero) (line_zero ++ [13])
      (Keyboard0 := with_console_keyboard sim [] (line_zero ++ [13]) _ ltac:(by_compute)) (Served0 := with_console_served _ _ _ _)
      (ret tt) line_zero [48] [50; 54; 56] [49] 13 [] sim_world) as (_ & H & _).
    + apply respects_ret. exact _.
    + apply respects_ret. exact _.
    + exists [], [32], [32], []. split_and!; try done; try by_compute. by left.
    + by_compute.
    + cbn. lia.
    + reflexivity.
    + reflexivity.
    + reflexivity.
    + vm_compute. intros [H _]. by apply H.
    + reflexivity.
    + reflexivity.
    + destruct (H DIGOUT_ON1_REG ltac:(by_compute)) as [(w' & _ & E)|H']; [by exists w'|].
      exfalso. destruct (receive_console_cmd _ _); [exact H'|by apply alone_stopped in H'..].
Defined.
