(* ===== verification/Together.v ===== *)
(** * The console beside the server

    The console's task and the network thread share the globals and the
    registers without a lock.  Here the turns of the server run in the
    console's waits: the server leaves the settings alone, so that a session
    still refines the abstract settings, and the console leaves the sockets
    alone, so that the server's descriptors stay safe. *)

From Stdlib Require Import ZArith Lia Bool String.
From stdpp Require Import base list numbers gmultiset.
From S2P Require Import Typed Prelude CFloat Registers World Logic Sim PscMsg Scaling QspiFlash I2c Control Listener Snapshot SaData Periodic Polling Console Operator Eeprom Main Session.

#[local] Open Scope Z_scope.

(** ** The server spares the settings *)

Abbreviation spare m := (respects spares m).

Section Spares.
Context {env : Env} `{!AxiWindow env}.

Lemma flavour_low r : r ∈ flavour_regs -> 0 <= r < CHBASEADDR.
Proof.
  assert (Forall (fun r => 0 <= r < CHBASEADDR) flavour_regs) as H by by_compute.
  rewrite list.Forall_forall in H. apply H.
Qed.

Lemma spares_push e w : spares_settings e -> spares w (push e w).
Proof. intros H. split; [done|by apply emits_push]. Qed.

(** A register above the global block, or a global one that is not the
    flavour's. *)
Lemma spares_out r v w : 0 <= r < 0x1000 -> r ∉ flavour_regs -> spares w (push (EOut32 (u32 (AXI + r)) v) w).
Proof.
  intros Hr Hn. apply spares_push. unfold spares_settings. rewrite axi_addr by done.
  intros (r' & E & Hin)%list_elem_of_fmap. assert (r = r') as -> by lia. done.
Qed.

Lemma spares_out_chan r c v w : 1 <= c <= 4 -> 0 <= r < CHBASEADDR ->
  spares w (push (EOut32 (u32 (AXI + r + c * CHBASEADDR)) v) w).
Proof.
  intros Hc Hr. rewrite <- Z.add_assoc. unfold CHBASEADDR in *. apply spares_out; [lia|].
  intros H%flavour_low. unfold CHBASEADDR in H. lia.
Qed.

(** A bus without the EEPROM, or no more than its address. *)
Lemma spares_i2c bus dev bs w : bus <> 1 \/ (length bs <= 1)%nat -> spares w (push (EI2cSend bus dev bs) w).
Proof. exact (spares_push (EI2cSend bus dev bs) w). Qed.
End Spares.

Ltac spares_side :=
  first [ by split; [reflexivity|exists []]
        | apply spares_out; [by_compute|by_compute]
        | rewrite <- Z.add_assoc; apply spares_out; [by_compute|by_compute]
        | apply spares_out_chan; [lia|by_compute]
        | apply spares_i2c; first [by left|right; cbn; lia]
        | by apply spares_push ].
Ltac spare_tac := respects_tac spares_side.

Section Server.
Context {env : Env} `{!AxiWindow env}.

Lemma transfer_spare {A} (m : M A) s : respects (both (keeps state_of) (emits (io_on s))) m -> spare m.
Proof.
  intros H w. destruct (H w) as [Hk He]. split.
  - unfold keeps, state_of, flavour_globals in *. by injection Hk as -> _ _ _.
  - eapply emits_mono; [|exact He]. by intros [].
Qed.

Lemma spare_disconnect : spare (disconnect_client main_conf).
Proof. unfold disconnect_client. cbn [conn main_conf client_event client_event_with]. spare_tac. Qed.
#[local] Hint Resolve spare_disconnect : respects.

Lemma spare_send i l b : spare (psc_send main_conf i l b).
Proof.
  unfold psc_send. apply respects_bind; [exact _|spare_tac|intros s]. destruct (s <? 0); [spare_tac|].
  apply respects_bind; [exact _|exact (transfer_spare _ _ (psc_sendmsg_quiet s i b l))|intros r]. spare_tac.
Qed.
#[local] Hint Resolve spare_send : respects.

Lemma spare_main_send i l b : spare (main_send i l b).
Proof. rewrite main_send_eq. apply spare_send. Qed.
#[local] Hint Resolve spare_main_send : respects.

(** *** The handlers of messages *)

Lemma spare_msg_word msg i : spare (msg_word msg i).
Proof. unfold msg_word. spare_tac. Qed.
#[local] Hint Resolve spare_msg_word : respects.

Lemma chan_frame_spares {A} chan (m : M A) : 1 <= chan <= 4 -> respects (chan_frame chan) m -> spare m.
Proof.
  intros Hc H w. destruct (H w) as [He Ho]. split.
  - unfold keeps, others, flavour_globals in *. injection Ho as _ _ E1 E2 E3 E4 _ _ _ _. by rewrite E1, E2, E3, E4.
  - eapply emits_mono; [|exact He]. intros [] Ha; try exact I; try done. cbn in Ha. unfold spares_settings. intros (r & -> & Hin)%list_elem_of_fmap. apply flavour_low in Hin as Hr. unfold CHBASEADDR in *.
    destruct Ha as [Ha|Ha]; [lia|]. assert (r = SOFTTRIG) as -> by lia. revert Hin. by_compute.
Qed.

Lemma spare_chan_settings chan msg len : 1 <= chan <= 4 -> spare (chan_settings chan msg len).
Proof.
  intros Hc. unfold chan_settings. do 2 (apply respects_bind; [exact _|apply spare_msg_word|intros ?]).
  apply (switch_Forall (fun m => spare m)); [apply respects_ret; exact _|].
  eapply list.Forall_impl; [exact (frame_cases chan Hc (htonl a0))|]. intros c [-> | H].
  - cbn [snd]. unfold fault_clear. spare_tac.
  - by eapply chan_frame_spares.
Qed.

Lemma spare_glob_settings msg : spare (glob_settings msg).
Proof.
  unfold glob_settings. do 2 (apply respects_bind; [exact _|apply spare_msg_word|intros ?]).
  apply (switch_Forall (fun m => spare m)); [apply respects_ret; exact _|].
  unfold glob_cases. repeat (apply list.Forall_cons; split); try solve [constructor];
    cbn [snd]; unfold soft_trig, set_fpleds, glob_word; spare_tac.
Qed.

Lemma spare_write_ramptable msg len : spare (write_ramptable 1 msg len).
Proof. unfold write_ramptable, ramp_point, ramp_clamp, volts_to_dacbits, cast_s32. spare_tac. Qed.

Lemma spare_client_msg i l b : spare (client_msg i l b).
Proof.
  unfold client_msg. do 2 (apply respects_bind; [exact _|spare_tac|intros _]).
  destruct (i =? 0); [apply spare_glob_settings|].
  destruct (_ && _) eqn:E; [apply spare_chan_settings; zbool; lia|].
  destruct (i =? 101); [apply spare_write_ramptable|apply respects_ret; exact _].
Qed.
#[local] Hint Resolve spare_client_msg : respects.
(** *** The loop *)

Lemma spare_pscdata_poll : spare (pscdata_poll main_send).
Proof.
  apply respects_pscdata_poll; [exact _|exact spare_main_send| | |].
  - intros [] w He; try (by apply spares_push). destruct He as [-> | ->]; unfold BPC;
      [rewrite <- Z.add_assoc|]; apply spares_out; by_compute.
  - intros p w. by split; [|exists []].
  - intros p w. by split; [|exists []].
Qed.

Lemma spare_client_event e : spare (client_event e).
Proof.
  unfold client_event, client_event_with, greeting. fold main_send.
  pose proof spare_main_send as H. unfold main_send in H. spare_tac; apply H.
Qed.

Lemma spare_psc_turn : spare (psc_turn main_conf).
Proof.
  pose proof spare_pscdata_poll. pose proof spare_client_event.
  assert (forall s, spare (psc_recvmsg s PSC_MAX_RX_MSG_LEN)) by (intros s; exact (transfer_spare _ s (psc_recvmsg_quiet s _))).
  unfold psc_turn, accept_client, serve_client, check_heartbeat, configure_client_socket.
  cbn [conn recv poll main_conf]. spare_tac; auto.
Qed.

Lemma spare_psc_loop n : spare (psc_loop main_conf n).
Proof. pose proof spare_psc_turn. induction n; cbn [psc_loop]; spare_tac; auto. Qed.
End Server.

(** ** The composition *)

Section Together.
Context {env : Env} `{!AxiWindow env}.

(** While the console waits, the server takes as many turns as there is work
    for it: a number that depends on all that happened. *)
Definition server_turns (turns : list event -> nat) : M unit :=
  let! n := gets (fun w => turns (trace w)) in psc_loop main_conf n.

(** The server stopped in one of its turns, its descriptors still safe. *)
Definition server_stopped (w' : world) : Prop :=
  safe w' /\ exists n w1, server_inv w1 /\
    match psc_loop main_conf n w1 with Done _ _ => False | Fault _ w2 | NoFuel w2 => w2 = w' end.

#[export] Instance beside_server turns : Beside (server_turns turns) server_inv server_stopped.
Proof.
  split.
  - intros w w' [Hf He] H. unfold server_inv. unfold keeps, frame in Hf. injection Hf as _ _ _ _ ->.
    by eapply owns_quiet.
  - intros w H. unfold server_turns. rewrite run_gets. generalize (turns (trace w)). intros n.
    pose proof (psc_loop_safe main_conf n w H) as Hs. unfold server_stopped.
    destruct (psc_loop main_conf n w) as [[] w'| |] eqn:E; [exact Hs|..];
      (split; [exact Hs|]; exists n, w; by rewrite E).
  - apply respects_bind; [exact _|apply respects_gets; exact _|intros n; apply spare_psc_loop].
Qed.
End Together.

(** ** Any input

    What every command of the console keeps, whatever is typed. *)

Section AnyInput.
Context {env : Env} (yield : M unit) (J E : world -> Prop).
Abbreviation kept m := (triple J m (fun _ => J) E).
Context (J_yield : kept yield) (J_stop : forall w, J w -> E w).

(** The console's interactions but for those of the settings' operations. *)
Definition menu_event (e : event) : Prop :=
  is_console e \/ match e with EIn32 _ _ | EI2cBusy _ _ | EI2cSend _ _ _ | EI2cRecv _ _ _ => True | _ => False end.

Context (J_event : forall e w, menu_event e -> J w -> J (push e w)).
Context (J_flavor : kept ReadHardwareFlavor) (J_settings : forall chan msg len, kept (chan_settings chan msg len)).

Lemma kept_bind {A B} (m : M A) (k : A -> M B) : kept m -> (forall a, kept (k a)) -> kept (bind m k).
Proof. intros Hm Hk. eapply triple_bind; [exact Hm|exact Hk]. Qed.

Lemma kept_respects {A} (m : M A) : respects (emits menu_event) m -> respects (keeps state_of) m -> kept m.
Proof.
  intros He Hk w Hw.
  assert (J (final (m w))) as H; [|destruct (m w); cbn in H; auto].
  destruct (He w) as (es & Ht & Hes). specialize (Hk w). unfold keeps, state_of in Hk.
  destruct (final (m w)) as [g p s k t], w as [g0 p0 s0 k0 t0]. cbn in *. injection Hk as -> -> -> ->. subst t.
  induction Hes as [|e es He' _ IH]; [exact Hw|]. exact (J_event e _ He' IH).
Qed.

Ltac event_side := first [apply emits_push; first [by left|by right] | by exists [] | reflexivity].

Lemma kept_wait_bus n bus : kept (wait_bus n bus).
Proof. apply kept_respects; induction n as [|n IH]; cbn [wait_bus]; respects_tac event_side. Qed.

Ltac kept_step :=
  lazymatch goal with
  | |- kept (bind _ _) => apply kept_bind; [|intros ?]
  | |- kept (ret _) => by intros ? ?
  | |- kept (gets _) => by intros ? ?
  | |- kept stuck => intros ? ?; by apply J_stop
  | |- kept (fail _) => intros ? ?; by apply J_stop
  | |- kept (int_op _) => unfold int_op
  | |- kept yield => exact J_yield
  | |- kept ReadHardwareFlavor => exact J_flavor
  | |- kept (chan_settings _ _ _) => apply J_settings
  | |- kept (say _ _ _) => unfold say
  | |- kept (sleep _ _) => unfold sleep
  | |- kept (getc _) => unfold getc
  | |- kept (wait_bus _ _) => apply kept_wait_bus
  | |- kept (for_up _ _ _) => apply (triple_for_up (fun _ => J)); intros ? _
  | |- kept (seq_all (_ <$> _)) => apply triple_seq_all, Forall_fmap, Forall_true; intros ?; unfold compose
  | |- kept (when ?b _) => destruct b; cbn [when]
  | |- kept (if ?b then _ else _) => destruct b
  | |- kept (match ?x with _ => _ end) => destruct x
  | |- kept (let _ := _ in _) => cbv zeta
  | |- kept _ => first [solve [auto with kept] | apply kept_respects; [respects_tac event_side|respects_tac event_side]]
  end.
Create HintDb kept.
Ltac kept_tac := repeat kept_step.

Lemma kept_write a bs : kept (i2c_eeprom_writeBytes a bs).
Proof. unfold i2c_eeprom_writeBytes, i2c1_write, i2c_write. kept_tac. Qed.

Lemma kept_read a n : kept (i2c_eeprom_readBytes a n).
Proof. unfold i2c_eeprom_readBytes, i2c1_write, i2c1_read, i2c_write, i2c_read. kept_tac. Qed.
#[local] Hint Resolve kept_write kept_read : kept.

Lemma kept_wait_uart n ms : kept (wait_uart yield n ms).
Proof. induction n as [|n IH]; cbn [wait_uart]; kept_tac. Qed.
#[local] Hint Resolve kept_wait_uart : kept.

Lemma kept_binary_input : kept (get_binary_input yield).
Proof. unfold get_binary_input. kept_tac. Qed.

Lemma kept_percent n buf : kept (percent_loop yield n buf).
Proof. revert buf. induction n as [|n IH]; intros buf; cbn [percent_loop]; unfold atoi; kept_tac. Qed.

Lemma kept_read_chars n : kept (read_chars yield n).
Proof. induction n as [|n IH]; cbn [read_chars]; kept_tac. Qed.
#[local] Hint Resolve kept_binary_input kept_percent kept_read_chars : kept.

Lemma kept_polarity n ch p : kept (polarity_loop yield n ch p).
Proof. revert ch p. induction n as [|n IH]; intros ch p; cbn [polarity_loop]; kept_tac. Qed.
#[local] Hint Resolve kept_polarity : kept.

Lemma kept_entries : Forall (fun e => match entryFunc e with Some f => kept f | None => True end) (menu yield).
Proof.
  unfold menu. repeat (apply list.Forall_cons; split); try solve [constructor]; cbn [entryFunc];
    unfold display_settings, show_binary, show_polarity, print_snapshot_stats, printTaskStats, dump_eeprom, eeprom_dump,
      set_numchans, set_resolution, set_bandwidth, set_dualmode, set_maindipole, set_binary,
      set_polarity, set_smoothramptype, set_percent, get_percent_input, clear_eeprom, test_eeprom, scanf_9s,
      receive_console_cmd, uart_read_line, scan_command, scan_uint, write_setting; kept_tac.
Qed.

Lemma kept_run_entry c : kept (run_entry (menu yield) c).
Proof.
  induction kept_entries as [|e m He _ IH]; cbn [run_entry]; [by intros w H|].
  destruct (entryCh e =? c); [|exact IH]. destruct (entryFunc e); [exact He|by intros w H].
Qed.
#[local] Hint Resolve kept_run_entry : kept.

Lemma kept_exec_menu fuel head : kept (exec_menu yield fuel head (menu yield)).
Proof. induction fuel as [|fuel IH]; cbn [exec_menu]; kept_tac. Qed.
#[local] Hint Resolve kept_exec_menu : kept.

Lemma kept_console_menu rounds fuel : kept (console_menu yield rounds fuel).
Proof. unfold console_menu. kept_tac. Qed.
End AnyInput.

Section TwoTasks.
Context {env : Env} `{!AxiWindow env}.

Lemma flavor_bystander : bystander ReadHardwareFlavor.
Proof.
  pose proof wait_bus_bystander as W. unfold bystander in *.
  unfold ReadHardwareFlavor, i2c_eeprom_readBytes, i2c1_write, i2c1_read, i2c_write, i2c_read, flavor_numchans,
    flavor_resolution, flavor_bandwidth, flavor_polarity, flavor_dualmode, flavor_dipole, flavor_smooth, modify_glob.
  respects_tac ltac:(split; [reflexivity|first [by apply emits_push|by exists []]]); auto.
Qed.

(** The console keeps the server's invariant and the types of the state, when
    the other tasks do. *)
Lemma console_inv yield rounds fuel :
  triple server_inv yield (fun _ => server_inv) safe ->
  triple server_inv (console_menu yield rounds fuel) (fun _ => server_inv) safe.
Proof.
  intros Hy. apply kept_console_menu; [exact Hy| | | |].
  - by intros w [Hs _].
  - intros e w He Hs. eapply owns_quiet; [exact Hs|]. apply emits_push. by destruct He as [He|He], e.
  - apply bystander_inv, flavor_bystander.
  - intros chan msg len. apply bystander_inv, chan_settings_bystander.
Qed.

Lemma types_triple {A} (m : M A) :
  respects keeps_typed m <-> triple Typed.typed m (fun _ => Typed.typed) Typed.typed.
Proof.
  split; intros H w; [intros Hw; specialize (H w Hw)|intros Hw; specialize (H w Hw)]; by destruct (m w).
Qed.

Lemma types_console yield rounds fuel :
  respects keeps_typed yield -> respects keeps_typed (console_menu yield rounds fuel).
Proof.
  intros Hy. apply types_triple, kept_console_menu; [by apply types_triple|done|by intros e w _ H| |].
  - apply types_triple, types_ReadHardwareFlavor.
  - intros chan msg len. apply types_triple, types_chan_settings.
Qed.

Lemma server_turns_inv turns : triple server_inv (server_turns turns) (fun _ => server_inv) safe.
Proof. eapply triple_gets. intros n. eapply triple_pre; [apply (psc_loop_safe main_conf)|by intros w []]. Qed.

Lemma types_server_turns turns : respects keeps_typed (server_turns turns).
Proof. apply respects_bind; [exact _|apply respects_gets; exact _|intros n; apply types_psc_loop]. Qed.
End TwoTasks.

(** C4. The console beside the server.  An operator's session, with any number
    of turns of the server in each of the console's waits (whatever clients
    connect, whatever they send, whatever the hardware answers), still
    refines the abstract settings: the menu ends having read exactly the
    session's keys, EEPROM, flavour registers and globals are what the
    commands say, as no message a client may send changes them; and the
    server's invariant holds at the end, the only open descriptor being
    [client_sock].  The only other outcome is a stop inside a turn of the
    server (undefined behaviour that a message can provoke), its descriptors
    used safely up to there. *)
Theorem console_beside_server {env : Env} `{!AxiWindow env} ee0 S `{!EepromOk env ee0} `{!Keyboard env S} `{!Served env}
    turns head cmds q inp s w fuel :
  Forall (wf_command env_patience) cmds -> upcase q = 81 -> (length cmds < fuel)%nat ->
  holds ee0 S (concat (keys <$> cmds) ++ q :: inp) s w -> server_inv w ->
  let yield := server_turns turns in
  match exec_menu yield fuel head (menu yield) w with
  | Done _ w' => holds ee0 S inp (fold_left (fun s c => effect c s) cmds s) w' /\ server_inv w'
  | Fault _ w' | NoFuel w' => server_stopped w'
  end.
Proof.
  intros Hc Hq Hf H Hi yield.
  pose proof (at_session ee0 S yield server_inv server_stopped head q inp cmds Hq Hc s fuel Hf w) as T.
  specialize (T (proj2 (at_holds ee0 S server_inv _ s w) (conj H Hi))).
  destruct (exec_menu yield fuel head (menu yield) w); [by apply at_holds|exact T..].
Qed.

(** The session of [Session.v] with a silent network, and a turn of the server
    in each of the console's waits: it ends. *)
Definition both_env : Env := with_console silent_env demo_ee demo_keys (fun _ => None).
Definition both_start : world := final (ReadHardwareFlavor (env := both_env) sim_world).
Definition one_turn : M unit := server_turns (env := both_env) (fun _ => 1%nat).

#[export] Instance both_axi : AxiWindow both_env.
Proof. exact (sim_axi). Qed.

Lemma console_beside_server_witness :
  exists w', exec_menu (env := both_env) one_turn 10 None (menu (env := both_env) one_turn) both_start = Done tt w' /\
    take 8 (drop 16 (cells (eeprom_state demo_ee (trace w')))) = [0; 1; 0; 5; 1; 1; 0; 5] /\ server_inv w'.
Proof.
  assert (holds (env := both_env) demo_ee demo_keys demo_keys demo_settings both_start) as H.
  { split; [vm_compute; reflexivity|]. split; [by_compute|]. split; [vm_compute; reflexivity|].
    split; [|split_and!; vm_compute; reflexivity]. cbn zeta. split_and!; vm_compute; reflexivity. }
  assert (server_inv both_start) as Hi by (split; [vm_compute; repeat split; discriminate|vm_compute; reflexivity]).
  assert (Forall (wf_command (@env_patience both_env)) demo_session) as Hc by exact demo_session_wf.
  pose proof (console_beside_server (env := both_env) (EepromOk0 := with_console_eeprom silent_env demo_ee demo_keys _ eq_refl ltac:(by_compute))
    (Keyboard0 := with_console_keyboard silent_env demo_ee demo_keys _ ltac:(by_compute)) (Served0 := with_console_served _ _ _ _)
    demo_ee demo_keys (fun _ => 1%nat) None demo_session 113 [] demo_settings both_start 10 Hc eq_refl ltac:(cbn; lia) H Hi) as T.
  cbv beta zeta in T. fold one_turn in T.
  assert (exists w', exec_menu (env := both_env) one_turn 10 None (menu (env := both_env) one_turn) both_start = Done tt w')
    as [w' E] by (eexists; vm_compute; reflexivity).
  rewrite E in T. destruct T as [(Hcell & _) Hs]. exists w'. split; [exact E|]. split; [|exact Hs].
  rewrite Hcell. vm_compute. reflexivity.
Defined.
