(* ===== verification/System.v ===== *)
(** * The whole system

    The program from reset: start-up, and the two tasks it starts, the server
    with its periodic data and the console's menu.  [on_startup] creates the
    console's task, which runs from then on: at each of its waits the server
    takes turns, as many as the schedule says. *)

From Stdlib Require Import ZArith Lia Bool.
From stdpp Require Import base list numbers gmultiset.
From S2P Require Import Prelude CFloat Registers World Logic Sim PscMsg Typed.
From S2P Require Import Scaling QspiFlash I2c Control Listener Snapshot SaData Periodic Eeprom NetConf SdCard NetSetup Console Operator Main Session Together.

#[local] Open Scope Z_scope.

Section System.
Context {env : Env}.

(** The configuration of [main_conf], where the task that [console_setup]
    creates runs. *)
Definition system_conf (console : M unit) : psc_config :=
  Config 3000 (on_startup ;; console) client_event client_msg (pscdata_poll main_send).

(** [main], [realmain] and [psc_run], up to the server's endless loop; its
    turns are those the console's waits give it. *)
Definition system (inet_aton : list Z -> option Z) (console : M unit) : M unit :=
  boot inet_aton ;; psc_run (system_conf console) false 0.
End System.

(** ** The invariants of the two tasks, from reset *)

Section Invariants.
Context {env : Env} `{!AxiWindow env}.

(** A console that keeps the server's invariant may run from the start
    callback: the configuration keeps the listener's promise. *)
Lemma system_conf_ok console :
  triple server_inv console (fun _ => server_inv) safe -> ConfigOk (system_conf console).
Proof.
  intros Hc. destruct main_conf_ok as [H1 H2 H3 H4 H5].
  split; [exact H1| |exact H3|exact H4|exact H5].
  cbn [start system_conf]. eapply triple_bind; [exact H2|]. by intros [].
Qed.

Lemma system_sockets inet_aton console :
  triple server_inv console (fun _ => server_inv) safe ->
  triple (no_client ∅) (system inet_aton console) (fun _ => server_inv) safe.
Proof.
  intros Hc. pose proof (system_conf_ok console Hc). unfold system, boot.
  eapply triple_bind with (R := fun _ => no_client ∅); [|intros []; apply psc_run_safe, _].
  eapply triple_bind with (R := fun _ => no_client ∅); [apply bystander_no_client, main_init_bystander|intros []].
  apply bystander_no_client, startup_bystander.
Qed.

Lemma system_types inet_aton console :
  respects keeps_typed console -> respects keeps_typed (system inet_aton console).
Proof.
  intros Hc. unfold system, boot, psc_run. cbn [start system_conf port]. unfold on_startup, console_setup.
  pose proof types_main_init. pose proof types_startup. pose proof types_pscdata_init.
  respects_tac ltac:(intros H'; exact H'); auto. apply respects_ret, _.
Qed.
End Invariants.

(** C8. The whole system, any input.  From reset, through start-up and then
    with both tasks running, whatever the card, the flash, the EEPROM and the
    registers hold, with any characters on the serial line and any console
    commands (the command line with any channel included), any clients and
    messages, and any number of the server's turns in each of the console's
    waits: the types of the state are kept, and data is sent and received and
    descriptors closed only on connections that [accept] returned and that
    were still open, wherever the run stops; when the console's session ends,
    [client_sock] is the only open one. *)
Theorem system_safe {env : Env} `{!AxiWindow env} inet_aton turns rounds fuel w :
  Typed.typed w -> fd_safe (trace w) -> open_fds (trace w) = ∅ -> client_sock (key w) < 0 ->
  let r := system inet_aton (console_menu (server_turns turns) rounds fuel) w in
  Typed.typed (final r) /\ fd_safe (trace (final r)) /\
  match r with
  | Done _ w' => open_fds (trace w') = client_fds (client_sock (key w'))
  | Fault _ _ | NoFuel _ => True
  end.
Proof.
  intros Ht Hs Ho Hc r. split.
  - by apply (system_types inet_aton), Ht; apply types_console, types_server_turns.
  - pose proof (system_sockets inet_aton _ (console_inv _ rounds fuel (server_turns_inv turns)) w) as T.
    specialize (T (conj Hc (conj Hs Ho))). fold r in T. by destruct r as [[] w'|f w'|w']; cbn [final]; [destruct T|..].
Qed.

Lemma system_safe_witness :
  let r := system (env := both_env) known_addrs (console_menu (env := both_env) one_turn 1 3) Typed.reset_world in
  Typed.typed (final r) /\ fd_safe (trace (final r)).
Proof.
  destruct (system_safe (env := both_env) known_addrs (fun _ => 1%nat) 1 3 Typed.reset_world) as (H1 & H2 & _).
  - exact Typed.reset_typed.
  - exact I.
  - reflexivity.
  - reflexivity.
  - split; [exact H1|exact H2].
Defined.

(** ** Power-up

    Start-up takes the settings from the EEPROM and then leaves them alone. *)

(** What start-up does outside [ReadHardwareFlavor]: it spares the settings
    and touches no socket. *)
Definition boots {env : Env} : world -> world -> Prop := both spares (both (keeps key) (emits no_socket)).

#[export] Instance boots_order {env : Env} : WorldOrder boots.
Proof. apply both_order; [exact _|apply both_order; exact _]. Qed.

Ltac boots_side := split; [spares_side|split; [reflexivity|first [by apply emits_push|by exists []]]].
Ltac boots_tac := respects_tac boots_side.

Section Boot.
Context {env : Env} `{!AxiWindow env}.
Abbreviation boot_ok m := (respects boots m).

Lemma boots_both {A} (m : M A) : spare m -> bystander m -> boot_ok m.
Proof. intros Hs Hb w. split; [apply Hs|apply Hb]. Qed.

Lemma boots_wait n bus : boot_ok (wait_bus n bus).
Proof. induction n as [|n IH]; cbn [wait_bus]; boots_tac. Qed.
#[local] Hint Resolve boots_wait : respects.

(** The clock chip is on the other bus. *)
Lemma boots_si570 : boot_ok prog_si570.
Proof.
  assert (boot_ok read_si570) as H by (unfold read_si570, i2c0_write, i2c0_read, i2c_write, i2c_read; boots_tac).
  unfold prog_si570. apply respects_bind; [exact _|exact H|intros _].
  apply respects_bind; [exact _| |intros _; exact H].
  apply respects_seq_all; [exact _|]. apply list.Forall_fmap, list.Forall_true. intros rv.
  unfold compose, i2c0_write, i2c_write. boots_tac.
Qed.

Lemma spare_startup inet_aton : spare (startup inet_aton).
Proof.
  unfold startup. apply respects_bind; [exact _| |intros conf; apply respects_bind; [exact _| |intros _]].
  - intros w. destruct (card_handle inet_aton net_config_zero w) as [[K E] _]. split.
    + unfold keeps, state_of, flavour_globals in *. by injection K as -> _ _ _.
    + eapply emits_mono; [|exact E]. by intros [] []; try right.
  - unfold InitSettingsfromQspi. do 2 (apply respects_bind; [exact _|spare_tac|intros _]).
    assert (forall c, 1 <= c <= 4 -> spare (qspi_load c)) as H
      by (intros c Hc; apply (chan_frame_spares c); [exact Hc|by apply frame_load]).
    cbn [for_up]. repeat (apply respects_bind; [exact _|apply H; lia|intros _]). apply respects_ret, _.
  - unfold net_setup, show_ip_info, netif, discover_setup, tftp_setup. spare_tac.
Qed.

Lemma boots_start : boot_ok on_startup /\ returns on_startup.
Proof.
  unfold on_startup, console_setup, pscdata_init, lstats_init, snapshot_init, on_pdata, bpc_init, bpc_reset, BPC. split.
  - boots_tac.
  - returns_tac; intros w; exact I.
Qed.
End Boot.

Section PowerUp.
Context {env : Env} `{!AxiWindow env} (ee0 S : list Z) `{!EepromOk env ee0}.

(** The settings in force after start-up from [w]: those of the EEPROM. *)
Definition power_up_settings (w : world) : settings :=
  reload (Settings ee0 (Flavour 0 0 0 0 0 0 0 0 (CONVVOLTSTODACBITS (glob w)) (CONVDACBITSTOVOLTS (glob w)))).

(** Before the settings are loaded: nothing was typed or written. *)
Definition fresh (g : Z * Z) (w : world) : Prop :=
  cells (eeprom_state ee0 (trace w)) = ee0 /\ rest_typed S w = S /\
  (CONVVOLTSTODACBITS (glob w), CONVDACBITSTOVOLTS (glob w)) = g.

Lemma fresh_spares g w w' : spares w w' -> fresh g w -> fresh g w'.
Proof.
  intros H (H1 & H2 & H3). destruct (spares_cells ee0 S w w' H) as [Ec Er].
  destruct H as [Hk _]. unfold keeps, flavour_globals in Hk. injection Hk as E1 E2 _ _.
  split; [by rewrite Ec|]. split; [by rewrite Er|]. by rewrite E1, E2.
Qed.

(** Without a client, what [boots] keeps stays. *)
Definition offline (P : world -> Prop) (w : world) : Prop := P w /\ no_client ∅ w.

Lemma offline_boots (P : world -> Prop) w w' :
  (spares w w' -> P w -> P w') -> boots w w' -> offline P w -> offline P w'.
Proof.
  intros HP [Hs [Hk He]] [H [Hc Ho]]. split; [by apply HP|]. split; [by rewrite Hk|by eapply owns_quiet].
Qed.

Lemma boots_keep {A} (P : world -> Prop) (m : M A) : respects boots m ->
  (forall w w', spares w w' -> P w -> P w') -> triple (offline P) m (fun _ => offline P) (fun _ => True).
Proof.
  intros Hm HP. eapply triple_respects; [exact Hm| |done]. intros w w' Hw H. eapply offline_boots; [apply HP|exact H|exact Hw].
Qed.

Lemma flavor_loads f : bytes_ok ee0 ->
  triple (offline (fresh (v2d f, d2v f))) ReadHardwareFlavor
    (fun _ => offline (holds ee0 S S (reload (Settings ee0 f)))) (fun _ => True).
Proof.
  intros Hb. apply triple_wp. intros w [(Hc & Hi & [= Ev Ed]) [Hn Ho]].
  eapply wp_mono; [exact (wp_flavor_from ee0 S S (Settings ee0 f) w Hc Hb Hi Ev Ed)|].
  intros [] w' [Hh [Hf He]]. split; [exact Hh|]. unfold keeps, frame in Hf. injection Hf as _ _ _ _ Ek.
  split; [by rewrite Ek|by eapply owns_quiet].
Qed.

Lemma boot_loads inet_aton f : bytes_ok ee0 ->
  triple (offline (fresh (v2d f, d2v f))) (boot inet_aton)
    (fun _ => offline (holds ee0 S S (reload (Settings ee0 f)))) (fun _ => True).
Proof.
  intros Hb. set (s := reload (Settings ee0 f)). set (P := fresh (v2d f, d2v f)).
  pose proof boots_wait as W. pose proof boots_si570 as Hc.
  assert (forall m : M unit, respects boots m -> triple (offline P) m (fun _ => offline P) (fun _ => True)) as HP
    by (intros m Hm; apply boots_keep; [exact Hm|intros w w'; apply fresh_spares]).
  assert (forall m : M unit, respects boots m ->
    triple (offline (holds ee0 S S s)) m (fun _ => offline (holds ee0 S S s)) (fun _ => True)) as HQ
    by (intros m Hm; apply boots_keep; [exact Hm|intros w w'; by apply holds_spares]).
  unfold boot. apply triple_bind with (R := fun _ => offline (holds ee0 S S s));
    [|intros []; apply HQ, boots_both; [apply spare_startup|apply startup_bystander]].
  unfold main_init.
  apply triple_bind with (R := fun _ => offline P); [apply HP; unfold print_firmware_version; boots_tac|intros []].
  apply triple_bind with (R := fun _ => offline P); [apply HP; boots_tac|intros []].
  apply triple_bind with (R := fun _ => offline P); [apply HP; unfold init_i2c, init_bus; boots_tac|intros []].
  apply triple_bind with (R := fun _ => offline P); [apply HP, Hc|intros []].
  apply triple_bind with (R := fun _ => offline P);
    [apply boots_keep; [unfold QspiFlashInit; boots_tac|intros w w'; apply fresh_spares]|intros _].
  apply triple_bind with (R := fun _ => offline P); [apply HP; boots_tac|intros []].
  eapply triple_bind; [by apply flavor_loads|intros []]. apply HQ. unfold park. boots_tac.
Qed.

(** The start callback, then the console: the rules of [Session.v] apply. *)
Context `{!Keyboard env S} `{!Served env}.

Lemma console_starts turns q inp cmds s fuel : upcase q = 81 -> Forall (wf_command env_patience) cmds ->
  (length cmds < fuel)%nat ->
  triple (at_ ee0 S server_inv (concat (keys <$> cmds) ++ q :: inp) s)
    (on_startup ;; console_menu (server_turns turns) 1 fuel)
    (fun _ => at_ ee0 S server_inv inp (fold_left (fun s c => effect c s) cmds s)) server_stopped.
Proof.
  intros Hq Hc Hf. set (full := concat (keys <$> cmds) ++ q :: inp). set (yield := server_turns turns).
  apply triple_bind with (R := fun _ => at_ ee0 S server_inv full s).
  { destruct boots_start as [Hb Hr]. apply triple_wp. intros w [Hh Hi]%at_holds.
    eapply wp_mono; [exact (wp_and_respects _ _ _ _ Hb (Hr w))|]. cbn. intros _ w' [_ (Hs & Hk & He)].
    apply at_holds. split; [by eapply holds_spares|]. unfold server_inv. rewrite Hk. by eapply owns_quiet. }
  intros []. unfold console_menu. cbn [for_up].
  apply triple_bind with (R := fun _ => at_ ee0 S server_inv inp (fold_left (fun s c => effect c s) cmds s));
    [|intros ?; apply (triple_ret tt (fun _ => _))].
  eapply triple_bind; [apply (typing_sleep S yield (settled ee0 server_inv s) server_stopped)|intros []].
  eapply triple_bind; [apply (at_say ee0 S yield server_inv server_stopped)|intros []].
  by apply (at_session ee0 S yield server_inv server_stopped).
Qed.
End PowerUp.

(** The outcome of the start-up before the server: it stopped. *)
Definition boot_stopped {env : Env} (inet_aton : list Z -> option Z) (w w' : world) : Prop :=
  match boot inet_aton w with Done _ _ => False | Fault _ w1 | NoFuel w1 => w1 = w' end.

(** C3. From power-up to the end of a session.  The unit is switched on with
    any EEPROM; an operator types a session of settings commands at the
    console, with any number of turns of the server in each of its waits,
    whatever the clients, the card and the flash do.  Then the settings in
    force, in EEPROM, flavour registers and globals, are first those the
    EEPROM holds, and in the end what the commands make of them, exactly the
    session's keys having been read, and [client_sock] is the only open
    descriptor.  The other outcomes are: the server's socket could not be set
    up, when the console is never started and the settings are the EEPROM's;
    start-up stopped; or a turn of the server did. *)
Theorem power_up_session {env : Env} `{!AxiWindow env} ee0 S `{!EepromOk env ee0} `{!Keyboard env S} `{!Served env}
    inet_aton turns cmds q inp w fuel :
  trace w = [] -> client_sock (key w) < 0 -> bytes_ok ee0 ->
  Forall (wf_command env_patience) cmds -> upcase q = 81 -> (length cmds < fuel)%nat ->
  S = concat (keys <$> cmds) ++ q :: inp ->
  let s := power_up_settings ee0 w in
  match system inet_aton (console_menu (server_turns turns) 1 fuel) w with
  | Done _ w' =>
      server_inv w' /\
      (holds ee0 S inp (fold_left (fun s c => effect c s) cmds s) w' \/
       holds ee0 S S s w' /\ exists w1, boot inet_aton w = Done tt w1 /\ refused w1 w')
  | Fault _ w' | NoFuel w' => boot_stopped inet_aton w w' \/ server_stopped w'
  end.
Proof.
  intros Ht Hk Hb Hc Hq Hf HS s. unfold system, boot_stopped.
  pose proof (boot_loads ee0 S inet_aton (in_force (Settings ee0
    (Flavour 0 0 0 0 0 0 0 0 (CONVVOLTSTODACBITS (glob w)) (CONVDACBITSTOVOLTS (glob w))))) Hb w) as B.
  specialize (B ltac:(split; [|split; [exact Hk|unfold owns; by rewrite Ht]];
    unfold fresh, rest_typed; rewrite Ht; by rewrite drop_0)).
  change (reload (Settings ee0 _)) with s in B. rewrite run_bind_eq.
  destruct (boot inet_aton w) as [[] w1|f w1|w1]; [|by left..]. destruct B as [Hh Hn].
  destruct (psc_run_cases (system_conf (console_menu (server_turns turns) 1 fuel)) 0 w1) as (w2 & Hg & He & Hkey & Hrun).
  pose proof (no_client_set_up w1 w2 He Hkey Hn) as Hi. apply no_client_inv in Hi.
  assert (holds ee0 S S s w2) as Hh2.
  { eapply holds_spares; [|exact Hh]. split; [|eapply emits_mono; [|exact He]; by intros []].
    unfold keeps, flavour_globals in *. by injection Hg as -> _ _. }
  destruct Hrun as [-> | [-> Hr]]; [|split; [exact Hi|right; split; [exact Hh2|by exists w1]]].
  cbn [start system_conf psc_loop].
  pose proof (console_starts ee0 S turns q inp cmds s fuel Hq Hc Hf w2) as T. rewrite <- HS in T.
  specialize (T (proj2 (at_holds ee0 S server_inv S s w2) (conj Hh2 Hi))).
  rewrite run_bind_eq. destruct (bind _ _ w2) as [[] w'|f w'|w']; [|by right..].
  apply at_holds in T as [Hd Hi']. split; [exact Hi'|by left].
Qed.

Lemma power_up_session_witness :
  exists w', system (env := both_env) known_addrs (console_menu (env := both_env) one_turn 1 10) sim_world = Done tt w' /\
    take 8 (drop 16 (cells (eeprom_state demo_ee (trace w')))) = [0; 1; 0; 5; 1; 1; 0; 5] /\ server_inv w'.
Proof.
  pose proof (power_up_session (env := both_env) (EepromOk0 := with_console_eeprom silent_env demo_ee demo_keys _ eq_refl ltac:(by_compute))
    (Keyboard0 := with_console_keyboard silent_env demo_ee demo_keys _ ltac:(by_compute)) (Served0 := with_console_served _ _ _ _)
    demo_ee demo_keys known_addrs (fun _ => 1%nat) demo_session 113 [] sim_world 10
    eq_refl eq_refl ltac:(by_compute) demo_session_wf eq_refl ltac:(cbn; lia) eq_refl) as T.
  cbv beta zeta in T. fold one_turn in T.
  assert (match system (env := both_env) known_addrs (console_menu (env := both_env) one_turn 1 10) sim_world with
    | Done _ w' => bool_decide (rest_typed demo_keys w' = []) | _ => false end = true) as E by (vm_compute; reflexivity).
  destruct (system _ _ sim_world) as [[] w'| |]; [|discriminate E..]. apply bool_decide_eq_true in E.
  destruct T as [Hs [(Hcell & _)|[(_ & _ & Hr & _) _]]]; [|rewrite E in Hr; discriminate Hr].
  exists w'. split; [reflexivity|]. split; [|exact Hs]. rewrite Hcell. vm_compute. reflexivity.
Defined.
